(* ===== verification/_CoqProject ===== *)
-Q . S2P
Prelude.v
PyText.v
PyBytes.v
PyIo.v
PyRegex.v
RegexSpec.v
PyPath.v
PyJson.v
Regression.v
HostSession.v
HostProps.v
CheckQemu.v
Sha256.v
FileTree.v
SharedRepo.v
Fsck.v
FsckLog.v
FsckTotal.v
FsckSpec.v
FsckBlocks.v
FsckDirs.v
FsckWalk.v
FsckClean.v
FsckProps.v
Curriculum.v
CurriculumSource.v
CurriculumGraph.v
CurriculumRun.v
CurriculumProps.v
CurriculumCover.v
Navigation.v
NavigationProps.v
PyDyn.v
PyMarkers.v
DeviceIo.v
FsLab.v
PTrace.v
PScen.v
PCommon.v
PCache.v
PLog.v
PCase.v
PSynth.v
PRound.v
PSelf.v
PLogSpec.v
PCacheSpec.v
PProps.v
POracle.v
Recover.v
RecoverSpec.v
RecoverRun.v
RecoverSelf.v
RecoverDocs.v
RecoverImage.v
RecoverProps.v
SourceCheck.v
PExport.v
PRuns.v
PRunsProps.v
PMain.v
LabRuns.v
LabRunsProps.v
SchedLab.v
SchedProps.v
CowLab.v
CowProps.v
VmLab.v
VmProps.v
SchedSource.v
SchedTree.v
LifeLab.v
LifeProps.v
IoFlow.v
IoProps.v
BootLab.v
BootProps.v
SyscallTrace.v
SyscallProps.v
SysprobeLab.v
