(* ===== verification/Prelude.v ===== *)
(** * Verification of the xv6 tutorial tooling

    The repository is the xv6 teaching kernel with a tutorial.  What is verified
    here is the Python tooling of the tutorial: the offline image checker, the
    oracles that judge what a guest kernel printed or wrote, and the tools that
    check and render the curriculum.  The scripts are under
    [src/docs/xv6-tutorial/]; [resources/] and [tools/] below are relative to it.

    ** The parts and how they interact

    - [resources/recovery/fsck.py] audits a disk image and the image its log
      replays to.
    - [resources/recovery/run-project.py] crashes a guest at chosen points of a
      commit, judges each image with [fsck.py], and lets it recover.
    - [resources/persistence/run-lab.py] runs a guest that prints one marker per
      event of the buffer cache, the log and the disk, replays the events in two
      reducers and judges seven cases.
    - [resources/device-io/run-lab.py] and [resources/filesystem/run-lab.py] do
      the same for device and file-system runs, with one marker per case.
    - The other lab runners of [resources/] first check the text of the kernel
      sources, then judge what a guest printed: scheduling and wakeups
      ([scheduling-and-synchronization]), copy-on-write pages ([copy-on-write]),
      page faults ([virtual-memory]), processes ([process-lifecycle]), pipes and
      descriptors ([communication-and-io]), a timer interrupt
      ([boot-traps-and-interrupts]), the addresses and registers of one system
      call under a debugger ([syscall-roundtrip]) and a new system call
      ([add-system-call]).
    - [resources/user-program-and-abi/check-qemu.py] holds one conversation with
      a guest, and [src/test-xv6.py] drives its user tests and crash tests.
    - [tools/validate.py] checks the manifest, pages and source coverage of the
      curriculum; [tools/generate_navigation.py] renders the index pages, which
      the validator checks for staleness.

    ** The model

    A script is translated function by function.  Code that can raise returns
    [result]; a loop is [foldM], a comprehension [mapR]; an object that is
    mutated is passed along and returned.  A [str] is a list of code points and
    [bytes] a list of byte values; a dictionary is an association list in
    insertion order, or a [gmap] or [gset] where the order is not observed.
    Messages keep their literal text and interpolated values, unformatted;
    [Elided] stands for a value whose text is not kept.

    Of the language and its library: [Prelude] has exceptions and loops,
    [PyText] text, integers and [re.fullmatch] on simple patterns, [PyBytes]
    slices and [struct], [PyRegex] the backtracking matcher, [PyPath] file names
    and links, [PyJson] parsed JSON, [Sha256] the digest, [PyMarkers] the marker
    fields the runners share, [PyDyn] fields that are a number or a text, with
    conditions that evaluate as Python evaluates them.  [RegexSpec] shows that
    the matcher finds a match exactly when there is one.

    Code that acts on its host is a program of [PyIo]: [io W A] takes a bound on
    the turns of its loops and a state [W] of the host, and has an outcome, a
    value or an exception with a state, unless the bound is too small.  [Mono]
    programs have the same outcome under every larger bound, [Total] ones have
    an outcome from every state.  The calls of the operating system, git, make
    and the files are type classes: [Host], [Files] and [Repository], and
    [Machine] for [test-xv6.py].  [HostLaws] and [MachineLaws] say what is known
    of them, such as that the clock does not go back and that waiting takes time.
    Theorems are proved for every lawful host, and have a concrete one as their
    witness.

    ** The files

    - [fsck.py]: [Fsck] is the program.  [FsckSpec] says what a consistent image
      is without mentioning the checker.  [FsckLog], [FsckTotal], [FsckBlocks],
      [FsckDirs], [FsckWalk] and [FsckClean] relate each stage to it, and
      [FsckProps] has the theorems: the checker returns on every byte string and
      says clean exactly when the replayed image is consistent; directories of a
      clean image form a tree; the replay is what the log header says, and
      replaying again changes nothing.
    - [persistence/run-lab.py]: [PTrace] (markers), [PScen] (scenario file),
      [PCommon], [PCache] and [PLog] (shared checks and reducers), [PCase] (the
      seven oracles), [PSynth] and [PSelf] (synthetic traces and self test).
      [PLogSpec] has the log as the tutorial documents it and [PCacheSpec] an
      abstract cache, with which the reducers are compared.  [PProps] and
      [POracle] have the theorems: the runs of the documented log are the traces
      the log reducer accepts that keep a discipline it does not ask for;
      admission stays within the log; locks exclude; no block is cached twice;
      reference counts, requests and pins balance; an accepted transaction wrote
      ahead; the self test passes.  [PRound] shows that
      printing and parsing markers loses nothing.
    - The runs of [persistence/run-lab.py]: [HostSession] (process groups,
      commands and [QemuSource]), [FileTree] (snapshots and the bytes that are
      hashed), [SharedRepo] (the state of the repository, tools, staging),
      [PExport] (patches and [ExportSession]), [PRuns] (the static and the
      dynamic export) and [PMain] ([run]).  [HostProps]: a command of a session
      returns what the guest wrote, running a command leaves no process group,
      waiting ends.  [FileTree] also shows that snapshot and hashed bytes tell
      trees apart.  [PRunsProps]: a static export that returns kept to its
      patches and restored the tree, and each case was judged on what its own
      guest wrote; [PMain]: a run, with the end of the self test that asks git
      for the files of the runner, leaves the shared repository as it was.
      These theorems follow the states of the run, each part starting in the
      state the part before it left.  [PMain] also has a host on which a run
      returns.
    - [recovery/run-project.py]: [Recover] (the image oracle), [RecoverRun]
      (crashes, recoveries and tears), [RecoverSelf] (the self test against
      [fsck.py]), [RecoverDocs] (contract and source checks).  [RecoverSpec],
      [RecoverImage] and [RecoverProps] show that an image accepted at a crash
      point replays to the state the point declares.
    - [tools/validate.py]: [Curriculum] and [CurriculumSource] are the program.
      [CurriculumGraph] shows that the search for cycles returns and is exact.
      [CurriculumRun], [CurriculumProps] and [CurriculumCover] show what exit
      status zero says of manifest, sources and links, a manifest that is null
      included; [CurriculumSource] ends with a release it accepts.
    - [tools/generate_navigation.py]: [Navigation] is the program;
      [NavigationProps] shows that the index of the foundation stage lists its
      units in order with links that lead to their pages, and that generated
      pages pass the check.
    - [device-io/run-lab.py] is [DeviceIo] and [filesystem/run-lab.py] is
      [FsLab]: the oracle, the self test, and what an accepted run shows.
      [LabRuns] has the runs of both, [LabRunsProps] what they show when they
      return, with a host on which one does.
    - [check-qemu.py] is [CheckQemu], with the theorem that a pass means the
      expected bytes in the session it started; [test-xv6.py] is [Regression],
      which also shows when a run of the user tests passes, how it fails, and
      that a silent guest keeps it waiting for ever.
    - [SourceCheck] has the checks of source texts, patches and trees the
      runners repeat: [require_in_order] accepts exactly the texts that hold the
      tokens one after the other, and an accepted patch stays inside its tree.
    - [scheduling-and-synchronization/run-lab.py]: [SchedLab] (the runs) and
      [SchedSource] (the sources).  [SchedProps]: an accepted fixed run loses no
      wakeup, an accepted broken run has lost one, and no output is both.
      [SchedTree]: what the text of an accepted tree says of the switch, of
      sleep and of wakeup.
    - [copy-on-write/run-project.py]: [CowLab]; [CowProps]: no accepted page is
      shared and writable, the leaves of text, guard and lazy pages, the
      exceptions of the oracle, the scope of a patch.
    - [virtual-memory/run-lab.py]: [VmLab]; [VmProps]: the permissions and the
      page ledger of an accepted run, the registers of the trampoline.
    - [process-lifecycle/run-lab.py]: [LifeLab]; [LifeProps]: the ledger of
      processes, pages and files of an accepted run.
    - [communication-and-io/run-lab.py]: [IoFlow]; [IoProps]: sleeping readers
      and writers, distinct children, and the ledger after every phase.
    - [boot-traps-and-interrupts/run-lab.py]: [BootLab]; [BootProps]: an accepted
      transcript is the printed text with numbers that agree, and the saves and
      restores of the kernel vector are inverse.
    - [syscall-roundtrip/run-trace.py]: [SyscallTrace]; [SyscallProps]: markers
      are read back as printed, an accepted trace is a round trip, the addresses
      of a build fit together, and which exceptions leave the oracle.
    - [add-system-call/run-lab.py]: [SysprobeLab]: the program, and that the new
      number is free and next, and the transcript of the run without it.

    ** Bounds

    Recursion that is not structural has fuel.  [walk_fuel] of [Fsck] is one
    step for the root and one for each directory entry, the most that can enter
    the queue; [FsckTotal] shows it is never used up.  [split] and the like are
    bounded by the length of the text.  The search of [Curriculum] is bounded by
    the number of units, and [CurriculumGraph] shows that it returns; the
    interpreter's own limit on nested calls is not modelled.  [int] refuses more
    than 4300 digits, as the interpreter does by default.  The repetitions of
    [PyRegex] are bounded by the length of the text, which [RegexSpec] shows to
    be enough, and [hex_digits] of [SyscallTrace] by the bits of the number.
    The bound of a program of [PyIo] is quantified: a theorem says that some
    bound gives the outcome.  The one loop for which there need be none is the
    reader after a panic, which has no time limit; what is said of a dynamic
    export is said of one that returns.  In [test-xv6.py] commands and reads
    have no time limit: such a call may have no outcome, and that a run has one
    is shown for machines on which they all return.

    ** What is not modelled

    What the host does is an argument or an interface: the bytes of a file, the
    answers of git, the guest's transcript and image.  Runs are modelled for
    [persistence], [device-io] and [filesystem], [check-qemu.py] and
    [test-xv6.py].  The other lab runners repeat that code; of them the source
    checks, parsers and oracles are modelled, and of [run-project.py] what
    happens between the boots.  Reports are not modelled, and neither are the
    digests only they use, the option parsers and progress messages: they are
    prose around values the theorems are about.  Temporary directories are
    created and removed by the host.  JSON decoding is not modelled: documents
    are parsed values.  [Path.resolve] on symbolic links is left to the host.
    [os.fsdecode], and [str.isalnum] outside ASCII, are arguments of what uses
    them.  A lookahead that only ends a block is read as part of the match.
    The kernel, the user programs and [mkfs] are C; they appear only through the
    contracts the oracles check. *)

From stdpp Require Import base tactics list gmap strings numbers list_numbers sorting.

(** * Exceptions

    The scripts signal failure by raising.  A raised exception is a value of
    [exn]; the text of an f-string is kept as the list of its pieces, that is
    the literal text, the interpolated strings ([V], or [R] with the [!r]
    conversion) and the interpolated integers, before formatting.  [Elided]
    stands for an interpolated value whose text is not modelled. *)

Inductive piece : Type :=
| T (lit : string)
| V (v : list Z)
| R (v : list Z)
| D (z : Z)
| L (vs : list (list Z))
| DL (zs : list Z)
| Elided.

Abbreviation msg := (list piece).

Inductive exn : Type :=
| LabError (m : msg)
| RuntimeError (m : msg)
| ImageError (m : msg)
| KeyError
| IndexError
| StructError
| TypeError
| ValueError
| AttributeError
| StopIteration
| UnicodeDecodeError
| OSError
| RecursionError
| NameError
| ProcessLookupError
| PermissionError
| BrokenPipeError
| TimeoutExpired
| CalledProcessError (returncode : Z)
| SystemExit (code : Z).

Inductive result (A : Type) : Type :=
| Ok (a : A)
| Raise (e : exn).
Arguments Ok {A} a.
Arguments Raise {A} e.

#[global] Instance result_ret : MRet result := fun A a => Ok a.
#[global] Instance result_bind : MBind result := fun A B f m =>
  match m with Ok a => f a | Raise e => Raise e end.

#[global] Instance result_fmap : FMap result := fun A B f m =>
  match m with Ok a => Ok (f a) | Raise e => Raise e end.

(** [require(condition, message)]: the guard every runner is written with. *)
Definition require (condition : bool) (m : msg) : result unit :=
  if condition then Ok tt else Raise (LabError m).

Definition of_option {A} (e : exn) (o : option A) : result A :=
  match o with Some a => Ok a | None => Raise e end.

Definition is_ok {A} (r : result A) : bool :=
  match r with Ok _ => true | Raise _ => false end.

(** A [for] loop whose body may raise, threading the loop state. *)
Fixpoint foldM {S A} (f : S -> A -> result S) (s : S) (l : list A) : result S :=
  match l with
  | [] => Ok s
  | a :: l => s' ← f s a; foldM f s' l
  end.

(** A list comprehension whose element expression may raise. *)
Fixpoint mapR {A B} (f : A -> result B) (l : list A) : result (list B) :=
  match l with
  | [] => Ok []
  | a :: l => b ← f a; bs ← mapR f l; Ok (b :: bs)
  end.

Declare Scope py_scope.
Delimit Scope py_scope with py.
Notation "x '=?ᵤ' y" := (bool_decide (x = y)) (at level 70) : py_scope.
Notation "x '∈?' y" := (bool_decide (x ∈ y)) (at level 70) : py_scope.

(** * Tactics *)

(** Inversion of monadic computations that returned a value. *)
Ltac inv_ok :=
  repeat match goal with
  | H : Ok _ = Ok _ |- _ => injection H as H; try subst
  | H : Raise _ = Ok _ |- _ => discriminate H
  | H : Ok _ = Raise _ |- _ => discriminate H
  | H : mbind _ ?m = Ok _ |- _ =>
      let E := fresh "E" in destruct m eqn:E; cbn [mbind result_bind] in H
  | H : require ?c _ = Ok _ |- _ =>
      let E := fresh "C" in destruct c eqn:E; cbn [require] in H
  | H : of_option _ ?o = Ok _ |- _ =>
      let E := fresh "E" in destruct o eqn:E; cbn [of_option] in H
  | H : mret _ = Ok _ |- _ => cbn [mret result_ret] in H
  | u : unit |- _ => destruct u
  end.

(** Boolean guards to propositions. *)
Ltac to_prop :=
  repeat match goal with
  | H : context [ is_true _ ] |- _ => unfold is_true in H
  | H : _ && _ = true |- _ => apply andb_true_iff in H; destruct H
  | H : _ || _ = false |- _ => apply orb_false_iff in H; destruct H
  | H : _ || _ = true |- _ => apply orb_true_iff in H
  | H : _ && _ = false |- _ => apply andb_false_iff in H
  | H : negb _ = true |- _ => apply negb_true_iff in H
  | H : negb _ = false |- _ => apply negb_false_iff in H
  | H : bool_decide _ = true |- _ => apply bool_decide_eq_true in H
  | H : bool_decide _ = false |- _ => apply bool_decide_eq_false in H
  | H : Z.eqb _ _ = true |- _ => apply Z.eqb_eq in H
  | H : Z.eqb _ _ = false |- _ => apply Z.eqb_neq in H
  | H : Z.ltb _ _ = true |- _ => apply Z.ltb_lt in H
  | H : Z.ltb _ _ = false |- _ => apply Z.ltb_ge in H
  | H : Z.leb _ _ = true |- _ => apply Z.leb_le in H
  | H : Z.leb _ _ = false |- _ => apply Z.leb_gt in H
  | H : Nat.eqb _ _ = true |- _ => apply Nat.eqb_eq in H
  | H : Nat.eqb _ _ = false |- _ => apply Nat.eqb_neq in H
  end.

(** * Lemmas on the monad *)

Lemma bind_ok {A B} (m : result A) (f : A -> result B) b :
  (x ← m; f x) = Ok b <-> exists a, m = Ok a /\ f a = Ok b.
Proof.
  destruct m; cbn.
  - split; [eauto|]. intros (? & [= <-] & ?); done.
  - split; [done|]. intros (? & ? & ?); done.
Qed.

Lemma require_ok c m u : require c m = Ok u <-> c = true.
Proof. destruct c, u; cbn; split; congruence. Qed.

Lemma foldM_app {S A} (f : S -> A -> result S) s l1 l2 :
  foldM f s (l1 ++ l2) = (s' ← foldM f s l1; foldM f s' l2).
Proof.
  revert s; induction l1 as [|a l1 IH]; intros s; cbn; [done|].
  destruct (f s a); cbn; auto.
Qed.

(** The loop rule: an invariant indexed by the events already consumed. *)
Lemma foldM_inv {S A} (f : S -> A -> result S) (P : list A -> S -> Prop) l s0 s :
  P [] s0 ->
  (forall done a s s', done ++ [a] `prefix_of` l ->
     P done s -> f s a = Ok s' -> P (done ++ [a]) s') ->
  foldM f s0 l = Ok s -> P l s.
Proof.
  intros H0 Hstep Hf.
  cut (forall done rest s1, done ++ rest = l -> P done s1 ->
         foldM f s1 rest = Ok s -> P l s); [intros X; apply (X [] l s0); auto|].
  intros done rest; revert done; induction rest as [|a rest IH];
    intros done s1 Hl HP Hr; cbn in Hr.
  - inv_ok. by rewrite app_nil_r.
  - destruct (f s1 a) as [s2|] eqn:E; cbn in Hr; [|done].
    apply (IH (done ++ [a]) s2); [by rewrite <-app_assoc| |done].
    apply (Hstep done a s1 s2); [|done|done].
    exists rest. by rewrite <-app_assoc.
Qed.

Lemma foldM_split {S A} (f : S -> A -> result S) s0 s l1 a l2 :
  foldM f s0 (l1 ++ a :: l2) = Ok s ->
  exists s1 s2, foldM f s0 l1 = Ok s1 /\ f s1 a = Ok s2 /\ foldM f s2 l2 = Ok s.
Proof.
  rewrite foldM_app. intros (s1 & H1 & H2)%bind_ok. cbn in H2.
  apply bind_ok in H2 as (s2 & ? & ?). eauto.
Qed.

Lemma foldM_total {S A} (f : S -> A -> result S) (P : S -> Prop) s l :
  P s -> (forall s a, a ∈ l -> P s -> exists s', f s a = Ok s' /\ P s') ->
  exists s', foldM f s l = Ok s' /\ P s'.
Proof.
  revert s; induction l as [|a l IH]; intros s Hs Hf; cbn; [eauto|].
  destruct (Hf s a) as (s1 & -> & H1); [set_solver|done|]. cbn.
  apply IH; [done|]. intros s2 b Hb. apply Hf. set_solver.
Qed.

Lemma mapR_ok {A B} (f : A -> result B) l l' :
  mapR f l = Ok l' <-> Forall2 (fun a b => f a = Ok b) l l'.
Proof.
  revert l'; induction l as [|a l IH]; intros l'; cbn; split.
  - intros [= <-]. constructor.
  - inversion 1; done.
  - intros (b & ? & (bs & Hb & [= <-])%bind_ok)%bind_ok.
    constructor; [done|]. by apply IH.
  - inversion 1 as [|? b ? bs Hb Hbs]; subst. rewrite Hb. cbn.
    apply IH in Hbs as ->. done.
Qed.

(** * Lemmas on lists *)

Lemma filter_all {A} (P : A -> Prop) `{!forall x, Decision (P x)} (l : list A) :
  (forall x, x ∈ l -> P x) -> filter P l = l.
Proof.
  induction l as [|a l IH]; intros Hl; [done|].
  rewrite filter_cons_True by (apply Hl; left). f_equal. apply IH. intros x Hx. apply Hl. by right.
Qed.

Lemma elem_of_concat_fmap {A B} (f : A -> list B) (l : list A) x :
  x ∈ concat (f <$> l) <-> exists a, a ∈ l /\ x ∈ f a.
Proof.
  induction l as [|a l IH]; cbn.
  - rewrite elem_of_nil. split; [done|]. intros (a & Ha & _). by apply not_elem_of_nil in Ha.
  - rewrite elem_of_app, IH. setoid_rewrite elem_of_cons. naive_solver.
Qed.

Create HintDb py discriminated.
#[export] Hint Resolve app_nil_r : py.
