(* ===== verification/PyText.v ===== *)
(** Text as the scripts use it.

    A Python [str] is a list of code points and [bytes] a list of byte values,
    both lists of integers, so that the methods the two types share ([find],
    [count], [replace], [split], [startswith], ...) are one definition each.
    Literals of the source are written [u "..."], which decodes the UTF-8 of
    the literal.  The file also has decimal printing and parsing of integers
    and the small regular expression matcher behind [re.fullmatch]. *)

From Stdlib Require Import Ascii Decimal DecimalFacts DecimalZ DecimalPos Hexadecimal.
From stdpp Require Import base tactics list gmap strings numbers list_numbers sorting.
From S2P Require Import Prelude.
Open Scope Z_scope.

Abbreviation pystr := (list Z).

(** * Literals *)

Fixpoint bytes_of_string (s : string) : list Z :=
  match s with
  | EmptyString => []
  | String c s => Z.of_N (N_of_ascii c) :: bytes_of_string s
  end.

Fixpoint utf8_decode (bs : list Z) : pystr :=
  match bs with
  | a :: t1 =>
      if a <? 128 then a :: utf8_decode t1 else
      match t1 with
      | b :: t2 =>
          if a <? 224 then ((a - 192) * 64 + (b - 128)) :: utf8_decode t2 else
          match t2 with
          | c :: t3 =>
              if a <? 240 then
                ((a - 224) * 4096 + (b - 128) * 64 + (c - 128)) :: utf8_decode t3
              else match t3 with
              | d :: t4 =>
                  ((a - 240) * 262144 + (b - 128) * 4096 + (c - 128) * 64
                   + (d - 128)) :: utf8_decode t4
              | [] => []
              end
          | [] => []
          end
      | [] => []
      end
  | [] => []
  end.

Definition u (s : string) : pystr := utf8_decode (bytes_of_string s).

Definition newline : Z := 10.
Definition cr : Z := 13.
Definition space : Z := 32.

(** * Sequence methods shared by [str] and [bytes] *)

Section Seq.
Implicit Types (s sub sep : list Z).

(** [s.startswith(p)] *)
Fixpoint startswith s (p : list Z) : bool :=
  match p, s with
  | [], _ => true
  | c :: p, d :: s => (c =? d) && startswith s p
  | _ :: _, [] => false
  end.

(** The text after the prefix, when it is one. *)
Fixpoint strip_prefix (p : list Z) s : option (list Z) :=
  match p, s with
  | [], _ => Some s
  | c :: p, d :: s => if c =? d then strip_prefix p s else None
  | _ :: _, [] => None
  end.

(** [s.split(sep, 1)] at the first occurrence: the text before and after. *)
Fixpoint cut sep s : option (list Z * list Z) :=
  match strip_prefix sep s with
  | Some rest => Some ([], rest)
  | None => match s with
            | [] => None
            | c :: s => match cut sep s with
                        | Some (b, a) => Some (c :: b, a)
                        | None => None
                        end
            end
  end.

(** [sub in s] *)
Definition contains sub s : bool :=
  match cut sub s with Some _ => true | None => false end.

(** [s.find(sub)], [None] standing for [-1]. *)
Definition find sub s : option nat := length ∘ fst <$> cut sub s.

(** All non-overlapping occurrences from the left; [fuel] bounds their
    number by the length of the text. *)
Fixpoint pieces_fuel (fuel : nat) sep s : list (list Z) :=
  match fuel with
  | O => [s]
  | S fuel => match cut sep s with
              | Some (b, a) => b :: pieces_fuel fuel sep a
              | None => [s]
              end
  end.

(** [s.split(sep)] *)
Definition split sep s : list (list Z) := pieces_fuel (length s) sep s.
(** [s.split(sep, n)] *)
Definition splitn (n : nat) sep s : list (list Z) := pieces_fuel n sep s.
(** [s.count(sub)], for a non-empty [sub] *)
Definition count sub s : Z := Z.of_nat (length (split sub s)) - 1.

(** [sep.join(parts)] *)
Fixpoint join sep (parts : list (list Z)) : list Z :=
  match parts with
  | [] => []
  | [p] => p
  | p :: ps => p ++ sep ++ join sep ps
  end.

(** [s.replace(a, b)] and [s.replace(a, b, n)] *)
Definition replace (a b : list Z) s : list Z := join b (split a s).
Definition replacen (n : nat) (a b : list Z) s : list Z := join b (splitn n a s).

(** [s.replace(c, "")] for a single character [c] *)
Definition remove_char (c : Z) s : list Z := base.filter (fun d => d <> c) s.
End Seq.

(** * Lines and words *)

(** The characters [str.splitlines] breaks at. *)
Definition is_linebreak (c : Z) : bool :=
  ((10 <=? c) && (c <=? 13)) || ((28 <=? c) && (c <=? 30)) ||
  (c =? 133) || (c =? 8232) || (c =? 8233).

(** [str.isspace] on one character. *)
Definition isspace (c : Z) : bool :=
  ((9 <=? c) && (c <=? 13)) || ((28 <=? c) && (c <=? 32)) || (c =? 133) ||
  (c =? 160) || (c =? 5760) || ((8192 <=? c) && (c <=? 8202)) ||
  (c =? 8232) || (c =? 8233) || (c =? 8239) || (c =? 8287) || (c =? 12288).

(** [s.splitlines()]: [acc] is the current line, reversed; a [\r\n] pair is
    one break and a trailing break makes no empty last line. *)
Fixpoint splitlines_aux (acc : list Z) (s : pystr) : list pystr :=
  match s with
  | [] => match acc with [] => [] | _ => [rev acc] end
  | c :: s' =>
      if is_linebreak c then
        rev acc ::
        match s' with
        | d :: s'' => if (c =? cr) && (d =? newline) then splitlines_aux [] s''
                      else splitlines_aux [] s'
        | [] => splitlines_aux [] s'
        end
      else splitlines_aux (c :: acc) s'
  end.
Definition splitlines (s : pystr) : list pystr := splitlines_aux [] s.

(** [s.split()]: maximal runs of non-space characters. *)
Fixpoint words_aux (acc : list Z) (s : pystr) : list pystr :=
  match s with
  | [] => match acc with [] => [] | _ => [rev acc] end
  | c :: s' =>
      if isspace c then
        match acc with
        | [] => words_aux [] s'
        | _ => rev acc :: words_aux [] s'
        end
      else words_aux (c :: acc) s'
  end.
Definition words (s : pystr) : list pystr := words_aux [] s.

Fixpoint lstrip (s : pystr) : pystr :=
  match s with
  | c :: s' => if isspace c then lstrip s' else s
  | [] => []
  end.
Definition rstrip (s : pystr) : pystr := rev (lstrip (rev s)).
Definition strip (s : pystr) : pystr := rstrip (lstrip s).

(** Lexicographic order by code point, the order of [sorted] on strings. *)
Fixpoint str_le (a b : pystr) : bool :=
  match a, b with
  | [], _ => true
  | _ :: _, [] => false
  | c :: a, d :: b => if c =? d then str_le a b else c <? d
  end.
Fixpoint insert_sorted (x : pystr) (l : list pystr) : list pystr :=
  match l with
  | [] => [x]
  | y :: l' => if str_le x y then x :: l else y :: insert_sorted x l'
  end.
Definition sorted_strs (l : list pystr) : list pystr := foldr insert_sorted [] l.

(** * Decimal integers *)

Fixpoint codes_of_uint (d : Decimal.uint) : pystr :=
  match d with
  | Decimal.Nil => []
  | Decimal.D0 d => 48 :: codes_of_uint d
  | Decimal.D1 d => 49 :: codes_of_uint d
  | Decimal.D2 d => 50 :: codes_of_uint d
  | Decimal.D3 d => 51 :: codes_of_uint d
  | Decimal.D4 d => 52 :: codes_of_uint d
  | Decimal.D5 d => 53 :: codes_of_uint d
  | Decimal.D6 d => 54 :: codes_of_uint d
  | Decimal.D7 d => 55 :: codes_of_uint d
  | Decimal.D8 d => 56 :: codes_of_uint d
  | Decimal.D9 d => 57 :: codes_of_uint d
  end.

Definition digit_cons (c : Z) (d : Decimal.uint) : option Decimal.uint :=
  match c with
  | 48 => Some (Decimal.D0 d) | 49 => Some (Decimal.D1 d)
  | 50 => Some (Decimal.D2 d) | 51 => Some (Decimal.D3 d)
  | 52 => Some (Decimal.D4 d) | 53 => Some (Decimal.D5 d)
  | 54 => Some (Decimal.D6 d) | 55 => Some (Decimal.D7 d)
  | 56 => Some (Decimal.D8 d) | 57 => Some (Decimal.D9 d)
  | _ => None
  end.

Fixpoint uint_of_codes (s : pystr) : option Decimal.uint :=
  match s with
  | [] => Some Decimal.Nil
  | c :: s => d ← uint_of_codes s; digit_cons c d
  end.

(** [str(z)] *)
Definition str_of_int (z : Z) : pystr :=
  match Z.to_int z with
  | Decimal.Pos d => codes_of_uint d
  | Decimal.Neg d => 45 :: codes_of_uint d
  end.

(** [int(s)] for a text of the form [-?[0-9]+]. *)
Definition int_of_str (s : pystr) : option Z :=
  match s with
  | [] => None
  | 45 :: t =>
      match t with
      | [] => None
      | _ => (fun d => Z.of_int (Decimal.Neg d)) <$> uint_of_codes t
      end
  | _ => (fun d => Z.of_int (Decimal.Pos d)) <$> uint_of_codes s
  end.

(** [int(s)], which refuses more than [sys.get_int_max_str_digits()] digits. *)
Definition MAX_STR_DIGITS : nat := Z.to_nat 4300.
Definition int_digits (s : pystr) : nat :=
  length (filter (fun c => (48 <=? c) && (c <=? 57) = true) s).
Definition py_int (s : pystr) : result Z :=
  if (MAX_STR_DIGITS <? int_digits s)%nat then Raise ValueError
  else of_option ValueError (int_of_str s).

(** The decimal digits of Unicode, ten in a row from each of these: what [\d]
    matches in a pattern over [str] and what [int] reads. *)
Definition digit_zeros : list Z :=
  [48; 1632; 1776; 1984; 2406; 2534; 2662; 2790; 2918; 3046; 3174; 3302; 3430; 3558; 3664; 3792;
   3872; 4160; 4240; 6112; 6160; 6470; 6608; 6784; 6800; 6992; 7088; 7232; 7248; 42528; 43216;
   43264; 43472; 43504; 43600; 44016; 65296; 66720; 68912; 69734; 69872; 69942; 70096; 70384;
   70736; 70864; 71248; 71360; 71472; 71904; 72016; 72784; 73040; 73120; 92768; 92864; 93008;
   120782; 120792; 120802; 120812; 120822; 123200; 123632; 125264; 130032].
Definition decimal (c : Z) : option Z :=
  (fun '(_, z) => c - z) <$> list_find (fun z => z <= c <= z + 9) digit_zeros.
Definition is_decimal (c : Z) : bool := match decimal c with Some _ => true | None => false end.

(** [int(s)] for a text of the form [\d+] *)
Definition int_decimals (s : pystr) : result Z :=
  if (MAX_STR_DIGITS <? length s)%nat then Raise ValueError
  else Ok (foldl (fun acc c => 10 * acc + default 0 (decimal c)) 0 s).

(** A line pattern: literals, [\d+] and [[A-Z_]+] groups.  Every group is
    followed by a literal that starts outside its class, or by the end of the
    line, so taking the longest run is the only match. *)
Inductive line_part : Type := Lit (s : string) | Num | Upper.

Fixpoint span_while (ok : Z -> bool) (s : pystr) : pystr * pystr :=
  match s with
  | c :: s' => if ok c then let '(a, b) := span_while ok s' in (c :: a, b) else ([], s)
  | [] => ([], [])
  end.

Definition upper_or_underscore (c : Z) : bool := ((65 <=? c) && (c <=? 90)) || (c =? 95).

Fixpoint match_line (parts : list line_part) (s : pystr) : option (list pystr) :=
  match parts with
  | [] => match s with [] => Some [] | _ => None end
  | Lit l :: parts => match strip_prefix (u l) s with Some s' => match_line parts s' | None => None end
  | Num :: parts => match span_while is_decimal s with
                    | ([], _) => None
                    | (a, s') => cons a <$> match_line parts s'
                    end
  | Upper :: parts => match span_while upper_or_underscore s with
                      | ([], _) => None
                      | (a, s') => cons a <$> match_line parts s'
                      end
  end.

(** [re.compile(r"^...$", re.MULTILINE).findall(text)]: the groups of the
    lines that match, and [search(text).group(0)], the first such line. *)
Definition text_lines (s : pystr) : list pystr := split [newline] s.
Definition find_lines (parts : list line_part) (s : pystr) : list (list pystr) :=
  omap (match_line parts) (text_lines s).
Definition first_line (parts : list line_part) (s : pystr) : option pystr :=
  snd <$> list_find (fun l => is_Some (match_line parts l)) (text_lines s).

Definition hex_digit (z : Z) : Z := if z <? 10 then 48 + z else 87 + z.

Fixpoint hex_fuel (fuel : nat) (z : Z) (acc : pystr) : pystr :=
  match fuel with
  | O => acc
  | S fuel => let acc := hex_digit (z mod 16) :: acc in
              if z / 16 =? 0 then acc else hex_fuel fuel (z / 16) acc
  end.
(** [hex(z)] for a non-negative [z] below [2^64]. *)
Definition hex (z : Z) : pystr := u "0x" ++ hex_fuel 16 z [].

(** * Regular expressions

    Character classes, concatenation, alternation and repetition, matched by
    derivatives; [re_fullmatch] is [re.fullmatch(...) is not None]. *)

Inductive regex : Type :=
| REmpty
| REps
| RChar (ok : Z -> bool)
| RSeq (r1 r2 : regex)
| RAlt (r1 r2 : regex)
| RStar (r : regex).

Fixpoint nullable (r : regex) : bool :=
  match r with
  | REmpty => false
  | REps => true
  | RChar _ => false
  | RSeq r1 r2 => nullable r1 && nullable r2
  | RAlt r1 r2 => nullable r1 || nullable r2
  | RStar _ => true
  end.

Fixpoint deriv (c : Z) (r : regex) : regex :=
  match r with
  | REmpty | REps => REmpty
  | RChar ok => if ok c then REps else REmpty
  | RSeq r1 r2 =>
      if nullable r1 then RAlt (RSeq (deriv c r1) r2) (deriv c r2)
      else RSeq (deriv c r1) r2
  | RAlt r1 r2 => RAlt (deriv c r1) (deriv c r2)
  | RStar r1 => RSeq (deriv c r1) (RStar r1)
  end.

Fixpoint re_fullmatch (r : regex) (s : pystr) : bool :=
  match s with
  | [] => nullable r
  | c :: s => re_fullmatch (deriv c r) s
  end.

Definition RPlus (r : regex) : regex := RSeq r (RStar r).
Definition ROpt (r : regex) : regex := RAlt REps r.
Definition in_range (a b : string) (c : Z) : bool :=
  (hd 0 (u a) <=? c) && (c <=? hd 0 (u b)).
Definition is_char (a : string) (c : Z) : bool := c =? hd 0 (u a).
Definition lower (c : Z) : bool := in_range "a" "z" c.
Definition digit (c : Z) : bool := in_range "0" "9" c.
Fixpoint RRepeat (n : nat) (r : regex) : regex :=
  match n with O => REps | S n => RSeq r (RRepeat n r) end.

(** [re.fullmatch([0-9a-f]{40}, s)]: a full commit identifier *)
Definition is_commit (s : pystr) : bool :=
  re_fullmatch (RRepeat 40 (RChar (fun c => digit c || in_range "a" "f" c))) s.

(** * Facts *)

Lemma uint_of_codes_of_uint d : uint_of_codes (codes_of_uint d) = Some d.
Proof. induction d; cbn; rewrite ?IHd; done. Qed.

Lemma codes_of_uint_digits d : Forall (fun c => digit c = true) (codes_of_uint d).
Proof. induction d; cbn; constructor; done. Qed.

Lemma to_int_nonnil z :
  match Z.to_int z with Decimal.Pos d | Decimal.Neg d => d <> Decimal.Nil end.
Proof.
  destruct z; cbn; [done| |]; intros H; apply (DecimalPos.Unsigned.to_uint_nonnil _ H).
Qed.

Lemma codes_of_uint_nonnil d : d <> Decimal.Nil ->
  exists c t, codes_of_uint d = c :: t /\ c <> 45.
Proof. destruct d; intros; try congruence; cbn; eauto. Qed.

(** Printing an integer in decimal and reading it back gives the integer. *)
Lemma int_of_str_of_int z : int_of_str (str_of_int z) = Some z.
Proof.
  pose proof (to_int_nonnil z) as Hn. unfold str_of_int.
  pose proof (DecimalZ.of_to z) as Hz.
  destruct (Z.to_int z) as [d|d] eqn:E;
    destruct (codes_of_uint_nonnil d Hn) as (c & t & Hc & Hne);
    pose proof (uint_of_codes_of_uint d) as Hd; rewrite Hc in *.
  - unfold int_of_str. destruct (decide (c = 45)); [done|].
    transitivity ((fun d => Z.of_int (Decimal.Pos d)) <$> uint_of_codes (c :: t)).
    + destruct c as [|p|p]; try done. repeat (destruct p as [p|p|]; try done).
    + rewrite Hd. cbn [fmap option_fmap option_map]. by rewrite Hz.
  - unfold int_of_str. rewrite Hd. cbn [fmap option_fmap option_map]. by rewrite Hz.
Qed.

Lemma str_of_int_nonempty z : str_of_int z <> [].
Proof.
  pose proof (to_int_nonnil z) as Hn. unfold str_of_int.
  destruct (Z.to_int z) as [d|d]; [|done].
  destruct (codes_of_uint_nonnil d Hn) as (c & t & -> & _). done.
Qed.

Lemma str_of_int_chars z : Forall (fun c => c = 45 \/ digit c = true) (str_of_int z).
Proof.
  unfold str_of_int. destruct (Z.to_int z) as [d|d].
  - eapply Forall_impl; [apply codes_of_uint_digits|]. cbn. auto.
  - constructor; [auto|]. eapply Forall_impl; [apply codes_of_uint_digits|]. cbn. auto.
Qed.

(** ** The language of a regular expression, and that the matcher decides it *)

Inductive lang : regex -> pystr -> Prop :=
| lang_eps : lang REps []
| lang_char ok c : ok c = true -> lang (RChar ok) [c]
| lang_seq r1 r2 s1 s2 : lang r1 s1 -> lang r2 s2 -> lang (RSeq r1 r2) (s1 ++ s2)
| lang_alt_l r1 r2 s : lang r1 s -> lang (RAlt r1 r2) s
| lang_alt_r r1 r2 s : lang r2 s -> lang (RAlt r1 r2) s
| lang_star_nil r : lang (RStar r) []
| lang_star_app r s1 s2 : lang r s1 -> lang (RStar r) s2 -> lang (RStar r) (s1 ++ s2).
#[export] Hint Constructors lang : py.

Lemma nullable_spec r : nullable r = true <-> lang r [].
Proof.
  split.
  - induction r; cbn; intros; to_prop; try done; auto with py.
    + apply (lang_seq r1 r2 [] []); auto.
    + destruct H; auto with py.
  - intros H. remember [] as s eqn:Es. induction H; cbn; try done.
    + apply app_eq_nil in Es as [-> ->]. rewrite IHlang1, IHlang2; done.
    + rewrite IHlang; done.
    + rewrite IHlang by done. by rewrite orb_true_r.
Qed.

Lemma star_cons_inv r c s :
  lang (RStar r) (c :: s) ->
  exists s1 s2, s = s1 ++ s2 /\ lang r (c :: s1) /\ lang (RStar r) s2.
Proof.
  intros H. remember (RStar r) as q eqn:Eq. remember (c :: s) as t eqn:Et.
  revert c s Et. induction H; intros c' s' Et; try done; injection Eq as ->.
  destruct s1 as [|d s1]; cbn in Et; [by apply IHlang2|].
  injection Et as -> <-. eauto.
Qed.

Lemma deriv_spec c r s : lang (deriv c r) s <-> lang r (c :: s).
Proof.
  revert s; induction r; intros s; cbn [deriv].
  - split; inversion 1.
  - split; inversion 1.
  - destruct (ok c) eqn:E; split; intros H; inversion H; subst;
      [by constructor|constructor|congruence].
  - assert (Hseq : lang (RSeq (deriv c r1) r2) s ->
                   lang (RSeq r1 r2) (c :: s)).
    { inversion 1; subst. rewrite app_comm_cons. constructor; [by apply IHr1|done]. }
    destruct (nullable r1) eqn:E; split; intros H.
    + inversion H; subst; [auto|]. apply (lang_seq _ _ [] (c :: s)).
      * by apply nullable_spec. * by apply IHr2.
    + inversion H as [| |? ? s1 s2 H1 H2 Hs Hr| | | |]; subst.
      destruct s1 as [|d s1]; cbn in *; [subst; apply lang_alt_r, IHr2; done|].
      injection Hr as -> <-. apply lang_alt_l. constructor; [by apply IHr1|done].
    + auto.
    + inversion H as [| |? ? s1 s2 H1 H2 Hs Hr| | | |]; subst.
      destruct s1 as [|d s1]; cbn in *.
      * apply nullable_spec in H1. congruence.
      * injection Hr as -> <-. constructor; [by apply IHr1|done].
  - split; intros H; inversion H; subst.
    + apply lang_alt_l, IHr1; done. + apply lang_alt_r, IHr2; done.
    + apply lang_alt_l, IHr1; done. + apply lang_alt_r, IHr2; done.
  - split; intros H.
    + inversion H; subst. rewrite app_comm_cons. constructor; [by apply IHr|done].
    + apply star_cons_inv in H as (s1 & s2 & -> & ? & ?).
      constructor; [by apply IHr|done].
Qed.

Lemma re_fullmatch_spec r s : re_fullmatch r s = true <-> lang r s.
Proof.
  revert r; induction s as [|c s IH]; intros r; cbn; [apply nullable_spec|].
  by rewrite IH, deriv_spec.
Qed.

Lemma lang_star_class ok s : Forall (fun c => ok c = true) s -> lang (RStar (RChar ok)) s.
Proof.
  induction 1 as [|c s ? ? IH]; [constructor|].
  apply (lang_star_app _ [c] s); [by constructor|done].
Qed.

Lemma star_class_inv ok s : lang (RStar (RChar ok)) s -> Forall (fun c => ok c = true) s.
Proof.
  intros H. remember (RStar (RChar ok)) as r eqn:Er.
  induction H; try done; injection Er as ->.
  inversion H; subst. constructor; auto.
Qed.

(** * The first occurrence *)

Lemma strip_prefix_Some p s r : strip_prefix p s = Some r <-> s = p ++ r.
Proof.
  revert s; induction p as [|c p IH]; intros s; cbn; [naive_solver|].
  destruct s as [|d s]; [naive_solver|]. destruct (Z.eqb_spec c d) as [->|]; [|naive_solver].
  rewrite IH. naive_solver.
Qed.

Lemma cut_Some sep s b a : cut sep s = Some (b, a) -> s = b ++ sep ++ a.
Proof.
  revert b; induction s as [|c s IH]; intros b; cbn [cut].
  - destruct (strip_prefix sep []) eqn:E; [|done]. intros [= <- <-]. by apply strip_prefix_Some in E.
  - destruct (strip_prefix sep (c :: s)) eqn:E.
    { intros [= <- <-]. by apply strip_prefix_Some in E. }
    destruct (cut sep s) as [[b' a']|]; [|done]. intros [= <- <-]. cbn. by rewrite (IH b').
Qed.

Lemma cut_first sep s b a : cut sep s = Some (b, a) ->
  forall b' a', s = b' ++ sep ++ a' -> (length b <= length b')%nat.
Proof.
  revert b; induction s as [|c s IH]; intros b; cbn [cut].
  - destruct (strip_prefix sep []); [|done]. intros [= <- <-]. cbn. lia.
  - destruct (strip_prefix sep (c :: s)) eqn:E; [intros [= <- <-]; cbn; lia|].
    destruct (cut sep s) as [[b1 a1]|]; [|done]. intros [= <- <-] [|d b'] a' H.
    + cbn in H. apply strip_prefix_Some in H. by rewrite H in E.
    + injection H as <- H. specialize (IH b1 eq_refl b' a' H). cbn. lia.
Qed.

Lemma cut_None sep s : cut sep s = None -> forall b a, s <> b ++ sep ++ a.
Proof.
  induction s as [|c s IH]; cbn [cut]; destruct (strip_prefix _ _) eqn:E; try done; intros H b a Hs.
  - destruct b; [|done]. apply (strip_prefix_Some sep [] a) in Hs. by rewrite Hs in E.
  - destruct b as [|d b].
    + apply (strip_prefix_Some sep (c :: s) a) in Hs. by rewrite Hs in E.
    + injection Hs as <- Hs. destruct (cut sep s) as [[? ?]|]; [done|]. by destruct (IH eq_refl b a).
Qed.

Lemma cut_char c a b : c ∉ a -> cut [c] (a ++ c :: b) = Some (a, b).
Proof.
  induction a as [|d a IH]; intros H; cbn [app cut strip_prefix]; [by rewrite Z.eqb_refl|].
  apply not_elem_of_cons in H as [H1 H2]. destruct (Z.eqb_spec c d); [done|]. by rewrite IH.
Qed.

Lemma cut_char_None c a : c ∉ a -> cut [c] a = None.
Proof.
  induction a as [|d a IH]; intros H; cbn [cut strip_prefix]; [done|].
  apply not_elem_of_cons in H as [H1 H2]. destruct (Z.eqb_spec c d); [done|]. by rewrite IH.
Qed.
