(* ===== verification/PyBytes.v ===== *)
(** Byte strings and [struct]: slices, slice assignment, little-endian fields.

    [bytes] and [bytearray] values are lists of integers, each in [0, 256) for
    a real byte string ([is_bytes]).  Offsets are integers, as in the source;
    the positions are walked on the list itself so that a large offset costs
    no more than the length of the data. *)

From stdpp Require Import base tactics list gmap strings numbers list_numbers.
From S2P Require Import Prelude PyText.
Open Scope Z_scope.

Abbreviation pybytes := (list Z).

Definition is_bytes (l : pybytes) : Prop := Forall (fun b => 0 <= b < 256) l.

(** * Slices *)

Fixpoint len_acc (acc : Z) {A} (l : list A) : Z :=
  match l with [] => acc | _ :: l => len_acc (acc + 1) l end.
(** [len(l)] *)
Definition len {A} (l : list A) : Z := len_acc 0 l.

Fixpoint zdrop {A} (n : Z) (l : list A) : list A :=
  if n <=? 0 then l else match l with [] => [] | _ :: l => zdrop (n - 1) l end.
Fixpoint ztake {A} (n : Z) (l : list A) : list A :=
  if n <=? 0 then [] else match l with [] => [] | a :: l => a :: ztake (n - 1) l end.

(** [l[a:b]] for [0 <= a] *)
Definition slice {A} (a b : Z) (l : list A) : list A := ztake (b - a) (zdrop a l).

(** [l[a:b] = new] for [0 <= a]: the slice is replaced, whatever its length. *)
Definition splice {A} (a b : Z) (new l : list A) : list A :=
  ztake a l ++ new ++ zdrop (Z.max a b) l.

(** [l[i]] for [0 <= i], with [IndexError] past the end. *)
Definition index {A} (l : list A) (i : Z) : result A :=
  match zdrop i l with a :: _ => Ok a | [] => Raise IndexError end.

(** [l[i] = v] for [0 <= i]. *)
Definition set_index {A} (l : list A) (i : Z) (v : A) : result (list A) :=
  if i <? len l then Ok (splice i (i + 1) [v] l) else Raise IndexError.

(** [bytes(n)]: [n] zero bytes. *)
Definition zeros (n : Z) : pybytes := repeat 0 (Z.to_nat n).

(** [enumerate(l)] *)
Fixpoint enumerate_from {A} (i : Z) (l : list A) : list (Z * A) :=
  match l with [] => [] | a :: l => (i, a) :: enumerate_from (i + 1) l end.
Definition enumerate {A} (l : list A) : list (Z * A) := enumerate_from 0 l.

(** [range(a, b)] and [range(a, b, step)] *)
Definition range (a b : Z) : list Z := seqZ a (b - a).
Definition range_step (a b step : Z) : list Z :=
  (fun i => a + i * step) <$> seqZ 0 ((b - a + step - 1) / step).

(** * Little-endian integers *)

Fixpoint le_combine (l : pybytes) : Z :=
  match l with [] => 0 | b :: l => b + 256 * le_combine l end.

Fixpoint le_split (n : nat) (z : Z) : pybytes :=
  match n with O => [] | S n => z mod 256 :: le_split n (z / 256) end.

(** The struct codes the sources use: [h], [H], [i], [I]. *)
Inductive fmt : Type := Fh | FH | Fi | FI.

Definition fmt_bytes (f : fmt) : nat := match f with Fh | FH => 2 | Fi | FI => 4 end.
Definition fmt_size (f : fmt) : Z := Z.of_nat (fmt_bytes f).
Definition fmt_signed (f : fmt) : bool := match f with Fh | Fi => true | _ => false end.
Definition fmt_modulus (f : fmt) : Z :=
  match f with Fh | FH => 65536 | Fi | FI => 4294967296 end.
Definition fmt_half (f : fmt) : Z :=
  match f with Fh | FH => 32768 | Fi | FI => 2147483648 end.

Definition decode (f : fmt) (l : pybytes) : Z :=
  let v := le_combine l in
  if fmt_signed f && (fmt_half f <=? v) then v - fmt_modulus f else v.

(** The values [struct.pack] accepts for a code. *)
Definition in_fmt (f : fmt) (z : Z) : bool :=
  if fmt_signed f then (- (fmt_half f) <=? z) && (z <? fmt_half f)
  else (0 <=? z) && (z <? fmt_modulus f).

Definition encode (f : fmt) (z : Z) : pybytes := le_split (fmt_bytes f) z.

Fixpoint calcsize (fs : list fmt) : Z :=
  match fs with [] => 0 | f :: fs => fmt_size f + calcsize fs end.

Fixpoint unpack_head (fs : list fmt) (l : pybytes) : list Z :=
  match fs with
  | [] => []
  | f :: fs => decode f (ztake (fmt_size f) l) :: unpack_head fs (zdrop (fmt_size f) l)
  end.

(** [struct.unpack_from(fmt, data, off)] for [0 <= off] *)
Definition unpack_from (fs : list fmt) (data : pybytes) (off : Z) : result (list Z) :=
  if off + calcsize fs <=? len data then Ok (unpack_head fs (zdrop off data))
  else Raise StructError.

(** [struct.unpack_from(f, data, off)[0]] *)
Definition unpack_one (f : fmt) (data : pybytes) (off : Z) : result Z :=
  if off + fmt_size f <=? len data then Ok (decode f (slice off (off + fmt_size f) data))
  else Raise StructError.

(** [struct.unpack(fmt, data)]: the length must be exact. *)
Definition unpack (fs : list fmt) (data : pybytes) : result (list Z) :=
  if calcsize fs =? len data then Ok (unpack_head fs data) else Raise StructError.

Fixpoint pack_fields (fs : list fmt) (vs : list Z) : option pybytes :=
  match fs, vs with
  | [], [] => Some []
  | f :: fs, v :: vs =>
      if in_fmt f v then (fun r => encode f v ++ r) <$> pack_fields fs vs else None
  | _, _ => None
  end.

(** [struct.pack_into(fmt, buffer, off, *values)] for [0 <= off] *)
Definition pack_into (fs : list fmt) (data : pybytes) (off : Z) (vs : list Z)
    : result pybytes :=
  if off + calcsize fs <=? len data then
    match pack_fields fs vs with
    | Some bs => Ok (splice off (off + calcsize fs) bs data)
    | None => Raise StructError
    end
  else Raise StructError.

(** * Facts: slices *)

Lemma len_acc_length {A} (l : list A) acc : len_acc acc l = acc + Z.of_nat (length l).
Proof. revert acc; induction l; intros; cbn [len_acc length]; [lia|]. rewrite IHl. lia. Qed.
Lemma len_length {A} (l : list A) : len l = Z.of_nat (length l).
Proof. unfold len. rewrite len_acc_length. lia. Qed.
Lemma len_nonneg {A} (l : list A) : 0 <= len l.
Proof. rewrite len_length. lia. Qed.
Lemma len_app {A} (l1 l2 : list A) : len (l1 ++ l2) = len l1 + len l2.
Proof. rewrite !len_length, length_app. lia. Qed.

Lemma zdrop_drop {A} (n : Z) (l : list A) : zdrop n l = drop (Z.to_nat n) l.
Proof.
  revert n; induction l as [|a l IH]; intros n; cbn [zdrop].
  - rewrite drop_nil. by destruct (n <=? 0).
  - destruct (n <=? 0) eqn:E; to_prop.
    + replace (Z.to_nat n) with 0%nat by lia. done.
    + rewrite IH. replace (Z.to_nat n) with (S (Z.to_nat (n - 1))) by lia. done.
Qed.
Lemma ztake_take {A} (n : Z) (l : list A) : ztake n l = take (Z.to_nat n) l.
Proof.
  revert n; induction l as [|a l IH]; intros n; cbn [ztake].
  - rewrite take_nil. by destruct (n <=? 0).
  - destruct (n <=? 0) eqn:E; to_prop.
    + replace (Z.to_nat n) with 0%nat by lia. done.
    + rewrite IH. replace (Z.to_nat n) with (S (Z.to_nat (n - 1))) by lia. done.
Qed.

Lemma slice_take_drop {A} a b (l : list A) :
  slice a b l = take (Z.to_nat (b - a)) (drop (Z.to_nat a) l).
Proof. unfold slice. by rewrite ztake_take, zdrop_drop. Qed.

Lemma len_slice {A} a b (l : list A) :
  0 <= a <= b -> b <= len l -> len (slice a b l) = b - a.
Proof.
  intros. rewrite len_length in *. rewrite slice_take_drop, length_take, length_drop. lia.
Qed.

Lemma len_splice {A} a b (new l : list A) :
  0 <= a <= b -> b <= len l -> len new = b - a -> len (splice a b new l) = len l.
Proof.
  intros. unfold splice. rewrite !len_length in *.
  rewrite ztake_take, zdrop_drop, !length_app, length_take, length_drop. lia.
Qed.

Lemma lookup_slice {A} a b (l : list A) (i : nat) :
  0 <= a -> (Z.of_nat i < b - a) -> slice a b l !! i = l !! (Z.to_nat a + i)%nat.
Proof.
  intros. rewrite slice_take_drop, lookup_take_lt by lia. by rewrite lookup_drop.
Qed.

Lemma lookup_splice_old {A} a b (new l : list A) (i : nat) :
  0 <= a <= b -> b <= len l -> len new = b - a ->
  (Z.of_nat i < a \/ b <= Z.of_nat i) -> splice a b new l !! i = l !! i.
Proof.
  intros Ha Hb Hn Hi. rewrite !len_length in *. unfold splice. rewrite ztake_take, zdrop_drop.
  destruct Hi.
  - rewrite lookup_app_l by (rewrite length_take; lia). by rewrite lookup_take_lt by lia.
  - rewrite lookup_app_r by (rewrite length_take; lia).
    rewrite lookup_app_r by (rewrite length_take; lia).
    rewrite lookup_drop. f_equal. rewrite length_take. lia.
Qed.

Lemma lookup_splice_new {A} a b (new l : list A) (i : nat) :
  0 <= a <= b -> b <= len l -> len new = b - a ->
  a <= Z.of_nat i < b -> splice a b new l !! i = new !! (i - Z.to_nat a)%nat.
Proof.
  intros Ha Hb Hn Hi. rewrite !len_length in *. unfold splice. rewrite ztake_take, zdrop_drop.
  rewrite lookup_app_r by (rewrite length_take; lia).
  rewrite lookup_app_l by (rewrite length_take; lia).
  f_equal. rewrite length_take. lia.
Qed.

(** Reading back the slice just written. *)
Lemma slice_splice_same {A} a b (new l : list A) :
  0 <= a <= b -> b <= len l -> len new = b - a -> slice a b (splice a b new l) = new.
Proof.
  intros. apply list_eq. intros i.
  destruct (decide (Z.of_nat i < b - a)).
  - rewrite lookup_slice by lia. rewrite lookup_splice_new by lia. f_equal. lia.
  - rewrite !lookup_ge_None_2; [done| |].
    + rewrite (len_length new) in *. lia.
    + rewrite slice_take_drop, length_take. lia.
Qed.

(** A disjoint slice is not affected by the write. *)
Lemma slice_splice_other {A} a b c d (new l : list A) :
  0 <= a <= b -> b <= len l -> len new = b - a -> 0 <= c -> (d <= a \/ b <= c) ->
  slice c d (splice a b new l) = slice c d l.
Proof.
  intros Ha Hb Hn Hc Hd. apply list_eq. intros i.
  destruct (decide (Z.of_nat i < d - c)).
  - rewrite !lookup_slice by lia. apply lookup_splice_old; lia.
  - rewrite !lookup_ge_None_2; [done| |]; rewrite slice_take_drop, length_take; lia.
Qed.

Lemma splice_id {A} a b (l : list A) :
  0 <= a <= b -> b <= len l -> splice a b (slice a b l) l = l.
Proof.
  intros. apply list_eq. intros i. pose proof (len_slice a b l) as Hl.
  destruct (decide (a <= Z.of_nat i < b)).
  - rewrite lookup_splice_new by auto. rewrite lookup_slice by lia. f_equal. lia.
  - apply lookup_splice_old; auto. lia.
Qed.

Lemma is_bytes_slice a b l : is_bytes l -> is_bytes (slice a b l).
Proof. intros. rewrite slice_take_drop. by apply Forall_take, Forall_drop. Qed.

Lemma is_bytes_splice a b new l : is_bytes new -> is_bytes l -> is_bytes (splice a b new l).
Proof.
  intros. unfold splice. rewrite ztake_take, zdrop_drop.
  apply Forall_app_2; [by apply Forall_take|]. apply Forall_app_2; [done|by apply Forall_drop].
Qed.

(** * Facts: integers *)

Lemma le_combine_bound l : is_bytes l -> 0 <= le_combine l < 256 ^ len l.
Proof.
  rewrite len_length. induction 1 as [|b l Hb Hl IH]; cbn [le_combine length]; [lia|].
  rewrite Nat2Z.inj_succ, Z.pow_succ_r by lia. nia.
Qed.

Lemma le_combine_split n z : le_combine (le_split n z) = z mod 256 ^ Z.of_nat n.
Proof.
  revert z; induction n as [|n IH]; intros z; cbn [le_split le_combine].
  - by rewrite Z.mod_1_r.
  - rewrite IH, Nat2Z.inj_succ, Z.pow_succ_r by lia.
    rewrite Z.rem_mul_r by lia. done.
Qed.

Lemma length_le_split n z : length (le_split n z) = n.
Proof. revert z; induction n; intros; cbn; auto. Qed.
Lemma is_bytes_le_split n z : is_bytes (le_split n z).
Proof.
  revert z; induction n; intros z; cbn; constructor; [|apply IHn].
  apply Z.mod_pos_bound. lia.
Qed.

Lemma fmt_modulus_eq f : fmt_modulus f = 256 ^ Z.of_nat (fmt_bytes f).
Proof. by destruct f. Qed.

(** [struct] round trip on one field. *)
Lemma decode_encode f z : in_fmt f z = true -> decode f (encode f z) = z.
Proof.
  unfold decode, encode, in_fmt. rewrite le_combine_split, <-fmt_modulus_eq.
  assert (Hneg : forall m, 0 < m -> - m <= z < 0 -> z mod m = z + m).
  { intros m ? ?. symmetry. apply (Z.mod_unique _ _ (-1)); lia. }
  destruct f; cbn [fmt_signed fmt_modulus fmt_half andb]; intros H; to_prop;
    try (rewrite Z.mod_small by lia; done);
    (destruct (decide (0 <= z)); [rewrite Z.mod_small by lia|rewrite Hneg by lia]);
    destruct (_ <=? _) eqn:E; to_prop; lia.
Qed.

Lemma length_encode f z : len (encode f z) = fmt_size f.
Proof. unfold encode. rewrite len_length, length_le_split. done. Qed.

(** A decoded field is in the range of its code. *)
Lemma decode_bound f l :
  is_bytes l -> len l = fmt_size f -> in_fmt f (decode f l) = true.
Proof.
  intros Hb Hl. pose proof (le_combine_bound l Hb) as B. rewrite Hl in B.
  unfold fmt_size in *. rewrite <-fmt_modulus_eq in B. unfold decode, in_fmt.
  destruct f; cbn [fmt_signed fmt_modulus fmt_half andb] in *;
    repeat match goal with |- context [if ?c then _ else _] => destruct c eqn:?; to_prop end;
    apply andb_true_iff; split; first [apply Z.leb_le | apply Z.ltb_lt]; lia.
Qed.

(** * Facts: fields at an offset *)

Lemma fmt_size_pos f : 0 < fmt_size f.
Proof. by destruct f. Qed.

Lemma calcsize_nonneg fs : 0 <= calcsize fs.
Proof. induction fs as [|f fs IH]; cbn; [lia|]. pose proof (fmt_size_pos f). lia. Qed.

Lemma calcsize_repeat f n : calcsize (repeat f n) = fmt_size f * Z.of_nat n.
Proof. induction n; cbn [repeat calcsize]; lia. Qed.

(** The fields depend only on the bytes they cover. *)
Lemma unpack_head_ext fs l l' :
  ztake (calcsize fs) l = ztake (calcsize fs) l' -> unpack_head fs l = unpack_head fs l'.
Proof.
  revert l l'. induction fs as [|f fs IH]; intros l l' H; cbn [unpack_head calcsize] in *; [done|].
  pose proof (fmt_size_pos f). pose proof (calcsize_nonneg fs).
  rewrite !ztake_take in H. rewrite !ztake_take, !zdrop_drop. f_equal.
  - f_equal. apply (f_equal (take (Z.to_nat (fmt_size f)))) in H.
    rewrite !take_take, !Nat.min_l in H by lia. done.
  - apply IH. rewrite !ztake_take, !take_drop_commute.
    apply (f_equal (drop (Z.to_nat (fmt_size f)))) in H.
    replace (Z.to_nat (fmt_size f) + Z.to_nat (calcsize fs))%nat
      with (Z.to_nat (fmt_size f + calcsize fs)) by lia. done.
Qed.

Lemma length_unpack_head fs l : length (unpack_head fs l) = length fs.
Proof. revert l; induction fs; intros; cbn; auto. Qed.

Lemma slice_slice {A} a b c d (l : list A) :
  0 <= a -> 0 <= c <= d -> a + d <= b -> slice c d (slice a b l) = slice (a + c) (a + d) l.
Proof.
  intros. rewrite !slice_take_drop.
  apply list_eq. intros i. destruct (decide (Z.of_nat i < d - c)).
  - rewrite !lookup_take_lt by lia. rewrite !lookup_drop.
    rewrite lookup_take_lt by lia. rewrite lookup_drop. f_equal. lia.
  - rewrite !lookup_take_ge by lia. done.
Qed.

Lemma slice_ztake {A} a b n (l : list A) :
  0 <= n -> a + n <= b -> ztake n (slice a b l) = ztake n (zdrop a l).
Proof. intros. unfold slice. rewrite !ztake_take, take_take. f_equal. lia. Qed.

Lemma slice_0 {A} n (l : list A) : slice 0 n l = ztake n l.
Proof. unfold slice. rewrite zdrop_drop, !ztake_take. f_equal. lia. Qed.
