(* ===== verification/PyIo.v ===== *)
(** Code that acts on a host: a computation takes the state of the host and
    returns a result or an exception with the state it leaves, so that [finally]
    and [except] clauses act on the state the exception left behind.

    A [while] loop has a bound on its iterations, the same for every loop of a
    run; a run that exceeds it has no outcome.  [runs] is what happens for some
    bound, and then for every larger one. *)

From stdpp Require Import base tactics list numbers.
From S2P Require Import Prelude.

Definition io (W A : Type) : Type := nat -> W -> option (result A * W).

#[global] Instance io_ret {W} : MRet (io W) := fun A a n w => Some (Ok a, w).
#[global] Instance io_bind {W} : MBind (io W) := fun A B f m n w =>
  match m n w with
  | Some (Ok a, w') => f a n w'
  | Some (Raise e, w') => Some (Raise e, w')
  | None => None
  end.

Section Io.
Context {W : Type}.
Implicit Types (A B : Type) (w : W) (e : exn).

(** A computation without effects, and an operation of the host *)
Definition lift {A} (r : result A) : io W A := fun _ w => Some (r, w).
Definition act {A} (f : W -> result A * W) : io W A := fun _ w => Some (f w).
Definition ask {A} (f : W -> A * W) : io W A := fun _ w => Some (Ok (f w).1, (f w).2).
Definition state : io W W := fun _ w => Some (Ok w, w).
Definition update (f : W -> W) : io W () := fun _ w => Some (Ok tt, f w).
Definition raise {A} e : io W A := lift (Raise e).

(** [try: m except ...]: the handler says which exceptions it takes. *)
Definition catch {A} (m : io W A) (handler : exn -> option (io W A)) : io W A := fun n w =>
  match m n w with
  | Some (Raise e, w') => match handler e with Some h => h n w' | None => Some (Raise e, w') end
  | outcome => outcome
  end.

(** [try: m finally: last] *)
Definition finally {A} (m : io W A) (last : io W ()) : io W A := fun n w =>
  match m n w with
  | Some (r, w1) =>
      match last n w1 with
      | Some (Ok _, w2) => Some (r, w2)
      | Some (Raise e, w2) => Some (Raise e, w2)
      | None => None
      end
  | None => None
  end.

Fixpoint loop (k : nat) (cond : io W bool) (body : io W ()) : io W () := fun n w =>
  match k with
  | O => None
  | S k => (b ← cond; if b : bool then body;; loop k cond body else mret tt) n w
  end.
Definition while (cond : io W bool) (body : io W ()) : io W () := fun n => loop n cond body n.

(** A [for] loop over a list *)
Fixpoint fold_io {S A} (f : S -> A -> io W S) (s : S) (l : list A) : io W S :=
  match l with
  | [] => mret s
  | a :: l => s' ← f s a; fold_io f s' l
  end.

(** * Larger bounds *)

Class Mono {A} (m : io W A) : Prop :=
  mono : forall n n' w x, (n <= n')%nat -> m n w = Some x -> m n' w = Some x.

#[global] Instance mono_ret A (a : A) : Mono (mret a).
Proof. intros n n' w x _ H. exact H. Qed.
#[global] Instance mono_lift A (r : result A) : Mono (lift r).
Proof. intros n n' w x _ H. exact H. Qed.
#[global] Instance mono_raise A e : Mono (raise (A := A) e).
Proof. intros n n' w x _ H. exact H. Qed.
#[global] Instance mono_act A (f : W -> result A * W) : Mono (act f).
Proof. intros n n' w x _ H. exact H. Qed.
#[global] Instance mono_ask A (f : W -> A * W) : Mono (ask f).
Proof. intros n n' w x _ H. exact H. Qed.
#[global] Instance mono_state : Mono state.
Proof. intros n n' w x _ H. exact H. Qed.
#[global] Instance mono_update f : Mono (update f).
Proof. intros n n' w x _ H. exact H. Qed.

#[global] Instance mono_bind A B (m : io W A) (f : A -> io W B) :
  Mono m -> (forall a, Mono (f a)) -> Mono (m ≫= f).
Proof.
  intros Hm Hf n n' w x L. unfold mbind, io_bind.
  destruct (m n w) as [[r w1]|] eqn:E; [|done]. rewrite (Hm _ _ _ _ L E).
  destruct r; [|done]. by apply Hf.
Qed.

#[global] Instance mono_catch A (m : io W A) h :
  Mono m -> (forall e k, h e = Some k -> Mono k) -> Mono (catch m h).
Proof.
  intros Hm Hh n n' w x L. unfold catch.
  destruct (m n w) as [[r w1]|] eqn:E; [|done]. rewrite (Hm _ _ _ _ L E).
  destruct r; [done|]. destruct (h e) eqn:Eh; [|done]. by apply (Hh _ _ Eh).
Qed.

#[global] Instance mono_finally A (m : io W A) l : Mono m -> Mono l -> Mono (finally m l).
Proof.
  intros Hm Hl n n' w x L. unfold finally.
  destruct (m n w) as [[r w1]|] eqn:E; [|done]. rewrite (Hm _ _ _ _ L E).
  destruct (l n w1) as [y|] eqn:El; [|done]. by rewrite (Hl _ _ _ _ L El).
Qed.

Lemma loop_mono c b : Mono c -> Mono b -> forall k k' n n' w x, (k <= k')%nat -> (n <= n')%nat ->
  loop k c b n w = Some x -> loop k' c b n' w = Some x.
Proof.
  intros Hc Hb. induction k as [|k IH]; intros k' n n' w x Lk Ln; [done|].
  destruct k' as [|k']; [lia|]. cbn. unfold mbind, io_bind.
  destruct (c n w) as [[[[]|] w1]|] eqn:E; rewrite ?(Hc _ _ _ _ Ln E); [|done..].
  destruct (b n w1) as [[[]w2]|] eqn:E2; rewrite ?(Hb _ _ _ _ Ln E2); [|done..].
  apply IH; lia.
Qed.

#[global] Instance mono_while c b : Mono c -> Mono b -> Mono (while c b).
Proof. intros Hc Hb n n' w x L. by apply loop_mono. Qed.

#[global] Instance mono_if A (b : bool) (m1 m2 : io W A) : Mono m1 -> Mono m2 -> Mono (if b then m1 else m2).
Proof. by destruct b. Qed.

#[global] Instance mono_fold {S A} (f : S -> A -> io W S) s l :
  (forall s a, Mono (f s a)) -> Mono (fold_io f s l).
Proof. intros Hf. revert s. induction l; cbn; apply _. Qed.

(** * Outcomes *)

Definition runs {A} (m : io W A) w (r : result A) w' : Prop := exists n, m n w = Some (r, w').
Definition halts {A} (m : io W A) w : Prop := exists r w', runs m w r w'.

Lemma runs_det A (m : io W A) `{Mm : !Mono m} w r1 w1 r2 w2 :
  runs m w r1 w1 -> runs m w r2 w2 -> r1 = r2 /\ w1 = w2.
Proof.
  intros [n1 H1] [n2 H2]. apply (Mm n1 (n1 `max` n2)%nat) in H1; [|lia]. apply (Mm n2 (n1 `max` n2)%nat) in H2; [|lia]. naive_solver.
Qed.

Lemma runs_simple A (m : io W A) w r w' (x : result A * W) : (forall n, m n w = Some x) ->
  runs m w r w' <-> x = (r, w').
Proof. intros H. split; [intros [n E]; congruence|intros ->; by exists 0%nat]. Qed.

Lemma runs_bind A B (m : io W A) (f : A -> io W B) `{Mm : !Mono m} `{Mf : !forall a, Mono (f a)} w r w' :
  runs (m ≫= f) w r w' <->
  (exists a w1, runs m w (Ok a) w1 /\ runs (f a) w1 r w') \/ (exists e, runs m w (Raise e) w' /\ r = Raise e).
Proof.
  split.
  - intros [n H]. unfold mbind, io_bind in H. destruct (m n w) as [[[a|e] w1]|] eqn:E; [| |done].
    + left. exists a, w1. split; by exists n.
    + injection H as <- <-. right. exists e. split; [by exists n|done].
  - intros [(a & w1 & [n1 H1] & [n2 H2])|(e & [n H] & ->)].
    + exists (n1 `max` n2)%nat. unfold mbind, io_bind.
      rewrite (Mm n1 (n1 `max` n2)%nat _ _ ltac:(lia) H1). apply (Mf a n2); [lia|done].
    + exists n. unfold mbind, io_bind. by rewrite H.
Qed.

Lemma runs_bind_ok A B (m : io W A) (f : A -> io W B) `{Mm : !Mono m} `{Mf : !forall a, Mono (f a)} w b w' :
  runs (m ≫= f) w (Ok b) w' <-> exists a w1, runs m w (Ok a) w1 /\ runs (f a) w1 (Ok b) w'.
Proof. rewrite runs_bind by done. naive_solver. Qed.

Lemma runs_catch A (m : io W A) h `{Mm : !Mono m} `{Mh : !forall e k, h e = Some k -> Mono k} w r w' :
  runs (catch m h) w r w' <->
  (exists a, runs m w (Ok a) w' /\ r = Ok a) \/
  (exists e w1, runs m w (Raise e) w1 /\
     match h e with Some k => runs k w1 r w' | None => r = Raise e /\ w' = w1 end).
Proof.
  split.
  - intros [n H]. unfold catch in H. destruct (m n w) as [[[a|e] w1]|] eqn:E; [| |done].
    + injection H as <- <-. left. exists a. split; [by exists n|done].
    + right. exists e, w1. split; [by exists n|]. destruct (h e); [by exists n|naive_solver].
  - intros [(a & [n H] & ->)|(e & w1 & [n1 H1] & H2)].
    + exists n. unfold catch. by rewrite H.
    + destruct (h e) as [k|] eqn:Eh.
      * destruct H2 as [n2 H2]. exists (n1 `max` n2)%nat. unfold catch.
        rewrite (Mm n1 (n1 `max` n2)%nat _ _ ltac:(lia) H1), Eh.
        apply (Mh _ _ Eh n2); [lia|done].
      * destruct H2 as [-> ->]. exists n1. unfold catch. by rewrite H1, Eh.
Qed.

Lemma runs_finally A (m : io W A) l `{Mm : !Mono m} `{Ml : !Mono l} w r w' :
  runs (finally m l) w r w' <->
  exists r1 w1 r2, runs m w r1 w1 /\ runs l w1 r2 w' /\ r = match r2 with Ok _ => r1 | Raise e => Raise e end.
Proof.
  split.
  - intros [n H]. unfold finally in H. destruct (m n w) as [[r1 w1]|] eqn:E; [|done].
    destruct (l n w1) as [[r2 w2]|] eqn:El; [|done]. exists r1, w1, r2.
    split; [by exists n|]. destruct r2; injection H as <- <-; (split; [by exists n|done]).
  - intros (r1 & w1 & r2 & [n1 H1] & [n2 H2] & ->). exists (n1 `max` n2)%nat. unfold finally.
    rewrite (Mm n1 (n1 `max` n2)%nat _ _ ltac:(lia) H1), (Ml n2 (n1 `max` n2)%nat _ _ ltac:(lia) H2).
    by destruct r2.
Qed.

Lemma runs_while c b `{Mc : !Mono c} `{Mb : !Mono b} w r w' :
  runs (while c b) w r w' <-> runs (x ← c; if x : bool then b;; while c b else mret tt) w r w'.
Proof.
  split.
  - intros [n H]. destruct n as [|n]; [done|]. exists (S n). unfold while in H. cbn in H.
    unfold mbind, io_bind in *. destruct (c (S n) w) as [[[[]|] w1]|]; [|done..].
    destruct (b (S n) w1) as [[[]w2]|]; [|done..]. unfold while. apply (loop_mono c b) with (k := n) (n := S n); auto.
  - intros [n H]. exists (S n). unfold while. cbn. unfold mbind, io_bind in *.
    destruct (c n w) as [[[[]|] w1]|] eqn:E; rewrite ?(Mc n (S n) _ _ ltac:(lia) E); [|done..].
    destruct (b n w1) as [[[]w2]|] eqn:E2; rewrite ?(Mb n (S n) _ _ ltac:(lia) E2); [|done..].
    apply (loop_mono c b) with (k := n) (n := n); auto.
Qed.

(** The loop rule: [I] holds before every test, and each way out of the loop
    gives [Q]. *)
Lemma while_inv c b (I : W -> Prop) (J : W -> Prop) (Q : result () -> W -> Prop) :
  (forall w r w1, I w -> runs c w r w1 ->
     match r with Ok true => J w1 | Ok false => Q (Ok tt) w1 | Raise e => Q (Raise e) w1 end) ->
  (forall w r w1, J w -> runs b w r w1 -> match r with Ok _ => I w1 | Raise e => Q (Raise e) w1 end) ->
  forall w r w', I w -> runs (while c b) w r w' -> Q r w'.
Proof.
  intros Hc Hb w r w' HI [n H]. unfold while in H. revert w HI H. generalize n at 1.
  intros k. induction k as [|k IH]; intros w HI H; [done|]. cbn in H. unfold mbind, io_bind in H.
  destruct (c n w) as [[rc w1]|] eqn:E; [|done].
  specialize (Hc w rc w1 HI (ex_intro _ n E)). destruct rc as [[]|e].
  - destruct (b n w1) as [[rb w2]|] eqn:E2; [|done].
    specialize (Hb w1 rb w2 Hc (ex_intro _ n E2)). destruct rb; [by apply (IH w2)|].
    by injection H as <- <-.
  - injection H as <- <-. done.
  - injection H as <- <-. done.
Qed.

(** A loop ends when each iteration lowers a measure. *)
Lemma while_halts c b (I : W -> Prop) (measure : W -> nat) `{Mc : !Mono c} `{Mb : !Mono b} :
  (forall w, I w -> exists r w1, runs c w r w1 /\
     (r = Ok true -> exists r2 w2, runs b w1 r2 w2 /\
        (r2 = Ok tt -> I w2 /\ (measure w2 < measure w)%nat))) ->
  forall w, I w -> halts (while c b) w.
Proof.
  intros H w HI. remember (measure w) as k eqn:Ek. revert w HI Ek.
  induction (lt_wf k) as [k _ IH]. intros w HI ->.
  destruct (H w HI) as (r & w1 & Hr & Hb).
  destruct r as [[]|e].
  - destruct (Hb eq_refl) as (r2 & w2 & Hr2 & Hd). destruct r2 as [[]|e].
    + destruct (Hd eq_refl) as [HI2 L]. destruct (IH _ L w2 HI2 eq_refl) as (r3 & w3 & H3).
      exists r3, w3. apply runs_while; [done..|]. apply runs_bind; [apply _..|].
      left. exists true, w1. split; [done|]. apply runs_bind; [apply _..|]. left. exists tt, w2. done.
    + exists (Raise e), w2. apply runs_while; [done..|]. apply runs_bind; [apply _..|]. left. exists true, w1. split; [done|].
      apply runs_bind; [apply _..|]. right. by exists e.
  - exists (Ok tt), w1. apply runs_while; [done..|]. apply runs_bind; [apply _..|]. left. exists false, w1. split; [done|]. by exists 0%nat.
  - exists (Raise e), w1. apply runs_while; [done..|]. apply runs_bind; [apply _..|]. right. by exists e.
Qed.

Lemma halts_bind A B (m : io W A) (f : A -> io W B) `{Mm : !Mono m} `{Mf : !forall a, Mono (f a)} w :
  halts m w -> (forall a w1, runs m w (Ok a) w1 -> halts (f a) w1) -> halts (m ≫= f) w.
Proof.
  intros (r & w1 & Hr) Hf. destruct r as [a|e].
  - destruct (Hf a w1 Hr) as (r & w2 & H2). exists r, w2. apply runs_bind; [done..|]. left. eauto.
  - exists (Raise e), w1. apply runs_bind; [done..|]. right. eauto.
Qed.

Lemma halts_finally A (m : io W A) l `{Mm : !Mono m} `{Ml : !Mono l} w :
  halts m w -> (forall r w1, runs m w r w1 -> halts l w1) -> halts (finally m l) w.
Proof.
  intros (r & w1 & Hr) Hl. destruct (Hl r w1 Hr) as (r2 & w2 & H2). eexists _, w2.
  apply runs_finally; [done..|]. eauto 10.
Qed.

Lemma halts_catch A (m : io W A) h `{Mm : !Mono m} `{Mh : !forall e k, h e = Some k -> Mono k} w :
  halts m w -> (forall e k w1, runs m w (Raise e) w1 -> h e = Some k -> halts k w1) -> halts (catch m h) w.
Proof.
  intros (r & w1 & Hr) Hh. destruct r as [a|e].
  - exists (Ok a), w1. apply runs_catch; [done..|]. left. eauto.
  - destruct (h e) as [k|] eqn:E.
    + destruct (Hh e k w1 Hr E) as (r & w2 & H2). exists r, w2. apply runs_catch; [done..|].
      right. exists e, w1. by rewrite E.
    + exists (Raise e), w1. apply runs_catch; [done..|]. right. exists e, w1. by rewrite E.
Qed.

Lemma halts_simple A (m : io W A) w (x : result A * W) : (forall n, m n w = Some x) -> halts m w.
Proof. intros H. exists x.1, x.2, 0%nat. rewrite H. by destruct x. Qed.

(** * What every outcome satisfies *)

Definition post {A} (m : io W A) w (Q : result A -> W -> Prop) : Prop :=
  forall r w', runs m w r w' -> Q r w'.

Lemma post_mono A (m : io W A) w (P Q : result A -> W -> Prop) :
  post m w P -> (forall r w', P r w' -> Q r w') -> post m w Q.
Proof. intros H HQ r w' R. eauto. Qed.

Lemma post_simple A (m : io W A) w (Q : result A -> W -> Prop) x : (forall n, m n w = Some x) ->
  Q x.1 x.2 -> post m w Q.
Proof. intros H HQ r w' [n E]. rewrite H in E. injection E as ->. done. Qed.

Lemma post_ret A (a : A) w (Q : result A -> W -> Prop) : Q (Ok a) w -> post (mret a) w Q.
Proof. by apply post_simple with (x := (Ok a, w)). Qed.
Lemma post_lift A (r : result A) w (Q : result A -> W -> Prop) : Q r w -> post (lift r) w Q.
Proof. by apply post_simple with (x := (r, w)). Qed.
Lemma post_raise A e w (Q : result A -> W -> Prop) : Q (Raise e) w -> post (raise e) w Q.
Proof. apply post_lift. Qed.
Lemma post_act A (f : W -> result A * W) w (Q : result A -> W -> Prop) : Q (f w).1 (f w).2 -> post (act f) w Q.
Proof. by apply post_simple with (x := f w). Qed.
Lemma post_ask A (f : W -> A * W) w (Q : result A -> W -> Prop) : Q (Ok (f w).1) (f w).2 -> post (ask f) w Q.
Proof. by apply post_simple with (x := (Ok (f w).1, (f w).2)). Qed.
Lemma post_state w (Q : result W -> W -> Prop) : Q (Ok w) w -> post state w Q.
Proof. by apply post_simple with (x := (Ok w, w)). Qed.
Lemma post_update f w (Q : result () -> W -> Prop) : Q (Ok tt) (f w) -> post (update f) w Q.
Proof. by apply post_simple with (x := (Ok tt, f w)). Qed.

Lemma post_bind A B (m : io W A) (f : A -> io W B) w (Q : result B -> W -> Prop) :
  post m w (fun r w1 => match r with Ok a => post (f a) w1 Q | Raise e => Q (Raise e) w1 end) ->
  post (m ≫= f) w Q.
Proof.
  intros H r w' [n E]. unfold mbind, io_bind in E. destruct (m n w) as [[[a|e] w1]|] eqn:Em; [| |done].
  - specialize (H _ _ (ex_intro _ n Em)). apply H. by exists n.
  - injection E as <- <-. exact (H _ _ (ex_intro _ n Em)).
Qed.

Lemma post_catch A (m : io W A) h w (Q : result A -> W -> Prop) :
  post m w (fun r w1 => match r with
    | Ok a => Q (Ok a) w1
    | Raise e => match h e with Some k => post k w1 Q | None => Q (Raise e) w1 end
    end) -> post (catch m h) w Q.
Proof.
  intros H r w' [n E]. unfold catch in E. destruct (m n w) as [[[a|e] w1]|] eqn:Em; [| |done];
    specialize (H _ _ (ex_intro _ n Em)); cbn in H; [naive_solver|].
  destruct (h e); [apply H; by exists n|naive_solver].
Qed.

Lemma post_finally A (m : io W A) l w (Q : result A -> W -> Prop) :
  post m w (fun r w1 => post l w1 (fun r2 w2 => Q (match r2 with Ok _ => r | Raise e => Raise e end) w2)) ->
  post (finally m l) w Q.
Proof.
  intros H r w' [n E]. unfold finally in E. destruct (m n w) as [[r1 w1]|] eqn:Em; [|done].
  specialize (H _ _ (ex_intro _ n Em)). destruct (l n w1) as [[r2 w2]|] eqn:El; [|done].
  specialize (H _ _ (ex_intro _ n El)). destruct r2; naive_solver.
Qed.

Lemma post_while c b (I J : W -> Prop) (Q : result () -> W -> Prop) w :
  (forall w, I w -> post c w (fun r w1 =>
     match r with Ok true => J w1 | Ok false => Q (Ok tt) w1 | Raise e => Q (Raise e) w1 end)) ->
  (forall w, J w -> post b w (fun r w1 => match r with Ok _ => I w1 | Raise e => Q (Raise e) w1 end)) ->
  I w -> post (while c b) w Q.
Proof.
  intros Hc Hb HI r w' H. apply (while_inv c b I J Q) with (w := w); [| |done|done].
  - intros w0 r0 w1 H0 R. exact (Hc w0 H0 r0 w1 R).
  - intros w0 r0 w1 H0 R. exact (Hb w0 H0 r0 w1 R).
Qed.

(** The state of a [for] loop: [I done s] after the elements [done]. *)
Lemma post_fold {S A} (f : S -> A -> io W S) (I : list A -> S -> W -> Prop) (Q : result S -> W -> Prop) l :
  (forall done a s w, done ++ [a] `prefix_of` l -> I done s w ->
     post (f s a) w (fun r w1 => match r with Ok s1 => I (done ++ [a]) s1 w1 | Raise e => Q (Raise e) w1 end)) ->
  (forall s w, I l s w -> Q (Ok s) w) -> forall s w, I [] s w -> post (fold_io f s l) w Q.
Proof.
  intros Hf HQ. enough (forall rest done s w, done ++ rest = l -> I done s w -> post (fold_io f s rest) w Q)
    as X by (intros s w; by apply X).
  induction rest as [|a rest IH]; intros done s w E HI; cbn [fold_io].
  - apply post_ret, HQ. by rewrite app_nil_r in E; subst.
  - apply post_bind. eapply post_mono; [apply (Hf done a); [|done]|].
    + exists rest. by rewrite <- app_assoc.
    + intros [s1|e] w1 H; [|done]. apply (IH (done ++ [a])); [by rewrite <- app_assoc|done].
Qed.

End Io.

Arguments runs {W A} m w r w' : simpl never.
Arguments while {W} cond body : simpl never.

(** One step of the rules above *)
Ltac post_step :=
  match goal with
  | |- post (mret _) _ _ => apply post_ret
  | |- post (lift _) _ _ => apply post_lift
  | |- post (raise _) _ _ => apply post_raise
  | |- post (act _) _ _ => apply post_act
  | |- post (ask _) _ _ => apply post_ask
  | |- post state _ _ => apply post_state
  | |- post (update _) _ _ => apply post_update
  | |- post (_ ≫= _) _ _ => apply post_bind
  | |- post (catch _ _) _ _ => apply post_catch
  | |- post (finally _ _) _ _ => apply post_finally
  end.

(** * Acting on a part of the state *)

Definition zoom {S W A} (part : S -> W) (set_part : W -> S -> S) (m : io W A) : io S A := fun n s =>
  match m n (part s) with Some (r, w) => Some (r, set_part w s) | None => None end.

#[global] Instance mono_zoom S W A (part : S -> W) set_part (m : io W A) : Mono m -> Mono (zoom part set_part m).
Proof.
  intros Hm n n' s x L. unfold zoom. destruct (m n (part s)) eqn:E; [|done].
  by rewrite (Hm _ _ _ _ L E).
Qed.

Lemma post_zoom {S W A} (part : S -> W) set_part (m : io W A) s (Q : result A -> S -> Prop) :
  post m (part s) (fun r w => Q r (set_part w s)) -> post (zoom part set_part m) s Q.
Proof.
  intros H r s' [n E]. unfold zoom in E. destruct (m n (part s)) as [[r1 w1]|] eqn:Em; [|done].
  injection E as <- <-. apply H. by exists n.
Qed.

(** A state that lives while a computation runs: made from the outer state, and
    left for it. *)
Definition scope {S W A} (enter : W -> S) (leave : S -> W) (m : io S A) : io W A := fun n w =>
  match m n (enter w) with Some (r, s) => Some (r, leave s) | None => None end.

#[global] Instance mono_scope S W A (enter : W -> S) leave (m : io S A) : Mono m -> Mono (scope enter leave m).
Proof.
  intros Hm n n' w x L. unfold scope. destruct (m n (enter w)) eqn:E; [|done].
  by rewrite (Hm _ _ _ _ L E).
Qed.

Lemma post_scope {S W A} (enter : W -> S) leave (m : io S A) w (Q : result A -> W -> Prop) :
  post m (enter w) (fun r s => Q r (leave s)) -> post (scope enter leave m) w Q.
Proof.
  intros H r w' [n E]. unfold scope in E. destruct (m n (enter w)) as [[r1 s1]|] eqn:Em; [|done].
  injection E as <- <-. apply H. by exists n.
Qed.

(** What follows a computation and sees how it ended *)
Definition observe {W A B} (m : io W A) (k : result A -> io W B) : io W B := fun n w =>
  match m n w with Some (r, w1) => k r n w1 | None => None end.

#[global] Instance mono_observe W A B (m : io W A) (k : result A -> io W B) :
  Mono m -> (forall r, Mono (k r)) -> Mono (observe m k).
Proof.
  intros Hm Hk n n' w x L. unfold observe. destruct (m n w) as [[r w1]|] eqn:E; [|done].
  rewrite (Hm _ _ _ _ L E). by apply Hk.
Qed.

Lemma post_observe {W A B} (m : io W A) (k : result A -> io W B) w (Q : result B -> W -> Prop) :
  post m w (fun r w1 => post (k r) w1 Q) -> post (observe m k) w Q.
Proof.
  intros H r w' [n E]. unfold observe in E. destruct (m n w) as [[r1 w1]|] eqn:Em; [|done].
  specialize (H _ _ (ex_intro _ n Em)). apply H. by exists n.
Qed.

(** * Code without loops always has an outcome *)

Class Total {W A} (m : io W A) : Prop := total : forall w, halts m w.

#[global] Instance total_ret W A (a : A) : Total (W := W) (mret a).
Proof. intros w. by apply (halts_simple _ _ _ (Ok a, w)). Qed.
#[global] Instance total_lift W A (r : result A) : Total (W := W) (lift r).
Proof. intros w. by apply (halts_simple _ _ _ (r, w)). Qed.
#[global] Instance total_raise W A e : Total (W := W) (raise (A := A) e).
Proof. apply total_lift. Qed.
#[global] Instance total_act W A (f : W -> result A * W) : Total (act f).
Proof. intros w. by apply (halts_simple _ _ _ (f w)). Qed.
#[global] Instance total_ask W A (f : W -> A * W) : Total (ask f).
Proof. intros w. by apply (halts_simple _ _ _ (Ok (f w).1, (f w).2)). Qed.
#[global] Instance total_state W : Total (state (W := W)).
Proof. intros w. by apply (halts_simple _ _ _ (Ok w, w)). Qed.
#[global] Instance total_update W f : Total (W := W) (update f).
Proof. intros w. by apply (halts_simple _ _ _ (Ok tt, f w)). Qed.
#[global] Instance total_bind W A B (m : io W A) (f : A -> io W B) :
  Mono m -> (forall a, Mono (f a)) -> Total m -> (forall a, Total (f a)) -> Total (m ≫= f).
Proof. intros ? ? Hm Hf w. apply halts_bind; [done..|]. intros. apply Hf. Qed.
#[global] Instance total_catch W A (m : io W A) h :
  Mono m -> (forall e k, h e = Some k -> Mono k) -> Total m -> (forall e k, h e = Some k -> Total k) ->
  Total (catch m h).
Proof. intros ? ? Hm Hh w. apply halts_catch; [done..|]. intros e k w1 _ E. by apply (Hh e k). Qed.
#[global] Instance total_finally W A (m : io W A) l : Mono m -> Mono l -> Total m -> Total l -> Total (finally m l).
Proof. intros ? ? Hm Hl w. apply halts_finally; [done..|]. intros. apply Hl. Qed.
#[global] Instance total_zoom S W A (part : S -> W) set_part (m : io W A) : Total m -> Total (zoom part set_part m).
Proof.
  intros Hm s. destruct (Hm (part s)) as (r & w & n & E). exists r, (set_part w s), n.
  unfold zoom. by rewrite E.
Qed.
#[global] Instance total_scope S W A (enter : W -> S) leave (m : io S A) : Total m -> Total (scope enter leave m).
Proof.
  intros Hm w. destruct (Hm (enter w)) as (r & s & n & E). exists r, (leave s), n.
  unfold scope. by rewrite E.
Qed.
#[global] Instance total_observe W A B (m : io W A) (k : result A -> io W B) :
  Mono m -> (forall r, Mono (k r)) -> Total m -> (forall r, Total (k r)) -> Total (observe m k).
Proof.
  intros Mm Mk Hm Hk w. destruct (Hm w) as (r & w1 & n1 & E1). destruct (Hk r w1) as (r2 & w2 & n2 & E2).
  exists r2, w2, (n1 `max` n2)%nat. unfold observe. rewrite (Mm n1 _ _ _ ltac:(apply Nat.le_max_l) E1).
  apply (Mk r n2); [lia|done].
Qed.
#[global] Instance total_fold {W S A} (f : S -> A -> io W S) s l :
  (forall s a, Mono (f s a)) -> (forall s a, Total (f s a)) -> Total (fold_io f s l).
Proof. intros Mf Hf. revert s. induction l; cbn; intros; apply _. Qed.
#[global] Instance total_if W A (b : bool) (m1 m2 : io W A) : Total m1 -> Total m2 -> Total (if b then m1 else m2).
Proof. by destruct b. Qed.

#[global] Typeclasses Opaque lift act ask state update raise catch finally while fold_io zoom scope observe.

(** Instances for a program: its combinators, and the cases of its matches *)
Ltac by_parts :=
  repeat match goal with
  | |- forall _, _ => intros
  | |- Mono (_ ≫= _) => apply mono_bind
  | |- Mono (catch _ _) => apply mono_catch
  | |- Mono (finally _ _) => apply mono_finally
  | |- Mono (observe _ _) => apply mono_observe
  | |- Total (_ ≫= _) => apply total_bind
  | |- Total (catch _ _) => apply total_catch
  | |- Total (finally _ _) => apply total_finally
  | |- Total (observe _ _) => apply total_observe
  | _ => first [apply _ | progress simplify_eq | case_match]
  end.

(** A loop with a deadline ends: every iteration takes time. *)
Lemma deadline_halts {V} (time : V -> Z) (deadline : Z) (c : io V bool) (b : io V ()) :
  Mono c -> Mono b -> Total c -> Total b ->
  (forall v, post c v (fun r v1 => r = Ok true -> (time v <= time v1)%Z)) ->
  (forall v v0, runs c v0 (Ok true) v -> post b v (fun r v1 => r = Ok tt -> (time v < time v1 /\ time v0 < deadline)%Z)) ->
  Total (while c b).
Proof.
  intros Mc Mb Tc Tb Hc Hb v.
  apply (while_halts c b (fun _ => True) (fun v => Z.to_nat (deadline - time v)%Z)); [done..| |done].
  intros v0 _. destruct (Tc v0) as (r & v1 & R1). exists r, v1. split; [done|]. intros ->.
  destruct (Tb v1) as (r2 & v2 & R2). exists r2, v2. split; [done|]. intros ->. split; [done|].
  pose proof (Hc _ _ _ R1 eq_refl). destruct (Hb _ _ R1 _ _ R2 eq_refl). lia.
Qed.
