(* ===== verification/PyRegex.v ===== *)
(** The backtracking matcher behind [re.search], [re.match], [re.findall] and
    [re.finditer].

    A pattern is tried in the order Python tries it: the left branch of an
    alternative first, a greedy repetition as often as possible, a lazy one as
    seldom as possible.  The matcher is written with a continuation; the loop
    of a repetition only goes on after a character was consumed, so the length
    of the rest of the text bounds its turns.  Groups are numbered, and the
    last text a group matched is the one it reports. *)

From stdpp Require Import base tactics list gmap strings numbers list_numbers.
From S2P Require Import Prelude PyText PyBytes.
Open Scope Z_scope.

(** * Patterns *)

Inductive pattern : Type :=
| MEps
| MChr (ok : Z -> bool)
| MCat (p q : pattern)
| MAlt (p q : pattern)
| MStar (greedy : bool) (p : pattern)
| MGrp (n : Z) (p : pattern)
| MAt (ok : list Z -> list Z -> bool).

(** A place in the text: how many characters came before it, those characters
    with the last one first, and the characters that follow. *)
Record place : Type := { here : Z; past : pystr; rest : pystr }.

Abbreviation groups := (list (Z * pystr)).

Fixpoint run {X} (p : pattern) (at_ : place) (g : groups) (k : place -> groups -> option X) {struct p}
    : option X :=
  match p with
  | MEps => k at_ g
  | MChr ok =>
      match rest at_ with
      | c :: s => if ok c then k {| here := here at_ + 1; past := c :: past at_; rest := s |} g else None
      | [] => None
      end
  | MCat p q => run p at_ g (fun at_ g => run q at_ g k)
  | MAlt p q => match run p at_ g k with Some x => Some x | None => run q at_ g k end
  | MStar greedy p =>
      (fix loop (fuel : nat) (at_ : place) (g : groups) : option X :=
         match fuel with
         | O => k at_ g
         | S fuel =>
             let again (_ : unit) :=
               run p at_ g (fun next g => if here at_ <? here next then loop fuel next g else None) in
             if greedy then match again tt with Some x => Some x | None => k at_ g end
             else match k at_ g with Some x => Some x | None => again tt end
         end) (length (rest at_)) at_ g
  | MGrp n p =>
      run p at_ g (fun next g => k next ((n, ztake (here next - here at_) (rest at_)) :: g))
  | MAt ok => if ok (past at_) (rest at_) then k at_ g else None
  end.

(** * Building blocks *)

Definition one (c : Z) : pattern := MChr (fun d => d =? c).
Fixpoint all_of (ps : list pattern) : pattern :=
  match ps with [] => MEps | [p] => p | p :: ps => MCat p (all_of ps) end.
Fixpoint any_of (ps : list pattern) : pattern :=
  match ps with [] => MChr (fun _ => false) | [p] => p | p :: ps => MAlt p (any_of ps) end.
Definition text (s : pystr) : pattern := all_of (one <$> s).
Definition lit (s : string) : pattern := text (u s).
(** [[abc]] and [[^abc]] *)
Definition chars (s : string) : Z -> bool := fun c => bool_decide (c ∈ u s).
Definition other (s : string) : Z -> bool := fun c => negb (chars s c).
Definition star (p : pattern) : pattern := MStar true p.
Definition plus (p : pattern) : pattern := MCat p (star p).
Definition opt (p : pattern) : pattern := MAlt p MEps.
Fixpoint upto (n : nat) (p : pattern) : pattern :=
  match n with O => MEps | S n => opt (MCat p (upto n p)) end.

(** [^] and [$] with [re.MULTILINE] *)
Definition bol : pattern :=
  MAt (fun before _ => match before with [] => true | c :: _ => c =? newline end).
Definition eol : pattern :=
  MAt (fun _ after => match after with [] => true | c :: _ => c =? newline end).
(** [.] *)
Definition dot_ : pattern := MChr (fun c => negb (c =? newline)).

(** [\w] and [\b]; [alphanumeric] is [str.isalnum] outside ASCII. *)
Definition word_char (alphanumeric : Z -> bool) (c : Z) : bool :=
  if c <? 128 then in_range "a" "z" c || in_range "A" "Z" c || digit c || (c =? 95) else alphanumeric c.
Definition word_boundary (alphanumeric : Z -> bool) : pattern :=
  MAt (fun before after =>
    xorb (match before with c :: _ => word_char alphanumeric c | [] => false end)
         (match after with c :: _ => word_char alphanumeric c | [] => false end)).

(** A letter of the pattern with [re.IGNORECASE]: both cases, and the other
    characters that fold to it. *)
Definition fold_case (c : Z) : Z -> bool := fun d =>
  (d =? c) || (in_range "a" "z" c && (d =? c - 32)) ||
  ((c =? 105) && ((d =? 304) || (d =? 305))) ||   (* i *)
  ((c =? 115) && (d =? 383)) ||                   (* s *)
  ((c =? 107) && (d =? 8490)).                    (* k *)
Definition lit_i (s : string) : pattern := all_of ((fun c => MChr (fold_case c)) <$> u s).

(** * Searching *)

Definition start_of (s : pystr) : place := {| here := 0; past := []; rest := s |}.

(** Where a match ends and its groups. *)
Definition match_at (p : pattern) (at_ : place) : option (place * groups) :=
  run p at_ [] (fun next g => Some (next, g)).

Definition group (g : groups) (n : Z) : option pystr :=
  snd ∘ snd <$> list_find (fun e => fst e = n) g.

(** [re.match] and [re.fullmatch] *)
Definition re_match (p : pattern) (s : pystr) : option groups := snd <$> match_at p (start_of s).
Definition re_full (p : pattern) (s : pystr) : option groups :=
  run p (start_of s) [] (fun next g => match rest next with [] => Some g | _ => None end).

(** The leftmost match from a place on: where it starts, ends and its groups. *)
Fixpoint search_from (p : pattern) (here : Z) (past rest : pystr)
    : option (place * place * groups) :=
  let at_ := {| here := here; past := past; rest := rest |} in
  match match_at p at_ with
  | Some (next, g) => Some (at_, next, g)
  | None => match rest with
            | [] => None
            | c :: rest => search_from p (here + 1) (c :: past) rest
            end
  end.

(** [re.search] *)
Definition re_search (p : pattern) (s : pystr) : option (place * place * groups) :=
  search_from p 0 [] s.
Definition found_in (p : pattern) (s : pystr) : bool :=
  match re_search p s with Some _ => true | None => false end.

(** [re.finditer], for a pattern that matches no empty text: the matches start
    at different places, so the length of the text bounds their number. *)
Fixpoint find_all (fuel : nat) (p : pattern) (at_ : place) : list (place * place * groups) :=
  match fuel with
  | O => []
  | S fuel =>
      match search_from p (here at_) (past at_) (rest at_) with
      | Some (first, next, g) => (first, next, g) :: find_all fuel p next
      | None => []
      end
  end.
Definition re_finditer (p : pattern) (s : pystr) : list groups :=
  snd <$> find_all (length s) p (start_of s).
