(* ===== verification/RegexSpec.v ===== *)
(** What a pattern matches, as a relation, and the proof that the backtracking
    matcher of [PyRegex] decides it: it finds a match whenever there is one,
    and what it finds is one. *)

From stdpp Require Import base tactics list gmap strings numbers list_numbers.
From S2P Require Import Prelude PyText PyBytes PyRegex.
Open Scope Z_scope.

(** * The language of a pattern *)

(** From one place to the next, with the groups before and after *)
Inductive matches : pattern -> place -> groups -> place -> groups -> Prop :=
| m_eps at_ g : matches MEps at_ g at_ g
| m_chr ok h past_ c s g : ok c = true ->
    matches (MChr ok) {| here := h; past := past_; rest := c :: s |} g
                      {| here := h + 1; past := c :: past_; rest := s |} g
| m_cat p q a ga b gb c gc : matches p a ga b gb -> matches q b gb c gc -> matches (MCat p q) a ga c gc
| m_left p q a ga b gb : matches p a ga b gb -> matches (MAlt p q) a ga b gb
| m_right p q a ga b gb : matches q a ga b gb -> matches (MAlt p q) a ga b gb
| m_stop greedy p a g : matches (MStar greedy p) a g a g
| m_again greedy p a ga b gb c gc :
    matches p a ga b gb -> here a < here b -> matches (MStar greedy p) b gb c gc ->
    matches (MStar greedy p) a ga c gc
| m_grp n p a ga b gb : matches p a ga b gb ->
    matches (MGrp n p) a ga b ((n, ztake (here b - here a) (rest a)) :: gb)
| m_at ok a g : ok (past a) (rest a) = true -> matches (MAt ok) a g a g.

(** A match consumes a prefix of what follows. *)
Definition consumes (a b : place) (w : pystr) : Prop :=
  rest a = w ++ rest b /\ here b = here a + len w /\ past b = rev w ++ past a.

Lemma consumes_app a b c v w : consumes a b v -> consumes b c w -> consumes a c (v ++ w).
Proof.
  intros (H1 & H2 & H3) (K1 & K2 & K3). unfold consumes.
  rewrite H1, K1, K2, H2, K3, H3, rev_app_distr, !len_length, length_app, <- !app_assoc. split_and!; [done|lia|done].
Qed.

Lemma matches_consumes p a ga b gb : matches p a ga b gb -> exists w, consumes a b w.
Proof.
  assert (forall a, consumes a a []) as N by (intros x; split_and!; [done|rewrite len_length; cbn; lia|done]).
  induction 1 as [| ? ? ? c | ? ? ? ? ? ? ? ? ? [v IHv] ? [w IHw] | | | | ? ? ? ? ? ? ? ? ? [v IHv] ? ? [w IHw] | |];
    eauto using consumes_app.
  exists [c]. split_and!; [done|rewrite len_length; cbn; lia|done].
Qed.

Lemma consumes_shorter a b w : consumes a b w -> here a < here b -> (length (rest b) < length (rest a))%nat.
Proof. intros (-> & H & _) L. rewrite len_length in H. rewrite length_app. lia. Qed.

(** * The matcher *)

(** The loop of a repetition, by itself *)
Definition loop {X} (greedy : bool) (p : pattern) (k : place -> groups -> option X) :=
  fix loop (fuel : nat) (at_ : place) (g : groups) : option X :=
    match fuel with
    | O => k at_ g
    | S fuel =>
        let again (_ : unit) :=
          run p at_ g (fun next g => if here at_ <? here next then loop fuel next g else None) in
        if greedy then match again tt with Some x => Some x | None => k at_ g end
        else match k at_ g with Some x => Some x | None => again tt end
    end.

Lemma run_star {X} greedy p at_ g (k : place -> groups -> option X) :
  run (MStar greedy p) at_ g k = loop greedy p k (length (rest at_)) at_ g.
Proof. done. Qed.

Lemma run_sound {X} p : forall a g (k : place -> groups -> option X) x,
  run p a g k = Some x -> exists b gb, matches p a g b gb /\ k b gb = Some x.
Proof.
  revert X. induction p as [|ok|p IHp q IHq|p IHp q IHq|greedy p IHp|n p IHp|ok]; intros X a g k x H.
  - eauto using matches.
  - cbn in H. destruct a as [h ps [|c s]]; [done|]. cbn in H. destruct (ok c) eqn:E; [|done].
    eauto using matches.
  - cbn in H. apply IHp in H as (b & gb & M & H). apply IHq in H as (c & gc & M' & H). eauto using matches.
  - cbn in H. destruct (run p a g k) eqn:E.
    + injection H as ->. apply IHp in E as (b & gb & M & E). eauto using matches.
    + apply IHq in H as (b & gb & M & H). eauto using matches.
  - rewrite run_star in H. generalize (length (rest a)) as fuel, H. clear H.
    intros fuel. revert a g x. induction fuel as [|fuel IH]; intros a' g x H; cbn in H.
    + eauto using matches.
    + assert (forall y, run p a' g (fun next g => if here a' <? here next then loop greedy p k fuel next g else None) = Some y ->
        exists b gb, matches (MStar greedy p) a' g b gb /\ k b gb = Some y) as A.
      { intros y (b & gb & M & H')%IHp. destruct (here a' <? here b) eqn:L; [|done].
        apply Z.ltb_lt in L. apply IH in H' as (c & gc & M' & ?). eauto using matches. }
      destruct greedy.
      * destruct (run p a' g _) eqn:E; [injection H as ->; by apply A|]. eauto using matches.
      * destruct (k a' g) eqn:E; [injection H as ->; eauto using matches|]. by apply A.
  - cbn in H. apply IHp in H as (b & gb & M & H). eauto using matches.
  - cbn in H. destruct (ok _ _) eqn:E; [|done]. eauto using matches.
Qed.

Lemma loop_stops {X} greedy p (k : place -> groups -> option X) fuel a g :
  is_Some (k a g) -> is_Some (loop greedy p k fuel a g).
Proof.
  intros [x E]. destruct fuel; cbn; [by rewrite E|]. destruct greedy; rewrite E; [|eauto]. destruct (run _ _ _ _); eauto.
Qed.

Lemma run_complete p : forall a ga b gb, matches p a ga b gb ->
  forall X (k : place -> groups -> option X), is_Some (k b gb) -> is_Some (run p a ga k).
Proof.
  induction p as [|ok|p IHp q IHq|p IHp q IHq|greedy p IHp|n p IHp|ok]; intros a ga b gb M X k K.
  - by inv M.
  - inversion M as [|? ? ? ? ? ? E| | | | | | |]; subst. cbn. by rewrite E.
  - inv M. cbn. eauto.
  - inversion M as [| | |? ? ? ? ? ? M'|? ? ? ? ? ? M'| | | |]; subst; cbn.
    + destruct (IHp _ _ _ _ M' X k K) as [x ->]. eauto.
    + destruct (run p a ga k); eauto.
  - rewrite run_star. revert a ga M. assert (forall fuel a ga, matches (MStar greedy p) a ga b gb ->
      (length (rest a) <= fuel)%nat -> is_Some (loop greedy p k fuel a ga)) as A; [|by eauto].
    induction fuel as [|fuel IH]; intros a ga M Hl; inversion M as [| | | | | |? ? ? ? b' gb' ? ? M1 L M2| |]; subst;
      try by apply loop_stops.
    all: destruct (matches_consumes _ _ _ _ _ M1) as [w W]; pose proof (consumes_shorter _ _ _ W L).
    { lia. }
    cbn. destruct (IHp _ _ _ _ M1 X (fun next g => if here a <? here next then loop greedy p k fuel next g else None))
      as [x E]. { apply Z.ltb_lt in L as ->. apply IH; [done|lia]. }
    rewrite E. destruct greedy; [eauto|]. destruct (k a ga); eauto.
  - inv M. cbn. eauto.
  - inversion M as [| | | | | | | |? ? ? E]; subst. cbn. by rewrite E.
Qed.

(** * Searching *)

Lemma match_at_iff p a : is_Some (match_at p a) <-> exists b g, matches p a [] b g.
Proof.
  unfold match_at. split.
  - intros [[b g] (c & gc & M & _)%run_sound]. eauto.
  - intros (b & g & M). apply (run_complete _ _ _ _ _ M). eauto.
Qed.

Lemma re_full_sound p s g : re_full p s = Some g -> exists b, matches p (start_of s) [] b g /\ rest b = [].
Proof.
  unfold re_full. intros (b & gb & M & H)%run_sound. destruct (rest b) eqn:E; [|done].
  injection H as <-. eauto.
Qed.

Lemma search_from_iff p past_ s : forall h, is_Some (search_from p h past_ s) <->
  exists before after b g, s = before ++ after /\
    matches p {| here := h + len before; past := rev before ++ past_; rest := after |} [] b g.
Proof.
  revert past_. induction s as [|c s IH]; intros past_ h; cbn [search_from].
  - destruct (match_at _ _) as [[b g]|] eqn:E.
    + split; [intros _|eauto]. exists [], []. replace (h + len []) with h by (rewrite len_length; cbn; lia).
      apply mk_is_Some, match_at_iff in E as (? & ? & ?). eauto.
    + split; [by intros []|]. intros (before & after & b & g & E' & M). exfalso.
      symmetry in E'. apply app_eq_nil in E' as [-> ->].
      replace (h + len []) with h in M by (rewrite len_length; cbn; lia).
      assert (is_Some (match_at p {| here := h; past := past_; rest := [] |})) as S by (apply match_at_iff; eauto).
      rewrite E in S. by destruct S.
  - destruct (match_at _ _) as [[b g]|] eqn:E.
    + split; [intros _|eauto]. exists [], (c :: s). replace (h + len []) with h by (rewrite len_length; cbn; lia).
      apply mk_is_Some, match_at_iff in E as (? & ? & ?). eauto.
    + rewrite IH. split; intros (before & after & b & g & E' & M).
      * exists (c :: before), after, b, g. split; [by rewrite E'|].
        replace (h + len (c :: before)) with (h + 1 + len before) by (rewrite !len_length; cbn; lia).
        cbn [rev]. by rewrite <- app_assoc.
      * destruct before as [|d before].
        { exfalso. cbn in E'. subst after. replace (h + len []) with h in M by (rewrite len_length; cbn; lia).
          assert (is_Some (match_at p {| here := h; past := past_; rest := c :: s |})) as S by (apply match_at_iff; eauto).
          rewrite E in S. by destruct S. }
        injection E' as <- ->. exists before, after, b, g. split; [done|].
        replace (h + 1 + len before) with (h + len (c :: before)) by (rewrite !len_length; cbn; lia).
        cbn [rev] in M. by rewrite <- app_assoc in M.
Qed.

(** The backtracking matcher decides the language of a pattern: [fullmatch]
    succeeds exactly when some match spans the text, and [search] exactly when
    some part of the text matches in its context.  Greedy and lazy repetition
    and the order of alternatives only choose among the matches. *)
Theorem matcher_decides p s :
  (is_Some (re_full p s) <-> exists b g, matches p (start_of s) [] b g /\ rest b = []) /\
  (found_in p s = true <-> exists before after b g, s = before ++ after /\
    matches p {| here := len before; past := rev before; rest := after |} [] b g).
Proof.
  split.
  - split.
    + intros [g H]. apply re_full_sound in H as (b & M & E). eauto.
    + intros (b & g & M & E). unfold re_full. apply (run_complete _ _ _ _ _ M). by rewrite E.
  - pose proof (search_from_iff p [] s 0) as H. unfold found_in, re_search.
    setoid_rewrite Z.add_0_l in H. setoid_rewrite app_nil_r in H. rewrite <- H.
    destruct (search_from p 0 [] s); split; [eauto|done|done|by intros []].
Qed.

(** * Literals, classes and groups *)

Lemma matches_text s a ga b gb : matches (text s) a ga b gb -> gb = ga /\ consumes a b s.
Proof.
  assert (forall c a ga b gb, matches (one c) a ga b gb -> gb = ga /\ consumes a b [c]) as One.
  { intros c a' ga' b' gb' M. inversion M as [|? ? ? d ? ? E| | | | | | |]; subst.
    apply Z.eqb_eq in E as ->. split; [done|]. split_and!; [done|rewrite len_length; cbn; lia|done]. }
  revert a ga. induction s as [|c s IH]; intros a ga M.
  - inv M. split; [done|]. split_and!; [done|rewrite len_length; cbn; lia|done].
  - destruct s as [|d s]; [by apply One|].
    change (text (c :: d :: s)) with (MCat (one c) (text (d :: s))) in M.
    inversion M as [| |? ? ? ? m gm ? ? M1 M2| | | | | |]; subst.
    apply One in M1 as [-> C1]. apply IH in M2 as [-> C2]. split; [done|].
    exact (consumes_app _ _ _ [c] _ C1 C2).
Qed.

Lemma matches_class ok a ga b gb : matches (MChr ok) a ga b gb -> gb = ga /\ exists c, ok c = true /\ consumes a b [c].
Proof.
  intros M. inversion M as [|? ? ? c ? ? E| | | | | | |]; subst. split; [done|]. exists c. split; [done|].
  split_and!; [done|rewrite len_length; cbn; lia|done].
Qed.

Lemma matches_star_class greedy ok a ga b gb : matches (MStar greedy (MChr ok)) a ga b gb ->
  gb = ga /\ exists w, Forall (fun c => ok c = true) w /\ consumes a b w.
Proof.
  remember (MStar greedy (MChr ok)) as p eqn:Ep. intros M. induction M; try discriminate Ep.
  - split; [done|]. exists []. split; [constructor|]. split_and!; [done|rewrite len_length; cbn; lia|done].
  - injection Ep as -> ->. apply matches_class in M1 as (-> & d & Hd & C1).
    destruct (IHM2 eq_refl) as (-> & w & Hw & C2). split; [done|]. exists (d :: w).
    split; [by constructor|]. exact (consumes_app _ _ _ [d] _ C1 C2).
Qed.

(** [[...]+] *)
Lemma matches_plus_class ok a ga b gb : matches (plus (MChr ok)) a ga b gb ->
  gb = ga /\ exists w, w <> [] /\ Forall (fun c => ok c = true) w /\ consumes a b w.
Proof.
  intros M. inversion M as [| |? ? ? ? m gm ? ? M1 M2| | | | | |]; subst.
  apply matches_class in M1 as (-> & d & Hd & C1). apply matches_star_class in M2 as (-> & w & Hw & C2).
  split; [done|]. exists (d :: w). split_and!; [done|by constructor|]. exact (consumes_app _ _ _ [d] _ C1 C2).
Qed.

(** A group reports the text it consumed. *)
Lemma matches_group n p a ga b gb : matches (MGrp n p) a ga b gb ->
  exists w g, consumes a b w /\ gb = (n, w) :: g /\ matches p a ga b g.
Proof.
  intros M. inversion M as [| | | | | | |? ? ? ? ? g M'|]; subst.
  destruct (matches_consumes _ _ _ _ _ M') as [w W]. exists w, g. split_and!; [done| |done].
  destruct W as (E & H & _). do 2 f_equal. rewrite ztake_take, E, H, len_length.
  replace (Z.to_nat _) with (length w) by lia. apply take_app_length.
Qed.

Lemma matches_last p a ga b gb : matches (all_of [p]) a ga b gb -> matches p a ga b gb.
Proof. exact id. Qed.
Lemma matches_seq p q ps a ga b gb : matches (all_of (p :: q :: ps)) a ga b gb ->
  exists m gm, matches p a ga m gm /\ matches (all_of (q :: ps)) m gm b gb.
Proof. intros M. inversion M; subst. eauto. Qed.
