(* ===== verification/PyPath.v ===== *)
(** File names and links: [fnmatch.fnmatchcase], the lexical part of
    [pathlib], and [urllib.parse.unquote]. *)

From stdpp Require Import base tactics list gmap strings numbers list_numbers.
From S2P Require Import Prelude PyText PyBytes.
Open Scope Z_scope.

(** * Shell patterns *)

(** The members of a bracket expression: a range [a-b] or a character; a range
    whose ends are reversed is empty. *)
Fixpoint members (s : pystr) (c : Z) : bool :=
  match s with
  | [] => false
  | a :: s1 =>
      match s1 with
      | 45 :: b :: s2 => ((a <=? c) && (c <=? b)) || members s2 c
      | _ => (a =? c) || members s1 c
      end
  end.

(** Reversed ranges at the front are dropped; a [!] that then comes first
    negates the set. *)
Fixpoint negated_after_empty (s : pystr) : option pystr :=
  match s with
  | a :: 45 :: b :: s' =>
      if b <? a then
        match s' with
        | 33 :: s'' => Some s''
        | _ => negated_after_empty s'
        end
      else None
  | _ => None
  end.

Definition bracket (s : pystr) (c : Z) : bool :=
  match s with
  | 33 :: s => negb (members s c)
  | _ => match negated_after_empty s with
         | Some s => negb (members s c)
         | None => members s c
         end
  end.

(** The text of a bracket expression and what follows it: a [!] and a [\]]
    right after the bracket belong to the text. *)
Definition bracket_body (s : pystr) : option (pystr * pystr) :=
  let '(bang, s1) := match s with 33 :: s1 => ([33], s1) | _ => ([], s) end in
  let '(close, s2) := match s1 with 93 :: s2 => ([93], s2) | _ => ([], s1) end in
  match cut [93] s2 with
  | Some (b, a) => Some (bang ++ close ++ b, a)
  | None => None
  end.

Inductive glob_part : Type := Any | AnyChar | Set_ (ok : Z -> bool).

(** The parts of a pattern; every turn takes a character of it. *)
Fixpoint glob_parts (fuel : nat) (s : pystr) : list glob_part :=
  match fuel, s with
  | S fuel, c :: s =>
      if c =? 42 then Any :: glob_parts fuel s
      else if c =? 63 then AnyChar :: glob_parts fuel s
      else if c =? 91 then
        match bracket_body s with
        | Some (body, s) => Set_ (bracket body) :: glob_parts fuel s
        | None => Set_ (fun d => d =? c) :: glob_parts fuel s
        end
      else Set_ (fun d => d =? c) :: glob_parts fuel s
  | _, _ => []
  end.

Fixpoint glob_match (ps : list glob_part) : pystr -> bool :=
  match ps with
  | [] => fun s => match s with [] => true | _ => false end
  | Any :: ps =>
      let tail := glob_match ps in
      fix any (s : pystr) : bool :=
        tail s || match s with [] => false | _ :: s => any s end
  | AnyChar :: ps => fun s => match s with [] => false | _ :: s => glob_match ps s end
  | Set_ ok :: ps => fun s => match s with [] => false | c :: s => ok c && glob_match ps s end
  end.

(** [fnmatch.fnmatchcase(name, pattern)] *)
Definition fnmatchcase (name pattern : pystr) : bool :=
  glob_match (glob_parts (length pattern) pattern) name.

(** * Pure paths *)

Definition slash : pystr := u "/".

(** [PurePosixPath(s).parts]: empty components and [.] disappear, a leading
    slash (or exactly two) is the first part. *)
Definition path_parts (s : pystr) : list pystr :=
  let names := filter (fun p => p <> [] /\ p <> u ".") (split slash s) in
  match s with
  | 47 :: 47 :: 47 :: _ => slash :: names
  | 47 :: 47 :: _ => u "//" :: names
  | 47 :: _ => slash :: names
  | _ => names
  end.

Definition is_absolute (s : pystr) : bool := startswith s slash.

(** [PurePosixPath(s).suffix]: from the last dot of the name, unless the dot is
    its first or last character. *)
Definition name_of (s : pystr) : pystr :=
  default [] (last (filter (fun p => p <> [] /\ p <> u ".") (split slash s))).
Definition suffix (s : pystr) : pystr :=
  match rev (split (u ".") (name_of s)) with
  | (c :: ext) :: before :: more =>
      match before, more with [], [] => [] | _, _ => u "." ++ c :: ext end
  | _ => []
  end.

(** * Percent decoding *)

Definition hex_value (c : Z) : option Z :=
  if digit c then Some (c - 48)
  else if in_range "a" "f" c then Some (c - 87)
  else if in_range "A" "F" c then Some (c - 55) else None.

(** [unquote_to_bytes] on ASCII text *)
Fixpoint percent_bytes (s : pystr) : pybytes :=
  match s with
  | [] => []
  | c :: s1 =>
      match s1 with
      | a :: b :: s2 =>
          if c =? 37 then
            match hex_value a, hex_value b with
            | Some x, Some y => (16 * x + y) :: percent_bytes s2
            | _, _ => c :: percent_bytes s1
            end
          else c :: percent_bytes s1
      | _ => c :: percent_bytes s1
      end
  end.

(** The continuation bytes a lead byte wants: how many, the bounds of the
    first, and the bits of the lead byte. *)
Definition utf8_lead (b : Z) : option (nat * Z * Z * Z) :=
  if (194 <=? b) && (b <=? 223) then Some (1%nat, 128, 191, b - 192)
  else if b =? 224 then Some (2%nat, 160, 191, 0)
  else if b =? 237 then Some (2%nat, 128, 159, 13)
  else if (225 <=? b) && (b <=? 239) then Some (2%nat, 128, 191, b - 224)
  else if b =? 240 then Some (3%nat, 144, 191, 0)
  else if (241 <=? b) && (b <=? 243) then Some (3%nat, 128, 191, b - 240)
  else if b =? 244 then Some (3%nat, 128, 143, 4)
  else None.

Definition REPLACEMENT : Z := 65533.

(** [bs.decode("utf-8", "replace")].  [want] is what the current sequence
    still needs: the number of bytes, the bounds of the next and the value so
    far; an incomplete sequence is one replacement character. *)
Fixpoint utf8_replace (want : option (nat * Z * Z * Z)) (bs : pybytes) : pystr :=
  let start (b : Z) (tail : option (nat * Z * Z * Z) -> pystr) :=
    if b <? 128 then b :: tail None
    else match utf8_lead b with
         | Some w => tail (Some w)
         | None => REPLACEMENT :: tail None
         end in
  match bs with
  | [] => match want with Some _ => [REPLACEMENT] | None => [] end
  | b :: bs =>
      match want with
      | Some (S n, lo, hi, v) =>
          if (lo <=? b) && (b <=? hi) then
            let v := v * 64 + (b - 128) in
            match n with
            | O => v :: utf8_replace None bs
            | S _ => utf8_replace (Some (n, 128, 191, v)) bs
            end
          else REPLACEMENT :: start b (fun w => utf8_replace w bs)
      | _ => start b (fun w => utf8_replace w bs)
      end
  end.

(** [bs.decode("utf-8")] *)
Fixpoint utf8_strict (want : option (nat * Z * Z * Z)) (bs : pybytes) : result pystr :=
  match bs with
  | [] => match want with Some _ => Raise UnicodeDecodeError | None => Ok [] end
  | b :: bs =>
      match want with
      | Some (S n, lo, hi, v) =>
          if (lo <=? b) && (b <=? hi) then
            let v := v * 64 + (b - 128) in
            match n with
            | O => cons v <$> utf8_strict None bs
            | S _ => utf8_strict (Some (n, 128, 191, v)) bs
            end
          else Raise UnicodeDecodeError
      | _ =>
          if b <? 128 then cons b <$> utf8_strict None bs
          else match utf8_lead b with
               | Some w => utf8_strict (Some w) bs
               | None => Raise UnicodeDecodeError
               end
      end
  end.

(** [s.encode()], for text without surrogates *)
Definition utf8_bytes (c : Z) : pybytes :=
  if c <? 128 then [c]
  else if c <? 2048 then [192 + c / 64; 128 + c mod 64]
  else if c <? 65536 then [224 + c / 4096; 128 + c / 64 mod 64; 128 + c mod 64]
  else [240 + c / 262144; 128 + c / 4096 mod 64; 128 + c / 64 mod 64; 128 + c mod 64].
Definition utf8_encode (s : pystr) : pybytes := flat_map utf8_bytes s.

(** Runs of ASCII characters, decoded, between the other characters. *)
Fixpoint unquote_runs (run : pystr) (s : pystr) : pystr :=
  match s with
  | [] => utf8_replace None (percent_bytes (rev run))
  | c :: s =>
      if c <? 128 then unquote_runs (c :: run) s
      else utf8_replace None (percent_bytes (rev run)) ++ c :: unquote_runs [] s
  end.

(** [urllib.parse.unquote] *)
Definition unquote (s : pystr) : pystr :=
  if contains (u "%") s then unquote_runs [] s else s.

(** * Examples *)

Lemma fnmatch_examples :
  fnmatchcase (u "kernel/log.c") (u "kernel/*.c") = true /\
  fnmatchcase (u "kernel/log.h") (u "kernel/*.c") = false /\
  fnmatchcase (u "a]b") (u "a[]x]b") = true /\ fnmatchcase (u "axb") (u "a[!x-z]b") = false.
Proof. repeat split; vm_compute; reflexivity. Qed.

Lemma unquote_examples :
  unquote (u "a%20b") = u "a b" /\ unquote (u "%E4%B8%AD%E4") = u "中" ++ [REPLACEMENT] /\
  unquote (u "100%") = u "100%".
Proof. repeat split; vm_compute; reflexivity. Qed.

Lemma path_examples :
  path_parts (u "reviews//./a.md") = [u "reviews"; u "a.md"] /\ suffix (u "reviews/a.md") = u ".md" /\
  suffix (u ".md") = [] /\ path_parts (u "/x") = [u "/"; u "x"].
Proof. repeat split; vm_compute; reflexivity. Qed.
