(* ===== verification/PyJson.v ===== *)
(** JSON documents as [json.loads] returns them, with the dictionary and list
    operations the scripts use on them and the exceptions those raise. *)

From stdpp Require Import base tactics list gmap strings numbers list_numbers.
From S2P Require Import Prelude PyText PyBytes.
Open Scope Z_scope.

(** A float, by its exact value [m * 2^e]; [json.loads] also reads the three
    special values. *)
Inductive pyfloat : Type :=
| Finite (m e : Z)
| Infinity (negative : bool)
| NaN.

(** A dictionary keeps the order of insertion; its keys are distinct. *)
Inductive json : Type :=
| JNull
| JBool (b : bool)
| JInt (z : Z)
| JFloat (f : pyfloat)
| JStr (s : pystr)
| JList (l : list json)
| JObj (o : list (pystr * json)).

Abbreviation obj := (list (pystr * json)).

(** [type(v) is dict], [list], [str], [int]; a [bool] is not a plain [int]. *)
Definition as_obj (v : json) : option obj := match v with JObj o => Some o | _ => None end.
Definition as_list (v : json) : option (list json) := match v with JList l => Some l | _ => None end.
Definition as_str (v : json) : option pystr := match v with JStr s => Some s | _ => None end.
Definition as_int (v : json) : option Z := match v with JInt z => Some z | _ => None end.

Fixpoint lookup_key {A} (k : pystr) (o : list (pystr * A)) : option A :=
  match o with
  | [] => None
  | (k', v) :: o => if bool_decide (k = k') then Some v else lookup_key k o
  end.

(** [set(a) == set(b)] for lists of strings *)
Definition same_set (a b : list pystr) : bool :=
  forallb (fun k => bool_decide (k ∈ b)) a && forallb (fun k => bool_decide (k ∈ a)) b.

(** [o[k]] and [o.get(k)] (a missing key gives [None]). *)
Definition item (o : obj) (k : string) : result json := of_option KeyError (lookup_key (u k) o).
Definition get (o : obj) (k : string) : json := default JNull (lookup_key (u k) o).

Definition keys {A} (o : list (pystr * A)) : gset pystr := list_to_set o.*1.

(** [set(o) == {...}] *)
Definition has_keys (o : obj) (names : list string) : bool :=
  same_set o.*1 (u <$> names).

(** Lists and dictionaries cannot be put in a set or looked up in one. *)
Definition hashable (v : json) : bool :=
  match v with JList _ | JObj _ => false | _ => true end.

(** [v == "..."] *)
Definition is_str (v : json) (s : string) : bool :=
  match v with JStr t => bool_decide (t = u s) | _ => false end.

(** Equality of a JSON dictionary with one from strings to strings. *)
Definition dict_eq_strs (v : json) (expected : list (string * string)) : bool :=
  match v with
  | JObj o =>
      (len o =? len expected) &&
      forallb (fun '(k, t) => match lookup_key (u k) o with Some v => is_str v t | None => false end)
        expected
  | _ => false
  end.

(** * Equality

    [a == b] on JSON values: booleans are the integers 0 and 1, a float equals
    an integer of the same value, dictionaries are compared without order. *)

(** The value of a finite number as [m * 2^e] *)
Definition number (v : json) : option (Z * Z) :=
  match v with
  | JBool b => Some (Z.b2z b, 0)
  | JInt z => Some (z, 0)
  | JFloat (Finite m e) => Some (m, e)
  | _ => None
  end.
Definition same_number (a b : Z * Z) : bool :=
  let lo := Z.min a.2 b.2 in
  a.1 * 2 ^ (a.2 - lo) =? b.1 * 2 ^ (b.2 - lo).

Fixpoint json_eq (a b : json) {struct a} : bool :=
  match a, b with
  | JNull, JNull => true
  | JStr s, JStr t => bool_decide (s = t)
  | JFloat (Infinity x), JFloat (Infinity y) => Bool.eqb x y
  | JList l, JList m =>
      (fix eqs (l m : list json) : bool :=
         match l, m with
         | [], [] => true
         | x :: l, y :: m => json_eq x y && eqs l m
         | _, _ => false
         end) l m
  | JObj o, JObj q =>
      (len o =? len q) &&
      (fix sub (o : list (pystr * json)) : bool :=
         match o with
         | [] => true
         | (k, x) :: o =>
             match lookup_key k q with Some y => json_eq x y && sub o | None => false end
         end) o
  | _, _ =>
      match number a, number b with Some x, Some y => same_number x y | _, _ => false end
  end.

(** [v == z] for an integer literal *)
Definition is_int (v : json) (z : Z) : bool := json_eq v (JInt z).

(** * Dictionaries that may be something else *)

(** [v.get(k, d)]: only a dictionary has the method. *)
Definition jget (v : json) (k : string) (d : json) : result json :=
  match v with JObj o => Ok (default d (lookup_key (u k) o)) | _ => Raise AttributeError end.

(** [for x in v] *)
Definition iterate (v : json) : result (list json) :=
  match v with
  | JList l => Ok l
  | JObj o => Ok (JStr <$> o.*1)
  | JStr s => Ok ((fun c => JStr [c]) <$> s)
  | _ => Raise TypeError
  end.

(** [set(v)], and [set(v) == {...}] for a set of strings: an unhashable element
    raises. *)
Definition py_set (v : json) : result (list json) :=
  l ← iterate v; if forallb hashable l then Ok l else Raise TypeError.
Definition set_has (l : list json) (s : string) : bool := existsb (fun v => is_str v s) l.
Definition set_is (l : list json) (names : list string) : bool :=
  forallb (fun v => existsb (is_str v) names) l && forallb (set_has l) names.

(** [v in {...}] for a set of strings *)
Definition in_strs (v : json) (names : list string) : result bool :=
  if hashable v then Ok (existsb (is_str v) names) else Raise TypeError.

(** Literals *)
Definition jstr (s : string) : json := JStr (u s).
Definition kv (k : string) (v : json) : pystr * json := (u k, v).
Definition jstrs (l : list string) : json := JList (jstr <$> l).
Definition jopt (o : option pystr) : json := match o with Some s => JStr s | None => JNull end.

(** * Dictionaries and sets *)

(** [bool(v)] *)
Definition truthy (v : json) : bool :=
  match v with
  | JNull => false
  | JBool b => b
  | JInt z => negb (z =? 0)
  | JFloat (Finite m _) => negb (m =? 0)
  | JFloat _ => true
  | JStr s => negb (bool_decide (s = []))
  | JList l => match l with [] => false | _ => true end
  | JObj o => match o with [] => false | _ => true end
  end.

(** [d[k] = v]: a key that is there keeps its place. *)
Fixpoint dict_set {A} (k : pystr) (v : A) (d : list (pystr * A)) : list (pystr * A) :=
  match d with
  | [] => [(k, v)]
  | (k', v') :: d => if bool_decide (k = k') then (k, v) :: d else (k', v') :: dict_set k v d
  end.

Definition has_key {A} (k : pystr) (d : list (pystr * A)) : bool :=
  match lookup_key k d with Some _ => true | None => false end.

(** [v in d] for a dictionary with string keys *)
Definition key_in {A} (v : json) (d : list (pystr * A)) : result bool :=
  if hashable v then Ok (match v with JStr s => has_key s d | _ => false end) else Raise TypeError.

(** [v in s] for a set of JSON values, kept as a list *)
Definition in_set (v : json) (s : list json) : result bool :=
  if hashable v then Ok (existsb (json_eq v) s) else Raise TypeError.
Definition in_dict {A} (v : json) (d : list (json * A)) : result (option A) :=
  if hashable v then Ok (snd ∘ snd <$> list_find (fun e => json_eq v (fst e) = true) d)
  else Raise TypeError.

(** A string, where another type raises. *)
Definition need_str (v : json) : result pystr :=
  match v with JStr s => Ok s | _ => Raise TypeError end.

(** The interpolation of a value into a message *)
Definition piece_of (v : json) : piece :=
  match v with JStr s => V s | JInt z => D z | _ => Elided end.

Lemma lookup_dict_set {A} k (v : A) d : lookup_key k (dict_set k v d) = Some v.
Proof.
  induction d as [|[k' v'] d IH]; cbn; [by rewrite bool_decide_true|].
  case_bool_decide as E; cbn; [by rewrite bool_decide_true|]. by rewrite bool_decide_false.
Qed.
Lemma lookup_dict_set_ne {A} k k' (v : A) d : k <> k' -> lookup_key k' (dict_set k v d) = lookup_key k' d.
Proof.
  intros Hne. induction d as [|[k1 v1] d IH]; cbn; [by rewrite bool_decide_false|].
  case_bool_decide as E; cbn; [subst|by rewrite IH]. by rewrite !(bool_decide_false (k' = k1)).
Qed.
Lemma lookup_key_Some {A} k (v : A) d : lookup_key k d = Some v -> (k, v) ∈ d.
Proof.
  induction d as [|[k' v'] d IH]; cbn; [done|].
  case_bool_decide; [intros [= ->]; subst; left|right; auto].
Qed.
Lemma lookup_key_elem {A} k (d : list (pystr * A)) : k ∈ d.*1 <-> is_Some (lookup_key k d).
Proof.
  split.
  - induction d as [|[k' v'] d IH]; cbn; [by intros ?%not_elem_of_nil|].
    intros [->|H]%elem_of_cons; [rewrite bool_decide_true; eauto|].
    case_bool_decide; eauto.
  - intros [v H%lookup_key_Some]. by apply (list_elem_of_fmap_2 fst) in H.
Qed.
