(* ===== verification/Regression.v ===== *)
(** [test-xv6.py], the driver that boots xv6, types commands and looks for lines
    in what comes back.  The host is an interface; what the driver prints is
    kept.  Times are integers, in nanoseconds.

    Neither a command nor a read has a time limit: a call that never returns is
    [None], and a run that makes it has no outcome. *)

From stdpp Require Import base tactics list gmap strings numbers list_numbers pretty.
From S2P Require Import Prelude PyText PyBytes PyIo PyRegex PyPath RegexSpec.
Open Scope Z_scope.

Class Machine (W : Type) := {
  (** [subprocess.run]: the exit status, or the exception when the program
      cannot be started *)
  execute : list string -> W -> option (result Z * W);
  (** [Popen(["make", "qemu"])] *)
  start : W -> result () * W;
  sleep_for : Z -> W -> W;
  time_now : W -> Z * W;
  (** [stdin.write] and [flush] *)
  type_in : pybytes -> W -> result () * W;
  (** [os.read(stdout, 4096)], which waits for something to read *)
  read_out : W -> option (result pybytes * W);
  (** [ps --ppid] *)
  children : W -> result (list Z) * W;
  (** [os.kill(kid, SIGKILL)] *)
  kill_child : Z -> W -> result () * W;
  terminate : W -> W;
  (** [open("test-xv6.out", "w")] *)
  open_output : W -> result () * W
}.

Definition second : Z := 1000000000.

(** A call that may never return *)
Definition call {W A} (f : W -> option (result A * W)) : io W A := fun _ w => f w.

Section Driver.
Context {W : Type} `{!Machine W}.

Record Driver : Type := { printed : list pystr; machine : W }.
Record QEMU : Type := { outbytes : pybytes; output : pystr; driver : Driver }.

Definition on_machine {A} (m : io W A) : io Driver A :=
  zoom machine (fun w d => {| printed := printed d; machine := w |}) m.
Definition on_driver {A} (m : io Driver A) : io QEMU A :=
  zoom driver (fun d q => {| outbytes := outbytes q; output := output q; driver := d |}) m.
Definition touch (f : W -> W) : io QEMU () := on_driver (on_machine (update f)).

(** [print] *)
Definition say (line : pystr) : io Driver () :=
  update (fun d => {| printed := printed d ++ [line]; machine := machine d |}).

(** [run(command, check=True)]: a failure is printed and passed over. *)
Definition run_or_say (command : list string) : io Driver bool :=
  code ← on_machine (call (execute command));
  if code =? 0 then mret true
  else say (u "Command failed with exit code " ++ str_of_int code);; mret false.
Definition build_xv6 : io Driver () := run_or_say ["make"; "kernel/kernel"];; mret tt.
Definition reset_fs : io Driver () :=
  removed ← run_or_say ["rm"; "-f"; "fs.img"];
  if removed : bool then run_or_say ["make"; "fs.img"];; mret tt else mret tt.

(** The constructor, [QEMU(reset)] *)
Definition booted (reset : bool) : io Driver () :=
  (if reset then build_xv6;; reset_fs else mret tt);;
  on_machine (act start);;
  on_machine (update (sleep_for second)).

Definition new_qemu (d : Driver) : QEMU := {| outbytes := []; output := []; driver := d |}.

(** [q = QEMU(reset)], and what is done with it *)
Definition with_qemu {A} (reset : bool) (body : io QEMU A) : io Driver A :=
  booted reset;; scope new_qemu driver body.

Definition cmd (c : string) : io QEMU () :=
  on_driver (on_machine (act (type_in (bytes_of_string c ++ [newline])))).

(** [os.exit] does not exist. *)
Definition crash : io QEMU () :=
  kids ← on_driver (on_machine (act children));
  match kids with
  | [] => on_driver (say (u "no qemu"));; raise AttributeError
  | kid :: _ => on_driver (say (u "kill " ++ str_of_int kid));; on_driver (on_machine (act (kill_child kid)))
  end.

Definition stop : io QEMU () := touch terminate.

Definition read : io QEMU () :=
  buf ← on_driver (on_machine (call read_out));
  update (fun q => {| outbytes := outbytes q ++ buf; output := utf8_replace None (outbytes q ++ buf);
                      driver := driver q |}).

(** There is no attribute [out], which is not an [OSError]. *)
Definition save_output : io QEMU () :=
  catch (on_driver (on_machine (act open_output));; raise AttributeError) (fun e =>
    match e with
    | OSError => Some (on_driver (say (u "Provided a bad results path. Error:")))
    | _ => None
    end).

(** The first line of [error] names [regexps], which is a variable of [match]. *)
Definition error {A} : io QEMU A := raise NameError.

(** [any(re.match(r, line) for r in regexps)] *)
Definition matches_any (regexps : list pattern) (line : pystr) : bool :=
  existsb (fun r => match re_match r line with Some _ => true | None => false end) regexps.

(** The lines that match are printed; the last of them is returned. *)
Definition match_ (regexps : list pattern) (exit : bool) : io QEMU (bool * pystr) :=
  q ← state;
  let found := base.filter (fun line => matches_any regexps line = true) (splitlines (output q)) in
  on_driver (fold_io (fun _ line => say line) tt found);;
  if bool_decide (found = []) && exit then error
  else mret (negb (bool_decide (found = [])), default [] (last found)).

(** The loop of [monitor]: one round, and whether another follows *)
Definition round (regexps : list pattern) (progress : pattern) (deadline : Z) : io QEMU bool :=
  touch (sleep_for second);;
  now ← on_driver (on_machine (ask time_now));
  (if deadline - now <? 0 then error else mret tt);;
  read;;
  '(ok, _) ← match_ regexps false;
  if ok : bool then mret false else
  '(ok, line) ← match_ [progress] false;
  (if ok : bool then on_driver (say line) else mret tt);;
  mret true.
Definition monitor (regexps : list pattern) (progress : pattern) (timeout : Z) : io QEMU () :=
  now ← on_driver (on_machine (ask time_now));
  while (round regexps progress (now + timeout)) (mret tt).

(** [^text], for a text of literal characters *)
Definition starts (s : string) : pattern := all_of [bol; lit s].

(** * The tests *)

Definition pause (n : Z) : io QEMU () := touch (sleep_for (n * second)).

Definition crash_log : io Driver () :=
  with_qemu true (cmd "logstress f0 f1 f2 f3 f4 f5";; pause 2;; crash;; stop).

Definition recover_log : io Driver bool :=
  with_qemu false
    (pause 2;;
     read;;
     '(ok, _) ← match_ [starts "recovering"] false;
     (if ok : bool then cmd "ls";; pause 2;; read;; match_ [lit "f5"] true;; mret tt else mret tt);;
     stop;;
     mret ok).

Definition orphan (c : string) : io Driver () :=
  with_qemu true (cmd c;; pause 5;; read;; match_ [lit "wait"] true;; crash;; stop).

Definition recover_orphan : io Driver () :=
  with_qemu false (pause 2;; read;; match_ [starts "ireclaim"] true;; stop).

(** [for i in range(5)], which a recovery ends *)
Fixpoint log_attempts (numbers : list Z) : io Driver () :=
  match numbers with
  | [] => say (u "FAIL");; raise (SystemExit 1)
  | i :: numbers =>
      crash_log;;
      ok ← recover_log;
      if ok : bool then say (u "OK")
      else say (u "log attempt  " ++ str_of_int (i + 1));; log_attempts numbers
  end.
Definition test_log : io Driver () := say (u "Test recovery of log");; log_attempts (range 0 5).

Definition test_orphan (c : string) : io Driver () :=
  say (u "Test recovery of an orphaned file");; orphan c;; recover_orphan;; say (u "OK").
Definition test_forphan : io Driver () := test_orphan "forphan".
Definition test_dorphan : io Driver () := test_orphan "dorphan".
Definition test_crash : io Driver () := test_log;; test_forphan;; test_dorphan.

Definition usertests_command (quick : bool) (test : string) : string :=
  String.append "usertests"
    (if quick then " -q" else if bool_decide (test = ""%string) then "" else String.append " " test).

Definition test_usertests (quick : bool) (test : string) : io Driver () :=
  with_qemu true
    (cmd (usertests_command quick test);;
     monitor [starts "ALL TESTS PASSED"] (lit "test") ((if quick then 300 else 600) * second);;
     stop).

(** The functions whose name starts with [test], by name; [selects] is
    [re.search(rex, name)].  The line of [print(args)] is left out. *)
Definition tests (quick : bool) : list (string * io Driver ()) :=
  [ ("test_crash", test_crash); ("test_dorphan", test_dorphan); ("test_forphan", test_forphan);
    ("test_log", test_log); ("test_usertests", test_usertests quick "") ]%string.

Definition main (quick : bool) (testrex : string) (selects : string -> bool) : io Driver () :=
  let chosen := base.filter (fun t => selects t.1 = true) (tests quick) in
  fold_io (fun _ t => t.2) tt chosen;;
  if bool_decide (chosen.*1 = []) then test_usertests quick testrex else mret tt.
End Driver.
Arguments Driver W : clear implicits.
Arguments QEMU W : clear implicits.

(** * Properties

    What the driver [test-xv6.py] shows when a test passes, and how it fails. *)

(** The clock never goes back, and sleeping takes time; [emitted] is what the
    guests have written so far, and is read in pieces. *)
Class MachineLaws (W : Type) `{!Machine W} := {
  clock_of : W -> Z;
  emitted : W -> pybytes;
  sleep_emitted w t : emitted (sleep_for t w) = emitted w;
  time_emitted w : emitted (time_now w).2 = emitted w;
  type_emitted w data : emitted (type_in data w).2 = emitted w;
  terminate_emitted w : emitted (terminate w) = emitted w;
  read_emitted w buf w' : read_out w = Some (Ok buf, w') -> emitted w' = emitted w ++ buf;
  time_between w : clock_of w <= (time_now w).1 <= clock_of (time_now w).2;
  sleep_lasts w t : 0 < t -> clock_of w < clock_of (sleep_for t w);
  read_lasts w r w' : read_out w = Some (r, w') -> clock_of w <= clock_of w'
}.

(** Every command ends and every read gets something or the end of the pipe. *)
Class Answers (W : Type) `{!Machine W} : Prop := {
  execute_returns c w : is_Some (execute c w);
  read_returns w : is_Some (read_out w)
}.

#[global] Instance mono_call W A (f : W -> option (result A * W)) : Mono (call f).
Proof. intros n n' w x _ H. exact H. Qed.
Lemma total_call W A (f : W -> option (result A * W)) : (forall w, is_Some (f w)) -> Total (call f).
Proof. intros H w. destruct (H w) as [[r w'] E]. by exists r, w', 0%nat. Qed.
Lemma post_call W A (f : W -> option (result A * W)) w (Q : result A -> W -> Prop) :
  (forall r w', f w = Some (r, w') -> Q r w') -> post (call f) w Q.
Proof. intros H r w' [n E]. by apply H. Qed.
#[global] Typeclasses Opaque call.

(** * Lines *)

Lemma starts_sound s line : matches_any [starts s] line = true -> exists rest, line = u s ++ rest.
Proof.
  unfold matches_any, starts. cbn [existsb]. rewrite orb_false_r. unfold re_match.
  destruct (match_at _ _) as [[b g]|] eqn:E; cbn; [|done]. intros _.
  destruct (proj1 (match_at_iff _ _) (ex_intro _ _ E)) as (b' & g' & M).
  apply matches_seq in M as (c & gc & M1 & M2%matches_last). apply matches_text in M2 as [_ (Hr & _)].
  inversion M1; subst. by exists (rest b').
Qed.

Section Laws.
Context {W : Type} `{!Machine W}.

#[global] Instance mono_on_machine A (m : io W A) : Mono m -> Mono (on_machine m).
Proof. apply mono_zoom. Qed.
#[global] Instance mono_on_driver A (m : io (Driver W) A) : Mono m -> Mono (on_driver m).
Proof. apply mono_zoom. Qed.
#[global] Instance mono_say l : Mono (say (W := W) l).
Proof. unfold say. apply _. Qed.
#[global] Instance mono_run_or_say c : Mono (run_or_say (W := W) c).
Proof. unfold run_or_say. by_parts. Qed.
#[global] Instance mono_match rs e : Mono (match_ (W := W) rs e).
Proof. unfold match_, error. by_parts. Qed.
#[global] Instance mono_read : Mono (read (W := W)).
Proof. unfold read. by_parts. Qed.
#[global] Instance mono_round rs p d : Mono (round (W := W) rs p d).
Proof. unfold round, touch, error. by_parts. Qed.
#[global] Instance mono_monitor rs p t : Mono (monitor (W := W) rs p t).
Proof. unfold monitor. by_parts. Qed.
#[global] Instance mono_booted r : Mono (booted (W := W) r).
Proof. unfold booted, build_xv6, reset_fs. by_parts. Qed.
#[global] Instance mono_with_qemu A r (m : io (QEMU W) A) : Mono m -> Mono (with_qemu r m).
Proof. intros. unfold with_qemu. by_parts. Qed.
#[global] Instance mono_usertests q t : Mono (test_usertests (W := W) q t).
Proof. unfold test_usertests, cmd, stop, touch. by_parts. Qed.

#[global] Instance total_on_machine A (m : io W A) : Total m -> Total (on_machine m).
Proof. apply total_zoom. Qed.
#[global] Instance total_on_driver A (m : io (Driver W) A) : Total m -> Total (on_driver m).
Proof. apply total_zoom. Qed.
#[global] Instance total_say l : Total (say (W := W) l).
Proof. unfold say. apply _. Qed.
#[global] Instance total_match rs e : Total (match_ (W := W) rs e).
Proof. unfold match_, error. by_parts. Qed.

(** * Looking for lines *)

Definition seen (rs : list pattern) (q : QEMU W) : list pystr :=
  base.filter (fun line => matches_any rs line = true) (splitlines (output q)).

Lemma say_all lines (d : Driver W) : post (fold_io (fun _ line => say line) tt lines) d (fun r d1 =>
  r = Ok tt /\ printed d1 = printed d ++ lines /\ machine d1 = machine d).
Proof.
  revert d. induction lines as [|l lines IH]; intros d; cbn [fold_io].
  - post_step. by rewrite app_nil_r.
  - post_step. unfold say. post_step. eapply post_mono; [apply IH|]. cbn. intros r d1 (-> & -> & ->).
    by rewrite <- app_assoc.
Qed.

(** [match] prints the lines it finds; without one it fails when asked to. *)
Lemma match_post rs exit q : post (match_ rs exit) q (fun r q1 =>
  output q1 = output q /\ outbytes q1 = outbytes q /\ machine (driver q1) = machine (driver q) /\
  printed (driver q1) = printed (driver q) ++ seen rs q /\
  match r with
  | Ok (ok, _) => ok = negb (bool_decide (seen rs q = [])) /\ (exit = true -> ok = true)
  | Raise e => e = NameError /\ exit = true /\ seen rs q = []
  end).
Proof.
  unfold match_. do 2 post_step. fold (seen rs q). post_step. unfold on_driver. apply post_zoom.
  eapply post_mono; [apply say_all|]. intros r d1 (-> & P & M). unfold error.
  case_bool_decide as E; destruct exit; cbn [andb negb]; post_step; cbn; repeat split; try done.
Qed.

Context `{!MachineLaws W}.

(** The session has all that was written since the state [w0]. *)
Definition tracks (w0 : W) (q : QEMU W) : Prop := emitted (machine (driver q)) = emitted w0 ++ outbytes q.

Lemma driver_read_post w0 q : post read q (fun r q1 =>
  printed (driver q1) = printed (driver q) /\
  clock_of (machine (driver q)) <= clock_of (machine (driver q1)) /\
  match r with
  | Ok _ => (tracks w0 q -> tracks w0 q1) /\ output q1 = utf8_replace None (outbytes q1)
  | Raise e => exists w, read_out w = Some (Raise e, machine (driver q1))
  end).
Proof.
  unfold read, on_driver, on_machine. post_step. apply post_zoom, post_zoom, post_call.
  intros r w' E. pose proof (read_lasts _ _ _ E) as L. destruct r as [buf|e]; [|by eauto].
  pose proof (read_emitted _ _ _ E) as Em. post_step. cbn. split; [done|]. split; [done|]. split; [|done].
  unfold tracks. cbn. intros H. by rewrite Em, H, app_assoc.
Qed.

(** The time of a session *)
Definition time (q : QEMU W) : Z := clock_of (machine (driver q)).

(** A line that was written since [w0], matches and has been printed since [q0] *)
Definition reported (w0 : W) (rs : list pattern) (q0 q : QEMU W) : Prop :=
  exists line lines, matches_any rs line = true /\ printed (driver q) = printed (driver q0) ++ lines /\ line ∈ lines /\
    tracks w0 q /\ line ∈ splitlines (utf8_replace None (outbytes q)).

(** One state of the session follows another. *)
Definition goes_on (w0 : W) (q q1 : QEMU W) : Prop :=
  (tracks w0 q -> tracks w0 q1) /\ exists lines, printed (driver q1) = printed (driver q) ++ lines.

Lemma goes_on_trans w0 q1 q2 q3 : goes_on w0 q1 q2 -> goes_on w0 q2 q3 -> goes_on w0 q1 q3.
Proof.
  intros (K1 & l1 & P1) (K2 & l2 & P2). split; [auto|]. exists (l1 ++ l2). by rewrite P2, P1, app_assoc.
Qed.

Lemma reported_later w0 rs q0 q1 q : goes_on w0 q0 q1 -> reported w0 rs q1 q -> reported w0 rs q0 q.
Proof.
  intros (_ & l & P) (line & lines & M & P2 & I & H). exists line, (l ++ lines). split; [done|].
  rewrite P2, P, app_assoc. split; [done|]. split; [apply elem_of_app; by right|done].
Qed.

(** How a round fails: the time is over, or reading failed. *)
Definition round_fails (deadline : Z) (e : exn) (q : QEMU W) : Prop :=
  (e = NameError /\ deadline < time q) \/ exists w, read_out w = Some (Raise e, machine (driver q)).

(** After the clock was read: what was written is read and searched. *)
Lemma search_post w0 rs progress q : post
  (read;; '(ok, _) ← match_ rs false;
   if ok : bool then mret false else
   '(ok, line) ← match_ [progress] false;
   (if ok : bool then on_driver (say line) else mret tt);; mret true) q (fun r q1 =>
  time q <= time q1 /\
  match r with
  | Ok true => goes_on w0 q q1
  | Ok false => tracks w0 q -> reported w0 rs q q1
  | Raise e => exists w, read_out w = Some (Raise e, machine (driver q1))
  end).
Proof.
  post_step. eapply post_mono; [apply (driver_read_post w0)|].
  intros [[]|e] q1 (P1 & C1 & K1); [|by split]. destruct K1 as [K1 U1].
  post_step. eapply post_mono; [apply match_post|].
  intros [[ok l]|e] q2 (O2 & B2 & M2 & P2 & H2); [|by destruct H2 as (_ & ? & _)].
  assert (time q <= time q2) as T2 by (unfold time; by rewrite M2). destruct H2 as [-> _].
  assert (tracks w0 q -> tracks w0 q2) as K2 by (intros K%K1; unfold tracks in *; congruence).
  case_bool_decide as E; cbn [negb].
  - post_step. eapply post_mono; [apply match_post|].
    intros [[ok2 l2]|e] q3 (O3 & B3 & M3 & P3 & H3); [|by destruct H3 as (_ & ? & _)].
    assert (time q <= time q3) as T3 by (unfold time in *; by rewrite M3).
    assert (tracks w0 q -> tracks w0 q3) as K3 by (intros K%K2; unfold tracks in *; congruence).
    post_step. destruct ok2; [apply post_zoom; unfold say|]; do 2 post_step; (split; [exact T3|]); split; [exact K3| |exact K3|]; cbn;
      eexists; rewrite P3, P2, P1, <-?app_assoc; reflexivity.
  - post_step. split; [done|]. intros K. destruct (seen rs q1) as [|line ls] eqn:F; [done|].
    assert (line ∈ seen rs q1) as I by (rewrite F; left). unfold seen in I. apply list_elem_of_filter in I as [I1 I2].
    exists line, (line :: ls). split; [done|]. split; [by rewrite P2, P1|]. split; [left|]. split; [by apply K2|].
    by rewrite B2, <- U1.
Qed.

(** One round: it ends with a match, goes on, or fails. *)
Lemma round_post w0 rs progress deadline q : post (round rs progress deadline) q (fun r q1 =>
  time q < time q1 /\
  match r with
  | Ok true => time q <= deadline /\ goes_on w0 q q1
  | Ok false => tracks w0 q -> reported w0 rs q q1
  | Raise e => round_fails deadline e q1
  end).
Proof.
  unfold round, touch. post_step. unfold on_driver at 1, on_machine at 1. apply post_zoom, post_zoom. post_step. cbn.
  pose proof (sleep_lasts (machine (driver q)) second ltac:(done)) as Hs.
  post_step. apply post_zoom, post_zoom. post_step. cbn.
  set (w1 := sleep_for second (machine (driver q))) in *. pose proof (time_between w1) as Ht.
  pose proof (time_emitted w1) as He. unfold w1 in He. rewrite sleep_emitted in He. fold w1 in He.
  destruct (time_now w1) as [t w2]. cbn [fst snd] in *. fold (time q) in Hs.
  post_step. destruct (deadline - t <? 0) eqn:L.
  { unfold error. post_step. unfold round_fails, time in *. cbn. split; [lia|]. left. split; [done|lia]. }
  post_step. set (q0 := {| outbytes := outbytes q; output := output q; driver := {| printed := printed (driver q); machine := w2 |} |}).
  assert (goes_on w0 q q0) as G.
  { split; [unfold tracks, q0; cbn; congruence|]. exists []. by rewrite app_nil_r. }
  eapply post_mono; [apply (search_post w0 rs progress q0)|]. intros r q1 [T1 H].
  assert (time q < time q1) as T by (unfold time, q0 in *; cbn in *; lia). split; [done|].
  destruct r as [[]|e]; [|intros K; eapply reported_later; [done|]; by apply H, G|by right].
  split; [lia|]. by eapply goes_on_trans.
Qed.

(** Monitoring returns with a matching line, or fails when the time is over or
    reading does. *)
Lemma monitor_post w0 rs progress t q : tracks w0 q -> post (monitor rs progress t) q (fun r q1 =>
  match r with Ok _ => reported w0 rs q q1 | Raise e => round_fails (time q + t) e q1 end).
Proof.
  intros K. unfold monitor. post_step. unfold on_driver, on_machine. apply post_zoom, post_zoom. post_step. cbn.
  pose proof (time_between (machine (driver q))) as Ht. pose proof (time_emitted (machine (driver q))) as He.
  fold (time q) in Ht. destruct (time_now (machine (driver q))) as [now w1]. cbn [fst snd] in *.
  set (I := fun q0 : QEMU W => tracks w0 q0 /\ exists lines, printed (driver q0) = printed (driver q) ++ lines).
  apply (post_while _ _ I I).
  - intros q0 (K0 & l & P0). eapply post_mono; [apply (round_post w0)|]. intros [[]|e] q1 [_ H].
    + destruct H as (_ & G & l1 & P1). split; [by apply G|]. exists (l ++ l1). by rewrite P1, P0, app_assoc.
    + eapply reported_later; [|by apply H]. by split; [|exists l].
    + destruct H as [[-> H]|H]; [left; split; [done|lia]|by right].
  - intros q0 K0. by post_step.
  - split; [unfold tracks in *; cbn; congruence|]. exists []. cbn. by rewrite app_nil_r.
Qed.

(** * Outcomes *)

Section Outcomes.
Context `{!Answers W}.

#[global] Instance total_run_or_say c : Total (run_or_say (W := W) c).
Proof.
  unfold run_or_say. apply total_bind; [by_parts..| |by_parts].
  apply total_on_machine, total_call. apply execute_returns.
Qed.
#[global] Instance total_read : Total (read (W := W)).
Proof.
  unfold read. apply total_bind; [by_parts..| |by_parts].
  apply total_on_driver, total_on_machine, total_call. apply read_returns.
Qed.
#[global] Instance total_round rs p d : Total (round (W := W) rs p d).
Proof. unfold round, touch, error. by_parts. Qed.
#[global] Instance total_booted r : Total (booted (W := W) r).
Proof. unfold booted, build_xv6, reset_fs. by_parts. Qed.
#[global] Instance total_with_qemu A r (m : io (QEMU W) A) : Mono m -> Total m -> Total (with_qemu r m).
Proof. intros. unfold with_qemu. by_parts. Qed.

Lemma total_rounds rs progress deadline : Total (while (round (W := W) rs progress deadline) (mret tt)).
Proof.
  intros q. apply (while_halts _ _ (fun _ => True) (fun q => Z.to_nat (deadline + 1 - time q))); [apply _..| |done].
  intros q0 _. destruct (total_round rs progress deadline q0) as (r & q1 & R1). exists r, q1. split; [done|].
  intros ->. exists (Ok tt), q1. split; [by exists 0%nat|]. intros _. split; [done|].
  destruct (round_post (machine (driver q0)) _ _ _ _ _ _ R1) as (? & ? & _). lia.
Qed.

#[global] Instance total_monitor rs p t : Total (monitor (W := W) rs p t).
Proof. unfold monitor. apply total_bind; [by_parts..|]. intros now. apply total_rounds. Qed.
#[global] Instance total_usertests q t : Total (test_usertests (W := W) q t).
Proof. unfold test_usertests, cmd, stop, touch. by_parts. Qed.
End Outcomes.

(** * The verdict of the user tests *)

Definition usertests_line (quick : bool) (test : string) : pybytes :=
  bytes_of_string (usertests_command quick test) ++ [newline].
Definition usertests_time (quick : bool) : Z := (if quick then 300 else 600) * second.

(** The run from [d] to [d'] passed: the driver was started, typed the command
    in the state [w1], and in what was written from then on to the end there is
    a line that starts with ALL TESTS PASSED, which it has printed. *)
Definition tests_passed (quick : bool) (test : string) (d d' : Driver W) : Prop :=
  exists d1 w1 bytes lines rest, runs (booted true) d (Ok tt) d1 /\
    type_in (usertests_line quick test) (machine d1) = (Ok tt, w1) /\
    emitted (machine d') = emitted w1 ++ bytes /\
    u "ALL TESTS PASSED" ++ rest ∈ splitlines (utf8_replace None bytes) /\
    printed d' = printed d1 ++ lines /\ u "ALL TESTS PASSED" ++ rest ∈ lines.

(** The run failed: in starting the driver, in typing the command, when the
    time was over, which is a NameError, or in reading. *)
Definition tests_failed (quick : bool) (test : string) (d : Driver W) (e : exn) (d' : Driver W) : Prop :=
  runs (booted true) d (Raise e) d' \/
  exists d1 r w1, runs (booted true) d (Ok tt) d1 /\
    type_in (usertests_line quick test) (machine d1) = (r, w1) /\
    match r with
    | Raise e1 => e = e1 /\ machine d' = w1
    | Ok _ => (e = NameError /\ clock_of w1 + usertests_time quick < clock_of (machine d')) \/
              exists w, read_out w = Some (Raise e, machine d')
    end.

Lemma usertests_post quick test d : post (test_usertests quick test) d (fun r d' =>
  match r with Ok _ => tests_passed quick test d d' | Raise e => tests_failed quick test d e d' end).
Proof.
  unfold test_usertests, with_qemu. post_step. intros [[]|e] d1 Hb; [|by left].
  apply post_scope. post_step. unfold cmd, on_driver at 1, on_machine at 1.
  apply post_zoom, post_zoom. post_step. cbn [driver machine new_qemu]. fold (usertests_line quick test).
  destruct (type_in (usertests_line quick test) (machine d1)) as [[[]|e] w1] eqn:E; cbn [fst snd].
  2: { right. by exists d1, (Raise e), w1. }
  post_step. eapply post_mono; [apply (monitor_post w1); unfold tracks; cbn; by rewrite app_nil_r|].
  intros [[]|e] q1 H.
  - unfold stop, touch, on_driver, on_machine. apply post_zoom, post_zoom. post_step. cbn [driver machine printed].
    destruct H as (line & lines & M & P & I & K & S). apply starts_sound in M as [rest ->].
    exists d1, w1, (outbytes q1), lines, rest. split; [done|]. split; [done|]. cbn [machine printed].
    rewrite terminate_emitted. by repeat split.
  - right. exists d1, (Ok tt), w1. split; [done|]. split; [done|]. exact H.
Qed.

End Laws.

(** * A machine

    When the guest has nothing more to say, reading gives the end of the pipe,
    or waits for ever. *)

Record bench : Type := { b_now : Z; b_pieces : list pybytes; b_out : pybytes }.

Definition bench_machine (silent : bool) : Machine bench := {|
  execute _ w := Some (Ok 0, w);
  start w := (Ok tt, w);
  sleep_for t w := {| b_now := b_now w + Z.max 1 t; b_pieces := b_pieces w; b_out := b_out w |};
  time_now w := (b_now w, w);
  type_in _ w := (Ok tt, w);
  read_out w :=
    match b_pieces w with
    | [] => if silent then None else Some (Ok [], w)
    | piece :: pieces => Some (Ok piece, {| b_now := b_now w; b_pieces := pieces; b_out := b_out w ++ piece |})
    end;
  children w := (Ok [12], w);
  kill_child _ w := (Ok tt, w);
  terminate w := w;
  open_output w := (Ok tt, w)
|}.
#[local] Instance bench_laws silent : @MachineLaws bench (bench_machine silent).
Proof.
  refine (@Build_MachineLaws _ (bench_machine silent) b_now b_out _ _ _ _ _ _ _ _); cbn; try done; intros; try lia.
  - destruct (b_pieces w), silent; simplify_eq; cbn; by rewrite ?app_nil_r.
  - destruct (b_pieces w), silent; simplify_eq; cbn; lia.
Defined.
#[local] Instance bench_answers : @Answers bench (bench_machine false).
Proof. split; intros; cbn; [by eexists|]. destruct (b_pieces w); by eexists. Qed.

Definition passing : Driver bench :=
  {| printed := [];
     machine := {| b_now := 0; b_out := [];
                   b_pieces := [bytes_of_string "$ usertests" ++ [13; 10]; bytes_of_string "test copyin: OK" ++ [13; 10];
                                bytes_of_string "ALL TESTS PASSED" ++ [13; 10] ++ bytes_of_string "$ "] |} |}.
(** The guest stops before the tests are over. *)
Definition hanging : Driver bench :=
  {| printed := []; machine := {| b_now := 0; b_out := []; b_pieces := [bytes_of_string "test copyin: FAILED" ++ [10]] |} |}.

Abbreviation bench_usertests silent := (@test_usertests bench (bench_machine silent)).


(** The failure of a run that is still going when its time is over *)
Lemma hanging_run_fails : exists d', runs (bench_usertests false true "") hanging (Raise NameError) d'.
Proof. eexists. exists 400%nat. vm_compute. reflexivity. Qed.

(** A guest that stops writing without ending keeps the driver in [os.read],
    where the time limit is not looked at: the run has no outcome. *)
Lemma silent_guest_hangs : ~ halts (bench_usertests true true "") hanging.
Proof.
  intros (r & d' & n & E).
  assert (N : bench_usertests true true "" n hanging = None) by (destruct n as [|[|n]]; vm_compute; reflexivity).
  rewrite N in E. discriminate.
Qed.
