(* ===== verification/HostSession.v ===== *)
(** Processes of a runner ([persistence/run-lab.py]): stopping a process group,
    running a command, and a QEMU session that sends a command and reads until
    a marker.  The operating system is an interface: [Host] has its calls,
    [HostLaws] what is known of them. *)

From stdpp Require Import base tactics list gmap strings numbers list_numbers pretty.
From S2P Require Import Prelude PyText PyBytes PyIo PyPath.
Open Scope Z_scope.

(** * The calls

    A process is named by its number, which is also that of its group.  Times
    are integers, in nanoseconds; a time limit may be absent.  A command runs in
    the directory of the exported tree or in that of the shared repository. *)
Inductive directory : Type := Exported | Shared.

Class Host (W : Type) := {
  (** the directory, the variables set in the environment, and the command *)
  popen : directory -> list (string * string) -> list string -> W -> result Z * W;
  monotonic : W -> Z * W;
  sleep : Z -> W -> W;
  poll : Z -> W -> option Z * W;
  wait : Z -> option Z -> W -> result Z * W;
  killpg : Z -> Z -> W -> result () * W;
  communicate : Z -> option Z -> W -> result (pybytes * Z) * W;
  select_ : Z -> Z -> W -> bool * W;
  os_read : Z -> W -> pybytes * W;
  write_in : Z -> pybytes -> W -> result () * W
}.

Definition SIGKILL : Z := 9.
Definition SIGTERM : Z := 15.
Definition milliseconds (n : Z) : Z := n * 1000000.
Definition seconds (n : Z) : Z := milliseconds (n * 1000).

(** [l[-n:]] *)
Definition tail {A} (n : Z) (l : list A) : list A := zdrop (Z.max 0 (len l - n)) l.

Section Processes.
Context {W : Type} `{!Host W}.

(** * Process groups *)

Definition process_group_exists (group_id : Z) : io W bool :=
  catch (act (killpg group_id 0);; mret true) (fun e =>
    match e with
    | ProcessLookupError => Some (mret false)
    | PermissionError => Some (mret true)
    | _ => None
    end).

(** [try: os.killpg(group_id, signal) except ProcessLookupError: pass] *)
Definition kill_group (group_id signal : Z) : io W () :=
  catch (act (killpg group_id signal)) (fun e =>
    match e with ProcessLookupError => Some (mret tt) | _ => None end).

(** The process has ended, or is killed after five seconds; [last] limits the
    wait after that.  It is five seconds here, and absent in other runners. *)
Definition reap (last : option Z) (pid : Z) : io W () :=
  code ← ask (poll pid);
  match code with
  | Some _ => mret tt
  | None =>
      catch (act (wait pid (Some (seconds 5)));; mret tt) (fun e =>
        match e with
        | TimeoutExpired => Some (kill_group pid SIGKILL;; act (wait pid last);; mret tt)
        | _ => None
        end)
  end.

(** [while process_group_exists(group_id) and time.monotonic() < deadline] *)
Definition drain (group_id deadline : Z) : io W () :=
  while (there ← process_group_exists group_id;
         if there : bool then now ← ask monotonic; mret (now <? deadline) else mret false)
        (update (sleep (milliseconds 50))).

Definition stop_group (last : option Z) (process : option Z) : io W () :=
  match process with
  | None => mret tt
  | Some group_id =>
      kill_group group_id SIGTERM;;
      reap last group_id;;
      now ← ask monotonic;
      drain group_id (now + seconds 5);;
      there ← process_group_exists group_id;
      (if there : bool then kill_group group_id SIGKILL else mret tt);;
      there ← process_group_exists group_id;
      lift (require (negb there) [T "process group remains after cleanup: "; D group_id])
  end.

Definition patience : option Z := Some (seconds 5).

(** * Commands *)

(** [" ".join(command)] *)
Definition spoken (command : list string) : pystr := join (u " ") (u <$> command).

Definition checked_env (cwd : directory) (env : list (string * string)) (command : list string) (timeout : Z) : io W pybytes :=
  pid ← act (popen cwd env command);
  finally
    (catch
       ('(output, returncode) ← act (communicate pid (Some timeout));
        if returncode =? 0 then mret output
        else raise (LabError [T "command failed ("; D returncode; T "): "; V (spoken command); V [newline];
                              V (utf8_replace None (tail 8000 output))]))
       (fun e => match e with
          | TimeoutExpired => Some (raise (LabError [T "command watchdog expired: "; V (spoken command)]))
          | _ => None
          end))
    (stop_group patience (Some pid)).

Definition checked_bytes (cwd : directory) : list string -> Z -> io W pybytes := checked_env cwd [].

Definition checked_in (cwd : directory) (command : list string) (timeout : Z) : io W pystr :=
  output ← checked_bytes cwd command timeout; mret (utf8_replace None output).
(** in the exported tree *)
Definition checked : list string -> Z -> io W pystr := checked_in Exported.

(** * A QEMU session *)

Record QemuSource : Type := {
  timeout : Z;
  output : pybytes;
  process : Z;
  host : W
}.

Definition set_host (w : W) (s : QemuSource) : QemuSource :=
  {| timeout := timeout s; output := output s; process := process s; host := w |}.
Definition extend (chunk : pybytes) (s : QemuSource) : QemuSource :=
  {| timeout := timeout s; output := output s ++ chunk; process := process s; host := host s |}.

Definition on_host {A} (m : io W A) : io QemuSource A := zoom host set_host m.

Definition read (wait : Z) : io QemuSource bool :=
  s ← state;
  ready ← on_host (ask (select_ (process s) wait));
  if ready : bool then
    chunk ← on_host (ask (os_read (process s)));
    lift (require (negb (bool_decide (chunk = []))) [T "QEMU output closed"]);;
    update (extend (remove_char cr chunk));;
    mret true
  else mret false.

Definition wait_for (marker : pybytes) (start : Z) : io QemuSource () :=
  s ← state;
  now ← on_host (ask monotonic);
  let deadline := now + timeout s in
  while (s ← state; mret (negb (contains marker (zdrop start (output s)))))
        (now ← on_host (ask monotonic);
         lift (require (now <? deadline) [T "QEMU watchdog expired waiting for "; R marker]);;
         read (seconds 1);; mret tt).

Definition write (data : pybytes) : io QemuSource () :=
  s ← state; on_host (act (write_in (process s) data)).

Definition prompt : pybytes := bytes_of_string "$ ".

(** [self._write(command + "\n")] for a command in ASCII *)
Definition send (command : string) : io QemuSource () := write (bytes_of_string command ++ [newline]).

(** [bytes(self.output[start:]).decode("utf-8", "replace")] *)
Definition transcript_from (start : Z) : io QemuSource pystr :=
  s ← state; mret (utf8_replace None (zdrop start (output s))).

Definition command (command : string) : io QemuSource pystr :=
  s ← state;
  let start := len (output s) in
  send command;;
  wait_for prompt start;;
  transcript_from start.

Definition panic_command (command : string) (panic_text : string) : io QemuSource pystr :=
  s ← state;
  let start := len (output s) in
  send command;;
  wait_for (bytes_of_string panic_text) start;;
  while (read (milliseconds 100)) (mret tt);;
  transcript_from start.

Definition close (last : option Z) : io QemuSource () :=
  s ← state;
  code ← on_host (ask (poll (process s)));
  match code with
  | Some _ => mret tt
  | None =>
      catch (write [1; 120];; on_host (act (wait (process s) (Some (seconds 10))));; mret tt) (fun e =>
        match e with BrokenPipeError | TimeoutExpired => Some (mret tt) | _ => None end)
  end;;
  on_host (stop_group last (Some (process s))).

(** The constructor: a session that does not reach the prompt is stopped. *)
Definition opened (last : option Z) : io QemuSource () :=
  s ← state;
  catch (wait_for prompt 0) (fun e => Some (on_host (stop_group last (Some (process s)));; raise e)).

(** A session acts on the host it started from. *)
Definition within {A} (start : W -> QemuSource) (m : io QemuSource A) : io W A := scope start host m.

Definition new_source (timeout_ pid : Z) (w : W) : QemuSource :=
  {| timeout := timeout_; output := []; process := pid; host := w |}.

(** [source = QemuSource(root, cpus, timeout)], then [try: body finally: source.close()] *)
Definition with_source {A} (last : option Z) (cpus timeout_ : Z) (body : io QemuSource A) : io W A :=
  pid ← act (popen Exported [] ["make"; String.append "CPUS=" (pretty cpus); "qemu"]);
  within (new_source timeout_ pid) (opened last;; finally body (close last)).
End Processes.
Arguments QemuSource W : clear implicits.
