(* ===== verification/HostProps.v ===== *)
(** What the process code of [HostSession] guarantees on a host that keeps its
    laws: stopping ends and leaves no group behind, a session returns what the
    guest wrote, and waiting ends. *)

From stdpp Require Import base tactics list gmap strings numbers list_numbers pretty.
From S2P Require Import Prelude PyText PyBytes PyIo PyPath HostSession.
Open Scope Z_scope.

(** * The laws

    [clock] is the time of a state, [received] and [sent] what has been read
    from and written to a process, and [alive] says whether a group has members. *)
Class HostLaws (W : Type) `{!Host W} := {
  clock : W -> Z;
  received : W -> Z -> pybytes;
  sent : W -> Z -> pybytes;
  alive : W -> Z -> bool;
  (** [time.monotonic] reads a clock that never goes back, and waiting takes time. *)
  monotonic_between w : clock w <= (monotonic w).1 <= clock (monotonic w).2;
  sleep_takes w t : 0 < t -> clock w < clock (sleep t w);
  select_takes w p t : clock w < clock (select_ p t w).2;
  read_advances w p : clock w <= clock (os_read p w).2;
  kill_advances w p s : clock w <= clock (killpg p s w).2;
  poll_advances w p : clock w <= clock (poll p w).2;
  (** Bytes come from [os.read] and go to [write]. *)
  read_received w p : received (os_read p w).2 p = received w p ++ (os_read p w).1;
  read_sent w p : sent (os_read p w).2 p = sent w p;
  write_sent w p data : (write_in p data w).1 = Ok tt -> sent (write_in p data w).2 p = sent w p ++ data;
  write_received w p data : received (write_in p data w).2 p = received w p;
  monotonic_received w p : received (monotonic w).2 p = received w p;
  monotonic_sent w p : sent (monotonic w).2 p = sent w p;
  select_received w p t : received (select_ p t w).2 p = received w p;
  select_sent w p t : sent (select_ p t w).2 p = sent w p;
  poll_received w p : received (poll p w).2 p = received w p;
  poll_sent w p : sent (poll p w).2 p = sent w p;
  (** [ProcessLookupError]: there is no such group. *)
  lookup_error w p s : (killpg p s w).1 = Raise ProcessLookupError -> alive (killpg p s w).2 p = false
}.

Section Laws.
Context {W : Type} `{!Host W}.

#[global] Instance mono_exists g : Mono (process_group_exists (W := W) g).
Proof. unfold process_group_exists. by_parts. Qed.
#[global] Instance mono_kill g s : Mono (kill_group (W := W) g s).
Proof. unfold kill_group. by_parts. Qed.
#[global] Instance mono_reap l g : Mono (reap (W := W) l g).
Proof. unfold reap. by_parts. Qed.
#[global] Instance mono_drain g d : Mono (drain (W := W) g d).
Proof. unfold drain. by_parts. Qed.
#[global] Instance mono_stop l p : Mono (stop_group (W := W) l p).
Proof. unfold stop_group. by_parts. Qed.
#[global] Instance mono_on_host A (m : io W A) : Mono m -> Mono (on_host m).
Proof. apply mono_zoom. Qed.
#[global] Instance mono_within A f (m : io (QemuSource W) A) : Mono m -> Mono (within f m).
Proof. apply mono_scope. Qed.
#[global] Instance mono_read t : Mono (read (W := W) t).
Proof. unfold read. by_parts. Qed.
#[global] Instance mono_wait_for k start : Mono (wait_for (W := W) k start).
Proof. unfold wait_for. by_parts. Qed.
#[global] Instance mono_write data : Mono (write (W := W) data).
Proof. unfold write. by_parts. Qed.
#[global] Instance mono_transcript start : Mono (transcript_from (W := W) start).
Proof. unfold transcript_from. by_parts. Qed.
#[global] Instance mono_command c : Mono (command (W := W) c).
Proof. unfold command, send. by_parts. Qed.
#[global] Instance mono_close l : Mono (close (W := W) l).
Proof. unfold close. by_parts. Qed.
#[global] Instance mono_opened l : Mono (opened (W := W) l).
Proof. unfold opened. by_parts. Qed.
#[global] Instance mono_checked_env d e c t : Mono (checked_env (W := W) d e c t).
Proof. unfold checked_env. by_parts. Qed.
#[global] Instance mono_checked_bytes d c t : Mono (checked_bytes (W := W) d c t).
Proof. apply mono_checked_env. Qed.
#[global] Instance mono_checked_in d c t : Mono (checked_in (W := W) d c t).
Proof. unfold checked_in. by_parts. Qed.
#[global] Instance mono_checked c t : Mono (checked (W := W) c t).
Proof. apply mono_checked_in. Qed.

#[global] Instance total_exists g : Total (process_group_exists (W := W) g).
Proof. unfold process_group_exists. by_parts. Qed.
#[global] Instance total_kill g s : Total (kill_group (W := W) g s).
Proof. unfold kill_group. by_parts. Qed.
#[global] Instance total_reap l g : Total (reap (W := W) l g).
Proof. unfold reap. by_parts. Qed.
#[global] Instance total_on_host A (m : io W A) : Total m -> Total (on_host m).
Proof. apply total_zoom. Qed.
#[global] Instance total_within A f (m : io (QemuSource W) A) : Total m -> Total (within f m).
Proof. apply total_scope. Qed.
#[global] Instance total_read t : Total (read (W := W) t).
Proof. unfold read. by_parts. Qed.
#[global] Instance total_write data : Total (write (W := W) data).
Proof. unfold write. by_parts. Qed.
#[global] Instance total_transcript start : Total (transcript_from (W := W) start).
Proof. unfold transcript_from. by_parts. Qed.

Context `{!HostLaws W}.

(** * Stopping a group *)

Lemma exists_post g w : post (process_group_exists g) w (fun r w1 =>
  clock w <= clock w1 /\ (r = Ok false -> alive w1 g = false)).
Proof.
  unfold process_group_exists. repeat post_step.
  pose proof (kill_advances w g 0). pose proof (lookup_error w g 0).
  destruct (killpg g 0 w) as [[[]|e] w1]; cbn in *; [by repeat post_step|].
  destruct e; repeat post_step; naive_solver.
Qed.

#[global] Instance total_drain g deadline : Total (drain (W := W) g deadline).
Proof.
  unfold drain.
  assert (forall w, post (there ← process_group_exists g;
    if there : bool then now ← ask monotonic; mret (now <? deadline) else mret false) w
    (fun r w1 => r = Ok true -> clock w <= clock w1 /\ clock w < deadline)) as C.
  { intros w. post_step. eapply post_mono; [apply exists_post|]. intros [[]|] w1 [L _]; [|by repeat post_step|done].
    repeat post_step. pose proof (monotonic_between w1). intros [= E%Z.ltb_lt]. lia. }
  apply (deadline_halts clock deadline); [by_parts..| |].
  - intros w. eapply post_mono; [apply C|]. naive_solver.
  - intros w w0 R. post_step. intros _. split; [|by destruct (C _ _ _ R eq_refl)].
    by apply sleep_takes.
Qed.

#[global] Instance total_stop l p : Total (stop_group (W := W) l p).
Proof. unfold stop_group. by_parts. Qed.

(** When stopping raises nothing, the group has no member left. *)
Lemma stop_post l p w : post (stop_group l (Some p)) w (fun r w1 => r = Ok tt -> alive w1 p = false).
Proof.
  unfold stop_group. do 6 (post_step; intros [] ? _; [|done]). post_step.
  eapply post_mono; [apply exists_post|]. intros [[]|] w1 [_ H]; [| |done]; post_step; [done|auto].
Qed.

(** * Sessions *)

Lemma post_on_host A (m : io W A) s (Q : result A -> QemuSource W -> Prop) :
  post m (host s) (fun r w => Q r (set_host w s)) -> post (on_host m) s Q.
Proof. apply post_zoom. Qed.

(** Between two states the session has read the bytes [new], and kept them
    without carriage returns. *)
Definition hears (s s' : QemuSource W) (new : pybytes) : Prop :=
  timeout s' = timeout s /\ process s' = process s /\
  received (host s') (process s) = received (host s) (process s) ++ new /\
  output s' = output s ++ remove_char cr new /\
  sent (host s') (process s) = sent (host s) (process s).

Lemma hears_trans s1 s2 s3 a b : hears s1 s2 a -> hears s2 s3 b -> hears s1 s3 (a ++ b).
Proof.
  intros (T1 & P1 & R1 & O1 & S1) (T2 & P2 & R2 & O2 & S2). rewrite P1 in *.
  unfold hears, remove_char in *. rewrite filter_app, app_assoc, app_assoc. repeat split; congruence.
Qed.

Lemma hears_host s w new : received w (process s) = received (host s) (process s) ->
  sent w (process s) = sent (host s) (process s) -> new = [] -> hears s (set_host w s) new.
Proof. intros R S ->. unfold hears. cbn. rewrite !app_nil_r. done. Qed.

Definition closed : exn := LabError [T "QEMU output closed"].
Definition expired (marker : pybytes) : exn := LabError [T "QEMU watchdog expired waiting for "; R marker].

Lemma read_post t s : post (read t) s (fun r s1 =>
  clock (host s) < clock (host s1) /\ exists new, hears s s1 new /\ (r <> Ok true -> new = []) /\
  forall e, r = Raise e -> e = closed).
Proof.
  unfold read. do 2 post_step. post_step. apply post_on_host. post_step. cbn.
  pose proof (select_takes (host s) (process s) t) as C. pose proof (select_received (host s) (process s) t) as R.
  pose proof (select_sent (host s) (process s) t) as S.
  destruct (select_ (process s) t (host s)) as [[] w]; cbn in *.
  2: { post_step. split; [done|]. exists []. split; [by apply hears_host|]. split; naive_solver. }
  post_step. apply post_on_host. post_step. cbn.
  pose proof (read_advances w (process s)). pose proof (read_received w (process s)) as R1.
  pose proof (read_sent w (process s)) as S1. destruct (os_read (process s) w) as [chunk w1]. cbn in *.
  post_step. post_step. case_bool_decide as E; cbn.
  - split; [cbn; lia|]. exists []. split; [|split; naive_solver].
    change (set_host w1 (set_host w s)) with (set_host w1 s). apply hears_host; [|congruence|done].
    rewrite R1, E, app_nil_r. done.
  - do 3 post_step. cbn. split; [cbn; lia|]. exists chunk. split; [|naive_solver]. unfold hears. cbn.
    rewrite R1, R. repeat split; congruence.
Qed.

Lemma tick_post s : post (on_host (ask monotonic)) s (fun r s1 => exists now, r = Ok now /\
  clock (host s) <= now <= clock (host s1) /\ hears s s1 []).
Proof.
  apply post_on_host. post_step. eexists. split; [done|]. split; [apply monotonic_between|].
  apply hears_host; [apply monotonic_received|apply monotonic_sent|done].
Qed.

(** The body of the loop of [wait_for] *)
Definition listen (marker : pybytes) (deadline : Z) : io (QemuSource W) () :=
  now ← on_host (ask monotonic);
  lift (require (now <? deadline) [T "QEMU watchdog expired waiting for "; R marker]);;
  read (seconds 1);; mret tt.

Lemma listen_post marker deadline s : post (listen marker deadline) s (fun r s1 =>
  exists new, hears s s1 new /\
  match r with
  | Ok _ => clock (host s) < clock (host s1) /\ clock (host s) < deadline
  | Raise e => new = [] /\ (e = closed \/ e = expired marker /\ deadline <= clock (host s1))
  end).
Proof.
  unfold listen. post_step. eapply post_mono; [apply tick_post|]. intros r s1 (now & -> & Hc & Hh). cbn.
  post_step. post_step. destruct (now <? deadline) eqn:E; cbn; [|exists []; split; [done|]; split; [done|]; right; split; [done|lia]].
  post_step. eapply post_mono; [apply read_post|]. intros [b|e] s2 (Hc2 & new & Hn & Hr & He).
  - post_step. exists new. split; [by apply (hears_trans _ _ _ [] new Hh)|lia].
  - exists []. split; [|split; [done|left; by apply He]]. rewrite (Hr ltac:(done)) in Hn. by apply (hears_trans _ _ _ [] [] Hh).
Qed.

Lemma total_listening marker start deadline :
  Total (while (s ← state; mret (negb (contains marker (zdrop start (output s))))) (listen marker deadline)).
Proof.
  apply (deadline_halts (fun s => clock (host s)) deadline); [by_parts| | | | |].
  - unfold listen. by_parts.
  - by_parts.
  - unfold listen. by_parts.
  - intros s. by repeat post_step.
  - intros s s0 [n E]. unfold mbind, io_bind in E. cbn in E. injection E as _ ->.
    eapply post_mono; [apply listen_post|]. intros r s1 (new & _ & H) ->. done.
Qed.

#[global] Instance total_wait_for marker start : Total (wait_for (W := W) marker start).
Proof.
  unfold wait_for. apply total_bind; [by_parts..|]. intros s. apply total_bind; [by_parts..|].
  intros now. apply total_listening.
Qed.

(** Waiting returns when the marker has been read; it fails when the pipe is
    closed or the time is over, and then the marker has not been read. *)
Lemma wait_for_post marker start s : post (wait_for marker start) s (fun r s1 =>
  exists new, hears s s1 new /\
  match r with
  | Ok _ => contains marker (zdrop start (output s1)) = true
  | Raise e => contains marker (zdrop start (output s1)) = false /\
      (e = closed \/ e = expired marker /\ clock (host s) + timeout s <= clock (host s1))
  end).
Proof.
  unfold wait_for. do 2 post_step. post_step. eapply post_mono; [apply tick_post|].
  intros r s0 (now & -> & Hc & H0). fold (listen marker (now + timeout s)).
  apply (post_while _ _ (fun s1 => exists new, hears s s1 new)
    (fun s1 => (exists new, hears s s1 new) /\ contains marker (zdrop start (output s1)) = false)); [| |by exists []].
  - intros s1 [new H1]. do 3 post_step. destruct (contains marker _) eqn:E; cbn; [|naive_solver].
    exists new. naive_solver.
  - intros s1 [[new H1] E]. eapply post_mono; [apply listen_post|]. intros [[]|e] s2 (new2 & H2 & HQ).
    + exists (new ++ new2). by apply (hears_trans s s1).
    + destruct HQ as [-> HQ]. exists new. split; [|split].
      * rewrite <- (app_nil_r new). by apply (hears_trans s s1).
      * destruct H2 as (_ & _ & _ & -> & _). cbn. by rewrite app_nil_r.
      * destruct HQ as [?|[? ?]]; [by left|right]. split; [done|lia].
Qed.

Lemma zdrop_len {A} (l m : list A) : zdrop (len l) (l ++ m) = m.
Proof. rewrite zdrop_drop, len_length, Nat2Z.id. apply drop_app_length. Qed.

(** What an exchange leaves: the bytes [new] read during it. *)
Definition exchanged (s s' : QemuSource W) (new : pybytes) : Prop :=
  process s' = process s /\ received (host s') (process s) = received (host s) (process s) ++ new /\
  output s' = output s ++ remove_char cr new.

Lemma command_post c s : post (command c) s (fun r s1 =>
  exists new, exchanged s s1 new /\
  match r with
  | Ok t =>
      sent (host s1) (process s) = sent (host s) (process s) ++ bytes_of_string c ++ [newline] /\
      t = utf8_replace None (remove_char cr new) /\ contains prompt (remove_char cr new) = true
  | Raise _ => contains prompt (remove_char cr new) = false
  end).
Proof.
  unfold command, send, write. do 2 post_step. do 3 post_step. apply post_on_host. post_step.
  set (data := bytes_of_string c ++ [newline]).
  pose proof (write_sent (host s) (process s) data) as S. pose proof (write_received (host s) (process s) data) as R.
  destruct (write_in (process s) data (host s)) as [[[]|e] w]; cbn in *.
  2: { exists []. split; [|done]. repeat split; cbn; by rewrite ?app_nil_r. }
  post_step. eapply post_mono; [apply wait_for_post|]. intros r s1 (new & (T1 & P1 & R1 & O1 & S1) & H).
  cbn in T1, P1, R1, O1, S1.
  assert (exchanged s s1 new) as X by (repeat split; congruence).
  rewrite O1, zdrop_len in H. destruct r as [[]|e]; [|exists new; naive_solver].
  unfold transcript_from. do 3 post_step. exists new. split; [done|].
  rewrite O1, zdrop_len. repeat split; [|done]. rewrite S1. by apply S.
Qed.

#[global] Instance total_command c : Total (command (W := W) c).
Proof. unfold command, send. by_parts. Qed.

(** C16: On every host that keeps its laws a command of a session has an
    outcome.  It returns the text that came back, decoded and without carriage
    returns, when that text has the prompt in it, and then the command line is
    what was written; when it raises, the prompt has not come. *)
Theorem command_exchanges c s : exists r s' new, runs (command c) s r s' /\ exchanged s s' new /\
  match r with
  | Ok t =>
      sent (host s') (process s) = sent (host s) (process s) ++ bytes_of_string c ++ [newline] /\
      t = utf8_replace None (remove_char cr new) /\ contains prompt (remove_char cr new) = true
  | Raise _ => contains prompt (remove_char cr new) = false
  end.
Proof.
  destruct (total_command c s) as (r & s' & H). exists r, s'.
  destruct (command_post c s r s' H) as (new & Hn). by exists new.
Qed.

(** * Commands *)

#[global] Instance total_checked_env d e c t : Total (checked_env (W := W) d e c t).
Proof. unfold checked_env. by_parts. Qed.
#[global] Instance total_checked_bytes d c t : Total (checked_bytes (W := W) d c t).
Proof. apply total_checked_env. Qed.
#[global] Instance total_checked_in d c t : Total (checked_in (W := W) d c t).
Proof. unfold checked_in. by_parts. Qed.
#[global] Instance total_checked c t : Total (checked (W := W) c t).
Proof. apply total_checked_in. Qed.

#[global] Instance total_close l : Total (close (W := W) l).
Proof. unfold close. by_parts. Qed.
#[global] Instance total_opened l : Total (opened (W := W) l).
Proof. unfold opened. by_parts. Qed.
#[global] Instance mono_with A l n t (m : io (QemuSource W) A) : Mono m -> Mono (with_source l n t m).
Proof. unfold with_source. by_parts. Qed.
#[global] Instance total_with A l n t (m : io (QemuSource W) A) : Mono m -> Total m -> Total (with_source l n t m).
Proof. unfold with_source. by_parts. Qed.

Lemma post_within A f (m : io (QemuSource W) A) w (Q : result A -> W -> Prop) :
  post m (f w) (fun r s => Q r (host s)) -> post (within f m) w Q.
Proof. apply post_scope. Qed.

Lemma close_post l s : post (close l) s (fun r s1 => r = Ok tt -> alive (host s1) (process s) = false).
Proof.
  unfold close. do 2 post_step. post_step. apply post_on_host. post_step. post_step.
  intros [[]|] s1 _; [|done]. apply post_on_host, stop_post.
Qed.

(** A session whose body keeps its process has stopped it when it returns. *)
Lemma with_post A l n t (m : io (QemuSource W) A) w (P : A -> Prop) :
  (forall s, post m s (fun r s1 => process s1 = process s /\ forall a, r = Ok a -> P a)) ->
  post (with_source l n t m) w (fun r w1 => forall a, r = Ok a -> P a /\ exists pid w0,
    popen Exported [] ["make"; String.append "CPUS=" (pretty n); "qemu"] w = (Ok pid, w0) /\ alive w1 pid = false).
Proof.
  intros Hm. unfold with_source. do 2 post_step. destruct (popen _ _ _ w) as [[pid|] w0]; cbn; [|done].
  apply post_within. set (s0 := new_source t pid w0). post_step.
  assert (post (opened l) s0 (fun r s1 => r = Ok tt -> process s1 = pid)) as Ho.
  { unfold opened. do 3 post_step. eapply post_mono; [apply wait_for_post|].
    intros [[]|e] s1 (new & (_ & Hp & _) & _); [done|]. post_step. intros [[]|] s2 _; [|done]. by post_step. }
  eapply post_mono; [apply Ho|]. intros [[]|e] s1 H1; [|done]. specialize (H1 eq_refl). post_step.
  eapply post_mono; [apply Hm|]. intros r s2 [P2 HP]. eapply post_mono; [apply close_post|].
  intros [[]|] s3 H3 a E; [|done]. split; [by apply HP|]. exists pid, w0. split; [done|].
  rewrite <- H1, <- P2. by apply H3.
Qed.

(** The states of a session that returned: it reached the prompt, its body ran,
    and it was closed. *)
Lemma with_states A l n t (m : io (QemuSource W) A) w : post (with_source l n t m) w (fun r w1 => forall a, r = Ok a ->
  exists pid w0 s0 s1 s2, popen Exported [] ["make"; String.append "CPUS=" (pretty n); "qemu"] w = (Ok pid, w0) /\
    runs (opened l) (new_source t pid w0) (Ok tt) s0 /\ runs m s0 (Ok a) s1 /\ runs (close l) s1 (Ok tt) s2 /\
    w1 = host s2).
Proof.
  unfold with_source. do 2 post_step. destruct (popen _ _ _ w) as [[pid|] w0]; cbn; [|done].
  apply post_within. post_step. intros [[]|e] s0 H0; [|done]. post_step. intros r s1 H1 [[]|e] s2 H2 a E; [|done].
  subst r. by exists pid, w0, s0, s1, s2.
Qed.

(** What a command that was run means: its output where it ended with zero. *)
Definition verdict (command : list string) (answer : result (pybytes * Z)) : result pybytes :=
  match answer with
  | Ok (out, code) =>
      if code =? 0 then Ok out
      else Raise (LabError [T "command failed ("; D code; T "): "; V (spoken command); V [newline];
                            V (utf8_replace None (tail 8000 out))])
  | Raise TimeoutExpired => Raise (LabError [T "command watchdog expired: "; V (spoken command)])
  | Raise e => Raise e
  end.

(** C34: Running a command has an outcome on every host that keeps its laws:
    the exception of starting it; or, when its group could be stopped, its
    output if it ended with zero and an error otherwise, with no member of the
    group left; or the exception of stopping it. *)
Theorem checked_cleans d env c t w : exists r w', runs (checked_env d env c t) w r w' /\
  match popen d env c w with
  | (Raise e, w1) => r = Raise e /\ w' = w1
  | (Ok pid, w1) =>
      exists stopped, runs (stop_group patience (Some pid)) (communicate pid (Some t) w1).2 stopped w' /\
      match stopped with
      | Ok _ => alive w' pid = false /\ r = verdict c (communicate pid (Some t) w1).1
      | Raise e => r = Raise e
      end
  end.
Proof.
  destruct (total_checked_env d env c t w) as (r & w' & H). exists r, w'. split; [done|]. revert r w' H.
  change (post (checked_env d env c t) w (fun r w' =>
    match popen d env c w with
    | (Raise e, w1) => r = Raise e /\ w' = w1
    | (Ok pid, w1) => exists stopped, runs (stop_group patience (Some pid)) (communicate pid (Some t) w1).2 stopped w' /\
        match stopped with
        | Ok _ => alive w' pid = false /\ r = verdict c (communicate pid (Some t) w1).1
        | Raise e => r = Raise e
        end
    end)).
  unfold checked_env. do 2 post_step. destruct (popen d env c w) as [[pid|e] w1]; cbn; [|done].
  post_step. apply post_mono with (P := fun r w2 => w2 = (communicate pid (Some t) w1).2 /\
    r = verdict c (communicate pid (Some t) w1).1).
  - do 3 post_step. destruct (communicate pid (Some t) w1) as [[[out code]|e] w2]; cbn.
    + destruct (code =? 0); by repeat post_step.
    + destruct e; cbn; try done. by post_step.
  - intros r w2 [-> ->] stopped w3 Hs. exists stopped. split; [done|].
    pose proof (stop_post _ _ _ _ _ Hs). destruct stopped as [[]|]; [|done]. by split; [auto|].
Qed.

End Laws.

(** * A host

    One process that ends with its group when it is waited for or at SIGTERM,
    unless it is stubborn, and at SIGKILL; its output arrives in the chunks of
    [inbox]. *)
Record console : Type := {
  now : Z;
  group : bool;
  stubborn : bool;
  lingering : bool;
  inbox : list pybytes;
  got : pybytes;
  put : pybytes;
  final : pybytes * Z
}.

Definition after (t : Z) (w : console) : console :=
  {| now := now w + Z.max 1 t; group := group w && negb (lingering w); stubborn := stubborn w;
     lingering := false; inbox := inbox w; got := got w; put := put w; final := final w |}.
Definition set_group (b l : bool) (w : console) : console :=
  {| now := now w; group := b; stubborn := stubborn w; lingering := l;
     inbox := inbox w; got := got w; put := put w; final := final w |}.

(** [linger]: a killed group disappears when time has passed. *)
Definition console_host (linger : bool) : Host console := {|
  popen _ _ _ w := (Ok 7, w);
  monotonic w := (now w, w);
  sleep t w := after t w;
  poll _ w := (if group w && negb linger then None else Some 0, w);
  wait _ t w :=
    if group w && stubborn w then (Raise TimeoutExpired, after (default 1 t) w) else (Ok 0, set_group false false w);
  killpg _ s w :=
    if negb (group w) then (Raise ProcessLookupError, w)
    else if s =? SIGKILL then (Ok tt, set_group linger linger w)
    else if s =? SIGTERM then (Ok tt, set_group (stubborn w) false w) else (Ok tt, w);
  communicate _ _ w := (Ok (final w), w);
  select_ _ t w := (negb (bool_decide (inbox w = [])), after 1 w);
  os_read _ w :=
    match inbox w with
    | [] => ([], w)
    | chunk :: inbox' =>
        (chunk, {| now := now w; group := group w; stubborn := stubborn w; lingering := lingering w;
                   inbox := inbox'; got := got w ++ chunk; put := put w; final := final w |})
    end;
  write_in _ data w :=
    (Ok tt, {| now := now w; group := group w; stubborn := stubborn w; lingering := lingering w;
               inbox := inbox w; got := got w; put := put w ++ data; final := final w |})
|}.

#[global] Instance console_ready : Host console := console_host false.
#[global] Instance console_laws : HostLaws console.
Proof.
  refine {| clock := now; received w _ := got w; sent w _ := put w; alive w _ := group w |}; cbn; try done.
  - intros w t H. lia.
  - intros w _ _. lia.
  - intros w _. by destruct (inbox w).
  - intros w _ s. destruct (group w); cbn; [|lia]. repeat case_match; cbn; lia.
  - intros w _. destruct (inbox w); cbn; [by rewrite app_nil_r|done].
  - intros w _. by destruct (inbox w).
  - intros w _ s. destruct (group w) eqn:E; cbn; [|done]. by repeat case_match.
Defined.

(** A guest that echoes the command and answers in two chunks *)
Definition talking : QemuSource console :=
  {| timeout := seconds 60; output := prompt; process := 7;
     host := {| now := 0; group := true; stubborn := false; lingering := false;
                inbox := [bytes_of_string "ls" ++ [cr; newline]; bytes_of_string "README" ++ [cr; newline] ++ prompt];
                got := prompt; put := []; final := ([], 0) |} |}.

Lemma command_exchanges_witness : exists s', runs (command "ls") talking
    (Ok (u "ls" ++ [newline] ++ u "README" ++ [newline] ++ u "$ ")) s' /\
  put (host s') = bytes_of_string "ls" ++ [newline].
Proof.
  destruct (command_exchanges "ls" talking) as (r & s' & new & [n H] & _ & Hr).
  assert (command "ls" 9%nat talking = Some (Ok (u "ls" ++ [newline] ++ u "README" ++ [newline] ++ u "$ "),
    match command "ls" 9%nat talking with Some (_, s) => s | None => talking end)) as E by (vm_compute; reflexivity).
  destruct (runs_det _ _ _ _ _ _ _ (ex_intro _ n H) (ex_intro _ 9%nat E)) as [-> _].
  exists s'. split; [by exists n|]. destruct Hr as [Hs _]. exact Hs.
Defined.

(** Stopping a group that ignores SIGTERM *)
Definition obstinate (out : pybytes) (code : Z) : console :=
  {| now := 0; group := true; stubborn := true; lingering := false; inbox := []; got := []; put := [];
     final := (out, code) |}.

Lemma checked_cleans_witness : exists w', runs (checked_env Exported [] ["true"%string] (seconds 9))
    (obstinate [111; 107] 0) (Ok [111; 107]) w' /\ group w' = false.
Proof.
  destruct (checked_cleans Exported [] ["true"%string] (seconds 9) (obstinate [111; 107] 0)) as (r & w' & H & stopped & [n Hs] & Hr).
  destruct stopped as [[]|e].
  - destruct Hr as [A ->]. exists w'. split; [exact H|exact A].
  - exfalso. assert (stop_group patience (Some 7) 200%nat (obstinate [111; 107] 0) = Some (Ok tt,
      match stop_group patience (Some 7) 200%nat (obstinate [111; 107] 0) with Some (_, w) => w | None => obstinate [] 0 end))
      as E by (vm_compute; reflexivity).
    destruct (runs_det _ _ _ _ _ _ _ (ex_intro _ n Hs) (ex_intro _ 200%nat E)) as [[=] _].
Defined.

(** A killed group may take a moment to disappear; the check after SIGKILL does
    not wait for it, and stopping fails although the group is about to end. *)
Lemma late_kill_reported : exists w', runs (stop_group (W := console) (Host0 := console_host true) patience (Some 7)) (obstinate [] 0)
    (Raise (LabError [T "process group remains after cleanup: "; D 7])) w' /\ group (after 1 w') = false.
Proof.
  eexists. split; [exists 200%nat; vm_compute; reflexivity|reflexivity].
Qed.

(** A guest that never stops printing.  After the panic the session reads until
    nothing comes for a tenth of a second, without a deadline: on this guest it
    returns no transcript. *)
Definition chatter : Host Z := {|
  popen _ _ _ w := (Ok 7, w);
  monotonic w := (w, w);
  sleep t w := w + t;
  poll _ w := (None, w);
  wait _ _ w := (Raise TimeoutExpired, w);
  killpg _ _ w := (Ok tt, w);
  communicate _ _ w := (Raise TimeoutExpired, w);
  select_ _ _ w := (true, w + 1);
  os_read _ w := (bytes_of_string "panic: again", w + 1);
  write_in _ _ w := (Ok tt, w)
|}.

Lemma chatty_panic_never_returns c marker (s : QemuSource Z) r s' :
  runs (panic_command (Host0 := chatter) c marker) s r s' -> forall t, r <> Ok t.
Proof.
  revert r s'. change (post (panic_command (Host0 := chatter) c marker) s (fun r _ => forall t, r <> Ok t)).
  unfold panic_command. do 2 post_step. post_step. intros [[]|e] s1 _; [|done].
  post_step. intros [[]|e] s2 _; [|done]. post_step.
  eapply post_mono; [apply (post_while _ _ (fun _ => True) (fun _ => True) (fun _ _ => False)); [| |done]|done].
  - intros s3 _. unfold read. do 2 post_step. post_step. apply post_on_host. post_step.
    cbv beta iota delta [fst snd select_ chatter]. post_step. apply post_on_host. post_step.
    cbv beta iota delta [fst snd os_read chatter]. post_step. post_step. rewrite bool_decide_false by done.
    cbn [negb require]. by do 3 post_step.
  - intros s3 _. by post_step.
Qed.
