(* ===== verification/CheckQemu.v ===== *)
(** [user-program-and-abi/check-qemu.py]: one QEMU session in which two commands
    must answer exactly as expected.  The session keeps the bytes as they come
    and leaves out carriage returns when it looks at them. *)

From stdpp Require Import base tactics list gmap strings numbers list_numbers pretty.
From S2P Require Import Prelude PyText PyBytes PyIo PyPath HostSession HostProps.
Open Scope Z_scope.

Section Session.
Context {W : Type} `{!Host W}.

Definition normalized (data : pybytes) : pybytes := remove_char cr data.

(** [normalized(output[start:]).count(marker) < count] *)
Definition missing (marker : pybytes) (start count_ : Z) (s : QemuSource W) : bool :=
  count marker (normalized (zdrop start (output s))) <? count_.

(** The body of the loop of [wait_for] *)
Definition listen_once (marker : pybytes) (deadline : Z) : io (QemuSource W) () :=
  s ← state;
  now ← on_host (ask monotonic);
  let remaining := deadline - now in
  if remaining <=? 0 then
    raise (RuntimeError [T "timed out waiting for "; R marker; V [newline]; T "--- QEMU tail ---"; V [newline];
                         V (utf8_replace None (tail 4000 (normalized (output s))))])
  else
  ready ← on_host (ask (select_ (process s) (Z.min remaining (seconds 1))));
  if negb ready then
    code ← on_host (ask (poll (process s)));
    match code with
    | Some returncode => raise (RuntimeError [T "QEMU exited with "; D returncode; T " before "; R marker])
    | None => mret tt
    end
  else
  chunk ← on_host (ask (os_read (process s)));
  if bool_decide (chunk = []) then raise (RuntimeError [T "QEMU output closed before "; R marker])
  else update (extend chunk).

Definition wait_for_count (marker : pybytes) (start timeout count_ : Z) : io (QemuSource W) () :=
  now ← on_host (ask monotonic);
  while (s ← state; mret (missing marker start count_ s)) (listen_once marker (now + timeout)).

Definition send_and_wait (command : string) (marker : pybytes) (timeout : Z) : io (QemuSource W) pybytes :=
  s ← state;
  let start := len (output s) in
  send command;;
  wait_for_count marker start timeout 1;;
  wait_for_count prompt start timeout 1;;
  s ← state;
  mret (normalized (zdrop start (output s))).

Definition require_exact (actual expected : pybytes) : result () :=
  if bool_decide (actual = expected) then Ok tt
  else Raise (RuntimeError [T "unexpected command transcript"; V [newline]; T "expected: "; R expected;
                            V [newline]; T "actual:   "; R actual]).

Definition expected_hello (present : bool) : pybytes :=
  if present then bytes_of_string "hello" ++ [newline] ++ bytes_of_string "hello-from-xv6" ++ [newline] ++ prompt
  else bytes_of_string "hello" ++ [newline] ++ bytes_of_string "exec hello failed" ++ [newline] ++ prompt.
Definition hello_marker (present : bool) : pybytes :=
  [newline] ++ bytes_of_string (if present then "hello-from-xv6" else "exec hello failed") ++ [newline].
Definition expected_echo : pybytes :=
  bytes_of_string "echo abi-regression" ++ [newline] ++ bytes_of_string "abi-regression" ++ [newline] ++ prompt.
Definition echo_marker : pybytes := [newline] ++ bytes_of_string "abi-regression" ++ [newline].

Definition conversation (present usertests : bool) : io (QemuSource W) () :=
  wait_for_count prompt 0 (seconds 60) 1;;
  hello_output ← send_and_wait "hello" (hello_marker present) (seconds 60);
  lift (require_exact hello_output (expected_hello present));;
  echo_output ← send_and_wait "echo abi-regression" echo_marker (seconds 60);
  lift (require_exact echo_output expected_echo);;
  (if usertests then
     send_and_wait "usertests" (bytes_of_string "ALL TESTS PASSED") (seconds 600);; mret tt
   else mret tt);;
  write [1; 120];;
  s ← state;
  returncode ← on_host (act (wait (process s) (Some (seconds 10))));
  if returncode =? 0 then mret tt else raise (RuntimeError [T "QEMU exited with "; D returncode]).

(** The [finally] clause *)
Definition put_down : io (QemuSource W) () :=
  s ← state;
  code ← on_host (ask (poll (process s)));
  match code with
  | Some _ => mret tt
  | None =>
      on_host (act (killpg (process s) SIGTERM));;
      catch (on_host (act (wait (process s) (Some (seconds 5))));; mret tt) (fun e =>
        match e with
        | TimeoutExpired =>
            Some (on_host (act (killpg (process s) SIGKILL));; on_host (act (wait (process s) None));; mret tt)
        | _ => None
        end)
  end.

Definition main (present usertests : bool) : io W () :=
  pid ← act (popen Exported [] ["make"; "CPUS=1"; "qemu"]);
  within (new_source 0 pid) (finally (conversation present usertests) put_down).

(** * Termination *)

#[global] Instance mono_listen_once m d : Mono (listen_once m d).
Proof. unfold listen_once. by_parts. Qed.
#[global] Instance mono_wait_count m s t c : Mono (wait_for_count m s t c).
Proof. unfold wait_for_count. by_parts. Qed.
#[global] Instance mono_send_and_wait c m t : Mono (send_and_wait c m t).
Proof. unfold send_and_wait, send. by_parts. Qed.
#[global] Instance mono_conversation p t : Mono (conversation p t).
Proof. unfold conversation. by_parts. Qed.
#[global] Instance mono_put_down : Mono put_down.
Proof. unfold put_down. by_parts. Qed.
#[global] Instance mono_main p t : Mono (main p t).
Proof. unfold main. by_parts. Qed.
#[global] Instance total_listen_once m d : Total (listen_once m d).
Proof. unfold listen_once. by_parts. Qed.
#[global] Instance total_put_down : Total put_down.
Proof. unfold put_down. by_parts. Qed.

Context `{!HostLaws W}.

(** Raw bytes: what the session keeps is what it has read. *)
Definition follows (s s' : QemuSource W) (new : pybytes) : Prop :=
  process s' = process s /\ output s' = output s ++ new /\
  received (host s') (process s) = received (host s) (process s) ++ new /\
  sent (host s') (process s) = sent (host s) (process s).

Lemma follows_trans s1 s2 s3 a b : follows s1 s2 a -> follows s2 s3 b -> follows s1 s3 (a ++ b).
Proof.
  intros (P1 & O1 & R1 & S1) (P2 & O2 & R2 & S2). rewrite P1 in *. unfold follows.
  rewrite !app_assoc. repeat split; congruence.
Qed.

Lemma follows_host s s' : process s' = process s -> output s' = output s ->
  received (host s') (process s) = received (host s) (process s) ->
  sent (host s') (process s) = sent (host s) (process s) -> follows s s' [].
Proof. intros P O R S. unfold follows. rewrite !app_nil_r. done. Qed.

Lemma listen_once_post marker deadline s : post (listen_once marker deadline) s (fun r s1 =>
  (exists new, follows s s1 new) /\ (r = Ok tt -> clock (host s) < clock (host s1) /\ clock (host s) < deadline)).
Proof.
  unfold listen_once. do 2 post_step. post_step. apply post_on_host. post_step. cbn [fst snd].
  pose proof (monotonic_between (host s)) as Hm. pose proof (monotonic_received (host s) (process s)) as Rm.
  pose proof (monotonic_sent (host s) (process s)) as Sm. destruct (monotonic (host s)) as [now w1]. cbn [fst snd] in *.
  destruct (deadline - now <=? 0) eqn:L; [post_step; split; [exists []; by apply follows_host|done]|].
  post_step. apply post_on_host. post_step. cbn [host set_host].
  set (t := Z.min _ _). pose proof (select_takes w1 (process s) t) as Hc.
  pose proof (select_received w1 (process s) t) as Rs. pose proof (select_sent w1 (process s) t) as Ss.
  destruct (select_ (process s) t w1) as [[] w2]; cbn [fst snd negb] in *.
  - post_step. apply post_on_host. post_step. cbn [host set_host].
    pose proof (read_advances w2 (process s)) as Ha. pose proof (read_received w2 (process s)) as Rr.
    pose proof (read_sent w2 (process s)) as Sr. destruct (os_read (process s) w2) as [chunk w3]. cbn [fst snd] in *.
    case_bool_decide as E; post_step; (split; [|try done]).
    + subst chunk. rewrite app_nil_r in Rr. exists []. apply follows_host; cbn; congruence.
    + exists chunk. unfold follows. cbn. repeat split; congruence.
    + intros _. cbn. lia.
  - post_step. apply post_on_host. post_step. cbn [host set_host].
    pose proof (poll_advances w2 (process s)) as Ha. pose proof (poll_received w2 (process s)) as Rr.
    pose proof (poll_sent w2 (process s)) as Sr. destruct (poll (process s) w2) as [[code|] w3]; cbn [fst snd] in *;
      post_step; (split; [exists []; apply follows_host; cbn; congruence|try done]).
    intros _. cbn. lia.
Qed.

#[global] Instance total_wait_count m start t c : Total (wait_for_count m start t c).
Proof.
  unfold wait_for_count. apply total_bind; [by_parts..|]. intros now.
  apply (deadline_halts (fun s => clock (host s)) (now + t)); [by_parts..| |].
  - intros s. by repeat post_step.
  - intros s s0 [n E]. unfold mbind, io_bind in E. cbn in E. injection E as _ ->.
    eapply post_mono; [apply listen_once_post|]. naive_solver.
Qed.
#[global] Instance total_send_and_wait c m t : Total (send_and_wait c m t).
Proof. unfold send_and_wait, send. by_parts. Qed.
#[global] Instance total_conversation p t : Total (conversation p t).
Proof. unfold conversation. by_parts. Qed.
#[global] Instance total_main p t : Total (main p t).
Proof. unfold main. by_parts. Qed.

(** * What an accepted conversation shows *)

Lemma wait_count_post marker start t c s : post (wait_for_count marker start t c) s (fun r s1 =>
  (exists new, follows s s1 new) /\ (r = Ok tt -> missing marker start c s1 = false)).
Proof.
  unfold wait_for_count. post_step. apply post_on_host. post_step.
  set (deadline := _ + t). assert (follows s (set_host (monotonic (host s)).2 s) []) as F0.
  { apply follows_host; [done|done|apply monotonic_received|apply monotonic_sent]. }
  apply (post_while _ _ (fun s1 => exists new, follows s s1 new) (fun s1 => exists new, follows s s1 new)); [| |by exists []].
  - intros s1 F. do 3 post_step. destruct (missing _ _ _ _) eqn:E; [done|]. by split.
  - intros s1 [new F]. eapply post_mono; [apply listen_once_post|]. intros r s2 [[new2 F2] _].
    assert (exists n, follows s s2 n) as X by (exists (new ++ new2); by apply (follows_trans s s1)).
    destruct r; [done|]. by split.
Qed.

(** From one state of the session to the next the line [c] was written to its
    process, and then the bytes [new] were read from it. *)
Definition answered (c : string) (new : pybytes) (s s' : QemuSource W) : Prop :=
  process s' = process s /\
  sent (host s') (process s) = sent (host s) (process s) ++ bytes_of_string c ++ [newline] /\
  received (host s') (process s) = received (host s) (process s) ++ new.

Lemma send_and_wait_post c marker t s : post (send_and_wait c marker t) s (fun r s1 =>
  process s1 = process s /\ forall out, r = Ok out -> exists new1 new2, answered c (new1 ++ new2) s s1 /\
    out = normalized (new1 ++ new2) /\ 1 <= count marker (normalized new1)).
Proof.
  unfold send_and_wait, send, write. do 2 post_step. do 3 post_step. apply post_on_host. post_step.
  set (data := _ ++ [newline]). pose proof (write_sent (host s) (process s) data) as S.
  pose proof (write_received (host s) (process s) data) as R.
  destruct (write_in (process s) data (host s)) as [[[]|e] w]; cbn [fst snd] in *; [|done].
  post_step. eapply post_mono; [apply wait_count_post|]. intros [[]|e] s1 [[new1 F1] M]; [|by destruct F1].
  post_step. eapply post_mono; [apply wait_count_post|]. intros [[]|e] s2 [[new2 F2] _];
    pose proof (follows_trans _ _ _ _ _ F1 F2) as (P & O & Rv & Sn); cbn in P, O, Rv, Sn; [|done].
  do 3 post_step. split; [done|]. intros out [= <-]. exists new1, new2.
  split; [|split; [by rewrite O, zdrop_len|]].
  - split; [done|]. split; [rewrite Sn; by apply S|congruence].
  - specialize (M eq_refl). unfold missing in M. destruct F1 as (_ & O1 & _). cbn in O1.
    rewrite O1, zdrop_len in M. by apply Z.ltb_ge in M.
Qed.

Lemma require_exact_ok a b : require_exact a b = Ok tt -> a = b.
Proof. unfold require_exact. by case_bool_decide. Qed.

(** The tests were run and passed, or nothing was done. *)
Definition tested (usertests : bool) (s s' : QemuSource W) : Prop :=
  if usertests then exists new1 new2, answered "usertests" (new1 ++ new2) s s' /\
    1 <= count (bytes_of_string "ALL TESTS PASSED") (normalized new1)
  else s' = s.

(** What a conversation that was accepted consists of, from the state in which
    it started to the one it left: the prompt, two exact answers, the tests,
    and a guest that ends with zero when it is told to. *)
Definition conversed (present usertests : bool) (s s' : QemuSource W) : Prop :=
  exists boot hello echo s1 s2 s3 s4,
    follows s s1 boot /\ 1 <= count prompt (normalized boot) /\
    answered "hello" hello s1 s2 /\ normalized hello = expected_hello present /\
    answered "echo abi-regression" echo s2 s3 /\ normalized echo = expected_echo /\
    tested usertests s3 s4 /\ process s4 = process s /\
    exists w1 w2, write_in (process s) [1; 120] (host s4) = (Ok tt, w1) /\
      wait (process s) (Some (seconds 10)) w1 = (Ok 0, w2) /\ s' = set_host w2 s4.

Lemma tests_post (usertests : bool) s : post
  (if usertests then send_and_wait "usertests" (bytes_of_string "ALL TESTS PASSED") (seconds 600);; mret tt else mret tt)
  s (fun r s1 => r = Ok tt -> tested usertests s s1 /\ process s1 = process s).
Proof.
  destruct usertests; [|by post_step]. post_step. eapply post_mono; [apply send_and_wait_post|].
  intros [out|e] s1 [P Ht]; [|done]. post_step. intros _. split; [|done].
  destruct (Ht out eq_refl) as (t1 & t2 & Rt & _ & Ct). by exists t1, t2.
Qed.

Lemma quit_post s : post (write [1; 120];; s0 ← state;
  returncode ← on_host (act (wait (process s0) (Some (seconds 10))));
  if returncode =? 0 then mret tt else raise (RuntimeError [T "QEMU exited with "; D returncode])) s
  (fun r s' => r = Ok tt -> exists w1 w2, write_in (process s) [1; 120] (host s) = (Ok tt, w1) /\
      wait (process s) (Some (seconds 10)) w1 = (Ok 0, w2) /\ s' = set_host w2 s).
Proof.
  unfold write. do 3 post_step. apply post_on_host. post_step.
  destruct (write_in (process s) [1; 120] (host s)) as [[[]|e] w1]; cbn [fst snd]; [|done].
  do 3 post_step. apply post_on_host. post_step. cbn [host process set_host].
  destruct (wait _ _ w1) as [[code|e] w2] eqn:E; cbn [fst snd]; [|done].
  destruct (Z.eqb_spec code 0) as [->|]; post_step; [|done]. intros _. by exists w1, w2.
Qed.

Lemma conversation_post present usertests s : output s = [] -> post (conversation present usertests) s (fun r s' =>
  r = Ok tt -> conversed present usertests s s').
Proof.
  intros O0. unfold conversation. post_step. eapply post_mono; [apply wait_count_post|].
  intros [[]|e] s1 [[boot F1] M]; [|done]. specialize (M eq_refl). unfold missing in M.
  pose proof F1 as (P1 & O1 & _). rewrite O1, O0 in M.
  change 0 with (len (@nil Z)) in M at 1. rewrite zdrop_len in M. apply Z.ltb_ge in M.
  post_step. eapply post_mono; [apply send_and_wait_post|]. intros [hello|e] s2 [P2 Hh]; [|done].
  post_step. post_step. destruct (require_exact hello _) as [[]|] eqn:Eh; [|done]. apply require_exact_ok in Eh.
  post_step. eapply post_mono; [apply send_and_wait_post|]. intros [echo|e] s3 [P3 He]; [|done].
  post_step. post_step. destruct (require_exact echo _) as [[]|] eqn:Ee; [|done]. apply require_exact_ok in Ee.
  destruct (Hh hello eq_refl) as (h1 & h2 & Rh & -> & _), (He echo eq_refl) as (e1 & e2 & Re & -> & _).
  post_step. eapply post_mono; [apply tests_post|]. intros [[]|e] s4 Ht; [|done].
  destruct (Ht eq_refl) as [Ht4 P4]. eapply post_mono; [apply quit_post|]. intros r s5 Hq Hr.
  assert (P : process s4 = process s) by congruence. rewrite P in Hq.
  exists boot, (h1 ++ h2), (e1 ++ e2), s1, s2, s3, s4. repeat (split; [done|]). by apply Hq.
Qed.

(** What a check that passed consists of *)
Definition passed (present usertests : bool) (w w' : W) : Prop :=
  exists pid w0 s1 s2,
    popen Exported [] ["make"; "CPUS=1"; "qemu"] w = (Ok pid, w0) /\
    conversed present usertests (new_source 0 pid w0) s1 /\
    runs put_down s1 (Ok tt) s2 /\ w' = host s2.

Lemma main_post present usertests w : post (main present usertests) w (fun r w' =>
  r = Ok tt -> passed present usertests w w').
Proof.
  unfold main. do 2 post_step. destruct (popen _ _ _ w) as [[pid|e] w1] eqn:Ep; cbn [fst snd]; [|done].
  apply post_within. post_step. eapply post_mono; [by apply conversation_post|].
  intros r s1 Hr r2 s2 H2 Hok. destruct r2 as [[]|e]; [|done]. subst r.
  exists pid, w1, s1, s2. split; [done|]. split; [by apply Hr|]. done.
Qed.

(** C36: The check has an outcome on every host that keeps its laws.  When it
    passes, QEMU was started, and in this session the guest gave the prompt,
    answered [hello] and then [echo] with exactly the expected bytes, carriage
    returns apart, passed the tests with [--usertests], and ended with zero
    when it was told to; nothing but the clean-up follows. *)
Theorem check_qemu_exact present usertests w : exists r w', runs (main present usertests) w r w' /\
  (r = Ok tt -> passed present usertests w w').
Proof.
  destruct (total_main present usertests w) as (r & w' & H). exists r, w'. split; [done|].
  by apply main_post.
Qed.
End Session.

(** A guest without the program *)
Definition plain_guest : console :=
  {| now := 0; group := true; stubborn := false; lingering := false;
     inbox := [prompt; bytes_of_string "hello" ++ [cr; newline];
               bytes_of_string "exec hello failed" ++ [cr; newline] ++ prompt;
               bytes_of_string "echo abi-regression" ++ [cr; newline] ++ bytes_of_string "abi-regression" ++ [cr; newline];
               prompt];
     got := []; put := []; final := ([], 0) |}.

Lemma check_qemu_exact_witness : exists s, conversed (W := console) false false (new_source 0 7 plain_guest) s.
Proof.
  destruct (check_qemu_exact (W := console) false false plain_guest) as (r & w' & [n H] & Hr).
  assert (exists w2, main (W := console) false false 20%nat plain_guest = Some (Ok tt, w2)) as [w2 E]
    by (eexists; vm_compute; reflexivity).
  destruct (runs_det _ (main false false) plain_guest _ _ _ _ (ex_intro _ n H) (ex_intro _ 20%nat E)) as [-> _].
  destruct (Hr eq_refl) as (pid & w0 & s1 & s2 & Hp & Hc & _). injection Hp as <- <-. exists s1. exact Hc.
Defined.
