(* ===== verification/Sha256.v ===== *)
(** [hashlib.sha256(data).hexdigest()], written out from FIPS 180-4: 32-bit
    words as integers reduced modulo [2^32], the message schedule and the 64
    rounds as folds over the constants. *)

From stdpp Require Import base tactics list strings numbers list_numbers.
From S2P Require Import Prelude PyText PyBytes.
Open Scope Z_scope.

Definition w32 (z : Z) : Z := z mod 4294967296.
Definition rotr (n x : Z) : Z := Z.lor (Z.shiftr x n) (w32 (Z.shiftl x (32 - n))).

Definition sha_k : list Z :=
  [1116352408; 1899447441; 3049323471; 3921009573; 961987163; 1508970993;
   2453635748; 2870763221; 3624381080; 310598401; 607225278; 1426881987;
   1925078388; 2162078206; 2614888103; 3248222580; 3835390401; 4022224774;
   264347078; 604807628; 770255983; 1249150122; 1555081692; 1996064986;
   2554220882; 2821834349; 2952996808; 3210313671; 3336571891; 3584528711;
   113926993; 338241895; 666307205; 773529912; 1294757372; 1396182291;
   1695183700; 1986661051; 2177026350; 2456956037; 2730485921; 2820302411;
   3259730800; 3345764771; 3516065817; 3600352804; 4094571909; 275423344;
   430227734; 506948616; 659060556; 883997877; 958139571; 1322822218;
   1537002063; 1747873779; 1955562222; 2024104815; 2227730452; 2361852424;
   2428436474; 2756734187; 3204031479; 3329325298].

Definition sha_init : list Z :=
  [1779033703; 3144134277; 1013904242; 2773480762; 1359893119; 2600822924;
   528734635; 1541459225].

Fixpoint be_combine (acc : Z) (l : pybytes) : Z :=
  match l with [] => acc | b :: l => be_combine (256 * acc + b) l end.
Fixpoint be_split (n : nat) (z : Z) (acc : pybytes) : pybytes :=
  match n with O => acc | S n => be_split n (z / 256) (z mod 256 :: acc) end.

(** The message with [0x80], zeros up to 56 modulo 64, and its bit length. *)
Definition sha_pad (data : pybytes) : pybytes :=
  data ++ [128] ++ zeros ((55 - len data) mod 64) ++ be_split 8 (8 * len data) [].

Fixpoint chunks_of (fuel : nat) (n : Z) (l : pybytes) : list pybytes :=
  match fuel, l with
  | O, _ | _, [] => []
  | S fuel, _ => ztake n l :: chunks_of fuel n (zdrop n l)
  end.

(** One more schedule word from the last sixteen, most recent first. *)
Definition sha_next (ws : list Z) : list Z :=
  let w i := nth i ws 0 in
  let s0 := Z.lxor (Z.lxor (rotr 7 (w 14%nat)) (rotr 18 (w 14%nat))) (Z.shiftr (w 14%nat) 3) in
  let s1 := Z.lxor (Z.lxor (rotr 17 (w 1%nat)) (rotr 19 (w 1%nat))) (Z.shiftr (w 1%nat) 10) in
  w32 (w 15%nat + s0 + w 6%nat + s1) :: ws.

Definition sha_schedule (block : pybytes) : list Z :=
  rev (Nat.iter 48 sha_next (rev (map (be_combine 0) (chunks_of 16 4 block)))).

Definition sha_round (st : list Z) (kw : Z * Z) : list Z :=
  match st with
  | [a; b; c; d; e; f; g; h] =>
      let s1 := Z.lxor (Z.lxor (rotr 6 e) (rotr 11 e)) (rotr 25 e) in
      let ch := Z.lxor (Z.land e f) (Z.land (4294967295 - e) g) in
      let t1 := w32 (h + s1 + ch + fst kw + snd kw) in
      let s0 := Z.lxor (Z.lxor (rotr 2 a) (rotr 13 a)) (rotr 22 a) in
      let mj := Z.lxor (Z.lxor (Z.land a b) (Z.land a c)) (Z.land b c) in
      [w32 (t1 + w32 (s0 + mj)); a; b; c; w32 (d + t1); e; f; g]
  | _ => st
  end.

Definition sha_compress (h : list Z) (block : pybytes) : list Z :=
  zip_with (fun x y => w32 (x + y)) h
    (foldl sha_round h (zip sha_k (sha_schedule block))).

Definition sha256_bytes (data : pybytes) : pybytes :=
  let m := sha_pad data in
  concat (map (fun w => be_split 4 w [])
    (foldl sha_compress sha_init (chunks_of (S (length m)) 64 m))).

(** [hashlib.sha256(data).hexdigest()] *)
Definition sha256 (data : pybytes) : pystr :=
  concat (map (fun b => [hex_digit (b / 16); hex_digit (b mod 16)]) (sha256_bytes data)).

(** The test vectors of the standard. *)
Example sha256_abc :
  sha256 (u "abc") =
  u "ba7816bf8f01cfea414140de5dae2223b00361a396177a9cb410ff61f20015ad".
Proof. vm_compute. reflexivity. Qed.

Example sha256_two_blocks :
  sha256 (u "abcdbcdecdefdefgefghfghighijhijkijkljklmklmnlmnomnopnopq") =
  u "248d6a61d20638b8e5c026930c3e6039a33ce45964ff2167f6ecedd419db06c1".
Proof. vm_compute. reflexivity. Qed.
