(* ===== verification/FileTree.v ===== *)
(** Trees of files as the runner of [persistence/run-lab.py] samples them: the
    snapshot of an exported tree and the bytes hashed for a repository.  A
    snapshot tells, for every path, what is there; the hashed bytes determine
    the entries they were made from. *)

From stdpp Require Import base tactics list gmap strings numbers list_numbers sorting.
From S2P Require Import Prelude PyText PyBytes PyJson PyPath Sha256.
Open Scope Z_scope.

(** * Snapshots *)

Inductive node : Type :=
| File (mode : Z) (content : pybytes)
| Symlink (mode : Z) (target : pystr)
| Directory (mode : Z) (entries : list (pystr * node))
| Special (mode rdev : Z).
Abbreviation tree := (list (pystr * node)).

(** The values of the dictionary: [("file", mode, sha256)] and so on *)
Inductive fsvalue : Type :=
| VFile (mode : Z) (digest : pystr)
| VSymlink (mode : Z) (target : pystr)
| VDirectory (mode : Z)
| VSpecial (mode rdev : Z).

#[global] Instance fsvalue_eq_dec : EqDecision fsvalue.
Proof. solve_decision. Defined.

Definition value_of (n : node) : fsvalue :=
  match n with
  | File mode content => VFile mode (sha256 content)
  | Symlink mode target => VSymlink mode target
  | Directory mode _ => VDirectory mode
  | Special mode rdev => VSpecial mode rdev
  end.

(** [os.walk(root, followlinks=False)], which visits every node once; the
    order does not show in the dictionary. *)
Fixpoint walk_node (path : pystr) (n : node) : list (pystr * fsvalue) :=
  (path, value_of n) ::
  match n with
  | Directory _ entries =>
      (fix go (entries : list (pystr * node)) :=
         match entries with
         | [] => []
         | (name, child) :: entries => walk_node (path ++ slash ++ name) child ++ go entries
         end) entries
  | _ => []
  end.
Definition walk (t : tree) : list (pystr * fsvalue) := flat_map (fun e => walk_node e.1 e.2) t.

Definition snapshot (t : tree) : gmap pystr fsvalue :=
  foldl (fun result e => <[e.1 := e.2]> result) ∅ (walk t).

(** * Sampling a repository

    [git] lists names; a name is looked at with [lstat].  [S_IFMT] is 32768 for
    a regular file and 40960 for a symbolic link. *)
Inductive sampled : Type :=
| Absent
| Regular (mode : Z) (content : pybytes)
| Linked (mode : Z) (target : pybytes)
| Other (ifmt mode rdev : Z).

(** The two numbers of an entry *)
Definition kind_field (ifmt mode : Z) : pybytes := str_of_int ifmt ++ u ":" ++ str_of_int mode.

(** The fields [_hash_fs_entry] feeds to the digest, each followed by a zero *)
Definition entry_fields (name : pybytes) (s : sampled) : list pybytes :=
  match s with
  | Absent => [name; u "missing"]
  | Regular mode content => [name; kind_field 32768 mode; sha256 content]
  | Linked mode target => [name; kind_field 40960 mode; target]
  | Other ifmt mode rdev => [name; kind_field ifmt mode; u "rdev=" ++ str_of_int rdev]
  end.
Definition hash_fs_entry (e : pybytes * sampled) : pybytes :=
  concat ((fun field => field ++ [0]) <$> entry_fields e.1 e.2).
Definition files_section (entries : list (pybytes * sampled)) : pybytes :=
  concat (hash_fs_entry <$> entries).

(** [repo_state()["digest"]], from the answers of git *)
Definition repo_digest (index status : pybytes) (entries : list (pybytes * sampled)) : pystr :=
  sha256 (u "INDEX" ++ [0] ++ index ++ [0] ++ u "FILES" ++ [0] ++ files_section entries ++
          u "STATUS" ++ [0] ++ status).

(** * Nodes by path *)

Fixpoint sub (n : node) (path : list pystr) : option node :=
  match path with
  | [] => Some n
  | name :: path =>
      match n with
      | Directory _ entries => child ← lookup_key name entries; sub child path
      | _ => None
      end
  end.
Definition find_node (t : tree) (path : list pystr) : option node := sub (Directory 0 t) path.

(** Names of a directory are distinct, not empty and have no slash. *)
Definition valid_name (name : pystr) : bool := negb (bool_decide (name = [])) && negb (bool_decide (47 ∈ name)).
Fixpoint wf_node (n : node) : bool :=
  match n with
  | Directory _ entries =>
      bool_decide (NoDup entries.*1) &&
      (fix go (entries : list (pystr * node)) :=
         match entries with
         | [] => true
         | (name, child) :: entries => valid_name name && wf_node child && go entries
         end) entries
  | _ => true
  end.
Definition wf_tree (t : tree) : bool := wf_node (Directory 0 t).

(** * Lemmas on nodes *)

Section NodeInd.
Context (P : node -> Prop).
Hypothesis file_case : forall m c, P (File m c).
Hypothesis link_case : forall m t, P (Symlink m t).
Hypothesis dir_case : forall m es, Forall (fun e => P e.2) es -> P (Directory m es).
Hypothesis special_case : forall m r, P (Special m r).

Fixpoint node_induction (n : node) : P n :=
  match n with
  | File m c => file_case m c
  | Symlink m t => link_case m t
  | Directory m es =>
      dir_case m es ((fix go (es : tree) : Forall (fun e => P e.2) es :=
        match es with
        | [] => List.Forall_nil _
        | e :: es => List.Forall_cons _ e es (node_induction e.2) (go es)
        end) es)
  | Special m r => special_case m r
  end.
End NodeInd.

Lemma walk_directory path m es :
  walk_node path (Directory m es) =
  (path, VDirectory m) :: flat_map (fun e => walk_node (path ++ slash ++ e.1) e.2) es.
Proof. cbn. f_equal. induction es as [|[name child] es IH]; cbn; [done|]. by rewrite IH. Qed.

Lemma wf_directory m es : wf_node (Directory m es) = true ->
  NoDup es.*1 /\ Forall (fun e => valid_name e.1 = true /\ wf_node e.2 = true) es.
Proof.
  cbn. intros [H1%bool_decide_eq_true H2]%andb_true_iff. split; [done|]. clear H1.
  induction es as [|[name child] es IH]; [constructor|].
  apply andb_true_iff in H2 as [[? ?]%andb_true_iff H2]. constructor; auto.
Qed.

Lemma lookup_key_distinct {A} (es : list (pystr * A)) k v : NoDup es.*1 ->
  (k, v) ∈ es <-> lookup_key k es = Some v.
Proof.
  intros H. split; [|apply lookup_key_Some]. induction es as [|[k' v'] es IH]; cbn; [by intros ?%not_elem_of_nil|].
  apply NoDup_cons in H as [Hn H]. intros [E|E]%elem_of_cons.
  - injection E as -> ->. by rewrite bool_decide_true.
  - rewrite bool_decide_false; [auto|]. intros ->. apply Hn. by apply (list_elem_of_fmap_2 fst) in E.
Qed.

(** What the walk finds below a node *)
Lemma walk_node_elem n : wf_node n = true -> forall path k v,
  (k, v) ∈ walk_node path n <->
  exists names m, sub n names = Some m /\ v = value_of m /\ k = join slash (path :: names) /\
    Forall (fun name => valid_name name = true) names.
Proof.
  induction n as [m c|m t|m es IH|m r] using node_induction; intros Hw path k v.
  1, 2, 4: cbn; rewrite list_elem_of_singleton; split;
    [intros [= -> ->]; exists []; eexists; cbn; split; [reflexivity|done]
    |intros (names & m' & Hs & -> & -> & _); destruct names; [by injection Hs as <-|done]].
  apply wf_directory in Hw as [Hd Hw]. rewrite walk_directory, elem_of_cons. split.
  - intros [[= -> ->]|H]; [by exists [], (Directory m es)|].
    apply list_elem_of_In, in_flat_map in H as ([name child] & Hin%list_elem_of_In & H%list_elem_of_In).
    rewrite Forall_forall in IH, Hw. destruct (Hw _ Hin) as [Hv Hc].
    apply (IH _ Hin Hc) in H as (names & m' & Hs & -> & -> & Hf).
    exists (name :: names), m'. split; [|split; [done|split; [|by constructor]]].
    + cbn. by rewrite (proj1 (lookup_key_distinct es name child Hd) Hin).
    + cbn in *. destruct names; by rewrite <- ?app_assoc.
  - intros (names & m' & Hs & -> & -> & Hf). destruct names as [|name names]; [left; cbn in Hs; by injection Hs as <-|].
    right. cbn in Hs. destruct (lookup_key name es) as [child|] eqn:E; [|done].
    apply lookup_key_Some in E. apply list_elem_of_In, in_flat_map. exists (name, child).
    split; [by apply list_elem_of_In|]. apply list_elem_of_In. rewrite Forall_forall in IH, Hw.
    destruct (Hw _ E) as [_ Hc]. apply (IH _ E Hc). exists names, m'. inversion Hf; subst.
    split; [done|]. split; [done|]. split; [|done]. cbn. destruct names; by rewrite <- ?app_assoc.
Qed.

(** * Paths *)

(** A separator that is in neither part tells where the first part ends. *)
Lemma cut_unique (c : Z) a b x y : c ∉ a -> c ∉ b -> a ++ c :: x = b ++ c :: y -> a = b /\ x = y.
Proof.
  revert b. induction a as [|z a IH]; intros [|z' b] Ha Hb E; cbn in E.
  - by injection E.
  - injection E as <- E. destruct Hb. left.
  - injection E as -> E. destruct Ha. left.
  - injection E as -> E. apply not_elem_of_cons in Ha as [_ Ha], Hb as [_ Hb].
    destruct (IH b Ha Hb E) as [-> ->]. done.
Qed.

Lemma valid_name_spec name : valid_name name = true <-> name <> [] /\ 47 ∉ name.
Proof. unfold valid_name. rewrite andb_true_iff, !negb_true_iff, !bool_decide_eq_false. done. Qed.

Lemma join_paths_inj p q :
  Forall (fun name => valid_name name = true) p -> Forall (fun name => valid_name name = true) q ->
  p <> [] -> q <> [] -> join slash p = join slash q -> p = q.
Proof.
  intros Hp. revert q. induction Hp as [|a p Ha Hp IH]; intros q Hq Np Nq E; [done|].
  destruct Hq as [|b q Hb Hq]; [done|]. apply valid_name_spec in Ha as [_ Ha], Hb as [_ Hb].
  assert (slash = [47]) as S by reflexivity.
  destruct p as [|a2 p], q as [|b2 q]; cbn [join] in E; rewrite ?S in E; cbn in E.
  - by subst.
  - subst a. destruct Ha. apply elem_of_app. right. left.
  - subst b. destruct Hb. apply elem_of_app. right. left.
  - apply cut_unique in E as [-> E]; [|done..]. f_equal. apply IH; [done..|]. by rewrite S.
Qed.

(** A list of pairs in which a key has one value is the dictionary built from it. *)
Lemma fold_insert_elem {V} (l : list (pystr * V)) k v :
  (forall k v v', (k, v) ∈ l -> (k, v') ∈ l -> v = v') ->
  foldl (fun result e => <[e.1 := e.2]> result) (∅ : gmap pystr V) l !! k = Some v <-> (k, v) ∈ l.
Proof.
  induction l as [|[k' v'] l IH] using rev_ind; intros H; [cbn; rewrite lookup_empty; split; [done|by intros ?%not_elem_of_nil]|].
  rewrite foldl_snoc. cbn. rewrite elem_of_app, list_elem_of_singleton. destruct (decide (k = k')) as [->|N].
  - rewrite lookup_insert_eq. split; [intros [= ->]; by right|]. intros [E|[= ->]]; [|done]. f_equal.
    apply (H k'); apply elem_of_app; [right; by apply list_elem_of_singleton|by left].
  - rewrite lookup_insert_ne by done. rewrite IH; [naive_solver|].
    intros k1 v1 v2 E1 E2. apply (H k1); apply elem_of_app; by left.
Qed.

Lemma walk_elem t : wf_tree t = true -> forall k v, (k, v) ∈ walk t <->
  exists path m, path <> [] /\ find_node t path = Some m /\ v = value_of m /\ k = join slash path /\
    Forall (fun name => valid_name name = true) path.
Proof.
  intros Hw k v. apply (wf_directory 0) in Hw as [Hd Hw]. unfold walk. rewrite Forall_forall in Hw. split.
  - intros ([name n] & Hin & H)%list_elem_of_In%in_flat_map. apply list_elem_of_In in Hin, H.
    destruct (Hw _ Hin) as [Hv Hc]. cbn in *. apply (walk_node_elem n Hc) in H as (names & m & Hs & -> & -> & Hf).
    exists (name :: names), m. split; [done|]. split; [|split; [done|split; [done|by constructor]]].
    unfold find_node. cbn. by rewrite (proj1 (lookup_key_distinct t name n Hd) Hin).
  - intros (path & m & Hn & Hs & -> & -> & Hf). destruct path as [|name path]; [done|].
    unfold find_node in Hs. cbn in Hs. destruct (lookup_key name t) as [n|] eqn:E; [|done].
    apply lookup_key_Some in E. apply list_elem_of_In, in_flat_map. exists (name, n).
    split; [by apply list_elem_of_In|]. apply list_elem_of_In. destruct (Hw _ E) as [_ Hc].
    apply (walk_node_elem n Hc). exists path, m. inversion Hf; subst. done.
Qed.

(** The snapshot says of every path what is there. *)
Lemma snapshot_lookup t path : wf_tree t = true -> path <> [] ->
  Forall (fun name => valid_name name = true) path ->
  snapshot t !! join slash path = value_of <$> find_node t path.
Proof.
  intros Hw Hn Hf. apply option_eq. intros v. unfold snapshot.
  assert (forall k v v', (k, v) ∈ walk t -> (k, v') ∈ walk t -> v = v') as U.
  { intros k v1 v2 (p & m & ? & H1 & -> & -> & ?)%walk_elem (p' & m' & ? & H2 & -> & E & ?)%walk_elem; [|done..].
    apply join_paths_inj in E; [|done..]. subst p'. congruence. }
  rewrite fold_insert_elem by done. rewrite walk_elem by done. split.
  - intros (p & m & ? & H1 & -> & E & ?). apply join_paths_inj in E; [|done..]. subst p. by rewrite H1.
  - intros (m & H1 & ->)%fmap_Some. eauto 10.
Qed.

(** A node without what is below it *)
Definition shallow (n : node) : node := match n with Directory mode _ => Directory mode [] | _ => n end.

(** C30: Two trees with the same snapshot have the same node at every path,
    with its kind, mode, target and contents, as long as no content of the one
    has the digest of a different content of the other. *)
Theorem snapshot_detects t1 t2 :
  wf_tree t1 = true -> wf_tree t2 = true ->
  (forall p q m1 c1 m2 c2, find_node t1 p = Some (File m1 c1) -> find_node t2 q = Some (File m2 c2) ->
     sha256 c1 = sha256 c2 -> c1 = c2) ->
  snapshot t1 = snapshot t2 ->
  forall path, path <> [] -> Forall (fun name => valid_name name = true) path ->
    shallow <$> find_node t1 path = shallow <$> find_node t2 path.
Proof.
  intros W1 W2 C E path Hn Hf. apply (f_equal (lookup (join slash path))) in E.
  rewrite !snapshot_lookup in E by done.
  destruct (find_node t1 path) as [n1|] eqn:E1, (find_node t2 path) as [n2|] eqn:E2; [|done..].
  cbn in *. f_equal. injection E as E.
  destruct n1, n2; try discriminate E; cbn in E |- *; injection E; intros; subst; try done.
  f_equal. by apply (C path path mode0 content mode0 content0).
Qed.

Lemma snapshot_detects_witness :
  let t1 := [(u "a", File 420 [104; 105]); (u "d", Directory 493 [(u "x", Symlink 511 (u "../a"))])] in
  let t2 := [(u "d", Directory 493 [(u "x", Symlink 511 (u "../a"))]); (u "a", File 420 [104; 105])] in
  shallow <$> find_node t1 [u "d"; u "x"] = shallow <$> find_node t2 [u "d"; u "x"].
Proof.
  intros t1 t2. apply (snapshot_detects t1 t2).
  - vm_compute. reflexivity.
  - vm_compute. reflexivity.
  - assert (forall t, t = t1 \/ t = t2 -> forall p m c, find_node t p = Some (File m c) -> c = [104; 105]) as K.
    { intros t Ht p m c H. unfold find_node in H. destruct p as [|a p]; [done|].
      assert (forall n, lookup_key a t = Some n -> n = File 420 [104; 105] \/
        n = Directory 493 [(u "x", Symlink 511 (u "../a"))]) as A.
      { intros n L. apply lookup_key_Some in L. destruct Ht as [-> | ->];
          repeat (apply elem_of_cons in L as [L|L]; [injection L; intros; subst; auto|]); by apply not_elem_of_nil in L. }
      cbn in H. destruct (lookup_key a t) as [n|] eqn:E; [|done]. cbn in H. destruct (A n eq_refl) as [-> | ->].
      - destruct p; cbn in H; [by injection H|done].
      - destruct p as [|b p]; cbn in H; [done|]. destruct (bool_decide _); cbn in H; [|done]. by destruct p. }
    intros p q m1 c1 m2 c2 H1 H2 _. rewrite (K t1 (or_introl eq_refl) _ _ _ H1), (K t2 (or_intror eq_refl) _ _ _ H2).
    reflexivity.
  - apply map_eq. intros k. vm_compute. reflexivity.
  - discriminate.
  - repeat constructor.
Defined.

(** * The hashed bytes *)

Lemma frames_inj (fs gs : list pybytes) : Forall (fun f => 0 ∉ f) fs -> Forall (fun f => 0 ∉ f) gs ->
  concat ((fun f => f ++ [0]) <$> fs) = concat ((fun f => f ++ [0]) <$> gs) -> fs = gs.
Proof.
  intros Hf. revert gs. induction Hf as [|f fs Hf _ IH]; intros [|g gs] Hg E; [done|..].
  - by destruct g.
  - by destruct f.
  - apply Forall_cons in Hg as [Hg Hgs]. cbn in E. rewrite <- !app_assoc in E. cbn in E.
    apply cut_unique in E as [-> E]; [|done..]. f_equal. auto.
Qed.

Lemma str_of_int_lacks c z : c <> 45 -> digit c = false -> c ∉ str_of_int z.
Proof.
  intros H1 H2 H. pose proof (str_of_int_chars z) as F. rewrite Forall_forall in F.
  apply list_elem_of_In in H. specialize (F c (proj2 (list_elem_of_In _ _) H)). destruct F; congruence.
Qed.
Lemma str_of_int_inj a b : str_of_int a = str_of_int b -> a = b.
Proof. intros E. apply (f_equal int_of_str) in E. rewrite !int_of_str_of_int in E. congruence. Qed.

Lemma kind_field_inj i m i' m' : kind_field i m = kind_field i' m' -> i = i' /\ m = m'.
Proof.
  unfold kind_field. intros E. apply cut_unique in E as [E1 E2]; [|by apply str_of_int_lacks..].
  split; by apply str_of_int_inj.
Qed.

Lemma kind_field_present i m : kind_field i m <> u "missing".
Proof.
  unfold kind_field. intros E. pose proof (str_of_int_chars i) as F. pose proof (str_of_int_nonempty i) as N.
  destruct (str_of_int i) as [|c s]; [done|]. cbn in E. injection E as -> _. inversion F; subst. naive_solver.
Qed.

Lemma be_split_bytes n z acc : is_bytes acc -> is_bytes (be_split n z acc).
Proof.
  revert z acc. induction n as [|n IH]; intros z acc H; cbn; [done|]. apply IH. constructor; [|done].
  apply Z.mod_pos_bound. lia.
Qed.

Lemma sha256_zero_free data : 0 ∉ sha256 data.
Proof.
  unfold sha256. assert (is_bytes (sha256_bytes data)) as B.
  { unfold sha256_bytes. apply Forall_concat, Forall_forall. intros l Hl.
    apply list_elem_of_In, in_map_iff in Hl as (w & <- & _). apply be_split_bytes. constructor. }
  induction B as [|b l Hb _ IH]; cbn; [apply not_elem_of_nil|]. rewrite !not_elem_of_cons. split; [|split; [|done]];
    unfold hex_digit; case_match; pose proof (Z.div_pos b 16); pose proof (Z.mod_pos_bound b 16); lia.
Qed.

(** Names and link targets have no zero byte, and the kinds are told apart. *)
Definition framed (e : pybytes * sampled) : Prop :=
  0 ∉ e.1 /\
  match e.2 with
  | Linked _ target => 0 ∉ target
  | Other ifmt _ _ => ifmt <> 32768 /\ ifmt <> 40960
  | _ => True
  end.

Lemma entry_fields_framed e : framed e -> Forall (fun f => 0 ∉ f) (entry_fields e.1 e.2).
Proof.
  assert (forall i m, 0 ∉ kind_field i m) as K.
  { intros i m. unfold kind_field. rewrite !not_elem_of_app. split; [by apply str_of_int_lacks|].
    split; [|by apply str_of_int_lacks]. by vm_compute; intros [?|?%not_elem_of_nil]%elem_of_cons. }
  assert (forall z, 0 ∉ u "rdev=" ++ str_of_int z) as D.
  { intros z. rewrite not_elem_of_app. split; [|by apply str_of_int_lacks].
    apply (bool_decide_eq_true_1 (0 ∉ u "rdev=")). vm_compute. reflexivity. }
  assert (0 ∉ u "missing") as M by (apply (bool_decide_eq_true_1 (0 ∉ u "missing")); vm_compute; reflexivity).
  destruct e as [name s]. intros [Hn H]. destruct s; cbn [fst snd entry_fields] in *;
    repeat apply Forall_cons_2; auto using sha256_zero_free, List.Forall_nil.
Qed.

Lemma files_fields entries :
  files_section entries = concat ((fun f => f ++ [0]) <$> flat_map (fun e => entry_fields e.1 e.2) entries).
Proof.
  unfold files_section. induction entries as [|e entries IH]; [done|].
  cbn. rewrite IH, fmap_app, concat_app. done.
Qed.

(** The fields of an entry determine it and where the next one starts. *)
Lemma entry_fields_inj e e' fs fs' : framed e -> framed e' ->
  (forall m c m' c', e.2 = Regular m c -> e'.2 = Regular m' c' -> sha256 c = sha256 c' -> c = c') ->
  entry_fields e.1 e.2 ++ fs = entry_fields e'.1 e'.2 ++ fs' -> e = e' /\ fs = fs'.
Proof.
  destruct e as [n s], e' as [n' s']. unfold framed. cbn. intros [_ F] [_ F'] C E.
  assert (forall (a b c a' b' c' : pybytes), a :: b :: c :: fs = a' :: b' :: c' :: fs' ->
    a = a' /\ b = b' /\ c = c' /\ fs = fs') as I3 by (intros; by simplify_eq).
  assert (forall (a b a' b' : pybytes) l l', a :: b :: l = a' :: b' :: l' -> b = b') as I2 by (intros; by simplify_eq).
  destruct s as [|m c|m t|i m r], s' as [|m' c'|m' t'|i' m' r']; cbn [entry_fields app] in E.
  1: by injection E as -> ->.
  1-3: apply I2 in E; symmetry in E; by apply kind_field_present in E.
  1, 5, 9: apply I2 in E; by apply kind_field_present in E.
  all: apply I3 in E as (-> & [Ei ->]%kind_field_inj & E & ->).
  - rewrite (C _ _ _ _ eq_refl eq_refl E). split; reflexivity.
  - lia.
  - lia.
  - lia.
  - rewrite E. split; reflexivity.
  - lia.
  - lia.
  - lia.
  - apply app_inv_head, str_of_int_inj in E. rewrite Ei, E. split; reflexivity.
Qed.

Lemma files_section_injective l l' : Forall framed l -> Forall framed l' ->
  (forall n m c n' m' c', (n, Regular m c) ∈ l -> (n', Regular m' c') ∈ l' -> sha256 c = sha256 c' -> c = c') ->
  files_section l = files_section l' -> l = l'.
Proof.
  intros F F' C E. rewrite !files_fields in E. apply frames_inj in E.
  2, 3: apply Forall_flat_map; eapply Forall_impl; [eassumption|]; apply entry_fields_framed.
  revert l' F' C E. induction F as [|[n s] l Fe F IH]; intros [|[n' s'] l'] F' C E.
  - done.
  - by destruct s'.
  - by destruct s.
  - apply Forall_cons in F' as [Fe' F']. cbn [flat_map] in E. apply entry_fields_inj in E as [-> E]; [|done..|].
    + f_equal. apply IH; [done| |done]. intros a m c a' m' c' H1 H2. apply (C a m c a' m' c'); by right.
    + cbn. intros m c m' c' -> ->. apply (C n m c n' m' c'); left.
Qed.

(** C31: Any difference in the names, kinds, modes, link targets or contents
    of the sampled files changes the bytes that are hashed, as long as no two
    contents have the same digest: no field runs into the next one. *)
Theorem files_section_tells l l' : Forall framed l -> Forall framed l' ->
  (forall n m c n' m' c', (n, Regular m c) ∈ l -> (n', Regular m' c') ∈ l' -> sha256 c = sha256 c' -> c = c') ->
  l <> l' -> files_section l <> files_section l'.
Proof. intros F F' C N E. by apply N, files_section_injective. Qed.

Lemma files_section_tells_witness :
  files_section [(u "Makefile", Regular 420 [97]); (u "old", Absent)] <>
  files_section [(u "Makefile", Regular 493 [97]); (u "old", Absent)].
Proof.
  assert (forall m, Forall framed [(u "Makefile", Regular m [97]); (u "old", Absent)]) as F.
  { intros m. apply Forall_cons_2; [|apply Forall_cons_2; [|apply List.Forall_nil]]; split; try exact I;
      cbn [fst]; refine (proj1 (bool_decide_eq_true _) _); vm_compute; reflexivity. }
  apply files_section_tells; [apply F|apply F| |discriminate].
  intros n m c n' m' c' H H' _.
  assert (forall k n m c, (n, Regular m c) ∈ [(u "Makefile", Regular k [97]); (u "old", Absent)] -> c = [97]) as K.
  { intros k a b d I. apply elem_of_cons in I as [I|I]; [by injection I|].
    apply elem_of_cons in I as [I|I]; [discriminate I|by apply not_elem_of_nil in I]. }
  rewrite (K _ _ _ _ H), (K _ _ _ _ H'). reflexivity.
Defined.
