(* ===== verification/SharedRepo.v ===== *)
(** The shared repository of [persistence/run-lab.py]: its state as a digest, the
    tools it is run with, and the copy of a candidate patch.  Its files and the
    search path are an interface. *)

From stdpp Require Import base tactics list gmap strings numbers list_numbers.
From S2P Require Import Prelude PyText PyBytes PyIo PyPath Sha256 HostSession HostProps FileTree.
Open Scope Z_scope.

(** A path is relative to [REPO_ROOT] unless it is absolute. *)
Class Repository (W : Type) := {
  (** [path.lstat()], with the content of a file or the target of a link *)
  lstat_at : W -> pystr -> result sampled;
  (** whether [path.is_file()], and then [S_IMODE(path.stat().st_mode)] and the
      content *)
  file_at : W -> pystr -> result (option (Z * pybytes));
  (** [REPO_ROOT.is_dir()] and [path.exists()] *)
  root_there : W -> bool;
  exists_at : W -> pystr -> bool;
  (** [shutil.which(name)] *)
  which : W -> string -> bool;
  (** [path.expanduser().resolve(strict=True)] *)
  resolved : W -> pystr -> result pystr;
  (** [shutil.copyfile(source, destination)] *)
  copyfile : pystr -> pystr -> W -> result () * W
}.

(** [s] as an argument of a command *)
Definition argument (s : pystr) : string :=
  foldr (fun b rest => String (Ascii.ascii_of_N (Z.to_N b)) rest) EmptyString (utf8_encode s).

(** [path.is_relative_to(root)] *)
Definition is_relative_to (path root : pystr) : bool := bool_decide (path_parts root `prefix_of` path_parts path).

Section Shared.
Context {W : Type} `{!Host W} `{!Repository W}.
(** [os.fsdecode] and [os.fsencode] *)
Context (fsdecode fsencode : pybytes -> pystr).

(** [sorted({os.fsdecode(item) for item in visible + ignored if item})] *)
Definition listed_names (visible ignored : pybytes) : list pystr :=
  sorted_strs (remove_dups (fsdecode <$> base.filter (fun item => item <> []) (split [0] visible ++ split [0] ignored))).

Definition repo_file_names : io W (list pystr) :=
  visible ← checked_bytes Shared ["git"; "ls-files"; "-z"; "--cached"; "--others"; "--exclude-standard"] (seconds 300);
  ignored ← checked_bytes Shared ["git"; "ls-files"; "-z"; "--others"; "--ignored"; "--exclude-standard"] (seconds 300);
  mret (listed_names visible ignored).

Definition sample (w : W) (names : list pystr) : result (list (pybytes * sampled)) :=
  mapR (fun name => s ← lstat_at w name; Ok (fsencode name, s)) names.

(** [repo_state()["digest"]] *)
Definition repo_state : io W pystr :=
  index ← checked_bytes Shared ["git"; "ls-files"; "--stage"; "-z"] (seconds 300);
  status ← checked_bytes Shared ["git"; "status"; "--porcelain=v1"; "-z"; "--untracked-files=all"; "--ignored"] (seconds 300);
  names ← repo_file_names;
  w ← state;
  entries ← lift (sample w names);
  mret (repo_digest index status entries).

Definition digest_or_missing (w : W) (path : pystr) : result pystr :=
  s ← lstat_at w path;
  Ok (match s with
      | Linked _ target => u "symlink:" ++ sha256 target
      | Regular _ content => sha256 content
      | _ => u "missing"
      end).

(** [path.is_file()] *)
Definition there (w : W) (path : string) : result bool :=
  f ← file_at w (u path); Ok (match f with Some _ => true | None => false end).

(** [sha256(path)] *)
Definition content_at (w : W) (path : pystr) : result pybytes :=
  f ← file_at w path; of_option OSError (snd <$> f).

Definition max_bytes : Z := 2 * 1024 * 1024.

Definition stage_artifact (source destination : pystr) : io W pystr :=
  w ← state;
  source ← lift (resolved w source);
  metadata ← lift (lstat_at w source);
  content ← lift (match metadata with
                  | Regular _ content => Ok content
                  | _ => Raise (LabError [T "artifact must be a regular non-symlink file: "; V source])
                  end);
  lift (require ((0 <? len content) && (len content <=? max_bytes))
    [T "artifact size is outside the accepted bound: "; V source]);;
  before ← lift (content_at w source);
  let before := sha256 before in
  act (copyfile source destination);;
  w ← state;
  copied ← lift (content_at w destination);
  let failed := [T "artifact changed while staging: "; V source] in
  lift (require (bool_decide (sha256 copied = before)) failed);;
  again ← lift (content_at w source);
  lift (require (bool_decide (sha256 again = before)) failed);;
  mret before.

(** * The tools *)

Record Environment : Type := { env_make : pystr; env_compiler : pystr; env_qemu : pystr }.

(** [checked([tool, "--version"], cwd=REPO_ROOT).splitlines()[0]] *)
Definition version_of (tool : string) : io W pystr :=
  output ← checked_in Shared [tool; "--version"] (seconds 300);
  lift (of_option IndexError (head (splitlines output))).

Definition compilers : list string := ["riscv64-unknown-elf-gcc"; "riscv64-linux-gnu-gcc"].

(** The versions of the tools; the names of host and interpreter are left out. *)
Definition tool_environment : io W Environment :=
  w ← state;
  compiler ← lift (of_option (LabError [T "RISC-V compiler is required"]) (head (base.filter (fun c => which w c = true) compilers)));
  make ← version_of "make";
  compiler ← version_of compiler;
  qemu ← version_of "qemu-system-riscv64";
  mret {| env_make := make; env_compiler := compiler; env_qemu := qemu |}.

#[global] Instance mono_names : Mono repo_file_names.
Proof. unfold repo_file_names. by_parts. Qed.
#[global] Instance mono_repo_state : Mono repo_state.
Proof. unfold repo_state. by_parts. Qed.
#[global] Instance mono_stage s d : Mono (stage_artifact s d).
Proof. unfold stage_artifact. by_parts. Qed.
#[global] Instance mono_version t : Mono (version_of t).
Proof. unfold version_of. by_parts. Qed.
#[global] Instance mono_environment : Mono tool_environment.
Proof. unfold tool_environment. by_parts. Qed.

Context `{!HostLaws W}.

#[global] Instance total_names : Total repo_file_names.
Proof. unfold repo_file_names. by_parts. Qed.
#[global] Instance total_repo_state : Total repo_state.
Proof. unfold repo_state. by_parts. Qed.
#[global] Instance total_stage s d : Total (stage_artifact s d).
Proof. unfold stage_artifact. by_parts. Qed.
#[global] Instance total_version t : Total (version_of t).
Proof. unfold version_of. by_parts. Qed.
#[global] Instance total_environment : Total tool_environment.
Proof. unfold tool_environment. by_parts. Qed.
End Shared.
#[global] Typeclasses Opaque repo_file_names repo_state stage_artifact version_of tool_environment.
