(* ===== verification/Fsck.v ===== *)
(** The read-only image checker, [docs/xv6-tutorial/resources/recovery/fsck.py].

    An image is a byte string.  [parse_geometry] and [parse_log] read the
    superblock and the log header, [inspect_view] audits one view of the file
    system (inodes, block ownership, bitmap, directories, reachability, link
    counts), and [check_bytes] audits the raw image and the image with the
    log replayed into a copy (the shadow).  The functions that take a
    [Diagnostics] object and mutate it return the new set of diagnostics. *)

From stdpp Require Import base tactics list gmap strings numbers list_numbers.
From S2P Require Import Prelude PyText PyBytes Sha256.
Open Scope Z_scope.

(** * Constants *)

Definition BSIZE : Z := 1024.
Definition FSMAGIC : Z := 270544960.
Definition ROOTINO : Z := 1.
Definition NDIRECT : Z := 12.
Definition NINDIRECT : Z := BSIZE / 4.
Definition MAXFILE : Z := NDIRECT + NINDIRECT.
Definition IPB : Z := BSIZE / 64.
Definition BPB : Z := BSIZE * 8.
Definition LOGBLOCKS : Z := 30.
Definition T_DIR : Z := 1.
Definition T_FILE : Z := 2.
Definition T_DEVICE : Z := 3.
Definition VALID_TYPES : list Z := [T_DIR; T_FILE; T_DEVICE].
Definition DINODE : list fmt := [Fh; Fh; Fh; Fh; FI] ++ repeat FI 13.
Definition DIRENT_SIZE : Z := 16.
Definition SUPER : list fmt := repeat FI 8.

Record Geometry : Type := {
  size : Z;
  nblocks : Z;
  ninodes : Z;
  nlog : Z;
  logstart : Z;
  inodestart : Z;
  bmapstart : Z;
  data_start : Z
}.

Record Inode : Type := {
  inum : Z;
  type : Z;
  major : Z;
  minor : Z;
  nlink : Z;
  isize : Z;
  addrs : list Z
}.

(** * Diagnostics *)

Abbreviation Diagnostics := (gset pystr).

Fixpoint insert_field (f : string * pystr) (l : list (string * pystr)) :=
  match l with
  | [] => [f]
  | g :: l' => if str_le (u (fst f)) (u (fst g)) then f :: l else g :: insert_field f l'
  end.
Definition sorted_fields (fields : list (string * pystr)) : list (string * pystr) :=
  foldr insert_field [] fields.

(** The text of one diagnostic: the code, then [key=value] sorted by key. *)
Definition diag_text (code : string) (fields : list (string * pystr)) : pystr :=
  let detail := join (u ",")
    (map (fun f => u (fst f) ++ u "=" ++ snd f) (sorted_fields fields)) in
  match detail with [] => u code | _ => u code ++ u ":" ++ detail end.

Definition add (code : string) (fields : list (string * pystr)) (d : Diagnostics)
    : Diagnostics := {[ diag_text code fields ]} ∪ d.

Definition codes (d : Diagnostics) : list pystr := sorted_strs (elements d).

(** [not diagnostics.codes()] *)
Definition no_codes (d : Diagnostics) : bool :=
  match codes d with [] => true | _ => false end.

Abbreviation i2s := str_of_int.

(** * Superblock and log *)

Definition block (data : pybytes) (number : Z) : pybytes :=
  slice (number * BSIZE) (number * BSIZE + BSIZE) data.

Definition geometry_valid (bytes size nblocks ninodes nlog logstart inodestart
    bmapstart data_start : Z) : bool :=
  (0 <? size) && (bytes =? size * BSIZE) &&
  (0 <? ninodes) && (ninodes <=? size * IPB) &&
  (nlog =? LOGBLOCKS + 1) &&
  (logstart =? 2) &&
  (inodestart =? logstart + nlog) &&
  (bmapstart =? inodestart + (ninodes + IPB - 1) / IPB) &&
  (data_start <? size) && (nblocks =? size - data_start).

Definition parse_geometry (data : pybytes) (diagnostics : Diagnostics)
    : result (option Geometry * Diagnostics) :=
  if len data <? 2 * BSIZE then
    Ok (None, add "E_IMAGE_TRUNCATED" [("bytes", i2s (len data))] diagnostics)
  else
    fields ← unpack_from SUPER data BSIZE;
    match fields with
    | [magic; size; nblocks; ninodes; nlog; logstart; inodestart; bmapstart] =>
        if negb (magic =? FSMAGIC) then
          Ok (None, add "E_SUPER_MAGIC" [("observed", hex magic)] diagnostics)
        else
          let nbitmap := (size + BPB - 1) / BPB in
          let data_start := bmapstart + nbitmap in
          if geometry_valid (len data) size nblocks ninodes nlog logstart inodestart
               bmapstart data_start
          then Ok (Some (Build_Geometry size nblocks ninodes nlog logstart inodestart
                           bmapstart data_start), diagnostics)
          else Ok (None, add "E_SUPER_GEOMETRY"
                           [("bytes", i2s (len data)); ("size", i2s size)] diagnostics)
    | _ => Raise ValueError
    end.

(** The bound check of one log target. *)
Definition bad_target (g : Geometry) (target : Z) : bool :=
  (target <? inodestart g) || (size g <=? target) ||
  ((logstart g <=? target) && (target <? logstart g + nlog g)).

(** The loop over [enumerate(targets)], with the set of targets seen. *)
Definition check_target (g : Geometry) (st : gset Z * Diagnostics) (it : Z * Z)
    : gset Z * Diagnostics :=
  let '(seen, d) := st in
  let '(index, target) := it in
  let fields := [("index", i2s index); ("target", i2s target)] in
  let d := if bad_target g target then add "E_LOG_TARGET" fields d else d in
  let d := if bool_decide (target ∈ seen) then add "E_LOG_DUP" fields d else d in
  ({[ target ]} ∪ seen, d).

(** [shadow[target * BSIZE:(target + 1) * BSIZE] = block(data, source)] *)
Definition install (data : pybytes) (g : Geometry) (shadow : pybytes) (it : Z * Z) : pybytes :=
  let '(index, target) := it in
  let source := logstart g + 1 + index in
  splice (target * BSIZE) ((target + 1) * BSIZE) (block data source) shadow.

Definition parse_log (data : pybytes) (g : Geometry) (diagnostics : Diagnostics)
    : result ((Z * list Z * option pybytes) * Diagnostics) :=
  let header := block data (logstart g) in
  count ← unpack_one Fi header 0;
  if (count <? 0) || (LOGBLOCKS <? count) then
    Ok ((count, [], None), add "E_LOG_COUNT" [("count", i2s count)] diagnostics)
  else
    targets ← (if count =? 0 then Ok []
               else unpack_from (repeat FI (Z.to_nat count)) header 4);
    let '(_, diagnostics) := foldl (check_target g) (∅, diagnostics) (enumerate targets) in
    if negb (no_codes diagnostics) then Ok ((count, targets, None), diagnostics)
    else
      let shadow := foldl (install data g) data (enumerate targets) in
      shadow ← pack_into [Fi] shadow (logstart g * BSIZE) [0];
      Ok ((count, targets, Some shadow), diagnostics).

(** * Inodes *)

Definition parse_inode (data : pybytes) (g : Geometry)
    (st : list Inode * Diagnostics) (n : Z) : result (list Inode * Diagnostics) :=
  let '(inodes, d) := st in
  let offset := inodestart g * BSIZE + n * calcsize DINODE in
  values ← unpack_from DINODE data offset;
  match values with
  | ty :: mj :: mn :: nl :: sz :: rest =>
      let inode := Build_Inode n ty mj mn nl sz rest in
      if type inode =? 0 then Ok (inodes, d)
      else if negb (bool_decide (type inode ∈ VALID_TYPES)) then
        Ok (inodes, add "E_INODE_TYPE" [("inum", i2s n); ("type", i2s (type inode))] d)
      else
        let d := if MAXFILE * BSIZE <? isize inode
                 then add "E_INODE_SIZE" [("inum", i2s n); ("size", i2s (isize inode))] d
                 else d in
        Ok (inodes ++ [inode], d)
  | _ => Raise IndexError
  end.

(** [inodes.get(n)] on the dictionary keyed by inode number. *)
Definition get_inode (inodes : list Inode) (n : Z) : option Inode :=
  snd <$> list_find (fun i => inum i = n) inodes.

Definition parse_inodes (data : pybytes) (g : Geometry) (diagnostics : Diagnostics)
    : result (list Inode * Diagnostics) :=
  '(inodes, d) ← foldM (parse_inode data g) ([], diagnostics) (range 1 (ninodes g));
  let root_ok := match get_inode inodes ROOTINO with
                 | Some i => type i =? T_DIR
                 | None => false
                 end in
  Ok (inodes, if root_ok then d else add "E_ROOT" [] d).

(** * Block lists *)

Inductive kind : Type := KData | KIndirect.
#[global] Instance kind_eq_dec : EqDecision kind.
Proof. solve_decision. Defined.
Definition kind_text (k : kind) : pystr :=
  match k with KData => u "data" | KIndirect => u "indirect" end.

Definition in_data (g : Geometry) (address : Z) : bool :=
  (data_start g <=? address) && (address <? size g).

(** [("data", base + index, address)] for the non-zero entries. *)
Definition data_entries (base : Z) (entries : list Z) : list (kind * Z * Z) :=
  omap (fun '(index, address) =>
          if address =? 0 then None else Some (KData, base + index, address))
       (enumerate entries).

Definition check_logical (inode : Inode) (required : Z) (d : Diagnostics) (it : Z * Z)
    : Diagnostics :=
  let '(index, address) := it in
  let fields := [("index", i2s index); ("inum", i2s (inum inode))] in
  if (index <? required) && (address =? 0) then add "E_INODE_HOLE" fields d
  else if (required <=? index) && negb (address =? 0) then add "E_INODE_TRAILING" fields d
  else d.

Definition check_region (g : Geometry) (inode : Inode) (d : Diagnostics)
    (it : kind * Z * Z) : Diagnostics :=
  let '(k, index, address) := it in
  if in_data g address then d
  else add "E_BLOCK_REGION"
         [("block", i2s address); ("index", i2s index); ("inum", i2s (inum inode));
          ("kind", kind_text k)] d.

Definition required_blocks (inode : Inode) : Z := (isize inode + BSIZE - 1) / BSIZE.

Definition inode_blocks (data : pybytes) (g : Geometry) (inode : Inode)
    (diagnostics : Diagnostics) : result (list (kind * Z * Z) * Diagnostics) :=
  let direct := ztake NDIRECT (addrs inode) in
  let addresses := data_entries 0 direct in
  indirect ← index (addrs inode) NDIRECT;
  '(addresses, logical) ←
    (if indirect =? 0 then Ok (addresses, direct ++ repeat 0 (Z.to_nat NINDIRECT))
     else
       let addresses := addresses ++ [(KIndirect, NDIRECT, indirect)] in
       if in_data g indirect then
         entries ← unpack (repeat FI 256) (block data indirect);
         Ok (addresses ++ data_entries NDIRECT entries, direct ++ entries)
       else Ok (addresses, direct ++ repeat 0 (Z.to_nat NINDIRECT)));
  let required := required_blocks inode in
  let d := foldl (check_logical inode required) diagnostics (enumerate logical) in
  let d := if (required <=? NDIRECT) && negb (indirect =? 0)
           then add "E_INODE_TRAILING"
                  [("index", i2s NDIRECT); ("inum", i2s (inum inode))] d
           else d in
  Ok (addresses, foldl (check_region g inode) d addresses).

Definition bitmap_bit (data : pybytes) (g : Geometry) (number : Z) : result Z :=
  let bitmap_block := bmapstart g + number / BPB in
  let offset := number mod BPB in
  b ← index (block data bitmap_block) (offset / 8);
  Ok (Z.land (Z.shiftr b (offset mod 8)) 1).

(** * File contents *)

(** [data_blocks]: logical index to address, for the blocks in the data region. *)
Definition data_blocks_of (g : Geometry) (blocks : list (kind * Z * Z)) : gmap Z Z :=
  foldl (fun m '(k, index, address) =>
           if bool_decide (k = KData) && in_data g address then <[index := address]> m
           else m) ∅ blocks.

Definition read_chunk (data : pybytes) (inode : Inode) (data_blocks : gmap Z Z)
    (st : list pybytes * Z * Diagnostics) (index : Z) : list pybytes * Z * Diagnostics :=
  let '(chunks, remaining, d) := st in
  let count := Z.min remaining BSIZE in
  match data_blocks !! index with
  | None =>
      (chunks ++ [zeros count], remaining - count,
       add "E_INODE_HOLE" [("index", i2s index); ("inum", i2s (inum inode))] d)
  | Some address =>
      (chunks ++ [ztake count (block data address)], remaining - count, d)
  end.

Definition read_inode_bytes (data : pybytes) (g : Geometry) (inode : Inode)
    (diagnostics : Diagnostics) : result (pybytes * Diagnostics) :=
  '(blocks, d) ← inode_blocks data g inode diagnostics;
  let data_blocks := data_blocks_of g blocks in
  let '(chunks, _, d) :=
    foldl (read_chunk data inode data_blocks) ([], isize inode, d)
      (range 0 (required_blocks inode)) in
  Ok (concat chunks, d).

(** [raw.split(b"\0", 1)[0]] *)
Definition decode_name (raw : pybytes) : pybytes :=
  match cut [0] raw with Some (b, _) => b | None => raw end.

(** [DIRENT.unpack_from(payload, offset)] *)
Definition unpack_dirent (payload : pybytes) (offset : Z) : result (Z * pybytes) :=
  if offset + DIRENT_SIZE <=? len payload then
    Ok (decode FH (slice offset (offset + 2) payload),
        slice (offset + 2) (offset + DIRENT_SIZE) payload)
  else Raise StructError.

(** * Ownership and bitmap: the first part of [inspect_view] *)

Abbreviation Owners := (gmap Z (list (Z * kind * Z))).

Definition own_block (g : Geometry) (inode : Inode) (owners : Owners)
    (it : kind * Z * Z) : Owners :=
  let '(k, index, address) := it in
  if in_data g address then
    <[address := default [] (owners !! address) ++ [(inum inode, k, index)]]> owners
  else owners.

Definition own_inode (data : pybytes) (g : Geometry) (st : Owners * Diagnostics)
    (inode : Inode) : result (Owners * Diagnostics) :=
  let '(owners, d) := st in
  '(blocks, d) ← inode_blocks data g inode d;
  Ok (foldl (own_block g inode) owners blocks, d).

Definition check_owned (data : pybytes) (g : Geometry) (d : Diagnostics)
    (it : Z * list (Z * kind * Z)) : result Diagnostics :=
  let '(number, entries) := it in
  let d := if 1 <? len entries
           then add "E_BLOCK_DUP" [("block", i2s number); ("owners", i2s (len entries))] d
           else d in
  bit ← bitmap_bit data g number;
  Ok (if bit =? 0 then add "E_BITMAP_UNMARKED" [("block", i2s number)] d else d).

Definition check_metadata (data : pybytes) (g : Geometry) (d : Diagnostics) (number : Z)
    : result Diagnostics :=
  bit ← bitmap_bit data g number;
  Ok (if bit =? 0 then add "E_BITMAP_METADATA" [("block", i2s number)] d else d).

Definition check_leak (data : pybytes) (g : Geometry) (owners : Owners) (d : Diagnostics)
    (number : Z) : result Diagnostics :=
  bit ← bitmap_bit data g number;
  Ok (if negb (bit =? 0) && bool_decide (owners !! number = None)
      then add "E_BITMAP_LEAK" [("block", i2s number)] d else d).

Definition inspect_blocks (data : pybytes) (g : Geometry) (inodes : list Inode)
    (d : Diagnostics) : result (Owners * Diagnostics) :=
  '(owners, d) ← foldM (own_inode data g) (∅, d) inodes;
  d ← foldM (check_owned data g) d (map_to_list owners);
  d ← foldM (check_metadata data g) d (range 0 (data_start g));
  d ← foldM (check_leak data g owners) d (range (data_start g) (size g));
  Ok (owners, d).

(** * Directories *)

Record DirScan : Type := {
  edges : gmap Z (list (pybytes * Z));
  dots : gset Z;
  dotdot : gmap Z Z;
  references : gmap Z Z
}.

Definition dot : pybytes := u ".".
Definition dotdot_name : pybytes := u "..".

(** One directory entry; [names] are the names already seen in it. *)
Definition scan_entry (inodes : list Inode) (payload : pybytes) (dir : Z)
    (st : gset pybytes * DirScan * Diagnostics) (offset : Z)
    : result (gset pybytes * DirScan * Diagnostics) :=
  let '(names, s, d) := st in
  '(target, raw_name) ← unpack_dirent payload offset;
  if target =? 0 then Ok (names, s, d) else
  let name := decode_name raw_name in
  if bool_decide (name = []) then
    Ok (names, s, add "E_DIR_NAME" [("inum", i2s dir); ("offset", i2s offset)] d)
  else
    let d := if bool_decide (name ∈ names)
             then add "E_DIR_NAME_DUP"
                    [("inum", i2s dir);
                     ("name", concat (map (fun b => [hex_digit (b / 16);
                                                     hex_digit (b mod 16)]) name))] d
             else d in
    let names := {[ name ]} ∪ names in
    match get_inode inodes target with
    | None => Ok (names, s, add "E_DIRENT_INUM" [("inum", i2s dir); ("target", i2s target)] d)
    | Some _ =>
        if bool_decide (name = dot) then
          Ok (names,
              Build_DirScan (edges s) ({[ dir ]} ∪ dots s) (dotdot s) (references s),
              if target =? dir then d
              else add "E_DOT" [("inum", i2s dir); ("target", i2s target)] d)
        else if bool_decide (name = dotdot_name) then
          Ok (names,
              Build_DirScan (edges s) (dots s) (<[dir := target]> (dotdot s)) (references s), d)
        else
          Ok (names,
              Build_DirScan
                (<[dir := default [] (edges s !! dir) ++ [(name, target)]]> (edges s))
                (dots s) (dotdot s)
                (<[target := default 0 (references s !! target) + 1]> (references s)), d)
    end.

Definition scan_directory (data : pybytes) (g : Geometry) (inodes : list Inode)
    (st : DirScan * Diagnostics) (inode : Inode) : result (DirScan * Diagnostics) :=
  let '(s, d) := st in
  if negb (type inode =? T_DIR) then Ok (s, d) else
  '(payload, d) ← read_inode_bytes data g inode d;
  let d := if len payload mod DIRENT_SIZE =? 0 then d
           else add "E_DIR_SIZE" [("inum", i2s (inum inode)); ("size", i2s (len payload))] d in
  '(_, s, d) ← foldM (scan_entry inodes payload (inum inode)) (∅, s, d)
                 (range_step 0 (len payload - DIRENT_SIZE + 1) DIRENT_SIZE);
  Ok (s, d).

Definition scan_directories (data : pybytes) (g : Geometry) (inodes : list Inode)
    (d : Diagnostics) : result (DirScan * Diagnostics) :=
  foldM (scan_directory data g inodes) (Build_DirScan ∅ ∅ ∅ ∅, d) inodes.

(** * Reachability: the breadth-first walk *)

Record Walk : Type := {
  reachable : gset Z;
  parents : gmap Z Z;
  directory_incoming : gmap Z Z;
  directory_children : gmap Z Z;
  queue : list Z;
  wdiag : Diagnostics
}.

Definition with_queue (q : list Z) (w : Walk) : Walk :=
  {| reachable := reachable w; parents := parents w;
     directory_incoming := directory_incoming w;
     directory_children := directory_children w; queue := q; wdiag := wdiag w |}.
Definition mark_reachable (n : Z) (w : Walk) : Walk :=
  {| reachable := {[ n ]} ∪ reachable w; parents := parents w;
     directory_incoming := directory_incoming w;
     directory_children := directory_children w; queue := queue w; wdiag := wdiag w |}.

(** The body of [for _, target in edges[current]]. *)
Definition walk_edge (inodes : list Inode) (current : Z) (w : Walk) (e : pybytes * Z) : Walk :=
  let '(_, target) := e in
  match get_inode inodes target with
  | None => w
  | Some child =>
      if type child =? T_DIR then
        let children := <[current := default 0 (directory_children w !! current) + 1]>
                          (directory_children w) in
        let incoming := default 0 (directory_incoming w !! target) + 1 in
        let d := if 1 <? incoming
                 then add "E_DIR_MULTIPARENT" [("inum", i2s target)] (wdiag w)
                 else wdiag w in
        let clash := match parents w !! target with
                     | Some p => negb (p =? current)
                     | None => false
                     end in
        let d := if clash then add "E_DIR_PARENT" [("inum", i2s target)] d else d in
        let parents := if clash then parents w else <[target := current]> (parents w) in
        let seen := bool_decide (target ∈ reachable w) in
        {| reachable := reachable w;
           parents := parents;
           directory_incoming := <[target := incoming]> (directory_incoming w);
           directory_children := children;
           queue := if seen then queue w else queue w ++ [target];
           wdiag := if seen then add "E_DIR_CYCLE" [("inum", i2s target)] d else d |}
      else mark_reachable target w
  end.

(** One turn of [while queue], given the popped element. *)
Definition visit (inodes : list Inode) (edges : gmap Z (list (pybytes * Z)))
    (current : Z) (rest : list Z) (w : Walk) : Walk :=
  let w := with_queue rest w in
  if bool_decide (current ∈ reachable w) then w
  else foldl (walk_edge inodes current) (mark_reachable current w)
         (default [] (edges !! current)).

(** [None] when the fuel runs out before the queue is empty. *)
Fixpoint walk (fuel : nat) (inodes : list Inode) (edges : gmap Z (list (pybytes * Z)))
    (w : Walk) : option Walk :=
  match queue w with
  | [] => Some w
  | current :: rest =>
      match fuel with
      | O => None
      | S fuel => walk fuel inodes edges (visit inodes edges current rest w)
      end
  end.

(** One pop for the root and one for every edge that can enqueue. *)
Definition walk_fuel (edges : gmap Z (list (pybytes * Z))) : nat :=
  S (length (concat (map snd (map_to_list edges)))).

Definition start_walk (inodes : list Inode) (d : Diagnostics) : Walk :=
  {| reachable := ∅; parents := {[ ROOTINO := ROOTINO ]};
     directory_incoming := ∅; directory_children := ∅;
     queue := match get_inode inodes ROOTINO with Some _ => [ROOTINO] | None => [] end;
     wdiag := d |}.

(** * The closing audit of [inspect_view], one inode at a time *)

Definition opt_or (o : option Z) (z : Z) : Z := default z o.

Definition check_inode (s : DirScan) (w : Walk) (d : Diagnostics) (inode : Inode) : Diagnostics :=
  let n := inum inode in
  let is_dir := type inode =? T_DIR in
  let reached := bool_decide (n ∈ reachable w) in
  let d := if is_dir && negb (bool_decide (n ∈ dots s))
           then add "E_DOT" [("inum", i2s n); ("target", i2s (-1))] d else d in
  let d := if reached then d
           else if nlink inode =? 0 then add "E_ORPHAN" [("inum", i2s n)] d
           else add "E_UNREACHABLE" [("inum", i2s n)] d in
  let d := if is_dir && reached then
             let expected_parent := if n =? ROOTINO then Some ROOTINO else parents w !! n in
             if bool_decide (dotdot s !! n = expected_parent) then d
             else add "E_DOTDOT" [("inum", i2s n); ("target", i2s (opt_or (dotdot s !! n) (-1)))] d
           else d in
  let nlink_fields expected :=
    [("expected", i2s expected); ("inum", i2s n); ("observed", i2s (nlink inode))] in
  if is_dir then
    let expected_links := 1 + opt_or (directory_children w !! n) 0 in
    if reached && negb (nlink inode =? expected_links)
    then add "E_NLINK" (nlink_fields expected_links) d else d
  else
    let refs := opt_or (references s !! n) 0 in
    if nlink inode =? refs then d else add "E_NLINK" (nlink_fields refs) d.

Record View : Type := {
  allocated_inodes : Z;
  owned_blocks : Z;
  reachable_inodes : Z;
  diagnostics : list pystr
}.

(** The whole of [inspect_view], before the report is built. *)
Definition inspect (data : pybytes) (g : Geometry)
    : result (list Inode * Owners * DirScan * Walk * Diagnostics) :=
  '(inodes, d) ← parse_inodes data g ∅;
  '(owners, d) ← inspect_blocks data g inodes d;
  '(s, d) ← scan_directories data g inodes d;
  w ← of_option StopIteration
        (walk (walk_fuel (edges s)) inodes (edges s) (start_walk inodes d));
  Ok (inodes, owners, s, w, foldl (check_inode s w) (wdiag w) inodes).

Definition inspect_view (data : pybytes) (g : Geometry) : result View :=
  '(inodes, owners, _, w, d) ← inspect data g;
  Ok {| allocated_inodes := len inodes;
        owned_blocks := Z.of_nat (base.size owners);
        reachable_inodes := Z.of_nat (base.size (reachable w));
        diagnostics := codes d |}.

(** * The two-view report *)

Record Report : Type := {
  clean : bool;
  raw_clean : bool;
  recovered_clean : bool;
  log_pending : option bool;
  geometry : option Geometry;
  log : option (Z * list Z);
  raw_sha256 : option pystr;
  shadow_sha256 : option pystr;
  raw : option View;
  replayed : option View;
  report_diagnostics : list pystr
}.

Definition is_nil {A} (l : list A) : bool := match l with [] => true | _ => false end.

Definition check_bytes (data : pybytes) : result Report :=
  '(geo, top) ← parse_geometry data ∅;
  match geo with
  | None =>
      Ok {| clean := false; raw_clean := false; recovered_clean := false;
            log_pending := None; geometry := None; log := None;
            raw_sha256 := None; shadow_sha256 := None; raw := None; replayed := None;
            report_diagnostics := codes top |}
  | Some g =>
      '((count, targets, shadow), top) ← parse_log data g top;
      match shadow with
      | None =>
          Ok {| clean := false; raw_clean := false; recovered_clean := false;
                log_pending := None; geometry := Some g; log := Some (count, targets);
                raw_sha256 := None; shadow_sha256 := None; raw := None; replayed := None;
                report_diagnostics := codes top |}
      | Some shadow =>
          raw ← inspect_view data g;
          replayed ← inspect_view shadow g;
          let raw_clean := is_nil (codes top) && is_nil (diagnostics raw) in
          let recovered_clean := is_nil (codes top) && is_nil (diagnostics replayed) in
          Ok {| clean := recovered_clean; raw_clean := raw_clean;
                recovered_clean := recovered_clean;
                log_pending := Some (negb (count =? 0));
                geometry := Some g; log := Some (count, targets);
                raw_sha256 := Some (sha256 data); shadow_sha256 := Some (sha256 shadow);
                raw := Some raw; replayed := Some replayed;
                report_diagnostics := codes top ++ diagnostics replayed |}
      end
  end.

(** [check_path]: the file is read three times, [before], [body], [after]. *)
Definition check_path (before body after : pybytes) : result (Report * pystr) :=
  result ← check_bytes body;
  if bool_decide (sha256 before = sha256 after) then Ok (result, sha256 before)
  else Raise (ImageError [T "checker modified its input"]).
