(* ===== verification/FsckLog.v ===== *)
(** Superblock and log replay of the image checker: what a geometry that
    passed [parse_geometry] guarantees, what the shadow image built by
    [parse_log] contains, and that replaying it again changes nothing. *)

From stdpp Require Import base tactics list gmap strings numbers list_numbers.
From S2P Require Import Prelude PyText PyBytes Sha256 Fsck.
Open Scope Z_scope.

(** * Emptiness of a set of diagnostics *)

Lemma add_nonempty code fields d : add code fields d <> ∅.
Proof. unfold add. set_solver. Qed.

Lemma insert_sorted_nonnil x l : insert_sorted x l <> [].
Proof. destruct l; cbn; [done|]. by destruct (str_le x l). Qed.

Lemma codes_nil d : codes d = [] <-> d = ∅.
Proof.
  unfold codes, sorted_strs. split.
  - intros H. destruct (elements d) as [|x l] eqn:E.
    + by apply elements_empty_iff, leibniz_equiv in E.
    + cbn in H. by apply insert_sorted_nonnil in H.
  - intros ->. by rewrite elements_empty.
Qed.

Lemma no_codes_true d : no_codes d = true <-> d = ∅.
Proof.
  unfold no_codes. rewrite <-codes_nil. by destruct (codes d).
Qed.

Lemma is_nil_true {A} (l : list A) : is_nil l = true <-> l = [].
Proof. by destruct l. Qed.

(** * Geometry *)

Record wf_geometry (g : Geometry) (data : pybytes) : Prop := {
  wf_size : 0 < size g;
  wf_len : len data = size g * BSIZE;
  wf_nlog : nlog g = 31;
  wf_logstart : logstart g = 2;
  wf_inodestart : inodestart g = 33;
  wf_ninodes : 0 < ninodes g;
  wf_bmapstart : bmapstart g = 33 + (ninodes g + 15) / 16;
  wf_data_start : data_start g = bmapstart g + (size g + 8191) / 8192;
  wf_data_size : data_start g < size g;
  wf_nblocks : nblocks g = size g - data_start g
}.

Lemma parse_geometry_wf data d g d' :
  parse_geometry data d = Ok (Some g, d') -> wf_geometry g data /\ d' = d.
Proof.
  unfold parse_geometry. destruct (len data <? _); [done|].
  intros H. apply bind_ok in H as (fields & _ & H).
  repeat (destruct fields as [|? fields]; [done|]). destruct fields; [|done].
  destruct (negb _); [done|]. cbv zeta in H.
  destruct (geometry_valid _ _ _ _ _ _ _ _) eqn:E; [|done].
  injection H as <- <-. split; [|done].
  unfold geometry_valid, IPB, BPB, BSIZE, LOGBLOCKS in *. to_prop. subst.
  constructor; cbn [size nblocks ninodes nlog logstart inodestart bmapstart data_start];
    unfold BSIZE; try lia.
  - apply Z.add_cancel_l. change (1024 / 64) with 16. f_equal. lia.
  - apply Z.add_cancel_l. change (1024 * 8) with 8192. f_equal. lia.
Qed.

(** The regions of the disk are non-empty and in order. *)
Lemma geometry_order g data :
  wf_geometry g data -> 33 < bmapstart g < data_start g /\ data_start g < size g.
Proof.
  intros []. assert (1 <= (ninodes g + 15) / 16) by (apply Z.div_le_lower_bound; lia).
  assert (1 <= (size g + 8191) / 8192) by (apply Z.div_le_lower_bound; lia). lia.
Qed.

(** * Log targets *)

(** The targets the replay accepts: distinct, and between the inode region
    and the end of the image (so outside the log). *)
Definition valid_targets (g : Geometry) (targets : list Z) : Prop :=
  NoDup targets /\ Forall (fun t => inodestart g <= t < size g) targets.

Lemma bad_target_spec g t :
  inodestart g = logstart g + nlog g ->
  bad_target g t = false <-> inodestart g <= t < size g.
Proof.
  intros H. unfold bad_target.
  rewrite !orb_false_iff, andb_false_iff, !Z.ltb_ge, !Z.leb_gt. lia.
Qed.

Lemma check_target_empty g st it :
  inodestart g = logstart g + nlog g ->
  (check_target g st it).2 = ∅ <->
  st.2 = ∅ /\ inodestart g <= it.2 < size g /\ it.2 ∉ st.1.
Proof.
  intros Hg. destruct st as [seen d], it as [i t]. cbn [check_target fst snd].
  rewrite <-(bad_target_spec g t Hg).
  destruct (bad_target g t); cbn; case_bool_decide; cbn;
    split; intros Hx; try (by destruct (add_nonempty _ _ _ Hx)); naive_solver.
Qed.

Lemma check_target_seen g st it : (check_target g st it).1 = {[ it.2 ]} ∪ st.1.
Proof. by destruct st, it. Qed.

Lemma check_targets_empty g st i targets :
  inodestart g = logstart g + nlog g ->
  (foldl (check_target g) st (enumerate_from i targets)).2 = ∅ <->
  st.2 = ∅ /\ valid_targets g targets /\ (forall t, t ∈ targets -> t ∉ st.1).
Proof.
  intros Hg. revert st i; induction targets as [|t targets IH]; intros st i; cbn.
  - unfold valid_targets. split; [|naive_solver].
    intros ->. repeat split; [constructor|constructor|set_solver].
  - rewrite IH, check_target_empty by done. rewrite check_target_seen. cbn.
    unfold valid_targets. rewrite NoDup_cons, Forall_cons. set_solver.
Qed.

(** * Blocks of an updated image *)

Section Blocks.
Context (g : Geometry) (data : pybytes) (Hwf : wf_geometry g data).

Lemma len_block l n : 0 <= n < size g -> len l = len data -> len (block l n) = BSIZE.
Proof using Hwf.
  intros Hn Hl. unfold block. rewrite len_slice; [unfold BSIZE; lia| |].
  - unfold BSIZE; lia.
  - rewrite Hl, (wf_len _ _ Hwf). unfold BSIZE. lia.
Qed.

Lemma len_put_block (l b : pybytes) t :
  0 <= t < size g -> len l = len data -> len b = BSIZE ->
  len (splice (t * BSIZE) ((t + 1) * BSIZE) b l) = len data.
Proof using Hwf.
  intros Ht Hl Hb. rewrite <-Hl. apply len_splice; rewrite ?Hl, ?(wf_len _ _ Hwf);
    unfold BSIZE in *; lia.
Qed.

(** Writing one block changes that block and no other. *)
Lemma block_put (l b : pybytes) t n :
  0 <= t < size g -> 0 <= n < size g -> len l = len data -> len b = BSIZE ->
  block (splice (t * BSIZE) ((t + 1) * BSIZE) b l) n = if n =? t then b else block l n.
Proof using Hwf.
  intros Ht Hn Hl Hb. unfold block. destruct (n =? t) eqn:E; to_prop; subst.
  - replace (t * BSIZE + BSIZE) with ((t + 1) * BSIZE) by lia.
    apply slice_splice_same; rewrite ?Hl, ?(wf_len _ _ Hwf); unfold BSIZE in *; lia.
  - apply slice_splice_other; rewrite ?Hl, ?(wf_len _ _ Hwf); unfold BSIZE in *; lia.
Qed.

Lemma blocks_eq (l l' : pybytes) :
  len l = len data -> len l' = len data ->
  (forall n, 0 <= n < size g -> block l n = block l' n) -> l = l'.
Proof using Hwf.
  intros H H' Hb. apply list_eq. intros i.
  pose proof (wf_len _ _ Hwf) as Hlen.
  destruct (decide (Z.of_nat i < len data)) as [Hi|Hi].
  - set (n := Z.of_nat i / BSIZE).
    assert (Hn : n * BSIZE <= Z.of_nat i < n * BSIZE + BSIZE).
    { unfold n, BSIZE. pose proof (Z.div_mod (Z.of_nat i) 1024).
      pose proof (Z.mod_pos_bound (Z.of_nat i) 1024). lia. }
    assert (0 <= n) by (unfold n, BSIZE; apply Z.div_pos; lia).
    specialize (Hb n ltac:(unfold BSIZE in *; lia)).
    apply (f_equal (lookup (i - Z.to_nat (n * BSIZE))%nat)) in Hb. unfold block in Hb.
    rewrite !lookup_slice in Hb by (unfold BSIZE in *; lia).
    replace (Z.to_nat (n * BSIZE) + (i - Z.to_nat (n * BSIZE)))%nat with i in Hb
      by (unfold BSIZE in *; lia). done.
  - rewrite !len_length in *. rewrite !lookup_ge_None_2 by lia. done.
Qed.
End Blocks.

(** * The shadow image *)

(** Where a block of the image comes from after installing [targets], the
    first of which is stored in the log at position [i]. *)
Fixpoint installed (i : Z) (targets : list Z) (n : Z) : option Z :=
  match targets with
  | [] => None
  | t :: targets => if n =? t then Some i else installed (i + 1) targets n
  end.

Lemma installed_None i targets n : installed i targets n = None <-> n ∉ targets.
Proof.
  revert i; induction targets as [|t l IH]; intros i; cbn; [set_solver|].
  destruct (n =? t) eqn:E; to_prop; [set_solver|]. rewrite IH. set_solver.
Qed.

Lemma installed_lookup i targets (k : nat) t :
  NoDup targets -> targets !! k = Some t -> installed i targets t = Some (i + Z.of_nat k).
Proof.
  revert i k; induction targets as [|t' l IH]; intros i k Hnd Hk; [done|].
  apply NoDup_cons in Hnd as [Hni Hnd]. cbn. destruct k as [|k]; cbn in Hk.
  - injection Hk as ->. rewrite Z.eqb_refl. f_equal. lia.
  - destruct (t =? t') eqn:E; to_prop.
    + subst. destruct Hni. by eapply list_elem_of_lookup_2.
    + rewrite (IH (i + 1) k) by done. f_equal. lia.
Qed.

Lemma install_blocks g data shadow i targets :
  wf_geometry g data -> len shadow = len data -> 0 <= i -> valid_targets g targets ->
  i + len targets <= 30 ->
  let out := foldl (install data g) shadow (enumerate_from i targets) in
  len out = len data /\
  forall n, 0 <= n < size g ->
    block out n = match installed i targets n with
                  | Some k => block data (logstart g + 1 + k)
                  | None => block shadow n
                  end.
Proof.
  intros Hwf. revert shadow i. induction targets as [|t targets IH]; intros shadow i Hl Hi Hv Hc.
  { cbn. auto. }
  destruct Hv as [Hnd Hr]. apply NoDup_cons in Hnd as [Hni Hnd]. apply Forall_cons in Hr as [Ht Hr].
  cbn [enumerate_from foldl install installed].
  rewrite len_length in Hc. cbn [length] in Hc.
  pose proof (wf_logstart _ _ Hwf). pose proof (wf_inodestart _ _ Hwf).
  assert (Hsrc : len (block data (logstart g + 1 + i)) = BSIZE).
  { apply (len_block g data); [done|lia|done]. }
  destruct (IH (splice (t * BSIZE) ((t + 1) * BSIZE) (block data (logstart g + 1 + i)) shadow)
              (i + 1)) as [IHl IHb].
  - apply (len_put_block g data); auto. lia.
  - lia.
  - done.
  - rewrite len_length. lia.
  - split; [done|]. intros n Hn. rewrite IHb by done.
    destruct (n =? t) eqn:E; to_prop.
    + subst n. rewrite (proj2 (installed_None (i + 1) targets t)) by done.
      rewrite (block_put g data) by (auto; lia). by rewrite Z.eqb_refl.
    + destruct (installed _ _ _); [done|].
      rewrite (block_put g data) by (auto; lia). rewrite (proj2 (Z.eqb_neq n t)) by done. done.
Qed.

(** What the shadow image is: logged blocks installed at their targets, the
    count of the log header cleared, everything else as on disk. *)
Record replayed_image (g : Geometry) (data shadow : pybytes) (targets : list Z) : Prop := {
  rp_len : len shadow = len data;
  rp_target (k : nat) t : targets !! k = Some t ->
    block shadow t = block data (logstart g + 1 + Z.of_nat k);
  rp_other n : 0 <= n < size g -> n ∉ targets -> n <> logstart g ->
    block shadow n = block data n;
  rp_header : block shadow (logstart g) = [0; 0; 0; 0] ++ zdrop 4 (block data (logstart g))
}.

(** Clearing the four count bytes of a block. *)
Lemma block_clear_count g data l m n :
  wf_geometry g data -> len l = len data -> 0 <= m < size g -> 0 <= n < size g ->
  block (splice (m * BSIZE) (m * BSIZE + 4) [0; 0; 0; 0] l) n =
  if n =? m then [0; 0; 0; 0] ++ zdrop 4 (block l m) else block l n.
Proof.
  intros Hwf Hl Hm Hn. pose proof (wf_len _ _ Hwf) as Hlen.
  unfold block. destruct (n =? m) eqn:E; to_prop; subst.
  - apply list_eq. intros i.
    destruct (decide (Z.of_nat i < BSIZE)); unfold BSIZE in *.
    2: { rewrite !slice_take_drop, zdrop_drop.
         rewrite lookup_take_ge by lia. rewrite lookup_app_r by (cbn; lia).
         rewrite lookup_drop, lookup_take_ge by (cbn; lia). done. }
    rewrite lookup_slice by lia. destruct (decide (i < 4)%nat).
    + rewrite lookup_splice_new by (cbn; lia).
      rewrite lookup_app_l by (cbn; lia). f_equal. lia.
    + rewrite lookup_splice_old by (cbn; lia).
      rewrite lookup_app_r, zdrop_drop, lookup_drop by (cbn; lia). cbn [length].
      rewrite lookup_slice by lia. f_equal. lia.
  - apply slice_splice_other; unfold BSIZE in *; cbn; lia.
Qed.

Lemma pack_zero l off :
  pack_into [Fi] l off [0] =
  if off + 4 <=? len l then Ok (splice off (off + 4) [0; 0; 0; 0] l) else Raise StructError.
Proof. done. Qed.

Lemma parse_log_shadow g data d count targets shadow d' :
  wf_geometry g data ->
  parse_log data g d = Ok ((count, targets, Some shadow), d') ->
  d = ∅ /\ d' = ∅ /\ 0 <= count <= LOGBLOCKS /\ len targets = count /\
  valid_targets g targets /\ replayed_image g data shadow targets.
Proof.
  intros Hwf H. unfold parse_log in H.
  pose proof (wf_logstart _ _ Hwf) as Hls. pose proof (wf_inodestart _ _ Hwf) as His.
  pose proof (wf_nlog _ _ Hwf) as Hnl. pose proof (geometry_order _ _ Hwf) as Hord.
  pose proof (wf_len _ _ Hwf) as Hdl.
  apply bind_ok in H as (c & _ & H).
  destruct ((c <? 0) || (LOGBLOCKS <? c)) eqn:Ec; [done|]. to_prop. unfold LOGBLOCKS in *.
  apply bind_ok in H as (ts & Hts & H).
  assert (Hlen : len ts = c).
  { destruct (c =? 0) eqn:E0; to_prop; [by inv_ok|].
    unfold unpack_from in Hts. destruct (_ <=? _); [|done]. inv_ok.
    rewrite len_length, length_unpack_head, repeat_length. lia. }
  pose proof (check_targets_empty g (∅, d) 0 ts ltac:(lia)) as Hct. cbn in Hct.
  unfold enumerate in H.
  destruct (foldl (check_target g) (∅, d) (enumerate_from 0 ts)) as [seen d1] eqn:Ect.
  destruct (no_codes d1) eqn:Hnc; cbn [negb] in H; [|done].
  apply no_codes_true in Hnc as ->. cbn in Hct.
  destruct (proj1 Hct eq_refl) as (-> & Hvt & _).
  apply bind_ok in H as (sh & Hsh & H). injection H as -> -> <- <-.
  destruct (install_blocks g data data 0 targets Hwf eq_refl ltac:(lia) Hvt ltac:(lia))
    as [Hil Hib].
  set (inst := foldl (install data g) data (enumerate_from 0 targets)) in *.
  rewrite pack_zero in Hsh. destruct (_ <=? _) eqn:Efit; [|done]. injection Hsh as <-.
  destruct Hvt as [Hnd Hr].
  assert (Hnot : logstart g ∉ targets).
  { intros Hin. rewrite Forall_forall in Hr. specialize (Hr _ Hin). lia. }
  assert (Hb : forall n, 0 <= n < size g ->
    block (splice (logstart g * BSIZE) (logstart g * BSIZE + 4) [0; 0; 0; 0] inst) n =
    if n =? logstart g then [0; 0; 0; 0] ++ zdrop 4 (block data (logstart g)) else block inst n).
  { intros n Hn. rewrite (block_clear_count g data) by (auto; lia).
    destruct (n =? logstart g) eqn:E; [|done]. rewrite Hib by lia.
    by rewrite (proj2 (installed_None 0 targets (logstart g)) Hnot). }
  repeat split; auto; try lia.
  - rewrite len_splice; [done| | |cbn; lia]; unfold BSIZE in *; lia.
  - intros k t Hk. pose proof (list_elem_of_lookup_2 _ _ _ Hk) as Hin.
    rewrite Forall_forall in Hr. specialize (Hr _ Hin).
    rewrite Hb by lia. destruct (t =? logstart g) eqn:E; to_prop; [lia|].
    rewrite Hib by lia. by rewrite (installed_lookup 0 targets k t).
  - intros n Hn Hni Hne. rewrite Hb by lia. apply Z.eqb_neq in Hne as ->.
    rewrite Hib by lia. by rewrite (proj2 (installed_None 0 targets n) Hni).
  - rewrite Hb by lia. by rewrite Z.eqb_refl.
Qed.

(** An accepted log can be read back from the header: targets of an empty log
    are empty, and the shadow of an image whose count is zero is the image. *)
Lemma parse_log_clear g data :
  wf_geometry g data -> ztake 4 (block data (logstart g)) = [0; 0; 0; 0] ->
  parse_log data g ∅ = Ok ((0, [], Some data), ∅).
Proof.
  intros Hwf H0. unfold parse_log.
  pose proof (wf_logstart _ _ Hwf) as Hls. pose proof (geometry_order _ _ Hwf) as Hord.
  pose proof (wf_len _ _ Hwf) as Hlen.
  assert (Hbl : len (block data (logstart g)) = BSIZE).
  { apply (len_block g data); [done| |done]. lia. }
  assert (Hc : unpack_one Fi (block data (logstart g)) 0 = Ok 0).
  { unfold unpack_one. change (fmt_size Fi) with 4. rewrite Hbl.
    change (0 + 4) with 4. by rewrite slice_0, H0. }
  rewrite Hc. cbn -[pack_into splice].
  rewrite pack_zero.
  replace (logstart g * BSIZE + 4 <=? len data) with true
    by (symmetry; apply Z.leb_le; unfold BSIZE in *; lia).
  rewrite <-H0. unfold block. rewrite slice_ztake by (unfold BSIZE; lia).
  replace (ztake 4 (zdrop (logstart g * BSIZE) data))
    with (slice (logstart g * BSIZE) (logstart g * BSIZE + 4) data)
    by (unfold slice; f_equal; lia).
  cbn -[splice slice]. rewrite splice_id by (unfold BSIZE in *; lia). done.
Qed.

(** * Replaying twice *)

Lemma wf_geometry_len g data data' :
  wf_geometry g data -> len data' = len data -> wf_geometry g data'.
Proof. intros [] Hl. constructor; congruence. Qed.

(** The geometry is read from block 1 and the length of the image. *)
Lemma parse_geometry_ext data data' d :
  len data' = len data -> block data' 1 = block data 1 ->
  parse_geometry data' d = parse_geometry data d.
Proof.
  intros Hl Hb. unfold parse_geometry, unpack_from. rewrite Hl.
  replace (unpack_head SUPER (zdrop BSIZE data')) with (unpack_head SUPER (zdrop BSIZE data));
    [done|].
  apply unpack_head_ext. change (calcsize SUPER) with 32.
  apply (f_equal (ztake 32)) in Hb. unfold block in Hb.
  rewrite !slice_ztake in Hb by (unfold BSIZE; lia). done.
Qed.

Lemma replay_again g data d0 count targets shadow d1 :
  parse_geometry data ∅ = Ok (Some g, d0) ->
  parse_log data g d0 = Ok ((count, targets, Some shadow), d1) ->
  parse_geometry shadow ∅ = Ok (Some g, ∅) /\
  parse_log shadow g ∅ = Ok ((0, [], Some shadow), ∅).
Proof.
  intros Hg Hl. destruct (parse_geometry_wf _ _ _ _ Hg) as [Hwf ->].
  destruct (parse_log_shadow _ _ _ _ _ _ _ Hwf Hl) as (_ & -> & _ & _ & [_ Hr] & Hrp).
  pose proof (wf_logstart _ _ Hwf) as Hls. pose proof (wf_inodestart _ _ Hwf) as His.
  pose proof (geometry_order _ _ Hwf) as Hord. destruct Hrp as [Hlen _ Hoth Hhdr].
  split.
  - rewrite (parse_geometry_ext data); [done|done|].
    apply Hoth; [lia| |lia]. rewrite Forall_forall in Hr. intros Hin.
    specialize (Hr _ Hin). lia.
  - apply parse_log_clear; [by eapply wf_geometry_len|]. by rewrite Hhdr, ztake_take.
Qed.

(** The image with its log replayed, when the header is acceptable. *)
Definition shadow_of (data : pybytes) : option pybytes :=
  match parse_geometry data ∅ with
  | Ok (Some g, d) =>
      match parse_log data g d with Ok ((_, _, s), _) => s | Raise _ => None end
  | _ => None
  end.

(** Checking the recovered image is checking the recovered view: the verdict
    on [data] after replay is the raw verdict on the shadow, whose log is
    empty. *)
Lemma check_shadow data r shadow :
  check_bytes data = Ok r -> shadow_of data = Some shadow ->
  exists r', check_bytes shadow = Ok r' /\
    clean r' = clean r /\ raw_clean r' = recovered_clean r /\
    recovered_clean r' = recovered_clean r /\
    log_pending r' = Some false /\ raw r' = replayed r /\ replayed r' = replayed r /\
    raw_sha256 r' = shadow_sha256 r.
Proof.
  unfold shadow_of, check_bytes at 1.
  destruct (parse_geometry data ∅) as [[[g|] d0]|] eqn:Hg; try done.
  cbn [mbind result_bind].
  destruct (parse_log data g d0) as [[[[count targets] [sh|]] d1]|] eqn:Hl; try done.
  cbn [mbind result_bind]. intros H [= ->].
  apply bind_ok in H as (v1 & Hv1 & H). apply bind_ok in H as (v2 & Hv2 & H).
  destruct (replay_again _ _ _ _ _ _ _ Hg Hl) as [Hg' Hl'].
  unfold check_bytes. rewrite Hg'. cbn [mbind result_bind]. rewrite Hl'. cbn [mbind result_bind].
  rewrite Hv2. cbn [mbind result_bind].
  eexists; split; [done|]. cbv zeta in H. injection H as <-.
  cbn [clean raw_clean recovered_clean log_pending raw replayed raw_sha256 shadow_sha256].
  destruct (parse_geometry_wf _ _ _ _ Hg) as [Hwf _].
  destruct (parse_log_shadow _ _ _ _ _ _ _ Hwf Hl) as (_ & -> & _). done.
Qed.
