(* ===== verification/FsckTotal.v ===== *)
(** The image checker never raises: every offset it unpacks is inside the
    image, every index exists, and the breadth-first walk empties its queue
    within its fuel.  So [check_bytes] returns a report on any byte string. *)

From stdpp Require Import base tactics list gmap strings numbers list_numbers.
From S2P Require Import Prelude PyText PyBytes Sha256 Fsck FsckLog.
Open Scope Z_scope.

(** * Field reads *)

Lemma unpack_from_total fs data off :
  off + calcsize fs <= len data ->
  exists vs, unpack_from fs data off = Ok vs /\ length vs = length fs.
Proof.
  intros H. unfold unpack_from. apply Z.leb_le in H as ->.
  eexists; split; [done|]. apply length_unpack_head.
Qed.

Lemma index_total {A} (l : list A) i : 0 <= i < len l -> exists a, index l i = Ok a.
Proof.
  intros H. unfold index. rewrite zdrop_drop. rewrite len_length in H.
  destruct (drop (Z.to_nat i) l) as [|a r] eqn:E; [|eauto].
  apply (f_equal length) in E. rewrite length_drop in E. cbn in E. lia.
Qed.

Lemma range_elem a b x : x ∈ range a b <-> a <= x < b.
Proof. unfold range. rewrite elem_of_seqZ. lia. Qed.

Section Total.
Context (g : Geometry) (data : pybytes) (Hwf : wf_geometry g data).

Lemma parse_log_total d : exists r, parse_log data g d = Ok r.
Proof using Hwf.
  pose proof (wf_logstart _ _ Hwf). pose proof (geometry_order _ _ Hwf).
  assert (Hb : len (block data (logstart g)) = BSIZE)
    by (apply (len_block g data); auto; lia).
  unfold parse_log, unpack_one. change (fmt_size Fi) with 4.
  rewrite Hb. change (0 + 4 <=? BSIZE) with true. cbn [mbind result_bind].
  set (c := decode Fi _). destruct ((c <? 0) || (LOGBLOCKS <? c)) eqn:Ec; [eauto|].
  to_prop. unfold LOGBLOCKS in *.
  assert (exists ts, (if c =? 0 then Ok []
            else unpack_from (repeat FI (Z.to_nat c)) (block data (logstart g)) 4) = Ok ts
            /\ len ts = c) as (ts & -> & Hts).
  { destruct (c =? 0) eqn:E0; to_prop; [rewrite E0; eauto|].
    destruct (unpack_from_total (repeat FI (Z.to_nat c)) (block data (logstart g)) 4)
      as (ts & -> & Hl).
    - rewrite calcsize_repeat, Hb. change (fmt_size FI) with 4. unfold BSIZE. lia.
    - eexists; split; [done|]. rewrite len_length, Hl, repeat_length. lia. }
  cbn [mbind result_bind]. unfold enumerate.
  pose proof (check_targets_empty g (∅, d) 0 ts) as Hct.
  destruct (foldl (check_target g) _ _) as [seen d1] eqn:Ect.
  destruct (no_codes d1) eqn:Hnc; cbn [negb]; [|eauto].
  apply no_codes_true in Hnc as ->.
  pose proof (wf_inodestart _ _ Hwf). pose proof (wf_nlog _ _ Hwf).
  destruct (proj1 (Hct ltac:(lia)) eq_refl) as (_ & Hvt & _).
  destruct (install_blocks g data data 0 ts Hwf eq_refl ltac:(lia) Hvt ltac:(lia)) as [Hil _].
  rewrite pack_zero, Hil, (wf_len _ _ Hwf). destruct (_ <=? _) eqn:Efit; cbn; [eauto|].
  to_prop. unfold BSIZE in *. lia.
Qed.

(** ** Inodes *)

(** An inode as [parse_inodes] makes it. *)
Definition wf_inode (i : Inode) : Prop :=
  1 <= inum i < ninodes g /\ len (addrs i) = 13 /\ type i ∈ VALID_TYPES.

Lemma parse_inode_total st n :
  1 <= n < ninodes g -> Forall wf_inode st.1 ->
  exists st', parse_inode data g st n = Ok st' /\ Forall wf_inode st'.1.
Proof using Hwf.
  intros Hn Hst. destruct st as [inodes d]. unfold parse_inode.
  destruct (unpack_from_total DINODE data (inodestart g * BSIZE + n * calcsize DINODE))
    as (vs & -> & Hl).
  { change (calcsize DINODE) with 64. rewrite (wf_len _ _ Hwf), (wf_inodestart _ _ Hwf).
    pose proof (geometry_order _ _ Hwf) as Ho. rewrite (wf_bmapstart _ _ Hwf) in Ho.
    pose proof (Z.mul_div_le (ninodes g + 15) 16).
    pose proof (Z.mod_pos_bound (ninodes g + 15) 16).
    pose proof (Z.div_mod (ninodes g + 15) 16). unfold BSIZE. lia. }
  cbn [mbind result_bind].
  do 5 (destruct vs as [|? vs]; [done|]). cbn [type].
  destruct (_ =? 0); [eauto|]. case_bool_decide as Ht; cbn [negb]; [|eauto].
  eexists; split; [done|]. cbn. apply Forall_app_2; [done|]. constructor; [|done].
  repeat split; cbn; [lia|lia| |done]. rewrite len_length. cbn in Hl. lia.
Qed.

Lemma parse_inodes_total d :
  exists inodes d', parse_inodes data g d = Ok (inodes, d') /\ Forall wf_inode inodes.
Proof using Hwf.
  unfold parse_inodes.
  destruct (foldM_total (parse_inode data g) (fun st => Forall wf_inode st.1) ([], d)
              (range 1 (ninodes g))) as ([inodes d1] & -> & Hi).
  - constructor.
  - intros st n Hn%range_elem. apply parse_inode_total. lia.
  - cbn. eauto.
Qed.

Lemma inode_blocks_total i d :
  wf_inode i -> exists bs d', inode_blocks data g i d = Ok (bs, d').
Proof using Hwf.
  intros (_ & Hl & _). unfold inode_blocks.
  destruct (index_total (addrs i) NDIRECT) as [ind ->]; [rewrite Hl; unfold NDIRECT; lia|].
  cbn [mbind result_bind]. destruct (ind =? 0); [cbn [mbind result_bind]; eauto|].
  destruct (in_data g ind) eqn:Ein; [|cbn [mbind result_bind]; eauto].
  unfold in_data in Ein. to_prop. pose proof (geometry_order _ _ Hwf).
  unfold unpack. rewrite calcsize_repeat, (len_block g data) by (auto; lia).
  change (fmt_size FI * Z.of_nat 256 =? BSIZE) with true. cbn [mbind result_bind]. eauto.
Qed.

(** ** Bitmap and ownership *)

Lemma bitmap_bit_total n : 0 <= n < size g -> exists b, bitmap_bit data g n = Ok b.
Proof using Hwf.
  intros Hn. unfold bitmap_bit. pose proof (geometry_order _ _ Hwf).
  assert (bmapstart g + n / BPB < data_start g).
  { rewrite (wf_data_start _ _ Hwf). apply Z.add_lt_mono_l.
    change BPB with 8192. apply Z.div_lt_upper_bound; [lia|].
    pose proof (Z.div_mod (size g + 8191) 8192).
    pose proof (Z.mod_pos_bound (size g + 8191) 8192). lia. }
  assert (0 <= n / BPB) by (apply Z.div_pos; unfold BPB, BSIZE; lia).
  destruct (index_total (block data (bmapstart g + n / BPB)) (n mod BPB / 8)) as [b ->];
    [|cbn; eauto].
  rewrite (len_block g data) by (auto; lia).
  change BPB with 8192. pose proof (Z.mod_pos_bound n 8192 ltac:(lia)).
  split; [apply Z.div_pos; lia|]. apply Z.div_lt_upper_bound; unfold BSIZE; lia.
Qed.

Definition owners_ok (o : Owners) : Prop :=
  map_Forall (fun n _ => data_start g <= n < size g) o.

Lemma own_block_ok i o it : owners_ok o -> owners_ok (own_block g i o it).
Proof.
  intros Ho. destruct it as [[k idx] a]. cbn. destruct (in_data g a) eqn:E; [|done].
  unfold in_data in E. to_prop. apply map_Forall_insert_2; [lia|done].
Qed.

Lemma own_blocks_ok i o bs : owners_ok o -> owners_ok (foldl (own_block g i) o bs).
Proof. revert o; induction bs; cbn; auto using own_block_ok. Qed.

Lemma inspect_blocks_total inodes d :
  Forall wf_inode inodes -> exists o d', inspect_blocks data g inodes d = Ok (o, d').
Proof using Hwf.
  intros Hi. unfold inspect_blocks. pose proof (geometry_order _ _ Hwf).
  destruct (foldM_total (own_inode data g) (fun st => owners_ok st.1) (∅, d) inodes)
    as ([o d1] & -> & Ho); [apply map_Forall_empty| |].
  { intros [o1 d1] i Hin Ho1. unfold own_inode.
    rewrite Forall_forall in Hi. destruct (inode_blocks_total i d1 (Hi _ Hin)) as (bs & d2 & ->).
    cbn. eexists; split; [done|]. by apply own_blocks_ok. }
  cbn [mbind result_bind].
  destruct (foldM_total (check_owned data g) (fun _ => True) d1 (map_to_list o))
    as (d2 & -> & _); [done| |].
  { intros d2 [n es] Hin _. apply elem_of_map_to_list in Hin. specialize (Ho _ _ Hin).
    unfold check_owned. destruct (bitmap_bit_total n) as [b ->]; [cbn in Ho; lia|]. cbn; eauto. }
  cbn [mbind result_bind].
  destruct (foldM_total (check_metadata data g) (fun _ => True) d2 (range 0 (data_start g)))
    as (d3 & -> & _); [done| |].
  { intros d3 n Hn%range_elem _. unfold check_metadata.
    destruct (bitmap_bit_total n) as [b ->]; [lia|]. cbn; eauto. }
  cbn [mbind result_bind].
  destruct (foldM_total (check_leak data g o) (fun _ => True) d3 (range (data_start g) (size g)))
    as (d4 & -> & _); [done| |].
  { intros d4 n Hn%range_elem _. unfold check_leak.
    destruct (bitmap_bit_total n) as [b ->]; [lia|]. cbn; eauto. }
  cbn. eauto.
Qed.

(** ** Directories *)

Lemma scan_entry_total inodes payload dir st off :
  off + DIRENT_SIZE <= len payload ->
  exists st', scan_entry inodes payload dir st off = Ok st'.
Proof.
  intros H. destruct st as [[names s] d]. unfold scan_entry, unpack_dirent.
  apply Z.leb_le in H as ->. cbn [mbind result_bind].
  destruct (_ =? 0); [eauto|]. case_bool_decide; [eauto|].
  destruct (get_inode _ _); [|eauto]. case_bool_decide; [eauto|]. case_bool_decide; eauto.
Qed.

Lemma entry_offsets (payload : pybytes) off :
  off ∈ range_step 0 (len payload - DIRENT_SIZE + 1) DIRENT_SIZE ->
  0 <= off /\ off + DIRENT_SIZE <= len payload.
Proof.
  unfold range_step, DIRENT_SIZE. intros (i & -> & Hi)%list_elem_of_fmap.
  apply elem_of_seqZ in Hi.
  pose proof (Z.mul_div_le (len payload - 16 + 1 - 0 + 16 - 1) 16). lia.
Qed.

Lemma scan_directories_total inodes d :
  Forall wf_inode inodes -> exists s d', scan_directories data g inodes d = Ok (s, d').
Proof using Hwf.
  intros Hi. unfold scan_directories.
  destruct (foldM_total (scan_directory data g inodes) (fun _ => True)
              (Build_DirScan ∅ ∅ ∅ ∅, d) inodes) as ([s d'] & -> & _); [done| |eauto].
  intros [s1 d1] i Hin _. unfold scan_directory. destruct (negb _); [eauto|].
  unfold read_inode_bytes. rewrite Forall_forall in Hi.
  destruct (inode_blocks_total i d1 (Hi _ Hin)) as (bs & d2 & ->). cbn [mbind result_bind].
  destruct (foldl (read_chunk _ _ _) _ _) as [[chunks rem] d3]. cbn [mbind result_bind].
  edestruct (foldM_total (scan_entry inodes (concat chunks) (inum i)) (fun _ => True))
    as ([[nm s2] d4] & -> & _); [done| |cbn; eauto].
  intros st off Hoff _. edestruct scan_entry_total as [st' ->]; [|eauto].
  by apply entry_offsets in Hoff as [_ Hoff].
Qed.
End Total.

(** * Termination of the walk *)

Section Walk.
Context (inodes : list Inode) (edges : gmap Z (list (pybytes * Z))).

(** Edges that can still be followed: those of the inodes not yet reached. *)
Definition pending (r : gset Z) : nat :=
  sum_list_with (fun kv : Z * list (pybytes * Z) =>
    if bool_decide (kv.1 ∈ r) then 0%nat else length kv.2) (map_to_list edges).

Lemma pending_mono r r' : r ⊆ r' -> (pending r' <= pending r)%nat.
Proof.
  intros Hr. unfold pending. induction (map_to_list edges) as [|[k l] m IH]; cbn; [done|].
  repeat case_bool_decide; try lia. set_solver.
Qed.

Lemma pending_visit r x l :
  edges !! x = Some l -> x ∉ r -> (pending ({[ x ]} ∪ r) + length l <= pending r)%nat.
Proof.
  intros Hx Hr. unfold pending. apply elem_of_map_to_list in Hx.
  induction (map_to_list edges) as [|[k l'] m IH]; [by apply not_elem_of_nil in Hx|].
  assert (Hm : (sum_list_with (fun kv : Z * list (pybytes * Z) =>
      if bool_decide (kv.1 ∈ {[ x ]} ∪ r) then 0%nat else length kv.2) m <=
    sum_list_with (fun kv : Z * list (pybytes * Z) =>
      if bool_decide (kv.1 ∈ r) then 0%nat else length kv.2) m)%nat).
  { clear. induction m as [|[k l] m IH]; cbn; [done|].
    repeat case_bool_decide; try lia. set_solver. }
  apply elem_of_cons in Hx as [[= <- <-]|Hx]; cbn; repeat case_bool_decide;
    try specialize (IH Hx); try lia; set_solver.
Qed.

Lemma walk_edge_grows cur w e :
  (length (queue (walk_edge inodes cur w e)) <= S (length (queue w)))%nat /\
  reachable w ⊆ reachable (walk_edge inodes cur w e).
Proof.
  destruct e as [nm t]. unfold walk_edge. destruct (get_inode inodes t); [|cbn; split; [lia|done]].
  destruct (_ =? _); cbn; [|split; [lia|set_solver]].
  split; [|done]. case_bool_decide; [lia|]. rewrite length_app. cbn. lia.
Qed.

Lemma walk_edges_grow cur w es :
  (length (queue (foldl (walk_edge inodes cur) w es)) <= length (queue w) + length es)%nat /\
  reachable w ⊆ reachable (foldl (walk_edge inodes cur) w es).
Proof.
  revert w; induction es as [|e es IH]; intros w; cbn; [split; [lia|done]|].
  destruct (walk_edge_grows cur w e), (IH (walk_edge inodes cur w e)). split; [lia|set_solver].
Qed.

Definition budget (w : Walk) : nat := (length (queue w) + pending (reachable w))%nat.

Lemma visit_budget w cur rest :
  queue w = cur :: rest -> (budget (visit inodes edges cur rest w) < budget w)%nat.
Proof.
  intros Hq. unfold budget, visit. rewrite Hq. cbn [with_queue reachable length].
  case_bool_decide as Hin; [cbn; lia|].
  set (w1 := mark_reachable cur (with_queue rest w)).
  change (length rest) with (length (queue w1)).
  destruct (edges !! cur) as [l|] eqn:E; cbn [default]; unfold id.
  - destruct (walk_edges_grow cur w1 l) as [Hl Hr].
    pose proof (pending_mono _ _ Hr). pose proof (pending_visit (reachable w) cur l E Hin).
    change (reachable w1) with ({[ cur ]} ∪ reachable w) in *.
    lia.
  - pose proof (pending_mono (reachable w) ({[ cur ]} ∪ reachable w) ltac:(set_solver)).
    cbn. lia.
Qed.

Lemma walk_terminates fuel w :
  (budget w <= fuel)%nat -> exists w', walk fuel inodes edges w = Some w' /\ queue w' = [].
Proof.
  revert w; induction fuel as [|fuel IH]; intros w Hb; unfold walk; fold walk;
    destruct (queue w) as [|cur rest] eqn:Eq; eauto.
  - unfold budget in Hb. rewrite Eq in Hb. cbn in Hb. lia.
  - apply IH. pose proof (visit_budget w cur rest Eq). lia.
Qed.

Lemma start_budget d : (budget (start_walk inodes d) <= walk_fuel edges)%nat.
Proof.
  unfold budget, walk_fuel, start_walk. cbn [queue reachable].
  assert (H : (pending ∅ <= length (concat (map snd (map_to_list edges))))%nat).
  { unfold pending. induction (map_to_list edges) as [|[k l] m IH]; cbn; [done|].
    rewrite length_app. case_bool_decide; lia. }
  destruct (get_inode _ _); cbn; lia.
Qed.

(** The loop ends: the fuel of the model is never what stops it. *)
Lemma walk_total d :
  exists w, walk (walk_fuel edges) inodes edges (start_walk inodes d) = Some w /\ queue w = [].
Proof. apply walk_terminates, start_budget. Qed.
End Walk.

(** * The report *)

Lemma inspect_total g data :
  wf_geometry g data -> exists r, inspect data g = Ok r.
Proof.
  intros Hwf. unfold inspect.
  destruct (parse_inodes_total g data Hwf ∅) as (inodes & d1 & -> & Hi). cbn [mbind result_bind].
  destruct (inspect_blocks_total g data Hwf inodes d1 Hi) as (o & d2 & ->). cbn [mbind result_bind].
  destruct (scan_directories_total g data Hwf inodes d2 Hi) as (s & d3 & ->).
  cbn [mbind result_bind].
  destruct (walk_total inodes (edges s) d3) as (w & -> & _). cbn. eauto.
Qed.

Lemma parse_geometry_total data d : exists r, parse_geometry data d = Ok r.
Proof.
  unfold parse_geometry. destruct (len data <? 2 * BSIZE) eqn:E; [eauto|]. to_prop.
  destruct (unpack_from_total SUPER data BSIZE) as (vs & -> & Hl).
  { change (calcsize SUPER) with 32. unfold BSIZE in *. lia. }
  cbn [mbind result_bind]. do 8 (destruct vs as [|? vs]; [done|]). destruct vs; [|done].
  destruct (negb _); [eauto|]. cbv zeta. destruct (geometry_valid _ _ _ _ _ _ _ _); eauto.
Qed.

(** For every byte string the checker returns a report: no [struct.error], no
    [IndexError], and the traversal of a cyclic directory graph ends. *)
Theorem check_bytes_total data : exists r, check_bytes data = Ok r.
Proof.
  unfold check_bytes. destruct (parse_geometry_total data ∅) as [[[g|] d0] Hg]; rewrite Hg;
    cbn [mbind result_bind]; [|eauto].
  destruct (parse_geometry_wf _ _ _ _ Hg) as [Hwf ->].
  destruct (parse_log_total g data Hwf ∅) as [[[[c ts] [sh|]] d1] Hl]; rewrite Hl;
    cbn [mbind result_bind]; [|eauto].
  destruct (parse_log_shadow _ _ _ _ _ _ _ Hwf Hl) as (_ & _ & _ & _ & _ & Hrp).
  pose proof (wf_geometry_len g data sh Hwf (rp_len _ _ _ _ Hrp)) as Hwf'.
  unfold inspect_view.
  destruct (inspect_total g data Hwf) as [[[[[? ?] ?] ?] ?] ->].
  destruct (inspect_total g sh Hwf') as [[[[[? ?] ?] ?] ?] ->]. cbn. eauto.
Qed.
