(* ===== verification/FsckSpec.v ===== *)
(** What a consistent file system image is, independently of the checker: the
    inode table, the block pointers, the owners of blocks and the bitmap, the
    directory entries, the directory tree and the link counts, each read
    directly off the image. *)

From stdpp Require Import base tactics list gmap strings numbers list_numbers.
From S2P Require Import Prelude PyText PyBytes Fsck.
Open Scope Z_scope.

(** * Reading the image *)

(** The on-disk inode [n]. *)
Definition dinode (data : pybytes) (g : Geometry) (n : Z) : Inode :=
  match unpack_head DINODE (zdrop (inodestart g * BSIZE + n * calcsize DINODE) data) with
  | ty :: mj :: mn :: nl :: sz :: rest => Build_Inode n ty mj mn nl sz rest
  | _ => Build_Inode n 0 0 0 0 0 []
  end.

(** The allocated inodes, in order. *)
Definition inode_table (data : pybytes) (g : Geometry) : list Inode :=
  filter (fun i => type i ∈ VALID_TYPES) (dinode data g <$> range 1 (ninodes g)).

Definition is_dir (i : Inode) : Prop := type i = T_DIR.
#[global] Instance is_dir_dec i : Decision (is_dir i).
Proof. unfold is_dir. apply _. Defined.

Definition is_dir_at (inodes : list Inode) (n : Z) : Prop :=
  match get_inode inodes n with Some i => is_dir i | None => False end.
#[global] Instance is_dir_at_dec inodes n : Decision (is_dir_at inodes n).
Proof. unfold is_dir_at. destruct (get_inode inodes n); apply _. Defined.

(** The address of the indirect block, and the addresses it holds. *)
Definition indirect_ptr (i : Inode) : Z := nth 12 (addrs i) 0.
Definition indirect_entries (data : pybytes) (g : Geometry) (i : Inode) : list Z :=
  if in_data g (indirect_ptr i) then unpack_head (repeat FI 256) (block data (indirect_ptr i))
  else repeat 0 256.

(** The addresses of the blocks of a file, by logical block number. *)
Definition pointers (data : pybytes) (g : Geometry) (i : Inode) : list Z :=
  take 12 (addrs i) ++ indirect_entries data g i.

(** The blocks an inode owns: its data blocks and its indirect block. *)
Definition owned (data : pybytes) (g : Geometry) (i : Inode) : list Z :=
  filter (fun a => a <> 0) (indirect_ptr i :: pointers data g i).

(** The bytes of a file. *)
Definition chunk (data : pybytes) (g : Geometry) (i : Inode) (k : Z) : pybytes :=
  let count := Z.min (isize i - k * BSIZE) BSIZE in
  let a := nth (Z.to_nat k) (pointers data g i) 0 in
  if in_data g a then ztake count (block data a) else zeros count.
Definition content (data : pybytes) (g : Geometry) (i : Inode) : pybytes :=
  concat (chunk data g i <$> range 0 (required_blocks i)).

(** The entries in use of a directory: name and target. *)
Definition dirent_at (payload : pybytes) (off : Z) : option (pybytes * Z) :=
  let target := decode FH (slice off (off + 2) payload) in
  if target =? 0 then None
  else Some (decode_name (slice (off + 2) (off + DIRENT_SIZE) payload), target).
Definition dirents (payload : pybytes) : list (pybytes * Z) :=
  omap (dirent_at payload) (range_step 0 (len payload - DIRENT_SIZE + 1) DIRENT_SIZE).
Definition entries (data : pybytes) (g : Geometry) (i : Inode) : list (pybytes * Z) :=
  dirents (content data g i).

(** The entries that are edges of the directory tree: all but [.] and [..]. *)
Definition proper (e : pybytes * Z) : Prop := e.1 <> dot /\ e.1 <> dotdot_name.
#[global] Instance proper_dec e : Decision (proper e).
Proof. unfold proper. apply _. Defined.

Definition links (data : pybytes) (g : Geometry) (i : Inode) : list (pybytes * Z) :=
  filter proper (entries data g i).

(** The links of every directory of the image. *)
Definition all_links (data : pybytes) (g : Geometry) : list (pybytes * Z) :=
  concat (links data g <$> filter is_dir (inode_table data g)).

(** [parent] has a link to [child]. *)
Definition linked (data : pybytes) (g : Geometry) (parent child : Z) : Prop :=
  exists i (name : pybytes), i ∈ inode_table data g /\ is_dir i /\ inum i = parent /\
    (name, child) ∈ links data g i.

(** * Consistency *)

(** An inode slot is free or holds a known type and a possible size. *)
Definition slot_ok (i : Inode) : Prop :=
  type i = 0 \/ (type i ∈ VALID_TYPES /\ isize i <= MAXFILE * BSIZE).

(** Exactly the first [required_blocks] pointers are used, the indirect block
    only when needed, and all of them point into the data region. *)
Record pointers_ok (data : pybytes) (g : Geometry) (i : Inode) : Prop := {
  po_prefix k a : pointers data g i !! k = Some a -> a <> 0 <-> Z.of_nat k < required_blocks i;
  po_indirect : indirect_ptr i <> 0 -> NDIRECT < required_blocks i;
  po_region a : a ∈ owned data g i -> data_start g <= a < size g
}.

(** The entries of directory [i]: whole records, distinct non-empty names,
    allocated targets, and [.] the directory itself. *)
Record entries_ok (data : pybytes) (g : Geometry) (i : Inode) : Prop := {
  eo_size : len (content data g i) mod DIRENT_SIZE = 0;
  eo_names : NoDup (entries data g i).*1;
  eo_nonempty name target : (name, target) ∈ entries data g i -> name <> [];
  eo_target name target : (name, target) ∈ entries data g i ->
    target ∈ inum <$> inode_table data g;
  eo_dot : (dot, inum i) ∈ entries data g i
}.

Record consistent (data : pybytes) (g : Geometry) : Prop := {
  (** Inodes. *)
  co_slots n : 1 <= n < ninodes g -> slot_ok (dinode data g n);
  co_root : 1 < ninodes g /\ is_dir (dinode data g ROOTINO);
  (** Blocks: every block has one owner at most, and the bitmap marks exactly
      the metadata and the owned blocks. *)
  co_pointers i : i ∈ inode_table data g -> pointers_ok data g i;
  co_exclusive : NoDup (concat (owned data g <$> inode_table data g));
  co_bitmap b : 0 <= b < size g ->
    bitmap_bit data g b = Ok 1 <->
    b < data_start g \/ exists i, i ∈ inode_table data g /\ b ∈ owned data g i;
  (** Directories form a tree rooted at the root directory. *)
  co_entries i : i ∈ inode_table data g -> is_dir i -> entries_ok data g i;
  co_reachable i : i ∈ inode_table data g -> rtc (linked data g) ROOTINO (inum i);
  co_one_parent : NoDup (filter (is_dir_at (inode_table data g)) (all_links data g).*2);
  co_root_parent : ROOTINO ∉ (all_links data g).*2;
  co_root_dotdot i : i ∈ inode_table data g -> inum i = ROOTINO ->
    (dotdot_name, ROOTINO) ∈ entries data g i;
  co_dotdot i p : i ∈ inode_table data g -> is_dir i -> linked data g p (inum i) ->
    (dotdot_name, p) ∈ entries data g i;
  (** Link counts. *)
  co_nlink_dir i : i ∈ inode_table data g -> is_dir i ->
    nlink i = 1 + len (filter (is_dir_at (inode_table data g)) (links data g i).*2);
  co_nlink_file i : i ∈ inode_table data g -> ~ is_dir i ->
    nlink i = len (filter (fun t => t = inum i) (all_links data g).*2)
}.
