(* ===== verification/FsckBlocks.v ===== *)
(** The first half of the audit against the specification: the inode table,
    the block lists, the owners and the bitmap.  Every stage is total, returns
    the value the specification reads off the image, and adds no diagnostic
    exactly when its part of [consistent] holds. *)

From stdpp Require Import base tactics list gmap strings numbers list_numbers.
From S2P Require Import Prelude PyText PyBytes Fsck FsckLog FsckTotal FsckSpec.
Open Scope Z_scope.

(** * Loops that only add diagnostics *)

Lemma quiet_if (b : bool) code fs d : (if b then add code fs d else d) = ∅ <-> d = ∅ /\ b = false.
Proof.
  destruct b; [|naive_solver]. split; [|naive_solver]. intros H. by destruct (add_nonempty _ _ _ H).
Qed.

Lemma quiet_unless (b : bool) code fs d :
  (if b then d else add code fs d) = ∅ <-> d = ∅ /\ b = true.
Proof. destruct b; [naive_solver|]. split; [|naive_solver]. intros H. by destruct (add_nonempty _ _ _ H). Qed.

Lemma foldl_quiet {A} (f : Diagnostics -> A -> Diagnostics) (P : A -> Prop) d l :
  (forall d a, a ∈ l -> f d a = ∅ <-> d = ∅ /\ P a) ->
  foldl f d l = ∅ <-> d = ∅ /\ Forall P l.
Proof.
  revert d; induction l as [|a l IH]; intros d H; cbn.
  - rewrite Forall_nil. naive_solver.
  - rewrite IH, H, Forall_cons by (intros; first [apply H|idtac]; set_solver). naive_solver.
Qed.

Lemma foldM_quiet {A} (f : Diagnostics -> A -> result Diagnostics) (P : A -> Prop) d l :
  (forall d a, a ∈ l -> exists d', f d a = Ok d' /\ (d' = ∅ <-> d = ∅ /\ P a)) ->
  exists d', foldM f d l = Ok d' /\ (d' = ∅ <-> d = ∅ /\ Forall P l).
Proof.
  revert d; induction l as [|a l IH]; intros d H; cbn.
  - exists d. rewrite Forall_nil. naive_solver.
  - destruct (H d a) as (d1 & -> & H1); [set_solver|]. cbn.
    destruct (IH d1) as (d2 & -> & H2); [intros; apply H; set_solver|].
    exists d2. split; [done|]. rewrite H2, H1, Forall_cons. naive_solver.
Qed.

Lemma elem_of_enumerate_from {A} (l : list A) i x :
  x ∈ enumerate_from i l <-> exists k, l !! k = Some x.2 /\ x.1 = i + Z.of_nat k.
Proof.
  revert i; induction l as [|a l IH]; intros i; cbn.
  - split; [by intros ?%not_elem_of_nil|]. intros (k & H & _). done.
  - rewrite elem_of_cons, IH. destruct x as [j y]; cbn. split.
    + intros [[= -> ->]|(k & ? & ->)]; [exists 0%nat|exists (S k)]; split; try done; lia.
    + intros ([|k] & H & ->); cbn in H; [left|right].
      * injection H as ->. f_equal. lia.
      * exists k. split; [done|lia].
Qed.

(** * Block lists without the image *)

Lemma data_entries_addrs base l : snd <$> data_entries base l = filter (fun a => a <> 0) l.
Proof.
  unfold data_entries, enumerate.
  assert (H : forall i, snd <$> omap (fun '(index, address) =>
      if address =? 0 then None else Some (KData, base + index, address)) (enumerate_from i l) =
      filter (fun a => a <> 0) l); [|apply H].
  induction l as [|a l IH]; intros i; [done|]. rewrite filter_cons. cbn -[filter].
  destruct (a =? 0) eqn:E; to_prop.
  - rewrite decide_False by naive_solver. apply IH.
  - rewrite decide_True by done. cbn -[filter]. f_equal. apply IH.
Qed.

Lemma elem_of_data_entries base l k idx a :
  (k, idx, a) ∈ data_entries base l <->
  k = KData /\ exists j : nat, l !! j = Some a /\ a <> 0 /\ idx = base + Z.of_nat j.
Proof.
  unfold data_entries, enumerate. rewrite list_elem_of_omap. split.
  - intros ([j b] & Hin & Hb). apply elem_of_enumerate_from in Hin as (m & Hm & Hj).
    cbn in Hm, Hj. destruct (b =? 0) eqn:E; to_prop; [done|]. injection Hb as <- <- <-.
    split; [done|]. exists m. repeat split; [done|done|lia].
  - intros (-> & j & Hj & Ha & ->). exists (Z.of_nat j, a). split.
    + apply elem_of_enumerate_from. exists j. cbn. split; [done|lia].
    + apply Z.eqb_neq in Ha as ->. done.
Qed.

Lemma data_entries_zeros base n : data_entries base (repeat 0 n) = [].
Proof.
  apply fmap_nil_inv with (f := snd). rewrite data_entries_addrs.
  induction n; [done|]. cbn [repeat]. rewrite filter_cons_False; auto.
Qed.

Lemma NoDup_count {A} `{EqDecision A} (l : list A) :
  NoDup l <-> forall a, (length (filter (fun x => x = a) l) <= 1)%nat.
Proof.
  induction l as [|b l IH]; [split; [cbn; lia|constructor]|].
  rewrite NoDup_cons, IH. setoid_rewrite filter_cons. split.
  - intros [Hni Hl] a. destruct (decide (b = a)) as [->|]; [|auto]. cbn.
    destruct (filter (fun x => x = a) l) as [|c r] eqn:E; [cbn; lia|].
    exfalso. apply Hni. assert (c ∈ filter (fun x => x = a) l) as Hc by (rewrite E; left).
    by apply list_elem_of_filter in Hc as [<- ?].
  - intros H. split.
    + intros Hin. specialize (H b). rewrite decide_True in H by done. cbn in H.
      destruct (filter (fun x => x = b) l) as [|c r] eqn:E; [|cbn in H; lia].
      assert (b ∈ filter (fun x => x = b) l) as Hb by (by apply list_elem_of_filter).
      rewrite E in Hb. by apply not_elem_of_nil in Hb.
    + intros a. specialize (H a). destruct (decide (b = a)); cbn in H; lia.
Qed.

Section Blocks.
Context (g : Geometry) (data : pybytes) (Hwf : wf_geometry g data).

(** * The inode table *)

Lemma dinode_fields n :
  1 <= n < ninodes g ->
  unpack_from DINODE data (inodestart g * BSIZE + n * calcsize DINODE) =
    Ok ([type (dinode data g n); major (dinode data g n); minor (dinode data g n);
         nlink (dinode data g n); isize (dinode data g n)] ++ addrs (dinode data g n)) /\
  inum (dinode data g n) = n /\ len (addrs (dinode data g n)) = 13.
Proof using Hwf.
  intros Hn. unfold dinode, unpack_from.
  set (off := inodestart g * BSIZE + n * calcsize DINODE).
  pose proof (length_unpack_head DINODE (zdrop off data)) as Hl.
  destruct (off + calcsize DINODE <=? len data) eqn:E; to_prop.
  2: { exfalso. revert E. unfold off. change (calcsize DINODE) with 64.
       rewrite (wf_len _ _ Hwf), (wf_inodestart _ _ Hwf).
       pose proof (geometry_order _ _ Hwf) as Ho. rewrite (wf_bmapstart _ _ Hwf) in Ho.
       pose proof (Z.mod_pos_bound (ninodes g + 15) 16).
       pose proof (Z.div_mod (ninodes g + 15) 16). unfold BSIZE. lia. }
  destruct (unpack_head DINODE (zdrop off data)) as [|a1 l] eqn:Ev; [done|].
  do 4 (destruct l as [|? l]; [done|]). cbn. repeat split.
  rewrite len_length. cbn in Hl. lia.
Qed.

Definition slot_list (ns : list Z) : list Inode :=
  filter (fun i => type i ∈ VALID_TYPES) (dinode data g <$> ns).

Lemma parse_inode_spec l d n :
  1 <= n < ninodes g ->
  exists d', parse_inode data g (l, d) n = Ok (l ++ slot_list [n], d') /\
    (d' = ∅ <-> d = ∅ /\ slot_ok (dinode data g n)).
Proof using Hwf.
  intros Hn. destruct (dinode_fields n Hn) as (Hf & Hnum & _).
  unfold parse_inode. rewrite Hf. cbn [mbind result_bind app type isize].
  set (i := dinode data g n) in *.
  replace (Build_Inode n _ _ _ _ _ _) with i by (rewrite <-Hnum; by destruct i).
  unfold slot_list, slot_ok. cbn [fmap list_fmap]. fold i.
  destruct (type i =? 0) eqn:E0; to_prop.
  - rewrite filter_cons_False by (rewrite E0; unfold VALID_TYPES; set_solver). rewrite app_nil_r.
    exists d. split; [done|]. naive_solver.
  - case_bool_decide as Ht; cbn [negb].
    + rewrite filter_cons_True by done. eexists; split; [done|]. rewrite quiet_if, Z.ltb_ge. tauto.
    + rewrite filter_cons_False by done. rewrite app_nil_r. eexists; split; [done|].
      split; [intros H; by destruct (add_nonempty _ _ _ H)|naive_solver].
Qed.

Lemma parse_slots_spec l d ns :
  Forall (fun n => 1 <= n < ninodes g) ns ->
  exists d', foldM (parse_inode data g) (l, d) ns = Ok (l ++ slot_list ns, d') /\
    (d' = ∅ <-> d = ∅ /\ Forall (fun n => slot_ok (dinode data g n)) ns).
Proof using Hwf.
  revert l d; induction ns as [|n ns IH]; intros l d Hns.
  - exists d. cbn. rewrite app_nil_r, Forall_nil. split; [done|]. naive_solver.
  - apply Forall_cons in Hns as [Hn Hns]. cbn [foldM].
    destruct (parse_inode_spec l d n Hn) as (d1 & -> & H1). cbn [mbind result_bind].
    destruct (IH (l ++ slot_list [n]) d1 Hns) as (d2 & -> & H2).
    exists d2. split.
    + rewrite <-app_assoc. do 3 f_equal. unfold slot_list. cbn [fmap list_fmap].
      rewrite <-filter_app. done.
    + rewrite H2, H1, Forall_cons. tauto.
Qed.

Lemma get_inode_Some inodes n i : get_inode inodes n = Some i -> i ∈ inodes /\ inum i = n.
Proof.
  unfold get_inode. destruct (list_find _ inodes) as [[k j]|] eqn:E; [|done].
  intros [= ->]. apply list_find_Some in E as (Hk & Hi & _). split; [|done].
  by eapply list_elem_of_lookup_2.
Qed.

Lemma get_inode_None inodes n : get_inode inodes n = None <-> n ∉ inum <$> inodes.
Proof.
  unfold get_inode. destruct (list_find _ inodes) as [[k j]|] eqn:E; cbn.
  - apply list_find_Some in E as (Hk & Hi & _). split; [done|]. intros H; exfalso. apply H.
    apply list_elem_of_fmap. exists j. split; [done|]. by eapply list_elem_of_lookup_2.
  - apply list_find_None in E. split; [|done]. intros _ (j & -> & Hj)%list_elem_of_fmap.
    rewrite Forall_forall in E. by apply (E j Hj).
Qed.

Lemma elem_of_inode_table i :
  i ∈ inode_table data g <->
  1 <= inum i < ninodes g /\ i = dinode data g (inum i) /\ type i ∈ VALID_TYPES.
Proof using Hwf.
  unfold inode_table. rewrite list_elem_of_filter, list_elem_of_fmap. split.
  - intros (Ht & n & -> & Hn%range_elem). destruct (dinode_fields n) as (_ & -> & _); [lia|].
    auto.
  - intros (Hn & Hi & Ht). split; [done|]. exists (inum i). split; [done|]. by apply range_elem.
Qed.

Lemma inode_table_wf i : i ∈ inode_table data g -> wf_inode g i.
Proof using Hwf.
  intros (Hn & Hi & Ht)%elem_of_inode_table. split; [done|]. split; [|done].
  rewrite Hi. by apply dinode_fields.
Qed.

Lemma get_inode_table n i :
  get_inode (inode_table data g) n = Some i <-> i ∈ inode_table data g /\ inum i = n.
Proof using Hwf.
  split; [apply get_inode_Some|]. intros [Hi Hn].
  destruct (get_inode _ n) as [j|] eqn:E.
  - apply get_inode_Some in E as [Hj Hjn].
    apply elem_of_inode_table in Hi as (_ & Hi & _), Hj as (_ & Hj & _).
    f_equal. congruence.
  - apply get_inode_None in E. destruct E. apply list_elem_of_fmap. eauto.
Qed.

Lemma NoDup_inode_table : NoDup (inum <$> inode_table data g).
Proof using Hwf.
  assert (H : forall ns, NoDup ns -> Forall (fun n => 1 <= n < ninodes g) ns ->
            NoDup (inum <$> slot_list ns)); unfold slot_list in *.
  { induction ns as [|n ns IH]; intros Hnd Hf; [constructor|].
    apply NoDup_cons in Hnd as [Hni Hnd]. apply Forall_cons in Hf as [Hn Hf].
    cbn [fmap list_fmap]. rewrite filter_cons. destruct (decide _); [|auto].
    cbn [fmap list_fmap]. constructor; [|auto].
    intros (j & Hj & Hjl)%list_elem_of_fmap. apply list_elem_of_filter in Hjl as [_ Hjl].
    apply list_elem_of_fmap in Hjl as (m & -> & Hm). rewrite Forall_forall in Hf.
    destruct (dinode_fields n Hn) as (_ & En & _).
    destruct (dinode_fields m (Hf m Hm)) as (_ & Em & _). congruence. }
  apply H; [apply NoDup_seqZ|]. apply Forall_forall. intros n. by rewrite range_elem.
Qed.

Lemma parse_inodes_spec d :
  exists d', parse_inodes data g d = Ok (inode_table data g, d') /\
    (d' = ∅ <-> d = ∅ /\ (forall n, 1 <= n < ninodes g -> slot_ok (dinode data g n)) /\
                (1 < ninodes g /\ is_dir (dinode data g ROOTINO))).
Proof using Hwf.
  unfold parse_inodes.
  destruct (parse_slots_spec [] d (range 1 (ninodes g))) as (d1 & -> & H1).
  { apply Forall_forall. intros n. by rewrite range_elem. }
  cbn [mbind result_bind app]. eexists; split; [done|].
  change (slot_list _) with (inode_table data g). rewrite quiet_unless, H1.
  rewrite Forall_forall. setoid_rewrite range_elem.
  assert (Hr : match get_inode (inode_table data g) ROOTINO with
               | Some i => type i =? T_DIR | None => false end = true <->
               1 < ninodes g /\ is_dir (dinode data g ROOTINO)); [|tauto].
  unfold is_dir. destruct (get_inode _ _) as [i|] eqn:E.
  - apply get_inode_table in E as [Hi Hn].
    apply elem_of_inode_table in Hi as (Hr & Hi & _). rewrite Hn in Hr, Hi.
    rewrite Z.eqb_eq, <-Hi. unfold ROOTINO in Hr. split; [|tauto]. split; [lia|done].
  - apply get_inode_None in E. split; [done|]. intros [Hn Ht]. destruct E.
    apply list_elem_of_fmap. exists (dinode data g ROOTINO).
    destruct (dinode_fields ROOTINO) as (_ & En & _); [unfold ROOTINO; lia|].
    split; [done|]. apply elem_of_inode_table. rewrite En. unfold ROOTINO in *.
    repeat split; try lia. rewrite Ht. unfold VALID_TYPES. set_solver.
Qed.

(** * Block lists *)

Definition block_list (i : Inode) : list (kind * Z * Z) :=
  data_entries 0 (take 12 (addrs i)) ++
  (if indirect_ptr i =? 0 then []
   else (KIndirect, NDIRECT, indirect_ptr i) ::
        data_entries NDIRECT (indirect_entries data g i)).

Lemma in_data_spec a : in_data g a = true <-> data_start g <= a < size g.
Proof. unfold in_data. rewrite andb_true_iff, Z.leb_le, Z.ltb_lt. lia. Qed.

Lemma in_data_0 : in_data g 0 = false.
Proof using Hwf.
  pose proof (geometry_order _ _ Hwf). apply not_true_iff_false. rewrite in_data_spec. lia.
Qed.

Lemma index_indirect i : len (addrs i) = 13 -> index (addrs i) NDIRECT = Ok (indirect_ptr i).
Proof.
  rewrite len_length. intros H. unfold indirect_ptr, index, NDIRECT. rewrite zdrop_drop.
  generalize dependent (addrs i); intros l H.
  do 13 (destruct l as [|? l]; [done|]). done.
Qed.

Lemma length_indirect i : length (indirect_entries data g i) = 256%nat.
Proof.
  unfold indirect_entries. destruct (in_data _ _).
  - by rewrite length_unpack_head, repeat_length.
  - apply repeat_length.
Qed.

(** The block list and the logical view the checker builds. *)
Lemma inode_blocks_value i :
  len (addrs i) = 13 ->
  (let direct := ztake NDIRECT (addrs i) in
   let addresses := data_entries 0 direct in
   if indirect_ptr i =? 0 then Ok (addresses, direct ++ repeat 0 (Z.to_nat NINDIRECT))
   else
     let addresses := addresses ++ [(KIndirect, NDIRECT, indirect_ptr i)] in
     if in_data g (indirect_ptr i) then
       entries ← unpack (repeat FI 256) (block data (indirect_ptr i));
       Ok (addresses ++ data_entries NDIRECT entries, direct ++ entries)
     else Ok (addresses, direct ++ repeat 0 (Z.to_nat NINDIRECT))) =
  Ok (block_list i, pointers data g i).
Proof using Hwf.
  intros Hl. cbv zeta. rewrite ztake_take. change (Z.to_nat NDIRECT) with 12%nat.
  change (Z.to_nat NINDIRECT) with 256%nat. unfold block_list, pointers, indirect_entries.
  destruct (indirect_ptr i =? 0) eqn:E0; to_prop.
  - rewrite E0, in_data_0, app_nil_r. done.
  - destruct (in_data g (indirect_ptr i)) eqn:Ein.
    + apply in_data_spec in Ein. pose proof (geometry_order _ _ Hwf).
      unfold unpack. rewrite calcsize_repeat, (len_block g data) by (auto; lia).
      change (fmt_size FI * Z.of_nat 256 =? BSIZE) with true. cbn [mbind result_bind].
      by rewrite <-app_assoc.
    + by rewrite data_entries_zeros.
Qed.

Lemma block_list_owned i : snd <$> block_list i ≡ₚ owned data g i.
Proof using Hwf.
  unfold block_list, owned, pointers. rewrite fmap_app, data_entries_addrs.
  rewrite filter_cons, filter_app. destruct (indirect_ptr i =? 0) eqn:E0; to_prop.
  - rewrite decide_False by naive_solver. unfold indirect_entries. rewrite E0, in_data_0.
    rewrite <-(data_entries_addrs 0 (repeat 0 256)), data_entries_zeros. done.
  - rewrite decide_True by done. rewrite fmap_cons, data_entries_addrs. cbn [snd].
    by rewrite Permutation_middle.
Qed.

Lemma inode_blocks_spec i d :
  wf_inode g i ->
  exists d', inode_blocks data g i d = Ok (block_list i, d') /\
    (d' = ∅ <-> d = ∅ /\ pointers_ok data g i).
Proof using Hwf.
  intros (_ & Hl & _). unfold inode_blocks. rewrite index_indirect by done.
  cbn [mbind result_bind]. rewrite inode_blocks_value by done. cbn [mbind result_bind].
  eexists; split; [done|].
  rewrite (foldl_quiet _ (fun '(_, _, a) => data_start g <= a < size g)).
  2: { intros d1 [[k idx] a] _. unfold check_region. rewrite quiet_unless, in_data_spec. done. }
  rewrite quiet_if.
  rewrite (foldl_quiet _ (fun '(idx, a) => a <> 0 <-> idx < required_blocks i)).
  2: { intros d1 [idx a] _. unfold check_logical.
       destruct (idx <? _) eqn:E1, (a =? 0) eqn:E2, (_ <=? idx) eqn:E3; cbn; to_prop;
         try lia; split; try (by intros Hx; destruct (add_nonempty _ _ _ Hx)); intuition lia. }
  assert (Hreg : Forall (fun '(_, _, a) => data_start g <= a < size g) (block_list i) <->
    forall a, a ∈ owned data g i -> data_start g <= a < size g).
  { rewrite Forall_forall. setoid_rewrite <-(block_list_owned i).
    setoid_rewrite list_elem_of_fmap. split.
    - intros H a ([[k idx] b] & -> & Hin). apply (H _ Hin).
    - intros H [[k idx] b] Hin. apply (H b). by exists (k, idx, b). }
  assert (Hpre : Forall (fun '(idx, a) => a <> 0 <-> idx < required_blocks i)
      (enumerate (pointers data g i)) <->
    forall k a, pointers data g i !! k = Some a -> a <> 0 <-> Z.of_nat k < required_blocks i).
  { rewrite Forall_forall. split.
    - intros H k a Hk. apply (H (Z.of_nat k, a)), elem_of_enumerate_from. eauto.
    - intros H [idx a] Hin. apply elem_of_enumerate_from in Hin as (k & Hk & Hi).
      cbn in Hk, Hi. subst idx. apply H. done. }
  rewrite Hreg, Hpre, andb_false_iff, negb_false_iff, Z.leb_gt, Z.eqb_eq.
  split; [intros (((-> & ?) & ?) & ?)|intros (-> & [? ? ?])].
  - split; [done|]. constructor; auto. lia.
  - split; [split; [split; [done|]|]|]; auto. destruct (decide (indirect_ptr i = 0)); auto.
Qed.

(** * Owners *)

(** [o] records, for every block, as many owners as [l] mentions it. *)
Definition owners_count (o : Owners) (l : list Z) : Prop :=
  forall a, length (default [] (o !! a)) = length (filter (fun x => x = a) l) /\
            (o !! a = None <-> a ∉ l).

Definition in_region (l : list Z) : list Z := filter (fun a => data_start g <= a < size g) l.

Lemma own_block_count i o l it :
  owners_count o l -> owners_count (own_block g i o it) (l ++ in_region [it.2]).
Proof.
  intros Ho. destruct it as [[k idx] a]. cbn [own_block snd]. unfold in_region.
  rewrite filter_cons, filter_nil. destruct (in_data g a) eqn:E.
  - apply in_data_spec in E. rewrite decide_True by done. intros b. destruct (Ho b) as [H1 H2].
    rewrite filter_app, length_app, filter_cons, filter_nil.
    destruct (decide (a = b)) as [->|Hab].
    + rewrite lookup_insert_eq. cbn. rewrite length_app, H1. split; [done|].
      split; [done|]. set_solver.
    + rewrite lookup_insert_ne by done. rewrite H1. split; [cbn; lia|]. rewrite H2. set_solver.
  - rewrite decide_False by (rewrite <-in_data_spec; congruence). by rewrite app_nil_r.
Qed.

Lemma own_blocks_count i o l bs :
  owners_count o l ->
  owners_count (foldl (own_block g i) o bs) (l ++ in_region (snd <$> bs)).
Proof.
  revert o l; induction bs as [|it bs IH]; intros o l Ho.
  - cbn. by rewrite app_nil_r.
  - cbn [foldl]. rewrite fmap_cons.
    change (it.2 :: (snd <$> bs)) with ([it.2] ++ (snd <$> bs)).
    unfold in_region. rewrite filter_app, app_assoc. by apply IH, own_block_count.
Qed.

Lemma own_inodes_spec inodes o l d :
  owners_count o l -> Forall (wf_inode g) inodes ->
  exists o' d', foldM (own_inode data g) (o, d) inodes = Ok (o', d') /\
    owners_count o' (l ++ in_region (concat ((fun i => snd <$> block_list i) <$> inodes))) /\
    (d' = ∅ <-> d = ∅ /\ Forall (pointers_ok data g) inodes).
Proof using Hwf.
  revert o l d; induction inodes as [|i inodes IH]; intros o l d Ho Hi.
  - exists o, d. cbn. rewrite app_nil_r, Forall_nil. naive_solver.
  - apply Forall_cons in Hi as [Hi His]. cbn [foldM own_inode].
    destruct (inode_blocks_spec i d Hi) as (d1 & -> & H1). cbn [mbind result_bind].
    destruct (IH _ _ d1 (own_blocks_count i o l (block_list i) Ho) His) as (o' & d2 & -> & Ho' & H2).
    exists o', d2. split; [done|]. split.
    + cbn [fmap list_fmap concat]. unfold in_region in *. by rewrite filter_app, app_assoc.
    + rewrite H2, H1, Forall_cons. tauto.
Qed.

(** * Bitmap *)

Definition marked (b : Z) : Prop := bitmap_bit data g b = Ok 1.

Lemma bitmap_bit_01 n :
  0 <= n < size g -> exists b, bitmap_bit data g n = Ok b /\ (b = 0 \/ b = 1) /\
    (b =? 0 = false <-> marked n).
Proof using Hwf.
  intros Hn. destruct (bitmap_bit_total g data Hwf n Hn) as [b Hb]. exists b. split; [done|].
  assert (b = 0 \/ b = 1) as Hb01.
  { unfold bitmap_bit in Hb. apply bind_ok in Hb as (x & _ & [= <-]).
    pose proof (Z.land_ones (Z.shiftr x (n mod BPB mod 8)) 1 ltac:(lia)) as Hl.
    change (Z.ones 1) with 1 in Hl. change (2 ^ 1) with 2 in Hl. rewrite Hl.
    pose proof (Z.mod_pos_bound (Z.shiftr x (n mod BPB mod 8)) 2). lia. }
  split; [done|]. unfold marked. rewrite Hb, Z.eqb_neq. split; [|intros [= ->]; lia].
  intros. f_equal. lia.
Qed.

Lemma check_metadata_spec d :
  exists d', foldM (check_metadata data g) d (range 0 (data_start g)) = Ok d' /\
    (d' = ∅ <-> d = ∅ /\ Forall marked (range 0 (data_start g))).
Proof using Hwf.
  pose proof (geometry_order _ _ Hwf). apply foldM_quiet. intros d1 n Hn%range_elem.
  unfold check_metadata. destruct (bitmap_bit_01 n) as (b & -> & _ & Hm); [lia|].
  eexists; split; [done|]. by rewrite quiet_if, Hm.
Qed.

Lemma check_leak_spec o d :
  exists d', foldM (check_leak data g o) d (range (data_start g) (size g)) = Ok d' /\
    (d' = ∅ <-> d = ∅ /\ Forall (fun n => marked n -> is_Some (o !! n))
                            (range (data_start g) (size g))).
Proof using Hwf.
  pose proof (geometry_order _ _ Hwf). apply foldM_quiet. intros d1 n Hn%range_elem.
  unfold check_leak. destruct (bitmap_bit_01 n) as (b & -> & _ & Hm); [lia|].
  eexists; split; [done|]. rewrite quiet_if, andb_false_iff, negb_false_iff, <-Hm.
  rewrite bool_decide_eq_false, <-not_eq_None_Some.
  destruct (b =? 0); naive_solver.
Qed.

Lemma check_owned_spec o l d :
  owners_count o (in_region l) ->
  exists d', foldM (check_owned data g) d (map_to_list o) = Ok d' /\
    (d' = ∅ <-> d = ∅ /\ NoDup (in_region l) /\ Forall marked (in_region l)).
Proof using Hwf.
  intros Ho. pose proof (geometry_order _ _ Hwf).
  assert (Hin : forall a es, (a, es) ∈ map_to_list o -> o !! a = Some es /\ a ∈ in_region l).
  { intros a es Hin%elem_of_map_to_list. split; [done|]. apply dec_stable. intros Hn.
    apply (Ho a) in Hn. congruence. }
  destruct (foldM_quiet (check_owned data g) (fun '(a, es) => len es <= 1 /\ marked a)
              d (map_to_list o)) as (d' & -> & Hd).
  { intros d1 [a es] [Ha Hr]%Hin. unfold in_region in Hr. apply list_elem_of_filter in Hr as [Hr _].
    unfold check_owned. destruct (bitmap_bit_01 a) as (b & -> & _ & Hm); [lia|].
    eexists; split; [done|]. rewrite quiet_if, quiet_if, Hm, Z.ltb_ge. tauto. }
  exists d'. split; [done|]. rewrite Hd, Forall_forall, NoDup_count, Forall_forall.
  split; intros [-> H1]; (split; [done|]).
  - split.
    + intros a. rewrite <-(proj1 (Ho a)). destruct (o !! a) as [es|] eqn:E; cbn; [|lia].
      destruct (H1 (a, es)) as [H2 _]; [by apply elem_of_map_to_list|].
      rewrite len_length in H2. lia.
    + intros a Ha. destruct (o !! a) as [es|] eqn:E; [|by apply (Ho a) in E].
      apply (H1 (a, es)). by apply elem_of_map_to_list.
  - intros [a es] [Ha Hr]%Hin. split; [|by apply H1].
    destruct H1 as [H1 _]. specialize (H1 a). rewrite <-(proj1 (Ho a)), Ha in H1. cbn in H1.
    rewrite len_length. lia.
Qed.

(** All the blocks owned by the inodes of the image. *)
Abbreviation all_owned := (concat (owned data g <$> inode_table data g)).

Lemma owned_in_region :
  Forall (pointers_ok data g) (inode_table data g) ->
  in_region (concat ((fun i => snd <$> block_list i) <$> inode_table data g)) ≡ₚ all_owned.
Proof using Hwf.
  intros Hp. unfold in_region. induction (inode_table data g) as [|i l IH]; [done|].
  apply Forall_cons in Hp as [Hi Hp]. cbn [fmap list_fmap concat].
  rewrite filter_app, IH by done. f_equiv.
  rewrite (block_list_owned i). rewrite filter_all; [done|].
  apply (po_region _ _ _ Hi).
Qed.

Definition bitmap_exact : Prop :=
  forall b, 0 <= b < size g ->
    marked b <-> b < data_start g \/ exists i, i ∈ inode_table data g /\ b ∈ owned data g i.

Lemma inspect_blocks_spec d :
  exists o d', inspect_blocks data g (inode_table data g) d = Ok (o, d') /\
    (d' = ∅ <-> d = ∅ /\ Forall (pointers_ok data g) (inode_table data g) /\
                NoDup all_owned /\ bitmap_exact).
Proof using Hwf.
  unfold inspect_blocks. pose proof (geometry_order _ _ Hwf).
  destruct (own_inodes_spec (inode_table data g) ∅ [] d) as (o & d1 & -> & Ho & H1).
  { intros a. rewrite lookup_empty. cbn. set_solver. }
  { apply Forall_forall, inode_table_wf. }
  cbn [mbind result_bind app] in *.
  destruct (check_owned_spec o _ d1 Ho) as (d2 & -> & H2). cbn [mbind result_bind].
  destruct (check_metadata_spec d2) as (d3 & -> & H3). cbn [mbind result_bind].
  destruct (check_leak_spec o d3) as (d4 & -> & H4). cbn [mbind result_bind].
  exists o, d4. split; [done|]. rewrite H4, H3, H2, H1.
  set (l := in_region _) in *. rewrite !Forall_forall. setoid_rewrite range_elem.
  assert (Hreg : forall b, b ∈ l -> data_start g <= b < size g).
  { intros b. unfold l, in_region. rewrite list_elem_of_filter. tauto. }
  assert (Hsome : forall b, is_Some (o !! b) <-> b ∈ l).
  { intros b. rewrite <-not_eq_None_Some, (proj2 (Ho b)).
    split; [apply dec_stable|auto]. }
  assert (Hl : Forall (pointers_ok data g) (inode_table data g) -> l ≡ₚ all_owned)
    by apply owned_in_region.
  rewrite Forall_forall in Hl.
  assert (Hex : (forall i, i ∈ inode_table data g -> pointers_ok data g i) ->
    forall b, b ∈ l <-> exists i, i ∈ inode_table data g /\ b ∈ owned data g i).
  { intros Hp b. by rewrite (Hl Hp), elem_of_concat_fmap. }
  split.
  - intros ((((-> & Hp) & Hnd & Hm) & Hmeta) & Hleak). rewrite <-(Hl Hp).
    do 3 (split; [done|]). intros b Hb. rewrite <-(Hex Hp b). split.
    + intros Hmb. destruct (decide (b < data_start g)); [auto|right]. apply Hsome, Hleak; [lia|done].
    + intros [Hb'|Hb']; [apply Hmeta; lia|by apply Hm].
  - intros (-> & Hp & Hnd & Hbm). rewrite <-(Hl Hp) in Hnd. unfold bitmap_exact in Hbm.
    setoid_rewrite <-(Hex Hp) in Hbm. split; [split; [split; [done|split; [done|]]|]|].
    + intros b Hb. apply Hbm; [specialize (Hreg b Hb); lia|auto].
    + intros b Hb. apply Hbm; [lia|]. left; lia.
    + intros b Hb Hmb. apply Hsome. apply Hbm in Hmb; [|lia]. destruct Hmb; [lia|done].
Qed.
End Blocks.
