(* ===== verification/FsckDirs.v ===== *)
(** The directory scan against the specification: the bytes read are the
    content of the file, the entries scanned are the entries of the directory,
    and the scan adds no diagnostic exactly when they are well formed. *)

From stdpp Require Import base tactics list gmap strings numbers list_numbers.
From S2P Require Import Prelude PyText PyBytes Fsck FsckLog FsckTotal FsckSpec FsckBlocks.
Open Scope Z_scope.

Lemma range_snoc a n : a <= n -> range a (n + 1) = range a n ++ [n].
Proof.
  intros H. unfold range. replace (n + 1 - a) with ((n - a) + 1) by lia.
  rewrite seqZ_app by lia. replace (a + (n - a)) with n by lia. done.
Qed.

(** * Reading a file *)

Lemma data_blocks_lookup g l k a :
  (forall b c, (KData, k, b) ∈ l -> (KData, k, c) ∈ l -> b = c) ->
  data_blocks_of g l !! k = Some a <-> (KData, k, a) ∈ l /\ in_data g a = true.
Proof.
  unfold data_blocks_of. induction l as [|[[kd j] b] l IH] using rev_ind; intros Hu.
  { cbn. rewrite lookup_empty. set_solver. }
  rewrite foldl_app. cbn [foldl]. setoid_rewrite elem_of_app in Hu.
  assert (IH' := IH ltac:(intros; eapply Hu; eauto)). clear IH.
  setoid_rewrite elem_of_app. setoid_rewrite list_elem_of_singleton.
  setoid_rewrite list_elem_of_singleton in Hu.
  destruct (bool_decide (kd = KData) && in_data g b) eqn:E; to_prop; subst.
  - destruct (decide (j = k)) as [->|].
    + rewrite lookup_insert_eq. split.
      * intros [= <-]. auto.
      * intros [[H|[= <-]] Ha]; [|done]. f_equal. apply Hu; auto.
    + rewrite lookup_insert_ne by done. rewrite IH'. naive_solver.
  - rewrite IH'. split; [naive_solver|]. intros [[H|[= <- <- <-]] Ha]; [done|].
    destruct E as [E|E]; to_prop; congruence.
Qed.

Section Read.
Context (g : Geometry) (data : pybytes) (Hwf : wf_geometry g data).

Lemma elem_of_block_list i k a :
  len (addrs i) = 13 ->
  (KData, k, a) ∈ block_list g data i <->
  exists j : nat, pointers data g i !! j = Some a /\ a <> 0 /\ k = Z.of_nat j.
Proof using Hwf.
  rewrite len_length. intros Hl. unfold block_list, pointers.
  assert (Ht : length (take 12 (addrs i)) = 12%nat) by (rewrite length_take; lia).
  rewrite elem_of_app, elem_of_data_entries.
  assert (Hind : (KData, k, a) ∈ (if indirect_ptr i =? 0 then []
      else (KIndirect, NDIRECT, indirect_ptr i) ::
           data_entries NDIRECT (indirect_entries data g i)) <->
    exists j : nat, indirect_entries data g i !! j = Some a /\ a <> 0 /\ k = 12 + Z.of_nat j).
  { destruct (indirect_ptr i =? 0) eqn:E0; to_prop.
    - split; [by intros ?%not_elem_of_nil|]. intros (j & Hj & Ha & _).
      unfold indirect_entries in Hj. rewrite E0, (in_data_0 g data Hwf) in Hj.
      apply list_elem_of_lookup_2, list_elem_of_In, repeat_spec in Hj. done.
    - rewrite elem_of_cons, elem_of_data_entries. naive_solver. }
  rewrite Hind. split.
  - intros [(_ & j & Hj & Ha & ->)|(j & Hj & Ha & ->)].
    + exists j. rewrite lookup_app_l by (apply lookup_lt_Some in Hj; done). auto.
    + exists (12 + j)%nat. rewrite lookup_app_r by lia. rewrite Ht.
      replace (12 + j - 12)%nat with j by lia. repeat split; [done|done|lia].
  - intros (j & Hj & Ha & ->). destruct (decide (j < 12)%nat).
    + left. split; [done|]. exists j. rewrite lookup_app_l in Hj by lia. auto.
    + right. exists (j - 12)%nat. rewrite lookup_app_r, Ht in Hj by lia.
      repeat split; [done|done|lia].
Qed.

Lemma data_block_pointer i k :
  len (addrs i) = 13 -> 0 <= k ->
  let a := nth (Z.to_nat k) (pointers data g i) 0 in
  data_blocks_of g (block_list g data i) !! k = if in_data g a then Some a else None.
Proof using Hwf.
  intros Hl Hk a.
  assert (Hiff : forall b, data_blocks_of g (block_list g data i) !! k = Some b <->
            pointers data g i !! (Z.to_nat k) = Some b /\ in_data g b = true).
  { intros b. rewrite data_blocks_lookup.
    - rewrite elem_of_block_list by done. split.
      + intros [(j & Hj & Hb & ->) Hd]. rewrite Nat2Z.id. auto.
      + intros [Hj Hd]. split; [|done]. exists (Z.to_nat k). repeat split; [done| |lia].
        intros ->. by rewrite (in_data_0 g data Hwf) in Hd.
    - intros b1 b2. rewrite !elem_of_block_list by done.
      intros (j1 & H1 & _ & ->) (j2 & H2 & _ & ?). replace j2 with j1 in H2 by lia. congruence. }
  destruct (pointers data g i !! Z.to_nat k) as [b|] eqn:E.
  - assert (a = b) as -> by (unfold a; rewrite nth_lookup, E; done).
    destruct (in_data g b) eqn:Ed; [by apply Hiff|].
    destruct (_ !! k) as [c|]; [|done]. destruct (proj1 (Hiff c) eq_refl) as [[= <-] ?]. congruence.
  - assert (a = 0) as -> by (unfold a; rewrite nth_lookup, E; done).
    rewrite (in_data_0 g data Hwf). destruct (_ !! k) as [c|]; [|done].
    by destruct (proj1 (Hiff c) eq_refl) as [? _].
Qed.

(** Every logical block of the file is present. *)
Definition mapped (i : Inode) (k : Z) : Prop :=
  in_data g (nth (Z.to_nat k) (pointers data g i) 0) = true.

Lemma read_chunks_spec i d (n : nat) :
  len (addrs i) = 13 -> Z.of_nat n <= required_blocks i ->
  exists rem d', foldl (read_chunk data i (data_blocks_of g (block_list g data i)))
      ([], isize i, d) (range 0 (Z.of_nat n)) =
      (chunk data g i <$> range 0 (Z.of_nat n), rem, d') /\
    (Z.of_nat n < required_blocks i -> rem = isize i - Z.of_nat n * BSIZE) /\
    (d' = ∅ <-> d = ∅ /\ Forall (mapped i) (range 0 (Z.of_nat n))).
Proof using Hwf.
  intros Hl. induction n as [|n IH]; intros Hn.
  - exists (isize i), d. cbn. rewrite Forall_nil. repeat split; try lia; naive_solver.
  - destruct IH as (rem & d1 & IH & Hrem & Hd); [lia|].
    replace (Z.of_nat (S n)) with (Z.of_nat n + 1) by lia.
    rewrite range_snoc, foldl_app, IH by lia. cbn [foldl read_chunk].
    rewrite fmap_app. setoid_rewrite Forall_app. setoid_rewrite Forall_singleton.
    rewrite (data_block_pointer i (Z.of_nat n)) by (done || lia).
    rewrite (Hrem ltac:(lia)).
    change (chunk data g i <$> [Z.of_nat n]) with [chunk data g i (Z.of_nat n)].
    unfold chunk at 2 4, mapped at 2.
    assert (Hnext : Z.of_nat n + 1 < required_blocks i ->
      isize i - Z.of_nat n * BSIZE - Z.min (isize i - Z.of_nat n * BSIZE) BSIZE =
      isize i - (Z.of_nat n + 1) * BSIZE).
    { unfold required_blocks, BSIZE. intros Hr.
      pose proof (Z.mul_div_le (isize i + 1024 - 1) 1024). lia. }
    destruct (in_data g _) eqn:Ein; eexists _, _; (split; [done|]); (split; [done|]).
    + rewrite Hd. tauto.
    + split; [intros Hx; by destruct (add_nonempty _ _ _ Hx)|]. intros (_ & _ & [=]).
Qed.

Lemma read_inode_bytes_spec i d :
  wf_inode g i ->
  exists d', read_inode_bytes data g i d = Ok (content data g i, d') /\
    (d' = ∅ <-> d = ∅ /\ pointers_ok data g i /\
                Forall (mapped i) (range 0 (required_blocks i))).
Proof using Hwf.
  intros Hi. unfold read_inode_bytes.
  destruct (inode_blocks_spec g data Hwf i d Hi) as (d1 & -> & H1). cbn [mbind result_bind].
  destruct (Z.le_ge_cases 0 (required_blocks i)) as [Hr|Hr].
  - destruct (read_chunks_spec i d1 (Z.to_nat (required_blocks i))) as (rem & d2 & E & _ & H2);
      [apply Hi|lia|]. rewrite Z2Nat.id in E, H2 by done. rewrite E.
    exists d2. split; [done|]. rewrite H2, H1. tauto.
  - unfold content, range. replace (required_blocks i - 0) with (required_blocks i) by lia.
    replace (seqZ 0 (required_blocks i)) with (@nil Z)
      by (symmetry; apply length_zero_iff_nil; rewrite length_seqZ; lia).
    cbn. exists d1. split; [done|]. rewrite H1, Forall_nil. tauto.
Qed.

(** A block list without holes, of a file of a legal size, is mapped. *)
Lemma pointers_mapped i :
  wf_inode g i -> pointers_ok data g i -> isize i <= MAXFILE * BSIZE ->
  Forall (mapped i) (range 0 (required_blocks i)).
Proof using Hwf.
  intros (_ & Hl & _) Hp Hs. apply Forall_forall. intros k Hk%range_elem.
  assert (Hr : required_blocks i <= 268).
  { unfold required_blocks. change (MAXFILE * BSIZE) with (268 * 1024) in Hs.
    enough ((isize i + BSIZE - 1) / BSIZE < 269) by lia.
    apply Z.div_lt_upper_bound; unfold BSIZE; lia. }
  destruct (pointers data g i !! Z.to_nat k) as [a|] eqn:E.
  2: { apply lookup_ge_None in E. unfold pointers in E.
       rewrite length_app, length_indirect, length_take in E. rewrite len_length in Hl. lia. }
  unfold mapped. rewrite nth_lookup, E. cbn. apply in_data_spec, (po_region _ _ _ Hp).
  assert (a <> 0) by (apply (po_prefix _ _ _ Hp _ _ E); lia).
  unfold owned. apply list_elem_of_filter. split; [done|]. right. by eapply list_elem_of_lookup_2.
Qed.
End Read.

(** * Scanning entries *)

(** What one entry does to the scan, diagnostics aside. *)
Definition scan_step (inodes : list Inode) (s : DirScan) (pe : Z * (pybytes * Z)) : DirScan :=
  let '(dir, (name, target)) := pe in
  if bool_decide (name = []) then s else
  match get_inode inodes target with
  | None => s
  | Some _ =>
      if bool_decide (name = dot) then
        Build_DirScan (edges s) ({[ dir ]} ∪ dots s) (dotdot s) (references s)
      else if bool_decide (name = dotdot_name) then
        Build_DirScan (edges s) (dots s) (<[dir := target]> (dotdot s)) (references s)
      else
        Build_DirScan
          (<[dir := default [] (edges s !! dir) ++ [(name, target)]]> (edges s))
          (dots s) (dotdot s)
          (<[target := default 0 (references s !! target) + 1]> (references s))
  end.

Definition entry_ok (inodes : list Inode) (dir : Z) (e : pybytes * Z) : Prop :=
  e.1 <> [] /\ e.2 ∈ inum <$> inodes /\ (e.1 = dot -> e.2 = dir).

Lemma get_inode_is_Some inodes n : is_Some (get_inode inodes n) <-> n ∈ inum <$> inodes.
Proof.
  rewrite <-not_eq_None_Some, get_inode_None. split; [apply dec_stable|auto].
Qed.

Lemma scan_entry_spec inodes payload dir names s d off :
  off + DIRENT_SIZE <= len payload ->
  exists names' d',
    scan_entry inodes payload dir (names, s, d) off =
      Ok (names', match dirent_at payload off with
                  | Some e => scan_step inodes s (dir, e) | None => s end, d') /\
    match dirent_at payload off with
    | None => names' = names /\ d' = d
    | Some e =>
        (d' = ∅ <-> d = ∅ /\ entry_ok inodes dir e /\ e.1 ∉ names) /\
        (e.1 <> [] -> names' = {[ e.1 ]} ∪ names)
    end.
Proof.
  intros H. unfold scan_entry, unpack_dirent, dirent_at. apply Z.leb_le in H as ->.
  cbn [mbind result_bind]. set (t := decode FH _). set (nm := decode_name _).
  destruct (t =? 0); [eauto|]. unfold entry_ok. cbn [scan_step fst snd].
  setoid_rewrite <-get_inode_is_Some.
  case_bool_decide as Hnil.
  { eexists _, _; split; [done|]. split; [|done].
    split; [intros Hx; by destruct (add_nonempty _ _ _ Hx)|tauto]. }
  destruct (get_inode inodes t) eqn:Eg.
  2: { eexists _, _; split; [done|]. split; [|done].
       split; [intros Hx; by destruct (add_nonempty _ _ _ Hx)|].
       intros (_ & (_ & [? [=]] & _) & _). }
  assert (is_Some (Some i)) by eauto.
  case_bool_decide as Hdot; [|case_bool_decide as Hdd];
    (eexists _, _; split; [done|]; split; [|done]);
    rewrite ?quiet_unless, quiet_if, bool_decide_eq_false, ?Z.eqb_eq; tauto.
Qed.

Lemma scan_entries_spec inodes payload dir names s d offs :
  Forall (fun off => off + DIRENT_SIZE <= len payload) offs ->
  let es := omap (dirent_at payload) offs in
  exists names' d',
    foldM (scan_entry inodes payload dir) (names, s, d) offs =
      Ok (names', foldl (scan_step inodes) s (pair dir <$> es), d') /\
    (d' = ∅ <-> d = ∅ /\ Forall (entry_ok inodes dir) es /\ NoDup es.*1 /\
                (forall e, e ∈ es -> e.1 ∉ names)).
Proof.
  revert names s d; induction offs as [|off offs IH]; intros names s d Hoffs es.
  - exists names, d. cbn. rewrite Forall_nil. split; [done|].
    split; [intros ->; repeat split; [constructor|set_solver]|tauto].
  - apply Forall_cons in Hoffs as [Hoff Hoffs]. cbn [foldM].
    destruct (scan_entry_spec inodes payload dir names s d off Hoff) as (n1 & d1 & -> & H1).
    cbn [mbind result_bind].
    destruct (IH n1 (match dirent_at payload off with
                     | Some e => scan_step inodes s (dir, e) | None => s end) d1 Hoffs)
      as (n2 & d2 & -> & H2). cbv zeta in H2. subst es. cbn [omap list_omap].
    change (list_omap _ _ (dirent_at payload) offs) with (omap (dirent_at payload) offs).
    destruct (dirent_at payload off) as [e|].
    + destruct H1 as [H1 Hn]. exists n2, d2. split; [done|]. rewrite H2, H1.
      rewrite Forall_cons. cbn [fmap list_fmap]. rewrite NoDup_cons.
      setoid_rewrite elem_of_cons. split.
      * intros ((-> & He & Hni) & Hf & Hnd & Hna). rewrite Hn in Hna by apply He.
        do 2 (split; [done|]). split; [split; [|done]|].
        -- intros (e' & Hee & He')%list_elem_of_fmap. specialize (Hna e' He'). set_solver.
        -- intros e' [->|He']; [done|]. specialize (Hna e' He'). set_solver.
      * intros (-> & (He & Hf) & (Hni & Hnd) & Hna). rewrite Hn by apply He.
        repeat split; auto; try apply He.
        intros e' He' [Hx%elem_of_singleton|Hx]%elem_of_union.
        -- apply Hni, list_elem_of_fmap. eauto.
        -- apply (Hna e'); auto.
    + destruct H1 as [-> ->]. eauto.
Qed.

Section Scan.
Context (g : Geometry) (data : pybytes) (Hwf : wf_geometry g data) (inodes : list Inode).

(** The entries of a list of inodes, each with its directory. *)
Definition dir_pairs (l : list Inode) : list (Z * (pybytes * Z)) :=
  concat ((fun i => pair (inum i) <$> entries data g i) <$> filter is_dir l).

Definition scan_ok (i : Inode) : Prop :=
  pointers_ok data g i /\ Forall (mapped g data i) (range 0 (required_blocks i)) /\
  len (content data g i) mod DIRENT_SIZE = 0 /\
  Forall (entry_ok inodes (inum i)) (entries data g i) /\ NoDup (entries data g i).*1.

Lemma scan_directory_spec i s d :
  wf_inode g i -> is_dir i ->
  exists d', scan_directory data g inodes (s, d) i =
      Ok (foldl (scan_step inodes) s (pair (inum i) <$> entries data g i), d') /\
    (d' = ∅ <-> d = ∅ /\ scan_ok i).
Proof using Hwf.
  intros Hi Hdir. unfold scan_directory. unfold is_dir in Hdir. rewrite Hdir.
  change (negb (T_DIR =? T_DIR)) with false. cbn iota beta.
  destruct (read_inode_bytes_spec g data Hwf i d Hi) as (d1 & -> & H1). cbn [mbind result_bind].
  edestruct (scan_entries_spec inodes (content data g i) (inum i)) as (n2 & d2 & E2 & H2);
    [|rewrite E2; clear E2; cbn [mbind result_bind]].
  { apply Forall_forall. intros off Hoff. by apply entry_offsets in Hoff as [_ Hoff]. }
  exists d2. split; [done|]. rewrite H2. unfold scan_ok.
  rewrite quiet_unless, H1, Z.eqb_eq.
  change (omap _ _) with (entries data g i).
  assert (forall e, e ∈ entries data g i -> e.1 ∉ (∅ : gset pybytes)) by (intros; apply not_elem_of_empty).
  tauto.
Qed.

Lemma scan_directories_spec l s d :
  Forall (wf_inode g) l ->
  exists d', foldM (scan_directory data g inodes) (s, d) l =
      Ok (foldl (scan_step inodes) s (dir_pairs l), d') /\
    (d' = ∅ <-> d = ∅ /\ (forall i, i ∈ l -> is_dir i -> scan_ok i)).
Proof using Hwf.
  revert s d; induction l as [|i l IH]; intros s d Hl.
  { exists d. split; [done|]. split; [|tauto]. intros ->. split; [done|].
    by intros ? ?%not_elem_of_nil. }
  apply Forall_cons in Hl as [Hi Hl]. cbn [foldM]. unfold dir_pairs. rewrite filter_cons.
  destruct (decide (is_dir i)) as [Hd|Hd].
  - destruct (scan_directory_spec i s d Hi Hd) as (d1 & -> & H1). cbn [mbind result_bind].
    destruct (IH (foldl (scan_step inodes) s (pair (inum i) <$> entries data g i)) d1 Hl)
      as (d2 & -> & H2).
    exists d2. rewrite fmap_cons. cbn [concat]. rewrite foldl_app. split; [done|].
    rewrite H2, H1. clear -Hd. split.
    + intros [[-> Hi] Hl]. split; [done|]. intros j [->|Hj]%elem_of_cons Hjd; auto.
    + intros [-> Hl]. split; [split; [done|apply Hl; [left|done]]|].
      intros j Hj. apply Hl. by right.
  - assert (scan_directory data g inodes (s, d) i = Ok (s, d)) as ->.
    { unfold scan_directory. apply Z.eqb_neq in Hd as ->. done. }
    cbn [mbind result_bind]. destruct (IH s d Hl) as (d2 & -> & H2).
    exists d2. split; [done|]. rewrite H2. clear -Hd. split; intros [-> Hl]; (split; [done|]).
    + intros j [->|Hj]%elem_of_cons Hjd; [done|auto].
    + intros j Hj. apply Hl. by right.
Qed.
End Scan.

(** * The result of the scan *)

Definition no_scan : DirScan := Build_DirScan ∅ ∅ ∅ ∅.

Section ScanResult.
Context (inodes : list Inode).

Definition good (e : pybytes * Z) : Prop := e.1 <> [] /\ e.2 ∈ inum <$> inodes.

(** What the scan has recorded about the pairs [l]. *)
Record scanned (s : DirScan) (l : list (Z * (pybytes * Z))) : Prop := {
  sc_edges n : default [] (edges s !! n) = snd <$> filter (fun pe => pe.1 = n /\ proper pe.2) l;
  sc_refs t : default 0 (references s !! t) =
    len (filter (fun pe => proper pe.2 /\ pe.2.2 = t) l);
  sc_dots n : n ∈ dots s <-> exists t, (n, (dot, t)) ∈ l;
  sc_dotdot_in n t : dotdot s !! n = Some t -> (n, (dotdot_name, t)) ∈ l;
  sc_dotdot n t : (n, (dotdot_name, t)) ∈ l -> is_Some (dotdot s !! n)
}.

Lemma scan_step_scanned s l p e :
  good e -> scanned s l -> scanned (scan_step inodes s (p, e)) (l ++ [(p, e)]).
Proof.
  intros [Hn Ht] Hs. destruct e as [nm t]. cbn [fst snd] in Hn, Ht.
  apply get_inode_is_Some in Ht as [j Hj].
  unfold scan_step. rewrite bool_decide_false by done. rewrite Hj.
  assert (Hdd : dot <> dotdot_name) by done.
  case_bool_decide as Hdot; [|case_bool_decide as Hdotdot]; subst;
    split; cbn [edges dots dotdot references]; intros n;
    try (rewrite filter_app, filter_cons, filter_nil);
    try setoid_rewrite elem_of_app; try setoid_rewrite list_elem_of_singleton;
    try (rewrite decide_False by (unfold proper; cbn; tauto); rewrite app_nil_r; apply Hs).
  - rewrite elem_of_union, elem_of_singleton, (sc_dots _ _ Hs). split.
    + intros [->|[t' Ht']]; eauto.
    + intros [t' [Ht'|[= -> ->]]]; eauto.
  - intros t' Ht'. left. by apply (sc_dotdot_in _ _ Hs).
  - intros t' [Ht'|[=]]; try done. by apply (sc_dotdot _ _ Hs) in Ht'.
  - rewrite (sc_dots _ _ Hs). split; [intros [t' Ht']; eauto|].
    intros [t' [Ht'|[=]]]; try done. eauto.
  - intros t' Ht'. destruct (decide (p = n)) as [->|].
    + rewrite lookup_insert_eq in Ht'. injection Ht' as ->. by right.
    + rewrite lookup_insert_ne in Ht' by done. left. by apply (sc_dotdot_in _ _ Hs).
  - intros t' [Ht'|[= -> ->]].
    + destruct (decide (p = n)) as [->|]; [rewrite lookup_insert_eq; eauto|].
      rewrite lookup_insert_ne by done. by eapply (sc_dotdot _ _ Hs).
    + rewrite lookup_insert_eq. eauto.
  - destruct (decide (p = n)) as [->|].
    + rewrite lookup_insert_eq, decide_True by done. cbn [default].
      rewrite fmap_app, <-(sc_edges _ _ Hs). done.
    + rewrite lookup_insert_ne, decide_False by (cbn; naive_solver).
      rewrite app_nil_r. apply Hs.
  - destruct (decide (t = n)) as [->|].
    + rewrite lookup_insert_eq, decide_True by done. cbn [default]. unfold id.
      rewrite (sc_refs _ _ Hs), len_app. done.
    + rewrite lookup_insert_ne, decide_False by (cbn; naive_solver).
      rewrite app_nil_r. apply Hs.
  - rewrite (sc_dots _ _ Hs). split; [intros [t' Ht']; eauto|].
    intros [t' [Ht'|[= -> <- ->]]]; try done. eauto.
  - intros t' Ht'. left. by apply (sc_dotdot_in _ _ Hs).
  - intros t' [Ht'|[= -> <- ->]]; try done. by apply (sc_dotdot _ _ Hs) in Ht'.
Qed.

Lemma scan_scanned l :
  Forall (fun pe => good pe.2) l -> scanned (foldl (scan_step inodes) no_scan l) l.
Proof.
  induction l as [|[p e] l IH] using rev_ind; intros Hg.
  - split; cbn; try done; intros n; try (intros t);
      rewrite ?lookup_empty; try set_solver.
  - apply Forall_app in Hg as [Hl He]. rewrite Forall_singleton in He.
    rewrite foldl_app. cbn [foldl]. apply scan_step_scanned; [exact He|by apply IH].
Qed.
End ScanResult.
