(* ===== verification/FsckWalk.v ===== *)
(** The breadth-first walk against the specification: it reaches exactly the
    inodes reachable from the root, it records the parent and the number of
    subdirectories of every directory reached, and it adds no diagnostic
    exactly when no directory has two links and the root has none. *)

From stdpp Require Import base tactics list gmap strings numbers list_numbers.
From S2P Require Import Prelude PyText PyBytes Fsck FsckLog FsckTotal FsckSpec FsckBlocks.
From S2P Require Import FsckDirs.
Open Scope Z_scope.

Section Walk.
Context (inodes : list Inode) (edges : gmap Z (list (pybytes * Z))).

Definition targets (n : Z) : list Z := (default [] (edges !! n)).*2.
Definition step (a b : Z) : Prop := b ∈ targets a.
Abbreviation isdir := (is_dir_at inodes).

Context (Hgood : forall a b, step a b -> b ∈ inum <$> inodes).
Context (Hdirs : forall a b, step a b -> isdir a).
Context (Hroot : isdir ROOTINO).

(** The edges that lead to directories. *)
Definition dir_edges (P : list (Z * Z)) : list (Z * Z) := filter (fun pt => isdir pt.2) P.

(** [P] is the list of the edges followed so far, [V] the directories
    visited, [d0] the diagnostics before the walk. *)
Record winv (d0 : Diagnostics) (w : Walk) (V : list Z) (P : list (Z * Z)) : Prop := {
  wi_incoming t : default 0 (directory_incoming w !! t) =
    len (filter (fun x => x = t) (dir_edges P).*2);
  wi_children n : default 0 (directory_children w !! n) =
    len (filter (fun x => x = n) (dir_edges P).*1);
  wi_parents_in t p : parents w !! t = Some p ->
    (t = ROOTINO /\ p = ROOTINO) \/ (p, t) ∈ dir_edges P;
  wi_parents t : t = ROOTINO \/ t ∈ (dir_edges P).*2 -> is_Some (parents w !! t);
  wi_queue t : t ∈ queue w -> isdir t /\ (t = ROOTINO \/ t ∈ (dir_edges P).*2);
  wi_dirs t : t ∈ reachable w -> isdir t -> t ∈ V;
  wi_visited t : t ∈ V ->
    t ∈ reachable w /\ isdir t /\ (t = ROOTINO \/ t ∈ (dir_edges P).*2);
  wi_nodup : NoDup V;
  wi_closed t : t ∈ P.*2 -> t ∈ reachable w \/ t ∈ queue w;
  wi_root : ROOTINO ∈ reachable w \/ (V = [] /\ queue w = [ROOTINO]);
  wi_sound t : t ∈ reachable w \/ t ∈ queue w -> rtc step ROOTINO t;
  wi_quiet : wdiag w = ∅ <->
    d0 = ∅ /\ NoDup (dir_edges P).*2 /\ ROOTINO ∉ (dir_edges P).*2
}.

Lemma dir_edges_snoc P p t :
  dir_edges (P ++ [(p, t)]) = dir_edges P ++ (if decide (isdir t) then [(p, t)] else []).
Proof. unfold dir_edges. by rewrite filter_app, filter_cons. Qed.

Lemma get_inode_dir t i : get_inode inodes t = Some i -> (type i =? T_DIR) = bool_decide (isdir t).
Proof.
  intros H. assert (isdir t <-> type i = T_DIR) as Hi by (unfold is_dir_at; by rewrite H).
  destruct (Z.eqb_spec (type i) T_DIR); symmetry;
    [apply bool_decide_eq_true|apply bool_decide_eq_false]; tauto.
Qed.

Lemma count_snoc (l : list Z) x y :
  len (filter (fun z => z = y) (l ++ [x])) =
  len (filter (fun z => z = y) l) + (if decide (x = y) then 1 else 0).
Proof.
  rewrite filter_app, len_app, filter_cons, filter_nil. by destruct (decide (x = y)).
Qed.

Lemma count_pos (l : list Z) x : x ∈ l <-> 0 < len (filter (fun z => z = x) l).
Proof.
  rewrite len_length. split.
  - intros Hx. destruct (filter _ l) eqn:E; [|cbn; lia].
    by apply (filter_nil_not_elem_of (fun z => z = x) l x) in E.
  - intros Hl. destruct (filter (fun z => z = x) l) as [|y r] eqn:E; [cbn in Hl; lia|].
    assert (y ∈ filter (fun z => z = x) l) as Hy by (rewrite E; left).
    by apply list_elem_of_filter in Hy as [<- ?].
Qed.

(** Following an edge to a file. *)
Lemma walk_edge_file d0 w V P cur t :
  winv d0 w V P -> cur ∈ V -> t ∈ targets cur -> ~ isdir t ->
  winv d0 (mark_reachable t w) V (P ++ [(cur, t)]).
Proof.
  intros Hw Hcur Ht Hd.
  assert (Hde : dir_edges (P ++ [(cur, t)]) = dir_edges P).
  { by rewrite dir_edges_snoc, decide_False, app_nil_r. }
  split; rewrite ?Hde; cbn [mark_reachable reachable parents directory_incoming
    directory_children queue wdiag]; try apply Hw.
  - intros x [->%elem_of_singleton|Hx]%elem_of_union; [done|]. by apply Hw.
  - intros x Hx. destruct (wi_visited _ _ _ _ Hw x Hx) as (? & ? & ?). set_solver.
  - intros x. rewrite fmap_app, elem_of_app. cbn. rewrite list_elem_of_singleton.
    intros [Hx| ->]; [|set_solver]. destruct (wi_closed _ _ _ _ Hw x Hx); set_solver.
  - destruct (wi_root _ _ _ _ Hw) as [?|[-> _]]; [left; set_solver|].
    by apply not_elem_of_nil in Hcur.
  - intros x [[->%elem_of_singleton|Hx]%elem_of_union|Hx]; [|apply Hw; auto..].
    apply rtc_r with cur; [|done]. apply Hw. left. by apply Hw.
Qed.

Definition clash (w : Walk) (cur t : Z) : bool :=
  match parents w !! t with Some p => negb (p =? cur) | None => false end.

(** Following an edge to a directory is quiet exactly when this directory was
    not known before. *)
Lemma walk_edge_quiet d0 w V P cur t :
  winv d0 w V P -> ROOTINO ∈ reachable w -> isdir t ->
  ((1 <? default 0 (directory_incoming w !! t) + 1) || clash w cur t ||
    bool_decide (t ∈ reachable w)) = false <->
  t <> ROOTINO /\ t ∉ (dir_edges P).*2.
Proof.
  intros Hw Hr Hd. rewrite (wi_incoming _ _ _ _ Hw).
  pose proof (count_pos (dir_edges P).*2 t) as Hc.
  rewrite !orb_false_iff, Z.ltb_ge, bool_decide_eq_false. split.
  - intros [[Hi _] Hn]. split; [intros ->; done|]. intros Hin. apply Hc in Hin. lia.
  - intros [Ht Hn]. split; [split|].
    + rewrite Hc in Hn. lia.
    + unfold clash. destruct (parents w !! t) as [p|] eqn:E; [|done].
      destruct (wi_parents_in _ _ _ _ Hw _ _ E) as [[? _]|Hin]; [done|].
      destruct Hn. apply list_elem_of_fmap. by exists (p, t).
    + intros Hin. apply (wi_dirs _ _ _ _ Hw) in Hin; [|done].
      destruct (wi_visited _ _ _ _ Hw _ Hin) as (_ & _ & [?|?]); done.
Qed.

Lemma walk_edge_dir d0 w V P cur nm t :
  winv d0 w V P -> ROOTINO ∈ reachable w -> cur ∈ V -> t ∈ targets cur -> isdir t ->
  winv d0 (walk_edge inodes cur w (nm, t)) V (P ++ [(cur, t)]).
Proof.
  intros Hw Hr Hcur Ht Hd. pose proof (walk_edge_quiet d0 w V P cur t Hw Hr Hd) as Hq.
  assert (Hde : dir_edges (P ++ [(cur, t)]) = dir_edges P ++ [(cur, t)]).
  { by rewrite dir_edges_snoc, decide_True. }
  unfold walk_edge. destruct (get_inode inodes t) as [i|] eqn:Eg.
  2: { apply get_inode_None in Eg. by apply Hgood in Ht. }
  rewrite (get_inode_dir t i Eg), bool_decide_true by done. fold (clash w cur t).
  set (inc := default 0 (directory_incoming w !! t) + 1) in *.
  split; rewrite ?Hde, ?fmap_app; cbn [fmap list_fmap fst snd reachable parents
    directory_incoming directory_children queue wdiag].
  - intros x. rewrite count_snoc. destruct (decide (t = x)) as [->|].
    + rewrite lookup_insert_eq. cbn. unfold inc. by rewrite (wi_incoming _ _ _ _ Hw).
    + rewrite lookup_insert_ne by done. rewrite (wi_incoming _ _ _ _ Hw). lia.
  - intros x. rewrite count_snoc. destruct (decide (cur = x)) as [->|].
    + rewrite lookup_insert_eq. cbn. unfold id. by rewrite (wi_children _ _ _ _ Hw).
    + rewrite lookup_insert_ne by done. rewrite (wi_children _ _ _ _ Hw). lia.
  - intros x p Hp. rewrite elem_of_app, list_elem_of_singleton.
    destruct (clash w cur t); [destruct (wi_parents_in _ _ _ _ Hw _ _ Hp); auto|].
    destruct (decide (t = x)) as [->|].
    + rewrite lookup_insert_eq in Hp. injection Hp as <-. auto.
    + rewrite lookup_insert_ne in Hp by done. destruct (wi_parents_in _ _ _ _ Hw _ _ Hp); auto.
  - intros x. rewrite elem_of_app, list_elem_of_singleton. intros Hx.
    destruct (clash w cur t) eqn:Ecl.
    + destruct (decide (x = t)) as [->|]; [|apply Hw; naive_solver].
      unfold clash in Ecl. by destruct (parents w !! t).
    + destruct (decide (t = x)) as [->|]; [rewrite lookup_insert_eq; eauto|].
      rewrite lookup_insert_ne by done. apply Hw. naive_solver.
  - intros x. rewrite elem_of_app, list_elem_of_singleton.
    assert (Hold : x ∈ queue w -> isdir x /\ (x = ROOTINO \/ x ∈ (dir_edges P).*2 \/ x = t)).
    { intros Hx. destruct (wi_queue _ _ _ _ Hw x Hx) as [? [?|?]]; auto. }
    case_bool_decide; [done|]. rewrite elem_of_app, list_elem_of_singleton.
    intros [Hx| ->]; [auto|]. auto.
  - apply Hw.
  - intros x Hx. destruct (wi_visited _ _ _ _ Hw x Hx) as (? & ? & ?).
    rewrite elem_of_app. naive_solver.
  - apply Hw.
  - intros x. rewrite elem_of_app, list_elem_of_singleton. case_bool_decide.
    + intros [Hx| ->]; [by apply Hw|auto].
    + rewrite elem_of_app, list_elem_of_singleton.
      intros [Hx| ->]; [|auto]. destruct (wi_closed _ _ _ _ Hw x Hx); auto.
  - auto.
  - intros x. case_bool_decide; [apply Hw|]. rewrite elem_of_app, list_elem_of_singleton.
    intros [Hx|[Hx| ->]]; [apply Hw; auto..|].
    apply rtc_r with cur; [|done]. apply Hw. left. by apply Hw.
  - transitivity (wdiag w = ∅ /\ ((1 <? inc) || clash w cur t || bool_decide (t ∈ reachable w)) = false).
    { rewrite !orb_false_iff. case_bool_decide; rewrite ?quiet_if; [|tauto].
      split; [intros Hx; by destruct (add_nonempty _ _ _ Hx)|]. intros (_ & _ & [=]). }
    rewrite Hq, (wi_quiet _ _ _ _ Hw), NoDup_app, elem_of_app, list_elem_of_singleton.
    assert (NoDup [t]) by (apply NoDup_singleton). setoid_rewrite list_elem_of_singleton.
    clear -H. naive_solver.
Qed.

Lemma walk_edge_inv d0 w V P cur e :
  winv d0 w V P -> ROOTINO ∈ reachable w -> cur ∈ V -> e.2 ∈ targets cur ->
  winv d0 (walk_edge inodes cur w e) V (P ++ [(cur, e.2)]).
Proof.
  destruct e as [nm t]. cbn [snd]. intros Hw Hr Hcur Ht.
  destruct (decide (isdir t)) as [Hd|Hd]; [by apply walk_edge_dir|].
  unfold walk_edge. destruct (get_inode inodes t) as [i|] eqn:Eg.
  2: { apply get_inode_None in Eg. by apply Hgood in Ht. }
  rewrite (get_inode_dir t i Eg), bool_decide_false by done. by apply walk_edge_file.
Qed.

Lemma walk_edges_inv d0 w V P cur es :
  winv d0 w V P -> ROOTINO ∈ reachable w -> cur ∈ V -> es.*2 ⊆ targets cur ->
  winv d0 (foldl (walk_edge inodes cur) w es) V (P ++ (pair cur <$> es.*2)).
Proof.
  revert w P; induction es as [|e es IH]; intros w P Hw Hr Hcur Hes; cbn.
  - by rewrite app_nil_r.
  - cbn in Hes. change (list_fmap _ _ (pair cur) _) with (pair cur <$> es.*2).
    replace (P ++ (cur, e.2) :: (pair cur <$> es.*2))
      with ((P ++ [(cur, e.2)]) ++ (pair cur <$> es.*2)) by (by rewrite <-app_assoc).
    apply IH; [|by apply walk_edge_grows|done|set_solver].
    apply walk_edge_inv; auto. set_solver.
Qed.

(** The edges out of the visited directories, in the order of the visits. *)
Definition followed (V : list Z) : list (Z * Z) := concat ((fun v => pair v <$> targets v) <$> V).

Lemma visit_inv d0 w V cur rest :
  winv d0 w V (followed V) -> queue w = cur :: rest ->
  exists V', winv d0 (visit inodes edges cur rest w) V' (followed V').
Proof.
  intros Hw Hq. unfold visit. cbn [with_queue reachable].
  assert (Hqueue : forall t, t ∈ rest -> t ∈ queue w) by (intros; rewrite Hq; by right).
  assert (Hcur : cur ∈ queue w) by (rewrite Hq; left).
  case_bool_decide as Hin.
  - exists V. split; cbn [with_queue reachable parents directory_incoming directory_children
      queue wdiag]; try apply Hw; auto.
    + intros t Ht. apply Hw; auto.
    + intros t Ht. destruct (wi_closed _ _ _ _ Hw t Ht) as [?|Ht']; [auto|].
      rewrite Hq in Ht'. apply elem_of_cons in Ht' as [->|?]; auto.
    + left. destruct (wi_root _ _ _ _ Hw) as [?|[_ Hx]]; [done|]. rewrite Hq in Hx.
      by injection Hx as -> ->.
    + intros t [Ht|Ht]; apply Hw; auto.
  - exists (V ++ [cur]). unfold followed. rewrite fmap_app, concat_app. cbn [fmap list_fmap concat].
    rewrite app_nil_r. fold (followed V).
    destruct (wi_queue _ _ _ _ Hw cur Hcur) as [Hcd Hcr].
    assert (HcV : cur ∉ V) by (intros Hx; by apply (wi_visited _ _ _ _ Hw) in Hx as [? _]).
    apply walk_edges_inv; [|cbn|set_solver|done].
    + split; cbn [mark_reachable with_queue reachable parents directory_incoming
        directory_children queue wdiag]; try apply Hw.
      * intros t Ht. apply Hw; auto.
      * intros t [->%elem_of_singleton|Ht]%elem_of_union Hd; [set_solver|].
        apply elem_of_app. left. by apply Hw.
      * intros t [Ht| ->%list_elem_of_singleton]%elem_of_app; [|set_solver].
        destruct (wi_visited _ _ _ _ Hw t Ht) as (? & ? & ?). set_solver.
      * apply NoDup_app. repeat split; [apply Hw| |apply NoDup_singleton]. set_solver.
      * intros t Ht. destruct (wi_closed _ _ _ _ Hw t Ht) as [?|Ht']; [set_solver|].
        rewrite Hq in Ht'. set_solver.
      * destruct (wi_root _ _ _ _ Hw) as [?|[_ Hx]]; [set_solver|]. rewrite Hq in Hx.
        injection Hx as -> ->. set_solver.
      * intros t [[->%elem_of_singleton|Ht]%elem_of_union|Ht]; apply Hw; auto.
    + destruct (wi_root _ _ _ _ Hw) as [?|[_ Hx]]; [set_solver|]. rewrite Hq in Hx.
      injection Hx as -> ->. set_solver.
Qed.

Lemma walk_inv d0 fuel w V w' :
  winv d0 w V (followed V) -> walk fuel inodes edges w = Some w' ->
  exists V', winv d0 w' V' (followed V') /\ queue w' = [].
Proof.
  revert w V; induction fuel as [|fuel IH]; intros w V Hw; unfold walk; fold walk;
    destruct (queue w) as [|cur rest] eqn:Eq; try done.
  - intros [= <-]. eauto.
  - intros [= <-]. eauto.
  - intros Hx. destruct (visit_inv _ _ _ _ _ Hw Eq) as [V' Hw']. eauto.
Qed.

(** What the walk returns. *)
Record walked (d0 : Diagnostics) (w : Walk) (V : list Z) : Prop := {
  wk_reachable t : t ∈ reachable w <-> rtc step ROOTINO t;
  wk_visited t : t ∈ V <-> t ∈ reachable w /\ isdir t;
  wk_nodup : NoDup V;
  wk_children n : n ∈ V ->
    default 0 (directory_children w !! n) = len (filter isdir (targets n));
  wk_parents t p : t <> ROOTINO -> parents w !! t = Some p -> isdir t /\ step p t;
  wk_parent p t : p ∈ V -> step p t -> isdir t -> is_Some (parents w !! t);
  wk_quiet : wdiag w = ∅ <->
    d0 = ∅ /\ NoDup (filter isdir (concat (targets <$> V))) /\
    ROOTINO ∉ concat (targets <$> V)
}.

Lemma followed_targets V : (followed V).*2 = concat (targets <$> V).
Proof.
  unfold followed. induction V as [|v V IH]; [done|]. rewrite !fmap_cons. cbn [concat].
  rewrite fmap_app. f_equal; [|apply IH]. rewrite <-list_fmap_compose. apply list_fmap_id.
Qed.

Lemma dir_edges_targets P : (dir_edges P).*2 = filter isdir P.*2.
Proof.
  unfold dir_edges. induction P as [|[p t] P IH]; [done|].
  rewrite filter_cons, fmap_cons, filter_cons. cbn [snd]. destruct (decide (isdir t)); [|done].
  rewrite fmap_cons. by f_equal.
Qed.

Lemma elem_of_followed V p t : (p, t) ∈ followed V <-> p ∈ V /\ step p t.
Proof.
  unfold followed, step. rewrite elem_of_concat_fmap. split.
  - intros (v & Hv & Hx). apply list_elem_of_fmap in Hx as (x & [= -> ->] & Hx). auto.
  - intros [Hp Ht]. exists p. split; [done|]. apply list_elem_of_fmap. eauto.
Qed.

Lemma dir_edges_from (m : Z) (l : list Z) :
  (filter (fun pt : Z * Z => isdir pt.2) (pair m <$> l)).*1 = repeat m (length (filter isdir l)).
Proof.
  induction l as [|t l IH]; [done|]. rewrite fmap_cons, !filter_cons. cbn [snd].
  destruct (decide (isdir t)); [|done]. rewrite fmap_cons. cbn. by f_equal.
Qed.

Lemma filter_repeat (n m : Z) k :
  filter (fun x => x = n) (repeat m k) = if decide (m = n) then repeat m k else [].
Proof.
  induction k as [|k IH]; cbn [repeat]; [by destruct (decide _)|].
  rewrite filter_cons, IH. by destruct (decide (m = n)).
Qed.

Lemma count_followed V n :
  NoDup V -> n ∈ V ->
  len (filter (fun x => x = n) (dir_edges (followed V)).*1) = len (filter isdir (targets n)).
Proof.
  unfold followed, dir_edges. intros Hnd Hn. induction V as [|v V IH]; [by apply not_elem_of_nil in Hn|].
  apply NoDup_cons in Hnd as [Hni Hnd]. rewrite fmap_cons. cbn [concat].
  rewrite filter_app, fmap_app, filter_app, len_app.
  rewrite dir_edges_from, filter_repeat. apply elem_of_cons in Hn as [->|Hn].
  - rewrite decide_True by done. rewrite !len_length, repeat_length, <-len_length.
    enough (~ 0 < len (filter (fun x => x = v)
              (filter (fun pt : Z * Z => isdir pt.2) (concat ((fun v => pair v <$> targets v) <$> V))).*1))
      by (rewrite len_length in *; lia).
    rewrite <-count_pos. intros ([p t] & Hpt & Hin)%list_elem_of_fmap. cbn in Hpt. subst p.
    apply list_elem_of_filter in Hin as [_ Hin]. by apply (elem_of_followed V v t) in Hin as [? _].
  - rewrite decide_False by (intros ->; done). cbn. by apply IH.
Qed.

Lemma winv_walked d0 w V :
  winv d0 w V (followed V) -> queue w = [] -> walked d0 w V.
Proof.
  intros Hw Hq.
  assert (Hvis : forall t, t ∈ V <-> t ∈ reachable w /\ isdir t).
  { intros t. split; [|intros [? ?]; by apply Hw]. intros Ht.
    by destruct (wi_visited _ _ _ _ Hw t Ht) as (? & ? & _). }
  assert (Hroot_in : ROOTINO ∈ reachable w).
  { destruct (wi_root _ _ _ _ Hw) as [?|[_ Hx]]; [done|]. by rewrite Hq in Hx. }
  assert (Hdir : forall t, t ∈ (dir_edges (followed V)).*2 <-> isdir t /\ t ∈ concat (targets <$> V)).
  { intros t. by rewrite dir_edges_targets, list_elem_of_filter, followed_targets. }
  split.
  - intros t. split; [intros Ht; apply Hw; auto|]. revert t.
    apply (rtc_ind_r (fun t => t ∈ reachable w)); [done|]. intros x y _ Hxy IH.
    destruct (wi_closed _ _ _ _ Hw y) as [?|Hy]; [|done|by rewrite Hq in Hy; apply not_elem_of_nil in Hy].
    apply list_elem_of_fmap. exists (x, y). split; [done|]. apply elem_of_followed.
    split; [|done]. apply Hvis. split; [done|]. by apply (Hdirs x y).
  - done.
  - apply Hw.
  - intros n Hn. rewrite (wi_children _ _ _ _ Hw). apply count_followed; [apply Hw|done].
  - intros t p Ht Hp. destruct (wi_parents_in _ _ _ _ Hw _ _ Hp) as [[? _]|Hin]; [done|].
    unfold dir_edges in Hin. apply list_elem_of_filter in Hin as [Hd Hin].
    by apply elem_of_followed in Hin as [_ ?].
  - intros p t Hp Ht Hd. apply Hw. right. apply Hdir. split; [done|].
    apply elem_of_concat_fmap. eauto.
  - rewrite (wi_quiet _ _ _ _ Hw), Hdir, dir_edges_targets, followed_targets. tauto.
Qed.

Lemma walk_correct d :
  exists w V, walk (walk_fuel edges) inodes edges (start_walk inodes d) = Some w /\
    walked d w V.
Proof.
  destruct (walk_total inodes edges d) as (w & Hw & _).
  destruct (walk_inv d (walk_fuel edges) (start_walk inodes d) [] w) as (V & Hinv & Hq); [|done|].
  - unfold start_walk. assert (is_Some (get_inode inodes ROOTINO)) as [i ->].
    { unfold is_dir_at in Hroot. destruct (get_inode inodes ROOTINO); [eauto|done]. }
    split; cbn [reachable parents directory_incoming directory_children queue wdiag]; intros *;
      rewrite ?lookup_empty; try done; try set_solver.
    + intros [<- <-]%lookup_singleton_Some. auto.
    + constructor.
    + cbn. assert (NoDup (@nil Z)) by constructor. set_solver.
  - exists w, V. split; [done|]. by apply winv_walked.
Qed.
End Walk.
