(* ===== verification/FsckClean.v ===== *)
(** The verdict of the checker: [inspect_view] reports no diagnostic exactly
    when the image is consistent, and [check_bytes] calls an image clean
    exactly when the log can be replayed and the replayed image is
    consistent. *)

From stdpp Require Import base tactics list gmap strings numbers list_numbers.
From S2P Require Import Prelude PyText PyBytes Sha256 Fsck FsckLog FsckTotal FsckSpec FsckBlocks.
From S2P Require Import FsckDirs FsckWalk.
Open Scope Z_scope.

(** * The walk only adds diagnostics *)

Lemma walk_edge_mono inodes cur w e : wdiag w ⊆ wdiag (walk_edge inodes cur w e).
Proof.
  destruct e as [nm t]. unfold walk_edge, add. destruct (get_inode inodes t); [|done].
  destruct (_ =? _); [|done]. cbn [wdiag].
  repeat match goal with |- context [if ?b then _ else _] => destruct b end; set_solver.
Qed.

Lemma visit_mono inodes edges cur rest w : wdiag w ⊆ wdiag (visit inodes edges cur rest w).
Proof.
  unfold visit. case_bool_decide; [done|].
  change (wdiag w) with (wdiag (mark_reachable cur (with_queue rest w))).
  generalize (mark_reachable cur (with_queue rest w)). induction (default [] (edges !! cur)) as [|e l IH];
    intros w'; [done|]. cbn [foldl]. etrans; [apply (walk_edge_mono inodes cur w' e)|apply IH].
Qed.

Lemma walk_mono fuel inodes edges w w' :
  walk fuel inodes edges w = Some w' -> wdiag w ⊆ wdiag w'.
Proof.
  revert w; induction fuel as [|fuel IH]; intros w; unfold walk; fold walk;
    destruct (queue w) as [|cur rest]; try (by intros [= <-]).
  intros Hx. etrans; [apply visit_mono|by apply IH].
Qed.

(** * The closing audit of an inode *)

Record final_ok (s : DirScan) (w : Walk) (i : Inode) : Prop := {
  fo_reached : inum i ∈ reachable w;
  fo_dot : is_dir i -> inum i ∈ dots s;
  fo_dotdot : is_dir i ->
    dotdot s !! inum i = if decide (inum i = ROOTINO) then Some ROOTINO else parents w !! inum i;
  fo_nlink_dir : is_dir i -> nlink i = 1 + default 0 (directory_children w !! inum i);
  fo_nlink_file : ~ is_dir i -> nlink i = default 0 (references s !! inum i)
}.

Lemma check_inode_quiet s w d i : check_inode s w d i = ∅ <-> d = ∅ /\ final_ok s w i.
Proof.
  unfold check_inode, opt_or. destruct (bool_decide (inum i ∈ reachable w)) eqn:Er; to_prop.
  2: { split; [|intros [_ []]; done].
       intros Hx. exfalso. revert Hx.
       repeat match goal with
         |- context [if ?b then _ else _] => destruct b; rewrite ?andb_false_r, ?andb_true_r
         end; cbn; try apply add_nonempty. }
  rewrite !andb_true_r. cbn [andb].
  assert (Hdir : (type i =? T_DIR) = true <-> is_dir i) by apply Z.eqb_eq.
  replace (if inum i =? ROOTINO then Some ROOTINO else parents w !! inum i)
    with (if decide (inum i = ROOTINO) then Some ROOTINO else parents w !! inum i)
    by (by destruct (decide _), (Z.eqb_spec (inum i) ROOTINO)).
  destruct (type i =? T_DIR).
  - rewrite quiet_if, quiet_unless, quiet_if, andb_true_l.
    rewrite !negb_false_iff, !bool_decide_eq_true, Z.eqb_eq.
    assert (is_dir i) by tauto. split; [intros (((-> & ?) & ?) & ?)|intros (-> & [])].
    + split; [done|]. by split.
    + tauto.
  - rewrite andb_false_l, quiet_unless, Z.eqb_eq. assert (~ is_dir i) by (rewrite <-Hdir; done).
    split; [intros (-> & ?)|intros (-> & [])].
    + split; [done|]. by split.
    + tauto.
Qed.

(** * The links of the image, as the scan records them *)

Lemma NoDup_fst_inj {A B} (l : list (A * B)) x a b :
  NoDup l.*1 -> (x, a) ∈ l -> (x, b) ∈ l -> a = b.
Proof.
  induction l as [|[y c] l IH]; intros Hnd Ha Hb; [by apply not_elem_of_nil in Ha|].
  rewrite fmap_cons in Hnd. apply NoDup_cons in Hnd as [Hni Hnd]. cbn [fst] in Hni.
  assert (Hno : forall d, (y, d) ∈ l -> False).
  { intros d Hd. apply Hni, list_elem_of_fmap. by exists (y, d). }
  apply elem_of_cons in Ha as [Ha|Ha], Hb as [Hb|Hb]; simplify_eq; auto; exfalso; eauto.
Qed.

(** In a concatenation without repetitions an element has one origin. *)
Lemma NoDup_concat_origin {A B} (P : B -> Prop) `{!forall x, Decision (P x)}
    (f : A -> list B) (l : list A) a b x :
  NoDup (filter P (concat (f <$> l))) -> a ∈ l -> b ∈ l -> x ∈ f a -> x ∈ f b -> P x -> a = b.
Proof.
  induction l as [|c l IH]; intros Hnd Ha Hb Hxa Hxb HP; [by apply not_elem_of_nil in Ha|].
  rewrite fmap_cons in Hnd. cbn [concat] in Hnd. rewrite filter_app in Hnd.
  apply NoDup_app in Hnd as (_ & Hdisj & Hnd).
  assert (Hno : forall d, d ∈ l -> x ∈ f d -> x ∈ f c -> False).
  { intros d Hd Hxd Hxc. apply (Hdisj x); [by apply list_elem_of_filter|].
    apply list_elem_of_filter. split; [done|]. apply elem_of_concat_fmap. eauto. }
  apply elem_of_cons in Ha as [->|Ha], Hb as [->|Hb]; auto; exfalso; eauto.
Qed.

Section Clean.
Context (g : Geometry) (data : pybytes) (Hwf : wf_geometry g data).
Abbreviation T := (inode_table data g).
Abbreviation dirs := (filter is_dir T).

Lemma dir_at_table n : is_dir_at T n <-> n ∈ inum <$> dirs.
Proof using Hwf.
  unfold is_dir_at. destruct (get_inode T n) as [i|] eqn:E.
  - apply (get_inode_table g data Hwf) in E as [Hi Hn].
    split; intros Hd.
    + apply list_elem_of_fmap. exists i. split; [done|]. by apply list_elem_of_filter.
    + apply list_elem_of_fmap in Hd as (j & Hj & Hjd). apply list_elem_of_filter in Hjd as [Hjd Hjt].
      assert (get_inode T n = Some i) as E1 by (by apply get_inode_table).
      assert (get_inode T n = Some j) as E2 by (by apply get_inode_table). congruence.
  - apply get_inode_None in E. split; [done|]. intros Hd. apply E.
    apply list_elem_of_fmap in Hd as (j & -> & Hjd). apply list_elem_of_filter in Hjd as [_ Hjd].
    apply list_elem_of_fmap. eauto.
Qed.

Lemma NoDup_dirs : NoDup (inum <$> dirs).
Proof using Hwf.
  eapply sublist_NoDup; [apply (NoDup_inode_table g data Hwf)|].
  apply fmap_sublist, sublist_filter.
Qed.

(** The pairs of one directory among those of distinct directories. *)
Lemma pairs_of l i (Q : pybytes * Z -> Prop) `{!forall e, Decision (Q e)} :
  NoDup (inum <$> filter is_dir l) -> i ∈ filter is_dir l ->
  snd <$> filter (fun pe => pe.1 = inum i /\ Q pe.2) (dir_pairs g data l) =
  filter Q (entries data g i).
Proof.
  unfold dir_pairs. induction (filter is_dir l) as [|j ds IH]; intros Hnd Hi;
    [by apply not_elem_of_nil in Hi|].
  rewrite fmap_cons in Hnd. apply NoDup_cons in Hnd as [Hni Hnd].
  rewrite fmap_cons. cbn [concat]. rewrite filter_app, fmap_app.
  assert (Hown : forall j es, snd <$> filter (fun pe : Z * (pybytes * Z) =>
      pe.1 = inum i /\ Q pe.2) (pair (inum j) <$> es) =
      if decide (inum j = inum i) then filter Q es else []).
  { clear. intros j es. induction es as [|e es IH]; [by destruct (decide _)|].
    rewrite fmap_cons, !filter_cons. cbn [fst snd].
    destruct (decide (inum j = inum i)) as [Hj|Hj].
    - destruct (decide (Q e)); [rewrite decide_True by done|rewrite decide_False by tauto];
        rewrite ?fmap_cons, IH; done.
    - by rewrite decide_False by tauto. }
  rewrite Hown. destruct (decide (inum j = inum i)) as [Hj|Hj].
  - assert (i = j) as ->.
    { apply elem_of_cons in Hi as [?|Hi]; [done|]. destruct Hni. rewrite Hj.
      apply list_elem_of_fmap. eauto. }
    replace (filter _ (concat _)) with (@nil (Z * (pybytes * Z))); [by rewrite app_nil_r|].
    symmetry. clear -Hni Hown. induction ds as [|k ds IH]; [done|].
    rewrite fmap_cons, not_elem_of_cons in Hni. destruct Hni as [Hk Hni].
    rewrite fmap_cons. cbn [concat]. rewrite filter_app, IH by done.
    rewrite app_nil_r. apply (fmap_nil_inv snd). rewrite Hown, decide_False; [done|congruence].
  - apply elem_of_cons in Hi as [->|Hi]; [done|]. by apply IH.
Qed.

Lemma all_links_pairs : all_links data g = snd <$> filter (fun pe => proper pe.2) (dir_pairs g data T).
Proof.
  unfold all_links, dir_pairs. induction dirs as [|i ds IH]; [done|].
  rewrite !fmap_cons. cbn [concat]. rewrite filter_app, fmap_app, IH. f_equal.
  unfold links. induction (entries data g i) as [|e es IHe]; [done|].
  rewrite fmap_cons, !filter_cons. cbn [snd]. destruct (decide (proper e)); [|done].
  rewrite fmap_cons, IHe. done.
Qed.

Lemma elem_of_pairs p e :
  (p, e) ∈ dir_pairs g data T <-> exists i, i ∈ T /\ is_dir i /\ inum i = p /\ e ∈ entries data g i.
Proof.
  unfold dir_pairs. rewrite elem_of_concat_fmap. split.
  - intros (i & Hi & Hin). apply list_elem_of_filter in Hi as [Hd Hi]. apply list_elem_of_fmap in Hin as (e' & [= -> ->] & He). exists i. auto.
  - intros (i & Hi & Hd & <- & He). exists i. split; [by apply list_elem_of_filter|].
    apply list_elem_of_fmap. eauto.
Qed.

(** * The scan of an image whose directories are well formed *)

Context (s : DirScan) (Hs : scanned s (dir_pairs g data T)).
Context (Hok : forall i, i ∈ T -> is_dir i -> scan_ok g data T i).

Lemma targets_dir i : i ∈ T -> is_dir i -> targets (edges s) (inum i) = (links data g i).*2.
Proof using Hwf Hs.
  intros Hi Hd. unfold targets. rewrite (sc_edges _ _ Hs). f_equal.
  apply pairs_of; [apply NoDup_dirs|by apply list_elem_of_filter].
Qed.

Lemma step_linked p t : step (edges s) p t <-> linked data g p t.
Proof using Hwf Hs.
  unfold step, targets, linked. rewrite (sc_edges _ _ Hs).
  rewrite <-list_fmap_compose, list_elem_of_fmap. split.
  - intros ([q [nm x]] & -> & Hin). apply list_elem_of_filter in Hin as [[Hq Hp] Hin].
    cbn in Hq, Hp. subst q. apply elem_of_pairs in Hin as (i & Hi & Hd & Hn & He).
    exists i, nm. do 3 (split; [done|]). by apply list_elem_of_filter.
  - intros (i & nm & Hi & Hd & Hn & He). apply list_elem_of_filter in He as [Hp He].
    exists (p, (nm, t)). split; [done|]. apply list_elem_of_filter. split; [done|].
    apply elem_of_pairs. eauto.
Qed.

Lemma links_good p t : linked data g p t -> t ∈ inum <$> T.
Proof using Hok.
  intros (i & nm & Hi & Hd & _ & He). apply list_elem_of_filter in He as [_ He].
  destruct (Hok i Hi Hd) as (_ & _ & _ & Hf & _). rewrite Forall_forall in Hf.
  by destruct (Hf _ He) as (_ & ? & _).
Qed.

Lemma linked_dir p t : linked data g p t -> is_dir_at T p.
Proof using Hwf.
  intros (i & nm & Hi & Hd & <- & He). apply dir_at_table. apply list_elem_of_fmap.
  exists i. split; [done|]. by apply list_elem_of_filter.
Qed.

Lemma references_links t :
  default 0 (references s !! t) = len (filter (fun x => x = t) (all_links data g).*2).
Proof using Hs.
  rewrite (sc_refs _ _ Hs), all_links_pairs. clear Hs.
  induction (dir_pairs g data T) as [|[p [nm x]] l IH]; [done|].
  rewrite !filter_cons. cbn [snd]. destruct (decide (proper (nm, x))) as [Hp|Hp].
  - rewrite !fmap_cons, filter_cons. cbn [snd]. destruct (decide (x = t)).
    + rewrite decide_True by done. rewrite !len_length in *.
      cbn [length]. lia.
    + by rewrite decide_False by tauto.
  - by rewrite decide_False by tauto.
Qed.

Lemma dots_entry i : i ∈ T -> is_dir i -> inum i ∈ dots s <-> (dot, inum i) ∈ entries data g i.
Proof using Hwf Hs Hok.
  intros Hi Hd. rewrite (sc_dots _ _ Hs). setoid_rewrite elem_of_pairs. split.
  - intros (t & j & Hj & _ & Hn & He).
    assert (j = i) as ->.
    { assert (get_inode T (inum i) = Some i) as E1 by (by apply get_inode_table).
      assert (get_inode T (inum i) = Some j) as E2 by (by apply get_inode_table). congruence. }
    destruct (Hok i Hi Hd) as (_ & _ & _ & Hf & _). rewrite Forall_forall in Hf.
    destruct (Hf _ He) as (_ & _ & Ht). cbn in Ht. by rewrite <-(Ht eq_refl).
  - intros He. eauto 6.
Qed.

Lemma dotdot_entry i p :
  i ∈ T -> is_dir i -> dotdot s !! inum i = Some p <-> (dotdot_name, p) ∈ entries data g i.
Proof using Hwf Hs Hok.
  intros Hi Hd.
  assert (Hin : forall q, dotdot s !! inum i = Some q -> (dotdot_name, q) ∈ entries data g i).
  { intros q Hq. apply (sc_dotdot_in _ _ Hs) in Hq.
    apply elem_of_pairs in Hq as (j & Hj & _ & Hn & He).
    assert (get_inode T (inum i) = Some i) as E1 by (by apply get_inode_table).
    assert (get_inode T (inum i) = Some j) as E2 by (by apply get_inode_table). congruence. }
  split; [apply Hin|]. intros He.
  destruct (sc_dotdot _ _ Hs (inum i) p) as [q Hq]; [apply elem_of_pairs; eauto 6|].
  rewrite Hq. f_equal. destruct (Hok i Hi Hd) as (_ & _ & _ & _ & Hnd).
  by eapply NoDup_fst_inj; [apply Hnd|apply Hin|].
Qed.

(** * The walk over the links of the image *)

(** The part of [consistent] the walk and the closing audit establish. *)
Record tree_ok : Prop := {
  to_reachable i : i ∈ T -> rtc (linked data g) ROOTINO (inum i);
  to_one_parent : NoDup (filter (is_dir_at T) (all_links data g).*2);
  to_root_parent : ROOTINO ∉ (all_links data g).*2;
  to_dot i : i ∈ T -> is_dir i -> (dot, inum i) ∈ entries data g i;
  to_root_dotdot i : i ∈ T -> inum i = ROOTINO -> (dotdot_name, ROOTINO) ∈ entries data g i;
  to_dotdot i p : i ∈ T -> is_dir i -> linked data g p (inum i) ->
    (dotdot_name, p) ∈ entries data g i;
  to_nlink_dir i : i ∈ T -> is_dir i ->
    nlink i = 1 + len (filter (is_dir_at T) (links data g i).*2);
  to_nlink_file i : i ∈ T -> ~ is_dir i ->
    nlink i = len (filter (fun t => t = inum i) (all_links data g).*2)
}.

Context (Hroot : is_dir_at T ROOTINO).
Context (d : Diagnostics) (w : Walk) (V : list Z).
Context (Hw : walked T (edges s) d w V).

Lemma reachable_linked t : t ∈ reachable w <-> rtc (linked data g) ROOTINO t.
Proof using Hwf Hs Hw.
  rewrite (wk_reachable _ _ _ _ _ Hw). split; apply rtc_subrel; intros x y; apply step_linked.
Qed.

(** When every inode is reached, the directories visited are the directories
    of the image, and the links followed are all the links. *)
Lemma visited_all :
  (forall i, i ∈ T -> inum i ∈ reachable w) -> V ≡ₚ inum <$> dirs.
Proof using Hwf Hw.
  intros Hr. apply NoDup_Permutation; [apply Hw|apply NoDup_dirs|]. intros n.
  rewrite (wk_visited _ _ _ _ _ Hw), <-dir_at_table. split; [tauto|]. intros Hd. split; [|done].
  apply dir_at_table, list_elem_of_fmap in Hd as (i & -> & Hi).
  apply list_elem_of_filter in Hi as [_ Hi]. auto.
Qed.

Lemma followed_links :
  (forall i, i ∈ T -> inum i ∈ reachable w) ->
  concat (targets (edges s) <$> V) ≡ₚ (all_links data g).*2.
Proof using Hwf Hs Hw.
  intros Hr. rewrite (visited_all Hr). unfold all_links.
  assert (Hd : forall i, i ∈ dirs -> i ∈ T /\ is_dir i).
  { intros i Hi. apply list_elem_of_filter in Hi. tauto. }
  induction dirs as [|i ds IH]; [done|]. rewrite !fmap_cons. cbn [concat]. rewrite fmap_app.
  rewrite IH by (intros j Hj; apply Hd; by right). f_equiv.
  rewrite targets_dir by (apply Hd; left). done.
Qed.

(** A directory has one parent. *)
Lemma parent_unique p q t :
  NoDup (filter (is_dir_at T) (all_links data g).*2) -> is_dir_at T t ->
  linked data g p t -> linked data g q t -> p = q.
Proof using Hwf.
  unfold all_links. intros Hnd Ht.
  assert (Hl : forall r, linked data g r t -> exists i, i ∈ dirs /\ inum i = r /\ t ∈ (links data g i).*2).
  { intros r (i & nm & Hi & Hd & Hn & He). exists i.
    split; [by apply list_elem_of_filter|]. split; [done|].
    apply list_elem_of_fmap. by exists (nm, t). }
  intros (i & Hi & <- & Hti)%Hl (j & Hj & <- & Htj)%Hl. f_equal.
  eapply (NoDup_concat_origin (is_dir_at T) (fun i => (links data g i).*2) dirs); eauto.
  clear -Hnd. revert Hnd. generalize dirs. intros l.
  replace ((concat (links data g <$> l)).*2) with (concat ((fun i => (links data g i).*2) <$> l)); [done|].
  induction l as [|i l IH]; [done|]. rewrite !fmap_cons. cbn [concat]. rewrite fmap_app. by rewrite IH.
Qed.

Lemma children_links i :
  i ∈ T -> is_dir i -> inum i ∈ reachable w ->
  default 0 (directory_children w !! inum i) = len (filter (is_dir_at T) (links data g i).*2).
Proof using Hwf Hs Hw.
  intros Hi Hd Hr. rewrite (wk_children _ _ _ _ _ Hw), targets_dir; [done..|].
  apply (wk_visited _ _ _ _ _ Hw). split; [done|]. apply dir_at_table, list_elem_of_fmap.
  exists i. split; [done|]. by apply list_elem_of_filter.
Qed.

Lemma inode_dir_at i : i ∈ T -> is_dir_at T (inum i) <-> is_dir i.
Proof using Hwf.
  intros Hi. unfold is_dir_at.
  assert (get_inode T (inum i) = Some i) as -> by (by apply get_inode_table). done.
Qed.

Lemma final_tree : d = ∅ -> wdiag w = ∅ /\ (forall i, i ∈ T -> final_ok s w i) -> tree_ok.
Proof using Hwf Hs Hok Hroot Hw.
  intros Hd0 [Hq Hf].
  assert (Hr : forall i, i ∈ T -> inum i ∈ reachable w) by (intros i Hi; by apply Hf).
  apply (wk_quiet _ _ _ _ _ Hw) in Hq as (_ & Hnd & Hnr).
  rewrite (followed_links Hr) in Hnd, Hnr.
  assert (Hlr : forall p, ~ linked data g p ROOTINO).
  { intros p (i & nm & Hi & Hd & _ & He). apply Hnr, list_elem_of_fmap. exists (nm, ROOTINO).
    split; [done|]. apply elem_of_concat_fmap. exists i. split; [|done]. by apply list_elem_of_filter. }
  split; try done.
  - intros i Hi. apply reachable_linked. auto.
  - intros i Hi Hd. apply dots_entry; auto. by apply Hf.
  - intros i Hi Hn. assert (is_dir i) as Hd by (apply inode_dir_at; [done|by rewrite Hn]).
    apply dotdot_entry; auto. rewrite (fo_dotdot _ _ _ (Hf i Hi)) by done. by rewrite decide_True.
  - intros i p Hi Hd Hl. apply dotdot_entry; auto. rewrite (fo_dotdot _ _ _ (Hf i Hi)) by done.
    assert (inum i <> ROOTINO) as Hne by (intros E; rewrite E in Hl; by apply Hlr in Hl).
    rewrite decide_False by done. assert (is_dir_at T (inum i)) as Hda by (by apply inode_dir_at).
    destruct (wk_parent _ _ _ _ _ Hw p (inum i)) as [q Hp]; [|by apply step_linked|done|].
    { apply (wk_visited _ _ _ _ _ Hw). assert (is_dir_at T p) as Hpd by (by eapply linked_dir).
      split; [|done]. apply dir_at_table, list_elem_of_fmap in Hpd as (j & -> & Hj).
      apply list_elem_of_filter in Hj as [_ Hj]. auto. }
    rewrite Hp. f_equal. destruct (wk_parents _ _ _ _ _ Hw _ _ Hne Hp) as [_ Hst].
    apply step_linked in Hst. by eapply parent_unique.
  - intros i Hi Hd. rewrite <-children_links by auto. by apply Hf.
  - intros i Hi Hd. rewrite <-references_links. by apply Hf.
Qed.

Lemma tree_final : d = ∅ -> tree_ok -> wdiag w = ∅ /\ (forall i, i ∈ T -> final_ok s w i).
Proof using Hwf Hs Hok Hroot Hw.
  intros Hd0 Ht.
  assert (Hr : forall i, i ∈ T -> inum i ∈ reachable w).
  { intros i Hi. apply reachable_linked. by apply Ht. }
  split.
  { apply (wk_quiet _ _ _ _ _ Hw). rewrite (followed_links Hr).
    split; [done|]. split; [apply (to_one_parent Ht)|apply (to_root_parent Ht)]. }
  intros i Hi. split; [auto| | | |].
  - intros Hd. apply dots_entry; auto. by apply Ht.
  - intros Hd. destruct (decide (inum i = ROOTINO)) as [E|E].
    { apply dotdot_entry; auto. by apply Ht. }
    pose proof (to_reachable Ht i Hi) as Hri. apply rtc_inv_r in Hri as [?|(p & _ & Hl)]; [done|].
    assert (p ∈ V) as HpV.
    { apply (wk_visited _ _ _ _ _ Hw). assert (is_dir_at T p) as Hpd by (by eapply linked_dir).
      split; [|done]. apply dir_at_table, list_elem_of_fmap in Hpd as (j & -> & Hj).
      apply list_elem_of_filter in Hj as [_ Hj]. auto. }
    destruct (wk_parent _ _ _ _ _ Hw p (inum i)) as [q Hp];
      [done|by apply step_linked|by apply inode_dir_at|].
    rewrite Hp. destruct (wk_parents _ _ _ _ _ Hw _ _ E Hp) as [_ Hst].
    apply dotdot_entry; auto. apply Ht; auto. by apply step_linked.
  - intros Hd. rewrite children_links by auto. by apply Ht.
  - intros Hd. rewrite references_links. by apply Ht.
Qed.
End Clean.

(** * The verdict on a view *)

Definition tables_ok (g : Geometry) (data : pybytes) : Prop :=
  (forall n, 1 <= n < ninodes g -> slot_ok (dinode data g n)) /\
  (1 < ninodes g /\ is_dir (dinode data g ROOTINO)) /\
  Forall (pointers_ok data g) (inode_table data g) /\
  NoDup (concat (owned data g <$> inode_table data g)) /\ bitmap_exact g data /\
  (forall i, i ∈ inode_table data g -> is_dir i -> scan_ok g data (inode_table data g) i).

Lemma root_dir_at g data :
  wf_geometry g data -> 1 < ninodes g -> is_dir (dinode data g ROOTINO) ->
  is_dir_at (inode_table data g) ROOTINO.
Proof.
  intros Hwf Hn Hd. apply (dir_at_table g data Hwf), list_elem_of_fmap.
  destruct (dinode_fields g data Hwf ROOTINO) as (_ & En & _); [unfold ROOTINO; lia|].
  exists (dinode data g ROOTINO). split; [done|]. apply list_elem_of_filter. split; [done|].
  apply (elem_of_inode_table g data Hwf). rewrite En. unfold ROOTINO in *. repeat split; try lia.
  rewrite Hd. clear. unfold VALID_TYPES. set_solver.
Qed.

Lemma consistent_scan g data i :
  wf_geometry g data -> consistent data g -> i ∈ inode_table data g -> is_dir i ->
  scan_ok g data (inode_table data g) i.
Proof.
  intros Hwf Hc Hi Hd. pose proof (co_pointers _ _ Hc i Hi) as Hp.
  destruct (co_entries _ _ Hc i Hi Hd) as [Hsz Hnd Hne Htg Hdot].
  split; [done|]. split.
  { apply pointers_mapped; auto; [by apply (inode_table_wf g data)|].
    apply (elem_of_inode_table g data Hwf) in Hi as (Hn & Hii & Ht).
    destruct (co_slots _ _ Hc _ Hn) as [H0|[_ Hs]]; rewrite <-Hii in *; [|done].
    rewrite H0 in Ht. clear -Ht. unfold VALID_TYPES in Ht. set_solver. }
  split; [done|]. split; [|done]. apply Forall_forall. intros [nm t] He. repeat split; cbn.
  - by eapply Hne.
  - by eapply Htg.
  - intros ->. by eapply NoDup_fst_inj.
Qed.

Lemma consistent_split g data :
  wf_geometry g data -> consistent data g <-> tables_ok g data /\ tree_ok g data.
Proof.
  intros Hwf. split.
  - intros Hc. split.
    + split; [apply (co_slots _ _ Hc)|]. split; [apply (co_root _ _ Hc)|].
      split; [apply Forall_forall, (co_pointers _ _ Hc)|]. split; [apply (co_exclusive _ _ Hc)|].
      split; [exact (co_bitmap _ _ Hc)|]. intros i. by apply consistent_scan.
    + split; apply Hc.
  - intros [(Hsl & Hr & Hp & Hex & Hbm & Hsc) Ht]. rewrite Forall_forall in Hp.
    split; auto; try apply Ht. intros i Hi Hd. destruct (Hsc i Hi Hd) as (_ & _ & Hsz & Hf & Hnd).
    rewrite Forall_forall in Hf.
    split; auto; [intros nm t He; by apply (Hf _ He)..|]. by apply Ht.
Qed.

Lemma inspect_clean g data :
  wf_geometry g data ->
  exists inodes o s w d, inspect data g = Ok (inodes, o, s, w, d) /\ (d = ∅ <-> consistent data g).
Proof.
  intros Hwf. unfold inspect.
  destruct (parse_inodes_spec g data Hwf ∅) as (d1 & -> & H1). cbn [mbind result_bind].
  destruct (inspect_blocks_spec g data Hwf d1) as (o & d2 & -> & H2). cbn [mbind result_bind].
  destruct (scan_directories_spec g data Hwf (inode_table data g) (inode_table data g) no_scan d2)
    as (d3 & E3 & H3); [apply Forall_forall; by apply inode_table_wf|].
  unfold scan_directories, no_scan in *. rewrite E3. clear E3. cbn [mbind result_bind].
  set (s := foldl _ _ _).
  destruct (walk_total (inode_table data g) (edges s) d3) as (w & Ew & _).
  rewrite Ew. cbn [of_option mbind result_bind]. eexists _, _, _, _, _. split; [done|].
  rewrite (foldl_quiet _ (final_ok s w)) by (intros; apply check_inode_quiet).
  rewrite (consistent_split g data Hwf), Forall_forall.
  assert (Ht : d3 = ∅ <-> tables_ok g data) by (unfold tables_ok; tauto).
  destruct (decide (d3 = ∅)) as [Hd3|Hd3].
  2: { split; [|tauto]. intros [Hq _]. destruct Hd3. apply walk_mono in Ew. cbn in Ew.
       clear -Ew Hq. set_solver. }
  pose proof (proj1 Ht Hd3) as (_ & [Hn1 Hrd] & _ & _ & _ & Hsc).
  assert (Hs : scanned s (dir_pairs g data (inode_table data g))).
  { apply scan_scanned, Forall_forall. intros [p e] He.
    apply elem_of_pairs in He as (i & Hi & Hd & _ & He).
    destruct (Hsc i Hi Hd) as (_ & _ & _ & Hf & _). rewrite Forall_forall in Hf.
    by destruct (Hf _ He) as (? & ? & _). }
  pose proof (root_dir_at g data Hwf Hn1 Hrd) as Hroot.
  destruct (walk_correct (inode_table data g) (edges s)) with (d := d3) as (w' & V & Ew' & HV); auto.
  { intros a b Hab. apply (step_linked g data Hwf s Hs) in Hab. by eapply links_good. }
  { intros a b Hab. apply (step_linked g data Hwf s Hs) in Hab. by eapply linked_dir. }
  rewrite Ew in Ew'. injection Ew' as <-. split.
  - intros Hf. split; [by apply Ht|]. by eapply final_tree.
  - intros [_ Htr]. by eapply tree_final.
Qed.
