(* ===== verification/FsckProps.v ===== *)
(** The guarantees of the image checker [fsck.py]: its verdict, its shadow
    replay, its totality, and its traversal, with a concrete image on which
    they apply. *)

From stdpp Require Import base tactics list gmap strings numbers list_numbers.
From S2P Require Import Prelude PyText PyBytes Sha256 Fsck FsckLog FsckTotal FsckSpec FsckBlocks.
From S2P Require Import FsckDirs FsckWalk FsckClean.
Open Scope Z_scope.

(** * The verdict *)

Lemma inspect_view_clean g data :
  wf_geometry g data ->
  exists v, inspect_view data g = Ok v /\ (is_nil (diagnostics v) = true <-> consistent data g).
Proof.
  intros Hwf. unfold inspect_view.
  destruct (inspect_clean g data Hwf) as (i & o & s & w & d & -> & Hd). cbn [mbind result_bind].
  eexists; split; [done|]. cbn [diagnostics]. by rewrite is_nil_true, codes_nil.
Qed.

Lemma verdict data :
  exists r, check_bytes data = Ok r /\
    (raw_clean r = true <-> exists g shadow,
       parse_geometry data ∅ = Ok (Some g, ∅) /\ shadow_of data = Some shadow /\
       consistent data g) /\
    (recovered_clean r = true <-> exists g shadow,
       parse_geometry data ∅ = Ok (Some g, ∅) /\ shadow_of data = Some shadow /\
       consistent shadow g) /\
    clean r = recovered_clean r.
Proof.
  destruct (parse_geometry_total data ∅) as [[[g|] d0] Hg].
  2: { unfold check_bytes. rewrite Hg. cbn [mbind result_bind].
       eexists; split; [done|]. cbn. split; [|split; [|done]]; (split; [done|]);
       intros (? & ? & ? & _); done. }
  destruct (parse_geometry_wf _ _ _ _ Hg) as [Hwf ->].
  unfold check_bytes, shadow_of. rewrite Hg. cbn [mbind result_bind].
  destruct (parse_log_total g data Hwf ∅) as [[[[c ts] [sh|]] d1] Hl]; rewrite Hl;
    cbn [mbind result_bind].
  2: { eexists; split; [done|]. cbn. split; [|split; [|done]]; (split; [done|]);
       intros (? & ? & _ & ? & _); done. }
  destruct (parse_log_shadow _ _ _ _ _ _ _ Hwf Hl) as (_ & -> & _ & _ & _ & Hrp).
  pose proof (wf_geometry_len g data sh Hwf (rp_len _ _ _ _ Hrp)) as Hwf'.
  destruct (inspect_view_clean g data Hwf) as (v1 & -> & H1).
  destruct (inspect_view_clean g sh Hwf') as (v2 & -> & H2). cbn [mbind result_bind].
  eexists; split; [done|]. cbn [raw_clean recovered_clean clean].
  replace (is_nil (codes ∅)) with true by done. cbn [andb]. rewrite H1, H2.
  split; [|split; [|done]]; (split; [intros Hc; eauto|]); intros (g' & s' & [= <-] & [= <-] & Hc); done.
Qed.

(** C1: the checker accepts an image exactly when its superblock is valid, its
    log header can be replayed, and the image with the log replayed is
    consistent: inodes, pointers, exclusive block ownership, bitmap, directory
    tree and link counts.  The checker returns a report on every input. *)
Theorem clean_iff_consistent data :
  exists r, check_bytes data = Ok r /\
    (clean r = true <-> exists g shadow,
       parse_geometry data ∅ = Ok (Some g, ∅) /\ shadow_of data = Some shadow /\
       consistent shadow g).
Proof.
  destruct (verdict data) as (r & Hr & _ & Hc & He). exists r. by rewrite He.
Qed.

(** [raw_clean] judges the image as it is on disk: it holds exactly when
    the superblock and the log header are valid and the image is consistent
    before any replay. *)
Theorem raw_clean_iff_consistent data :
  exists r, check_bytes data = Ok r /\
    (raw_clean r = true <-> exists g shadow,
       parse_geometry data ∅ = Ok (Some g, ∅) /\ shadow_of data = Some shadow /\
       consistent data g).
Proof. destruct (verdict data) as (r & Hr & Hc & _). eauto. Qed.

(** * Consistent images have a directory tree *)

Definition dir_linked (data : pybytes) (g : Geometry) (p t : Z) : Prop :=
  linked data g p t /\ is_dir_at (inode_table data g) t.

Lemma tc_last {A} (R : relation A) x z : tc R x z -> exists y, rtc R x y /\ R y z.
Proof.
  induction 1 as [x y Hxy|x y z Hxy _ (w & Hyw & Hwz)]; [eauto using rtc_refl|].
  exists w. split; [|done]. by eapply rtc_l.
Qed.

Lemma consistent_no_cycle g data n :
  wf_geometry g data -> consistent data g ->
  rtc (linked data g) ROOTINO n -> ~ tc (dir_linked data g) n n.
Proof.
  intros Hwf Hc. revert n.
  apply (rtc_ind_r (fun n => ~ tc (dir_linked data g) n n)).
  - intros (p & _ & [(i & nm & Hi & Hd & _ & He) _])%tc_last. apply (co_root_parent _ _ Hc).
    apply list_elem_of_fmap. exists (nm, ROOTINO). split; [done|]. apply elem_of_concat_fmap.
    exists i. split; [|done]. by apply list_elem_of_filter.
  - intros p n _ Hpn IH (q & Hnq & [Hqn Hdn])%tc_last.
    assert (p = q) as <-.
    { eapply (parent_unique g data Hwf); eauto. apply Hc. }
    apply IH. apply tc_rtc_r with n; [by apply tc_once|done].
Qed.

(** C7: in a clean image the directories form a tree below the root: every
    allocated inode is reachable from the root, a directory has a single
    parent, which its [..] names, and no directory is its own ancestor. *)
Theorem clean_directory_tree data r :
  check_bytes data = Ok r -> clean r = true ->
  exists g shadow,
    parse_geometry data ∅ = Ok (Some g, ∅) /\ shadow_of data = Some shadow /\
    forall i, i ∈ inode_table shadow g ->
      rtc (linked shadow g) ROOTINO (inum i) /\
      ~ tc (dir_linked shadow g) (inum i) (inum i) /\
      (is_dir i -> forall p q, linked shadow g p (inum i) -> linked shadow g q (inum i) ->
         p = q /\ (dotdot_name, p) ∈ entries shadow g i).
Proof.
  intros Hr Hcl. destruct (verdict data) as (r' & Hr' & _ & Hc & He).
  rewrite Hr in Hr'. injection Hr' as <-. rewrite He in Hcl.
  apply Hc in Hcl as (g & shadow & Hg & Hsh & Hcons). exists g, shadow.
  do 2 (split; [done|]). destruct (parse_geometry_wf _ _ _ _ Hg) as [Hwf _].
  assert (wf_geometry g shadow) as Hwf'.
  { unfold shadow_of in Hsh. rewrite Hg in Hsh.
    destruct (parse_log data g ∅) as [[[[c ts] s] d]|] eqn:Hl; [|done]. subst s.
    destruct (parse_log_shadow _ _ _ _ _ _ _ Hwf Hl) as (_ & _ & _ & _ & _ & Hrp).
    eapply wf_geometry_len; [done|]. apply Hrp. }
  intros i Hi. pose proof (co_reachable _ _ Hcons i Hi) as Hreach.
  split; [done|]. split; [by apply consistent_no_cycle|].
  intros Hd p q Hp Hq. split; [|by apply Hcons].
  eapply (parent_unique g shadow Hwf'); eauto; [apply Hcons|by apply inode_dir_at].
Qed.

(** * Replay *)

(** C8: replaying an accepted log yields the image in which every logged block
    is installed at its target, the header count is zero, and no other byte
    differs; the targets are distinct, lie between the inode region and the
    end of the image, and are as many as the header says. *)
Theorem replay_spec data g d0 count targets shadow d1 :
  parse_geometry data ∅ = Ok (Some g, d0) ->
  parse_log data g d0 = Ok ((count, targets, Some shadow), d1) ->
  0 <= count <= LOGBLOCKS /\ len targets = count /\ valid_targets g targets /\
  replayed_image g data shadow targets.
Proof.
  intros Hg Hl. destruct (parse_geometry_wf _ _ _ _ Hg) as [Hwf ->].
  destruct (parse_log_shadow _ _ _ _ _ _ _ Hwf Hl) as (_ & _ & ? & ? & ? & ?). auto.
Qed.

(** C9: recovery is idempotent: the recovered image has an empty log, its own
    shadow is itself, and its raw verdict is the recovered verdict on the
    original image. *)
Theorem replay_idempotent data r shadow :
  check_bytes data = Ok r -> shadow_of data = Some shadow ->
  shadow_of shadow = Some shadow /\
  exists r', check_bytes shadow = Ok r' /\ raw_clean r' = recovered_clean r /\
    clean r' = clean r /\ log_pending r' = Some false /\ raw r' = replayed r.
Proof.
  intros Hr Hs. split.
  - unfold shadow_of in Hs. destruct (parse_geometry data ∅) as [[[g|] d0]|] eqn:Hg; try done.
    destruct (parse_log data g d0) as [[[[c ts] s] d1]|] eqn:Hl; [|done]. subst s.
    destruct (replay_again _ _ _ _ _ _ _ Hg Hl) as [Hg' Hl'].
    unfold shadow_of. by rewrite Hg', Hl'.
  - destruct (check_shadow data r shadow Hr Hs) as (r' & ? & ? & ? & ? & ? & ? & ? & ?). eauto 8.
Qed.

(** * Traversal *)

(** C10: The breadth-first walk ends within its fuel on every graph and every
    inode list, cyclic graphs included.  When moreover the edges lead from
    directories to allocated inodes and the root is a directory, it marks exactly
    the inodes reachable from the root, and it reports a problem exactly when a
    reachable directory has two links or the root has one. *)
Theorem walk_reaches inodes edges d :
  exists w, walk (walk_fuel edges) inodes edges (start_walk inodes d) = Some w /\
    ((forall a b, step edges a b -> b ∈ inum <$> inodes) ->
     (forall a b, step edges a b -> is_dir_at inodes a) ->
     is_dir_at inodes ROOTINO ->
     exists V, (forall t, t ∈ reachable w <-> rtc (step edges) ROOTINO t) /\
       NoDup V /\ (forall t, t ∈ V <-> t ∈ reachable w /\ is_dir_at inodes t) /\
       (wdiag w = ∅ <-> d = ∅ /\ NoDup (filter (is_dir_at inodes) (concat (targets edges <$> V))) /\
                        ROOTINO ∉ concat (targets edges <$> V))).
Proof.
  destruct (walk_total inodes edges d) as (w & Hw & _). exists w. split; [done|]. intros H1 H2 H3.
  destruct (walk_correct inodes edges H1 H2 H3 d) as (w' & V & Hw' & Hx). rewrite Hw in Hw'. injection Hw' as <-.
  exists V. split; [apply Hx|]. split; [apply Hx|]. split; apply Hx.
Qed.

(** * A small image

    36 blocks: boot block, superblock, 31 log blocks, one inode block, one
    bitmap block and one data block, which holds the root directory.  [header]
    is the log header. *)

Definition pad (l : pybytes) : pybytes := l ++ zeros (BSIZE - len l).
Definition words32 (zs : list Z) : pybytes := concat (map (encode FI) zs).
Definition dirent (n : Z) (name : string) : pybytes :=
  encode FH n ++ u name ++ zeros (14 - len (u name)).
Definition mini_image (header : list Z) : pybytes :=
  pad [] ++ pad (words32 [FSMAGIC; 36; 1; 16; 31; 2; 33; 34]) ++ pad (words32 header) ++
  concat (repeat (pad []) 30) ++
  pad (zeros 64 ++ concat (map (encode Fh) [1; 0; 0; 1]) ++ words32 ([32; 35] ++ repeat 0 12)) ++
  pad [255; 255; 255; 255; 15] ++
  pad (dirent 1 "." ++ dirent 1 "..").
Definition mini_geometry : Geometry := Build_Geometry 36 1 16 31 2 33 34 35.

Lemma mini_parse_geometry header :
  header = [0] \/ header = [1; 34] ->
  parse_geometry (mini_image header) ∅ = Ok (Some mini_geometry, ∅).
Proof. intros [-> | ->]; vm_compute; reflexivity. Qed.

Lemma mini_log_clear :
  parse_log (mini_image [0]) mini_geometry ∅ = Ok ((0, [], Some (mini_image [0])), ∅).
Proof.
  apply parse_log_clear; [|vm_compute; reflexivity].
  eapply parse_geometry_wf, mini_parse_geometry. by left.
Qed.

Lemma log_result (r : result ((Z * list Z * option pybytes) * Diagnostics)) :
  match r with
  | Ok ((c, ts, Some _), d) => (c =? 1) && bool_decide (ts = [34]) && bool_decide (d = ∅)
  | _ => false
  end = true -> exists shadow, r = Ok ((1, [34], Some shadow), ∅).
Proof.
  destruct r as [[[[c ts] [sh|]] d]|]; try done. intros H. to_prop. subst. eauto.
Qed.

Lemma mini_log_one :
  exists shadow, parse_log (mini_image [1; 34]) mini_geometry ∅ = Ok ((1, [34], Some shadow), ∅).
Proof.
  apply log_result. vm_compute; reflexivity.
Qed.

Lemma checked_clean data g :
  parse_geometry data ∅ = Ok (Some g, ∅) ->
  parse_log data g ∅ = Ok ((0, [], Some data), ∅) ->
  match inspect_view data g with Ok v => is_nil (diagnostics v) | Raise _ => false end = true ->
  exists r, check_bytes data = Ok r /\ clean r = true.
Proof.
  intros Hg Hl Hv. unfold check_bytes. rewrite Hg. cbn [mbind result_bind].
  rewrite Hl. cbn [mbind result_bind]. destruct (inspect_view data g) as [v|]; [|done].
  cbn [mbind result_bind]. eexists; split; [done|]. cbn [clean]. by rewrite Hv.
Qed.

Lemma mini_checked : exists r, check_bytes (mini_image [0]) = Ok r /\ clean r = true.
Proof.
  apply (checked_clean _ mini_geometry); [apply mini_parse_geometry; by left|apply mini_log_clear|].
  vm_compute; reflexivity.
Qed.

(** [clean_directory_tree] applies to the small image. *)
Lemma clean_directory_tree_witness :
  exists r, check_bytes (mini_image [0]) = Ok r /\ clean r = true /\
  exists g shadow,
    parse_geometry (mini_image [0]) ∅ = Ok (Some g, ∅) /\
    shadow_of (mini_image [0]) = Some shadow /\
    forall i, i ∈ inode_table shadow g ->
      rtc (linked shadow g) ROOTINO (inum i) /\
      ~ tc (dir_linked shadow g) (inum i) (inum i) /\
      (is_dir i -> forall p q, linked shadow g p (inum i) -> linked shadow g q (inum i) ->
         p = q /\ (dotdot_name, p) ∈ entries shadow g i).
Proof.
  destruct mini_checked as (r & Hr & Hc). exists r. split; [exact Hr|]. split; [exact Hc|].
  exact (clean_directory_tree (mini_image [0]) r Hr Hc).
Defined.

(** [replay_spec] applies to the small image with one logged block. *)
Lemma replay_spec_witness :
  exists shadow, parse_log (mini_image [1; 34]) mini_geometry ∅ = Ok ((1, [34], Some shadow), ∅) /\
  (0 <= 1 <= LOGBLOCKS /\ len [34] = 1 /\ valid_targets mini_geometry [34] /\
   replayed_image mini_geometry (mini_image [1; 34]) shadow [34]).
Proof.
  destruct mini_log_one as [shadow Hl]. exists shadow. split; [exact Hl|].
  exact (replay_spec (mini_image [1; 34]) mini_geometry ∅ 1 [34] shadow ∅
           (mini_parse_geometry [1; 34] (or_intror eq_refl)) Hl).
Defined.

(** [replay_idempotent] applies to the small image with one logged block. *)
Lemma replay_idempotent_witness :
  exists r shadow, check_bytes (mini_image [1; 34]) = Ok r /\
    shadow_of (mini_image [1; 34]) = Some shadow /\ shadow_of shadow = Some shadow /\
    exists r', check_bytes shadow = Ok r' /\ raw_clean r' = recovered_clean r /\
      clean r' = clean r /\ log_pending r' = Some false /\ raw r' = replayed r.
Proof.
  destruct (verdict (mini_image [1; 34])) as (r & Hr & _).
  destruct mini_log_one as [shadow Hl].
  assert (Hs : shadow_of (mini_image [1; 34]) = Some shadow).
  { unfold shadow_of. rewrite mini_parse_geometry by (by right). rewrite Hl. reflexivity. }
  exists r, shadow. split; [exact Hr|]. split; [exact Hs|].
  exact (replay_idempotent (mini_image [1; 34]) r shadow Hr Hs).
Defined.

(** A cyclic directory graph: the root has a subdirectory with a link back to
    the root, and a file. *)
Definition loop_inodes : list Inode :=
  [Build_Inode 1 T_DIR 0 0 1 32 []; Build_Inode 2 T_DIR 0 0 1 32 [];
   Build_Inode 3 T_FILE 0 0 1 0 []].
Definition loop_edges : gmap Z (list (pybytes * Z)) :=
  {[ 1 := [(u "sub", 2); (u "file", 3)]; 2 := [(u "up", 1)] ]}.

Lemma loop_step a b : step loop_edges a b -> (a = 1 /\ (b = 2 \/ b = 3)) \/ (a = 2 /\ b = 1).
Proof.
  unfold step, targets, loop_edges.
  destruct (decide (a = 1)) as [->|H1]; [rewrite lookup_insert_eq; cbn; set_solver|].
  destruct (decide (a = 2)) as [->|H2].
  - rewrite lookup_insert_ne, lookup_singleton_eq by done. cbn. set_solver.
  - rewrite lookup_insert_ne, lookup_singleton_ne by done. cbn. set_solver.
Qed.

(** [walk_reaches] applies to the cyclic graph. *)
Lemma walk_reaches_witness :
  exists w, walk (walk_fuel loop_edges) loop_inodes loop_edges (start_walk loop_inodes ∅) = Some w /\
    (forall t, t ∈ reachable w <-> rtc (step loop_edges) ROOTINO t).
Proof.
  destruct (walk_reaches loop_inodes loop_edges ∅) as (w & Hw & H). exists w. split; [exact Hw|].
  destruct H as (V & Hr & _).
  - intros a b [[-> [-> | ->]]|[-> ->]]%loop_step; cbn; set_solver.
  - intros a b [[-> _]|[-> _]]%loop_step; reflexivity.
  - reflexivity.
  - exact Hr.
Defined.
