(* ===== verification/Curriculum.v ===== *)
(** The validator of the tutorial's manifest, [docs/xv6-tutorial/tools/validate.py].

    A check appends its messages to a [Validation] object, which the model
    passes along; a malformed manifest can also make a check raise, as the
    Python code does.  The manifest is a parsed JSON document.  What the
    validator asks of the host (git, the files of the repository, the exit
    status of the navigation check) is the record [Host]. *)

From stdpp Require Import base tactics list gmap strings numbers list_numbers.
From S2P Require Import Prelude PyText PyBytes PyRegex PyPath PyJson.
Open Scope Z_scope.

(** * Validation *)

Record Validation : Type := { errors : list msg; warnings : list msg }.

(** A check: it may return or raise, and it appends to the validation. *)
Definition check (A : Type) : Type := Validation -> result (A * Validation).

#[global] Instance check_ret : MRet check := fun A a v => Ok (a, v).
#[global] Instance check_bind : MBind check := fun A B f m v =>
  match m v with Ok (a, v) => f a v | Raise e => Raise e end.

Definition lift {A} (r : result A) : check A := fun v =>
  match r with Ok a => Ok (a, v) | Raise e => Raise e end.
Definition error (m : msg) : check () := fun v =>
  Ok (tt, {| errors := errors v ++ [m]; warnings := warnings v |}).
Definition warn (m : msg) : check () := fun v =>
  Ok (tt, {| errors := errors v; warnings := warnings v ++ [m] |}).
Definition error_if (b : bool) (m : msg) : check () := if b then error m else mret tt.

(** A [for] loop with a state. *)
Fixpoint loop {S A} (f : S -> A -> check S) (s : S) (l : list A) : check S :=
  match l with
  | [] => mret s
  | a :: l => s ← f s a; loop f s l
  end.
Definition each {A} (f : A -> check ()) (l : list A) : check () := loop (fun _ => f) tt l.

(** * Constants *)

Definition VALID_STATUSES : list string := ["planned"; "draft"; "verified"].
Definition VALID_EVIDENCE : list string := ["S"; "F"; "B"; "C"; "R"].

Definition UNIT_ID_RE : regex :=
  let low := RChar (fun c => lower c || digit c) in
  RSeq (RChar lower) (RSeq (RStar low)
    (RStar (RSeq (RChar (fun c => is_char "." c || is_char "-" c)) (RPlus low)))).

Definition REQUIRED_UNIT_HEADINGS : list string :=
  [ "## 问题场景与本单元成果"; "## 前置单元与暂存黑盒"; "## 最小模型和关键不变量"; "## 源码追踪计划";
    "## 观察任务"; "## 有界修改任务"; "## Oracle、证据、失败路径和局限"; "## 退出产物与后续单元" ].
Definition REQUIRED_WALKTHROUGH_FIELDS : list string :=
  [ "教程版本"; "源码基线"; "走查时教程提交"; "走查单元或连续路径"; "匿名入口能力"; "使用环境" ].
Definition REQUIRED_WALKTHROUGH_SECTIONS : list string :=
  [ "观察到的卡点"; "验收产物"; "修正与复查"; "结果" ].

(** * The host *)

Inductive root : Type := TUTORIAL_ROOT | REPO_ROOT.

Record Host : Type := {
  (* [git cat-file -e commit^{commit}] succeeds *)
  commit_exists : pystr -> bool;
  (* [git ls-tree -r --name-only commit], when it succeeds *)
  ls_tree : pystr -> option pystr;
  (* [git show commit:path], when it succeeds *)
  git_show : pystr -> pystr -> option pybytes;
  (* files below a root *)
  exists_ : root -> pystr -> bool;
  is_file : root -> pystr -> bool;
  read_text : root -> pystr -> result pystr;
  read_bytes : pystr -> result pybytes;
  (* the files a recursive glob below the repository finds, relative to it *)
  glob : pystr -> list pystr;
  (* the files below [docs/questions] other than its README *)
  legacy_files : list pystr;
  (* the Markdown files of the tutorial, relative to it *)
  markdown_files : list pystr;
  (* a link target resolved against a page stays inside the repository; exists *)
  link_inside : pystr -> pystr -> bool;
  link_exists : pystr -> pystr -> bool;
  (* exit status, standard error and output of [generate_navigation.py --check] *)
  navigation : Z * pystr * pystr;
  (* [str.isalnum] outside ASCII *)
  alphanumeric : Z -> bool
}.

Section Host.
Context (host : Host).

Abbreviation units_dict := (list (pystr * obj)).

(** * Release *)

Definition release_fields : list string :=
  ["version"; "status"; "baseline_commit"; "coverage_complete"; "compatibility"].

Definition validate_release (manifest : json) : check bool :=
  version ← lift (jget manifest "schema_version" JNull);
  error_if (negb (is_int version 1)) [T "schema_version must be 1"];;
  release ← lift (jget manifest "release" JNull);
  match release with
  | JObj release =>
      each (fun field => error_if (negb (has_key (u field) release)) [T "release is missing "; T field])
        release_fields;;
      valid ← lift (in_strs (get release "status") VALID_STATUSES);
      error_if (negb valid) [T "invalid release status: "; piece_of (get release "status")];;
      baseline ← lift (need_str (default (JStr []) (lookup_key (u "baseline_commit") release)));
      if negb (is_commit baseline) then
        error [T "release.baseline_commit must be a full 40-character commit"];; mret false
      else if negb (commit_exists host baseline) then
        error [T "release baseline is not a local commit: "; V baseline];; mret false
      else mret true
  | _ => error [T "release must be an object"];; mret false
  end.

(** The major number of a numeric semantic version. *)
Definition semver_number : pattern :=
  MAlt (lit "0") (MCat (MChr (in_range "1" "9")) (star (MChr digit))).
Definition semver : pattern :=
  all_of [ MGrp 1 semver_number; lit "."; semver_number; lit "."; semver_number ].

(** [unit_id for unit_id, unit in units.items() if unit["status"] != "verified"] *)
Definition not_verified (units : units_dict) : result (list pystr) :=
  statuses ← mapR (fun it : pystr * obj => status ← item it.2 "status"; Ok (it.1, status)) units;
  let incomplete := filter (fun it : pystr * json => is_str it.2 "verified" = false) (statuses : list _) in
  Ok incomplete.*1.

Definition validate_release_completion (manifest : json) (units : units_dict) : check () :=
  release ← lift (jget manifest "release" (JObj []));
  version ← lift (jget release "version" (JStr []));
  version ← lift (need_str version);
  match re_full semver version with
  | None => error [T "release.version must be numeric semver: "; V version]
  | Some g =>
      major ← lift (py_int (default [] (group g 1)));
      coverage ← lift (jget release "coverage_complete" JNull);
      status ← lift (jget release "status" JNull);
      match coverage with
      | JBool coverage_complete =>
          let verified := is_str status "verified" in
          error_if ((1 <=? major) && negb coverage_complete) [T "1.x release must be coverage_complete"];;
          error_if ((1 <=? major) && negb verified) [T "1.x release must be verified"];;
          error_if (coverage_complete && (major <? 1))
            [T "coverage_complete release must use version 1.x or later"];;
          error_if (coverage_complete && negb verified)
            [T "coverage_complete release must be verified"];;
          if coverage_complete then
            incomplete ← lift (not_verified units);
            error_if (negb (bool_decide (incomplete = [])))
              [T "coverage_complete release has non-verified units: "; L (sorted_strs incomplete)]
          else mret tt
      | _ => error [T "release.coverage_complete must be a boolean"]
      end
  end.

(** [manifest.get("release", {}).get("coverage_complete")] as a condition *)
Definition coverage_complete (manifest : json) : result bool :=
  release ← jget manifest "release" (JObj []);
  coverage ← jget release "coverage_complete" JNull;
  Ok (truthy coverage).

Definition legacy_readme : pystr := u "docs/questions/README.md".

Definition validate_question_migration (manifest : json) : check () :=
  complete ← lift (coverage_complete manifest);
  if negb complete then mret tt
  else if negb (is_file host REPO_ROOT legacy_readme) then
    error [T "coverage_complete release is missing docs/questions/README.md compatibility entry"]
  else
    error_if (negb (bool_decide (legacy_files host = [])))
      [T "coverage_complete release retains legacy question files: "; L (sorted_strs (legacy_files host))];;
    readme ← lift (read_text host REPO_ROOT legacy_readme);
    error_if (negb (contains (u "xv6-tutorial/questions") readme))
      [T "docs/questions/README.md must point to the authoritative xv6-tutorial/questions set"].

(** * Stages *)

Definition validate_stage (st : units_dict * list json) (stage : json) : check (units_dict * list json) :=
  let '(result, orders) := st in
  match stage with
  | JObj stage =>
      let id := get stage "id" in
      let invalid := error [T "invalid stage id: "; piece_of id];; mret st in
      match id with
      | JStr stage_id =>
          if negb (re_fullmatch UNIT_ID_RE stage_id) then invalid
          else
            error_if (has_key stage_id result) [T "duplicate stage id: "; V stage_id];;
            let order := get stage "order" in
            seen ← lift (in_set order orders);
            error_if seen [T "duplicate stage order: "; piece_of order];;
            known ← lift (in_strs (get stage "kind") ["foundation"; "core"]);
            error_if (negb known)
              [T "invalid stage kind for "; V stage_id; T ": "; piece_of (get stage "kind")];;
            mret (dict_set stage_id stage result, orders ++ [order])
      | _ => invalid
      end
  | _ => error [T "each stage must be an object"];; mret st
  end.

Definition validate_stages (manifest : json) : check units_dict :=
  stages ← lift (jget manifest "stages" JNull);
  match stages with
  | JList (s :: stages) =>
      '(result, _) ← loop validate_stage ([], []) (s :: stages);
      mret result
  | _ => error [T "stages must be a non-empty array"];; mret []
  end.

(** * Pages and walkthrough records *)

Definition validate_unit_page (unit : obj) : check () :=
  path ← lift (item unit "path");
  path ← lift (need_str path);
  status ← lift (item unit "status");
  if is_str status "planned" && negb (exists_ host TUTORIAL_ROOT path) then mret tt
  else if negb (is_file host TUTORIAL_ROOT path) then
    error [T "unit page does not exist: "; V path]
  else
    text ← lift (read_text host TUTORIAL_ROOT path);
    each (fun heading => error_if (negb (contains (u heading) text))
            [V path; T " is missing heading: "; T heading]) REQUIRED_UNIT_HEADINGS.

(** [[ \t]] and [[^ \t\r\n]] *)
Definition blank (c : Z) : bool := (c =? space) || (c =? 9).
Definition not_blank (c : Z) : bool := negb (blank c || (c =? cr) || (c =? newline)).

Definition field_pattern (field : string) : pattern :=
  all_of [ bol; lit "-"; plus (MChr blank); lit field; lit "："; star (MChr blank); MChr not_blank;
           star dot_; eol ].
Definition section_pattern (section : string) : pattern :=
  all_of [ bol; lit "##"; plus (MChr blank); lit section; star (MChr blank); eol ].
Definition heading_pattern : pattern := all_of [ bol; lit "##"; plus (MChr blank) ].

(** The text of a section: up to the next heading. *)
Definition section_body (section : string) (text : pystr) : option pystr :=
  match re_search (section_pattern section) text with
  | None => None
  | Some (_, heading_end, _) =>
      let following := rest heading_end in
      Some (match re_search heading_pattern following with
            | Some (next, _, _) => ztake (here next) following
            | None => following
            end)
  end.

Definition validate_review_text (id review : pystr) (text : pystr) : check () :=
  each (fun field => error_if (negb (found_in (field_pattern field) text))
          [T "walkthrough record has missing or empty field for "; V id; T ": "; V review; T " -> "; T field])
    REQUIRED_WALKTHROUGH_FIELDS;;
  each (fun section =>
          let body := default [] (section_body section text) in
          error_if (bool_decide (strip body = []))
            [T "walkthrough record has missing or empty section for "; V id; T ": "; V review; T " -> ";
             T section])
    REQUIRED_WALKTHROUGH_SECTIONS.

Definition review_path_ok (review : pystr) : bool :=
  let parts := path_parts review in
  negb (is_absolute review) && negb (bool_decide (u ".." ∈ parts)) &&
  bool_decide (head parts = Some (u "reviews")) && bool_decide (suffix review = u ".md").

Definition validate_review (id : pystr) (review : json) : check () :=
  review ← lift (need_str review);
  if negb (review_path_ok review) then
    error [T "walkthrough record must be a Markdown file under reviews/: "; V id; T " -> "; V review]
  else if negb (is_file host TUTORIAL_ROOT review) then mret tt
  else
    text ← lift (read_text host TUTORIAL_ROOT review);
    validate_review_text id review text.

Definition validate_walkthrough_reviews (id : pystr) (unit : obj) : check () :=
  reviews ← lift (item unit "reviews");
  reviews ← lift (iterate reviews);
  each (validate_review id) reviews.

(** * Units *)

Record UnitState : Type := {
  us_result : units_dict;
  us_paths : list json;
  us_orders : list (json * json);
  us_owners : list (json * pystr);
  us_boxes : list (json * pystr)
}.

Definition required_fields : list string :=
  [ "id"; "path"; "title"; "stage"; "order"; "status"; "requires"; "related"; "black_boxes";
    "resolves"; "owns"; "outcomes"; "source_anchors"; "evidence_dimensions"; "resources"; "reviews" ].

(** [for concept in unit["owns"]] and [for black_box in unit["black_boxes"]]:
    the owners seen so far. *)
Definition claim (message : piece -> piece -> msg) (id : pystr) (owners : list (json * pystr)) (v : json)
    : check (list (json * pystr)) :=
  owner ← lift (in_dict v owners);
  match owner with
  | Some other => error (message (piece_of v) (V other) ++ [T " and "; V id])
  | None => mret tt
  end;;
  mret ((v, id) :: owners).

Definition owned_twice (concept owner : piece) : msg :=
  [T "explanation "; concept; T " is owned by both "; owner].
Definition introduced_twice (black_box owner : piece) : msg :=
  [T "black box "; black_box; T " is introduced by both "; owner].

(** [a + b] of two lists or two strings, iterated *)
Definition iterate_sum (a b : json) : result (list json) :=
  match a, b with
  | JList l, JList m => Ok (l ++ m)
  | JStr s, JStr t => iterate (JStr (s ++ t))
  | _, _ => Raise TypeError
  end.

(** [set(unit["evidence_dimensions"])]: not empty and of the known dimensions *)
Definition evidence_ok (v : json) : result bool :=
  dimensions ← py_set v;
  Ok (negb (bool_decide (length dimensions = 0%nat)) &&
      forallb (fun d => existsb (is_str d) VALID_EVIDENCE) dimensions).

Definition non_empty_list (v : json) : bool := match v with JList (_ :: _) => true | _ => false end.

(** [stages.get(stage, {}).get("order")] *)
Definition stage_order (stages : units_dict) (stage : json) : json :=
  match stage with
  | JStr s => match lookup_key s stages with Some o => get o "order" | None => JNull end
  | _ => JNull
  end.

Definition same_order (a b : json * json) : bool := json_eq a.1 b.1 && json_eq a.2 b.2.

(** The resources of a unit: each must exist unless the unit is planned. *)
Definition check_resource (id : pystr) (planned : bool) (resource : json) : check () :=
  resource ← lift (need_str resource);
  error_if (negb planned && negb (exists_ host TUTORIAL_ROOT resource))
    [T "missing resource for "; V id; T ": "; V resource].

(** Identity, place and order of a unit. *)
Definition check_place (stages : units_dict) (id : pystr) (unit : obj) (st : UnitState)
    : check (list json * list (json * json)) :=
  error_if (has_key id (us_result st)) [T "duplicate unit id: "; V id];;
  let path := get unit "path" in
  seen ← lift (in_set path (us_paths st));
  error_if seen [T "duplicate unit path: "; piece_of path];;
  let stage := get unit "stage" in
  known ← lift (key_in stage stages);
  error_if (negb known) [T "unknown stage for "; V id; T ": "; piece_of stage];;
  let key := (stage_order stages stage, get unit "order") in
  (if hashable (get unit "order") then mret tt else lift (Raise TypeError));;
  error_if (existsb (same_order key) (us_orders st))
    [T "duplicate unit order within stage "; piece_of stage; T ": "; piece_of (get unit "order")];;
  mret (us_paths st ++ [path], us_orders st ++ [key]).

(** Status, outcomes and evidence of a unit. *)
Definition check_content (id : pystr) (unit : obj) : check () :=
  valid ← lift (in_strs (get unit "status") VALID_STATUSES);
  error_if (negb valid) [T "invalid status for "; V id; T ": "; piece_of (get unit "status")];;
  error_if (negb (non_empty_list (get unit "outcomes"))) [V id; T " must declare at least one outcome"];;
  evidence ← lift (evidence_ok (get unit "evidence_dimensions"));
  error_if (negb evidence) [T "invalid evidence dimensions for "; V id; T ": "; Elided].

(** Resources, reviews and page of a unit. *)
Definition check_files (id : pystr) (unit : obj) : check () :=
  let status := get unit "status" in
  let reviews := get unit "reviews" in
  resources ← lift (iterate_sum (get unit "resources") reviews);
  each (check_resource id (is_str status "planned")) resources;;
  error_if (is_str status "verified" && negb (truthy reviews))
    [T "verified unit has no non-author walkthrough record: "; V id];;
  (if is_str status "verified" && truthy reviews
   then validate_walkthrough_reviews id unit else mret tt);;
  validate_unit_page unit.

Definition validate_unit (stages : units_dict) (st : UnitState) (unit : json) : check UnitState :=
  match unit with
  | JObj unit =>
      let missing := filter (fun field => has_key (u field) unit = false) required_fields in
      if negb (bool_decide (missing = [])) then
        error [T "unit "; piece_of (get unit "id"); T " is missing: "; L (u <$> missing)];; mret st
      else
        let invalid := error [T "invalid unit id: "; piece_of (get unit "id")];; mret st in
        match get unit "id" with
        | JStr id =>
            if negb (re_fullmatch UNIT_ID_RE id) then invalid
            else
              '(paths, orders) ← check_place stages id unit st;
              check_content id unit;;
              owns ← lift (iterate (get unit "owns"));
              owners ← loop (claim owned_twice id) (us_owners st) owns;
              boxes ← lift (iterate (get unit "black_boxes"));
              introduced ← loop (claim introduced_twice id) (us_boxes st) boxes;
              check_files id unit;;
              mret {| us_result := dict_set id unit (us_result st); us_paths := paths;
                      us_orders := orders; us_owners := owners; us_boxes := introduced |}
        | _ => invalid
        end
  | _ => error [T "each unit must be an object"];; mret st
  end.

(** The second loop: relations between the units. *)
Definition check_relation (units : units_dict) (id : pystr) (unit : obj) (relation : string) : check () :=
  targets ← lift (iterate (get unit relation));
  each (fun target =>
          known ← lift (key_in target units);
          error_if (negb known) [V id; T " "; T relation; T " unknown unit: "; piece_of target]) targets.

Definition check_verified_requires (units : units_dict) (id : pystr) (target : json) : check () :=
  known ← lift (key_in target units);
  if negb known then mret tt
  else
    name ← lift (need_str target);
    unit ← lift (of_option KeyError (lookup_key name units));
    error_if (negb (is_str (get unit "status") "verified"))
      [T "verified unit "; V id; T " requires non-verified unit "; V name].

Definition check_relations (units : units_dict) (boxes : list (json * pystr)) (it : pystr * obj)
    : check () :=
  let '(id, unit) := it in
  each (check_relation units id unit) ["requires"; "related"];;
  resolves ← lift (iterate (get unit "resolves"));
  each (fun box =>
          owner ← lift (in_dict box boxes);
          error_if (match owner with Some _ => false | None => true end)
            [V id; T " resolves unknown black box: "; piece_of box]) resolves;;
  if is_str (get unit "status") "verified" then
    requires ← lift (iterate (get unit "requires"));
    each (check_verified_requires units id) requires
  else mret tt.

(** * The dependency graph *)

(** [visit] of [validate_acyclic_requires]: state 1 while the visit of a unit is
    running, 2 after it.  [fuel] bounds the depth of the recursion. *)
Fixpoint visit (fuel : nat) (units : units_dict) (path : list pystr) (state : list (pystr * Z))
    (unit_id : pystr) : check (list (pystr * Z)) :=
  match fuel with
  | O => lift (Raise RecursionError)
  | S fuel =>
      match lookup_key unit_id state with
      | Some 1 => error [T "requires cycle: "; L (path ++ [unit_id])];; mret state
      | Some 2 => mret state
      | _ =>
          unit ← lift (of_option KeyError (lookup_key unit_id units));
          requires ← lift (iterate (get unit "requires"));
          state ← loop (fun (state : list (pystr * Z)) (target : json) =>
                          known ← lift (key_in target units);
                          if (known : bool) then
                            name ← lift (need_str target);
                            visit fuel units (path ++ [unit_id]) state name
                          else mret state)
                    (dict_set unit_id 1 state) requires;
          mret (dict_set unit_id 2 state)
      end
  end.

(** A chain of running visits has no unit twice, so one more level than there
    are units is enough. *)
Definition validate_acyclic_requires (units : units_dict) : check () :=
  loop (visit (S (length units)) units []) [] units.*1;; mret tt.

Definition validate_units (manifest : json) (stages : units_dict) : check units_dict :=
  units ← lift (jget manifest "units" JNull);
  match units with
  | JList (x :: units) =>
      st ← loop (validate_unit stages) {| us_result := []; us_paths := []; us_orders := [];
                                          us_owners := []; us_boxes := [] |} (x :: units);
      each (check_relations (us_result st) (us_boxes st)) (us_result st);;
      validate_acyclic_requires (us_result st);;
      mret (us_result st)
  | _ => error [T "units must be a non-empty array"];; mret []
  end.
End Host.
