(* ===== verification/CurriculumSource.v ===== *)
(** The second half of [tools/validate.py]: the source files the curriculum
    covers, the links of its pages, and the validator as a whole. *)

From stdpp Require Import base tactics list gmap strings numbers list_numbers.
From S2P Require Import Prelude PyText PyBytes PyRegex PyPath PyJson Curriculum.
Open Scope Z_scope.

Section Source.
Context (host : Host).

(** * Source scope *)

Definition source_scope_config (manifest : json) : result (list json * list json) :=
  scope ← jget manifest "source_scope" (JObj []);
  patterns ← jget scope "include_globs" (JList []);
  patterns ← iterate patterns;
  excluded ← jget scope "exclude_paths" (JList []);
  excluded ← py_set excluded;
  Ok (patterns, excluded).

(** [any(fnmatch.fnmatchcase(path, pattern) for pattern in patterns)] *)
Fixpoint matches_any (path : pystr) (patterns : list json) : result bool :=
  match patterns with
  | [] => Ok false
  | pattern :: patterns =>
      pattern ← need_str pattern;
      if fnmatchcase path pattern then Ok true else matches_any path patterns
  end.

Definition source_path_in_scope (path : pystr) (patterns excluded : list json) : result bool :=
  if existsb (json_eq (JStr path)) excluded then Ok false else matches_any path patterns.

(** A set of strings, kept as a list without duplicates. *)
Definition set_add (path : pystr) (s : list pystr) : list pystr :=
  if bool_decide (path ∈ s) then s else s ++ [path].
Definition set_union (a b : list pystr) : list pystr := foldl (flip set_add) a b.

Definition scope_add (patterns excluded : list json) (s : list pystr) (path : pystr)
    : result (list pystr) :=
  scoped ← source_path_in_scope path patterns excluded;
  Ok (if (scoped : bool) then set_add path s else s).

Definition expand_source_scope (manifest : json) : result (list pystr) :=
  '(patterns, excluded) ← source_scope_config manifest;
  foldM (fun s pattern =>
           pattern ← need_str pattern;
           foldM (scope_add patterns excluded) s (glob host pattern)) [] patterns.

Definition baseline_source_scope (manifest : json) (baseline : pystr) : check (list pystr) :=
  match ls_tree host baseline with
  | None => error [T "cannot list files from release baseline "; V baseline];; mret []
  | Some stdout =>
      '(patterns, excluded) ← lift (source_scope_config manifest);
      lift (foldM (scope_add patterns excluded) [] (splitlines stdout))
  end.

(** Whether a path of either side differs from the pinned baseline. *)
Definition source_changed (baseline : pystr) (current_paths baseline_paths : list pystr) (path : pystr)
    : result bool :=
  if negb (bool_decide (path ∈ current_paths)) || negb (bool_decide (path ∈ baseline_paths)) then Ok true
  else match git_show host baseline path with
       | None => Ok true
       | Some stdout => current ← read_bytes host path; Ok (negb (bool_decide (stdout = current)))
       end.

Definition collect_changed (baseline : pystr) (current_paths baseline_paths changed : list pystr)
    (path : pystr) : result (list pystr) :=
  differs ← source_changed baseline current_paths baseline_paths path;
  Ok (if (differs : bool) then changed ++ [path] else changed).

Definition validate_baseline_sources (manifest : json) (development : bool) : check () :=
  release ← lift (match manifest with JObj o => item o "release" | _ => Raise TypeError end);
  baseline ← lift (match release with JObj o => item o "baseline_commit" | _ => Raise TypeError end);
  baseline ← lift (need_str baseline);
  current_paths ← lift (expand_source_scope manifest);
  baseline_paths ← baseline_source_scope manifest baseline;
  changed ← lift (foldM (collect_changed baseline current_paths baseline_paths) []
                    (sorted_strs (set_union current_paths baseline_paths)));
  if bool_decide (changed = []) then mret tt
  else
    let total := if 20 <? len changed then [T ", ... ("; D (len changed); T " total)"] else [] in
    let message := [T "teaching source differs from release baseline "; V baseline; T ": ";
                    L (take 20 changed)] ++ total in
    if development then warn message
    else error (message ++ [T "; pass --development only while migrating"]).

(** * Source areas and anchors *)

Definition area_fields : list string := ["path"; "kind"; "owner"; "secondary"].

(** One source area; the state is the set of owned paths. *)
Definition validate_area (units : list (pystr * obj)) (scoped_paths : list pystr) (owned : list json)
    (area : json) : check (list json) :=
  match area with
  | JObj area =>
      each (fun field => error_if (negb (has_key (u field) area))
              [T "source area is missing "; T field; T ": "; Elided]) area_fields;;
      let path := get area "path" in
      seen ← lift (in_set path owned);
      error_if seen [T "duplicate source coverage path: "; piece_of path];;
      error_if (negb (match path with JStr s => bool_decide (s ∈ scoped_paths) | _ => false end))
        [T "source area is outside source_scope or missing: "; piece_of path];;
      let owner := get area "owner" in
      known ← lift (key_in owner units);
      error_if (negb known) [T "source area "; piece_of path; T " has unknown owner: "; piece_of owner];;
      secondary ← lift (iterate (default (JList []) (lookup_key (u "secondary") area)));
      each (fun target =>
              known ← lift (key_in target units);
              error_if (negb known)
                [T "source area "; piece_of path; T " has unknown secondary unit: "; piece_of target])
        secondary;;
      mret (if (seen : bool) then owned else owned ++ [path])
  | _ => error [T "each source area must be an object"];; mret owned
  end.

(** The paths of a unit's source anchors, as a set. *)
Definition add_anchor_path (s : list json) (anchor : json) : result (list json) :=
  match anchor with
  | JObj anchor => if hashable (get anchor "path") then Ok (s ++ [get anchor "path"]) else Raise TypeError
  | _ => Ok s
  end.
Definition anchor_paths (unit : obj) : result (list json) :=
  anchors ← item unit "source_anchors";
  anchors ← iterate anchors;
  foldM add_anchor_path [] anchors.

(** The owner of an area in a complete release is verified and anchors it. *)
Definition validate_complete_area (units : list (pystr * obj)) (area : json) : check () :=
  owner ← lift (jget area "owner" JNull);
  path ← lift (jget area "path" JNull);
  known ← lift (key_in owner units);
  if negb known then mret tt
  else
    name ← lift (need_str owner);
    unit ← lift (of_option KeyError (lookup_key name units));
    status ← lift (item unit "status");
    error_if (negb (is_str status "verified"))
      [T "coverage_complete source owner is not verified: "; piece_of path; T " -> "; V name];;
    anchored ← lift (anchor_paths unit);
    inside ← lift (in_set path anchored);
    error_if (negb inside)
      [T "coverage_complete source is not anchored by its owner: "; piece_of path; T " -> "; V name].

(** [sorted(owned_paths - scoped_paths)], joined: a path that is no string
    cannot be joined. *)
Definition extra_paths (scoped : list pystr) (owned : list json) : result (list pystr) :=
  mapR need_str (filter (fun v => existsb (json_eq v) (JStr <$> scoped) = false) owned).
Definition missing_paths (scoped : list pystr) (owned : list json) : list pystr :=
  filter (fun p => existsb (json_eq (JStr p)) owned = false) scoped.

Definition validate_completeness (units : list (pystr * obj)) (scoped_paths : list pystr)
    (owned : list json) (areas : list json) : check () :=
  let missing := missing_paths scoped_paths owned in
  error_if (negb (bool_decide (missing = [])))
    [T "coverage_complete release has unowned source paths: "; L (sorted_strs missing)];;
  extra ← lift (extra_paths scoped_paths owned);
  error_if (negb (bool_decide (extra = [])))
    [T "coverage_complete release has out-of-scope paths: "; L (sorted_strs extra)];;
  each (validate_complete_area units) areas.

Definition validate_anchor (id : pystr) (anchor : json) : check () :=
  let invalid := error [T "invalid source anchor in "; V id; T ": "; Elided] in
  match anchor with
  | JObj anchor =>
      if negb (has_keys anchor ["path"; "symbol"]) then invalid
      else
        path ← lift (need_str (get anchor "path"));
        if negb (is_file host REPO_ROOT path) then
          error [T "missing source anchor file for "; V id; T ": "; V path]
        else
          match read_text host REPO_ROOT path with
          | Raise UnicodeDecodeError =>
              error [T "source anchor is not UTF-8 text for "; V id; T ": "; V path]
          | Raise e => lift (Raise e)
          | Ok text =>
              symbol ← lift (need_str (get anchor "symbol"));
              error_if (negb (contains symbol text))
                [T "source anchor token not found for "; V id; T ": "; V path; T ":"; V symbol]
          end
  | _ => invalid
  end.

Definition validate_anchors (it : pystr * obj) : check () :=
  let '(id, unit) := it in
  anchors ← lift (item unit "source_anchors");
  anchors ← lift (iterate anchors);
  each (validate_anchor id) anchors.

Definition validate_source (manifest : json) (units : list (pystr * obj)) : check () :=
  scoped_paths ← lift (expand_source_scope manifest);
  areas ← lift (jget manifest "source_areas" JNull);
  match areas with
  | JList areas =>
      owned ← loop (validate_area units scoped_paths) [] areas;
      complete ← lift (coverage_complete manifest);
      (if (complete : bool) then validate_completeness units scoped_paths owned areas else mret tt);;
      each validate_anchors units
  | _ => error [T "source_areas must be an array"]
  end.

(** * Links *)

(** [[^...]] for characters given by their codes *)
Definition none_of (codes : list Z) (c : Z) : bool := negb (bool_decide (c ∈ codes)).
Definition quote : Z := 34.
Definition apostrophe : Z := 39.

Definition MARKDOWN_INLINE_TARGET_RE : pattern :=
  all_of [ opt (lit "!"); lit "["; star (MChr (none_of (u "]"))); lit "]("; 
           MGrp 1 (plus (MChr (none_of (u ")")))); lit ")" ].

Definition MARKDOWN_REFERENCE_TARGET_RE : pattern :=
  all_of [ bol; upto 3 (MChr blank); lit "["; plus (MChr (none_of (newline :: u "]"))); lit "]:";
           star (MChr blank);
           MAlt (all_of [ lit "<"; MGrp 1 (plus (MChr (none_of (newline :: u ">")))); lit ">" ])
                (MGrp 2 (plus (MChr (fun c => negb (isspace c))))) ].

Definition MARKDOWN_ANGLE_TARGET_RE : pattern :=
  all_of [ lit "<";
           MGrp 1 (MCat (any_of [ all_of [lit "."; opt (lit "."); lit "/"]; lit_i "file:";
                                  all_of [lit_i "http"; opt (lit_i "s"); lit "://"] ])
                        (plus (MChr (fun c => none_of (u "<>") c && negb (isspace c)))));
           lit ">" ].

Definition HTML_TARGET_RE : pattern :=
  let b := word_boundary (alphanumeric host) in
  let spaces := star (MChr isspace) in
  all_of [ lit "<"; MAlt (lit_i "a") (lit_i "img"); b; MStar false (MChr (none_of (u ">"))); b;
           MAlt (lit_i "href") (lit_i "src"); spaces; lit "="; spaces;
           any_of [ all_of [one quote; MGrp 1 (plus (MChr (none_of [quote]))); one quote];
                    all_of [one apostrophe; MGrp 2 (plus (MChr (none_of [apostrophe]))); one apostrophe];
                    MGrp 3 (plus (MChr (fun c => negb (isspace c) && none_of (u ">") c))) ] ].

(** [match.group(1) or match.group(2) or match.group(3)] *)
Definition first_group (g : groups) : pystr :=
  default [] (head (omap (group g) [1; 2; 3])).

(** [list(dict.fromkeys(matches))] *)
Definition markdown_link_targets (text : pystr) : list pystr :=
  let targets p := first_group <$> re_finditer p text in
  set_union [] (targets MARKDOWN_INLINE_TARGET_RE ++ targets MARKDOWN_REFERENCE_TARGET_RE ++
                targets MARKDOWN_ANGLE_TARGET_RE ++ targets HTML_TARGET_RE).

Definition angle (c : Z) : bool := (c =? 60) || (c =? 62).
(** [s.strip("<>")] *)
Fixpoint lstrip_angle (s : pystr) : pystr :=
  match s with c :: s' => if angle c then lstrip_angle s' else s | [] => [] end.
Definition strip_angle (s : pystr) : pystr := rev (lstrip_angle (rev (lstrip_angle s))).

(** [unquote(raw_target.strip().split()[0].strip("<>"))] *)
Definition link_target (raw_target : pystr) : result pystr :=
  first ← index (words (strip raw_target)) 0;
  Ok (unquote (strip_angle first)).

Definition external (target : pystr) : bool :=
  startswith target (u "http://") || startswith target (u "https://") ||
  startswith target (u "mailto:") || startswith target (u "#").

Definition validate_link (page : pystr) (raw_target : pystr) : check () :=
  target ← lift (link_target raw_target);
  if contains (u "docs/xv6-riscv") target || contains (u "../xv6-riscv") target then
    error [T "forbidden implementation-reference link in "; V page; T ": "; V target]
  else if external target then mret tt
  else
    let target_path := hd [] (splitn 1 (u "#") target) in
    if bool_decide (target_path = []) then mret tt
    else if negb (link_inside host page target_path) then
      error [T "link escapes repository in "; V page; T ": "; V target]
    else error_if (negb (link_exists host page target_path))
           [T "broken link in "; V page; T ": "; V target].

Definition validate_markdown_links : check () :=
  each (fun page =>
          text ← lift (read_text host TUTORIAL_ROOT page);
          each (validate_link page) (markdown_link_targets text)) (markdown_files host).

Definition validate_generated_navigation : check () :=
  let '(returncode, stderr, stdout) := navigation host in
  let detail := match strip stderr with [] => strip stdout | s => s end in
  error_if (negb (returncode =? 0)) [T "generated navigation is stale: "; V detail].

(** * The validator *)

Definition validate_manifest (manifest : json) (development : bool) : check () :=
  baseline_ready ← validate_release host manifest;
  stages ← validate_stages manifest;
  units ← validate_units host manifest stages;
  validate_release_completion manifest units;;
  validate_source manifest units;;
  validate_question_migration host manifest;;
  (if (baseline_ready : bool) then validate_baseline_sources manifest development else mret tt);;
  validate_markdown_links;;
  validate_generated_navigation.

(** [load_manifest]: [document] is the parsed file, or [None] when it could not
    be read or parsed.  The document [null] is Python's [None] as well. *)
Definition load_manifest (document : option json) : check (option json) :=
  match document with
  | None => error [T "cannot load curriculum.json: "; Elided];; mret None
  | Some JNull => mret None
  | Some manifest => mret (Some manifest)
  end.

(** [main]: the exit status and what was reported. *)
Definition main (document : option json) (development : bool) : result (Z * Validation) :=
  '(_, validation) ←
    (manifest ← load_manifest document;
     match manifest with
     | None => mret tt
     | Some manifest => validate_manifest manifest development
     end) {| errors := []; warnings := [] |};
  Ok (if bool_decide (errors validation = []) then 0 else 1, validation).
End Source.

(** * A release

    A small complete release: one stage, two verified units, one source file,
    and a host on which the validator accepts it. *)

Definition sample_unit (id path : string) (order : Z) (requires owns : list string) : json :=
  JObj [ kv "id" (jstr id); kv "path" (jstr path); kv "title" (jstr id); kv "stage" (jstr "core");
         kv "order" (JInt order); kv "status" (jstr "verified"); kv "requires" (jstrs requires);
         kv "related" (jstrs []); kv "black_boxes" (jstrs []); kv "resolves" (jstrs []);
         kv "owns" (jstrs owns); kv "outcomes" (jstrs ["trace"]);
         kv "source_anchors" (JList [JObj [kv "path" (jstr "kernel/log.c"); kv "symbol" (jstr "commit()")]]);
         kv "evidence_dimensions" (jstrs ["F"]); kv "resources" (jstrs []);
         kv "reviews" (jstrs ["reviews/r.md"]) ].

Definition sample_commit : string := "0123456789012345678901234567890123456789".

Definition sample_manifest : json :=
  JObj [ kv "schema_version" (JInt 1);
         kv "release" (JObj [ kv "version" (jstr "1.0.0"); kv "status" (jstr "verified");
                              kv "baseline_commit" (jstr sample_commit);
                              kv "coverage_complete" (JBool true); kv "compatibility" (jstr "") ]);
         kv "stages" (JList [JObj [ kv "id" (jstr "core"); kv "title" (jstr "core"); kv "order" (JInt 1);
                                    kv "kind" (jstr "core") ]]);
         kv "units" (JList [ sample_unit "core.log" "core/log.md" 1 [] ["log"];
                             sample_unit "core.crash" "core/crash.md" 2 ["core.log"] ["crash"] ]);
         kv "source_scope" (JObj [ kv "include_globs" (jstrs ["kernel/*.c"]); kv "exclude_paths" (jstrs []) ]);
         kv "source_areas" (JList [JObj [ kv "path" (jstr "kernel/log.c"); kv "kind" (jstr "kernel");
                                          kv "owner" (jstr "core.log"); kv "secondary" (jstrs ["core.crash"]) ]]) ].

(** One text serves as page, review, source file and compatibility entry. *)
Definition sample_lines : list pystr :=
  (u <$> REQUIRED_UNIT_HEADINGS) ++
  ((fun f => u "- " ++ u f ++ u "：x") <$> REQUIRED_WALKTHROUGH_FIELDS) ++
  ((fun s => u "## " ++ u s ++ [newline] ++ u "x") <$> REQUIRED_WALKTHROUGH_SECTIONS) ++
  [u "commit() xv6-tutorial/questions"].
Definition sample_text : pystr := join [newline] sample_lines.
Definition sample_page : pystr := u "[log](core/log.md#top) and [site](https://example.org)".

Definition sample_host : Host :=
  {| commit_exists := fun _ => true;
     ls_tree := fun _ => Some (u "kernel/log.c");
     git_show := fun _ _ => Some [1; 2; 3];
     exists_ := fun _ _ => true;
     is_file := fun _ _ => true;
     read_text := fun _ path => Ok (if bool_decide (path = u "README.md") then sample_page else sample_text);
     read_bytes := fun _ => Ok [1; 2; 3];
     glob := fun _ => [u "kernel/log.c"];
     legacy_files := [];
     markdown_files := [u "README.md"];
     link_inside := fun _ _ => true;
     link_exists := fun _ _ => true;
     navigation := (0, [], []);
     alphanumeric := fun _ => false |}.

Lemma sample_accepted :
  main sample_host (Some sample_manifest) false = Ok (0, {| errors := []; warnings := [] |}).
Proof. vm_compute. reflexivity. Qed.
