(* ===== verification/CurriculumGraph.v ===== *)
(** The dependency check of the curriculum: the depth-first search of
    [validate_acyclic_requires] returns on every readable set of units and
    reports an error exactly when the [requires] relation has a cycle. *)

From stdpp Require Import base tactics list gmap strings numbers list_numbers relations.
From S2P Require Import Prelude PyText PyBytes PyJson Curriculum.
Open Scope Z_scope.

(** * The graph *)

Abbreviation units_dict := (list (pystr * obj)).

(** The entries of [unit["requires"]]. *)
Definition requires_of (units : units_dict) (id : pystr) (l : list json) : Prop :=
  exists unit, lookup_key id units = Some unit /\ iterate (get unit "requires") = Ok l.

(** [b] is required by [a] and is a unit. *)
Definition edge (units : units_dict) (a b : pystr) : Prop :=
  exists l, requires_of units a l /\ JStr b ∈ l /\ b ∈ units.*1.

(** The loops over [requires] do not raise. *)
Definition readable (units : units_dict) : Prop :=
  forall id, id ∈ units.*1 -> exists l, requires_of units id l /\ forallb hashable l = true.

(** * Running checks *)

(** What a check appended. *)
Definition appended (v v' : Validation) (new : list msg) : Prop :=
  v' = {| errors := errors v ++ new; warnings := warnings v |}.

Lemma appended_nil v : appended v v [].
Proof. unfold appended. rewrite app_nil_r. by destruct v. Qed.
Lemma appended_trans v v1 v2 l1 l2 : appended v v1 l1 -> appended v1 v2 l2 -> appended v v2 (l1 ++ l2).
Proof. intros -> ->. unfold appended. cbn. by rewrite app_assoc. Qed.

Lemma key_in_unit (units : units_dict) (target : json) :
  hashable target = true ->
  (exists name, target = JStr name /\ name ∈ units.*1 /\ key_in target units = Ok true) \/
  (key_in target units = Ok false /\ forall name, target = JStr name -> name ∉ units.*1).
Proof.
  intros Hh. unfold key_in. rewrite Hh. destruct target as [| | | |name| |]; try (right; split; [done|by intros]).
  unfold has_key. destruct (lookup_key name units) eqn:E.
  - left. exists name. split; [done|]. split; [apply lookup_key_elem; eauto|done].
  - right. split; [done|]. intros n [= <-] Hin. apply lookup_key_elem in Hin as [? ?]. congruence.
Qed.

Section Search.
Context (units : units_dict) (Hread : readable units).

Definition gray (st : list (pystr * Z)) (x : pystr) : Prop := lookup_key x st = Some 1.
Definition black (st : list (pystr * Z)) (x : pystr) : Prop := lookup_key x st = Some 2.

(** What holds when [visit] is called for [x] with the running visits [path]. *)
Record called (path : list pystr) (st : list (pystr * Z)) : Prop := {
  call_gray : forall y, gray st y <-> y ∈ path;
  call_colors : forall y c, lookup_key y st = Some c -> c = 1 \/ c = 2;
  call_nodup : NoDup path;
  call_units : forall y, y ∈ path -> y ∈ units.*1
}.

(** What a visit of [x] does to the colours when it appends [new]. *)
Record visited (path : list pystr) (st st' : list (pystr * Z)) (new : list msg) : Prop := {
  vis_called : called path st';
  vis_black : forall y, black st y -> black st' y;
  vis_cycle : new <> [] -> exists y, tc (edge units) y y;
  vis_acc : (forall y, black st y -> Acc (flip (edge units)) y) -> new = [] ->
            forall y, black st' y -> Acc (flip (edge units)) y
}.

Lemma visited_refl path st : called path st -> visited path st st [].
Proof. intros. by split. Qed.

Lemma visited_trans path st1 st2 st3 l1 l2 :
  visited path st1 st2 l1 -> visited path st2 st3 l2 -> visited path st1 st3 (l1 ++ l2).
Proof.
  intros [Hc1 Hb1 Hy1 Ha1] [Hc2 Hb2 Hy2 Ha2]. split; auto.
  - intros H. destruct l1 as [|m l1]; [by apply Hy2|by apply Hy1].
  - intros Hb [-> ->]%app_nil. auto.
Qed.

(** The conclusion of a visit of [x]. *)
Definition visits (fuel : nat) (path : list pystr) (st : list (pystr * Z)) (x : pystr) : Prop :=
  forall v, exists st' v' new,
    visit fuel units path st x v = Ok (st', v') /\ appended v v' new /\
    visited path st st' new /\ (new = [] -> black st' x).

Lemma loop_cons {S A} (f : S -> A -> check S) s a l v :
  loop f s (a :: l) v = match f s a v with Ok (s', v') => loop f s' l v' | Raise e => Raise e end.
Proof. reflexivity. Qed.

Lemma run_bind {A B} (m : check A) (f : A -> check B) v a v' : m v = Ok (a, v') -> (m ≫= f) v = f a v'.
Proof.
  intros E. change ((m ≫= f) v) with (match m v with Ok (a, v) => f a v | Raise e => Raise e end).
  by rewrite E.
Qed.
Lemma lift_bind {A B} (r : result A) a (f : A -> check B) v : r = Ok a -> (x ← lift r; f x) v = f a v.
Proof. by intros ->. Qed.

(** The loop over the targets of a unit, given what the visits do. *)
Lemma targets_visited fuel path (Hvisit : forall st t, called path st -> t ∈ units.*1 ->
    (forall y, y ∈ path -> tc (edge units) y t) -> visits fuel path st t) l : forall st v,
  called path st -> forallb hashable l = true ->
  (forall t, JStr t ∈ l -> t ∈ units.*1 -> forall y, y ∈ path -> tc (edge units) y t) ->
  exists st' v' new,
    loop (fun (state : list (pystr * Z)) (target : json) =>
            known ← lift (key_in target units);
            if (known : bool) then
              name ← lift (need_str target);
              visit fuel units path state name
            else mret state) st l v = Ok (st', v') /\
    appended v v' new /\ visited path st st' new /\
    (new = [] -> forall t, JStr t ∈ l -> t ∈ units.*1 -> black st' t).
Proof.
  induction l as [|target l IH]; intros st v Hc Hh He.
  { exists st, v, []. split; [done|]. split; [apply appended_nil|]. split; [by apply visited_refl|].
    intros _ t Ht. by apply not_elem_of_nil in Ht. }
  cbn [forallb] in Hh. apply andb_true_iff in Hh as [Hh1 Hh2]. rewrite loop_cons.
  assert (Hrest : forall t, JStr t ∈ l -> t ∈ units.*1 -> forall y, y ∈ path -> tc (edge units) y t).
  { intros t Ht. apply He. by right. }
  destruct (key_in_unit units target Hh1) as [(name & -> & Hname & Ek)|[Ek Hno]].
  - rewrite (lift_bind _ _ _ _ Ek). cbv beta iota. rewrite (lift_bind (need_str (JStr name)) name) by done.
    destruct (Hvisit st name Hc Hname (He name ltac:(left) Hname) v) as (st1 & v1 & n1 & -> & Ha1 & Hv1 & Hb1).
    destruct (IH st1 v1 (vis_called _ _ _ _ Hv1) Hh2 Hrest) as (st2 & v2 & n2 & -> & Ha2 & Hv2 & Hb2).
    exists st2, v2, (n1 ++ n2). split; [done|]. split; [by eapply appended_trans|].
    split; [by eapply visited_trans|]. intros [-> ->]%app_nil t [[= ->]|Ht]%elem_of_cons Hu; [|by auto].
    apply (vis_black _ _ _ _ Hv2). auto.
  - rewrite (lift_bind _ _ _ _ Ek). cbv beta iota. cbn [mret check_ret].
    destruct (IH st v Hc Hh2 Hrest) as (st2 & v2 & n2 & -> & Ha2 & Hv2 & Hb2).
    exists st2, v2, n2. split; [done|]. split; [done|]. split; [done|].
    intros Hn t [Ht|Ht]%elem_of_cons Hu; [|by auto]. by destruct (Hno t (eq_sym Ht)).
Qed.

(** Marking a unit as running, and as finished. *)
Lemma called_enter path st x :
  called path st -> x ∈ units.*1 -> x ∉ path -> called (path ++ [x]) (dict_set x 1 st).
Proof.
  intros [Hg Hcol Hnd Hu] Hx Hp. split.
  - intros y. unfold gray. destruct (decide (x = y)) as [->|Hne].
    + rewrite lookup_dict_set. split; [intros _; apply elem_of_app; right; left|done].
    + rewrite lookup_dict_set_ne by done. rewrite (Hg y), elem_of_app, list_elem_of_singleton. naive_solver.
  - intros y c. destruct (decide (x = y)) as [->|Hne].
    + rewrite lookup_dict_set. intros [= <-]. auto.
    + rewrite lookup_dict_set_ne by done. apply Hcol.
  - apply NoDup_app. split; [done|]. split; [|apply NoDup_singleton].
    intros y Hy ->%list_elem_of_singleton. done.
  - intros y [?|Hy%list_elem_of_singleton]%elem_of_app; [auto|by subst].
Qed.

Lemma called_leave path st x : called (path ++ [x]) st -> x ∉ path -> called path (dict_set x 2 st).
Proof.
  intros [Hg Hcol Hnd Hu] Hp. apply NoDup_app in Hnd as (Hnd & _ & _). split.
  - intros y. unfold gray. destruct (decide (x = y)) as [->|Hne].
    + rewrite lookup_dict_set. split; [done|by intros].
    + rewrite lookup_dict_set_ne by done. rewrite (Hg y), elem_of_app, list_elem_of_singleton. naive_solver.
  - intros y c. destruct (decide (x = y)) as [->|Hne].
    + rewrite lookup_dict_set. intros [= <-]. auto.
    + rewrite lookup_dict_set_ne by done. apply Hcol.
  - done.
  - intros y Hy. apply Hu, elem_of_app. auto.
Qed.

(** The colours over a whole visit, from those inside it. *)
Lemma visited_unit path st st' new x l :
  called path st -> x ∉ path -> ~ black st x -> requires_of units x l ->
  visited (path ++ [x]) (dict_set x 1 st) st' new ->
  (new = [] -> forall t, JStr t ∈ l -> t ∈ units.*1 -> black st' t) ->
  visited path st (dict_set x 2 st') new.
Proof.
  intros Hc Hp Hnb Hl [Hc' Hb Hcyc Hacc] Hall.
  assert (Hold : forall y, black st y -> x <> y /\ black (dict_set x 1 st) y).
  { intros y Hy. assert (x <> y) by (intros ->; done). split; [done|].
    unfold black. by rewrite lookup_dict_set_ne. }
  assert (Hmid : forall y, black (dict_set x 1 st) y -> black st y).
  { intros y Hy. unfold black in *. destruct (decide (x = y)) as [->|Hne].
    - by rewrite lookup_dict_set in Hy.
    - by rewrite lookup_dict_set_ne in Hy. }
  split; [by apply called_leave| |done|].
  - intros y [Hne Hy]%Hold. unfold black. rewrite lookup_dict_set_ne by done. by apply Hb.
  - intros Hst -> y Hy. assert (Hin : forall z, black st' z -> Acc (flip (edge units)) z) by (apply Hacc; auto).
    destruct (decide (x = y)) as [<-|Hne].
    + constructor. intros t (l' & Hl' & Ht & Hu). apply Hin, Hall; [done| |done].
      destruct Hl as (? & E1 & E2), Hl' as (? & E1' & E2'). congruence.
    + unfold black in Hy. rewrite lookup_dict_set_ne in Hy by done. auto.
Qed.

Lemma path_bound path st : called path st -> (length path <= length units)%nat.
Proof.
  intros [_ _ Hnd Hu]. rewrite <-(length_fmap fst units). by apply submseteq_length, NoDup_submseteq.
Qed.

Lemma visit_spec fuel : forall path st x,
  (length units < fuel + length path)%nat -> called path st -> x ∈ units.*1 ->
  (forall y, y ∈ path -> tc (edge units) y x) -> visits fuel path st x.
Proof.
  induction fuel as [|fuel IH]; intros path st x Hf Hc Hx Hpath v.
  { pose proof (path_bound path st Hc). cbn in Hf. lia. }
  cbn [visit]. destruct (lookup_key x st) as [c|] eqn:E.
  - destruct (call_colors _ _ Hc x c E) as [->| ->].
    + exists st, {| errors := errors v ++ [[T "requires cycle: "; L (path ++ [x])]]; warnings := warnings v |},
        [[T "requires cycle: "; L (path ++ [x])]].
      split; [done|]. split; [done|]. split; [|done]. split; [done|auto| |done].
      intros _. exists x. apply Hpath, (call_gray _ _ Hc), E.
    + exists st, v, []. split; [done|]. split; [apply appended_nil|]. split; [by apply visited_refl|done].
  - assert (Hp : x ∉ path) by (rewrite <-(call_gray _ _ Hc x); unfold gray; congruence).
    destruct (Hread x Hx) as (l & Hl & Hh). pose proof Hl as (unit & Eu & El).
    destruct (targets_visited fuel (path ++ [x])) with (l := l) (st := dict_set x 1 st) (v := v)
      as (st' & v' & new & Hrun & Ha & Hv & Hb).
    + intros st1 t H1 H2 H3. apply IH; [rewrite length_app; cbn; lia|done..].
    + by apply called_enter.
    + done.
    + intros t Ht Hu y [Hy|Hy%list_elem_of_singleton]%elem_of_app.
      * eapply tc_r; [by apply Hpath|]. by exists l.
      * subst y. apply tc_once. by exists l.
    + exists (dict_set x 2 st'), v', new. split.
      { rewrite (lift_bind _ unit) by (by rewrite Eu). rewrite (lift_bind _ _ _ _ El).
        by rewrite (run_bind _ _ _ _ _ Hrun). }
      split; [done|]. split; [|intros _; apply lookup_dict_set].
      eapply visited_unit; eauto. unfold black. congruence.
Qed.

(** All units are visited in turn. *)
Lemma visits_all ids : forall st v,
  called [] st -> (forall x, x ∈ ids -> x ∈ units.*1) ->
  exists st' v' new,
    loop (visit (S (length units)) units []) st ids v = Ok (st', v') /\ appended v v' new /\
    visited [] st st' new /\ (new = [] -> forall x, x ∈ ids -> black st' x).
Proof.
  induction ids as [|x ids IH]; intros st v Hc Hi.
  { exists st, v, []. split; [done|]. split; [apply appended_nil|]. split; [by apply visited_refl|].
    intros _ x Hx. by apply not_elem_of_nil in Hx. }
  rewrite loop_cons.
  destruct (visit_spec (S (length units)) [] st x ltac:(cbn; lia) Hc ltac:(apply Hi; left)
    ltac:(intros y Hy; by apply not_elem_of_nil in Hy) v) as (st1 & v1 & n1 & -> & Ha1 & Hv1 & Hb1).
  destruct (IH st1 v1 (vis_called _ _ _ _ Hv1) ltac:(intros y Hy; apply Hi; by right))
    as (st2 & v2 & n2 & -> & Ha2 & Hv2 & Hb2).
  exists st2, v2, (n1 ++ n2). split; [done|]. split; [by eapply appended_trans|].
  split; [by eapply visited_trans|]. intros [-> ->]%app_nil y [->|Hy]%elem_of_cons; [|by auto].
  apply (vis_black _ _ _ _ Hv2). auto.
Qed.

Lemma acc_no_cycle x : Acc (flip (edge units)) x -> ~ tc (edge units) x x.
Proof.
  induction 1 as [x _ IH]. intros Ht. inversion Ht as [? ? He|? y ? He Hr]; subst.
  - by apply (IH x He).
  - apply (IH y He). by eapply tc_r.
Qed.

Lemma edge_unit x y : edge units x y -> x ∈ units.*1.
Proof. intros (l & (unit & E & _) & _). apply lookup_key_elem. eauto. Qed.

Lemma tc_unit x y : tc (edge units) x y -> x ∈ units.*1.
Proof. by intros [? ? ?%edge_unit|? ? ? ?%edge_unit]. Qed.

Lemma acyclic_spec v : exists v' new,
  validate_acyclic_requires units v = Ok (tt, v') /\ appended v v' new /\
  (new = [] <-> forall x, ~ tc (edge units) x x).
Proof.
  destruct (visits_all units.*1 [] v) as (st & v' & new & Hrun & Ha & Hv & Hb).
  { split; [intros y; unfold gray; cbn; split; [done|by intros ?%not_elem_of_nil]| |constructor|].
    - by intros y c.
    - by intros y ?%not_elem_of_nil. }
  { done. }
  exists v', new. split.
  { unfold validate_acyclic_requires. by rewrite (run_bind _ _ _ _ _ Hrun). }
  split; [done|]. split.
  - intros Hn x Ht. apply (acc_no_cycle x); [|done]. apply (vis_acc _ _ _ _ Hv); [by intros|done|].
    apply Hb; [done|]. by eapply tc_unit.
  - intros Hno. destruct new as [|m new]; [done|].
    destruct (vis_cycle _ _ _ _ Hv) as [y Hy]; [done|]. by destruct (Hno y).
Qed.
End Search.

(** C23: on units whose prerequisites can be read, the depth-first search
    returns and reports an error exactly when the [requires] relation has a
    cycle. *)
Theorem requires_cycle_reported units v :
  readable units ->
  exists v', validate_acyclic_requires units v = Ok (tt, v') /\
    (errors v' = errors v <-> forall x, ~ tc (edge units) x x).
Proof.
  intros Hr. destruct (acyclic_spec units Hr v) as (v' & new & E & -> & Hn). eexists. split; [exact E|].
  rewrite <-Hn. cbn. split; [|by intros ->; apply app_nil_r].
  intros H. apply (f_equal length) in H. rewrite length_app in H. destruct new; [done|cbn in H; lia].
Qed.

(** Two units that require each other. *)
Definition loop_units : units_dict :=
  [(u "a", [kv "requires" (jstrs ["b"])]); (u "b", [kv "requires" (jstrs ["a"])])].

Lemma requires_cycle_reported_witness :
  readable loop_units /\
  exists v', validate_acyclic_requires loop_units {| errors := []; warnings := [] |} = Ok (tt, v') /\
    (errors v' = [] <-> forall x, ~ tc (edge loop_units) x x) /\ length (errors v') = 1%nat.
Proof.
  assert (Hr : readable loop_units).
  { intros id [->|[->|[]%not_elem_of_nil]%elem_of_cons]%elem_of_cons;
      eexists; (split; [eexists; split; reflexivity|reflexivity]). }
  split; [exact Hr|].
  destruct (requires_cycle_reported loop_units {| errors := []; warnings := [] |} Hr) as (v' & E & H).
  exists v'. split; [exact E|]. split; [exact H|]. vm_compute in E. injection E as <-. reflexivity.
Defined.
