(* ===== verification/CurriculumRun.v ===== *)
(** Reasoning about checks: every check of the validator only appends messages
    ([grows]), so a run that ends without a message never appended one, and
    what it tested on the way holds ([quiet]). *)

From stdpp Require Import base tactics list gmap strings numbers list_numbers.
From S2P Require Import Prelude PyText PyBytes PyJson PyRegex PyPath Curriculum CurriculumSource CurriculumGraph.
Open Scope Z_scope.

(** * Checks only append *)

Definition grows {A} (m : check A) : Prop :=
  forall v a v', m v = Ok (a, v') -> exists new, errors v' = errors v ++ new.

Lemma grows_ret {A} (a : A) : grows (mret a).
Proof. intros v b v' [= _ <-]. exists []. by rewrite app_nil_r. Qed.
Lemma grows_lift {A} (r : result A) : grows (lift r).
Proof. intros v a v'. unfold lift. destruct r; [|done]. intros [= _ <-]. exists []. by rewrite app_nil_r. Qed.
Lemma grows_error m : grows (error m).
Proof. intros v a v' [= _ <-]. by exists [m]. Qed.
Lemma grows_warn m : grows (warn m).
Proof. intros v a v' [= _ <-]. exists []. by rewrite app_nil_r. Qed.
Lemma grows_error_if b m : grows (error_if b m).
Proof. destruct b; [apply grows_error|apply grows_ret]. Qed.
Lemma grows_bind {A B} (m : check A) (f : A -> check B) : grows m -> (forall a, grows (f a)) -> grows (m ≫= f).
Proof.
  intros Hm Hf v b v'.
  change ((m ≫= f) v) with (match m v with Ok (a, v) => f a v | Raise e => Raise e end).
  destruct (m v) as [[a v1]|] eqn:E; [|done]. intros E2.
  destruct (Hm _ _ _ E) as [n1 E1], (Hf _ _ _ _ E2) as [n2 E3]. exists (n1 ++ n2).
  by rewrite E3, E1, app_assoc.
Qed.
Lemma grows_loop {S A} (f : S -> A -> check S) l : (forall s a, grows (f s a)) -> forall s, grows (loop f s l).
Proof. intros Hf. induction l as [|a l IH]; intros s; [apply grows_ret|]. by apply grows_bind. Qed.
Lemma grows_each {A} (f : A -> check ()) l : (forall a, grows (f a)) -> grows (each f l).
Proof. intros. by apply grows_loop. Qed.

Create HintDb grows.
#[export] Hint Resolve grows_ret grows_lift grows_error grows_warn grows_error_if : grows.

(** Along the structure of a check. *)
Ltac grow :=
  repeat first
    [ progress intros
    | solve [eauto 2 with grows]
    | apply grows_bind
    | apply grows_each
    | apply grows_loop
    | match goal with
      | |- grows (if ?b then _ else _) => destruct b
      | |- grows (match ?x with _ => _ end) => destruct x
      | |- grows (let _ := _ in _) => cbv zeta
      end ].

Lemma grows_visit fuel units path state id : grows (visit fuel units path state id).
Proof. revert path state id. induction fuel; cbn [visit]; grow. Qed.
#[export] Hint Resolve grows_visit : grows.

Section Growth.
Context (host : Host).
Lemma grows_release m : grows (validate_release host m).
Proof. unfold validate_release. grow. Qed.
Lemma grows_completion m us : grows (validate_release_completion m us).
Proof. unfold validate_release_completion. grow. Qed.
Lemma grows_migration m : grows (validate_question_migration host m).
Proof. unfold validate_question_migration. grow. Qed.
Lemma grows_stage st s : grows (validate_stage st s).
Proof. unfold validate_stage. grow. Qed.
Lemma grows_page unit : grows (validate_unit_page host unit).
Proof. unfold validate_unit_page. grow. Qed.
Lemma grows_review_text a b c : grows (validate_review_text a b c).
Proof. unfold validate_review_text. grow. Qed.
Lemma grows_place a b c d : grows (check_place a b c d).
Proof. unfold check_place. grow. Qed.
Lemma grows_content a b : grows (check_content a b).
Proof. unfold check_content. grow. Qed.
Lemma grows_claim a b c d : grows (claim a b c d).
Proof. unfold claim. grow. Qed.
Lemma grows_relation a b c d : grows (check_relation a b c d).
Proof. unfold check_relation. grow. Qed.
Lemma grows_verified a b c : grows (check_verified_requires a b c).
Proof. unfold check_verified_requires. grow. Qed.
Lemma grows_resource a b c : grows (check_resource host a b c).
Proof. unfold check_resource. grow. Qed.
Lemma grows_acyclic a : grows (validate_acyclic_requires a).
Proof. unfold validate_acyclic_requires. grow. Qed.
End Growth.
#[export] Hint Resolve grows_release grows_completion grows_migration grows_stage grows_page
  grows_review_text grows_place grows_content grows_claim grows_relation grows_verified
  grows_resource grows_acyclic : grows.

Section Growth2.
Context (host : Host).
Lemma grows_stages m : grows (validate_stages m).
Proof. unfold validate_stages. grow. Qed.
Lemma grows_review a b : grows (validate_review host a b).
Proof. unfold validate_review. grow. Qed.
Lemma grows_relations a b c : grows (check_relations a b c).
Proof. unfold check_relations. grow. Qed.
Lemma grows_scope m b : grows (baseline_source_scope host m b).
Proof. unfold baseline_source_scope. grow. Qed.
Lemma grows_area a b c d : grows (validate_area a b c d).
Proof. unfold validate_area. grow. Qed.
Lemma grows_complete_area a b : grows (validate_complete_area a b).
Proof. unfold validate_complete_area. grow. Qed.
Lemma grows_anchor a b : grows (validate_anchor host a b).
Proof. unfold validate_anchor. grow. Qed.
Lemma grows_link a b : grows (validate_link host a b).
Proof. unfold validate_link. grow. Qed.
Lemma grows_navigation : grows (validate_generated_navigation host).
Proof. unfold validate_generated_navigation. grow. Qed.
End Growth2.
#[export] Hint Resolve grows_stages grows_review grows_relations grows_scope grows_area
  grows_complete_area grows_anchor grows_link grows_navigation : grows.

Section Growth3.
Context (host : Host).
Lemma grows_files a b : grows (check_files host a b).
Proof. unfold check_files, validate_walkthrough_reviews. grow. Qed.
Lemma grows_baseline m d : grows (validate_baseline_sources host m d).
Proof. unfold validate_baseline_sources. grow. Qed.
Lemma grows_completeness a b c d : grows (validate_completeness a b c d).
Proof. unfold validate_completeness. grow. Qed.
Lemma grows_anchors it : grows (validate_anchors host it).
Proof. unfold validate_anchors. grow. Qed.
Lemma grows_links : grows (validate_markdown_links host).
Proof. unfold validate_markdown_links. grow. Qed.
End Growth3.
#[export] Hint Resolve grows_files grows_baseline grows_completeness grows_anchors grows_links : grows.

Section Growth4.
Context (host : Host).
Lemma grows_unit a b c : grows (validate_unit host a b c).
Proof. unfold validate_unit. grow. Qed.
Lemma grows_source m us : grows (validate_source host m us).
Proof. unfold validate_source. grow. Qed.
End Growth4.
#[export] Hint Resolve grows_unit grows_source : grows.

Lemma grows_units host m st : grows (validate_units host m st).
Proof. unfold validate_units. grow. Qed.
#[export] Hint Resolve grows_units : grows.

(** * Quiet runs *)

(** The check returns [a] and appended no error. *)
Definition quiet {A} (m : check A) (a : A) : Prop :=
  exists v v', m v = Ok (a, v') /\ errors v' = errors v.

Lemma quiet_ret {A} (a b : A) : quiet (mret a) b -> a = b.
Proof. by intros (v & v' & [= -> _] & _). Qed.
Lemma quiet_lift {A} (r : result A) a : quiet (lift r) a -> r = Ok a.
Proof. intros (v & v' & E & _). unfold lift in E. destruct r; [|done]. by injection E as ->. Qed.
Lemma quiet_error m a : ~ quiet (error m) a.
Proof.
  intros (v & v' & [= _ <-] & E). cbn in E. apply (f_equal length) in E.
  rewrite length_app in E. cbn in E. lia.
Qed.
Lemma quiet_error_if b m a : quiet (error_if b m) a -> b = false.
Proof. destruct b; [|done]. by intros ?%quiet_error. Qed.
Lemma quiet_bind {A B} (m : check A) (f : A -> check B) b :
  grows m -> (forall a, grows (f a)) -> quiet (m ≫= f) b -> exists a, quiet m a /\ quiet (f a) b.
Proof.
  intros Hm Hf (v & v' & E & Ee).
  change ((m ≫= f) v) with (match m v with Ok (a, v) => f a v | Raise e => Raise e end) in E.
  destruct (m v) as [[a v1]|] eqn:E1; [|done].
  destruct (Hm _ _ _ E1) as [n1 H1], (Hf _ _ _ _ E) as [n2 H2].
  rewrite H1, <-app_assoc in H2. rewrite H2 in Ee.
  assert (n1 = [] /\ n2 = []) as [-> ->].
  { apply (f_equal length) in Ee. rewrite !length_app in Ee. destruct n1, n2; cbn in Ee; [done|lia..]. }
  rewrite app_nil_r in H1. cbn in H2. rewrite app_nil_r in H2.
  exists a. split; [by exists v, v1|]. exists v1, v'. split; [done|]. congruence.
Qed.
Lemma quiet_each {A} (f : A -> check ()) l : (forall a, grows (f a)) -> quiet (each f l) tt ->
  forall a, a ∈ l -> quiet (f a) tt.
Proof.
  intros Hf. induction l as [|x l IH]; intros Hq a Ha; [by apply not_elem_of_nil in Ha|].
  apply quiet_bind in Hq as ([] & H1 & H2); [|done|intros; by apply grows_loop].
  apply elem_of_cons in Ha as [->|Ha]; [done|]. by apply IH.
Qed.

(** A loop without a message: its body ran without one for every element, in
    the state reached so far. *)
Lemma quiet_loop {S A} (f : S -> A -> check S) (P : S -> S -> Prop) l :
  (forall s a, grows (f s a)) -> (forall s, P s s) -> (forall s1 s2 s3, P s1 s2 -> P s2 s3 -> P s1 s3) ->
  (forall s s' a, a ∈ l -> quiet (f s a) s' -> P s s') ->
  forall s s', quiet (loop f s l) s' -> P s s'.
Proof.
  intros Hf Hr Ht. induction l as [|a l IH]; intros Hs s s' Hq.
  - apply quiet_ret in Hq as <-. done.
  - apply quiet_bind in Hq as (s1 & H1 & H2); [|done|intros; by apply grows_loop].
    eapply Ht; [eapply Hs; [left|done]|]. apply IH; [|done]. intros. eapply Hs; [by right|done].
Qed.

(** Inversion of a quiet run along the structure of a check. *)
Ltac quiet_inv H :=
  lazymatch type of H with
  | quiet (mret _) _ => apply quiet_ret in H
  | quiet (lift _) _ => apply quiet_lift in H
  | quiet (error _) _ => by apply quiet_error in H
  | quiet (error_if _ _) _ => apply quiet_error_if in H
  | quiet (_ ≫= _) _ =>
      let a := fresh "a" in let H1 := fresh "Hq" in
      apply quiet_bind in H as (a & H1 & H); [quiet_inv H1|by grow|by grow]
  | _ => idtac
  end.

(** For one element of a loop: the states before and after its turn, and what
    holds between the latter and the end. *)
Lemma quiet_loop_in {S A} (f : S -> A -> check S) (P : S -> S -> Prop) l :
  (forall s a, grows (f s a)) -> (forall s, P s s) -> (forall s1 s2 s3, P s1 s2 -> P s2 s3 -> P s1 s3) ->
  (forall s s' a, a ∈ l -> quiet (f s a) s' -> P s s') ->
  forall s s', quiet (loop f s l) s' -> forall a, a ∈ l ->
  exists s1 s2, quiet (f s1 a) s2 /\ P s2 s'.
Proof.
  intros Hf Hr Ht. induction l as [|x l IH]; intros Hs s s' Hq a Ha; [by apply not_elem_of_nil in Ha|].
  apply quiet_bind in Hq as (s1 & H1 & H2); [|done|intros; by apply grows_loop].
  assert (Hs' : forall s s' a, a ∈ l -> quiet (f s a) s' -> P s s') by (intros ????; apply Hs; by right).
  apply elem_of_cons in Ha as [->|Ha].
  - exists s, s1. split; [done|]. by apply (quiet_loop f P l).
  - by apply (IH Hs' s1 s').
Qed.

(** And where an element of the result came from. *)
Lemma quiet_loop_inv {S A} (f : S -> A -> check S) (I : S -> Prop) l :
  (forall s a, grows (f s a)) -> (forall s s' a, a ∈ l -> I s -> quiet (f s a) s' -> I s') ->
  forall s s', I s -> quiet (loop f s l) s' -> I s'.
Proof.
  intros Hf. induction l as [|a l IH]; intros Hs s s' Hi Hq; [by apply quiet_ret in Hq as <-|].
  apply quiet_bind in Hq as (s1 & H1 & H2); [|done|intros; by apply grows_loop].
  apply (IH ltac:(intros ????; apply Hs; by right) s1 s'); [|done]. by apply (Hs s s1 a ltac:(left)).
Qed.

(** One step of a sequence, with names. *)
Tactic Notation "peel" hyp(H) "as" ident(a) ident(E) :=
  apply quiet_bind in H as (a & E & H); [quiet_inv E|by grow|by grow].
