(* ===== verification/CurriculumProps.v ===== *)
(** What the manifest validator guarantees of a curriculum it accepts. *)

From stdpp Require Import base tactics list gmap strings numbers list_numbers relations.
From S2P Require Import Prelude PyText PyBytes PyJson PyRegex PyPath Curriculum CurriculumSource.
From S2P Require Import CurriculumGraph CurriculumRun.
Open Scope Z_scope.

(** * Units *)

Definition verified (units : units_dict) (id : pystr) : Prop :=
  exists unit, lookup_key id units = Some unit /\ is_str (get unit "status") "verified" = true.

(** Every entry of the relation is a unit. *)
Definition all_known (units : units_dict) (relation : string) : Prop :=
  forall id unit, lookup_key id units = Some unit ->
  exists l, iterate (get unit relation) = Ok l /\
    forall t, t ∈ l -> exists name, t = JStr name /\ name ∈ units.*1.

(** [id] explains [concept]. *)
Definition owns (units : units_dict) (id concept : pystr) : Prop :=
  exists unit l, lookup_key id units = Some unit /\ iterate (get unit "owns") = Ok l /\ JStr concept ∈ l.

Lemma key_in_true (units : units_dict) t :
  key_in t units = Ok true -> exists name, t = JStr name /\ name ∈ units.*1 /\ hashable t = true.
Proof.
  unfold key_in. destruct (hashable t) eqn:Eh; [|done]. destruct t as [| | | |s| |]; try done.
  unfold has_key. destruct (lookup_key s units) eqn:E; [|done]. intros _. exists s.
  split; [done|]. split; [|done]. apply lookup_key_elem. eauto.
Qed.

Lemma quiet_relation units id unit relation :
  quiet (check_relation units id unit relation) tt ->
  exists l, iterate (get unit relation) = Ok l /\ forall t, t ∈ l -> key_in t units = Ok true.
Proof.
  unfold check_relation. intros H. quiet_inv H. exists a. split; [done|].
  intros t Ht. apply quiet_each with (a := t) in H; [|by grow|done]. quiet_inv H. quiet_inv H.
  apply negb_false_iff in H as ->. done.
Qed.

Lemma quiet_verified units id target name :
  quiet (check_verified_requires units id target) tt -> target = JStr name -> name ∈ units.*1 ->
  verified units name.
Proof.
  unfold check_verified_requires. intros H -> Hin. quiet_inv H.
  apply lookup_key_elem in Hin as [unit E]. unfold key_in, has_key in Hq. cbn in Hq.
  rewrite E in Hq. injection Hq as <-. cbn [negb] in H. quiet_inv H. injection Hq as <-.
  quiet_inv H. rewrite E in Hq. injection Hq as <-. quiet_inv H. exists unit. split; [done|].
  by apply negb_false_iff in H.
Qed.

(** * One unit *)

Lemma in_dict_cons {A} c v (a : A) d :
  in_dict (JStr c) ((v, a) :: d) =
  if json_eq (JStr c) v then Ok (Some a) else in_dict (JStr c) d.
Proof.
  unfold in_dict. cbn [hashable list_find]. destruct (decide _) as [E|E]; cbn [fst] in E.
  - by rewrite E.
  - apply not_true_is_false in E. rewrite E. by destruct (list_find _ d) as [[? ?]|].
Qed.

Lemma json_eq_str c v : json_eq (JStr c) v = true -> v = JStr c.
Proof. destruct v as [| |z|f|t|l|o]; cbn; try done. intros ->%bool_decide_eq_true. done. Qed.

Lemma quiet_claim m id owners v owners' :
  quiet (claim m id owners v) owners' -> in_dict v owners = Ok None /\ owners' = (v, id) :: owners.
Proof.
  unfold claim. intros H. quiet_inv H. destruct a; quiet_inv H. by apply quiet_ret in H as <-.
Qed.

(** Claims without a message keep the owners there are and add the new ones. *)
Lemma quiet_claims m id l : forall owners owners',
  quiet (loop (claim m id) owners l) owners' ->
  (forall c o, in_dict (JStr c) owners = Ok (Some o) -> in_dict (JStr c) owners' = Ok (Some o)) /\
  (forall c, JStr c ∈ l -> in_dict (JStr c) owners' = Ok (Some id)).
Proof.
  induction l as [|v l IH]; intros owners owners' H.
  { apply quiet_ret in H as <-. split; [done|]. by intros c ?%not_elem_of_nil. }
  apply quiet_bind in H as (o1 & [Hn ->]%quiet_claim & H); [|by grow|by grow].
  apply IH in H as [Hold Hnew]. split.
  - intros c o Hc. apply Hold. rewrite in_dict_cons. destruct (json_eq (JStr c) v) eqn:E; [|done].
    apply json_eq_str in E as ->. congruence.
  - intros c [<-|Hc]%elem_of_cons; [|by auto]. apply Hold. rewrite in_dict_cons. cbn.
    by rewrite bool_decide_true.
Qed.

Lemma quiet_unit host stages st x st' :
  quiet (validate_unit host stages st x) st' ->
  exists id unit l,
    x = JObj unit /\ get unit "id" = JStr id /\ lookup_key id (us_result st) = None /\
    us_result st' = dict_set id unit (us_result st) /\ iterate (get unit "owns") = Ok l /\
    quiet (loop (claim owned_twice id) (us_owners st) l) (us_owners st').
Proof.
  unfold validate_unit. intros H. destruct x as [| | | | | |unit]; try (quiet_inv H; fail).
  cbv zeta in H. destruct (negb (bool_decide _)); [quiet_inv H|].
  destruct (get unit "id") as [| | | |id| |] eqn:Eid; try (quiet_inv H; fail).
  destruct (negb (re_fullmatch _ _)); [quiet_inv H|].
  apply quiet_bind in H as ([paths orders] & Hp & H); [|by grow|by grow].
  unfold check_place in Hp. cbv zeta in Hp. quiet_inv Hp.
  quiet_inv H. quiet_inv H. quiet_inv H. quiet_inv H. quiet_inv H. quiet_inv H. apply quiet_ret in H as <-.
  exists id, unit, a1. split; [done|]. split; [done|]. split; [|done].
  unfold has_key in Hq. by destruct (lookup_key id (us_result st)).
Qed.

(** The owners the loop has recorded are those of the units it has kept. *)
Definition owners_recorded (st : UnitState) : Prop :=
  forall id unit l c, lookup_key id (us_result st) = Some unit -> iterate (get unit "owns") = Ok l ->
  JStr c ∈ l -> in_dict (JStr c) (us_owners st) = Ok (Some id).

(** Units that were kept stay. *)
Definition results_kept (st st' : UnitState) : Prop :=
  forall id unit, lookup_key id (us_result st) = Some unit -> lookup_key id (us_result st') = Some unit.

Section Accepted.
Context (host : Host) (manifest : json) (stages units : units_dict).
Context (Hunits : quiet (validate_units host manifest stages) units).

(** The three parts of [validate_units]. *)
Lemma units_parts : exists st l,
  jget manifest "units" JNull = Ok (JList l) /\
  quiet (loop (validate_unit host stages) {| us_result := []; us_paths := []; us_orders := [];
                                             us_owners := []; us_boxes := [] |} l) st /\
  units = us_result st /\
  (forall it, it ∈ units -> quiet (check_relations units (us_boxes st) it) tt) /\
  quiet (validate_acyclic_requires units) tt.
Proof.
  pose proof Hunits as H. unfold validate_units in H. quiet_inv H.
  destruct a as [| | | | |[|x l]|]; try (quiet_inv H; done).
  apply quiet_bind in H as (st & H1 & H); [|by grow|by grow]. quiet_inv H. quiet_inv H. quiet_inv H.
  subst units. exists st, (x :: l). split; [done|]. split; [done|]. split; [done|].
  destruct a, a0. split; [|done]. intros it Hit.
  eapply quiet_each; [|done|done]. by grow.
Qed.

Lemma relations_known relation : relation ∈ ["requires"; "related"]%string -> all_known units relation.
Proof.
  intros Hr id unit E. destruct units_parts as (st & l & _ & _ & _ & Hrel & _).
  specialize (Hrel _ (lookup_key_Some _ _ _ E)). unfold check_relations in Hrel. quiet_inv Hrel.
  destruct a. apply quiet_each with (a := relation) in Hq; [|by grow|done].
  apply quiet_relation in Hq as (ts & Et & Hts). exists ts. split; [done|].
  intros t Ht. apply Hts, key_in_true in Ht as (name & ? & ? & _). eauto.
Qed.

Lemma units_readable : readable units.
Proof.
  intros id [unit E]%lookup_key_elem.
  destruct (relations_known "requires" ltac:(left) id unit E) as (l & El & Hl).
  exists l. split; [by exists unit|]. apply forallb_forall. intros t Ht%list_elem_of_In.
  by destruct (Hl t Ht) as (name & -> & _).
Qed.

Lemma units_acyclic x : ~ tc (edge units) x x.
Proof.
  destruct units_parts as (st & l & _ & _ & _ & _ & (v & v' & E & Ee)).
  destruct (acyclic_spec units units_readable v) as (v1 & new & E1 & Ha & [Hn _]).
  rewrite E in E1. injection E1 as <-. rewrite Ha in Ee. cbn in Ee. apply Hn.
  apply (f_equal length) in Ee. rewrite length_app in Ee. destruct new; [done|cbn in Ee; lia].
Qed.

Lemma edge_verified a b : edge units a b -> verified units a -> verified units b.
Proof.
  intros (l & (unit & E & El) & Hb & Hu) (unit' & E' & Hv). rewrite E in E'. injection E' as <-.
  destruct units_parts as (st & ? & _ & _ & _ & Hrel & _).
  specialize (Hrel _ (lookup_key_Some _ _ _ E)). unfold check_relations in Hrel.
  quiet_inv Hrel. quiet_inv Hrel. quiet_inv Hrel. rewrite Hv in Hrel. quiet_inv Hrel.
  rewrite El in Hq2. injection Hq2 as <-. eapply quiet_verified; [|done|done].
  eapply quiet_each; [|done|done]. by grow.
Qed.

Lemma tc_verified a b : tc (edge units) a b -> verified units a -> verified units b.
Proof. induction 1 as [a b He|a b c He _ IH]; intros Hv; [by eapply edge_verified|]. eauto using edge_verified. Qed.

(** Every unit owns what it explains. *)
Lemma owner_unique id1 id2 concept : owns units id1 concept -> owns units id2 concept -> id1 = id2.
Proof.
  destruct units_parts as (st & l & _ & Hloop & -> & _).
  assert (Hinv : owners_recorded st).
  { apply (quiet_loop_inv (validate_unit host stages) owners_recorded l ltac:(by grow)) with (3 := Hloop); [|by intros].
    intros s s' x _ IH (id & unit & lo & _ & _ & Hfresh & Hres & Hlo & Hcl)%quiet_unit id' unit' ls c.
    apply quiet_claims in Hcl as [Hold Hnew]. rewrite Hres. destruct (decide (id = id')) as [<-|Hne].
    - rewrite lookup_dict_set. intros [= <-]. rewrite Hlo. intros [= <-]. apply Hnew.
    - rewrite lookup_dict_set_ne by done. intros ? ? ?. apply Hold. eapply IH; eauto. }
  intros (u1 & l1 & E1 & L1 & C1) (u2 & l2 & E2 & L2 & C2).
  pose proof (Hinv _ _ _ _ E1 L1 C1). pose proof (Hinv _ _ _ _ E2 L2 C2). congruence.
Qed.

(** Every unit is an entry of the manifest. *)
Lemma units_entries l : jget manifest "units" JNull = Ok (JList l) ->
  forall id unit, lookup_key id units = Some unit -> JObj unit ∈ l /\ get unit "id" = JStr id.
Proof.
  destruct units_parts as (st & l' & Hl & Hloop & -> & _). rewrite Hl. intros [= <-].
  apply (quiet_loop_inv (validate_unit host stages) (fun st => forall id unit,
    lookup_key id (us_result st) = Some unit -> JObj unit ∈ l' /\ get unit "id" = JStr id) l'
    ltac:(by grow)) with (3 := Hloop); [|done].
  intros s s' x Hx IH (id & unit & lo & -> & Hid & _ & Hres & _)%quiet_unit id' unit'. rewrite Hres.
  destruct (decide (id = id')) as [<-|Hne].
  - rewrite lookup_dict_set. by intros [= <-].
  - rewrite lookup_dict_set_ne by done. apply IH.
Qed.

(** No entry of the manifest is lost. *)
Lemma entries_kept l : jget manifest "units" JNull = Ok (JList l) ->
  forall x, x ∈ l -> exists id unit, x = JObj unit /\ get unit "id" = JStr id /\ lookup_key id units = Some unit.
Proof.
  destruct units_parts as (st & l' & Hl & Hloop & -> & _). rewrite Hl. intros [= <-] x Hx.
  destruct (quiet_loop_in (validate_unit host stages) results_kept l' ltac:(by grow) ltac:(by intros ???) ltac:(intros ???; unfold results_kept; auto))
    with (3 := Hx) (2 := Hloop) as (s1 & s2 & Hx' & Hkeep).
  - intros s s' y _ (id & unit & lo & _ & _ & Hfresh & Hres & _)%quiet_unit id' unit' E. rewrite Hres.
    destruct (decide (id = id')) as [<-|Hne]; [congruence|]. by rewrite lookup_dict_set_ne.
  - apply quiet_unit in Hx' as (id & unit & lo & -> & Hid & _ & Hres & _). exists id, unit.
    split; [done|]. split; [done|]. apply Hkeep. rewrite Hres. apply lookup_dict_set.
Qed.
End Accepted.
