(* ===== verification/CurriculumCover.v ===== *)
(** Source coverage and the validator as a whole: what an exit status of zero
    says about the manifest, the source files and the links. *)

From stdpp Require Import base tactics list gmap strings numbers list_numbers relations.
From S2P Require Import Prelude PyText PyBytes PyJson PyRegex PyPath Curriculum CurriculumSource.
From S2P Require Import CurriculumGraph CurriculumRun CurriculumProps.
Open Scope Z_scope.

(** * Source areas *)

(** [path] is a source area with a known owner. *)
Definition area_of (units : units_dict) (areas : list json) (path owner : pystr) : Prop :=
  exists area, JObj area ∈ areas /\ get area "path" = JStr path /\ get area "owner" = JStr owner /\
    owner ∈ units.*1.

(** The unit anchors a symbol of the file, and the file has it. *)
Definition anchored (host : Host) (units : units_dict) (owner path : pystr) : Prop :=
  exists unit anchors anchor symbol text,
    lookup_key owner units = Some unit /\ iterate (get unit "source_anchors") = Ok anchors /\
    JObj anchor ∈ anchors /\ get anchor "path" = JStr path /\ get anchor "symbol" = JStr symbol /\
    read_text host REPO_ROOT path = Ok text /\ contains symbol text = true.

Lemma item_get o k v : item o k = Ok v -> get o k = v.
Proof. unfold item, get. destruct (lookup_key _ _); [|done]. by intros [= ->]. Qed.

Lemma quiet_area units scoped owned area owned' :
  quiet (validate_area units scoped owned area) owned' ->
  exists o path owner, area = JObj o /\ get o "path" = JStr path /\ path ∈ scoped /\
    get o "owner" = JStr owner /\ owner ∈ units.*1 /\ owned' = owned ++ [JStr path] /\
    existsb (json_eq (JStr path)) owned = false.
Proof.
  unfold validate_area. destruct area as [| | | | | |o]; intros H; try (quiet_inv H; fail).
  peel H as x Ef. cbv zeta in H. peel H as seen Es. peel H as x1 Ed. subst seen.
  peel H as x2 Ep. peel H as known Ek. peel H as x3 Eo. peel H as secondary Esec. peel H as x4 Et.
  apply quiet_ret in H as <-. apply negb_false_iff in Ep, Eo. subst known.
  destruct (get o "path") as [| | | |path| |] eqn:Epath; try done. apply bool_decide_eq_true in Ep.
  apply key_in_true in Ek as (owner & Ho & Hu & _). exists o, path, owner.
  unfold in_set in Es. cbn [hashable] in Es. by injection Es as Es.
Qed.

Lemma areas_owned units scoped areas : forall owned owned',
  quiet (loop (validate_area units scoped) owned areas) owned' ->
  forall path, JStr path ∈ owned' -> JStr path ∈ owned \/ exists owner, area_of units areas path owner.
Proof.
  induction areas as [|area areas IH]; intros owned owned' H path Hp.
  { apply quiet_ret in H as <-. auto. }
  apply quiet_bind in H as (o1 & H1 & H); [|by grow|by grow].
  apply quiet_area in H1 as (o & p & owner & -> & Hpath & Hs & Ho & Hu & -> & _).
  destruct (IH _ _ H path Hp) as [Hin|(owner' & area & Ha & ?)].
  - apply elem_of_app in Hin as [|[= ->]%list_elem_of_singleton]; [auto|].
    right. exists owner, o. split; [left|done].
  - right. exists owner', area. split; [by right|done].
Qed.

Lemma add_anchor_paths path xs : forall s r,
  foldM add_anchor_path s xs = Ok r -> JStr path ∈ r ->
  JStr path ∈ s \/ exists anchor, JObj anchor ∈ xs /\ get anchor "path" = JStr path.
Proof.
  induction xs as [|x xs IH]; intros s r E Hr; [injection E as <-; auto|].
  cbn [foldM] in E. apply bind_ok in E as (s1 & E1 & E). destruct (IH _ _ E Hr) as [Hs|(an & Ha & Hp)].
  - destruct x as [| | | | | |o]; cbn in E1; try (injection E1 as <-; auto; fail).
    destruct (hashable (get o "path")); [|done]. injection E1 as <-.
    apply elem_of_app in Hs as [?|Heq%list_elem_of_singleton]; [auto|]. right. exists o. split; [left|done].
  - right. exists an. split; [by right|done].
Qed.

Lemma anchor_paths_in unit l path : anchor_paths unit = Ok l -> JStr path ∈ l ->
  exists anchors anchor, iterate (get unit "source_anchors") = Ok anchors /\
    JObj anchor ∈ anchors /\ get anchor "path" = JStr path.
Proof.
  unfold anchor_paths. intros H Hp. apply bind_ok in H as (v & Hv & H). apply bind_ok in H as (xs & Hx & H).
  apply item_get in Hv as <-. destruct (add_anchor_paths _ _ _ _ H Hp) as [Hn|(an & ? & ?)].
  - by apply not_elem_of_nil in Hn.
  - by exists xs, an.
Qed.

Lemma existsb_str path l : existsb (json_eq (JStr path)) l = true -> JStr path ∈ l.
Proof.
  intros (v & Hv%list_elem_of_In & E%json_eq_str)%existsb_exists. by subst v.
Qed.

(** The owner of an area in a complete release. *)
Lemma quiet_complete_area units area path owner :
  quiet (validate_complete_area units (JObj area)) tt -> get area "path" = JStr path ->
  get area "owner" = JStr owner -> owner ∈ units.*1 ->
  verified units owner /\ exists unit anchors anchor, lookup_key owner units = Some unit /\
    iterate (get unit "source_anchors") = Ok anchors /\ JObj anchor ∈ anchors /\
    get anchor "path" = JStr path.
Proof.
  intros H Hp Ho [unit Eu]%lookup_key_elem. unfold validate_complete_area in H.
  peel H as o1 E1. peel H as p1 E2. change (Ok (get area "owner") = Ok o1) in E1.
  change (Ok (get area "path") = Ok p1) in E2. rewrite Ho in E1. rewrite Hp in E2.
  injection E1 as <-. injection E2 as <-. peel H as known Ek. unfold key_in, has_key in Ek. cbn in Ek.
  rewrite Eu in Ek. injection Ek as <-. cbn [negb] in H. peel H as name En. injection En as <-.
  peel H as unit' Eu'. rewrite Eu in Eu'. injection Eu' as <-. peel H as status Es. peel H as x Ev.
  peel H as paths Ea. peel H as inside Ei. apply quiet_error_if in H. apply negb_false_iff in H, Ev. subst inside.
  apply item_get in Es. subst status. split; [by exists unit|].
  unfold in_set in Ei. cbn [hashable] in Ei. injection Ei as Ei.
  apply existsb_str in Ei. destruct (anchor_paths_in _ _ _ Ea Ei) as (xs & an & ? & ? & ?).
  by exists unit, xs, an.
Qed.

Lemma quiet_anchor host id anchor path : quiet (validate_anchor host id (JObj anchor)) tt ->
  get anchor "path" = JStr path ->
  exists symbol text, get anchor "symbol" = JStr symbol /\ is_file host REPO_ROOT path = true /\
    read_text host REPO_ROOT path = Ok text /\ contains symbol text = true.
Proof.
  unfold validate_anchor. cbv zeta. intros H Hp. destruct (negb (has_keys _ _)); [quiet_inv H|].
  rewrite Hp in H. peel H as p Ep. injection Ep as <-. destruct (is_file host REPO_ROOT path) eqn:Ef;
    cbn [negb] in H; [|quiet_inv H]. destruct (read_text host REPO_ROOT path) as [text|[]] eqn:Et;
    try (quiet_inv H; done).
  peel H as symbol Es. apply quiet_error_if in H. apply negb_false_iff in H. exists symbol, text.
  destruct (get anchor "symbol"); try done. by injection Es as ->.
Qed.

(** * Source files of a complete release *)

Lemma source_covered host manifest units scoped :
  quiet (validate_source host manifest units) tt -> coverage_complete manifest = Ok true ->
  expand_source_scope host manifest = Ok scoped ->
  forall path, path ∈ scoped -> exists owner, verified units owner /\ anchored host units owner path.
Proof.
  unfold validate_source. intros H Hc Hs path Hp. peel H as sc Es. rewrite Hs in Es. injection Es as <-.
  peel H as areas Ea. destruct areas as [| | | | |areas|]; try (quiet_inv H; done).
  apply quiet_bind in H as (owned & Ho & H); [|by grow|by grow]. peel H as complete Ecc.
  rewrite Hc in Ecc. injection Ecc as <-. peel H as x Ecm. destruct x.
  unfold validate_completeness in Ecm. cbv zeta in Ecm. peel Ecm as x1 Em. peel Ecm as extra Ee.
  peel Ecm as x2 Ex. apply negb_false_iff, bool_decide_eq_true in Em.
  assert (Hown : JStr path ∈ owned).
  { apply existsb_str. destruct (existsb _ owned) eqn:E; [done|].
    assert (Hin : path ∈ missing_paths scoped owned) by (by apply list_elem_of_filter).
    rewrite Em in Hin. by apply not_elem_of_nil in Hin. }
  destruct (areas_owned _ _ _ _ _ Ho path Hown) as [Hn|(owner & area & Hin & Hpath & Howner & Hu)];
    [by apply not_elem_of_nil in Hn|].
  apply quiet_each with (a := JObj area) in Ecm; [|by grow|done].
  destruct (quiet_complete_area _ _ _ _ Ecm Hpath Howner Hu) as (Hv & unit & anchors & anchor & Eu & Ean & Hi & Hap).
  exists owner. split; [done|].
  apply quiet_each with (a := (owner, unit)) in H; [|by grow|by apply lookup_key_Some].
  unfold validate_anchors in H. peel H as v Ev. apply item_get in Ev as <-. peel H as xs Exs.
  rewrite Ean in Exs. injection Exs as <-. apply quiet_each with (a := JObj anchor) in H; [|by grow|done].
  destruct (quiet_anchor _ _ _ _ H Hap) as (symbol & text & ? & _ & ? & ?).
  by exists unit, anchors, anchor, symbol, text.
Qed.

Lemma mapR_elem {A B} (f : A -> result B) l r a :
  mapR f l = Ok r -> a ∈ l -> exists b, f a = Ok b /\ b ∈ r.
Proof.
  revert r. induction l as [|x l IH]; intros r H Ha; [by apply not_elem_of_nil in Ha|].
  cbn [mapR] in H. apply bind_ok in H as (b & Hb & H). apply bind_ok in H as (bs & Hbs & H).
  injection H as <-. apply elem_of_cons in Ha as [->|Ha].
  - exists b. split; [done|left].
  - destruct (IH _ Hbs Ha) as (c & ? & ?). exists c. split; [done|by right].
Qed.

Lemma completion_verified manifest units :
  quiet (validate_release_completion manifest units) tt -> coverage_complete manifest = Ok true ->
  forall id, id ∈ units.*1 -> verified units id.
Proof.
  unfold validate_release_completion. intros H Hc id [unit Eu]%lookup_key_elem.
  peel H as release Er. peel H as version Ev. peel H as vtext Et.
  destruct (re_full semver vtext) as [g|]; [|quiet_inv H].
  peel H as major Emj. peel H as coverage Ecov. peel H as status Est.
  unfold coverage_complete in Hc. apply bind_ok in Hc as (r' & Hr & Hc). rewrite Er in Hr. injection Hr as <-.
  apply bind_ok in Hc as (c' & Hcov & Hc). rewrite Ecov in Hcov. injection Hcov as <-. injection Hc as Hc.
  destruct coverage as [|b| | | | |]; try (quiet_inv H; fail). cbn in Hc. subst b. cbv zeta in H.
  peel H as x1 C1. peel H as x2 C2. peel H as x3 C3. peel H as x4 C4. peel H as inc Ei.
  apply quiet_error_if in H. apply negb_false_iff, bool_decide_eq_true in H. subst inc.
  unfold not_verified in Ei. apply bind_ok in Ei as (sts & Hm & Ei). cbv zeta in Ei. injection Ei as Ei.
  destruct (mapR_elem _ _ _ _ Hm (lookup_key_Some _ _ _ Eu)) as ([id' st] & E & Hin). cbn [fst snd] in E.
  apply bind_ok in E as (st' & Hst & E). injection E as <- <-. apply item_get in Hst. exists unit.
  split; [done|]. rewrite Hst. destruct (is_str st' "verified") eqn:Es; [done|].
  apply fmap_nil_inv in Ei.
  assert (Hf : (id, st') ∈ filter (fun it : pystr * json => is_str it.2 "verified" = false) sts)
    by (by apply list_elem_of_filter).
  rewrite Ei in Hf. by apply not_elem_of_nil in Hf.
Qed.

(** * The validator *)

(** The parts of a run that exits with zero. *)
Lemma main_parts host manifest development v :
  main host (Some manifest) development = Ok (0, v) -> manifest <> JNull ->
  exists stages units,
    quiet (validate_stages manifest) stages /\ quiet (validate_units host manifest stages) units /\
    quiet (validate_release_completion manifest units) tt /\
    quiet (validate_source host manifest units) tt /\ quiet (validate_markdown_links host) tt /\
    quiet (validate_generated_navigation host) tt.
Proof.
  intros H Hn. unfold main in H. apply bind_ok in H as ([x v1] & H & E).
  case_bool_decide as Hv; [|done].
  assert (Hq : quiet (validate_manifest host manifest development) x).
  { exists {| errors := []; warnings := [] |}, v1. split; [|by rewrite Hv].
    by destruct manifest. }
  unfold validate_manifest in Hq. peel Hq as ready Er. peel Hq as stages Es. peel Hq as units Eu.
  peel Hq as x1 E1. peel Hq as x2 E2. peel Hq as x3 E3. peel Hq as x4 E4. peel Hq as x5 E5.
  destruct x1, x2, x5, x. by exists stages, units.
Qed.

(** [units] are the entries of the manifest, each under its identifier. *)
Definition manifest_units (manifest : json) (units : units_dict) : Prop :=
  exists l, jget manifest "units" JNull = Ok (JList l) /\
    (forall x, x ∈ l -> exists id unit,
       x = JObj unit /\ get unit "id" = JStr id /\ lookup_key id units = Some unit) /\
    (forall id unit, lookup_key id units = Some unit -> JObj unit ∈ l /\ get unit "id" = JStr id).

Lemma accepted_entries host manifest stages units :
  quiet (validate_units host manifest stages) units -> manifest_units manifest units.
Proof.
  intros H. destruct (units_parts host manifest stages units H) as (_ & l & Hl & _). exists l.
  split; [done|]. split; [by eapply entries_kept|by eapply units_entries].
Qed.

(** C21: The validator exits with zero only when the manifest file was read, and
    then either the file holds the JSON value null, for which no check runs, or
    the curriculum is well formed: every unit of the manifest is kept under its
    own identifier, prerequisites and related units exist, no unit requires
    itself through any chain, all that a verified unit requires is verified, and
    no explanation has two owners. *)
Theorem accepted_curriculum host loaded development v :
  main host loaded development = Ok (0, v) ->
  exists manifest, loaded = Some manifest /\
    (manifest = JNull \/
     exists units, manifest_units manifest units /\
       all_known units "requires" /\ all_known units "related" /\
       (forall x, ~ tc (edge units) x x) /\
       (forall a b, tc (edge units) a b -> verified units a -> verified units b) /\
       (forall id1 id2 concept, owns units id1 concept -> owns units id2 concept -> id1 = id2)).
Proof.
  intros Hm. destruct loaded as [manifest|]; [|done]. exists manifest. split; [done|].
  assert (manifest = JNull \/ manifest <> JNull) as [Hn|Hn] by (destruct manifest; auto); [by left|right].
  destruct (main_parts _ _ _ _ Hm Hn) as (stages & units & _ & Hu & _). exists units.
  split; [by eapply accepted_entries|]. split; [eapply relations_known; [done|left]|].
  split; [eapply relations_known; [done|right; left]|]. split; [by eapply units_acyclic|].
  split; [by eapply tc_verified|by eapply owner_unique].
Qed.

(** C22: when the validator exits with zero for a release marked as complete,
    every unit is verified, and every source file in scope is anchored by a
    verified unit with a symbol that the file contains. *)
Theorem complete_release_covered host manifest development v scoped :
  main host (Some manifest) development = Ok (0, v) -> manifest <> JNull ->
  coverage_complete manifest = Ok true -> expand_source_scope host manifest = Ok scoped ->
  exists units, manifest_units manifest units /\
    (forall id, id ∈ units.*1 -> verified units id) /\
    (forall path, path ∈ scoped ->
       exists owner, verified units owner /\ anchored host units owner path).
Proof.
  intros Hm Hn Hc Hsc. destruct (main_parts _ _ _ _ Hm Hn) as (stages & units & _ & Hu & Hr & Hs & _).
  exists units. split; [by eapply accepted_entries|]. split; [by eapply completion_verified|by eapply source_covered].
Qed.

(** When the validator exits with zero, every link target it finds in a
    page of the tutorial is no reference to the implementation notes and is
    external, a fragment of its own page, or resolves to a file that exists
    inside the repository. *)
Theorem accepted_links host manifest development v page text raw :
  main host (Some manifest) development = Ok (0, v) -> manifest <> JNull ->
  page ∈ markdown_files host -> read_text host TUTORIAL_ROOT page = Ok text ->
  raw ∈ markdown_link_targets host text ->
  exists target, link_target raw = Ok target /\
    contains (u "docs/xv6-riscv") target = false /\ contains (u "../xv6-riscv") target = false /\
    (external target = true \/ hd [] (splitn 1 (u "#") target) = [] \/
     link_inside host page (hd [] (splitn 1 (u "#") target)) = true /\
     link_exists host page (hd [] (splitn 1 (u "#") target)) = true).
Proof.
  intros Hm Hn Hp Ht Hr. destruct (main_parts _ _ _ _ Hm Hn) as (_ & _ & _ & _ & _ & _ & Hl & _).
  unfold validate_markdown_links in Hl. apply quiet_each with (a := page) in Hl; [|by grow|done].
  peel Hl as t Et. rewrite Ht in Et. injection Et as <-.
  apply quiet_each with (a := raw) in Hl; [|by grow|done]. unfold validate_link in Hl.
  peel Hl as target Eg. exists target. split; [done|].
  destruct (contains (u "docs/xv6-riscv") target), (contains (u "../xv6-riscv") target); cbn [orb] in Hl;
    try (quiet_inv Hl; fail).
  split; [done|]. split; [done|]. destruct (external target); [by left|right]. cbv zeta in Hl.
  case_bool_decide; [by left|right]. destruct (link_inside _ _ _); cbn [negb] in Hl; [|quiet_inv Hl].
  apply quiet_error_if, negb_false_iff in Hl. done.
Qed.

(** * Witnesses *)

Lemma accepted_curriculum_witness :
  exists v units, main sample_host (Some sample_manifest) false = Ok (0, v) /\
    manifest_units sample_manifest units /\ (forall x, ~ tc (edge units) x x).
Proof.
  destruct (accepted_curriculum sample_host (Some sample_manifest) false _ sample_accepted)
    as (m & [= <-] & [Hn|(units & Hu & _ & _ & Ha & _)]); [discriminate Hn|].
  eexists _, units. split; [exact sample_accepted|]. split; [exact Hu|exact Ha].
Defined.

Lemma complete_release_covered_witness :
  exists v units owner, main sample_host (Some sample_manifest) false = Ok (0, v) /\
    verified units owner /\ anchored sample_host units owner (u "kernel/log.c").
Proof.
  destruct (complete_release_covered sample_host sample_manifest false _ [u "kernel/log.c"]
    sample_accepted ltac:(done) ltac:(vm_compute; reflexivity) ltac:(vm_compute; reflexivity))
    as (units & _ & _ & Hp).
  destruct (Hp (u "kernel/log.c") ltac:(left)) as (owner & Hv & Ha).
  eexists _, units, owner. split; [exact sample_accepted|]. split; [exact Hv|exact Ha].
Defined.

Lemma accepted_links_witness :
  exists v target, main sample_host (Some sample_manifest) false = Ok (0, v) /\
    link_target (u "core/log.md#top") = Ok target /\ contains (u "docs/xv6-riscv") target = false.
Proof.
  destruct (accepted_links sample_host sample_manifest false _ (u "README.md") sample_page
    (u "core/log.md#top") sample_accepted ltac:(done) ltac:(left) ltac:(vm_compute; reflexivity))
    as (target & Ht & Hc & _).
  { assert (E : markdown_link_targets sample_host sample_page = [u "core/log.md#top"; u "https://example.org"])
      by (vm_compute; reflexivity). rewrite E. left. }
  eexists _, target. split; [exact sample_accepted|]. split; [exact Ht|exact Hc].
Defined.

(** A manifest file that holds [null] is taken for one that was not loaded,
    whose error was reported: on any host no check runs and the validator
    passes it with exit status zero and no message. *)
Theorem null_manifest_passes host development :
  main host (Some JNull) development = Ok (0, {| errors := []; warnings := [] |}).
Proof. reflexivity. Qed.

Lemma lstrip_spaces s : forallb isspace s = true -> lstrip s = [].
Proof. induction s as [|c s IH]; [done|]. cbn [forallb lstrip]. intros [-> ?]%andb_true_iff. auto. Qed.

(** A link whose target is only white space stops the validator with an
    [IndexError], whatever was collected before: the link is not reported. *)
Theorem blank_link_raises host page raw v :
  forallb isspace raw = true -> validate_link host page raw v = Raise IndexError.
Proof.
  intros H. unfold validate_link, link_target, strip. by rewrite (lstrip_spaces raw H).
Qed.

(** Such a target is found in a page: an inline link to a blank. *)
Lemma blank_link_raises_witness :
  u " " ∈ markdown_link_targets sample_host (u "[x]( )") /\
  validate_link sample_host (u "README.md") (u " ") {| errors := []; warnings := [] |} = Raise IndexError.
Proof.
  split; [|apply blank_link_raises; reflexivity].
  assert (markdown_link_targets sample_host (u "[x]( )") = [u " "]) as -> by (vm_compute; reflexivity).
  by left.
Defined.
