(* ===== verification/Navigation.v ===== *)
(** The navigation generator, [docs/xv6-tutorial/tools/generate_navigation.py]:
    the five index pages it renders from the manifest, writing them, and the
    check for stale pages.

    Keys that are looked up and missing, and values of the wrong type, raise as
    in Python.  The text of a float, list or dictionary inside an f-string is a
    parameter, and so is what exists in the tutorial apart from the generated
    pages.  A text with a lone surrogate, which Python cannot write as UTF-8,
    is not treated specially. *)

From stdpp Require Import base tactics list gmap strings numbers list_numbers.
From S2P Require Import Prelude PyText PyBytes PyJson PyPath.
Open Scope Z_scope.

(** * Values *)

(** [v[k]]: only dictionaries have string keys. *)
Definition field (v : json) (k : string) : result json :=
  match v with JObj o => item o k | _ => Raise TypeError end.

(** [a < b] on numbers *)
Definition number_lt (a b : Z * Z) : bool :=
  let lo := Z.min a.2 b.2 in
  a.1 * 2 ^ (a.2 - lo) <? b.1 * 2 ^ (b.2 - lo).

(** [a < b]: numbers, strings, and lists by their first different element. *)
Fixpoint json_lt (a b : json) {struct a} : result bool :=
  match a, b with
  | JStr s, JStr t => Ok (str_le s t && negb (bool_decide (s = t)))
  | JList l, JList m =>
      (fix lt (l m : list json) : result bool :=
         match l, m with
         | _, [] => Ok false
         | [], _ :: _ => Ok true
         | x :: l, y :: m => if json_eq x y then lt l m else json_lt x y
         end) l m
  | JFloat (Infinity neg), JFloat (Infinity neg') => Ok (neg && negb neg')
  | JFloat NaN, JFloat _ => Ok false
  | JFloat _, JFloat NaN => Ok false
  | JFloat (Infinity neg), (JInt _ | JBool _ | JFloat (Finite _ _)) => Ok neg
  | (JInt _ | JBool _ | JFloat (Finite _ _)), JFloat (Infinity neg) => Ok (negb neg)
  | JFloat NaN, (JInt _ | JBool _) | (JInt _ | JBool _), JFloat NaN => Ok false
  | _, _ => match number a, number b with Some x, Some y => Ok (number_lt x y) | _, _ => Raise TypeError end
  end.

(** [sorted(l, key=...)] for keys with a total order: stable, with [lt] the
    comparison of two elements. *)
Fixpoint insert_by {A} (lt : A -> A -> result bool) (x : A) (l : list A) : result (list A) :=
  match l with
  | [] => Ok [x]
  | y :: l' =>
      less ← lt x y;
      if (less : bool) then Ok (x :: l) else l' ← insert_by lt x l'; Ok (y :: l')
  end.
Definition sort_by {A} (lt : A -> A -> result bool) (l : list A) : result (list A) :=
  foldM (fun s x => insert_by lt x s) [] l.

(** [sorted(items, key=lambda item: item["order"])] *)
Definition sort_orders (items : list json) : result (list json) :=
  keyed ← mapR (fun v => order ← field v "order"; Ok (order, v)) items;
  sorted ← sort_by (fun a b : json * json => json_lt a.1 b.1) keyed;
  Ok sorted.*2.

(** * Paths *)

(** [os.path.normpath] on components: [..] leaves the last directory. *)
Definition norm_step (acc : list pystr) (c : pystr) : list pystr :=
  if bool_decide (c = []) || bool_decide (c = u ".") then acc
  else if bool_decide (c = u "..") then removelast acc
  else acc ++ [c].
Definition norm (root : list pystr) (path : pystr) : list pystr :=
  foldl norm_step (if is_absolute path then [] else root) (split slash path).

Fixpoint common {A} `{EqDecision A} (a b : list A) : nat :=
  match a, b with
  | x :: a, y :: b => if bool_decide (x = y) then S (common a b) else O
  | _, _ => O
  end.

(** [os.path.relpath(target, start)] of absolute, normalised paths *)
Definition relpath (target start : list pystr) : pystr :=
  let i := common target start in
  match repeat (u "..") (length start - i) ++ drop i target with
  | [] => u "."
  | parts => join slash parts
  end.

(** * The pages *)

Definition GENERATED_HEADER : pystr :=
  u "<!-- GENERATED by tools/generate_navigation.py. DO NOT EDIT. -->" ++ [newline].

Section Render.
(** The components of [TUTORIAL_ROOT], the text of other values (and in lower
    case), and what exists below the tutorial. *)
Context (root : list pystr) (other_text other_lower : json -> pystr) (exists_ : pystr -> bool).

(** [f"{v}"] *)
Definition fmt (v : json) : pystr :=
  match v with
  | JStr s => s
  | JInt z => str_of_int z
  | JBool true => u "True"
  | JBool false => u "False"
  | JNull => u "None"
  | _ => other_text v
  end.

(** A planned unit without a page is not linked. *)
Definition unit_link (unit : json) (parent : list pystr) : result pystr :=
  path ← field unit "path";
  path ← need_str path;
  status ← field unit "status";
  if is_str status "planned" && negb (exists_ path) then
    title ← field unit "title";
    id ← field unit "id";
    Ok (fmt title ++ u " (`" ++ fmt id ++ u "`)")
  else
    title ← field unit "title";
    Ok (u "[" ++ fmt title ++ u "](" ++ relpath (norm root path) parent ++ u ")").

(** [str(v).lower()] *)
Definition lower_text (v : json) : pystr :=
  match v with JBool true => u "true" | JBool false => u "false" | JNull => u "none" | _ => other_lower v end.

Definition stage_row (stage : json) : result pystr :=
  order ← field stage "order";
  title ← field stage "title";
  id ← field stage "id";
  kind ← field stage "kind";
  Ok (u "| " ++ fmt order ++ u " | " ++ fmt title ++ u " (`" ++ fmt id ++ u "`) | " ++ fmt kind ++ u " |").

Definition root_head (version status baseline coverage : json) : list pystr :=
  let release_note :=
    if is_str status "verified"
    then u "`verified` 表示全部登记单元已完成非作者走查；`coverage_complete=true` 表示 scoped handwritten inputs 都有 verified primary owner。"
    else u "`draft` 表示内容已落盘并通过机械检查，但尚未完成非作者走查，不能当作 verified 教学路径。" in
  [ rstrip GENERATED_HEADER;
    [];
    u "# xv6 教程";
    [];
    u "这是一套独立、循序渐进的 xv6 教程。教程直接追踪当前仓库源码和测试，但不依赖 `docs/xv6-riscv/`。";
    [];
    u "## 当前发布版";
    [];
    u "- 版本：`" ++ fmt version ++ u "`";
    u "- 状态：`" ++ fmt status ++ u "`";
    u "- 源码基线：`" ++ fmt baseline ++ u "`";
    u "- 完整覆盖：`" ++ lower_text coverage ++ u "`";
    [];
    release_note;
    [];
    u "## 从这里开始";
    [];
    u "- 零先修学习者：从[基础路径](foundation/README.md)开始，完成 Foundation gate 后进入核心路径。";
    u "- 已具备基础者：先完成 Foundation gate；通过后进入同一条[核心路径](core/README.md)。";
    u "- 问题驱动复核：使用教程内的[权威问题集](questions/README.md)；`docs/questions/` 只保留兼容入口。";
    u "- 查看整体建设状态：[阶段索引](stages/README.md)。";
    [];
    u "## 建设约束";
    [];
    u "完整建设范围见 [`spec.md`](spec.md)，统一术语见 [`CONTEXT.md`](CONTEXT.md)，访谈形成的架构决策保存在 [`adr/`](adr/)，Agent 发现规则见 [`AGENTS.md`](AGENTS.md)。这些材料都属于这个独立教程目录。";
    [];
    u "## 阶段";
    [];
    u "| 顺序 | 阶段 | 类型 |";
    u "|---:|---|---|" ].

Definition root_tail : list pystr :=
  [ [];
    u "## 教程工具";
    [];
    u "```sh";
    u "python3 docs/xv6-tutorial/tools/validate.py";
    u "python3 docs/xv6-tutorial/tools/generate_navigation.py --check";
    u "```";
    [];
    u "单元作者从 [`templates/unit.md`](templates/unit.md) 开始；学习者可复制 [`templates/trace-worksheet.md`](templates/trace-worksheet.md) 记录追踪证据。";
    [] ].

Definition render_root (manifest : json) : result pystr :=
  release ← field manifest "release";
  stages ← field manifest "stages";
  stages ← iterate stages;
  stages ← sort_orders stages;
  status ← field release "status";
  version ← field release "version";
  baseline ← field release "baseline_commit";
  coverage ← field release "coverage_complete";
  rows ← mapR stage_row stages;
  Ok (join [newline] (root_head version status baseline coverage ++ rows ++ root_tail)).

(** [[unit for unit in units if unit[k] == value]] *)
Fixpoint having (k value : string) (l : list json) : result (list json) :=
  match l with
  | [] => Ok []
  | x :: l => v ← field x k; l ← having k value l; Ok (if is_str v value then x :: l else l)
  end.

Definition foundation_head : list pystr :=
  [ rstrip GENERATED_HEADER;
    [];
    u "# 基础路径";
    [];
    u "基础路径不假定读者已经会 C、命令行、RISC-V 或 GDB。每个单元都产生可检查的出口产物，最终由 Foundation gate 判断是否可以进入核心路径。";
    [];
    u "| 顺序 | 单元 | 状态 |";
    u "|---:|---|---|" ].

Definition foundation_row (parent : list pystr) (unit : json) : result pystr :=
  order ← field unit "order";
  link ← unit_link unit parent;
  status ← field unit "status";
  Ok (u "| " ++ fmt order ++ u " | " ++ link ++ u " | `" ++ fmt status ++ u "` |").

Definition render_foundation (manifest : json) (parent : list pystr) : result pystr :=
  units ← field manifest "units";
  units ← iterate units;
  units ← having "stage" "foundation" units;
  units ← sort_orders units;
  rows ← mapR (foundation_row parent) units;
  Ok (join [newline] (foundation_head ++ rows ++ [[]])).

Definition core_head : list pystr :=
  [ rstrip GENERATED_HEADER;
    [];
    u "# 核心路径";
    [];
    u "核心路径在七个螺旋阶段中反复回到真实行为。早期单元会明确留下黑盒，后续单元负责解除；显示顺序来自 `curriculum.json`，不是文件名。";
    [] ].

(** [units_by_stage]: each unit with its stage, which has to be hashable. *)
Definition staged (unit : json) : result (json * json) :=
  stage ← field unit "stage";
  if hashable stage then Ok (stage, unit) else Raise TypeError.

Definition core_row (parent : list pystr) (unit : json) : result pystr :=
  link ← unit_link unit parent;
  status ← field unit "status";
  Ok (u "- " ++ link ++ u " - `" ++ fmt status ++ u "`").

Definition core_stage (parent : list pystr) (units_by_stage : list (json * json)) (stage : json)
    : result (list pystr) :=
  title ← field stage "title";
  id ← field stage "id";
  (if hashable id then Ok tt else Raise TypeError);;
  let units := (filter (fun it : json * json => json_eq it.1 id = true) units_by_stage).*2 in
  units ← sort_orders units;
  match units with
  | [] => Ok [u "## " ++ fmt title; []; u "尚无已登记单元。"; []]
  | _ =>
      rows ← mapR (core_row parent) units;
      Ok ([u "## " ++ fmt title; []] ++ rows ++ [[]])
  end.

Definition render_core (manifest : json) (parent : list pystr) : result pystr :=
  stages ← field manifest "stages";
  stages ← iterate stages;
  stages ← having "kind" "core" stages;
  stages ← sort_orders stages;
  units ← field manifest "units";
  units ← iterate units;
  units_by_stage ← mapR staged units;
  parts ← mapR (core_stage parent units_by_stage) stages;
  Ok (join [newline] (core_head ++ concat parts)).

Definition stages_head : list pystr :=
  [ rstrip GENERATED_HEADER;
    [];
    u "# 课程阶段索引";
    [];
    u "| 阶段 | planned | draft | verified |";
    u "|---|---:|---:|---:|" ].

(** [counts[unit["status"]] += 1] for the units of a stage *)
Definition count_status (id : json) (counts : list (pystr * Z)) (unit : json) : result (list (pystr * Z)) :=
  stage ← field unit "stage";
  if json_eq stage id then
    status ← field unit "status";
    known ← key_in status counts;
    match status, (known : bool) with
    | JStr s, true => Ok (dict_set s (default 0 (lookup_key s counts) + 1) counts)
    | _, _ => Raise KeyError
    end
  else Ok counts.

Definition count_of (counts : list (pystr * Z)) (status : string) : Z :=
  default 0 (lookup_key (u status) counts).

Definition count_row (units : list json) (stage : json) : result pystr :=
  id ← (match units with [] => Ok JNull | _ => field stage "id" end);
  counts ← foldM (count_status id) [(u "planned", 0); (u "draft", 0); (u "verified", 0)] units;
  title ← field stage "title";
  id ← field stage "id";
  let cell status := str_of_int (count_of counts status) in
  Ok (u "| " ++ fmt title ++ u " (`" ++ fmt id ++ u "`) | " ++ cell "planned" ++ u " | " ++
      cell "draft" ++ u " | " ++ cell "verified" ++ u " |").

Definition stages_tail : list pystr :=
  [ [];
    u "只有满足技术发布门槛并完成非作者走查的单元才能标为 `verified`。";
    [] ].

Definition render_stages (manifest : json) : result pystr :=
  stages ← field manifest "stages";
  stages ← iterate stages;
  stages ← sort_orders stages;
  units ← (match stages with [] => Ok (JList []) | _ => field manifest "units" end);
  units ← iterate units;
  rows ← mapR (count_row units) stages;
  Ok (join [newline] (stages_head ++ rows ++ stages_tail)).

(** [stage_order[unit["stage"]]]: the last stage with this identifier. *)
Definition stage_entry (stage : json) : result (json * json) :=
  id ← field stage "id";
  order ← field stage "order";
  if hashable id then Ok (id, order) else Raise TypeError.
Definition order_of_stage (stages : list (json * json)) (stage : json) : result json :=
  if hashable stage then
    of_option KeyError (snd ∘ snd <$> list_find (fun it : json * json => json_eq stage it.1 = true) (rev stages))
  else Raise TypeError.

Record Entry : Type := { e_stage : json; e_order : json; e_unit : json; e_resource : pystr }.

(** The question pages of a unit, without the answers. *)
Definition question_entries (stages : list (json * json)) (unit : json) : result (list Entry) :=
  resources ← field unit "resources";
  resources ← iterate resources;
  foldM (fun entries resource =>
           match resource with
           | JStr r =>
               if startswith r (u "questions/") && negb (startswith r (u "questions/answers/")) then
                 stage ← field unit "stage";
                 stage_order ← order_of_stage stages stage;
                 order ← field unit "order";
                 Ok (entries ++ [Build_Entry stage_order order unit r])
               else Ok entries
           | _ => Raise AttributeError
           end) [] resources.

(** The comparison of the tuples [(stage, order, unit, resource)]. *)
Definition entry_lt (a b : Entry) : result bool :=
  if negb (json_eq (e_stage a) (e_stage b)) then json_lt (e_stage a) (e_stage b)
  else if negb (json_eq (e_order a) (e_order b)) then json_lt (e_order a) (e_order b)
  else if negb (json_eq (e_unit a) (e_unit b)) then json_lt (e_unit a) (e_unit b)
  else json_lt (JStr (e_resource a)) (JStr (e_resource b)).

Definition question_link (unit : json) (resource : pystr) (parent : list pystr) : result pystr :=
  status ← field unit "status";
  title ← field unit "title";
  if is_str status "planned" && negb (exists_ resource) then
    Ok (fmt title ++ u " (`" ++ resource ++ u "`)")
  else Ok (u "[" ++ fmt title ++ u "](" ++ relpath (norm root resource) parent ++ u ")").

Definition question_row (parent : list pystr) (e : Entry) : result pystr :=
  question ← question_link (e_unit e) (e_resource e) parent;
  id ← field (e_unit e) "id";
  status ← field (e_unit e) "status";
  Ok (u "| " ++ fmt (e_stage e) ++ u "." ++ fmt (e_order e) ++ u " | `" ++ fmt id ++ u "` | " ++ question ++
      u " | `" ++ fmt status ++ u "` |").

Definition questions_head : list pystr :=
  [ rstrip GENERATED_HEADER;
    [];
    u "# xv6 教程权威问题集";
    [];
    u "问题从真实控制流、状态、ownership、失败路径和证据边界生成；单元依赖与状态以 `curriculum.json` 为准。";
    [];
    u "| 阶段顺序 | 单元 | 问题路径 | 状态 |";
    u "|---:|---|---|---|" ].
Definition questions_tail : list pystr :=
  [ [];
    u "旧 `docs/questions/` 只保留指向本页的兼容入口，不维护同步副本。";
    [] ].

Definition render_questions (manifest : json) (parent : list pystr) : result pystr :=
  stages ← field manifest "stages";
  stages ← iterate stages;
  stage_order ← mapR stage_entry stages;
  units ← field manifest "units";
  units ← iterate units;
  entries ← mapR (question_entries stage_order) units;
  entries ← sort_by entry_lt (concat entries);
  rows ← mapR (question_row parent) entries;
  Ok (join [newline] (questions_head ++ rows ++ questions_tail)).

(** * The output files *)

Definition page (directory : list string) : pystr := join slash (u <$> (directory ++ ["README.md"])).
Definition OUTPUTS : list pystr := [page []; page ["foundation"]; page ["core"]; page ["stages"]; page ["questions"]].

(** [output_path.parent] *)
Definition parent (directory : string) : list pystr := root ++ [u directory].

Definition expected_outputs (manifest : json) : result (list (pystr * pystr)) :=
  root_page ← render_root manifest;
  foundation ← render_foundation manifest (parent "foundation");
  core ← render_core manifest (parent "core");
  stages ← render_stages manifest;
  questions ← render_questions manifest (parent "questions");
  Ok [ (page [], root_page); (page ["foundation"], foundation); (page ["core"], core);
       (page ["stages"], stages); (page ["questions"], questions) ].
End Render.

(** * Writing and checking *)

(** What a text file reads back as: every line end is a newline. *)
Fixpoint universal (s : pystr) : pystr :=
  match s with
  | [] => []
  | c :: s' =>
      if c =? cr then
        newline :: match s' with 10 :: s'' => universal s'' | _ => universal s' end
      else c :: universal s'
  end.

(** [content.rstrip() + "\n"] *)
Definition normalized (content : pystr) : pystr := rstrip content ++ [newline].

Section Main.
(** [other] exists in the tutorial apart from the pages of the store. *)
Context (root : list pystr) (other_text other_lower : json -> pystr) (other : pystr -> bool).

(** A path exists when it is one of the pages that were written or a directory
    one of them is in, or without them. *)
Definition exists_with (pages : list pystr) (path : pystr) : bool :=
  other path || existsb (fun page => bool_decide (norm root path `prefix_of` norm root page)) pages.

(** [path.exists()] and [path.read_text() == content] for a page of the store *)
Definition up_to_date (store : list (pystr * pystr)) (it : pystr * pystr) : bool :=
  match lookup_key it.1 store with
  | Some text => bool_decide (universal text = normalized it.2)
  | None => false
  end.

(** [main]: the exit status, the pages after the run and the stale ones. *)
Definition main (check : bool) (manifest : json) (store : list (pystr * pystr))
    : result (Z * list (pystr * pystr) * list pystr) :=
  outputs ← expected_outputs root other_text other_lower (exists_with store.*1) manifest;
  if check then
    let stale := (filter (fun it => up_to_date store it = false) outputs).*1 in
    Ok (if bool_decide (stale = []) then 0 else 1, store, stale)
  else
    Ok (0, foldl (fun s it => dict_set it.1 (normalized it.2) s) store outputs, []).
End Main.
