(* ===== verification/NavigationProps.v ===== *)
(** What the navigation generator guarantees: the index of the foundation stage
    lists its units in order, with links that lead from the index to their
    pages, and pages that were generated pass the check. *)

From stdpp Require Import base tactics list gmap strings numbers list_numbers sorting.
From S2P Require Import Prelude PyText PyBytes PyJson PyPath Curriculum CurriculumSource Navigation.
Open Scope Z_scope.

(** * Generating and checking *)

Lemma dict_set_keys {A} k (v : A) d : k ∈ d.*1 -> (dict_set k v d).*1 = d.*1.
Proof.
  induction d as [|[k' v'] d IH]; cbn; [by intros ?%not_elem_of_nil|].
  intros [->|H]%elem_of_cons; [by rewrite bool_decide_true|].
  case_bool_decide; cbn; [by subst|]. by rewrite IH.
Qed.

Lemma dict_set_key {A} k k' (v : A) d : k' ∈ (dict_set k v d).*1 <-> k' = k \/ k' ∈ d.*1.
Proof.
  rewrite !lookup_key_elem. destruct (decide (k = k')) as [<-|Hne].
  - rewrite lookup_dict_set. naive_solver.
  - rewrite lookup_dict_set_ne by done. naive_solver.
Qed.

Definition put (s : list (pystr * pystr)) (it : pystr * pystr) : list (pystr * pystr) :=
  dict_set it.1 (normalized it.2) s.

Lemma put_keys outputs : forall s, (forall it, it ∈ outputs -> it.1 ∈ s.*1) ->
  (foldl put s outputs).*1 = s.*1.
Proof.
  induction outputs as [|it outputs IH]; intros s H; cbn; [done|].
  assert (E : (put s it).*1 = s.*1) by (apply dict_set_keys, H; left).
  rewrite IH; [done|]. intros it' Hin. rewrite E. apply H. by right.
Qed.

Lemma put_key outputs k : forall s, k ∈ (foldl put s outputs).*1 <-> k ∈ outputs.*1 \/ k ∈ s.*1.
Proof.
  induction outputs as [|it outputs IH]; intros s; cbn; [by rewrite elem_of_nil; naive_solver|].
  rewrite IH. unfold put. rewrite dict_set_key, elem_of_cons. naive_solver.
Qed.

Lemma put_lookup outputs : forall s, NoDup outputs.*1 -> forall it, it ∈ outputs ->
  lookup_key it.1 (foldl put s outputs) = Some (normalized it.2).
Proof.
  induction outputs as [|x outputs IH]; intros s Hnd it Hin; [by apply not_elem_of_nil in Hin|].
  cbn in *. apply NoDup_cons in Hnd as [Hx Hnd]. apply elem_of_cons in Hin as [->|Hin]; [|by apply IH].
  assert (G : forall l s, x.1 ∉ l.*1 -> lookup_key x.1 (foldl put s l) = lookup_key x.1 s).
  { clear. induction l as [|y l IH]; intros s Hn; cbn; [done|]. cbn in Hn.
    apply not_elem_of_cons in Hn as [Hne Hn]. rewrite IH by done. by apply lookup_dict_set_ne. }
  rewrite G by done. apply lookup_dict_set.
Qed.

Lemma universal_id s : cr ∉ s -> universal s = s.
Proof.
  induction s as [|c s IH]; cbn; [done|]. intros [Hc Hs]%not_elem_of_cons.
  destruct (Z.eqb_spec c cr); [congruence|]. by rewrite IH.
Qed.

Lemma lstrip_suffix s : exists t, s = t ++ lstrip s.
Proof.
  induction s as [|c s [t IH]]; cbn; [by exists []|]. destruct (isspace c); [|by exists []].
  exists (c :: t). cbn. by f_equal.
Qed.

Lemma rstrip_elem c s : c ∈ rstrip s -> c ∈ s.
Proof.
  unfold rstrip. rewrite !list_elem_of_In, <-in_rev. intros H.
  destruct (lstrip_suffix (rev s)) as [t E]. apply in_rev. rewrite E. apply in_or_app. by right.
Qed.

Lemma normalized_universal content : cr ∉ content -> universal (normalized content) = normalized content.
Proof.
  intros H. apply universal_id. unfold normalized.
  intros [Hin%rstrip_elem|Hin%list_elem_of_singleton]%elem_of_app; done.
Qed.

Lemma OUTPUTS_distinct : NoDup OUTPUTS.
Proof. apply (bool_decide_unpack _). vm_compute. exact I. Qed.

Section Generated.
Context (root : list pystr) (other_text other_lower : json -> pystr) (other : pystr -> bool).
Context (manifest : json).

Abbreviation outputs_with pages :=
  (expected_outputs root other_text other_lower (exists_with root other pages) manifest).
Abbreviation run check := (main root other_text other_lower other check manifest).

Lemma outputs_paths pages outputs : outputs_with pages = Ok outputs -> outputs.*1 = OUTPUTS.
Proof.
  unfold expected_outputs. intros H. repeat (apply bind_ok in H as (? & _ & H)).
  by injection H as <-.
Qed.

Lemma run_write store store' stale : run false store = Ok (0, store', stale) ->
  exists outputs, outputs_with store.*1 = Ok outputs /\ store' = foldl put store outputs.
Proof.
  unfold main. intros H. apply bind_ok in H as (outputs & Ho & H). injection H as <- _.
  by exists outputs.
Qed.

(** Pages that were generated twice pass the check: after the first run
    all pages exist, so the second renders them in the state the check sees,
    and what it wrote reads back unchanged (a carriage return, which would
    read back as a newline, aside). *)
Theorem generated_pages_pass store store1 store2 stale1 stale2 :
  run false store = Ok (0, store1, stale1) -> run false store1 = Ok (0, store2, stale2) ->
  (forall outputs it, outputs_with store1.*1 = Ok outputs -> it ∈ outputs -> cr ∉ it.2) ->
  run true store2 = Ok (0, store2, []).
Proof.
  intros (o1 & H1 & E1)%run_write (o2 & H2 & E2)%run_write Hcr.
  pose proof (outputs_paths _ _ H1) as P1. pose proof (outputs_paths _ _ H2) as P2.
  assert (Hkeys : store2.*1 = store1.*1).
  { rewrite E2. apply put_keys. intros it Hin%(list_elem_of_fmap_2 fst). rewrite E1, put_key. left.
    by rewrite P1, <-P2. }
  unfold main. rewrite Hkeys, H2. cbn [mbind result_bind].
  assert (Hnone : filter (fun it => up_to_date store2 it = false) o2 = []).
  { destruct (filter _ o2) as [|it l] eqn:Ef; [done|].
    assert (Hin : it ∈ filter (fun it => up_to_date store2 it = false) o2) by (rewrite Ef; left).
    apply list_elem_of_filter in Hin as [Hold Hin]. unfold up_to_date in Hold.
    rewrite E2, put_lookup in Hold; [|by rewrite P2; apply OUTPUTS_distinct|done].
    rewrite bool_decide_true in Hold; [done|]. apply normalized_universal. by eapply Hcr. }
  by rewrite Hnone.
Qed.
End Generated.

(** The sample manifest, generated from nothing. *)
Definition no_text (v : json) : pystr := [].
Definition sample_run (check : bool) (store : list (pystr * pystr)) :=
  main [] no_text no_text (fun _ => false) check sample_manifest store.
Definition pages_of (r : result (Z * list (pystr * pystr) * list pystr)) : list (pystr * pystr) :=
  match r with Ok (_, store, _) => store | Raise _ => [] end.
Definition sample_pages : list (pystr * pystr) := pages_of (sample_run false []).

Lemma sample_texts outputs :
  expected_outputs [] no_text no_text (exists_with [] (fun _ => false) sample_pages.*1) sample_manifest
    = Ok outputs -> Forall (fun it => cr ∉ it.2) outputs.
Proof.
  intros E. assert (H : match expected_outputs [] no_text no_text
      (exists_with [] (fun _ => false) sample_pages.*1) sample_manifest with
    | Ok outputs => bool_decide (Forall (fun it => cr ∉ it.2) outputs) | Raise _ => true end = true)
    by (vm_compute; reflexivity).
  rewrite E in H. by apply bool_decide_eq_true in H.
Qed.

Lemma generated_pages_pass_witness :
  length sample_pages = 5%nat /\ sample_run true sample_pages = Ok (0, sample_pages, []).
Proof.
  assert (H1 : sample_run false [] = Ok (0, sample_pages, [])) by (vm_compute; reflexivity).
  assert (H2 : sample_run false sample_pages = Ok (0, sample_pages, [])) by (vm_compute; reflexivity).
  split; [vm_compute; reflexivity|].
  apply (generated_pages_pass [] no_text no_text (fun _ => false) sample_manifest _ _ _ _ _ H1 H2).
  intros outputs it Ho Hin. pose proof (sample_texts outputs Ho) as Hf. rewrite Forall_forall in Hf. exact (Hf it Hin).
Defined.

(** * The order of the units in an index *)

(** The place of an entry, as an integer. *)
Definition order_is (v : json) (z : Z) : Prop := field v "order" = Ok (JInt z).
Definition order_le (a b : json) : Prop := exists x y, order_is a x /\ order_is b y /\ x <= y.

Lemma number_lt_int x y : json_lt (JInt x) (JInt y) = Ok (x <? y).
Proof. cbn. unfold number_lt. cbn. by rewrite !Z.mul_1_r. Qed.

(** Keyed entries, as [sort_orders] sorts them. *)
Definition keyed (it : json * json) : Prop := exists z, it.1 = JInt z /\ order_is it.2 z.
Definition key_lt (a b : json * json) : result bool := json_lt a.1 b.1.
Definition key_le (a b : json * json) : Prop := exists x y, a.1 = JInt x /\ b.1 = JInt y /\ x <= y.

Lemma insert_sorts x l : keyed x -> Forall keyed l -> StronglySorted key_le l ->
  exists l', insert_by key_lt x l = Ok l' /\ l' ≡ₚ x :: l /\ StronglySorted key_le l'.
Proof.
  intros (zx & Ex & Hx). induction l as [|y l IH]; intros Hk Hs; cbn [insert_by].
  { exists [x]. split; [done|]. split; [done|]. repeat constructor. }
  apply Forall_cons in Hk as [(zy & Ey & Hy) Hk]. apply StronglySorted_inv in Hs as [Hs Hall].
  assert (Hlt : key_lt x y = Ok (zx <? zy)) by (unfold key_lt; by rewrite Ex, Ey, number_lt_int).
  rewrite Hlt. cbn [mbind result_bind]. clear Hlt.
  destruct (Z.ltb_spec zx zy) as [Hlt|Hge].
  - exists (x :: y :: l). split; [done|]. split; [done|]. constructor; [by constructor|].
    constructor; [exists zx, zy; split; [done|split; [done|lia]]|].
    eapply Forall_impl; [exact Hall|]. intros w (a & b & E1 & E2 & Hle). exists zx, b.
    rewrite Ey in E1. injection E1 as <-. split; [done|]. split; [done|lia].
  - destruct (IH Hk Hs) as (l' & -> & Hp & Hs'). cbn [mbind result_bind]. exists (y :: l').
    split; [done|]. split; [rewrite Hp; apply perm_swap|]. constructor; [done|]. rewrite Hp.
    constructor; [exists zy, zx; split; [done|split; [done|lia]]|done].
Qed.

Lemma sort_by_sorts l : forall s, Forall keyed l -> Forall keyed s -> StronglySorted key_le s ->
  exists l', foldM (fun s x => insert_by key_lt x s) s l = Ok l' /\ l' ≡ₚ s ++ l /\ StronglySorted key_le l'.
Proof.
  induction l as [|x l IH]; intros s Hk Hks Hs; cbn [foldM].
  { exists s. by rewrite app_nil_r. }
  apply Forall_cons in Hk as [Hx Hk]. destruct (insert_sorts x s Hx Hks Hs) as (s1 & -> & Hp & Hs1).
  cbn [mbind result_bind]. destruct (IH s1 Hk) as (l' & -> & Hp' & Hs').
  { rewrite Hp. by constructor. }
  { done. }
  exists l'. split; [done|]. split; [|done]. rewrite Hp', Hp. cbn. apply Permutation_middle.
Qed.

Lemma sort_orders_sorts items : (forall v, v ∈ items -> exists z, order_is v z) ->
  exists l, sort_orders items = Ok l /\ l ≡ₚ items /\ StronglySorted order_le l.
Proof.
  intros H. unfold sort_orders.
  assert (Hm : exists ks, mapR (fun v => order ← field v "order"; Ok (order, v)) items = Ok ks /\
             ks.*2 = items /\ Forall keyed ks).
  { induction items as [|v items IH]; [by exists []|]. destruct (H v ltac:(left)) as [z Hz].
    destruct IH as (ks & Ek & E2 & Hk); [intros w Hw; apply H; by right|]. exists ((JInt z, v) :: ks).
    cbn [mapR]. rewrite Hz. cbn [mbind result_bind]. rewrite Ek. cbn [mbind result_bind].
    split; [done|]. split; [by cbn; rewrite E2|]. constructor; [by exists z|done]. }
  destruct Hm as (ks & -> & E2 & Hk). cbn [mbind result_bind]. unfold sort_by.
  destruct (sort_by_sorts ks [] Hk ltac:(constructor) ltac:(constructor)) as (l & El & Hp & Hs).
  unfold key_lt in El. rewrite El. cbn [mbind result_bind]. exists l.*2. split; [done|].
  split; [by rewrite <-E2, Hp|]. rewrite <-Hp in Hk. clear -Hk Hs. induction Hs as [|a l Hs IH Hall]; [constructor|].
  apply Forall_cons in Hk as [(za & Ea & Ha) Hk]. constructor; [by apply IH|]. apply Forall_fmap.
  apply Forall_forall. intros b Hb. rewrite Forall_forall in Hall, Hk.
  destruct (Hall b Hb) as (x & y & E1 & E2' & Hle), (Hk b Hb) as (zb & Eb & Hb'). exists za, zb.
  cbn. split; [done|]. split; [done|]. congruence.
Qed.

(** A unit of the foundation stage. *)
Definition in_foundation (v : json) : bool :=
  match field v "stage" with Ok s => is_str s "foundation" | Raise _ => false end.

Lemma having_filter l : (forall v, v ∈ l -> exists s, field v "stage" = Ok s) ->
  having "stage" "foundation" l = Ok (filter (fun v => in_foundation v = true) l).
Proof.
  induction l as [|v l IH]; intros H; [done|]. cbn [having]. destruct (H v ltac:(left)) as [s Hs].
  rewrite Hs. cbn [mbind result_bind]. rewrite IH by (intros w Hw; apply H; by right).
  assert (Hv : in_foundation v = is_str s "foundation") by (unfold in_foundation; by rewrite Hs).
  cbn [mbind result_bind]. rewrite filter_cons, Hv. by destruct (is_str s "foundation").
Qed.

(** * The links of an index *)

(** A name that stands for itself in a path. *)
Definition plain (c : pystr) : Prop := c <> [] /\ c <> u "." /\ c <> u ".." /\ 47 ∉ c.

Lemma split_slash s : Forall (fun c => 47 ∉ c) (split slash s).
Proof.
  change slash with [47]. unfold split. assert (Hn : (length s <= length s)%nat) by lia. revert Hn.
  generalize (length s) at 2 3 as n. intros n. revert s. induction n as [|n IH]; intros s Hn; cbn [pieces_fuel].
  - destruct s; cbn in Hn; [|lia]. constructor; [apply not_elem_of_nil|constructor].
  - destruct (decide (47 ∈ s)) as [H|H]; [|rewrite cut_char_None by done; by repeat constructor].
    apply list_elem_of_split_l in H as (a & b & -> & Ha). rewrite cut_char by done. constructor; [done|].
    apply IH. rewrite length_app in Hn. cbn in Hn. lia.
Qed.

Lemma split_join parts : parts <> [] -> Forall (fun c => 47 ∉ c) parts -> split slash (join slash parts) = parts.
Proof.
  change slash with [47]. unfold split. intros H0 Hp.
  assert (Hn : (length (join [47%Z] parts) <= length (join [47%Z] parts))%nat) by lia. revert Hn.
  generalize (length (join [47] parts)) at 2 3 as n. intros n. revert n.
  induction Hp as [|c parts Hc Hp IH]; [done|]. intros n. destruct parts as [|d parts].
  - intros _. cbn [join]. destruct n; cbn [pieces_fuel]; [done|]. by rewrite cut_char_None.
  - change (join [47] (c :: d :: parts)) with (c ++ 47 :: join [47] (d :: parts)).
    rewrite length_app. cbn [length]. intros Hn. destruct n as [|n]; [lia|]. cbn [pieces_fuel].
    rewrite cut_char by done. f_equal. apply IH; [done|lia].
Qed.

Lemma common_take {A} `{EqDecision A} (a b : list A) : take (common a b) a = take (common a b) b.
Proof.
  revert b. induction a as [|x a IH]; intros [|y b]; cbn; try done.
  case_bool_decide; [|done]. subst. cbn. by rewrite IH.
Qed.

Lemma norm_up l n : foldl norm_step l (repeat (u "..") n) = take (length l - n) l.
Proof.
  revert l. induction n as [|n IH]; intros l; cbn [repeat foldl].
  { by rewrite Nat.sub_0_r, firstn_all. }
  rewrite IH. change (norm_step l (u "..")) with (removelast l). rewrite removelast_firstn_len.
  rewrite firstn_firstn, length_firstn. f_equal. lia.
Qed.

Lemma norm_down l parts : Forall plain parts -> foldl norm_step l parts = l ++ parts.
Proof.
  intros H. revert l. induction H as [|c parts (H1 & H2 & H3 & _) _ IH]; intros l; cbn [foldl].
  { by rewrite app_nil_r. }
  unfold norm_step at 2. rewrite !bool_decide_false by done. cbn [orb]. rewrite IH, <-app_assoc. done.
Qed.

Lemma norm_step_plain acc c : 47 ∉ c -> Forall plain acc -> Forall plain (norm_step acc c).
Proof.
  intros Hc H. unfold norm_step.
  case_bool_decide; cbn [orb]; [done|]. case_bool_decide; cbn [orb]; [done|]. case_bool_decide.
  - rewrite removelast_firstn_len. by apply Forall_take.
  - apply Forall_app. split; [done|]. by repeat constructor.
Qed.

Lemma norm_plain root path : Forall plain root -> Forall plain (norm root path).
Proof.
  intros H. unfold norm. assert (Hs := split_slash path).
  assert (Hacc : Forall plain (if is_absolute path then [] else root)) by (by destruct (is_absolute path)).
  revert Hacc. generalize (if is_absolute path then [] else root) as acc.
  induction Hs as [|c cs Hc Hs IH]; intros acc Hacc; cbn [foldl]; [done|]. by apply IH, norm_step_plain.
Qed.

Lemma relative_parts parts : parts <> [] -> Forall (fun c => c <> [] /\ 47 ∉ c) parts ->
  is_absolute (join slash parts) = false.
Proof.
  intros H0 H. destruct parts as [|c parts]; [done|]. apply Forall_cons in H as [[Hc Hx] _].
  destruct c as [|x c]; [done|].
  apply not_elem_of_cons in Hx as [Hx _]. unfold is_absolute.
  assert (E : exists s, join slash ((x :: c) :: parts) = x :: s) by (destruct parts; eexists; reflexivity).
  destruct E as [s ->]. change slash with [47]. cbn [startswith]. by destruct (Z.eqb_spec 47 x).
Qed.

(** Following the relative path from the directory leads to the target. *)
Lemma relpath_resolves target start : Forall plain target -> Forall plain start ->
  norm start (relpath target start) = target.
Proof.
  intros Ht Hs. unfold relpath. set (i := common target start).
  set (parts := repeat (u "..") (length start - i) ++ drop i target).
  assert (Hi : (i <= length start)%nat).
  { unfold i. clear. revert start. induction target as [|x a IH]; intros [|y b]; cbn; try lia.
    case_bool_decide; [|lia]. specialize (IH b). lia. }
  assert (Hgo : foldl norm_step start parts = target).
  { unfold parts. rewrite foldl_app, norm_up, norm_down by (by apply Forall_drop).
    replace (length start - (length start - i))%nat with i by lia. unfold i. rewrite <-common_take.
    apply take_drop. }
  assert (Hparts : Forall (fun c => c <> [] /\ 47 ∉ c) parts).
  { apply Forall_app. split.
    - apply Forall_forall. intros c Hc%list_elem_of_In%repeat_spec. subst c. split; [done|].
      apply (bool_decide_unpack _). vm_compute. exact I.
    - eapply Forall_impl; [by apply Forall_drop|]. by intros c (? & _ & _ & ?). }
  destruct parts as [|c parts']; [exact Hgo|]. unfold norm. rewrite relative_parts by done.
  rewrite split_join; [exact Hgo|done|]. eapply Forall_impl; [exact Hparts|]. by intros d [_ ?].
Qed.

Section FoundationIndex.
Context (root : list pystr) (other_text : json -> pystr) (exists_ : pystr -> bool).

Abbreviation here := (parent root "foundation").

(** The cell of a unit: its title and identifier while it is planned and has no
    page, and otherwise a link that leads from the index to its page. *)
Definition cell_shows (unit : json) (path : pystr) (status : json) (cell : pystr) : Prop :=
  exists title, field unit "title" = Ok title /\
  if is_str status "planned" && negb (exists_ path)
  then exists id, field unit "id" = Ok id /\ cell = fmt other_text title ++ u " (`" ++ fmt other_text id ++ u "`)"
  else exists target, cell = u "[" ++ fmt other_text title ++ u "](" ++ target ++ u ")" /\
         norm here target = norm root path.

Definition row_shows (unit : json) (row : pystr) : Prop :=
  exists order path status cell,
    order_is unit order /\ field unit "path" = Ok (JStr path) /\ field unit "status" = Ok status /\
    cell_shows unit path status cell /\
    row = u "| " ++ str_of_int order ++ u " | " ++ cell ++ u " | `" ++ fmt other_text status ++ u "` |".

Lemma unit_link_shows unit path status link : Forall plain root ->
  field unit "path" = Ok (JStr path) -> field unit "status" = Ok status ->
  unit_link root other_text exists_ unit here = Ok link -> cell_shows unit path status link.
Proof.
  intros Hr Hp Hs H. unfold unit_link in H. rewrite Hp in H. cbn [mbind result_bind need_str] in H.
  rewrite Hs in H. cbn [mbind result_bind] in H. unfold cell_shows.
  destruct (is_str status "planned" && negb (exists_ path)); apply bind_ok in H as (title & Ht & H).
  - apply bind_ok in H as (id & Hid & H). injection H as <-. eauto.
  - injection H as <-. exists title. split; [done|]. eexists. split; [reflexivity|].
    apply relpath_resolves; [by apply norm_plain|]. apply Forall_app. split; [done|]. constructor; [|constructor].
    apply (bool_decide_unpack _). vm_compute. exact I.
Qed.

Lemma foundation_row_shows unit row : Forall plain root -> (exists z, order_is unit z) ->
  foundation_row root other_text exists_ here unit = Ok row -> row_shows unit row.
Proof.
  intros Hr [z Hz] H. unfold foundation_row in H. rewrite Hz in H. cbn [mbind result_bind] in H.
  apply bind_ok in H as (link & Hl & H). apply bind_ok in H as (status & Hs & H). injection H as <-.
  pose proof Hl as Hp. unfold unit_link in Hp. apply bind_ok in Hp as (p & Hp & Hp').
  apply bind_ok in Hp' as (path & Hn & _). destruct p; try discriminate. injection Hn as <-.
  exists z, s, status, link. repeat (split; [done|]). split; [|done]. by apply unit_link_shows.
Qed.

Lemma having_stages l r : having "stage" "foundation" l = Ok r ->
  forall v, v ∈ l -> exists s, field v "stage" = Ok s.
Proof.
  revert r. induction l as [|x l IH]; intros r H v Hv; [by apply not_elem_of_nil in Hv|].
  cbn [having] in H. apply bind_ok in H as (s & Hs & H). apply bind_ok in H as (l' & Hl & _).
  apply elem_of_cons in Hv as [->|Hv]; eauto.
Qed.

(** C37: the foundation index has one row for every unit of the foundation
    stage and no other, sorted by their order; the row of a unit with a page,
    or not only planned, has a link that leads from the directory of the index
    to the path of the unit in the tutorial. *)
Theorem foundation_index_links manifest l text :
  Forall plain root -> field manifest "units" = Ok (JList l) -> (forall v, v ∈ l -> exists z, order_is v z) ->
  render_foundation root other_text exists_ manifest here = Ok text ->
  exists units rows, units ≡ₚ filter (fun v => in_foundation v = true) l /\ StronglySorted order_le units /\
    Forall2 row_shows units rows /\ text = join [newline] (foundation_head ++ rows ++ [[]]).
Proof.
  intros Hr Hu Hv H. unfold render_foundation in H. rewrite Hu in H. cbn [mbind result_bind iterate] in H.
  apply bind_ok in H as (fs & Hf & H). rewrite having_filter in Hf by (by eapply having_stages).
  injection Hf as <-. apply bind_ok in H as (units & Hs & H). apply bind_ok in H as (rows & Hrows & H).
  injection H as <-. destruct (sort_orders_sorts (filter (fun v => in_foundation v = true) l))
    as (units' & E & Hp & Hso); [intros v [_ Hin]%list_elem_of_filter; by apply Hv|].
  rewrite Hs in E. injection E as <-. exists units, rows. split; [done|]. split; [done|]. split; [|done].
  apply mapR_ok in Hrows. assert (Ho : Forall (fun v => exists z, order_is v z) units).
  { apply Forall_forall. intros v Hin. rewrite Hp in Hin. apply list_elem_of_filter in Hin as [_ Hin]. by apply Hv. }
  clear -Hrows Ho Hr. induction Hrows as [|v row units rows Hrow _ IH]; [constructor|].
  apply Forall_cons in Ho as [Hz Ho]. constructor; [|by apply IH]. by apply foundation_row_shows.
Qed.
End FoundationIndex.

(** Two units of the stage and one of another, of which the first is planned
    and the second has its page two directories away. *)
Definition indexed_units : list json :=
  [ JObj [kv "stage" (jstr "foundation"); kv "order" (JInt 2); kv "path" (jstr "foundation/b.md");
          kv "status" (jstr "planned"); kv "title" (jstr "B"); kv "id" (jstr "b")];
    JObj [kv "stage" (jstr "core"); kv "order" (JInt 1)];
    JObj [kv "stage" (jstr "foundation"); kv "order" (JInt 1); kv "path" (jstr "core/x/a.md");
          kv "status" (jstr "draft"); kv "title" (jstr "A"); kv "id" (jstr "a")] ].
Definition indexed_text : pystr :=
  join [newline] (foundation_head ++ [u "| 1 | [A](../core/x/a.md) | `draft` |"; u "| 2 | B (`b`) | `planned` |"; []]).

Lemma foundation_index_links_witness :
  exists units rows, units ≡ₚ filter (fun v => in_foundation v = true) indexed_units /\
    StronglySorted order_le units /\ Forall2 (row_shows [u "tutorial"] no_text (fun _ => false)) units rows /\
    indexed_text = join [newline] (foundation_head ++ rows ++ [[]]).
Proof.
  apply (foundation_index_links [u "tutorial"] no_text (fun _ => false) (JObj [kv "units" (JList indexed_units)])).
  - constructor; [|constructor]. apply (bool_decide_unpack _). vm_compute. exact I.
  - reflexivity.
  - intros v Hv. unfold indexed_units in Hv. repeat (apply elem_of_cons in Hv as [->|Hv]; [eexists; reflexivity|]).
    by apply not_elem_of_nil in Hv.
  - vm_compute. reflexivity.
Defined.
