(* ===== verification/PyDyn.v ===== *)
(** Values whose type is only known at run time: the fields that the runners
    read with [int(value, 0)] and keep as text when that fails.

    A field that is missing, a number compared with a text, and the order in
    which [and] looks at its operands are all observable, so conditions are
    computations: [a &&. b] evaluates [b] only when [a] is true. *)

From stdpp Require Import base tactics list gmap strings numbers list_numbers.
From S2P Require Import Prelude PyText PyBytes PyRegex PyJson.
Open Scope Z_scope.

(** * [int(s, base)] of a text without white space *)

(** [int] reads any decimal digit of Unicode as the ASCII one. *)
Definition ascii_digit (c : Z) : Z := match decimal c with Some d => 48 + d | None => c end.

Definition digit_value (c : Z) : option Z :=
  if (48 <=? c) && (c <=? 57) then Some (c - 48)
  else if (97 <=? c) && (c <=? 122) then Some (c - 87)
  else if (65 <=? c) && (c <=? 90) then Some (c - 55)
  else None.

(** The digits after the sign and the prefix: their value and their number.
    [fresh] says that an underscore may not come next. *)
Fixpoint read_digits (base : Z) (fresh : bool) (acc n : Z) (s : pystr) : option (Z * Z) :=
  match s with
  | [] => if fresh then None else Some (acc, n)
  | c :: s =>
      if c =? 95 then if fresh then None else read_digits base true acc n s
      else match digit_value c with
           | Some d => if d <? base then read_digits base false (acc * base + d) (n + 1) s else None
           | None => None
           end
  end.

(** The limit on digits holds for bases that are not a power of two. *)
Definition read_number (base : Z) (s : pystr) : option Z :=
  match read_digits base true 0 0 s with
  | Some (z, n) => if (base =? 10) && (Z.of_nat MAX_STR_DIGITS <? n) then None else Some z
  | None => None
  end.

(** One underscore may follow a prefix. *)
Definition skip_underscore (s : pystr) : pystr := match s with 95 :: s => s | _ => s end.

(** Base 0: the prefix decides, and a decimal number other than zero does not
    start with a zero. *)
Definition read_literal (s : pystr) : option Z :=
  match s with
  | 48 :: c :: t =>
      if (c =? 120) || (c =? 88) then read_number 16 (skip_underscore t)
      else if (c =? 111) || (c =? 79) then read_number 8 (skip_underscore t)
      else if (c =? 98) || (c =? 66) then read_number 2 (skip_underscore t)
      else match read_number 10 s with Some 0 => Some 0 | _ => None end
  | _ => read_number 10 s
  end.

Definition signed (read : pystr -> option Z) (s : pystr) : option Z :=
  match ascii_digit <$> s with
  | 45 :: t => Z.opp <$> read t
  | 43 :: t => read t
  | t => read t
  end.

(** [int(s, 0)] and [int(s)]; [None] is the [ValueError]. *)
Definition int0 (s : pystr) : option Z := signed read_literal s.
Definition int10 (s : pystr) : option Z := signed (read_number 10) s.
(** [int(s, 16)] of a text of hexadecimal digits *)
Definition int16 (s : pystr) : result Z := of_option ValueError (read_number 16 s).

(** * Values and records *)

Inductive dyn : Type := DNone | DInt (z : Z) | DStr (s : pystr).
#[global] Instance dyn_eq_dec : EqDecision dyn.
Proof. solve_decision. Defined.

(** [try: int(value, 0) except ValueError: value] *)
Definition dyn_of (value : pystr) : dyn := match int0 value with Some z => DInt z | None => DStr value end.

(** A dictionary of fields, in insertion order *)
Abbreviation record := (list (pystr * dyn)).

(** [r[key]] and [r.get(key)] *)
Definition fetch (r : record) (key : string) : result dyn := of_option KeyError (lookup_key (u key) r).
Definition look (r : record) (key : string) : result dyn := Ok (default DNone (lookup_key (u key) r)).

(** * Conditions *)

Definition andR (a b : result bool) : result bool := match a with Ok true => b | r => r end.
Definition notR (a : result bool) : result bool := b ← a; Ok (negb b).
Definition eqR (a b : result dyn) : result bool := x ← a; y ← b; Ok (bool_decide (x = y)).
Definition neR (a b : result dyn) : result bool := notR (eqR a b).

(** [<] is defined between numbers and between texts only. *)
Definition ltD (a b : dyn) : result bool :=
  match a, b with
  | DInt x, DInt y => Ok (x <? y)
  | DStr x, DStr y => Ok (negb (str_le y x))
  | _, _ => Raise TypeError
  end.
Definition ltR (a b : result dyn) : result bool := x ← a; y ← b; ltD x y.
(** [a >= b]: the operands are evaluated from the left. *)
Definition geR (a b : result dyn) : result bool := x ← a; y ← b; c ← ltD x y; Ok (negb c).
Definition gtR (a b : result dyn) : result bool := x ← a; y ← b; ltD y x.

(** [isinstance(a, int)] *)
Definition isint (a : result dyn) : result bool :=
  x ← a; Ok (match x with DInt _ => true | _ => false end).

(** Arithmetic and [&] on numbers; a text is a [TypeError]. *)
Definition arith (f : Z -> Z -> Z) (a b : result dyn) : result dyn :=
  x ← a; y ← b;
  match x, y with DInt x, DInt y => Ok (DInt (f x y)) | _, _ => Raise TypeError end.

(** [all(... for x in l)] and [a in (b, c, ...)] *)
Fixpoint allR {A} (f : A -> result bool) (l : list A) : result bool :=
  match l with [] => Ok true | a :: l => andR (f a) (allR f l) end.
Definition inR (a : result dyn) (l : list dyn) : result bool := x ← a; Ok (bool_decide (x ∈ l)).

(** A condition on values that are not dynamic, and [l[i]] in a condition *)
Definition holds (P : Prop) `{!Decision P} : result bool := Ok (bool_decide P).
Definition item (l : list Z) (i : nat) : result dyn := of_option IndexError (DInt <$> l !! i).

(** [require(condition, message)] *)
Definition requireR (c : result bool) (m : msg) : result () := b ← c; require b m.

Declare Scope dyn_scope.
Delimit Scope dyn_scope with dyn.
Notation "# z" := (@Ok dyn (DInt z)) (at level 8, format "# z") : dyn_scope.
Notation "'text' s" := (@Ok dyn (DStr (u s))) (at level 8) : dyn_scope.
Infix "==" := eqR (at level 70) : dyn_scope.
Infix "!=" := neR (at level 70) : dyn_scope.
Infix "<" := ltR : dyn_scope.
Infix ">" := gtR : dyn_scope.
Infix ">=" := geR : dyn_scope.
Infix "+" := (arith Z.add) : dyn_scope.
Infix "-" := (arith Z.sub) : dyn_scope.
Infix "*" := (arith Z.mul) : dyn_scope.
Infix "&" := (arith Z.land) (at level 45) : dyn_scope.
Infix "&&." := andR (at level 75, right associativity) : dyn_scope.

(** * Fields of a marker line *)

Definition key_char (c : Z) : bool := in_range "a" "z" c || (c =? 95).
(** [([a-z_]+)=([^\s]+)] *)
Definition field_re : pattern :=
  all_of [ MGrp 1 (plus (MChr key_char)); lit "="; MGrp 2 (plus (MChr (fun c => negb (isspace c)))) ].
Definition field_of (g : groups) : pystr * pystr := (default [] (group g 1), default [] (group g 2)).

(** [for key, value in re.findall(...): values[key] = ...] *)
Definition found_fields (line : pystr) : record :=
  foldl (fun values g => let '(key, value) := field_of g in dict_set key (dyn_of value) values)
    [] (re_finditer field_re line).

(** [[line.strip() for line in output.splitlines() if line.startswith(prefix)]] *)
Definition lines_starting (output : pystr) (prefix : string) : list pystr :=
  strip <$> filter (fun line => startswith line (u prefix) = true) (splitlines output).

(** [len(lines) == 1], and the line *)
Definition only_line (lines : list pystr) (m : msg) : result pystr :=
  match lines with [line] => Ok line | _ => Raise (LabError m) end.

(** [{r[key]: r for r in records}], the latest record of a key first, and the
    record found under a key *)
Definition keyed (key : string) (records : list record) : result (list (dyn * record)) :=
  foldM (fun m r => k ← fetch r key; Ok ((k, r) :: m)) [] records.
Definition at_key (m : list (dyn * record)) (k : dyn) : result record :=
  of_option KeyError (snd ∘ snd <$> list_find (fun e => e.1 = k) m).

(** * Facts *)

Lemma requireR_ok c m x : requireR c m = Ok x <-> c = Ok true.
Proof. unfold requireR. destruct c as [[]|]; cbn; destruct x; split; congruence. Qed.

Lemma andR_ok a b : andR a b = Ok true <-> a = Ok true /\ b = Ok true.
Proof. destruct a as [[]|]; cbn; naive_solver. Qed.

Lemma eqR_ok a b : eqR a b = Ok true <-> exists x, a = Ok x /\ b = Ok x.
Proof.
  unfold eqR. destruct a as [x|], b as [y|]; cbn; try naive_solver.
  case_bool_decide; naive_solver.
Qed.

Lemma neR_ok a b : neR a b = Ok true <-> exists x y, a = Ok x /\ b = Ok y /\ x <> y.
Proof.
  unfold neR, notR, eqR. destruct a as [x|], b as [y|]; cbn; try naive_solver.
  case_bool_decide; naive_solver.
Qed.

Lemma gtR_int a n : gtR a (Ok (DInt n)) = Ok true <-> exists z, a = Ok (DInt z) /\ n < z.
Proof.
  unfold gtR. destruct a as [[|z|s]|]; cbn; try naive_solver. split.
  - intros [= ?%Z.ltb_lt]. eauto.
  - intros (? & [= <-] & ?). f_equal. by apply Z.ltb_lt.
Qed.

Lemma geR_int a n : geR a (Ok (DInt n)) = Ok true <-> exists z, a = Ok (DInt z) /\ n <= z.
Proof.
  unfold geR. destruct a as [[|z|s]|]; cbn; try naive_solver. split.
  - intros [= ?%negb_true_iff%Z.ltb_ge]. eauto.
  - intros (? & [= <-] & ?). f_equal. by apply negb_true_iff, Z.ltb_ge.
Qed.

Lemma isint_ok a : isint a = Ok true <-> exists z, a = Ok (DInt z).
Proof. unfold isint. destruct a as [[]|]; cbn; naive_solver. Qed.

Lemma allR_ok {A} (f : A -> result bool) l : allR f l = Ok true <-> Forall (fun a => f a = Ok true) l.
Proof.
  induction l as [|a l IH]; cbn; [by split|]. rewrite andR_ok, IH, Forall_cons. done.
Qed.

Lemma inR_ok a l : inR a l = Ok true <-> exists x, a = Ok x /\ x ∈ l.
Proof. unfold inR. destruct a; cbn; [|naive_solver]. case_bool_decide; naive_solver. Qed.

Lemma fetch_look r k x : fetch r k = Ok x -> look r k = Ok x.
Proof. unfold fetch, look. destruct (lookup_key _ _); cbn; congruence. Qed.

Lemma look_int r k z : look r k = Ok (DInt z) <-> fetch r k = Ok (DInt z).
Proof. unfold fetch, look. destruct (lookup_key _ _); cbn; naive_solver. Qed.
Lemma look_str r k s : look r k = Ok (DStr s) <-> fetch r k = Ok (DStr s).
Proof. unfold fetch, look. destruct (lookup_key _ _); cbn; naive_solver. Qed.
Lemma look_ok r k : exists x, look r k = Ok x.
Proof. unfold look. eauto. Qed.

(** The number under a key, zero where there is none. *)
Definition number_at (r : record) (key : string) : Z :=
  match lookup_key (u key) r with Some (DInt z) => z | _ => 0 end.

Lemma fetch_number r k z : fetch r k = Ok (DInt z) -> number_at r k = z.
Proof. unfold fetch, number_at. destruct (lookup_key _ _); cbn; [by intros [= ->]|done]. Qed.

Lemma holds_ok P `{!Decision P} : holds P = Ok true <-> P.
Proof. unfold holds. case_bool_decide; split; congruence. Qed.
Lemma item_ok l i x : item l i = Ok x <-> exists z, l !! i = Some z /\ x = DInt z.
Proof. unfold item. destruct (l !! i); cbn; naive_solver. Qed.
Lemma int_condition (f : Z -> Z -> Z) a b x :
  arith f a b = Ok x <-> exists m n, a = Ok (DInt m) /\ b = Ok (DInt n) /\ x = DInt (f m n).
Proof. unfold arith. destruct a as [[]|], b as [[]|]; cbn; naive_solver. Qed.

Lemma keyed_spec key rs m : keyed key rs = Ok m ->
  Forall2 (fun r k => fetch r key = Ok k) rs (rev m.*1) /\
  Forall (fun e => e.2 ∈ rs /\ fetch e.2 key = Ok e.1) m.
Proof.
  intros H. unfold keyed in H.
  refine (foldM_inv _ (fun seen m => Forall2 (fun r k => fetch r key = Ok k) seen (rev m.*1) /\
            Forall (fun e => e.2 ∈ seen /\ fetch e.2 key = Ok e.1) m) rs [] m _ _ H).
  { by split; constructor. }
  intros seen e s s' _ [Hr Hs] Hf. inv_ok. split.
  - rewrite fmap_cons. cbn [rev]. apply Forall2_app; [done|]. by repeat constructor.
  - constructor; cbn [fst snd].
    + split; [set_solver|done].
    + eapply Forall_impl; [done|]. intros [k x] [? ?]. split; [set_solver|done].
Qed.

Lemma at_key_elem key rs m k e :
  keyed key rs = Ok m -> at_key m k = Ok e -> e ∈ rs /\ fetch e key = Ok k.
Proof.
  intros [_ Hm]%keyed_spec H. unfold at_key in H. inv_ok.
  destruct (list_find _ m) as [[i [k' x]]|] eqn:F; [|done]. cbn in E. injection E as <-.
  apply list_find_Some in F as (Hi & Hk & _). cbn in Hk. subst k'.
  rewrite Forall_forall in Hm. apply list_elem_of_lookup_2 in Hi. by apply Hm in Hi.
Qed.

Lemma at_key_found m k : k ∈ m.*1 -> exists e, at_key m k = Ok e.
Proof.
  intros (e & -> & He)%list_elem_of_fmap. unfold at_key.
  destruct (list_find_elem_of (fun f => f.1 = e.1) m e He eq_refl) as [[i f] ->]. by eexists.
Qed.

(** * Accepted conditions as facts *)

Ltac facts :=
  repeat match goal with
  | H : requireR _ _ = Ok _ |- _ => apply requireR_ok in H
  | H : andR _ _ = Ok true |- _ => apply andR_ok in H as [? ?]
  | H : holds _ = Ok true |- _ => apply holds_ok in H
  | H : eqR _ (Ok _) = Ok true |- _ => apply eqR_ok in H as (? & H & [= <-])
  | H : eqR _ _ = Ok true |- _ => apply eqR_ok in H as (? & ? & H)
  | H : neR _ (Ok _) = Ok true |- _ => apply neR_ok in H as (? & ? & H & [= <-] & ?)
  | H : neR _ _ = Ok true |- _ => apply neR_ok in H as (? & ? & ? & ? & ?)
  | H : gtR _ (Ok (DInt _)) = Ok true |- _ => apply gtR_int in H as (? & ? & ?)
  | H : geR _ (Ok (DInt _)) = Ok true |- _ => apply geR_int in H as (? & ? & ?)
  | H : arith _ _ (Ok (DInt _)) = Ok (DInt _) |- _ => apply int_condition in H as (? & ? & H & [= <-] & [= ?])
  | H : arith _ _ _ = Ok ?x |- _ => is_var x; apply int_condition in H as (? & ? & ? & ? & ->)
  | H : Ok (DInt _) = Ok (DInt _) |- _ => injection H as H
  | H : isint _ = Ok true |- _ => apply isint_ok in H as [? H]
  | H : look _ _ = Ok (DInt _) |- _ => apply look_int in H
  end.

(** One value per field *)
Ltac merge :=
  repeat match goal with
  | H : fetch ?r ?k = Ok ?x, H' : fetch ?r ?k = Ok ?y |- _ =>
      rewrite H in H'; first [is_var y; injection H' as <- | is_var x; injection H' as ->
                             | injection H' as ? | clear H']
  | H : fetch ?r ?k = Ok _, H' : look ?r ?k = Ok ?y |- _ =>
      rewrite (fetch_look _ _ _ H) in H'; first [is_var y; injection H' as <- | clear H']
  end.
