(* ===== verification/PyMarkers.v ===== *)
(** Marker lines: the [key=value] fields the guests print and the runners
    parse into dictionaries, the checks the runners share, and lemmas on which
    exceptions a computation can raise. *)

From stdpp Require Import base tactics list gmap strings numbers list_numbers.
From S2P Require Import Prelude PyText PyBytes PyRegex PyJson PyDyn.
Open Scope Z_scope.

(** * Fields *)

(** A parsed field: text for a string field, an integer otherwise. *)
Inductive value : Type := VStr (s : pystr) | VInt (z : Z).
#[global] Instance value_eq_dec : EqDecision value.
Proof. solve_decision. Defined.

(** The dictionary of a marker, in insertion order. *)
Abbreviation fields := (list (pystr * value)).

(** [re.fullmatch(r"-?[0-9]+", raw)] *)
Definition int_re : regex := RSeq (ROpt (RChar (is_char "-"))) (RPlus (RChar digit)).

Definition get_int (fs : fields) (key : string) : result Z :=
  match lookup_key (u key) fs with
  | Some (VInt z) => Ok z
  | Some (VStr _) => Raise TypeError
  | None => Raise KeyError
  end.
Definition get_str (fs : fields) (key : string) : result pystr :=
  match lookup_key (u key) fs with
  | Some (VStr s) => Ok s
  | Some (VInt _) => Raise TypeError
  | None => Raise KeyError
  end.

(** [fs[key]] of a marker whose fields were checked to be integers under the
    names of its schema. *)
Definition num (fs : fields) (key : string) : Z :=
  match lookup_key (u key) fs with Some (VInt z) => z | _ => 0 end.
(** [{key: fs[key] for key in keys} == {key: z, ...}] for one value [z] *)
Definition all_equal (fs : fields) (z : Z) (keys : list string) : bool :=
  forallb (fun key => num fs key =? z) keys.

(** [len(set(l)) == len(l)] *)
Fixpoint distinct (l : list Z) : bool :=
  match l with [] => true | x :: l => negb (existsb (Z.eqb x) l) && distinct l end.

(** A schema: the field names of a marker, which [set(values)] must equal. *)
Definition has_fields (fs : fields) (names : list string) : bool := same_set fs.*1 (u <$> names).

(** Two markers with the same fields and values *)
Definition fields_are (fs : fields) (expected : list (string * Z)) : bool :=
  has_fields fs expected.*1 && forallb (fun '(k, z) => num fs k =? z) expected.

(** * Lemmas *)

(** Every field but [phase] is an integer. *)
Definition int_fields (fs : fields) : Prop :=
  forall k v, lookup_key k fs = Some v -> k <> u "phase" -> exists z, v = VInt z.

Lemma lookup_key_snoc {A} k k' (v v' : A) d :
  lookup_key k (d ++ [(k', v')]) = Some v -> lookup_key k d = Some v \/ (k = k' /\ v = v').
Proof.
  induction d as [|[k1 v1] d IH]; cbn [lookup_key app].
  - case_bool_decide; naive_solver.
  - case_bool_decide; naive_solver.
Qed.

Lemma same_set_elem a b x : same_set a b = true -> x ∈ b -> x ∈ a.
Proof.
  unfold same_set. intros [_ H]%andb_true_iff Hx. rewrite forallb_forall in H.
  specialize (H x). rewrite bool_decide_eq_true in H. apply H. by apply list_elem_of_In.
Qed.

Lemma distinct_NoDup l : distinct l = true <-> NoDup l.
Proof.
  induction l as [|x l IH]; cbn [distinct]; [split; constructor|].
  rewrite andb_true_iff, IH, NoDup_cons, negb_true_iff, <- not_true_iff_false, existsb_exists.
  setoid_rewrite Z.eqb_eq. setoid_rewrite <- list_elem_of_In. naive_solver.
Qed.

(** The end of every self test: the resources are in the repository sample. *)
Lemma sampled_ok {A} (rs : list string) (sampled : list pystr) (m : string -> msg) (n : A) :
  mapR (fun r => require (bool_decide (u r ∈ sampled)) (m r)) rs ≫= (fun _ => Ok n) = Ok n <->
  Forall (fun r => u r ∈ sampled) rs.
Proof.
  induction rs as [|r rs IH]; cbn [mapR mbind result_bind]; [by split|].
  rewrite Forall_cons, <- IH. unfold require at 1. case_bool_decide; cbn [mbind result_bind].
  - destruct (mapR _ rs); cbn [mbind result_bind]; naive_solver.
  - naive_solver.
Qed.

(** A comprehension that returns evaluated its body on every element. *)
Lemma mapR_each {A B} (f : A -> result B) l l' a : mapR f l = Ok l' -> a ∈ l -> exists b, f a = Ok b.
Proof.
  intros H%mapR_ok [i Hi]%list_elem_of_lookup. destruct (Forall2_lookup_l _ _ _ _ _ H Hi) as (b & _ & E). eauto.
Qed.

(** * Which exceptions a computation can raise *)

Definition raises {A} (P : exn -> Prop) (r : result A) : Prop := forall e, r = Raise e -> P e.

Section raises.
Context (P : exn -> Prop).

Lemma raises_ok {A} (a : A) : raises P (Ok a).
Proof. by intros e [=]. Qed.
Lemma raises_raise {A} e : P e -> raises P (@Raise A e).
Proof. by intros He e' [= <-]. Qed.
Lemma raises_bind {A B} (m : result A) (f : A -> result B) :
  raises P m -> (forall a, m = Ok a -> raises P (f a)) -> raises P (m ≫= f).
Proof. intros Hm Hf e H. destruct m; cbn in H; [by eapply Hf | injection H as ->; by apply Hm]. Qed.
Lemma raises_require c m : P (LabError m) -> raises P (require c m).
Proof. intros Hm. destruct c; [apply raises_ok | by apply raises_raise]. Qed.
Lemma raises_foldM {S A} (f : S -> A -> result S) s l :
  (forall s a, raises P (f s a)) -> raises P (foldM f s l).
Proof.
  intros Hf. revert s. induction l as [|a l IH]; intros s; cbn [foldM]; [apply raises_ok|].
  apply raises_bind; auto.
Qed.
Lemma raises_mapR {A B} (f : A -> result B) l : (forall a, raises P (f a)) -> raises P (mapR f l).
Proof.
  intros Hf. induction l as [|a l IH]; cbn [mapR]; [apply raises_ok|].
  apply raises_bind; [auto|intros]. apply raises_bind; [auto|intros]. apply raises_ok.
Qed.
Lemma raises_mapR_elem {A B} (f : A -> result B) l : (forall a, a ∈ l -> raises P (f a)) -> raises P (mapR f l).
Proof.
  induction l as [|a l IH]; intros Hf; cbn [mapR]; [apply raises_ok|].
  apply raises_bind; [apply Hf; left|intros]. apply raises_bind; [|intros; apply raises_ok].
  apply IH. intros b Hb. apply Hf. by right.
Qed.
End raises.

Create HintDb raises.
#[export] Hint Resolve raises_ok raises_raise raises_require raises_foldM raises_mapR : raises.

(** ** Conditions on dynamic values *)

Section conditions.
Context (P : exn -> Prop).

Lemma raises_requireR c m : raises P c -> P (LabError m) -> raises P (requireR c m).
Proof. intros Hc Hm. apply raises_bind; [done|]. intros b _. by apply raises_require. Qed.
Lemma raises_andR a b : raises P a -> (a = Ok true -> raises P b) -> raises P (andR a b).
Proof. intros Ha Hb. destruct a as [[]|]; [by apply Hb|apply raises_ok|done]. Qed.
Lemma raises_eqR a b : raises P a -> raises P b -> raises P (eqR a b).
Proof. intros ? ?. repeat (apply raises_bind; [done|intros ? _]). apply raises_ok. Qed.
Lemma raises_neR a b : raises P a -> raises P b -> raises P (neR a b).
Proof. intros ? ?. apply raises_bind; [by apply raises_eqR|]. intros. apply raises_ok. Qed.
Lemma raises_gtR x y : raises P (gtR (Ok (DInt x)) (Ok (DInt y))).
Proof. apply raises_ok. Qed.
Lemma raises_isint a : raises P a -> raises P (isint a).
Proof. intros ?. apply raises_bind; [done|]. intros. apply raises_ok. Qed.
Lemma raises_look r k : raises P (look r k).
Proof. apply raises_ok. Qed.
Lemma raises_holds Q `{!Decision Q} : raises P (holds Q).
Proof. apply raises_ok. Qed.
Lemma raises_of_option {A} e (o : option A) : P e -> raises P (of_option e o).
Proof. intros ?. destruct o; [apply raises_ok|by apply raises_raise]. Qed.
Lemma raises_known {A} (r : result A) a : r = Ok a -> raises P r.
Proof. intros ->. apply raises_ok. Qed.
End conditions.

#[export] Hint Resolve raises_look raises_holds raises_of_option : raises.

(** The guards of a condition are known where its later operands are read. *)
Ltac condition :=
  repeat first
    [ apply raises_andR; [|intros ?; facts]
    | apply raises_neR | apply raises_eqR | apply raises_isint
    | apply raises_look | apply raises_holds | apply raises_ok
    | match goal with
      | H : fetch ?r ?k = Ok _ |- raises _ (fetch ?r ?k) => exact (raises_known _ _ _ H)
      | H : fetch ?r ?k = Ok (DInt _) |- raises _ (gtR (fetch ?r ?k) _) => rewrite H; apply raises_gtR
      | H : fetch ?r ?k = Ok (DInt _) |- raises _ (gtR (look ?r ?k) _) =>
          rewrite (fetch_look _ _ _ H); apply raises_gtR
      end ].
