(* ===== verification/DeviceIo.v ===== *)
(** The oracle of the device I/O lab,
    [docs/xv6-tutorial/resources/device-io/run-lab.py]: the console, disk and
    queue markers of a guest run, what an accepted run has to satisfy, and the
    runner's self test. *)

From stdpp Require Import base tactics list gmap strings numbers list_numbers.
From S2P Require Import Prelude PyText PyBytes PyJson PyMarkers.
Open Scope Z_scope.

(** * Markers *)

Inductive phase : Type := CONSOLE_WAIT | CONSOLE | DISK | QUEUE | AFTER | PASS.
Definition phase_name (p : phase) : string :=
  match p with
  | CONSOLE_WAIT => "CONSOLE_WAIT" | CONSOLE => "CONSOLE" | DISK => "DISK" | QUEUE => "QUEUE"
  | AFTER => "AFTER" | PASS => "PASS"
  end.

Definition SCHEMAS (p : phase) : list string :=
  match p with
  | CONSOLE_WAIT => ["generation"; "pid"; "state"; "chan"; "seq"]
  | CONSOLE =>
      [ "generation"; "pid"; "irq"; "wait_seq"; "rx_seq"; "wake_seq"; "done_seq"; "claims"; "completes";
        "claim_harts"; "complete_harts"; "wait_chan"; "wake_chan"; "rx"; "first"; "last"; "read";
        "ring_before"; "ring_after"; "publish_lock"; "condition_before"; "proc_after"; "condition_after";
        "wake_proc_lock"; "lock_errors"; "status"; "cleanup" ]
  | DISK =>
      [ "generation"; "pid"; "block"; "sector"; "submit_hart"; "head"; "d0"; "d1"; "d2"; "d0_addr";
        "d0_len"; "d0_flags"; "d0_next"; "d1_addr"; "d1_len"; "d1_flags"; "d1_next"; "d2_addr"; "d2_len";
        "d2_flags"; "queue_desc"; "queue_avail"; "queue_used"; "queue_ready"; "free_before";
        "free_programmed"; "free_after"; "avail_before"; "avail_after"; "used_before"; "used_after";
        "notify"; "b_owner"; "device_status"; "wait_chan"; "wake_chan"; "program_seq"; "publish_seq";
        "notify_seq"; "sleep_seq"; "irq_seq"; "complete_seq"; "wake_seq"; "reclaim_seq"; "irq"; "claims";
        "completes"; "claim_harts"; "complete_harts"; "info_after"; "read"; "status"; "cleanup";
        "program_lock"; "publish_lock"; "notify_lock"; "complete_lock"; "reclaim_lock";
        "condition_before"; "proc_after"; "condition_after"; "wake_proc_lock"; "lock_errors" ]
  | QUEUE =>
      [ "generation"; "p0"; "p1"; "p2"; "block0"; "block1"; "block2"; "free_before"; "free_held";
        "free_after"; "deferred_held"; "deferred_after"; "third_pid"; "third_state"; "third_chan";
        "desc_chan"; "avail_before"; "avail_after"; "used_before"; "used_after"; "submit0_seq";
        "submit1_seq"; "defer0_seq"; "defer1_seq"; "wait_seq"; "release_seq"; "reclaim_seq"; "irq";
        "claims"; "completes"; "claim_harts"; "complete_harts"; "controller_hart"; "status0"; "status1";
        "status2"; "info_after"; "cleanup"; "program_lock"; "publish_lock"; "notify_lock";
        "complete_lock"; "reclaim_lock"; "condition_before"; "proc_after"; "condition_after";
        "wake_proc_lock"; "lock_errors" ]
  | AFTER => ["phase"; "active"; "waiters"; "deferred"; "free_desc"; "info"; "buf_refs"]
  | PASS => ["cases"; "cleanup"]
  end.

Definition parse_field (p : phase) (values : fields) (token : pystr) : result fields :=
  let name := T (phase_name p) in
  require (count (u "=") token =? 1) [T "malformed "; name; T " field: "; V token];;
  match splitn 1 (u "=") token with
  | [key; raw] =>
      require (negb (has_key key values)) [T "duplicate "; name; T " field: "; V key];;
      if bool_decide (key = u "phase") then Ok (values ++ [(key, VStr raw)])
      else
        require (re_fullmatch int_re raw) [T "non-integer "; name; T " field: "; V token];;
        z ← py_int raw;
        Ok (values ++ [(key, VInt z)])
  | _ => Raise ValueError
  end.

Definition parse_fields (tokens : list pystr) (p : phase) : result fields :=
  values ← foldM (parse_field p) [] tokens;
  require (has_fields values (SCHEMAS p))
    [T (phase_name p); T " fields changed: "; L (sorted_strs values.*1)];;
  Ok values.

(** The markers of a phase, in the order of their lines. *)
Definition add_marker (p : phase) (matches : list fields) (line : pystr) : result (list fields) :=
  match strip_prefix (u "DEV " ++ u (phase_name p) ++ u " ") line with
  | Some rest => fs ← parse_fields (words rest) p; Ok (matches ++ [fs])
  | None => Ok matches
  end.

Definition one_marker (text : pystr) (p : phase) : result fields :=
  matches ← foldM (add_marker p) [] (splitlines text);
  match (matches : list fields) with
  | [fs] => Ok fs
  | _ => Raise (LabError [T "expected one "; T (phase_name p); T " marker, got "; D (len matches)])
  end.

Definition add_name (names : list pystr) (line : pystr) : result (list pystr) :=
  if startswith line (u "DEV ") then
    match words line with
    | _ :: name :: _ => Ok (names ++ [name])
    | _ => Raise (LabError [T "malformed DEV marker: "; R line])
    end
  else Ok names.
Definition marker_order (text : pystr) : result (list pystr) := foldM add_name [] (splitlines text).

Definition clean_after (text : pystr) (p : phase) : result () :=
  afters ← foldM (add_marker AFTER) [] (splitlines text);
  match (afters : list fields) with
  | [after] =>
      require (bool_decide (lookup_key (u "phase") after = Some (VStr (u (phase_name p)))))
        [T "missing "; T (phase_name p); T " cleanup marker: "; Elided];;
      require (all_equal after 0 ["active"; "waiters"; "deferred"; "info"; "buf_refs"] &&
               (num after "free_desc" =? 8))
        [T (phase_name p); T " resources not clean: "; Elided]
  | _ => Raise (LabError [T "missing "; T (phase_name p); T " cleanup marker: "; Elided])
  end.

(** * The console *)

Definition check_console (wait console : fields) : result () :=
  let w := num wait in
  let c := num console in
  require ((w "generation" =? c "generation") && (c "generation" =? 1)) [T "console generation changed"];;
  require ((w "pid" =? c "pid") && (0 <? c "pid") && (w "state" =? 2))
    [T "console reader was not the observed sleeping process"];;
  require ((w "chan" =? c "wait_chan") && (c "wait_chan" =? c "wake_chan") && negb (c "wake_chan" =? 0))
    [T "console wait/wakeup channel identity changed"];;
  require ((w "seq" =? c "wait_seq") && (0 <? c "wait_seq") && (c "wait_seq" <? c "rx_seq") &&
           (c "rx_seq" <? c "wake_seq") && (c "wake_seq" <? c "done_seq")) [T "console event order changed"];;
  require ((c "irq" =? 10) && (1 <=? c "claims") && (c "claims" =? c "completes") &&
           (c "claim_harts" =? c "complete_harts")) [T "UART PLIC claim/complete ledger changed"];;
  require ((0 <? c "claim_harts") && (c "claim_harts" <? 4) && (0 <? c "complete_harts") &&
           (c "complete_harts" <? 4)) [T "console hart mask is outside CPUS=2"];;
  require ((c "rx" =? c "read") && (c "read" =? 10) && (c "first" =? 68) && (c "last" =? 10) &&
           (c "ring_after" - c "ring_before" =? 10)) [T "console input bytes/ring ledger changed"];;
  require (all_equal console 1 ["publish_lock"; "condition_before"; "proc_after"; "wake_proc_lock"] &&
           (c "condition_after" =? 0) && (c "lock_errors" =? 0)) [T "console lock handoff context changed"];;
  require ((c "status" =? 0) && (c "cleanup" =? 1)) [T "console caller did not complete cleanly"].

(** * One disk request *)

Definition handoff_locks : list string :=
  [ "program_lock"; "publish_lock"; "notify_lock"; "complete_lock"; "reclaim_lock"; "condition_before";
    "proc_after"; "wake_proc_lock" ].

Definition check_disk (disk : fields) : result () :=
  let d := num disk in
  require ((d "generation" =? 2) && (0 <? d "pid") && (d "block" =? 1999) && (d "sector" =? 3998))
    [T "disk trigger identity changed"];;
  require ((d "submit_hart" =? 0) || (d "submit_hart" =? 1)) [T "disk submit hart outside CPUS=2"];;
  let descriptors := [d "d0"; d "d1"; d "d2"] in
  require ((d "head" =? d "d0") && distinct descriptors && forallb (fun i => (0 <=? i) && (i <? 8)) descriptors)
    [T "disk descriptor chain identities changed"];;
  require ((d "d0_next" =? d "d1") && (d "d1_next" =? d "d2") && (d "d0_len" =? 16) && (d "d1_len" =? 1024) &&
           (d "d2_len" =? 1) && (d "d0_flags" =? 1) && (d "d1_flags" =? 3) && (d "d2_flags" =? 2))
    [T "disk descriptor shape changed"];;
  let queues := ["queue_desc"; "queue_avail"; "queue_used"]%string in
  require (forallb (fun k => 0 <? d k) (["d0_addr"; "d1_addr"; "d2_addr"]%string ++ queues) &&
           forallb (fun k => d k mod 4096 =? 0) queues) [T "DMA-visible queue/address ledger changed"];;
  require ((d "queue_ready" =? 1) && (d "free_before" =? 8) && (d "free_programmed" =? 5) &&
           (d "free_after" =? 8)) [T "single-request descriptor ledger changed"];;
  require ((d "avail_after" =? d "avail_before" + 1) && (d "used_after" =? d "used_before" + 1) &&
           (d "notify" =? 1) && (d "b_owner" =? 1)) [T "disk publication/completion index changed"];;
  require ((d "device_status" =? 0) && (d "wait_chan" =? d "wake_chan") && negb (d "wake_chan" =? 0))
    [T "disk completion/channel changed"];;
  require (all_equal disk 1 handoff_locks && (d "condition_after" =? 0) && (d "lock_errors" =? 0))
    [T "disk lock handoff context changed"];;
  let program := d "program_seq" in let publish := d "publish_seq" in
  let notify := d "notify_seq" in let sleep := d "sleep_seq" in
  let irq := d "irq_seq" in let complete := d "complete_seq" in
  let wake := d "wake_seq" in let reclaim := d "reclaim_seq" in
  let disk_seq := [program; publish; notify; sleep; irq; complete; wake; reclaim] in
  require ((program <? publish) && (publish <? notify) && (notify <? sleep) && (sleep <? wake) &&
           (wake <? reclaim) && (notify <? irq) && (irq <? complete) && (complete <? wake))
    [T "disk ownership partial order changed: "; DL disk_seq];;
  require (distinct disk_seq) [T "disk event sequence is not unique"];;
  require ((d "irq" =? 1) && (1 <=? d "claims") && (d "claims" =? d "completes") &&
           (d "claim_harts" =? d "complete_harts") && (0 <? d "claim_harts") && (d "claim_harts" <? 4) &&
           (0 <? d "complete_harts") && (d "complete_harts" <? 4)) [T "VirtIO PLIC ledger changed"];;
  require ((d "info_after" =? 0) && (0 <=? d "read") && (d "read" <=? 255) && (d "status" =? 0) &&
           (d "cleanup" =? 1)) [T "disk caller/reclaim result changed"].

(** * The descriptor queue *)

(** [sorted((a, b))] *)
Definition sorted2 (a b : Z) : Z * Z := if b <? a then (b, a) else (a, b).

Definition check_queue (queue : fields) : result () :=
  let q := num queue in
  let pids := [q "p0"; q "p1"; q "p2"] in
  require ((q "generation" =? 3) && forallb (fun pid => 0 <? pid) pids && distinct pids)
    [T "queue worker identities changed"];;
  require ((q "block0" =? 1996) && (q "block1" =? 1997) && (q "block2" =? 1998))
    [T "queue block trigger changed"];;
  require ((q "free_before" =? 8) && (q "free_held" =? 2) && (q "free_after" =? 8) &&
           (q "deferred_held" =? 2) && (q "deferred_after" =? 0)) [T "queue capacity ledger changed"];;
  require (existsb (Z.eqb (q "third_pid")) pids && (q "third_state" =? 2) &&
           (q "third_chan" =? q "desc_chan") && negb (q "desc_chan" =? 0))
    [T "third request did not sleep on descriptor capacity"];;
  require ((q "avail_after" =? q "avail_before" + 3) && (q "used_after" =? q "used_before" + 3))
    [T "queue ring delta changed"];;
  let '(submit0, submit1) := sorted2 (q "submit0_seq") (q "submit1_seq") in
  let '(deferred0, deferred1) := sorted2 (q "defer0_seq") (q "defer1_seq") in
  let wait_seq := q "wait_seq" in
  let before_release := [submit0; submit1; deferred0; deferred1; wait_seq] in
  require ((submit0 <? deferred0) && (submit1 <? deferred1) && (Z.max deferred0 deferred1 <? wait_seq) &&
           (wait_seq <? q "release_seq") && (q "release_seq" <? q "reclaim_seq") &&
           forallb (fun seq => 0 <? seq) before_release)
    [T "queue submit/defer/wait/release order changed"];;
  require (distinct (before_release ++ [q "release_seq"; q "reclaim_seq"]))
    [T "queue event sequence is not unique"];;
  require (all_equal queue 1 handoff_locks && (q "condition_after" =? 0) && (q "lock_errors" =? 0))
    [T "queue lock handoff context changed"];;
  require ((q "irq" =? 1) && (1 <=? q "claims") && (q "claims" =? q "completes") &&
           (q "claim_harts" =? q "complete_harts") && (0 <? q "claim_harts") && (q "claim_harts" <? 4) &&
           (0 <? q "complete_harts") && (q "complete_harts" <? 4) &&
           ((q "controller_hart" =? 0) || (q "controller_hart" =? 1))) [T "queue hart/PLIC ledger changed"];;
  require (all_equal queue 0 ["status0"; "status1"; "status2"] && (q "info_after" =? 0) && (q "cleanup" =? 1))
    [T "queue workers or info slots did not clean up"].

(** * The trace *)

Definition check_order (name : string) (order : list pystr) (expected : list string) (tail : msg)
    : result () :=
  require (bool_decide (order = u <$> expected))
    ([T name; T " DEV marker stream is not closed or ordered: "; L order] ++ tail).

Definition validate_devtrace (console_text disk_text queue_text : pystr)
    : result (fields * fields * fields) :=
  console_order ← marker_order console_text;
  disk_order ← marker_order disk_text;
  queue_order ← marker_order queue_text;
  check_order "console" console_order ["CONSOLE_WAIT"; "CONSOLE"; "AFTER"] [];;
  check_order "disk" disk_order ["DISK"; "AFTER"] [];;
  check_order "queue" queue_order ["QUEUE"; "AFTER"; "PASS"] [Elided];;
  wait ← one_marker console_text CONSOLE_WAIT;
  console ← one_marker console_text CONSOLE;
  check_console wait console;;
  clean_after console_text CONSOLE;;
  disk ← one_marker disk_text DISK;
  check_disk disk;;
  clean_after disk_text DISK;;
  queue ← one_marker queue_text QUEUE;
  check_queue queue;;
  clean_after queue_text QUEUE;;
  passed ← one_marker queue_text PASS;
  require (fields_are passed [("cases", 3); ("cleanup", 1)]%string) [T "device PASS marker changed"];;
  Ok (console, disk, queue).

(** * The self test *)

Definition console_text : pystr :=
  concat ((fun line => line ++ [newline]) <$>
    [ u "DEV CONSOLE_WAIT generation=1 pid=4 state=2 chan=4096 seq=1";
      u "DEV CONSOLE generation=1 pid=4 irq=10 wait_seq=1 rx_seq=2 wake_seq=3 done_seq=4 claims=1 " ++
      u "completes=1 claim_harts=1 complete_harts=1 wait_chan=4096 wake_chan=4096 rx=10 first=68 last=10 " ++
      u "read=10 ring_before=0 ring_after=10 publish_lock=1 condition_before=1 proc_after=1 " ++
      u "condition_after=0 wake_proc_lock=1 lock_errors=0 status=0 cleanup=1";
      u "DEV AFTER phase=CONSOLE active=0 waiters=0 deferred=0 free_desc=8 info=0 buf_refs=0" ]).

Definition disk_text : pystr :=
  concat ((fun line => line ++ [newline]) <$>
    [ u "DEV DISK generation=2 pid=5 block=1999 sector=3998 submit_hart=0 head=0 d0=0 d1=1 d2=2 " ++
      u "d0_addr=8192 d0_len=16 d0_flags=1 d0_next=1 d1_addr=12288 d1_len=1024 d1_flags=3 d1_next=2 " ++
      u "d2_addr=16384 d2_len=1 d2_flags=2 queue_desc=20480 queue_avail=24576 queue_used=28672 " ++
      u "queue_ready=1 free_before=8 free_programmed=5 free_after=8 avail_before=7 avail_after=8 " ++
      u "used_before=7 used_after=8 notify=1 b_owner=1 device_status=0 wait_chan=32768 wake_chan=32768 " ++
      u "program_seq=10 publish_seq=11 notify_seq=12 sleep_seq=13 irq_seq=14 complete_seq=15 wake_seq=16 " ++
      u "reclaim_seq=17 irq=1 claims=1 completes=1 claim_harts=2 complete_harts=2 info_after=0 read=0 " ++
      u "program_lock=1 publish_lock=1 notify_lock=1 complete_lock=1 reclaim_lock=1 condition_before=1 " ++
      u "proc_after=1 condition_after=0 wake_proc_lock=1 lock_errors=0 status=0 cleanup=1";
      u "DEV AFTER phase=DISK active=0 waiters=0 deferred=0 free_desc=8 info=0 buf_refs=0" ]).

Definition queue_text : pystr :=
  concat ((fun line => line ++ [newline]) <$>
    [ u "DEV QUEUE generation=3 p0=6 p1=7 p2=8 block0=1996 block1=1997 block2=1998 free_before=8 " ++
      u "free_held=2 free_after=8 deferred_held=2 deferred_after=0 third_pid=8 third_state=2 " ++
      u "third_chan=40960 desc_chan=40960 avail_before=8 avail_after=11 used_before=8 used_after=11 " ++
      u "submit0_seq=20 submit1_seq=21 defer0_seq=22 defer1_seq=23 wait_seq=24 release_seq=25 " ++
      u "reclaim_seq=30 irq=1 claims=2 completes=2 claim_harts=3 complete_harts=3 controller_hart=0 " ++
      u "status0=0 status1=0 status2=0 info_after=0 program_lock=1 publish_lock=1 notify_lock=1 " ++
      u "complete_lock=1 reclaim_lock=1 condition_before=1 proc_after=1 condition_after=0 " ++
      u "wake_proc_lock=1 lock_errors=0 cleanup=1";
      u "DEV AFTER phase=QUEUE active=0 waiters=0 deferred=0 free_desc=8 info=0 buf_refs=0";
      u "DEV PASS cases=3 cleanup=1" ]).

(** [s.replace(a, b, 1)] and [s.replace(a, b)] *)
Definition rep1 (a b : string) (s : pystr) : pystr := replacen 1 (u a) (u b) s.
Definition rep (a b : string) (s : pystr) : pystr := replace (u a) (u b) s.

Definition mutated_traces : list (pystr * pystr * pystr) :=
  [ ((rep1 " cleanup=1" " forged=1 cleanup=1" console_text), disk_text, queue_text);
    ((rep "wake_chan=4096" "wake_chan=4097" console_text), disk_text, queue_text);
    (console_text, (rep "free_programmed=5" "free_programmed=6" disk_text), queue_text);
    (console_text, (rep "wake_seq=16" "wake_seq=14" disk_text), queue_text);
    (console_text, disk_text, (rep "free_held=2" "free_held=3" queue_text));
    (console_text, disk_text, (rep "release_seq=25" "release_seq=22" queue_text));
    (console_text, disk_text, (rep "cases=3" "cases=2" queue_text));
    ((console_text ++ u "DEV FAIL appended" ++ [newline]), disk_text, queue_text);
    ((console_text ++ u "DEV PASS cases=3 cleanup=1" ++ [newline]), disk_text, queue_text);
    (console_text, (rep "complete_harts=2" "complete_harts=1" disk_text), queue_text);
    (console_text, (rep "sleep_seq=13" "sleep_seq=14" disk_text), queue_text);
    (console_text, disk_text, (rep1 "buf_refs=0" "buf_refs=1" queue_text));
    ((rep "publish_lock=1" "publish_lock=0" console_text), disk_text, queue_text);
    ((rep1 "pid=4 state=2" "pid=4 pid=4 state=2" console_text), disk_text, queue_text);
    ((rep1 "ring_before=0 " "" console_text), disk_text, queue_text);
    ((rep1 "state=2" "state=two" console_text), disk_text, queue_text);
    (console_text, disk_text, (rep "defer0_seq=22" "defer0_seq=20" (rep "submit0_seq=20" "submit0_seq=22" queue_text)));
    (console_text, disk_text, (rep "defer1_seq=23" "defer1_seq=21" (rep "submit1_seq=21" "submit1_seq=23" queue_text)));
    (console_text, disk_text, (rep "wait_seq=24" "wait_seq=19" queue_text)) ].

(** One round of the loop over the mutations: the oracle has to refuse the
    candidate with a [LabError]; any other exception propagates. *)
Definition reject_mutation (index : Z) (candidate : pystr * pystr * pystr) : result Z :=
  let '(c, d, q) := candidate in
  match validate_devtrace c d q with
  | Raise (LabError _) => Ok (index + 1)
  | Raise e => Raise e
  | Ok _ => Raise (LabError [T "oracle mutation "; D index; T " was accepted"])
  end.

Definition resources : list string :=
  [ "docs/xv6-tutorial/resources/device-io/device-audit.patch";
    "docs/xv6-tutorial/resources/device-io/run-lab.py" ].

(** What [self_test] does before it looks at the repository; the result is
    [len(mutations)], which its last line prints. *)
Definition self_test : result Z :=
  validate_devtrace console_text disk_text queue_text;;
  foldM reject_mutation 1 mutated_traces;;
  Ok (len mutated_traces).

(** Its end, for the files [repo_file_names] found *)
Definition sampling (sampled : list pystr) : result () :=
  mapR (fun relative => require (bool_decide (u relative ∈ sampled))
                          [T "repository state sampling omitted "; T relative]) resources;;
  Ok tt.

(** * Parsed markers have the type of their schema *)

Lemma parse_field_int p values token values' :
  parse_field p values token = Ok values' -> int_fields values -> int_fields values'.
Proof.
  unfold parse_field. intros H I k v Hk Hp. inv_ok.
  destruct (splitn 1 _ token) as [|key [|raw [|]]]; try discriminate.
  inv_ok. case_bool_decide; inv_ok.
  - apply lookup_key_snoc in Hk as [Hk | [-> ->]]; [eauto | done].
  - apply lookup_key_snoc in Hk as [Hk | [-> ->]]; eauto.
Qed.

Lemma parse_fields_int p tokens fs key :
  parse_fields tokens p = Ok fs -> key ∈ SCHEMAS p -> u key <> u "phase" ->
  lookup_key (u key) fs = Some (VInt (num fs key)).
Proof.
  unfold parse_fields, num. intros H Hk Hp. inv_ok.
  assert (int_fields fs) as I.
  { refine (foldM_inv (parse_field p) (fun _ => int_fields) tokens [] fs _ _ E); [by intros k v [=]|].
    intros _ token s s' _ Hs Hf. by eapply parse_field_int. }
  assert (u key ∈ fs.*1) as [v Hv]%lookup_key_elem.
  { eapply same_set_elem; [done|]. by apply list_elem_of_fmap_2. }
  rewrite Hv. destruct (I _ _ Hv) as [z ->]; done.
Qed.

Lemma one_marker_int text p fs key :
  one_marker text p = Ok fs -> key ∈ SCHEMAS p -> u key <> u "phase" ->
  lookup_key (u key) fs = Some (VInt (num fs key)).
Proof.
  unfold one_marker. intros H Hk Hp. inv_ok.
  assert (Forall (fun m => lookup_key (u key) m = Some (VInt (num m key))) a) as Ha.
  { refine (foldM_inv (add_marker p) (fun _ => Forall _) (splitlines text) [] a _ _ E); [constructor|].
    intros _ line ms ms' _ Hms. unfold add_marker.
    destruct (strip_prefix _ line); intros Hl; inv_ok; [|done].
    apply Forall_app; split; [done|]. constructor; [|done]. by eapply parse_fields_int. }
  destruct a as [|m [|]]; inv_ok; try done. by inversion Ha.
Qed.

(** * What an accepted run guarantees *)

Lemma good_accepted : is_ok (validate_devtrace console_text disk_text queue_text) = true.
Proof. vm_compute. reflexivity. Qed.

Lemma mutated_refused : foldM reject_mutation 1 mutated_traces = Ok 20.
Proof. vm_compute. reflexivity. Qed.

Lemma mutated_length : len mutated_traces = 19.
Proof. reflexivity. Qed.

(** The runner's self test of the device oracle: the good trace is accepted and
    each of the nineteen mutated ones is refused with a [LabError]; the rest
    succeeds exactly when the repository sample holds the patch and the runner. *)
Theorem device_self_test_ok sampled :
  self_test = Ok 19 /\ (sampling sampled = Ok tt <-> Forall (fun r => u r ∈ sampled) resources).
Proof.
  split; [|apply sampled_ok]. unfold self_test. rewrite mutated_refused, mutated_length. pose proof good_accepted as G.
  destruct (validate_devtrace console_text disk_text queue_text); [done|discriminate].
Qed.

(** The sorted comparison of [check_queue]: the submissions can be matched with
    the deferrals so that each submission comes first. *)
Lemma sorted2_matching a b c d :
  (fst (sorted2 a b) <? fst (sorted2 c d)) && (snd (sorted2 a b) <? snd (sorted2 c d)) = true <->
  (a < c /\ b < d) \/ (a < d /\ b < c).
Proof.
  unfold sorted2. rewrite andb_true_iff, !Z.ltb_lt.
  destruct (Z.ltb_spec b a), (Z.ltb_spec d c); cbn; lia.
Qed.

(** The life of one disk request: the events the marker orders. *)
Definition disk_lifecycle (d : string -> Z) : Prop :=
  d "program_seq" < d "publish_seq" < d "notify_seq" /\
  d "notify_seq" < d "irq_seq" < d "complete_seq" /\ d "complete_seq" < d "wake_seq" /\
  d "notify_seq" < d "sleep_seq" < d "wake_seq" /\ d "wake_seq" < d "reclaim_seq" /\
  d "sleep_seq" <> d "irq_seq" /\ d "sleep_seq" <> d "complete_seq".

(** A chain of three distinct descriptors out of eight, all returned. *)
Definition disk_chain (d : string -> Z) : Prop :=
  NoDup [d "d0"; d "d1"; d "d2"] /\ Forall (fun i => 0 <= i < 8) [d "d0"; d "d1"; d "d2"] /\
  d "head" = d "d0" /\ d "d0_next" = d "d1" /\ d "d1_next" = d "d2" /\
  d "free_programmed" = d "free_before" - 3 /\ d "free_after" = d "free_before".

(** Two deferred requests hold three descriptors each, so that a third one has
    to wait for capacity, after both deferrals and before the release. *)
Definition queue_capacity (q : string -> Z) : Prop :=
  q "free_held" = q "free_before" - 3 * q "deferred_held" /\ q "free_held" < 3 /\
  q "free_after" = q "free_before" /\ q "third_chan" = q "desc_chan" /\
  q "third_pid" ∈ [q "p0"; q "p1"; q "p2"] /\
  ((q "submit0_seq" < q "defer0_seq" /\ q "submit1_seq" < q "defer1_seq") \/
   (q "submit0_seq" < q "defer1_seq" /\ q "submit1_seq" < q "defer0_seq")) /\
  q "defer0_seq" < q "wait_seq" /\ q "defer1_seq" < q "wait_seq" /\
  q "wait_seq" < q "release_seq" < q "reclaim_seq".

Lemma check_disk_ok disk u0 :
  check_disk disk = Ok u0 -> disk_lifecycle (num disk) /\ disk_chain (num disk).
Proof.
  unfold check_disk. intros H. inv_ok. to_prop.
  repeat match goal with H : distinct _ = true |- _ => apply distinct_NoDup in H end.
  match goal with H : forallb (fun i => (0 <=? i) && (i <? 8)) _ = true |- _ => rename H into B end.
  match goal with H : NoDup (_ :: _ :: _ :: _ :: _) |- _ => rename H into N end.
  split.
  - unfold disk_lifecycle. repeat rewrite NoDup_cons in N.
    split_and!; try lia; clear - N; set_solver.
  - unfold disk_chain. split_and!; try done; try lia.
    apply Forall_forall. intros i Hi. rewrite forallb_forall in B.
    apply list_elem_of_In, B in Hi. to_prop. lia.
Qed.

Lemma check_queue_ok queue u0 : check_queue queue = Ok u0 -> queue_capacity (num queue).
Proof.
  unfold check_queue. generalize (num queue). intros q H.
  pose proof (sorted2_matching (q "submit0_seq") (q "submit1_seq") (q "defer0_seq") (q "defer1_seq")) as M.
  destruct (sorted2 (q "submit0_seq") _) as [s0 s1], (sorted2 (q "defer0_seq") _) as [d0 d1] eqn:E2.
  assert (Z.max (q "defer0_seq") (q "defer1_seq") = Z.max d0 d1) as X.
  { unfold sorted2 in E2. destruct (Z.ltb_spec (q "defer1_seq") (q "defer0_seq")); injection E2; lia. }
  inv_ok. cbn [fst snd] in M. unfold queue_capacity.
  repeat match goal with
  | H : distinct _ = true |- _ => clear H
  | H : all_equal _ _ _ && _ = true |- _ => clear H
  end.
  to_prop.
  match goal with H : existsb _ _ = true |- _ =>
    apply existsb_exists in H as (? & ?%list_elem_of_In & ->%Z.eqb_eq) end.
  split; [lia|]. split; [lia|]. split; [lia|]. split; [done|]. split; [done|].
  split; [apply M; apply andb_true_iff; split; by apply Z.ltb_lt|]. lia.
Qed.

(** C29: a device run that is accepted has the markers its schemas name, each
    field an integer; its disk request used three distinct descriptors of the
    eight, went through programming, publication, notification, interrupt,
    completion, wakeup and reclaim in this order and gave the descriptors back;
    and its queue run filled the ring with two deferred requests, which made
    the third one wait for a descriptor until the release. *)
Theorem accepted_devtrace c d q console disk queue :
  validate_devtrace c d q = Ok (console, disk, queue) ->
  (forall p fs key, (p, fs) ∈ [(CONSOLE, console); (DISK, disk); (QUEUE, queue)] ->
     key ∈ SCHEMAS p -> lookup_key (u key) fs = Some (VInt (num fs key))) /\
  disk_lifecycle (num disk) /\ disk_chain (num disk) /\ queue_capacity (num queue).
Proof.
  unfold validate_devtrace. intros H. inv_ok.
  match goal with H : check_disk _ = _ |- _ => apply check_disk_ok in H as [? ?] end.
  match goal with H : check_queue _ = _ |- _ => apply check_queue_ok in H end.
  split_and!; try done.
  intros p fs key Hp Hk. assert (u key <> u "phase").
  { intros Heq. assert (forallb (fun key => negb (bool_decide (u key = u "phase"))) (SCHEMAS p) = true) as F.
    { rewrite !list_elem_of_In in Hp. destruct Hp as [[= <- _]|[[= <- _]|[[= <- _]|[]]]]; by vm_compute. }
    rewrite forallb_forall in F. apply list_elem_of_In, F in Hk. by rewrite bool_decide_eq_true_2 in Hk. }
  rewrite !list_elem_of_In in Hp. destruct Hp as [[= <- <-]|[[= <- <-]|[[= <- <-]|[]]]];
    eauto using one_marker_int.
Qed.

Lemma accepted_devtrace_witness :
  exists console disk queue,
    validate_devtrace console_text disk_text queue_text = Ok (console, disk, queue) /\
    queue_capacity (num queue).
Proof.
  destruct (validate_devtrace console_text disk_text queue_text) as [[[console disk] queue]|e] eqn:E.
  - exists console, disk, queue. split; [done|].
    exact (proj2 (proj2 (proj2 (accepted_devtrace _ _ _ _ _ _ E)))).
  - pose proof good_accepted as G. rewrite E in G. discriminate.
Defined.
