(* ===== verification/FsLab.v ===== *)
(** The oracle of the file-system lab,
    [docs/xv6-tutorial/resources/filesystem/run-lab.py]: the [FS] markers of a
    guest run, the resource ledger that has to return to its base after every
    case, and the runner's self test. *)

From stdpp Require Import base tactics list gmap strings numbers list_numbers sorting.
From S2P Require Import Prelude PyText PyBytes PyJson PyMarkers.
Open Scope Z_scope.

(** * Markers *)

Inductive phase : Type := BASE | RW | LINK | TRUNC | FDFAIL | LINKFAIL | ALLOCFAIL | AFTER | PASS.
#[global] Instance phase_eq_dec : EqDecision phase.
Proof. solve_decision. Defined.
Definition phase_name (p : phase) : string :=
  match p with
  | BASE => "BASE"
  | RW => "RW"
  | LINK => "LINK"
  | TRUNC => "TRUNC"
  | FDFAIL => "FDFAIL"
  | LINKFAIL => "LINKFAIL"
  | ALLOCFAIL => "ALLOCFAIL"
  | AFTER => "AFTER"
  | PASS => "PASS"
  end.

Definition LEDGER : list string :=
  [ "blocks"; "inodes"; "itable_active"; "itable_refs"; "file_objects"; "file_refs"; "buf_refs" ].

Definition SCHEMAS (p : phase) : list string :=
  match p with
  | BASE => LEDGER
  | RW =>
      [ "generation"; "path_steps"; "inum"; "type"; "nlink"; "size"; "write"; "read"; "checksum";
        "direct0"; "direct11"; "indirect"; "indirect0"; "data_blocks"; "open_seq";
        "file_write_seq"; "inode_write_seq"; "direct_seq"; "buffer_seq"; "indirect_seq";
        "file_read_seq"; "inode_read_seq"; "buffer_block"; "buffer_valid"; "buffer_ref";
        "buffer_locked"; "status"; "cleanup" ]
  | LINK =>
      [ "generation"; "inum"; "nlink0"; "nlink1"; "nlink2"; "nlink3"; "path_old"; "path_alias";
        "read"; "first"; "last"; "open_fd"; "blocks_held"; "inodes_held"; "status";
        "cleanup" ]
  | TRUNC =>
      [ "generation"; "inum_fd0"; "inum_fd1"; "before_size"; "before_blocks"; "after_size";
        "after_blocks"; "peer_size"; "rewrite"; "final_size"; "status"; "cleanup" ]
  | FDFAIL =>
      [ "generation"; "filled"; "create"; "check_fd"; "nlink"; "size"; "blocks_held"; "inodes_held";
        "status"; "cleanup" ]
  | LINKFAIL =>
      [ "generation"; "fail_at"; "eligible"; "fired"; "link"; "target"; "nlink_before";
        "nlink_after"; "blocks_before"; "blocks_after"; "inodes_before"; "inodes_after";
        "status"; "cleanup" ]
  | ALLOCFAIL =>
      [ "generation"; "fail_at"; "eligible"; "fired"; "write"; "size_before"; "size_after";
        "indirect_before"; "indirect_after"; "indirect_data"; "blocks_before";
        "blocks_after"; "inodes_before"; "inodes_after"; "status"; "cleanup" ]
  | AFTER => LEDGER ++ ["phase"]%string
  | PASS =>
      [ "cases"; "cleanup" ]
  end.

Definition ORDER : list phase :=
  [BASE; RW; AFTER; LINK; AFTER; TRUNC; AFTER; FDFAIL; AFTER; LINKFAIL; AFTER; ALLOCFAIL; AFTER; PASS].

(** [phase in SCHEMAS] *)
Definition phases : list phase := [BASE; RW; LINK; TRUNC; FDFAIL; LINKFAIL; ALLOCFAIL; AFTER; PASS].
Definition phase_of (name : pystr) : option phase :=
  snd <$> list_find (fun p => u (phase_name p) = name) phases.

(** [value.lstrip("-")] *)
Fixpoint lstrip_dashes (s : pystr) : pystr :=
  match s with
  | c :: s' => if c =? 45 then lstrip_dashes s' else s
  | [] => []
  end.

(** The digits of Unicode that are not decimal: superscripts, circled digits
    and the like. [str.isdigit] accepts them and [int] does not. *)
Definition digit_ranges : list (Z * Z) :=
  [ (178, 179); (185, 185); (4969, 4977); (6618, 6618); (8304, 8304); (8308, 8313); (8320, 8329);
    (9312, 9320); (9332, 9340); (9352, 9360); (9450, 9450); (9461, 9469); (9471, 9471); (10102, 10110);
    (10112, 10120); (10122, 10130); (68160, 68163); (69216, 69224); (69714, 69722); (127232, 127242) ].
Definition is_digit (c : Z) : bool :=
  is_decimal c || existsb (fun '(a, b) => (a <=? c) && (c <=? b)) digit_ranges.
(** [s.isdigit()], false on the empty string *)
Definition isdigit (s : pystr) : bool := negb (bool_decide (s = [])) && forallb is_digit s.

(** [int(value)] of digits after any number of dashes: one dash at most, decimal
    digits only, and no more of them than the interpreter's limit. *)
Definition int_value (value : pystr) : result Z :=
  let '(negative, digits) := match value with 45 :: s => (true, s) | _ => (false, value) end in
  if forallb is_decimal digits && negb (bool_decide (digits = [])) then
    z ← int_decimals digits; Ok (if negative then - z else z)
  else Raise ValueError.

Definition add_field (p : phase) (fs : list (pystr * pystr)) (token : pystr)
    : result (list (pystr * pystr)) :=
  require (count (u "=") token =? 1) [T "malformed "; T (phase_name p); T " field: "; V token];;
  match splitn 1 (u "=") token with
  | [key; value] =>
      require (negb (has_key key fs)) [T "duplicate "; T (phase_name p); T " field: "; V key];;
      Ok (fs ++ [(key, value)])
  | _ => Raise ValueError
  end.

Definition parse_value (p : phase) (field : pystr * pystr) : result (pystr * value) :=
  let '(key, v) := field in
  if bool_decide (p = AFTER) && bool_decide (key = u "phase") then Ok (key, VStr v)
  else
    require (isdigit (lstrip_dashes v))
      [T "non-integer "; T (phase_name p); T " field: "; V key; T "="; V v];;
    z ← int_value v;
    Ok (key, VInt z).

Definition parse_fields (p : phase) (tokens : list pystr) : result fields :=
  fs ← foldM (add_field p) [] tokens;
  require (same_set fs.*1 (u <$> SCHEMAS p)) [T (phase_name p); T " fields changed: "; Elided];;
  mapR (parse_value p) fs.

Definition add_marker (markers : list (phase * fields)) (line : pystr) : result (list (phase * fields)) :=
  if startswith line (u "FS ") then
    match words line with
    | _ :: name :: ((_ :: _) as tokens) =>
        match phase_of name with
        | Some p => fs ← parse_fields p tokens; Ok (markers ++ [(p, fs)])
        | None => Raise (LabError [T "unexpected FS marker: "; V name])
        end
    | _ => Raise (LabError [T "malformed FS marker: "; V line])
    end
  else Ok markers.

Definition parse_trace (text : pystr) : result (list (phase * fields)) :=
  markers ← foldM add_marker [] (splitlines (replace [13] [] text));
  require (bool_decide (markers.*1 = ORDER)) [T "filesystem marker order/count changed"];;
  Ok markers.

(** * The checks of each case *)

(** [{key: fs[key] for key in LEDGER} == base] *)
Definition same_ledger (fs base : fields) : bool := forallb (fun k => num fs k =? num base k) LEDGER.

Definition check_base (base : fields) : result () :=
  let b := num base in
  require ((0 <? b "blocks") && (0 <? b "inodes") && (0 <? b "itable_active") &&
           (b "itable_active" <=? b "itable_refs") && (0 <? b "file_objects") &&
           (b "file_objects" <=? b "file_refs") && (b "buf_refs" =? 0)) [T "invalid filesystem BASE ledger"].

Definition check_after (base : fields) (item : fields * phase) : result () :=
  let '(after, p) := item in
  require (bool_decide (lookup_key (u "phase") after = Some (VStr (u (phase_name p)))))
    [T "wrong AFTER phase for "; T (phase_name p)];;
  require (same_ledger after base) [T (phase_name p); T " resource ledger did not return to BASE"].

(** [sequence == sorted(sequence)] *)
Fixpoint ascending (l : list Z) : bool :=
  match l with x :: ((y :: _) as l') => (x <=? y) && ascending l' | _ => true end.

Definition check_rw (rw : fields) : result () :=
  let r := num rw in
  require ((r "generation" =? 1) && (r "path_steps" =? 2) && (r "type" =? 2) && (r "nlink" =? 1) &&
           (0 <? r "inum")) [T "RW path/inode identity changed"];;
  require ((r "size" =? 12305) && (r "write" =? r "read") && (r "read" =? 12305) &&
           (r "checksum" =? 867834) && (r "data_blocks" =? 13))
    [T "RW byte or direct/indirect count changed"];;
  let addresses := r <$> ["direct0"; "direct11"; "indirect"; "indirect0"]%string in
  require (forallb (fun a => 0 <? a) addresses && distinct addresses) [T "RW block ownership changed"];;
  let sequence := r <$> ["open_seq"; "file_write_seq"; "inode_write_seq"; "direct_seq"; "buffer_seq";
                         "indirect_seq"; "file_read_seq"; "inode_read_seq"]%string in
  require (forallb (fun s => 0 <? s) sequence && distinct sequence && ascending sequence)
    [T "RW layer/event order changed"];;
  require ((r "buffer_block" =? r "direct0") && (r "buffer_valid" =? 1) && (1 <=? r "buffer_ref") &&
           (r "buffer_locked" =? 1) && (r "status" =? 0) && (r "cleanup" =? 1))
    [T "RW buffer state or result changed"].

Definition check_link (base link : fields) : result () :=
  let l := num link in
  require ((l "generation" =? 2) && (0 <? l "inum") && (l "nlink0" =? 1) && (l "nlink1" =? 2) &&
           (l "nlink2" =? 1) && (l "nlink3" =? 0)) [T "link/unlink nlink state changed"];;
  require ((l "path_old" =? l "path_alias") && (l "path_alias" =? -1) && (l "read" =? 5) &&
           (l "first" =? 104) && (l "last" =? 111) && (0 <=? l "open_fd") &&
           (l "blocks_held" =? num base "blocks" + 1) && (l "inodes_held" =? num base "inodes" + 1) &&
           (l "status" =? 0) && (l "cleanup" =? 1)) [T "open-unlinked inode ownership changed"].

Definition check_trunc (trunc : fields) : result () :=
  let t := num trunc in
  require ((t "generation" =? 3) && (0 <? t "inum_fd0") && (t "inum_fd0" =? t "inum_fd1") &&
           (t "before_size" =? 2048) && (t "before_blocks" =? 2) && (t "after_size" =? t "after_blocks") &&
           (t "after_blocks" =? t "peer_size") && (t "peer_size" =? 0) && (t "rewrite" =? t "final_size") &&
           (t "final_size" =? 3) && (t "status" =? 0) && (t "cleanup" =? 1))
    [T "O_TRUNC ownership/result changed"].

Definition check_fdfail (base fdfail : fields) : result () :=
  let f := num fdfail in
  require ((f "generation" =? 4) && (f "filled" =? 12) && (f "create" =? -1) && (0 <=? f "check_fd") &&
           (f "nlink" =? 1) && (f "size" =? 0) && (f "blocks_held" =? num base "blocks") &&
           (f "inodes_held" =? num base "inodes" + 1) && (f "status" =? 0) && (f "cleanup" =? 1))
    [T "fd-exhaustion create side effect changed"].

Definition check_linkfail (linkfail : fields) : result () :=
  let l := num linkfail in
  require ((l "generation" =? 5) && (l "fail_at" =? 1) && (l "eligible" =? l "fired") && (l "fired" =? 1) &&
           (l "link" =? l "target") && (l "target" =? -1) && (l "nlink_before" =? l "nlink_after") &&
           (l "nlink_after" =? 1) && (l "blocks_before" =? l "blocks_after") &&
           (l "inodes_before" =? l "inodes_after") && (l "status" =? 0) && (l "cleanup" =? 1))
    [T "link rollback changed"].

Definition check_alloc (alloc : fields) : result () :=
  let a := num alloc in
  require ((a "generation" =? 6) && (a "fail_at" =? 2) && (a "eligible" =? 2) && (a "fired" =? 1) &&
           (a "write" =? -1) && (a "size_before" =? a "size_after") && (a "size_after" =? 12288) &&
           (a "indirect_before" =? 0) && (0 <? a "indirect_after") && (a "indirect_data" =? 0) &&
           (a "blocks_after" =? a "blocks_before" + 1) && (a "inodes_after" =? a "inodes_before") &&
           (a "status" =? 0) && (a "cleanup" =? 1)) [T "late block-allocation failure contract changed"].

(** The result is the dictionary of the markers other than [AFTER]; each of them
    occurs once in [ORDER]. *)
Definition validate_fstrace (text : pystr) : result (list (phase * fields)) :=
  markers ← parse_trace text;
  match (markers : list (phase * fields)).*2 with
  | [base; rw; after2; link; after4; trunc; after6; fdfail; after8; linkfail; after10; alloc; after12; pass] =>
      check_base base;;
      mapR (check_after base)
        [ (after2, RW); (after4, LINK); (after6, TRUNC); (after8, FDFAIL); (after10, LINKFAIL);
          (after12, ALLOCFAIL) ];;
      check_rw rw;;
      check_link base link;;
      check_trunc trunc;;
      check_fdfail base fdfail;;
      check_linkfail linkfail;;
      check_alloc alloc;;
      require (fields_are pass [("cases", 6); ("cleanup", 1)]%string) [T "filesystem PASS marker changed"];;
      Ok (filter (fun m => m.1 <> AFTER) markers)
  | _ => Raise IndexError
  end.

(** * The self test *)

(** [s.replace(a, b, 1)] and [s.replace(a, b)] *)
Definition rep1 (a b : string) (s : pystr) : pystr := replacen 1 (u a) (u b) s.
Definition rep (a b : string) (s : pystr) : pystr := replace (u a) (u b) s.

Definition ledger : pystr :=
  u "blocks=100 inodes=10 itable_active=3 itable_refs=3 file_obje" ++
  u "cts=4 file_refs=7 buf_refs=0".

Definition good : pystr :=
  join [newline]
    [ u "FS BASE " ++ ledger;
      u "FS RW generation=1 path_steps=2 inum=20 type=2 nlink=1 size=12305 write=12305 read=12305 " ++
      u "checksum=867834 direct0=1000 direct11=1011 indirect=1012 indirect0=1013 data_blocks=13 " ++
      u "open_seq=1 file_write_seq=2 inode_write_seq=3 direct_seq=4 buffer_seq=5 indirect_seq=6 " ++
      u "file_read_seq=7 inode_read_seq=8 buffer_block=1000 buffer_valid=1 buffer_ref=1 " ++
      u "buffer_locked=1 status=0 cleanup=1";
      u "FS AFTER phase=RW " ++ ledger;
      u "FS LINK generation=2 inum=21 nlink0=1 nlink1=2 nlink2=1 nlink3=0 path_old=-1 path_alias=-1 " ++
      u "read=5 first=104 last=111 open_fd=3 blocks_held=101 inodes_held=11 status=0 cleanup=1";
      u "FS AFTER phase=LINK " ++ ledger;
      u "FS TRUNC generation=3 inum_fd0=22 inum_fd1=22 before_size=2048 before_blocks=2 after_size=0 " ++
      u "after_blocks=0 peer_size=0 rewrite=3 final_size=3 status=0 cleanup=1";
      u "FS AFTER phase=TRUNC " ++ ledger;
      u "FS FDFAIL generation=4 filled=12 create=-1 check_fd=3 nlink=1 size=0 blocks_held=100 " ++
      u "inodes_held=11 status=0 cleanup=1";
      u "FS AFTER phase=FDFAIL " ++ ledger;
      u "FS LINKFAIL generation=5 fail_at=1 eligible=1 fired=1 link=-1 target=-1 nlink_before=1 " ++
      u "nlink_after=1 blocks_before=100 blocks_after=100 inodes_before=10 inodes_after=10 status=0 " ++
      u "cleanup=1";
      u "FS AFTER phase=LINKFAIL " ++ ledger;
      u "FS ALLOCFAIL generation=6 fail_at=2 eligible=2 fired=1 write=-1 size_before=12288 " ++
      u "size_after=12288 indirect_before=0 indirect_after=1100 indirect_data=0 blocks_before=112 " ++
      u "blocks_after=113 inodes_before=11 inodes_after=11 status=0 cleanup=1";
      u "FS AFTER phase=ALLOCFAIL " ++ ledger;
      u "FS PASS cases=6 cleanup=1" ] ++ [newline].

Definition mutations : list pystr :=
  [ rep1 " cleanup=1" " forged=1 cleanup=1" good;
    rep1 "inum=20 type=2" "inum=20 inum=20 type=2" good;
    rep1 "path_steps=2 " "" good;
    rep1 "path_steps=2" "path_steps=two" good;
    rep1 "checksum=867834" "checksum=867833" good;
    rep1 "indirect0=1013" "indirect0=1000" good;
    rep1 "buffer_seq=5" "buffer_seq=4" good;
    rep1 "buffer_locked=1" "buffer_locked=0" good;
    rep1 "nlink3=0" "nlink3=1" good;
    rep1 "blocks_held=101" "blocks_held=100" good;
    rep1 "after_blocks=0" "after_blocks=1" good;
    rep1 "inum_fd1=22" "inum_fd1=23" good;
    rep1 "create=-1" "create=0" good;
    rep1 "nlink_after=1" "nlink_after=2" good;
    rep1 "eligible=1 fired=1 link=-1" "eligible=0 fired=1 link=-1" good;
    rep1 "blocks_after=100 inodes_before" "blocks_after=101 inodes_before" good;
    rep1 "eligible=2" "eligible=1" good;
    rep1 "indirect_data=0" "indirect_data=1101" good;
    rep1 "blocks_after=113" "blocks_after=112" good;
    rep1 "FS AFTER phase=RW" "FS AFTER phase=LINK" good;
    rep "FS PASS cases=6 cleanup=1" "FS FAIL reason=1" good;
    rep "FS PASS cases=6 cleanup=1" "FS PASS cases=5 cleanup=1" good;
    good ++ u "FS PASS cases=6 cleanup=1" ++ [newline] ].

(** One round of the loop over the mutations: the oracle has to refuse the trace
    with a [LabError]; any other exception propagates. *)
Definition reject_mutation (index : Z) (mutation : pystr) : result Z :=
  match validate_fstrace mutation with
  | Raise (LabError _) => Ok (index + 1)
  | Raise e => Raise e
  | Ok _ => Raise (LabError [T "oracle mutation "; D index; T " was accepted"])
  end.

Definition resources : list string :=
  [ "docs/xv6-tutorial/resources/filesystem/filesystem-audit.patch";
    "docs/xv6-tutorial/resources/filesystem/run-lab.py" ].

(** What [self_test] does before it looks at the repository; the result is
    [len(mutations)], which its last line prints. *)
Definition self_test : result Z :=
  validate_fstrace good;;
  foldM reject_mutation 1 mutations;;
  Ok (len mutations).

(** Its end, for the files [repo_file_names] found *)
Definition sampling (sampled : list pystr) : result () :=
  mapR (fun relative => require (bool_decide (u relative ∈ sampled))
                          [T "repository state sampling omitted "; T relative]) resources;;
  Ok tt.

(** * What an accepted run guarantees *)

Lemma good_fstrace : is_ok (validate_fstrace good) = true.
Proof. vm_compute. reflexivity. Qed.

Lemma mutations_refused : foldM reject_mutation 1 mutations = Ok 24.
Proof. vm_compute. reflexivity. Qed.

Lemma mutations_length : len mutations = 23.
Proof. reflexivity. Qed.

(** The runner's self test of the file-system oracle: the good trace is accepted and
    each of the twenty-three mutated ones is refused with a [LabError]; the rest
    succeeds exactly when the repository sample holds the patch and the runner. *)
Theorem filesystem_self_test_ok sampled :
  self_test = Ok 23 /\ (sampling sampled = Ok tt <-> Forall (fun r => u r ∈ sampled) resources).
Proof.
  split; [|apply sampled_ok]. unfold self_test. rewrite mutations_refused, mutations_length. pose proof good_fstrace as G.
  destruct (validate_fstrace good); [done|discriminate].
Qed.

(** ** The markers *)

(** The type of a field: the text of [phase] in an [AFTER] marker, an integer
    anywhere else. *)
Definition of_type (p : phase) (key : pystr) (v : value) : Prop :=
  match v with VStr _ => p = AFTER /\ key = u "phase" | VInt _ => p <> AFTER \/ key <> u "phase" end.

Lemma parse_value_type p f x : parse_value p f = Ok x -> x.1 = f.1 /\ of_type p x.1 x.2.
Proof.
  destruct f as [k v]. unfold parse_value. intros H.
  destruct (bool_decide (p = AFTER) && bool_decide (k = u "phase")) eqn:E; inv_ok; to_prop; [done|].
  split; [done|]. destruct E; to_prop; cbn; auto.
Qed.

(** A marker has exactly the fields of its schema, each once and of its type. *)
Definition well_typed (m : phase * fields) : Prop :=
  (forall key, key ∈ m.2.*1 <-> key ∈ u <$> SCHEMAS m.1) /\ NoDup m.2.*1 /\
  (forall key v, (key, v) ∈ m.2 -> of_type m.1 key v).

Lemma add_field_distinct p fs token fs' : add_field p fs token = Ok fs' -> NoDup fs.*1 -> NoDup fs'.*1.
Proof.
  unfold add_field. intros H Hnd. apply bind_ok in H as (_ & _ & H).
  destruct (splitn _ _ _) as [|key [|value [|]]]; try discriminate.
  apply bind_ok in H as (_ & Hn%require_ok & H). injection H as <-. apply negb_true_iff in Hn.
  rewrite fmap_app, NoDup_app. split; [done|]. split; [|apply NoDup_singleton].
  intros k Hk ->%list_elem_of_singleton. apply lookup_key_elem in Hk as [v Hv]. cbn in Hv. unfold has_key in Hn.
  by rewrite Hv in Hn.
Qed.

Lemma parse_fields_typed p tokens fs : parse_fields p tokens = Ok fs -> well_typed (p, fs).
Proof.
  unfold parse_fields. intros H. inv_ok. apply mapR_ok in H.
  assert (fs.*1 = a.*1) as Hk.
  { clear -H. induction H as [|? ? ? ? [? _]%parse_value_type ? IH]; [done|]. rewrite !fmap_cons. congruence. }
  split; [|split]; cbn [fst snd].
  - intros key. rewrite Hk. unfold same_set in C. apply andb_true_iff in C as [C1 C2].
    rewrite forallb_forall in C1, C2. setoid_rewrite bool_decide_eq_true in C1.
    setoid_rewrite bool_decide_eq_true in C2. setoid_rewrite <- list_elem_of_In in C1.
    setoid_rewrite <- list_elem_of_In in C2. naive_solver.
  - rewrite Hk. refine (foldM_inv (add_field p) (fun _ l => NoDup l.*1) _ [] a _ _ E); [constructor|].
    intros _ token l l' _ Hl Hs. by eapply add_field_distinct.
  - clear -H. intros key v. induction H as [|? ? ? ? [_ T]%parse_value_type ? IH]; [by intros ?%not_elem_of_nil|].
    intros [<-|]%elem_of_cons; auto.
Qed.

Lemma parse_trace_typed text markers :
  parse_trace text = Ok markers -> Forall well_typed markers /\ markers.*1 = ORDER.
Proof.
  unfold parse_trace. intros H. inv_ok. to_prop. split; [|done].
  refine (foldM_inv add_marker (fun _ => Forall well_typed) _ [] markers _ _ E); [constructor|].
  intros _ line ms ms' _ Hms Hl. unfold add_marker in Hl.
  destruct (startswith _ _); [|by inv_ok].
  destruct (words line) as [|? [|name [|tok toks]]]; try discriminate.
  destruct (phase_of name) as [p|]; [|discriminate]. inv_ok.
  apply Forall_app; split; [done|]. constructor; [|done]. by eapply parse_fields_typed.
Qed.

Lemma typed_num m key : well_typed m -> key ∈ SCHEMAS m.1 -> u key <> u "phase" ->
  lookup_key (u key) m.2 = Some (VInt (num m.2 key)).
Proof.
  intros (K & _ & Ty) Hk Hp. assert (is_Some (lookup_key (u key) m.2)) as [v Hv].
  { apply lookup_key_elem, K. by apply list_elem_of_fmap_2. }
  unfold num. rewrite Hv. apply lookup_key_Some, Ty in Hv. destruct v; cbn in Hv; naive_solver.
Qed.

Lemma order_14 (markers : list (phase * fields)) : markers.*1 = ORDER ->
  exists base rw a2 link a4 trunc a6 fdfail a8 linkfail a10 alloc a12 pass,
  markers = [(BASE, base); (RW, rw); (AFTER, a2); (LINK, link); (AFTER, a4); (TRUNC, trunc); (AFTER, a6);
    (FDFAIL, fdfail); (AFTER, a8); (LINKFAIL, linkfail); (AFTER, a10); (ALLOCFAIL, alloc); (AFTER, a12);
    (PASS, pass)] /\
  markers.*2 = [base; rw; a2; link; a4; trunc; a6; fdfail; a8; linkfail; a10; alloc; a12; pass].
Proof.
  intros H. do 14 (destruct markers as [|[? ?] markers]; [discriminate|]; injection H as -> H; cbn in H).
  destruct markers; [|discriminate]. by repeat eexists.
Qed.

(** ** The checks *)

Lemma check_after_ok base l us fs p :
  mapR (check_after base) l = Ok us -> (fs, p) ∈ l -> same_ledger fs base = true.
Proof.
  intros H%mapR_ok Hl. induction H as [|[fs' p'] [] l us H _ IH]; [by apply not_elem_of_nil in Hl|].
  apply elem_of_cons in Hl as [[= -> ->]|Hl]; [|auto].
  unfold check_after in H. by inv_ok.
Qed.

Lemma ascending_sorted l : ascending l = true -> NoDup l -> StronglySorted Z.lt l.
Proof.
  intros H N. apply Sorted_StronglySorted; [intros ???; lia|].
  induction l as [|x [|y l] IH]; [constructor|repeat constructor|].
  cbn [ascending] in H. to_prop. apply NoDup_cons in N as [Nx N].
  constructor; [by apply IH|]. constructor. assert (x <> y) by set_solver. lia.
Qed.

Definition layer_events : list string :=
  [ "open_seq"; "file_write_seq"; "inode_write_seq"; "direct_seq"; "buffer_seq"; "indirect_seq";
    "file_read_seq"; "inode_read_seq" ].
Definition file_blocks : list string := ["direct0"; "direct11"; "indirect"; "indirect0"].

Lemma check_rw_ok rw u0 : check_rw rw = Ok u0 ->
  StronglySorted Z.lt (num rw <$> layer_events) /\ NoDup (num rw <$> file_blocks) /\
  Forall (fun a => 0 < a) (num rw <$> file_blocks).
Proof.
  unfold check_rw. intros H. inv_ok. to_prop.
  repeat match goal with H : distinct _ = true |- _ => apply distinct_NoDup in H end.
  split; [by apply ascending_sorted|]. split; [done|].
  match goal with H : forallb _ (_ <$> ["direct0"; _; _; _]) = true |- _ => rename H into F end.
  apply Forall_forall. intros a Ha%list_elem_of_In. rewrite forallb_forall in F.
  by apply F, Z.ltb_lt in Ha.
Qed.

(** What an accepted run shows of the guest. *)
Record sound_run (markers : list (phase * fields)) (base : fields) : Prop := {
  run_base : markers !! 0%nat = Some (BASE, base);
  (* every case gives back the blocks, inodes, table entries, file objects,
     references and buffers it took *)
  run_ledger : forall after key, (AFTER, after) ∈ markers -> key ∈ LEDGER ->
    lookup_key (u key) after = Some (VInt (num base key));
  (* the layers of a read-write case run in the order of the calls, on distinct
     blocks *)
  run_rw : forall rw, (RW, rw) ∈ markers ->
    StronglySorted Z.lt (num rw <$> layer_events) /\ NoDup (num rw <$> file_blocks) /\
    Forall (fun a => 0 < a) (num rw <$> file_blocks);
  (* an unlinked file that is open still holds its inode and its block *)
  run_link : forall link, (LINK, link) ∈ markers ->
    num link "nlink3" = 0 /\ num link "blocks_held" = num base "blocks" + 1 /\
    num link "inodes_held" = num base "inodes" + 1;
  (* a failed link changes nothing; a late failed allocation leaks no inode and
     keeps only the indirect block *)
  run_linkfail : forall l, (LINKFAIL, l) ∈ markers ->
    num l "nlink_after" = num l "nlink_before" /\ num l "blocks_after" = num l "blocks_before" /\
    num l "inodes_after" = num l "inodes_before";
  run_alloc : forall a, (ALLOCFAIL, a) ∈ markers ->
    num a "size_after" = num a "size_before" /\ num a "inodes_after" = num a "inodes_before" /\
    num a "blocks_after" = num a "blocks_before" + 1 }.

Lemma ledger_number key fs base :
  key ∈ LEDGER -> same_ledger fs base = true -> num fs key = num base key.
Proof.
  unfold same_ledger. rewrite forallb_forall. intros Hk H.
  by apply list_elem_of_In, H, Z.eqb_eq in Hk.
Qed.

Lemma ledger_not_phase key : key ∈ LEDGER -> u key <> u "phase".
Proof.
  intros Hk Heq. assert (forallb (fun k => negb (bool_decide (u k = u "phase"))) LEDGER = true) as F
    by (vm_compute; reflexivity).
  rewrite forallb_forall in F. apply list_elem_of_In, F in Hk. by rewrite bool_decide_eq_true_2 in Hk.
Qed.

Ltac member H := rewrite !elem_of_cons in H; destruct_or! H; try discriminate H;
  try (by apply not_elem_of_nil in H); injection H as ->.

(** C28: a file-system run that is accepted has the fourteen markers in order,
    and after each of its six cases the ledger of blocks, inodes, in-memory
    inodes, files and buffers is the one of the base; the layers of the
    read-write case ran in call order on distinct blocks; the open unlinked file
    kept its inode and block; and the injected failures left sizes, links and
    inodes as they were. *)
Theorem accepted_fstrace text r :
  validate_fstrace text = Ok r ->
  exists markers base, parse_trace text = Ok markers /\ markers.*1 = ORDER /\ sound_run markers base.
Proof.
  unfold validate_fstrace. intros H. apply bind_ok in H as (markers & Hp & H).
  destruct (parse_trace_typed _ _ Hp) as [Ty Ho].
  destruct (order_14 _ Ho) as (base&rw&a2&link&a4&trunc&a6&fdfail&a8&linkfail&a10&alloc&a12&pass&E1&E2).
  exists markers, base. split; [done|]. split; [done|]. rewrite E2 in H. clear E2 Hp Ho.
  apply bind_ok in H as (_ & _ & H). apply bind_ok in H as (us & A & H).
  apply bind_ok in H as ([] & Hrw%check_rw_ok & H). apply bind_ok in H as ([] & Hlink & H).
  apply bind_ok in H as (_ & _ & H). apply bind_ok in H as (_ & _ & H).
  apply bind_ok in H as ([] & Hlf & H). apply bind_ok in H as ([] & Hal & _).
  subst markers. constructor; [done|..].
  - intros after key Ha Hk.
    assert (same_ledger after base = true) as S.
    { clear -Ha A. assert (exists p, (after, p) ∈ [(a2, RW); (a4, LINK); (a6, TRUNC); (a8, FDFAIL);
        (a10, LINKFAIL); (a12, ALLOCFAIL)]) as [p Hp] by (member Ha; eexists; rewrite list_elem_of_In; cbn [In]; eauto 8).
      by eapply check_after_ok. }
    rewrite <-(ledger_number key after base Hk S). rewrite Forall_forall in Ty.
    apply (typed_num (AFTER, after)); [by apply Ty|by apply elem_of_app; left|by apply ledger_not_phase].
  - intros x Hx. by member Hx.
  - intros x Hx. member Hx. unfold check_link in Hlink. inv_ok. to_prop. split_and!; lia.
  - intros x Hx. member Hx. unfold check_linkfail in Hlf. inv_ok. to_prop. split_and!; lia.
  - intros x Hx. member Hx. unfold check_alloc in Hal. inv_ok. to_prop. split_and!; lia.
Qed.

Lemma accepted_fstrace_witness :
  exists r markers base, validate_fstrace good = Ok r /\ sound_run markers base.
Proof.
  destruct (validate_fstrace good) as [r|e] eqn:E.
  - destruct (accepted_fstrace _ _ E) as (markers & base & _ & _ & S). exists r, markers, base. by split.
  - pose proof good_fstrace as G. rewrite E in G. discriminate.
Defined.

(** ** Error paths *)

Definition lab_or_value (e : exn) : Prop := (exists m, e = LabError m) \/ e = ValueError.

Lemma lab_allowed m : lab_or_value (LabError m).
Proof. left; eauto. Qed.
Lemma value_allowed : lab_or_value ValueError.
Proof. by right. Qed.
#[local] Hint Resolve lab_allowed value_allowed : raises.

Ltac bounded := repeat first
  [ solve [eauto with raises] | apply raises_bind; [|intros ? _] | case_match ].

Lemma int_value_raises v : raises lab_or_value (int_value v).
Proof. unfold int_value, int_decimals. bounded. Qed.
#[local] Hint Resolve int_value_raises : raises.

Lemma parse_fields_raises p tokens : raises lab_or_value (parse_fields p tokens).
Proof.
  unfold parse_fields. apply raises_bind; [|intros fs _].
  - apply raises_foldM. intros s a. unfold add_field. bounded.
  - apply raises_bind; [eauto with raises|intros _ _]. apply raises_mapR. intros [k v].
    unfold parse_value. bounded.
Qed.
#[local] Hint Resolve parse_fields_raises : raises.

Lemma parse_trace_raises text : raises lab_or_value (parse_trace text).
Proof.
  unfold parse_trace. apply raises_bind; [|intros ? _; bounded].
  apply raises_foldM. intros s line. unfold add_marker. bounded.
Qed.

(** Whatever the guest printed, the file-system oracle returns the
    markers or raises a [LabError], but for one case: a value that [isdigit]
    accepts and [int] does not read ends it with a [ValueError]. *)
Theorem fstrace_errors text e :
  validate_fstrace text = Raise e -> (exists m, e = LabError m) \/ e = ValueError.
Proof.
  revert e. change (raises lab_or_value (validate_fstrace text)).
  unfold validate_fstrace. apply raises_bind; [apply parse_trace_raises|].
  intros markers [_ Ho]%parse_trace_typed.
  destruct (order_14 _ Ho) as (base&rw&a2&link&a4&trunc&a6&fdfail&a8&linkfail&a10&alloc&a12&pass&_&->).
  unfold check_base, check_rw, check_link, check_trunc, check_fdfail, check_linkfail, check_alloc.
  apply raises_bind; [bounded|intros _ _]. apply raises_bind; [|intros _ _; bounded].
  apply raises_mapR. intros [after p]. unfold check_after. bounded.
Qed.

(** Both cases of the error are there: the good trace with a second dash before
    a number ends the run with a [ValueError], which is not a [LabError]. *)
Lemma fstrace_errors_witness :
  validate_fstrace (rep1 "path_old=-1" "path_old=--1" good) = Raise ValueError /\
  ((exists m, ValueError = LabError m) \/ ValueError = ValueError).
Proof.
  assert (validate_fstrace (rep1 "path_old=-1" "path_old=--1" good) = Raise ValueError) as E
    by (vm_compute; reflexivity).
  split; [exact E|]. exact (fstrace_errors _ _ E).
Defined.

(** A second dash, or a superscript digit, passes the digit test and is not an
    integer: the runner stops with a [ValueError] instead of a [LabError]. *)
Theorem dashed_value_raises :
  parse_fields PASS [u "cases=--6"; u "cleanup=1"] = Raise ValueError /\
  parse_fields PASS [u "cases=" ++ [178]; u "cleanup=1"] = Raise ValueError.
Proof. split; vm_compute; reflexivity. Qed.

(** C39: the fourteen markers of an accepted run are typed, the [AFTER]
    markers too: each has exactly the fields of its schema, each field once,
    the text of [phase] in an [AFTER] marker and an integer in every other
    field; the result is these markers without the [AFTER] ones. *)
Theorem accepted_markers_typed text r :
  validate_fstrace text = Ok r ->
  exists markers, parse_trace text = Ok markers /\ markers.*1 = ORDER /\ Forall well_typed markers /\
    r = filter (fun m => m.1 <> AFTER) markers /\
    r.*1 = [BASE; RW; LINK; TRUNC; FDFAIL; LINKFAIL; ALLOCFAIL; PASS].
Proof.
  unfold validate_fstrace. intros H. apply bind_ok in H as (markers & Hp & H). exists markers.
  destruct (parse_trace_typed _ _ Hp) as [Ty Ho]. split; [done|]. split; [done|]. split; [done|].
  destruct (order_14 _ Ho) as (base&rw&a2&link&a4&trunc&a6&fdfail&a8&linkfail&a10&alloc&a12&pass&E1&E2).
  rewrite E2 in H. do 9 apply bind_ok in H as (_ & _ & H). injection H as <-. split; [done|]. by rewrite E1.
Qed.

Lemma accepted_markers_typed_witness :
  exists r markers, validate_fstrace good = Ok r /\ parse_trace good = Ok markers /\ Forall well_typed markers.
Proof.
  destruct (validate_fstrace good) as [r|e] eqn:E.
  - destruct (accepted_markers_typed _ _ E) as (markers & Hp & _ & Ty & _). exists r, markers. exact (conj eq_refl (conj Hp Ty)).
  - pose proof good_fstrace as G. rewrite E in G. discriminate.
Defined.
