(* ===== verification/PTrace.v ===== *)
(** The persistence trace: constants, marker schemas and the marker parser of
    [docs/xv6-tutorial/resources/persistence/run-lab.py].

    A guest run prints lines [PERSIST <KIND> key=value ...].  [parse_markers]
    turns a transcript into markers, each with exactly the fields of its
    schema; [validate_marker_stream] splits the stream into the typed views
    ([Meta], [Event], [BufView], [Ledger], [Result], [Full]) the reducers
    work on. *)

From stdpp Require Import base tactics list gmap strings numbers list_numbers.
From S2P Require Import Prelude PyText PyBytes PyJson PyMarkers.
Open Scope Z_scope.

(** * Constants *)

Definition NBUF : Z := 30.
Definition MAXOPBLOCKS : Z := 10.
Definition LOGBLOCKS : Z := 30.
Definition FSSIZE : Z := 2000.
Definition ROOTDEV : Z := 1.
Definition PA_ABI : Z := 1.
Definition EVENT_BUDGET : Z := 512.
Definition PANIC_TEXT : pystr := u "panic: bget: no buffers".

(** Runtime cases, by the names of [CASE_RUNTIME]. *)
Inductive case : Type :=
| Tx | AdmissionEmpty | AdmissionUsed | Same | Collision | Parallel | CacheFull.
#[global] Instance case_eq_dec : EqDecision case.
Proof. solve_decision. Defined.

Definition case_name (c : case) : string :=
  match c with
  | Tx => "tx" | AdmissionEmpty => "admission-empty" | AdmissionUsed => "admission-used"
  | Same => "same" | Collision => "collision" | Parallel => "parallel"
  | CacheFull => "cache-full"
  end.
Definition all_cases : list case :=
  [Tx; AdmissionEmpty; AdmissionUsed; Same; Collision; Parallel; CacheFull].

(** [CASE_RUNTIME[case]]: scenario identifier, generation, number of harts. *)
Definition case_runtime (c : case) : string * Z * Z :=
  match c with
  | Tx => ("transaction-flow", 1, 1)
  | AdmissionEmpty => ("log-capacity-empty", 2, 2)
  | AdmissionUsed => ("log-capacity-used", 3, 2)
  | Same => ("cache-same-block", 4, 2)
  | Collision => ("cache-collision", 5, 2)
  | Parallel => ("cache-parallel", 6, 2)
  | CacheFull => ("cache-full", 7, 1)
  end.

(** [case in RESULT_CASES] *)
Definition result_case (c : case) : bool :=
  match c with Same | Collision | Parallel => true | _ => false end.

(** [POINT] *)
Definition CACHE_LOOKUP : Z := 1.
Definition CACHE_GUARD : Z := 2.
Definition CACHE_HIT : Z := 3.
Definition CACHE_PUBLISH : Z := 4.
Definition CACHE_SLEEP : Z := 5.
Definition CACHE_RELEASE : Z := 6.
Definition CACHE_PIN : Z := 7.
Definition CACHE_UNPIN : Z := 8.
Definition LOG_WAIT_COMMIT : Z := 20.
Definition LOG_WAIT_SPACE : Z := 21.
Definition LOG_ADMIT : Z := 22.
Definition LOG_END : Z := 23.
Definition LOG_APPEND : Z := 24.
Definition LOG_ABSORB : Z := 25.
Definition LOG_PAYLOAD : Z := 26.
Definition LOG_HEADER : Z := 27.
Definition LOG_HOME : Z := 28.
Definition LOG_CLEAR : Z := 29.
Definition LOG_COMMIT_DONE : Z := 30.
Definition IO_SUBMIT : Z := 40.
Definition IO_COMPLETE : Z := 41.

(** Membership in [CACHE_POINTS], [LOG_POINTS], [IO_POINTS], [KNOWN_POINTS]. *)
Definition is_cache_point (p : Z) : bool := (1 <=? p) && (p <? 9).
Definition is_log_point (p : Z) : bool := (20 <=? p) && (p <? 31).
Definition is_io_point (p : Z) : bool := (p =? IO_SUBMIT) || (p =? IO_COMPLETE).
Definition is_known_point (p : Z) : bool :=
  is_cache_point p || is_log_point p || is_io_point p.

(** * Marker schemas *)

Inductive mkind : Type := META | EVENT | BUFFER | LEDGER | RESULT | FULL | PASS.
#[global] Instance mkind_eq_dec : EqDecision mkind.
Proof. solve_decision. Defined.

Definition kind_name (k : mkind) : string :=
  match k with
  | META => "META" | EVENT => "EVENT" | BUFFER => "BUFFER" | LEDGER => "LEDGER"
  | RESULT => "RESULT" | FULL => "FULL" | PASS => "PASS"
  end.
Definition all_kinds : list mkind := [META; EVENT; BUFFER; LEDGER; RESULT; FULL; PASS].

Definition marker_schema (k : mkind) : list string :=
  match k with
  | META => ["case"; "abi"; "generation"; "count"; "error"; "arrived"; "gate"; "holders"]
  | EVENT => ["generation"; "seq"; "point"; "pid"; "hart"; "domain"; "slot"; "ref";
              "dev"; "block"; "buffer_generation"; "log_n"; "outstanding"; "committing"; "aux"]
  | BUFFER => ["generation"; "slot"; "domain"; "named"; "ref"; "valid"; "disk"; "locked";
               "dev"; "block"; "buffer_generation"]
  | LEDGER => ["case"; "generation"; "refs"; "locks"; "disk"; "log_n"; "outstanding";
               "committing"; "error"]
  | RESULT => ["case"; "block1"; "block2"; "pid1"; "pid2"; "domain1"; "domain2";
               "expected1"; "expected2"; "value1"; "value2"]
  | FULL => ["generation"; "holders"; "next"]
  | PASS => ["case"]
  end.

(** [(kind, key) in STRING_FIELDS] *)
Definition is_string_field (k : mkind) (key : pystr) : bool :=
  match k with
  | META | LEDGER | RESULT | PASS => bool_decide (key = u "case")
  | _ => false
  end.

Record Marker : Type := {
  mk_kind : mkind;
  mk_fields : fields;
  mk_line : pystr
}.

(** * The parser *)

(** [re.fullmatch(r"[a-z][a-z0-9-]*", raw)] *)
Definition case_re : regex :=
  RSeq (RChar lower) (RStar (RChar (fun c => lower c || digit c || is_char "-" c))).
Definition parse_token (k : mkind) (values : fields) (token : pystr) : result fields :=
  require (count (u "=") token =? 1)
    [T "malformed "; T (kind_name k); T " field: "; R token];;
  match splitn 1 (u "=") token with
  | [key; raw] =>
      require (negb (bool_decide (key = [])) && bool_decide (lookup_key key values = None))
        [T "duplicate "; T (kind_name k); T " field: "; R key];;
      require (negb (existsb isspace raw))
        [T "whitespace in "; T (kind_name k); T " field: "; V key];;
      if is_string_field k key then
        require (re_fullmatch case_re raw)
          [T "invalid string "; T (kind_name k); T " field: "; V key; T "="; R raw];;
        Ok (values ++ [(key, VStr raw)])
      else
        require (re_fullmatch int_re raw)
          [T "non-integer "; T (kind_name k); T " field: "; V key; T "="; R raw];;
        z ← py_int raw;
        Ok (values ++ [(key, VInt z)])
  | _ => Raise ValueError
  end.

(** [MARKER_SCHEMAS[kind]], the set of field names *)
Definition schema (k : mkind) : list pystr := u <$> marker_schema k.

(** [sorted(a ^ b)] *)
Definition sorted_difference (a b : list pystr) : list pystr :=
  sorted_strs (filter (fun k => k ∉ b) a ++ filter (fun k => k ∉ a) b).

Definition parse_marker_fields (k : mkind) (tokens : list pystr) : result fields :=
  values ← foldM (parse_token k) [] tokens;
  require (same_set values.*1 (schema k))
    [T (kind_name k); T " fields changed: "; L (sorted_difference values.*1 (schema k))];;
  Ok values.

(** [kind in MARKER_SCHEMAS] *)
Definition kind_of_text (t : pystr) : option mkind :=
  snd <$> list_find (fun k => u (kind_name k) = t) all_kinds.

Definition parse_line (markers : list Marker) (raw_line : pystr) : result (list Marker) :=
  if negb (startswith raw_line (u "PERSIST")) then Ok markers else
  require (startswith raw_line (u "PERSIST "))
    [T "malformed PERSIST marker prefix: "; R raw_line];;
  let parts := words raw_line in
  require (3 <=? len parts) [T "malformed PERSIST marker: "; R raw_line];;
  kind ← index parts 1;
  require (negb (bool_decide (kind = u "FAIL"))) [T "guest reported failure: "; V raw_line];;
  match kind_of_text kind with
  | None => Raise (LabError [T "unknown PERSIST marker: "; R kind])
  | Some k =>
      fs ← parse_marker_fields k (zdrop 2 parts);
      Ok (markers ++ [{| mk_kind := k; mk_fields := fs; mk_line := raw_line |}])
  end.

Definition parse_markers (text : pystr) : result (list Marker) :=
  markers ← foldM parse_line [] (splitlines (remove_char cr text));
  require (negb (bool_decide (length markers = 0%nat))) [T "no PERSIST evidence markers found"];;
  Ok markers.

(** * Typed views of the fields *)

Record Meta : Type := {
  meta_case : pystr; meta_abi : Z; meta_generation : Z; meta_count : Z;
  meta_error : Z; meta_arrived : Z; meta_gate : Z; meta_holders : Z
}.

Record Event : Type := {
  generation : Z; seq : Z; point : Z; pid : Z; hart : Z; domain : Z; slot : Z; ref : Z;
  dev : Z; blockno : Z; buffer_generation : Z; log_n : Z; outstanding : Z;
  committing : Z; aux : Z
}.
#[global] Instance event_eq_dec : EqDecision Event.
Proof. solve_decision. Defined.

Record BufView : Type := {
  b_generation : Z; b_slot : Z; b_domain : Z; b_named : Z; b_ref : Z; b_valid : Z;
  b_disk : Z; b_locked : Z; b_dev : Z; b_block : Z; b_buffer_generation : Z
}.

Record Ledger : Type := {
  l_case : pystr; l_generation : Z; l_refs : Z; l_locks : Z; l_disk : Z; l_log_n : Z;
  l_outstanding : Z; l_committing : Z; l_error : Z
}.

Record Result : Type := {
  r_case : pystr; r_block1 : Z; r_block2 : Z; r_pid1 : Z; r_pid2 : Z; r_domain1 : Z;
  r_domain2 : Z; r_expected1 : Z; r_expected2 : Z; r_value1 : Z; r_value2 : Z
}.

Record Full : Type := { f_generation : Z; f_holders : Z; f_next : Z }.

Definition meta_of (fs : fields) : result Meta :=
  c ← get_str fs "case"; abi ← get_int fs "abi"; g ← get_int fs "generation";
  n ← get_int fs "count"; e ← get_int fs "error"; a ← get_int fs "arrived";
  gt ← get_int fs "gate"; h ← get_int fs "holders";
  Ok (Build_Meta c abi g n e a gt h).

Definition event_of (fs : fields) : result Event :=
  g ← get_int fs "generation"; s ← get_int fs "seq"; p ← get_int fs "point";
  pd ← get_int fs "pid"; h ← get_int fs "hart"; d ← get_int fs "domain";
  sl ← get_int fs "slot"; r ← get_int fs "ref"; dv ← get_int fs "dev";
  b ← get_int fs "block"; bg ← get_int fs "buffer_generation"; n ← get_int fs "log_n";
  o ← get_int fs "outstanding"; c ← get_int fs "committing"; a ← get_int fs "aux";
  Ok (Build_Event g s p pd h d sl r dv b bg n o c a).

Definition bufview_of (fs : fields) : result BufView :=
  g ← get_int fs "generation"; sl ← get_int fs "slot"; d ← get_int fs "domain";
  n ← get_int fs "named"; r ← get_int fs "ref"; v ← get_int fs "valid";
  dk ← get_int fs "disk"; l ← get_int fs "locked"; dv ← get_int fs "dev";
  b ← get_int fs "block"; bg ← get_int fs "buffer_generation";
  Ok (Build_BufView g sl d n r v dk l dv b bg).

Definition ledger_of (fs : fields) : result Ledger :=
  c ← get_str fs "case"; g ← get_int fs "generation"; r ← get_int fs "refs";
  l ← get_int fs "locks"; d ← get_int fs "disk"; n ← get_int fs "log_n";
  o ← get_int fs "outstanding"; cm ← get_int fs "committing"; e ← get_int fs "error";
  Ok (Build_Ledger c g r l d n o cm e).

Definition result_of (fs : fields) : result Result :=
  c ← get_str fs "case"; b1 ← get_int fs "block1"; b2 ← get_int fs "block2";
  p1 ← get_int fs "pid1"; p2 ← get_int fs "pid2"; d1 ← get_int fs "domain1";
  d2 ← get_int fs "domain2"; e1 ← get_int fs "expected1"; e2 ← get_int fs "expected2";
  v1 ← get_int fs "value1"; v2 ← get_int fs "value2";
  Ok (Build_Result c b1 b2 p1 p2 d1 d2 e1 e2 v1 v2).

Definition full_of (fs : fields) : result Full :=
  g ← get_int fs "generation"; h ← get_int fs "holders"; n ← get_int fs "next";
  Ok (Build_Full g h n).

(** * The marker stream *)

(** The maximal prefix of markers of one kind, and the rest. *)
Fixpoint span_kind (k : mkind) (ms : list Marker) : list Marker * list Marker :=
  match ms with
  | m :: ms' => if bool_decide (mk_kind m = k)
                then let '(a, b) := span_kind k ms' in (m :: a, b) else ([], ms)
  | [] => ([], [])
  end.

(** [require(index < len(markers) and markers[index].kind == kind, message)],
    then consume it. *)
Definition expect_kind (k : mkind) (m : msg) (ms : list Marker) : result (Marker * list Marker) :=
  match ms with
  | mk :: ms => require (bool_decide (mk_kind mk = k)) m;; Ok (mk, ms)
  | [] => Raise (LabError m)
  end.

Record Stream : Type := {
  st_meta : Meta; st_events : list Event; st_buffers : list BufView;
  st_ledger : Ledger; st_result : option Result; st_full : option Full
}.

Definition validate_marker_stream (markers : list Marker) (c : case) (panic : bool)
    : result Stream :=
  let name := T (case_name c) in
  '(res, ms) ←
    (if result_case c then
       match markers with
       | [] => Raise IndexError
       | m :: ms =>
           require (bool_decide (mk_kind m = RESULT))
             [name; T " must start with one RESULT marker"];;
           r ← result_of (mk_fields m); Ok (Some r, ms)
       end
     else Ok (None, markers));
  '(m, ms) ← expect_kind META [name; T " is missing its META marker"] ms;
  meta ← meta_of (mk_fields m);
  let '(evs, ms) := span_kind EVENT ms in
  events ← mapR (event_of ∘ mk_fields) evs;
  let '(bufs, ms) := span_kind BUFFER ms in
  buffers ← mapR (bufview_of ∘ mk_fields) bufs;
  '(l, ms) ← expect_kind LEDGER [name; T " is missing its LEDGER marker"] ms;
  ledger ← ledger_of (mk_fields l);
  '(full, ms) ←
    (if panic then
       '(f, ms) ← expect_kind FULL
                    [T "cache-full is missing its panic precondition marker"] ms;
       full ← full_of (mk_fields f); Ok (Some full, ms)
     else
       '(_, ms) ← expect_kind PASS [name; T " is missing its PASS marker"] ms;
       Ok (None, ms));
  require (bool_decide (length ms = 0%nat))
    [name; T " marker stream has extra, repeated, or misordered markers"];;
  require (Bool.eqb (match res with Some _ => true | None => false end) (result_case c))
    [name; T " RESULT cardinality changed"];;
  require (len events =? meta_count meta)
    [name; T " META event count differs from raw EVENT count"];;
  require (len buffers =? NBUF)
    [name; T " expected "; D NBUF; T " BUFFER markers, got "; D (len buffers)];;
  Ok {| st_meta := meta; st_events := events; st_buffers := buffers;
        st_ledger := ledger; st_result := res; st_full := full |}.
