(* ===== verification/PScen.v ===== *)
(** The scenario file of the persistence runner: [validate_scenarios] and
    [_validate_gates] of [persistence/run-lab.py], on a parsed JSON document. *)

From stdpp Require Import base tactics list gmap strings numbers list_numbers.
From S2P Require Import Prelude PyText PyBytes PyJson PyMarkers PTrace.
Open Scope Z_scope.

Definition POINT_CAPABILITIES : list (string * string) :=
  [("CACHE_GET_ENTER", "sleep-ok"); ("CACHE_SELECTED", "observe-only");
   ("CACHE_LOCKED", "sleep-ok-with-buffer-sleeplock");
   ("CACHE_PARTITION_HELD", "spin-2cpu-ok"); ("CACHE_RELEASED", "observe-only");
   ("LOG_APPENDED", "sleep-ok"); ("LOG_ABSORBED", "observe-only");
   ("BEGIN_ADMITTED", "sleep-ok"); ("BEGIN_WAIT_SPACE", "observe-only");
   ("IO_SUBMIT", "observe-only"); ("IO_COMPLETE", "observe-only");
   ("HEADER_COMMIT_COMPLETE", "observe-only"); ("HOME_INSTALL_COMPLETE", "observe-only");
   ("HEADER_CLEAR_COMPLETE", "observe-only")].

(** [POINT_CAPABILITIES.get(point)] *)
Definition capability_of (point : pystr) : option string :=
  match list_find (fun kv => u (fst kv) = point) POINT_CAPABILITIES with
  | Some (_, (_, capability)) => Some capability
  | None => None
  end.

Record Contract : Type := {
  ct_id : string;
  ct_cpus : Z;
  ct_actors : list (string * list string);
  ct_oracle : string;
  ct_evidence : list string;
  ct_discovery : option string;
  ct_isolated_panic : bool;
  ct_gates : Z    (* [expected_counts] of [_validate_gates] *)
}.

Definition CASE_CONTRACTS : list Contract :=
  [ {| ct_id := "transaction-flow"; ct_cpus := 1;
       ct_actors := [("writer", ["select-stable-home-block"; "begin-op";
                      "write-same-home-block-twice"; "end-op"; "orderly-stop"])];
       ct_oracle := "transaction-state-machine"; ct_evidence := ["F"; "R"];
       ct_discovery := None; ct_isolated_panic := false; ct_gates := 0 |};
    {| ct_id := "log-capacity-empty"; ct_cpus := 2;
       ct_actors := [("a", ["begin-op"; "hold"; "end-op"]); ("b", ["begin-op"; "hold"; "end-op"]);
                     ("c", ["begin-op"; "hold"; "end-op"]); ("d", ["begin-op"; "end-op"])];
       ct_oracle := "empty-log-admission-bound"; ct_evidence := ["B"; "C"];
       ct_discovery := None; ct_isolated_panic := false; ct_gates := 1 |};
    {| ct_id := "log-capacity-used"; ct_cpus := 2;
       ct_actors := [("a", ["begin-op"; "append-one-block"; "hold"; "end-op"]);
                     ("b", ["begin-op"; "hold"; "end-op"]); ("c", ["begin-op"; "end-op"])];
       ct_oracle := "used-log-admission-bound"; ct_evidence := ["B"; "C"];
       ct_discovery := None; ct_isolated_panic := false; ct_gates := 2 |};
    {| ct_id := "cache-same-block"; ct_cpus := 2;
       ct_actors := [("a", ["read-uncached-target"; "hold"; "release"]);
                     ("b", ["read-uncached-target"; "release"])];
       ct_oracle := "one-buffer-per-block"; ct_evidence := ["C"];
       ct_discovery := None; ct_isolated_panic := false; ct_gates := 1 |};
    {| ct_id := "cache-collision"; ct_cpus := 2;
       ct_actors := [("a", ["read-discovered-left"; "hold"; "release"]);
                     ("b", ["read-discovered-right"; "hold"; "release"])];
       ct_oracle := "collision-keeps-distinct-identities"; ct_evidence := ["C"];
       ct_discovery := Some "two-distinct-blocks-same-partition";
       ct_isolated_panic := false; ct_gates := 1 |};
    {| ct_id := "cache-parallel"; ct_cpus := 2;
       ct_actors := [("a", ["read-discovered-left"; "release"]);
                     ("b", ["read-discovered-right"; "release"])];
       ct_oracle := "different-partitions-overlap"; ct_evidence := ["C"];
       ct_discovery := Some "two-blocks-different-partitions";
       ct_isolated_panic := false; ct_gates := 1 |};
    {| ct_id := "cache-full"; ct_cpus := 1;
       ct_actors := [("holder", ["hold-nbuf-distinct-read-only-buffers"; "request-one-more-buffer"])];
       ct_oracle := "exact-no-buffer-panic"; ct_evidence := ["B"];
       ct_discovery := None; ct_isolated_panic := true; ct_gates := 0 |} ].

Definition require_plain_int (v : json) (m : msg) : result Z :=
  match as_int v with Some z => Ok z | None => Raise (LabError m) end.

(** [v in d] for a dictionary or set [d] of strings, given the test on strings. *)
Definition member (v : json) (mem : pystr -> bool) : result bool :=
  if hashable v then Ok (match v with JStr s => mem s | _ => false end) else Raise TypeError.

Definition known_point (p : pystr) : bool := bool_decide (is_Some (capability_of p)).

(** * Gates *)

Inductive gate_mode : Type := HoldUntilEvent | RendezvousSpin | RendezvousSleep.
#[global] Instance gate_mode_eq_dec : EqDecision gate_mode.
Proof. solve_decision. Defined.

Definition mode_of (v : json) : option gate_mode :=
  if is_str v "hold-until-event" then Some HoldUntilEvent
  else if is_str v "rendezvous-spin" then Some RendezvousSpin
  else if is_str v "rendezvous-sleep" then Some RendezvousSleep else None.

Definition gate_keys (m : gate_mode) : list string :=
  ["id"; "mode"; "point"; "actors"] ++
  match m with
  | HoldUntilEvent => ["release_after"] | RendezvousSpin => ["iteration_budget"]
  | RendezvousSleep => []
  end.

(** The actors of a gate: a non-empty list of distinct actors of the case. *)
Definition gate_actors (v : json) (actor_ids : gset pystr) (m : msg) : result (list pystr) :=
  match v with
  | JList (a :: l) =>
      let l := a :: l in
      if forallb hashable l then
        let strs := omap as_str l in
        require ((len strs =? len l) && bool_decide (NoDup strs) &&
                 bool_decide (list_to_set strs ⊆ actor_ids)) m;;
        Ok strs
      else Raise TypeError
  | _ => Raise (LabError m)
  end.

(** The release of a hold gate: it names a known point and an actor. *)
Definition gate_release (v : json) (actor_ids : gset pystr) (m : msg) : result (json * json) :=
  match v with
  | JObj o =>
      require (has_keys o ["point"; "actor"]) m;;
      p ← item o "point"; a ← item o "actor";
      p_known ← member p known_point;
      require p_known m;;
      a_known ← member a (fun s => bool_decide (s ∈ actor_ids));
      require a_known m;;
      Ok (p, a)
  | _ => Raise (LabError m)
  end.

Definition validate_gate (case_id : string) (cpus : json) (actor_ids : gset pystr)
    (gate_ids : gset pystr) (gate : json) : result (gset pystr) :=
  let name := T case_id in
  match gate with
  | JObj gate =>
      let mode := get gate "mode" in
      match mode_of mode with
      | None => Raise (LabError [name; T " has unknown gate mode "; Elided])
      | Some mode =>
          require (has_keys gate (gate_keys mode)) [name; T " gate fields changed"];;
          gate_id ← item gate "id";
          gate_ids ←
            match gate_id with
            | JStr s =>
                require (negb (bool_decide (s = [])) && negb (bool_decide (s ∈ gate_ids)))
                  [name; T " gate ID is missing or duplicated"];;
                Ok ({[ s ]} ∪ gate_ids)
            | _ => Raise (LabError [name; T " gate ID is missing or duplicated"])
            end;
          point ← item gate "point";
          known ← member point known_point;
          require known [name; T " gate uses unknown point "; Elided];;
          actors ← item gate "actors";
          actors ← gate_actors actors actor_ids [name; T " gate actors changed"];
          capability ← of_option KeyError
            (match point with JStr s => capability_of s | _ => None end);
          require (negb (String.eqb capability "observe-only"))
            [name; T " attempts to block at observe-only point ";
             match point with JStr s => V s | _ => Elided end];;
          (if bool_decide (mode = RendezvousSpin) then
             require (String.eqb capability "spin-2cpu-ok" &&
                      match cpus with JInt z => z =? 2 | _ => false end && (len actors =? 2))
               [name; T " spin gate capability/CPU/actor contract changed"];;
             budget ← item gate "iteration_budget";
             budget ← require_plain_int budget [name; T " spin budget must be int"];
             require ((1 <=? budget) && (budget <=? 100000000))
               [name; T " spin budget is not finite"]
           else
             require (String.eqb capability "sleep-ok" ||
                      String.eqb capability "sleep-ok-with-buffer-sleeplock")
               [name; T " sleep gate capability changed"]);;
          (if bool_decide (mode = HoldUntilEvent) then
             release ← item gate "release_after";
             '(rp, ra) ← gate_release release actor_ids
                           [name; T " gate release target changed"];
             if String.eqb capability "sleep-ok-with-buffer-sleeplock" then
               require (negb (match rp, point with
                              | JStr a, JStr b => bool_decide (a = b) | _, _ => false end &&
                              match ra with JStr a => bool_decide (a ∈ actors) | _ => false end))
                 [name; T " buffer-lock gate has a self-dependent release"]
             else Ok tt
           else Ok tt);;
          Ok gate_ids
      end
  | _ => Raise (LabError [name; T " gate must be an object"])
  end.

Definition validate_gates (ct : Contract) (case : obj) (actor_ids : gset pystr) : result unit :=
  let name := T (ct_id ct) in
  gates ← item case "gates";
  match gates with
  | JList gates =>
      cpus ← item case "cpus";
      foldM (validate_gate (ct_id ct) cpus actor_ids) ∅ gates;;
      require (len gates =? ct_gates ct) [name; T " gate count changed"]
  | _ => Raise (LabError [name; T " gates must be a list"])
  end.

(** * Cases *)

(** [set(case["evidence"]) == expected and len(...) == len(expected)] *)
Definition evidence_ok (v : json) (expected : list string) : result bool :=
  match v with
  | JList l =>
      if forallb hashable l then
        Ok ((len (omap as_str l) =? len l) &&
            bool_decide ((list_to_set (omap as_str l) : gset pystr) = list_to_set (u <$> expected)) &&
            (len l =? len expected))
      else Raise TypeError
  | _ => Ok false
  end.

(** One turn of [for actor in actors]. *)
Definition validate_actor (case_id : string) (actual : list (pystr * list pystr)) (actor : json)
    : result (list (pystr * list pystr)) :=
  let name := T case_id in
  match actor with
  | JObj o =>
      require (has_keys o ["id"; "actions"]) [name; T " actor fields changed"];;
      id ← item o "id";
      actions ← item o "actions";
      match id with
      | JStr id =>
          require (bool_decide (lookup_key id actual = None))
            [name; T " actor ID is missing or duplicated"];;
          match actions with
          | JList l =>
              require (forallb (fun v => bool_decide (is_Some (as_str v))) l)
                [name; T " actor actions changed"];;
              Ok (actual ++ [(id, omap as_str l)])
          | _ => Raise (LabError [name; T " actor actions changed"])
          end
      | _ => Raise (LabError [name; T " actor ID is missing or duplicated"])
      end
  | _ => Raise (LabError [name; T " actor fields changed"])
  end.

(** [actual_actors == expected["actors"]] *)
Definition actors_eq (actual : list (pystr * list pystr)) (expected : list (string * list string))
    : bool :=
  (len actual =? len expected) &&
  forallb (fun '(id, actions) =>
    bool_decide (lookup_key (u id) actual = Some (u <$> actions))) expected.

Definition case_keys (ct : Contract) : list string :=
  ["id"; "cpus"; "actors"; "gates"; "oracle"; "evidence"] ++
  match ct_discovery ct with Some _ => ["discovery"] | None => [] end ++
  (if ct_isolated_panic ct then ["isolated_panic_run"] else []).

(** [CASE_CONTRACTS[case_id]] *)
Definition contract_of (v : json) : result Contract :=
  match v with
  | JStr s => of_option KeyError (snd <$> list_find (fun ct => u (ct_id ct) = s) CASE_CONTRACTS)
  | JList _ | JObj _ => Raise TypeError
  | _ => Raise KeyError
  end.

(** One turn of [for case in cases]. *)
Definition validate_case (case : json) : result unit :=
  match case with
  | JObj case =>
      case_id ← item case "id";
      ct ← contract_of case_id;
      let name := T (ct_id ct) in
      require (has_keys case (case_keys ct)) [name; T " fields changed"];;
      cpus ← item case "cpus";
      cpus ← require_plain_int cpus [name; T " cpus must be int"];
      require (cpus =? ct_cpus ct) [name; T " CPU contract changed"];;
      oracle ← item case "oracle";
      require (is_str oracle (ct_oracle ct)) [name; T " oracle changed"];;
      evidence ← item case "evidence";
      ev ← evidence_ok evidence (ct_evidence ct);
      require ev [name; T " evidence dimensions changed"];;
      match ct_discovery ct with
      | Some d =>
          v ← item case "discovery";
          require (is_str v d) [name; T " discovery changed"]
      | None => Ok tt
      end;;
      (if ct_isolated_panic ct then
         v ← item case "isolated_panic_run";
         require (match v with JBool b => b | _ => false end)
           [T "cache-full must remain an isolated panic run"]
       else Ok tt);;
      actors ← item case "actors";
      match actors with
      | JList l =>
          require (len l =? len (ct_actors ct)) [name; T " actors changed"];;
          actual ← foldM (validate_actor (ct_id ct)) [] l;
          require (actors_eq actual (ct_actors ct)) [name; T " actor/action contract changed"];;
          validate_gates ct case (keys actual)
      | _ => Raise (LabError [name; T " actors changed"])
      end
  | _ => Raise (LabError [T "scenario case must be an object"])
  end.

(** [[item.get("id") for item in cases]] *)
Definition case_id_of (case : json) : result json :=
  match case with JObj o => Ok (get o "id") | _ => Raise AttributeError end.

Definition validate_scenarios (data : json) : result json :=
  match data with
  | JObj root =>
      require (has_keys root ["schema_version"; "event_schema_version"; "defaults";
                              "point_capabilities"; "cases"])
        [T "scenario root fields changed"];;
      sv ← item root "schema_version";
      sv ← require_plain_int sv [T "scenario schema_version must be int"];
      ev ← item root "event_schema_version";
      ev ← require_plain_int ev [T "event_schema_version must be int"];
      require ((sv =? ev) && (ev =? 1)) [T "scenario/event schema version changed"];;
      defaults ← item root "defaults";
      defaults ←
        match defaults with
        | JObj d =>
            require (has_keys d ["image"; "event_budget"; "watchdog_seconds"; "cleanup"])
              [T "scenario defaults fields changed"];;
            Ok d
        | _ => Raise (LabError [T "scenario defaults fields changed"])
        end;
      image ← item defaults "image";
      cleanup ← item defaults "cleanup";
      require (is_str image "private-copy" && is_str cleanup "required")
        [T "scenario isolation/cleanup default changed"];;
      budget ← item defaults "event_budget";
      budget ← require_plain_int budget [T "event_budget must be int"];
      watchdog ← item defaults "watchdog_seconds";
      watchdog ← require_plain_int watchdog [T "watchdog_seconds must be int"];
      require ((budget =? EVENT_BUDGET) && (1 <=? watchdog) && (watchdog <=? 300))
        [T "scenario budget/watchdog changed"];;
      caps ← item root "point_capabilities";
      require (dict_eq_strs caps POINT_CAPABILITIES) [T "point capability table changed"];;
      cases ← item root "cases";
      match cases with
      | JList cases =>
          require (len cases =? len CASE_CONTRACTS)
            [T "scenario suite must contain exactly seven cases"];;
          ids ← mapR case_id_of cases;
          require (forallb (fun '(v, ct) => is_str v (ct_id ct)) (combine ids CASE_CONTRACTS))
            [T "scenario order or IDs changed"];;
          foldM (fun _ case => validate_case case) tt cases;;
          Ok data
      | _ => Raise (LabError [T "scenario suite must contain exactly seven cases"])
      end
  | _ => Raise (LabError [T "scenario root must be an object"])
  end.
