(* ===== verification/PCommon.v ===== *)
(** [_validate_common] of the persistence runner: the checks every case shares,
    on the marker labels, on each event record, and on the final buffer
    snapshot against the ledger. *)

From stdpp Require Import base tactics list gmap strings numbers list_numbers.
From S2P Require Import Prelude PyText PyBytes PyJson PyMarkers PTrace.
Open Scope Z_scope.

Definition in01 (z : Z) : bool := (z =? 0) || (z =? 1).

(** The log fields of an event are inside their bounds. *)
Definition log_bounds (e : Event) : bool :=
  (0 <=? log_n e) && (log_n e <=? LOGBLOCKS) &&
  (0 <=? outstanding e) && (outstanding e <=? 3) && in01 (committing e).

(** [event["pid"]] and [event["hart"]] belong to the run. *)
Definition actor_bounds (cpus : Z) (e : Event) : bool :=
  (if is_io_point (point e) then 0 <=? pid e else 0 <? pid e) &&
  (0 <=? hart e) && (hart e <? cpus).

Definition cache_subject (e : Event) : bool :=
  (0 <=? domain e) && (dev e =? ROOTDEV) && (0 <=? blockno e) && (blockno e <? FSSIZE) &&
  (if is_io_point (point e) then in01 (aux e) else aux e =? 0).

Definition unselected (e : Event) : bool :=
  (slot e =? -1) && (ref e =? 0) && (buffer_generation e =? 0).

Definition ready_slot (e : Event) : bool :=
  (0 <=? slot e) && (slot e <? NBUF) && (0 <=? ref e) && (0 <? buffer_generation e).

Definition log_subject (e : Event) : bool :=
  (domain e =? slot e) && (slot e =? ref e) && (ref e =? -1) && (dev e =? ROOTDEV) &&
  (buffer_generation e =? 0) && (0 <=? blockno e) && (blockno e <? FSSIZE).

Definition validate_event (c : case) (cpus gen : Z) (e : Event) : result unit :=
  let name := T (case_name c) in
  require (generation e =? gen) [name; T " contains an event from another run"];;
  require (is_known_point (point e)) [name; T " contains unknown point "; D (point e)];;
  require (actor_bounds cpus e) [name; T " event actor/hart is outside the run"];;
  require (log_bounds e) [name; T " event log state is outside its bounds"];;
  if is_cache_point (point e) || is_io_point (point e) then
    require (cache_subject e) [name; T " cache subject changed at seq "; D (seq e)];;
    if (point e =? CACHE_LOOKUP) || (point e =? CACHE_GUARD) then
      require (unselected e) [name; T " unselected cache point exposes a ready slot"]
    else
      require (ready_slot e) [name; T " cache event references an unready slot"]
  else
    require (log_subject e) [name; T " log subject schema changed at seq "; D (seq e)].

(** The text of a tuple of two integers in an f-string. *)
Definition pair_text (k : Z * Z) : msg := [T "("; D k.1; T ", "; D k.2; T ")"].

Abbreviation Slots := (gmap Z BufView).
Abbreviation Keys := (gmap (Z * Z) (Z * Z)).

Definition buffer_domain_ok (v : BufView) : bool :=
  (0 <=? b_domain v) && in01 (b_named v) && (0 <=? b_ref v) && in01 (b_valid v) &&
  in01 (b_disk v) && in01 (b_locked v) && (0 <=? b_buffer_generation v).

Definition validate_buffer (c : case) (gen : Z) (st : Slots * Keys) (v : BufView)
    : result (Slots * Keys) :=
  let '(slots, named_keys) := st in
  let name := T (case_name c) in
  require ((b_generation v =? gen) && (0 <=? b_slot v) && (b_slot v <? NBUF) &&
           bool_decide (slots !! b_slot v = None))
    [name; T " BUFFER slot/generation changed"];;
  require (buffer_domain_ok v) [name; T " BUFFER state is outside its closed domain"];;
  named_keys ←
    (if b_named v =? 0 then Ok named_keys
     else
       require ((b_dev v =? ROOTDEV) && (0 <=? b_block v) && (b_block v <? FSSIZE) &&
                (0 <? b_buffer_generation v))
         [name; T " named BUFFER identity is not ready"];;
       let key := (b_dev v, b_block v) in
       require (bool_decide (named_keys !! key = None))
         ([name; T " has duplicate live buffer identity "] ++ pair_text key);;
       Ok (<[key := (b_slot v, b_buffer_generation v)]> named_keys));
  Ok (<[b_slot v := v]> slots, named_keys).

Definition sum_of {A} (f : A -> Z) (l : list A) : Z := foldr (fun a s => f a + s) 0 l.

(** [set(slots) == set(range(NBUF))] *)
Definition covers_slots (slots : Slots) : bool :=
  bool_decide (dom slots = (list_to_set (range 0 NBUF) : gset Z)).

Definition full_expected (gen : Z) (full : option Full) : bool :=
  match full with
  | Some f => (f_generation f =? gen) && (f_holders f =? NBUF) && (f_next f =? 1000 + NBUF)
  | None => false
  end.

Definition triple_eq (a b c x y z : Z) : bool := (a =? x) && (b =? y) && (c =? z).

(** [z <= v] for a number of the scenario file *)
Definition le_json (z : Z) (v : json) : result bool :=
  match v with
  | JFloat (Infinity negative) => Ok (negb negative)
  | JFloat NaN => Ok false
  | _ => match number v with
         | Some (m, e) => Ok (if 0 <=? e then z <=? m * 2 ^ e else z * 2 ^ (- e) <=? m)
         | None => Raise TypeError
         end
  end.

(** [0 <= meta["count"] <= scenarios["defaults"]["event_budget"]]: the budget
    is read only when the first comparison holds. *)
Definition count_in_budget (count : Z) (scenarios : obj) : result bool :=
  if 0 <=? count then
    defaults ← item scenarios "defaults";
    defaults ← of_option TypeError (as_obj defaults);
    budget ← item defaults "event_budget";
    le_json count budget
  else Ok false.

Definition validate_common (c : case) (cpus gen : Z) (s : Stream) (panic : bool)
    (scenarios : obj) : result (Slots * Keys) :=
  let name := T (case_name c) in
  let meta := st_meta s in
  let ledger := st_ledger s in
  let buffers := st_buffers s in
  require (bool_decide (meta_case meta = u (case_name c)) &&
           bool_decide (l_case ledger = u (case_name c)))
    [name; T " marker case labels changed"];;
  version ← item scenarios "event_schema_version";
  require (is_int version (meta_abi meta) && is_int version PA_ABI)
    [name; T " ABI/schema mismatch"];;
  require ((meta_generation meta =? l_generation ledger) && (l_generation ledger =? gen))
    [name; T " generation changed"];;
  require ((meta_error meta =? l_error ledger) && (l_error ledger =? 0))
    [name; T " guest audit reported an error"];;
  in_budget ← count_in_budget (meta_count meta) scenarios;
  require in_budget
    [name; T " event ring overflow or invalid count"];;
  match c with
  | Collision | Parallel =>
      require ((meta_arrived meta =? 3) && (meta_gate meta =? 1))
        [name; T " rendezvous did not observe and release both actors"]
  | _ =>
      require ((meta_arrived meta =? meta_gate meta) && (meta_gate meta =? 0))
        [name; T " reported an unexpected gate state"]
  end;;
  require (meta_holders meta =? (if panic then NBUF else 0))
    [name; T " holder ledger changed"];;
  require (bool_decide (map seq (st_events s) = range 1 (len (st_events s) + 1)))
    [name; T " EVENT seq is not unique and contiguous"];;
  foldM (fun _ e => validate_event c cpus gen e) tt (st_events s);;
  '(slots, named_keys) ← foldM (validate_buffer c gen) (∅, ∅) buffers;
  require (covers_slots slots) [name; T " BUFFER snapshot does not cover all slots"];;
  require ((l_refs ledger =? sum_of b_ref buffers) &&
           (l_locks ledger =? sum_of b_locked buffers) &&
           (l_disk ledger =? sum_of b_disk buffers))
    [name; T " LEDGER does not match BUFFER snapshot"];;
  require (triple_eq (l_log_n ledger) (l_outstanding ledger) (l_committing ledger) 0 0 0)
    [name; T " final transaction ledger is not quiescent"];;
  (if panic then
     require (triple_eq (l_refs ledger) (l_locks ledger) (l_disk ledger) NBUF NBUF 0)
       [T "cache-full pre-panic resource ledger changed"];;
     require (full_expected gen (st_full s))
       [T "cache-full panic precondition marker changed"]
   else
     require (triple_eq (l_refs ledger) (l_locks ledger) (l_disk ledger) 0 0 0)
       [name; T " resources did not return to zero"]);;
  match st_result s with
  | Some r => require (bool_decide (r_case r = u (case_name c))) [name; T " RESULT label changed"]
  | None => Ok tt
  end;;
  Ok (slots, named_keys).
