(* ===== verification/PCache.v ===== *)
(** [reduce_cache] of the persistence runner: a reducer that replays the cache
    events of a trace into reference counts, pins, lock owners and waiters of
    every buffer identity [(slot, generation)], and rejects the trace at the
    first event that does not follow from the state. *)

From stdpp Require Import base tactics list gmap strings numbers list_numbers.
From S2P Require Import Prelude PyText PyBytes PyMarkers PTrace PCommon.
Open Scope Z_scope.

Abbreviation ident := (Z * Z)%type.
Abbreviation bkey := (Z * Z)%type.

(** [_event_identity] and [_event_key] *)
Definition event_identity (e : Event) : ident := (slot e, buffer_generation e).
Definition event_key (e : Event) : bkey := (dev e, blockno e).

Record BufState : Type := {
  bs_key : bkey;
  bs_domain : Z;
  raw : Z;
  ordinary : Z;
  pins : Z;
  owner : option Z;
  waiters : gset Z;
  first : Z
}.

Record CacheRed : Type := {
  states : gmap ident BufState;
  current_slot : gmap Z ident;
  current_key : gmap bkey ident;
  peak_total : Z;
  peak_by_key : gmap bkey Z;
  lock_acquire : gmap (Z * bkey) Z;
  lock_release : gmap (Z * bkey) Z;
  guard_events : list Event
}.

Definition cache_init : CacheRed :=
  {| states := ∅; current_slot := ∅; current_key := ∅; peak_total := 0; peak_by_key := ∅;
     lock_acquire := ∅; lock_release := ∅; guard_events := [] |}.

Definition total_ordinary (m : gmap ident BufState) : Z :=
  map_fold (fun _ st acc => ordinary st + acc) 0 m.

(** Store a (new or updated) state under its identity. *)
Definition put_state (id : ident) (st : BufState) (r : CacheRed) : CacheRed :=
  {| states := <[id := st]> (states r); current_slot := current_slot r;
     current_key := current_key r; peak_total := peak_total r;
     peak_by_key := peak_by_key r; lock_acquire := lock_acquire r;
     lock_release := lock_release r; guard_events := guard_events r |}.

(** [states[identity] = state; current_slot[...] = identity; current_key[key] = identity] *)
Definition register_state (e : Event) (st : BufState) (r : CacheRed) : CacheRed :=
  {| states := <[event_identity e := st]> (states r);
     current_slot := <[slot e := event_identity e]> (current_slot r);
     current_key := <[event_key e := event_identity e]> (current_key r);
     peak_total := peak_total r; peak_by_key := peak_by_key r;
     lock_acquire := lock_acquire r; lock_release := lock_release r;
     guard_events := guard_events r |}.

Definition pop_key (k : bkey) (r : CacheRed) : CacheRed :=
  {| states := states r; current_slot := current_slot r;
     current_key := delete k (current_key r); peak_total := peak_total r;
     peak_by_key := peak_by_key r; lock_acquire := lock_acquire r;
     lock_release := lock_release r; guard_events := guard_events r |}.

Definition remember_peak (st : BufState) (r : CacheRed) : CacheRed :=
  {| states := states r; current_slot := current_slot r; current_key := current_key r;
     peak_total := Z.max (peak_total r) (total_ordinary (states r));
     peak_by_key := <[bs_key st := Z.max (default 0 (peak_by_key r !! bs_key st)) (ordinary st)]>
                      (peak_by_key r);
     lock_acquire := lock_acquire r; lock_release := lock_release r;
     guard_events := guard_events r |}.

Definition note_guard (e : Event) (r : CacheRed) : CacheRed :=
  {| states := states r; current_slot := current_slot r; current_key := current_key r;
     peak_total := peak_total r; peak_by_key := peak_by_key r;
     lock_acquire := lock_acquire r; lock_release := lock_release r;
     guard_events := guard_events r ++ [e] |}.

Definition note_acquire (e : Event) (r : CacheRed) : CacheRed :=
  {| states := states r; current_slot := current_slot r; current_key := current_key r;
     peak_total := peak_total r; peak_by_key := peak_by_key r;
     lock_acquire := <[(pid e, event_key e) := seq e]> (lock_acquire r);
     lock_release := lock_release r; guard_events := guard_events r |}.

Definition note_release (e : Event) (r : CacheRed) : CacheRed :=
  {| states := states r; current_slot := current_slot r; current_key := current_key r;
     peak_total := peak_total r; peak_by_key := peak_by_key r;
     lock_acquire := lock_acquire r;
     lock_release := <[(pid e, event_key e) := seq e]> (lock_release r);
     guard_events := guard_events r |}.

(** A buffer nobody references: it may be given another block. *)
Definition idle (st : BufState) : bool :=
  (raw st =? 0) && (pins st =? 0) && bool_decide (owner st = None) &&
  bool_decide (waiters st = ∅).

Definition no_duplicate (e : Event) (r : CacheRed) : bool :=
  match current_key r !! event_key e with
  | None => true
  | Some id => bool_decide (id = event_identity e)
  end.

Definition new_state (e : Event) (refs : Z) : BufState :=
  {| bs_key := event_key e; bs_domain := domain e; raw := refs; ordinary := refs;
     pins := 0; owner := None; waiters := {[ pid e ]}; first := seq e |}.

(** [CACHE_PUBLISH] *)
Definition cache_publish (c : case) (r : CacheRed) (e : Event) : result CacheRed :=
  let name := T (case_name c) in
  let id := event_identity e in
  require (ref e =? 1) [name; T " published buffer without exactly one reference"];;
  r ← match current_slot r !! slot e with
      | Some old_id =>
          if bool_decide (old_id = id) then Ok r else
          let old := states r !! old_id in
          require (match old with None => true | Some st => idle st end)
            [name; T " retagged a referenced/pinned buffer"];;
          let r := match old with Some st => pop_key (bs_key st) r | None => r end in
          require (old_id.2 <? id.2) [name; T " retag did not advance generation"];;
          Ok r
      | None => Ok r
      end;
  require (no_duplicate e r)
    ([name; T " published duplicate live identity for "] ++ pair_text (event_key e));;
  require (bool_decide (states r !! id = None)) [name; T " republished the same generation"];;
  let st := new_state e 1 in
  Ok (remember_peak st (register_state e st r)).

(** [CACHE_HIT] *)
Definition cache_hit (c : case) (r : CacheRed) (e : Event) : result CacheRed :=
  let name := T (case_name c) in
  let id := event_identity e in
  require (no_duplicate e r)
    ([name; T " hit a second live identity for "] ++ pair_text (event_key e));;
  match states r !! id with
  | None =>
      require (1 <=? ref e) [name; T " first observed hit has no reference"];;
      require (match current_slot r !! slot e with
               | None => true
               | Some old_id => bool_decide (old_id = id)
               end)
        [name; T " hit a slot with a conflicting generation"];;
      let st := new_state e (ref e) in
      Ok (remember_peak st (register_state e st r))
  | Some st =>
      require (bool_decide (bs_key st = event_key e) && (bs_domain st =? domain e))
        [name; T " changed key/domain inside one generation"];;
      require (ref e =? raw st + 1) [name; T " cache hit ref transition changed"];;
      require (negb (bool_decide (pid e ∈ waiters st)) &&
               negb (bool_decide (owner st = Some (pid e))))
        [name; T " duplicated an ordinary reference"];;
      let st := {| bs_key := bs_key st; bs_domain := bs_domain st; raw := raw st + 1;
                   ordinary := ordinary st + 1; pins := pins st; owner := owner st;
                   waiters := {[ pid e ]} ∪ waiters st; first := first st |} in
      Ok (remember_peak st (put_state id st r))
  end.

Definition set_counts (st : BufState) (rw ord pn : Z) (ow : option Z) (ws : gset Z) : BufState :=
  {| bs_key := bs_key st; bs_domain := bs_domain st; raw := rw; ordinary := ord; pins := pn;
     owner := ow; waiters := ws; first := first st |}.

(** The remaining points, which need a live identity. *)
Definition cache_locked_step (c : case) (r : CacheRed) (e : Event) : result CacheRed :=
  let name := T (case_name c) in
  let id := event_identity e in
  let unready := [name; T " event references an unready buffer identity"] in
  match states r !! id with
  | None => Raise (LabError unready)
  | Some st =>
      require (bool_decide (bs_key st = event_key e) && (bs_domain st =? domain e) &&
               bool_decide (current_slot r !! slot e = Some id)) unready;;
      if point e =? CACHE_SLEEP then
        require ((ref e =? raw st) && bool_decide (pid e ∈ waiters st) &&
                 bool_decide (owner st = None))
          [name; T " buffer sleeplock acquisition changed"];;
        Ok (note_acquire e (put_state id
              (set_counts st (raw st) (ordinary st) (pins st) (Some (pid e))
                 (waiters st ∖ {[ pid e ]})) r))
      else if point e =? CACHE_RELEASE then
        require (bool_decide (owner st = Some (pid e)) && (0 <? ordinary st) &&
                 (ref e =? raw st - 1))
          [name; T " buffer release/ref transition changed"];;
        Ok (note_release e (put_state id
              (set_counts st (raw st - 1) (ordinary st - 1) (pins st) None (waiters st)) r))
      else if point e =? CACHE_PIN then
        require (bool_decide (owner st = Some (pid e)) && (pins st =? 0) &&
                 (ref e =? raw st + 1))
          [name; T " duplicate or ownerless log pin"];;
        Ok (put_state id
              (set_counts st (raw st + 1) (ordinary st) 1 (owner st) (waiters st)) r)
      else if point e =? CACHE_UNPIN then
        require (bool_decide (owner st = Some (pid e)) && (pins st =? 1) &&
                 (ref e =? raw st - 1))
          [name; T " unmatched log unpin"];;
        Ok (put_state id
              (set_counts st (raw st - 1) (ordinary st) 0 (owner st) (waiters st)) r)
      else Ok r
  end.

(** One turn of [for event in events]. *)
Definition cache_step (c : case) (r : CacheRed) (e : Event) : result CacheRed :=
  if negb (is_cache_point (point e)) then Ok r else
  let r := if point e =? CACHE_GUARD then note_guard e r else r in
  if (point e =? CACHE_LOOKUP) || (point e =? CACHE_GUARD) then Ok r else
  if point e =? CACHE_PUBLISH then cache_publish c r e else
  if point e =? CACHE_HIT then cache_hit c r e else
  cache_locked_step c r e.

(** The final snapshot names, in each slot that was seen, the last identity. *)
Definition final_view_ok (r : CacheRed) (final_views : gmap Z BufView) (slot : Z) (id : ident)
    : result bool :=
  st ← of_option KeyError (states r !! id);
  view ← of_option KeyError (final_views !! slot);
  Ok ((b_named view =? 1) && bool_decide ((b_dev view, b_block view) = bs_key st) &&
      (b_domain view =? bs_domain st) && (b_buffer_generation view =? id.2)).

Definition panic_state (st : BufState) : bool :=
  (ordinary st =? 1) && (pins st =? 0) && negb (bool_decide (owner st = None)) &&
  bool_decide (waiters st = ∅).

Definition drained (st : BufState) : bool :=
  (ordinary st =? pins st) && (pins st =? 0) && bool_decide (owner st = None) &&
  bool_decide (waiters st = ∅).

Definition reduce_cache (c : case) (events : list Event) (buffers : list BufView)
    (panic : bool) : result CacheRed :=
  let name := T (case_name c) in
  r ← foldM (cache_step c) cache_init events;
  let final_views := foldl (fun m v => <[b_slot v := v]> m) (∅ : gmap Z BufView) buffers in
  foldM (fun _ '(slot, id) =>
           ok ← final_view_ok r final_views slot id;
           require ok [name; T " final BUFFER snapshot contradicts event identity"])
    tt (map_to_list (current_slot r));;
  (if panic then
     require (forallb (fun '(_, st) => panic_state st) (map_to_list (states r)))
       [T "cache-full event reducer did not retain 30 locked references"]
   else
     require (forallb (fun '(_, st) => drained st) (map_to_list (states r)))
       [name; T " event-derived refs/pins/owners/waiters did not drain"]);;
  Ok r.
