(* ===== verification/PLog.v ===== *)
(** [reduce_log] of the persistence runner: a reducer that replays the log and
    I/O events of a trace into the transaction state [(n, outstanding,
    committing)], the set of logged blocks and the in-flight I/O ledger. *)

From stdpp Require Import base tactics list gmap strings numbers list_numbers.
From S2P Require Import Prelude PyText PyBytes PyMarkers PTrace PCommon.
Open Scope Z_scope.

Record LogState : Type := { n : Z; out : Z; com : Z }.
#[global] Instance logstate_eq_dec : EqDecision LogState.
Proof. solve_decision. Defined.

(** [(slot, buffer_generation, dev, block, aux)] *)
Abbreviation io_ident := (Z * Z * Z * Z * Z)%type.

Record LogRed : Type := {
  lstate : LogState;
  entries : gset Z;
  completion : list Event;
  write_completions : list Event;
  log_events : list Event;
  io_inflight : gmap io_ident Z;
  submitted_read : Z;
  submitted_write : Z;
  completed_read : Z;
  completed_write : Z
}.

Definition log_init : LogRed :=
  {| lstate := {| n := 0; out := 0; com := 0 |}; entries := ∅; completion := [];
     write_completions := []; log_events := []; io_inflight := ∅;
     submitted_read := 0; submitted_write := 0; completed_read := 0; completed_write := 0 |}.

(** The log state an event carries. *)
Definition carried (e : Event) : LogState :=
  {| n := log_n e; out := outstanding e; com := committing e |}.

Definition io_identity (e : Event) : io_ident :=
  (slot e, buffer_generation e, dev e, blockno e, aux e).

Definition with_state (s : LogState) (r : LogRed) : LogRed :=
  {| lstate := s; entries := entries r; completion := completion r;
     write_completions := write_completions r; log_events := log_events r;
     io_inflight := io_inflight r; submitted_read := submitted_read r;
     submitted_write := submitted_write r; completed_read := completed_read r;
     completed_write := completed_write r |}.

Definition with_entries (s : gset Z) (r : LogRed) : LogRed :=
  {| lstate := lstate r; entries := s; completion := completion r;
     write_completions := write_completions r; log_events := log_events r;
     io_inflight := io_inflight r; submitted_read := submitted_read r;
     submitted_write := submitted_write r; completed_read := completed_read r;
     completed_write := completed_write r |}.

Definition note_completion (e : Event) (r : LogRed) : LogRed :=
  {| lstate := lstate r; entries := entries r; completion := completion r ++ [e];
     write_completions := write_completions r; log_events := log_events r;
     io_inflight := io_inflight r; submitted_read := submitted_read r;
     submitted_write := submitted_write r; completed_read := completed_read r;
     completed_write := completed_write r |}.

Definition note_log_event (e : Event) (r : LogRed) : LogRed :=
  {| lstate := lstate r; entries := entries r; completion := completion r;
     write_completions := write_completions r; log_events := log_events r ++ [e];
     io_inflight := io_inflight r; submitted_read := submitted_read r;
     submitted_write := submitted_write r; completed_read := completed_read r;
     completed_write := completed_write r |}.

(** [io_inflight[identity] += 1; io_submitted[aux] += 1] *)
Definition io_submit (e : Event) (r : LogRed) : result LogRed :=
  let inflight := <[io_identity e := default 0 (io_inflight r !! io_identity e) + 1]>
                    (io_inflight r) in
  let r' rd wr :=
    {| lstate := lstate r; entries := entries r; completion := completion r;
       write_completions := write_completions r; log_events := log_events r;
       io_inflight := inflight; submitted_read := rd; submitted_write := wr;
       completed_read := completed_read r; completed_write := completed_write r |} in
  if aux e =? 0 then Ok (r' (submitted_read r + 1) (submitted_write r))
  else if aux e =? 1 then Ok (r' (submitted_read r) (submitted_write r + 1))
  else Raise KeyError.

Definition io_complete (c : case) (e : Event) (r : LogRed) : result LogRed :=
  let before := default 0 (io_inflight r !! io_identity e) in
  require (0 <? before) [T (case_name c); T " IO completion lacks a matching submit"];;
  let inflight := <[io_identity e := before - 1]> (io_inflight r) in
  let r' rd wr wcs :=
    {| lstate := lstate r; entries := entries r; completion := completion r;
       write_completions := wcs; log_events := log_events r;
       io_inflight := inflight; submitted_read := submitted_read r;
       submitted_write := submitted_write r; completed_read := rd; completed_write := wr |} in
  if aux e =? 0 then
    Ok (r' (completed_read r + 1) (completed_write r) (write_completions r))
  else if aux e =? 1 then
    Ok (r' (completed_read r) (completed_write r + 1) (write_completions r ++ [e]))
  else Raise KeyError.

(** The chain of [if point == ...] on a log point. *)
Definition log_point_step (c : case) (r : LogRed) (e : Event) : result LogRed :=
  let name := T (case_name c) in
  let s := lstate r in
  let p := point e in
  if p =? LOG_WAIT_COMMIT then
    require (bool_decide (carried e = {| n := n s; out := out s; com := 1 |}))
      [name; T " invalid commit wait/recheck state"];; Ok r
  else if p =? LOG_WAIT_SPACE then
    require (bool_decide (carried e = {| n := n s; out := out s; com := 0 |}) &&
             (LOGBLOCKS <? log_n e + (outstanding e + 1) * MAXOPBLOCKS))
      [name; T " space wait did not cross the admission bound"];; Ok r
  else if p =? LOG_ADMIT then
    require ((log_n e =? n s) && (committing e =? 0) && (outstanding e =? out s + 1) &&
             (log_n e + outstanding e * MAXOPBLOCKS <=? LOGBLOCKS))
      [name; T " successful admission violated capacity"];;
    Ok (with_state {| n := n s; out := outstanding e; com := com s |} r)
  else if p =? LOG_END then
    require ((log_n e =? n s) && (outstanding e =? out s - 1) && in01 (aux e))
      [name; T " end_op outstanding transition changed"];;
    (if negb (aux e =? 0) then
       require ((outstanding e =? 0) && (committing e =? 1))
         [name; T " group commit did not start at last end_op"]
     else require (committing e =? 0) [name; T " non-last end_op started a commit"]);;
    Ok (with_state {| n := n s; out := outstanding e; com := committing e |} r)
  else if p =? LOG_APPEND then
    require (negb (bool_decide (blockno e ∈ entries r)) && (log_n e =? n s + 1) &&
             (outstanding e =? out s) && (committing e =? com s) && (com s =? 0))
      [name; T " log append/absorption state changed"];;
    Ok (with_state {| n := log_n e; out := out s; com := com s |}
          (with_entries ({[ blockno e ]} ∪ entries r) r))
  else if p =? LOG_ABSORB then
    require (bool_decide (blockno e ∈ entries r) && bool_decide (carried e = s))
      [name; T " absorption added or changed a log entry"];; Ok r
  else if (p =? LOG_PAYLOAD) || (p =? LOG_HEADER) || (p =? LOG_HOME) then
    require (bool_decide (carried e = s) && (committing e =? 1) && (0 <? log_n e))
      [name; T " completion occurred outside group commit"];;
    (if p =? LOG_HEADER then
       require (aux e =? log_n e) [name; T " nonzero header completion changed"]
     else Ok tt);;
    Ok (note_completion e r)
  else if p =? LOG_CLEAR then
    require ((0 <? n s) && (log_n e =? 0) && (outstanding e =? 0) &&
             (committing e =? com s) && (com s =? 1) && (aux e =? 0))
      [name; T " zero-header clear transition changed"];;
    Ok (note_completion e
          (with_state {| n := 0; out := out s; com := com s |} (with_entries ∅ r)))
  else if p =? LOG_COMMIT_DONE then
    require (bool_decide (s = {| n := 0; out := 0; com := 1 |}) &&
             bool_decide (carried e = {| n := 0; out := 0; com := 0 |}))
      [name; T " committing cleared before zero header"];;
    Ok (with_state {| n := n s; out := out s; com := 0 |} r)
  else Raise (LabError [name; T " unknown log point "; D p]).

(** One turn of [for event in events]. *)
Definition log_step (c : case) (r : LogRed) (e : Event) : result LogRed :=
  let name := T (case_name c) in
  if is_cache_point (point e) then
    require (bool_decide (carried e = lstate r)) [name; T " cache event carries stale log state"];;
    Ok r
  else if is_io_point (point e) then
    require (bool_decide (carried e = lstate r)) [name; T " IO event carries stale log state"];;
    if point e =? IO_SUBMIT then io_submit e r else io_complete c e r
  else log_point_step c (note_log_event e r) e.

Definition reduce_log (c : case) (events : list Event) : result LogRed :=
  let name := T (case_name c) in
  r ← foldM (log_step c) log_init events;
  require (bool_decide (lstate r = {| n := 0; out := 0; com := 0 |}))
    [name; T " event-derived log ledger did not drain"];;
  require (forallb (fun '(_, k) => k =? 0) (map_to_list (io_inflight r)) &&
           (submitted_read r =? completed_read r) && (submitted_write r =? completed_write r))
    [name; T " IO submit/completion ledger did not drain"];;
  Ok r.
