(* ===== verification/PCase.v ===== *)
(** The oracles of the seven persistence cases and [validate_case_trace] of
    [persistence/run-lab.py]: what each case requires of the events and of the
    reducers' results, and the summary it returns. *)

From stdpp Require Import base tactics list gmap strings numbers list_numbers.
From S2P Require Import Prelude PyText PyBytes PyJson PyMarkers PTrace PScen PCommon PCache PLog.
Open Scope Z_scope.

Definition events_at (events : list Event) (p : Z) : list Event :=
  filter (fun e => point e = p) events.

Definition only (events : list Event) (p : Z) (c : case) : result Event :=
  let matches := events_at events p in
  match matches with
  | [e] => Ok e
  | _ => Raise (LabError [T (case_name c); T " expected one point "; D p; T ", got ";
                          D (len matches)])
  end.

Fixpoint increasing (l : list Z) : bool :=
  match l with
  | a :: ((b :: _) as l') => (a <? b) && increasing l'
  | _ => true
  end.

(** * Transaction *)

Record TxSummary : Type := {
  tx_home_block : Z;
  tx_append_seq : Z;
  tx_absorb_seq : Z;
  tx_payload_complete_seq : Z;
  tx_header_commit_complete_seq : Z;
  tx_home_install_complete_seq : Z;
  tx_header_clear_complete_seq : Z;
  tx_pin_identity : ident;
  tx_logical_io_submitted : Z;
  tx_logical_io_completed : Z
}.

Definition validate_transaction (events : list Event) (cache : CacheRed) (log : LogRed)
    : result TxSummary :=
  first_admit ← only events LOG_ADMIT Tx;
  end_ ← only events LOG_END Tx;
  pin ← only events CACHE_PIN Tx;
  append ← only events LOG_APPEND Tx;
  absorb ← only events LOG_ABSORB Tx;
  payload ← only events LOG_PAYLOAD Tx;
  header ← only events LOG_HEADER Tx;
  home ← only events LOG_HOME Tx;
  unpin ← only events CACHE_UNPIN Tx;
  clear ← only events LOG_CLEAR Tx;
  done_ ← only events LOG_COMMIT_DONE Tx;
  require ((len (events_at events LOG_WAIT_SPACE) =? 0) &&
           (len (events_at events LOG_WAIT_COMMIT) =? 0))
    [T "tx unexpectedly waited for log admission"];;
  require ((blockno append =? blockno absorb) && (blockno absorb =? blockno payload) &&
           (blockno payload =? blockno home) && (blockno home =? 1990))
    [T "tx home block or absorption identity changed"];;
  require (bool_decide (event_key pin = event_key unpin) &&
           bool_decide (event_key unpin = (ROOTDEV, 1990)) &&
           bool_decide (event_identity pin = event_identity unpin))
    [T "tx pin/unpin identity changed"];;
  require ((blockno header =? blockno clear) && (0 <? blockno clear) &&
           (log_n header =? aux header) && (aux header =? 1) &&
           (log_n clear =? aux clear) && (aux clear =? 0))
    [T "tx nonzero/zero header contract changed"];;
  require (increasing (map seq [first_admit; pin; append; absorb; end_; payload; header; home;
                                unpin; clear; done_]))
    [T "tx cached/logged/committed/installed/cleared order changed"];;
  require (triple_eq (outstanding end_) (committing end_) (aux end_) 0 1 1 &&
           triple_eq (log_n done_) (outstanding done_) (committing done_) 0 0 0)
    [T "tx group commit boundary changed"];;
  let identity := event_identity pin in
  require (match states cache !! identity with Some st => pins st =? 0 | None => false end)
    [T "tx pin ledger was not independently balanced"];;
  require ((submitted_write log =? completed_write log) && (completed_write log =? 4))
    [T "tx expected four synchronous write completions"];;
  match write_completions log with
  | [w0; w1; w2; w3] =>
      let writes := [w0; w1; w2; w3] in
      require (bool_decide (map blockno writes =
                 [blockno header + 1; blockno header; blockno home; blockno clear]) &&
               bool_decide (map (fun e => seq e + 1) writes =
                 [seq payload; seq header; seq home; seq clear]))
        [T "tx write completions are not bound to payload/header/home/clear"];;
      require (bool_decide (event_identity w1 = event_identity w3) &&
               bool_decide (event_identity w2 = identity))
        [T "tx header/home write completion identity changed"]
  | _ => Raise (LabError [T "tx write completions are not bound to payload/header/home/clear"])
  end;;
  Ok {| tx_home_block := 1990; tx_append_seq := seq append; tx_absorb_seq := seq absorb;
        tx_payload_complete_seq := seq payload; tx_header_commit_complete_seq := seq header;
        tx_home_install_complete_seq := seq home; tx_header_clear_complete_seq := seq clear;
        tx_pin_identity := identity; tx_logical_io_submitted := 4;
        tx_logical_io_completed := 4 |}.

(** * Admission *)

(** [first_admits.setdefault(event["pid"], event)], in insertion order. *)
Definition setdefault_pid (first : list Event) (e : Event) : list Event :=
  if bool_decide (pid e ∈ map pid first) then first else first ++ [e].

(** [sorted(..., key=lambda event: event["seq"])], a stable sort. *)
Fixpoint insert_by_seq (e : Event) (l : list Event) : list Event :=
  match l with
  | [] => [e]
  | f :: l' => if seq e <=? seq f then e :: l else f :: insert_by_seq e l'
  end.
Definition sort_by_seq (l : list Event) : list Event := foldr insert_by_seq [] l.

Definition primary_end (c : case) (ends : list Event) (first_admit : Event) : result Event :=
  match filter (fun e => pid e = pid first_admit /\ seq first_admit < seq e) ends with
  | e :: _ => Ok e
  | [] => Raise (LabError [T (case_name c); T " actor did not close its admitted operation"])
  end.

Record AdmissionSummary : Type := {
  ad_admitted : Z;
  ad_cleanup_admissions : Z;
  ad_wait_pid : Z;
  ad_wait_seq : Z;
  ad_readmitted_seq : Z;
  ad_capacity_relation : string
}.

(** [any(wait["seq"] < end["seq"] < after["seq"] for end in primary_ends)] *)
Definition ended_between (wait after : Event) (ends : list Event) : bool :=
  existsb (fun e => (seq wait <? seq e) && (seq e <? seq after)) ends.

Definition validate_admission (c : case) (events : list Event) : result AdmissionSummary :=
  let name := T (case_name c) in
  let admits := events_at events LOG_ADMIT in
  let ends := events_at events LOG_END in
  match events_at events LOG_WAIT_SPACE with
  | [wait] =>
      let primary := sort_by_seq (foldl setdefault_pid [] admits) in
      primary_ends ← mapR (primary_end c ends) primary;
      let before := filter (fun e => seq e < seq wait) primary in
      let after := filter (fun e => seq wait < seq e) primary in
      '(after0, relation) ←
        (if bool_decide (c = AdmissionEmpty) then
           require (len primary =? 4) [T "admission-empty actor ledger changed"];;
           let order := [T "admission-empty did not admit three, wait fourth, then re-admit"] in
           match after with
           | [after0] =>
               require ((len before =? 3) &&
                        (Z.of_nat (base.size (list_to_set (map pid before) : gset Z)) =? 3) &&
                        negb (bool_decide (pid wait ∈ map pid before)) &&
                        (pid after0 =? pid wait)) order;;
               require ((log_n wait =? 0) && (outstanding wait =? 3) &&
                        ended_between wait after0 primary_ends)
                 [T "admission-empty wait/release order changed"];;
               Ok (after0, "0 + (3 + 1) * 10 > 30"%string)
           | _ => Raise (LabError order)
           end
         else
           require (bool_decide (c = AdmissionUsed) && (len primary =? 3))
             [T "admission-used actor ledger changed"];;
           match events_at events LOG_APPEND with
           | [append] =>
               require ((blockno append =? 1988) && (log_n append =? 1))
                 [T "admission-used did not hold one existing log entry"];;
               let order := [T "admission-used wait actor/order changed"] in
               match before, after with
               | [_; before1], [after0] =>
                   require (negb (bool_decide (pid wait ∈ map pid before)) &&
                            (pid after0 =? pid wait) &&
                            (seq append <? seq before1) && (seq before1 <? seq wait)) order;;
                   require ((log_n wait =? 1) && (outstanding wait =? 2) &&
                            ended_between wait after0 primary_ends)
                     [T "admission-used wait/release state changed"];;
                   Ok (after0, "1 + (2 + 1) * 10 > 30"%string)
               | _, _ => Raise (LabError order)
               end
           | _ => Raise (LabError [T "admission-used did not hold one existing log entry"])
           end);
      require (negb (bool_decide (events_at events LOG_COMMIT_DONE = [])))
        [name; T " did not close its group transaction"];;
      Ok {| ad_admitted := len primary; ad_cleanup_admissions := len admits - len primary;
            ad_wait_pid := pid wait; ad_wait_seq := seq wait;
            ad_readmitted_seq := seq after0; ad_capacity_relation := relation |}
  | _ => Raise (LabError [name; T " expected one real capacity wait"])
  end.

(** * Cache cases *)

Definition byte_value (z : Z) : bool := (0 <=? z) && (z <=? 255).

Definition validate_result_values (c : case) (r : Result) : result unit :=
  let name := T (case_name c) in
  require ((0 <? r_pid1 r) && (0 <? r_pid2 r) && negb (r_pid1 r =? r_pid2 r))
    [name; T " actor identities changed"];;
  require (forallb byte_value [r_expected1 r; r_expected2 r; r_value1 r; r_value2 r] &&
           (r_value1 r =? r_expected1 r) && (r_value2 r =? r_expected2 r))
    [name; T " block contents mixed or changed"].

Definition identity_for_key (cache : CacheRed) (key : bkey) : result ident :=
  match (filter (fun '(_, st) => bs_key st = key) (map_to_list (states cache))).*1 with
  | [id] => Ok id
  | _ => Raise (LabError ([T "key "] ++ pair_text key ++
                          [T " did not retain exactly one generation in the case"]))
  end.

Record SameSummary : Type := {
  sm_block : Z;
  sm_identity : ident;
  sm_live_identity_count : Z;
  sm_peak_ordinary_refs : Z;
  sm_first_release_seq : Z;
  sm_second_acquire_seq : Z
}.

Definition validate_same (r : Result) (events : list Event) (cache : CacheRed)
    : result SameSummary :=
  validate_result_values Same r;;
  require ((r_block1 r =? r_block2 r) && (r_block2 r =? 1989) &&
           (r_domain1 r =? r_domain2 r) && (r_expected1 r =? r_expected2 r))
    [T "same-block discovery/result changed"];;
  let key := (ROOTDEV, 1989) in
  identity ← identity_for_key cache key;
  let hits2 := filter (fun e => pid e = r_pid2 r /\ event_key e = key)
                 (events_at events CACHE_HIT) in
  match lock_acquire cache !! (r_pid1 r, key), lock_acquire cache !! (r_pid2 r, key),
        lock_release cache !! (r_pid1 r, key), lock_release cache !! (r_pid2 r, key), hits2 with
  | Some acquire1, Some acquire2, Some release1, Some release2, [hit2] =>
      require (ref hit2 =? 2) [T "same-block lock/ref evidence is incomplete"];;
      require (increasing [acquire1; seq hit2; release1; acquire2; release2])
        [T "same-block waiter acquired before the first owner released"];;
      require (bool_decide (peak_by_key cache !! key = Some 2))
        [T "same-block peak ordinary references changed"];;
      Ok {| sm_block := 1989; sm_identity := identity; sm_live_identity_count := 1;
            sm_peak_ordinary_refs := 2; sm_first_release_seq := release1;
            sm_second_acquire_seq := acquire2 |}
  | _, _, _, _, _ => Raise (LabError [T "same-block lock/ref evidence is incomplete"])
  end.

Record CollisionSummary : Type := {
  co_blocks : Z * Z;
  co_partition : Z;
  co_identities : ident * ident;
  co_values : Z * Z;
  co_lock_acquire_seq : Z * Z;
  co_first_release_seq : Z
}.

(** The sequence numbers at which an actor locked and released its buffer. *)
Definition lock_span (cache : CacheRed) (pid : Z) (key : bkey) : result (Z * Z) :=
  match lock_acquire cache !! (pid, key), lock_release cache !! (pid, key) with
  | Some a, Some r => Ok (a, r)
  | _, _ => Raise (LabError [T "collision actor did not acquire and release its buffer"])
  end.

Definition validate_collision (r : Result) (cache : CacheRed) (meta : Meta)
    : result CollisionSummary :=
  validate_result_values Collision r;;
  require (negb (r_block1 r =? r_block2 r) && (r_domain1 r =? r_domain2 r) &&
           negb (r_expected1 r =? r_expected2 r))
    [T "collision discovery no longer selects distinct same-partition data"];;
  let key1 := (ROOTDEV, r_block1 r) in
  let key2 := (ROOTDEV, r_block2 r) in
  identity1 ← identity_for_key cache key1;
  identity2 ← identity_for_key cache key2;
  require (negb (bool_decide (identity1 = identity2)))
    [T "collision mapped two blocks to one live identity"];;
  '(a1, r1) ← lock_span cache (r_pid1 r) key1;
  '(a2, r2) ← lock_span cache (r_pid2 r) key2;
  require ((meta_arrived meta =? 3) && (meta_gate meta =? 1) && (Z.max a1 a2 <? Z.min r1 r2))
    [T "collision did not hold both distinct identities concurrently"];;
  Ok {| co_blocks := (r_block1 r, r_block2 r); co_partition := r_domain1 r;
        co_identities := (identity1, identity2); co_values := (r_value1 r, r_value2 r);
        co_lock_acquire_seq := (a1, a2); co_first_release_seq := Z.min r1 r2 |}.

Record ParallelSummary : Type := {
  pa_blocks : Z * Z;
  pa_partitions : Z * Z;
  pa_harts : Z * Z;
  pa_guard_seq : Z * Z;
  pa_identities : ident * ident
}.

(** The last guard event of each of the two actors. *)
Definition relevant_guards (r : Result) (guards : list Event) : gmap Z Event :=
  foldl (fun m e => if (pid e =? r_pid1 r) || (pid e =? r_pid2 r) then <[pid e := e]> m else m)
    ∅ guards.

Definition list_min (z : Z) (l : list Z) : Z := foldl Z.min z l.

Definition validate_parallel (r : Result) (events : list Event) (cache : CacheRed) (meta : Meta)
    : result ParallelSummary :=
  validate_result_values Parallel r;;
  require (negb (r_block1 r =? r_block2 r) && negb (r_domain1 r =? r_domain2 r) &&
           negb (r_expected1 r =? r_expected2 r))
    [T "parallel discovery no longer selects distinct partitions/data"];;
  let relevant := relevant_guards r (guard_events cache) in
  match relevant !! r_pid1 r, relevant !! r_pid2 r with
  | Some left_, Some right_ =>
      require ((domain left_ =? r_domain1 r) && (domain right_ =? r_domain2 r) &&
               negb (hart left_ =? hart right_) &&
               bool_decide (({[ hart left_; hart right_ ]} : gset Z) = {[ 0; 1 ]}) &&
               (meta_arrived meta =? 3) && (meta_gate meta =? 1))
        [T "parallel bounded two-hart gate did not prove lock-held overlap"];;
      let post_guard := map seq (filter (fun e => is_Some (relevant !! pid e) /\
                          (point e = CACHE_HIT \/ point e = CACHE_PUBLISH)) events) in
      match post_guard with
      | s0 :: ((_ :: _) as l) =>
          require (Z.max (seq left_) (seq right_) <? list_min s0 l)
            [T "parallel actors passed selection before both gate arrivals"]
      | _ => Raise (LabError [T "parallel actors passed selection before both gate arrivals"])
      end;;
      identity1 ← identity_for_key cache (ROOTDEV, r_block1 r);
      identity2 ← identity_for_key cache (ROOTDEV, r_block2 r);
      Ok {| pa_blocks := (r_block1 r, r_block2 r); pa_partitions := (r_domain1 r, r_domain2 r);
            pa_harts := (hart left_, hart right_); pa_guard_seq := (seq left_, seq right_);
            pa_identities := (identity1, identity2) |}
  | _, _ => Raise (LabError [T "parallel gate lacks one actor arrival"])
  end.

Record FullSummary : Type := {
  fu_held : Z;
  fu_next_block : Z;
  fu_panic : pystr;
  fu_refs : Z;
  fu_locks : Z;
  fu_disk_owned : Z
}.

(** [{(view["dev"], view["block"]): view ... if view["ref"] or view["locked"]}] *)
Definition held_views (buffers : list BufView) : gmap bkey BufView :=
  foldl (fun m v => if negb (b_ref v =? 0) || negb (b_locked v =? 0)
                    then <[(b_dev v, b_block v) := v]> m else m) ∅ buffers.

Definition full_keys : gset bkey :=
  list_to_set ((fun b => (ROOTDEV, b)) <$> range 1000 (1000 + NBUF)).

Definition validate_full (text : pystr) (events : list Event) (buffers : list BufView)
    (cache : CacheRed) (meta : Meta) (ledger : Ledger) (full : option Full)
    : result FullSummary :=
  require (count PANIC_TEXT text =? 1)
    [T "cache-full did not produce exactly one expected panic"];;
  require (negb (contains (u "PERSIST PASS") text) && negb (contains (u "PERSIST FAIL") text))
    [T "cache-full emitted a terminal guest result after/before panic"];;
  let held := held_views buffers in
  require (bool_decide (dom held = full_keys) &&
           forallb (fun '(_, v) => (b_ref v =? b_locked v) && (b_locked v =? 1) && (b_disk v =? 0))
             (map_to_list held))
    [T "cache-full snapshot is not exactly 30 held read-only buffers"];;
  let sleeps := events_at events CACHE_SLEEP in
  require ((len sleeps =? NBUF) &&
           (Z.of_nat (base.size (list_to_set (map pid sleeps) : gset Z)) =? NBUF) &&
           bool_decide ((list_to_set (map event_key sleeps) : gset bkey) = full_keys))
    [T "cache-full did not acquire 30 distinct holder buffers"];;
  require ((Z.of_nat (base.size (states cache)) =? NBUF) && (meta_holders meta =? NBUF) &&
           triple_eq (l_refs ledger) (l_locks ledger) (l_disk ledger) NBUF NBUF 0)
    [T "cache-full reducer precondition changed"];;
  f ← of_option TypeError full;
  Ok {| fu_held := NBUF; fu_next_block := f_next f; fu_panic := PANIC_TEXT;
        fu_refs := l_refs ledger; fu_locks := l_locks ledger; fu_disk_owned := l_disk ledger |}.

(** * The whole trace *)

Inductive Summary : Type :=
| STx (s : TxSummary)
| SAdmission (s : AdmissionSummary)
| SSame (s : SameSummary)
| SCollision (s : CollisionSummary)
| SParallel (s : ParallelSummary)
| SFull (s : FullSummary).

(** [summary["ledger"]] *)
Record LedgerSummary : Type := {
  ls_ordinary_refs_plus_pins : Z;
  ls_buffer_locks : Z;
  ls_disk_owned : Z;
  ls_log_n : Z;
  ls_outstanding : Z;
  ls_committing : Z;
  ls_gate_waiters : Z;
  ls_event_overflow : Z;
  ls_logical_io_submitted : Z;
  ls_logical_io_completed : Z
}.

Record EvidenceBundle : Type := {
  eb_case : case;
  eb_generation : Z;
  eb_cpus : Z;
  eb_raw : pystr;
  eb_markers : list Marker;
  eb_stream : Stream;
  eb_summary : Summary;
  eb_ledger : LedgerSummary
}.

(** [case in CASE_RUNTIME] *)
Definition case_of_name (name : pystr) : option case :=
  snd <$> list_find (fun c => u (case_name c) = name) all_cases.

(** [{item["id"]: item for item in scenarios["cases"]}[scenario_id]]: the last
    item with that identifier. *)
Definition scenario_by_id (scenario_id : string) (cases : list json) : result (option obj) :=
  foldM (fun found item_ =>
           match item_ with
           | JObj o => id ← item o "id";
                       if hashable id then Ok (if is_str id scenario_id then Some o else found)
                       else Raise TypeError
           | _ => Raise TypeError
           end) None cases.

Definition scenario_for_runtime (scenarios : obj) (c : case) : result (obj * Z * Z) :=
  let '(scenario_id, generation, cpus) := case_runtime c in
  cases ← item scenarios "cases";
  cases ← of_option TypeError (as_list cases);
  by_id ← scenario_by_id scenario_id cases;
  match by_id with
  | Some o =>
      v ← item o "cpus";
      require (is_int v cpus)
        [T "runtime/scenario CPU mismatch for "; T (case_name c)];;
      Ok (o, generation, cpus)
  | None => Raise (LabError [T "scenario missing for runtime case "; T (case_name c)])
  end.

Definition validate_summary (text : pystr) (c : case) (s : Stream) (cache : CacheRed)
    (log : LogRed) : result Summary :=
  match c with
  | Tx => STx <$> validate_transaction (st_events s) cache log
  | AdmissionEmpty | AdmissionUsed => SAdmission <$> validate_admission c (st_events s)
  | Same => r ← of_option TypeError (st_result s);
            SSame <$> validate_same r (st_events s) cache
  | Collision => r ← of_option TypeError (st_result s);
                 SCollision <$> validate_collision r cache (st_meta s)
  | Parallel => r ← of_option TypeError (st_result s);
                SParallel <$> validate_parallel r (st_events s) cache (st_meta s)
  | CacheFull => SFull <$> validate_full text (st_events s) (st_buffers s) cache (st_meta s)
                             (st_ledger s) (st_full s)
  end.

(** [markers[-1].kind == "FULL"] or [markers[-1].fields == {"case": case}] *)
Definition terminal_ok (c : case) (panic : bool) (markers : list Marker) : result bool :=
  match last markers with
  | Some m => Ok (if panic then bool_decide (mk_kind m = FULL)
                  else bool_decide (mk_fields m = [(u "case", VStr (u (case_name c)))]))
  | None => Raise IndexError
  end.

Definition ledger_summary (s : Stream) (log : LogRed) : LedgerSummary :=
  let l := st_ledger s in
  let m := st_meta s in
  {| ls_ordinary_refs_plus_pins := l_refs l; ls_buffer_locks := l_locks l;
     ls_disk_owned := l_disk l; ls_log_n := l_log_n l; ls_outstanding := l_outstanding l;
     ls_committing := l_committing l;
     ls_gate_waiters := if in01 (meta_gate m) then 0 else meta_gate m;
     ls_event_overflow := meta_error m; ls_logical_io_submitted := submitted_write log;
     ls_logical_io_completed := completed_write log |}.

Definition validate_case_trace (text : pystr) (name : pystr) (scenarios : obj) (panic : bool)
    : result EvidenceBundle :=
  match case_of_name name with
  | None => Raise (LabError [T "unknown runtime case: "; V name])
  | Some c =>
      require (Bool.eqb panic (bool_decide (c = CacheFull)))
        [T "panic parsing is reserved for cache-full"];;
      '(_, generation, cpus) ← scenario_for_runtime scenarios c;
      markers ← parse_markers text;
      s ← validate_marker_stream markers c panic;
      terminal ← terminal_ok c panic markers;
      require terminal [T (case_name c); T " terminal marker changed"];;
      validate_common c cpus generation s panic scenarios;;
      cache ← reduce_cache c (st_events s) (st_buffers s) panic;
      log ← reduce_log c (st_events s);
      summary ← validate_summary text c s cache log;
      Ok {| eb_case := c; eb_generation := generation; eb_cpus := cpus; eb_raw := text;
            eb_markers := markers; eb_stream := s; eb_summary := summary;
            eb_ledger := ledger_summary s log |}
  end.
