(* ===== verification/PSynth.v ===== *)
(** The self test of the persistence oracle: the synthetic traces of
    [persistence/run-lab.py], their rendering as marker lines, and the
    mutations the oracle has to reject. *)

From stdpp Require Import base tactics list gmap strings numbers list_numbers.
From S2P Require Import Prelude PyText PyBytes PyJson PyMarkers PTrace PScen PCommon PCache PLog PCase.
Open Scope Z_scope.

(** * Synthetic events

    [SyntheticEvents] appends to a list and numbers the events; a trace is
    written here as the list of its events without [generation] and [seq]. *)

Definition syn_cache (point pid hart domain block slot ref buffer_generation
    log_n outstanding committing : Z) (generation seq : Z) : Event :=
  Build_Event generation seq point pid hart domain slot ref ROOTDEV block buffer_generation
    log_n outstanding committing 0.

Definition syn_log (point pid block log_n outstanding committing aux hart : Z)
    (generation seq : Z) : Event :=
  Build_Event generation seq point pid hart (-1) (-1) (-1) ROOTDEV block 0
    log_n outstanding committing aux.

Definition syn_io (point pid block slot buffer_generation write log_n committing
    domain ref hart : Z) (generation seq : Z) : Event :=
  Build_Event generation seq point pid hart domain slot ref ROOTDEV block buffer_generation
    log_n 0 committing write.

Definition number_events (generation : Z) (l : list (Z -> Z -> Event)) : list Event :=
  (fun '(i, mk) => mk generation (i + 1)) <$> enumerate l.

(** The calls of [_synthetic_trace], with their keyword defaults filled in. *)
Definition look (p pid hart domain block outst : Z) :=
  syn_cache p pid hart domain block (-1) 0 0 0 outst 0.
Definition hold (p pid hart domain block slot ref log_n outst com : Z) :=
  syn_cache p pid hart domain block slot ref 1 log_n outst com.
Definition tx_log (p block log_n outst com aux : Z) := syn_log p 10 block log_n outst com aux 0.
Definition tx_io (p block slot : Z) := syn_io p 10 block slot 1 1 1 1 0 1 0.

Definition tx_events : list (Z -> Z -> Event) :=
  [ tx_log LOG_ADMIT 0 0 1 0 0;
    look CACHE_LOOKUP 10 0 0 1990 1;
    look CACHE_GUARD 10 0 0 1990 1;
    hold CACHE_PUBLISH 10 0 0 1990 0 1 0 1 0;
    hold CACHE_SLEEP 10 0 0 1990 0 1 0 1 0;
    hold CACHE_PIN 10 0 0 1990 0 2 0 1 0;
    tx_log LOG_APPEND 1990 1 1 0 0;
    tx_log LOG_ABSORB 1990 1 1 0 0;
    hold CACHE_RELEASE 10 0 0 1990 0 1 1 1 0;
    tx_log LOG_END 0 1 0 1 1;
    tx_io IO_SUBMIT 3 1;
    tx_io IO_COMPLETE 3 1;
    tx_log LOG_PAYLOAD 1990 1 0 1 0;
    tx_io IO_SUBMIT 2 2;
    tx_io IO_COMPLETE 2 2;
    tx_log LOG_HEADER 2 1 0 1 1;
    hold CACHE_HIT 10 0 0 1990 0 2 1 0 1;
    hold CACHE_SLEEP 10 0 0 1990 0 2 1 0 1;
    tx_io IO_SUBMIT 1990 0;
    tx_io IO_COMPLETE 1990 0;
    tx_log LOG_HOME 1990 1 0 1 0;
    hold CACHE_UNPIN 10 0 0 1990 0 1 1 0 1;
    hold CACHE_RELEASE 10 0 0 1990 0 0 1 0 1;
    tx_io IO_SUBMIT 2 2;
    tx_io IO_COMPLETE 2 2;
    tx_log LOG_CLEAR 2 0 0 1 0;
    tx_log LOG_COMMIT_DONE 0 0 0 0 0 ].

Definition adm (p pid block log_n outst com aux hart : Z) :=
  syn_log p pid block log_n outst com aux hart.

Definition admission_empty_events : list (Z -> Z -> Event) :=
  ((fun '(pid, outst) => adm LOG_ADMIT pid 0 0 outst 0 0 (pid mod 2)) <$>
     [(11, 1); (12, 2); (13, 3)]) ++
  [ adm LOG_WAIT_SPACE 14 0 0 3 0 0 0;
    adm LOG_END 11 0 0 2 0 0 0;
    adm LOG_ADMIT 14 0 0 3 0 0 0;
    adm LOG_END 12 0 0 2 0 0 0;
    adm LOG_END 13 0 0 1 0 0 0;
    adm LOG_END 14 0 0 0 1 1 0;
    adm LOG_COMMIT_DONE 14 0 0 0 0 0 0 ].

Definition admission_used_events : list (Z -> Z -> Event) :=
  [ adm LOG_ADMIT 21 0 0 1 0 0 0;
    adm LOG_APPEND 21 1988 1 1 0 0 0;
    adm LOG_ADMIT 22 0 1 2 0 0 0;
    adm LOG_WAIT_SPACE 23 0 1 2 0 0 0;
    adm LOG_END 22 0 1 1 0 0 0;
    adm LOG_ADMIT 23 0 1 2 0 0 0;
    adm LOG_END 21 0 1 1 0 0 0;
    adm LOG_END 23 0 1 0 1 1 0;
    adm LOG_PAYLOAD 23 1988 1 0 1 0 0;
    adm LOG_HEADER 23 2 1 0 1 1 0;
    adm LOG_HOME 23 1988 1 0 1 0 0;
    adm LOG_CLEAR 23 2 0 0 1 0 0;
    adm LOG_COMMIT_DONE 23 0 0 0 0 0 0 ].

Definition same_events : list (Z -> Z -> Event) :=
  [ look CACHE_LOOKUP 31 0 0 1989 0;
    look CACHE_GUARD 31 0 0 1989 0;
    hold CACHE_HIT 31 0 0 1989 0 1 0 0 0;
    hold CACHE_SLEEP 31 0 0 1989 0 1 0 0 0;
    look CACHE_LOOKUP 32 1 0 1989 0;
    look CACHE_GUARD 32 1 0 1989 0;
    hold CACHE_HIT 32 1 0 1989 0 2 0 0 0;
    hold CACHE_RELEASE 31 0 0 1989 0 1 0 0 0;
    hold CACHE_SLEEP 32 1 0 1989 0 1 0 0 0;
    hold CACHE_RELEASE 32 1 0 1989 0 0 0 0 0 ].

Definition pair_events (block1 block2 domain1 domain2 p1 p2 : Z) : list (Z -> Z -> Event) :=
  [ look CACHE_LOOKUP p1 0 domain1 block1 0;
    look CACHE_GUARD p1 0 domain1 block1 0;
    look CACHE_LOOKUP p2 1 domain2 block2 0;
    look CACHE_GUARD p2 1 domain2 block2 0;
    hold CACHE_HIT p1 0 domain1 block1 0 1 0 0 0;
    hold CACHE_SLEEP p1 0 domain1 block1 0 1 0 0 0;
    hold CACHE_HIT p2 1 domain2 block2 1 1 0 0 0;
    hold CACHE_SLEEP p2 1 domain2 block2 1 1 0 0 0;
    hold CACHE_RELEASE p1 0 domain1 block1 0 0 0 0 0;
    hold CACHE_RELEASE p2 1 domain2 block2 1 0 0 0 0 ].

Definition full_events : list (Z -> Z -> Event) :=
  concat ((fun offset =>
    let pid := 100 + offset in
    let block := 1000 + offset in
    let domain := offset mod 13 in
    [ look CACHE_LOOKUP pid 0 domain block 0;
      look CACHE_GUARD pid 0 domain block 0;
      hold CACHE_PUBLISH pid 0 domain block offset 1 0 0 0;
      hold CACHE_SLEEP pid 0 domain block offset 1 0 0 0 ]) <$> range 0 NBUF).

Definition synthetic_events (c : case) : list Event :=
  let '(_, generation, _) := case_runtime c in
  number_events generation
    match c with
    | Tx => tx_events
    | AdmissionEmpty => admission_empty_events
    | AdmissionUsed => admission_used_events
    | Same => same_events
    | Collision => pair_events 2 15 1 1 41 42
    | Parallel => pair_events 2 3 1 2 51 52
    | CacheFull => full_events
    end.

(** [named]: slot to [(domain, block, buffer generation)]. *)
Definition named_slots (c : case) : list (Z * (Z * Z * Z)) :=
  match c with
  | Tx => [(0, (0, 1990, 1))]
  | AdmissionEmpty | AdmissionUsed => []
  | Same => [(0, (0, 1989, 1))]
  | Collision => [(0, (1, 2, 1)); (1, (1, 15, 1))]
  | Parallel => [(0, (1, 2, 1)); (1, (2, 3, 1))]
  | CacheFull => (fun o => (o, (o mod 13, 1000 + o, 1))) <$> range 0 NBUF
  end.

Definition synthetic_buffers (generation : Z) (named : list (Z * (Z * Z * Z))) (held : bool)
    : list BufView :=
  (fun slot =>
     match snd <$> list_find (fun kv => fst kv = slot) named with
     | Some (_, (domain, block, buffer_generation)) =>
         let h := if held then 1 else 0 in
         Build_BufView generation slot domain 1 h 1 0 h ROOTDEV block buffer_generation
     | None => Build_BufView generation slot 0 0 0 0 0 0 0 0 0
     end) <$> range 0 NBUF.

Definition synthetic_result (c : case) : option Result :=
  let name := u (case_name c) in
  match c with
  | Same => Some (Build_Result name 1989 1989 31 32 0 0 81 81 81 81)
  | Collision => Some (Build_Result name 2 15 41 42 1 1 81 82 81 82)
  | Parallel => Some (Build_Result name 2 3 51 52 1 2 81 82 81 82)
  | _ => None
  end.

Definition synthetic_stream (c : case) : Stream :=
  let '(_, generation, _) := case_runtime c in
  let name := u (case_name c) in
  let panic := bool_decide (c = CacheFull) in
  let held := if panic then NBUF else 0 in
  let events := synthetic_events c in
  let rendezvous := bool_decide (c = Collision) || bool_decide (c = Parallel) in
  {| st_meta := Build_Meta name PA_ABI generation (len events) 0
                  (if rendezvous then 3 else 0) (if rendezvous then 1 else 0) held;
     st_events := events;
     st_buffers := synthetic_buffers generation (named_slots c) panic;
     st_ledger := Build_Ledger name generation held held 0 0 0 0 0;
     st_result := synthetic_result c;
     st_full := if panic then Some (Build_Full generation NBUF (1000 + NBUF)) else None |}.

(** * Rendering *)

Definition value_text (v : value) : pystr :=
  match v with VStr s => s | VInt z => str_of_int z end.

(** [f"{key}={value}"] *)
Definition render_field (kv : string * value) : pystr := u kv.1 ++ u "=" ++ value_text kv.2.

Definition render_marker (k : mkind) (fs : list (string * value)) : pystr :=
  u "PERSIST " ++ u (kind_name k) ++ u " " ++ join (u " ") (render_field <$> fs).

(** The fields of the dictionaries, in the order they are written. *)
Definition event_values (e : Event) : list Z :=
  [generation e; seq e; point e; pid e; hart e; domain e; slot e; ref e; dev e; blockno e;
   buffer_generation e; log_n e; outstanding e; committing e; aux e].
Definition buffer_values (v : BufView) : list Z :=
  [b_generation v; b_slot v; b_domain v; b_named v; b_ref v; b_valid v; b_disk v; b_locked v;
   b_dev v; b_block v; b_buffer_generation v].
Definition meta_values (m : Meta) : list Z :=
  [meta_abi m; meta_generation m; meta_count m; meta_error m; meta_arrived m; meta_gate m;
   meta_holders m].
Definition ledger_values (l : Ledger) : list Z :=
  [l_generation l; l_refs l; l_locks l; l_disk l; l_log_n l; l_outstanding l; l_committing l;
   l_error l].
Definition result_values (r : Result) : list Z :=
  [r_block1 r; r_block2 r; r_pid1 r; r_pid2 r; r_domain1 r; r_domain2 r; r_expected1 r;
   r_expected2 r; r_value1 r; r_value2 r].
Definition full_values (f : Full) : list Z := [f_generation f; f_holders f; f_next f].

Definition int_fields (k : mkind) (vs : list Z) : list (string * value) :=
  combine (marker_schema k) (VInt <$> vs).
Definition case_fields (k : mkind) (name : pystr) (vs : list Z) : list (string * value) :=
  combine (marker_schema k) (VStr name :: (VInt <$> vs)).

(** The markers of a stream, in order. *)
Definition stream_markers (s : Stream) : list (mkind * list (string * value)) :=
  match st_result s with
  | Some r => [(RESULT, case_fields RESULT (r_case r) (result_values r))]
  | None => []
  end ++
  [(META, case_fields META (meta_case (st_meta s)) (meta_values (st_meta s)))] ++
  ((fun e => (EVENT, int_fields EVENT (event_values e))) <$> st_events s) ++
  ((fun v => (BUFFER, int_fields BUFFER (buffer_values v))) <$> st_buffers s) ++
  [(LEDGER, case_fields LEDGER (l_case (st_ledger s)) (ledger_values (st_ledger s)))] ++
  match st_full s with
  | Some f => [(FULL, int_fields FULL (full_values f))]
  | None => [(PASS, case_fields PASS (meta_case (st_meta s)) [])]
  end.

Definition nl : pystr := [newline].

Definition render_stream (s : Stream) : pystr :=
  join nl ((fun '(k, fs) => render_marker k fs) <$> stream_markers s) ++ nl.

Definition synthetic_trace (c : case) : pystr :=
  render_stream (synthetic_stream c) ++
  (if bool_decide (c = CacheFull) then PANIC_TEXT ++ nl else []).

(** * The self test *)

(** [_expect_rejected]: the trace has to be refused with a [LabError]. *)
Definition expect_rejected (scenarios : obj) (text : pystr) (c : case) (panic : bool) : bool :=
  match validate_case_trace text (u (case_name c)) scenarios panic with
  | Raise (LabError _) => true
  | _ => false
  end.

(** [_swap_event_payloads] *)
Definition swap_event_payloads (text : pystr) (left right : string) : result pystr :=
  let lines := splitlines text in
  let indexes needle :=
    omap (fun '(i, line) => if contains (u needle) line then Some i else None) (enumerate lines) in
  match indexes left, indexes right with
  | [first], [second] =>
      l1 ← index lines first;
      l2 ← index lines second;
      match splitn 1 (u " point=") l1, splitn 1 (u " point=") l2 with
      | pre1 :: pay1 :: _, pre2 :: pay2 :: _ =>
          lines ← set_index lines first (pre1 ++ u " point=" ++ pay2);
          lines ← set_index lines second (pre2 ++ u " point=" ++ pay1);
          Ok (join nl lines ++ nl)
      | _, _ => Raise IndexError
      end
  | _, _ => Raise (LabError [T "self-test event swap is ambiguous"])
  end.

Definition rep1 (a b : string) (s : pystr) : pystr := replacen 1 (u a) (u b) s.

(** The mutated traces of [self_test], with the case they are checked as. *)
Definition trace_mutations : list (string * result pystr * case) :=
  let tx := synthetic_trace Tx in
  let same := synthetic_trace Same in
  let collision := synthetic_trace Collision in
  let parallel := synthetic_trace Parallel in
  let full := synthetic_trace CacheFull in
  [ ("extra-field", Ok (rep1 " holders=0" " forged=1 holders=0" tx), Tx);
    ("duplicate-field", Ok (rep1 "case=tx abi=1" "case=tx case=tx abi=1" tx), Tx);
    ("missing-field", Ok (rep1 " abi=1" "" tx), Tx);
    ("non-integer", Ok (rep1 "abi=1" "abi=one" tx), Tx);
    ("unknown-marker", Ok (u "PERSIST UNKNOWN value=1" ++ nl ++ tx), Tx);
    ("guest-fail", Ok (u "PERSIST FAIL reason=forged" ++ nl ++ tx), Tx);
    ("extra-pass", Ok (tx ++ u "PERSIST PASS case=tx" ++ nl), Tx);
    ("seq-gap", Ok (rep1 "seq=2 " "seq=20 " tx), Tx);
    ("unknown-point", Ok (rep1 "point=1 " "point=99 " tx), Tx);
    ("wrong-generation", Ok (rep1 "generation=1 seq=1" "generation=2 seq=1" tx), Tx);
    ("log-subject", Ok (rep1 "point=22 pid=10 hart=0 domain=-1" "point=22 pid=10 hart=0 domain=0" tx),
     Tx);
    ("swapped-commit-install",
     Ok (rep1 "point=999" "point=28" (rep1 "point=28" "point=27" (rep1 "point=27" "point=999" tx))), Tx);
    ("duplicate-append", Ok (rep1 "point=25" "point=24" tx), Tx);
    ("io-completion-without-submit", Ok (rep1 "point=40" "point=41" tx), Tx);
    ("header-semantic-before-completion",
     swap_event_payloads tx "seq=15 point=41" "seq=16 point=27", Tx);
    ("dirty-ledger", Ok (rep1 "refs=0 locks=0 disk=0" "refs=1 locks=0 disk=0" tx), Tx);
    ("event-overflow", Ok (replace (u " error=0") (u " error=1") tx), Tx);
    ("capacity-inequality",
     Ok (rep1
       "point=21 pid=14 hart=0 domain=-1 slot=-1 ref=-1 dev=1 block=0 buffer_generation=0 log_n=0 outstanding=3"
       "point=21 pid=14 hart=0 domain=-1 slot=-1 ref=-1 dev=1 block=0 buffer_generation=0 log_n=0 outstanding=2"
       (synthetic_trace AdmissionEmpty)), AdmissionEmpty);
    ("same-key-changed", Ok (rep1 "block2=1989" "block2=1988" same), Same);
    ("same-ref-peak",
     Ok (rep1 "point=3 pid=32 hart=1 domain=0 slot=0 ref=2"
              "point=3 pid=32 hart=1 domain=0 slot=0 ref=3" same), Same);
    ("collision-partition", Ok (rep1 "domain2=1" "domain2=2" collision), Collision);
    ("collision-content", Ok (rep1 "value2=82" "value2=81" collision), Collision);
    ("collision-no-overlap", swap_event_payloads collision "point=5 pid=42" "point=6 pid=41",
     Collision);
    ("parallel-same-hart", Ok (rep1 "point=2 pid=52 hart=1" "point=2 pid=52 hart=0" parallel),
     Parallel);
    ("parallel-broken-gate", Ok (rep1 "arrived=3 gate=1" "arrived=1 gate=0" parallel), Parallel);
    ("full-short-ledger", Ok (rep1 "refs=30 locks=30" "refs=29 locks=30" full), CacheFull);
    ("full-no-panic", Ok (replace (PANIC_TEXT ++ nl) [] full), CacheFull);
    ("full-extra-pass",
     Ok (replace PANIC_TEXT (u "PERSIST PASS case=cache-full" ++ nl ++ PANIC_TEXT) full), CacheFull);
    ("duplicate-buffer-slot", Ok (rep1 "slot=1 domain=0 named=0" "slot=0 domain=0 named=0" tx), Tx) ].
