(* ===== verification/PRound.v ===== *)
(** The marker format of [persistence/run-lab.py] round trips: the lines the
    synthetic traces are rendered to are parsed back into the same stream. *)

From stdpp Require Import base tactics list gmap strings numbers list_numbers.
From S2P Require Import Prelude PyText PyBytes PyJson PyMarkers PTrace PSynth.
Open Scope Z_scope.

(** * Words and lines *)

Definition solid (w : pystr) : Prop := w <> [] /\ Forall (fun c => isspace c = false) w.

Lemma words_aux_solid acc w s :
  Forall (fun c => isspace c = false) w -> words_aux acc (w ++ s) = words_aux (rev w ++ acc) s.
Proof.
  intros H. revert acc. induction H as [|c w Hc _ IH]; intros acc; [done|].
  cbn [app words_aux rev]. rewrite Hc, IH, <-app_assoc. done.
Qed.

Lemma rev_solid w : solid w -> exists c r, rev w = c :: r.
Proof. intros [Hn _]. destruct w as [|x w _] using rev_ind; [done|]. rewrite rev_app_distr. cbn. eauto. Qed.

Lemma words_join ws : Forall solid ws -> words (join [32] ws) = ws.
Proof.
  unfold words. induction 1 as [|w ws Hw Hs IH]; [done|].
  destruct (rev_solid w Hw) as (c & r & E). destruct Hw as [_ Hw].
  assert (rev (c :: r) = w) as Er by (rewrite <-E; apply rev_involutive).
  destruct ws as [|w' ws]; cbn [join].
  - rewrite <-(app_nil_r w) at 1. rewrite words_aux_solid, E by done.
    cbn [app words_aux]. by rewrite app_nil_r, Er.
  - rewrite words_aux_solid, E, app_nil_r by done. change ([32] ++ ?x) with (32 :: x).
    cbn [words_aux]. change (isspace 32) with true. cbn iota. rewrite Er. f_equal. exact IH.
Qed.

Lemma splitlines_aux_line acc l s :
  Forall (fun c => is_linebreak c = false) l -> splitlines_aux acc (l ++ s) = splitlines_aux (rev l ++ acc) s.
Proof.
  intros H. revert acc. induction H as [|c l Hc _ IH]; intros acc; [done|].
  cbn [app splitlines_aux rev]. rewrite Hc, IH, <-app_assoc. done.
Qed.

Lemma splitlines_lines ls :
  Forall (Forall (fun c => is_linebreak c = false)) ls -> ls <> [] ->
  splitlines (join [newline] ls ++ [newline]) = ls.
Proof.
  unfold splitlines. intros H. induction H as [|l ls Hl _ IH]; [done|]. intros _.
  destruct ls as [|l' ls]; cbn [join].
  - rewrite splitlines_aux_line by done. cbn. by rewrite app_nil_r, rev_involutive.
  - rewrite <-!app_assoc, splitlines_aux_line by done. change ([newline] ++ ?x) with (newline :: x) at 1.
    cbn [splitlines_aux]. change (is_linebreak newline) with true. cbn iota.
    rewrite app_nil_r, rev_involutive. change (newline =? cr) with false. cbn [andb].
    rewrite <-IH by done. by destruct (_ ++ _).
Qed.

(** * Fields *)

Lemma one_equals a b : 61 ∉ a -> 61 ∉ b ->
  count (u "=") (a ++ u "=" ++ b) = 1 /\ splitn 1 (u "=") (a ++ u "=" ++ b) = [a; b].
Proof.
  intros Ha Hb. change (u "=") with [61]. unfold count, split, splitn. cbn [app].
  assert (exists n, length (a ++ 61 :: b) = S n) as [n ->] by (rewrite length_app; cbn; exists (length a + length b)%nat; lia).
  cbn [pieces_fuel]. rewrite cut_char by done. split; [|done].
  destruct n; cbn [pieces_fuel]; [done|]. by rewrite cut_char_None.
Qed.

(** The characters of a number and of a case name. *)
Definition word_char (c : Z) : bool := lower c || digit c || is_char "-" c.
Lemma word_char_solid c : word_char c = true -> isspace c = false /\ c <> 61.
Proof.
  unfold word_char, lower, digit, in_range, is_char, isspace. cbn [u hd].
  change (hd 0 (u "a")) with 97. change (hd 0 (u "z")) with 122. change (hd 0 (u "0")) with 48.
  change (hd 0 (u "9")) with 57. change (hd 0 (u "-")) with 45. lia.
Qed.

Lemma word_solid w : w <> [] -> Forall (fun c => word_char c = true) w -> solid w /\ 61 ∉ w.
Proof.
  intros Hn H. split; [split; [done|]|].
  - eapply Forall_impl; [done|]. intros c ?%word_char_solid. naive_solver.
  - rewrite Forall_forall in H. intros ?%H%word_char_solid. naive_solver.
Qed.

Lemma str_of_int_word z : Forall (fun c => word_char c = true) (str_of_int z).
Proof.
  eapply Forall_impl; [apply str_of_int_chars|]. unfold word_char. intros c [->|Hc]; [done|].
  by rewrite Hc, orb_true_r.
Qed.

Lemma str_of_int_re z : re_fullmatch int_re (str_of_int z) = true.
Proof.
  apply re_fullmatch_spec. unfold int_re, RPlus, ROpt. pose proof (to_int_nonnil z) as Hn. unfold str_of_int.
  assert (forall d, d <> Decimal.Nil -> lang (RSeq (RChar digit) (RStar (RChar digit))) (codes_of_uint d)) as D.
  { intros d Hd. pose proof (codes_of_uint_digits d) as F.
    destruct (codes_of_uint_nonnil d Hd) as (c & t & E & _). rewrite E in *. inversion F; subst.
    apply (lang_seq _ _ [c] t); [by constructor|by apply lang_star_class]. }
  destruct (Z.to_int z) as [d|d].
  - apply (lang_seq _ _ [] (codes_of_uint d)); [apply lang_alt_l; constructor|auto].
  - apply (lang_seq _ _ [45] (codes_of_uint d)); [apply lang_alt_r; by constructor|auto].
Qed.

Lemma case_re_word s : re_fullmatch case_re s = true -> s <> [] /\ Forall (fun c => word_char c = true) s.
Proof.
  intros H%re_fullmatch_spec. inversion H as [| |? ? s1 s2 H1 H2| | | |]; subst.
  inversion H1; subst. split; [done|]. apply star_class_inv in H2. constructor; [|done].
  unfold word_char. by rewrite H3.
Qed.

(** A value a field can print: a case name under a text key, and under any other
    key an integer within the interpreter's limit on digits. *)
Definition printable (k : mkind) (kv : string * value) : Prop :=
  match kv.2 with
  | VStr s => is_string_field k (u kv.1) = true /\ re_fullmatch case_re s = true
  | VInt z => is_string_field k (u kv.1) = false /\ (int_digits (str_of_int z) <= MAX_STR_DIGITS)%nat
  end.

Lemma value_text_word k kv : printable k kv ->
  value_text kv.2 <> [] /\ Forall (fun c => word_char c = true) (value_text kv.2).
Proof.
  destruct kv as [key [s|z]]; cbn; intros [_ H]; [by apply case_re_word|].
  split; [apply str_of_int_nonempty|apply str_of_int_word].
Qed.

(** The keys of the schemas are distinct words without an equals sign. *)
Definition key_ok (key : string) : bool :=
  negb (bool_decide (u key = [])) && forallb (fun c => negb (isspace c) && negb (c =? 61)) (u key).
Lemma schema_keys k : forallb key_ok (marker_schema k) = true /\ NoDup (schema k).
Proof.
  split; [by destruct k; vm_compute|].
  assert (bool_decide (NoDup (schema k)) = true) as H by (destruct k; vm_compute; reflexivity).
  by apply bool_decide_eq_true in H.
Qed.

Lemma key_ok_spec key : key_ok key = true -> solid (u key) /\ 61 ∉ u key.
Proof.
  unfold key_ok. intros H. apply andb_true_iff in H as [H1 H2]. to_prop. rewrite forallb_forall in H2.
  split; [split; [done|]|].
  - apply Forall_forall. intros c Hc%list_elem_of_In%H2. to_prop. done.
  - intros Hc%list_elem_of_In%H2. by rewrite Z.eqb_refl, andb_false_r in Hc.
Qed.

Lemma parse_render_field k values kv :
  key_ok kv.1 = true -> printable k kv -> u kv.1 ∉ values.*1 ->
  parse_token k values (render_field kv) = Ok (values ++ [(u kv.1, kv.2)]).
Proof.
  intros Hk Hp Hv. destruct (value_text_word _ _ Hp) as [Hn Hw].
  destruct (key_ok_spec _ Hk) as [[Kn Ks] K61], (word_solid _ Hn Hw) as [[_ Vs] V61].
  unfold parse_token, render_field. destruct (one_equals _ _ K61 V61) as [-> ->].
  rewrite bool_decide_eq_false_2 by done. rewrite bool_decide_eq_true_2.
  2: { destruct (lookup_key (u kv.1) values) eqn:E; [|done]. destruct Hv. apply lookup_key_elem. eauto. }
  assert (existsb isspace (value_text kv.2) = false) as ->.
  { apply not_true_iff_false. rewrite existsb_exists. intros (c & Hc%list_elem_of_In & Hs).
    rewrite Forall_forall in Vs. apply Vs in Hc. congruence. }
  destruct kv as [key [s|z]]; cbn [fst snd value_text] in *; unfold printable in Hp; cbn [fst snd] in Hp; destruct Hp as [-> Hp].
  - by rewrite Hp.
  - rewrite str_of_int_re. unfold py_int. destruct (Nat.ltb_spec MAX_STR_DIGITS (int_digits (str_of_int z))); [lia|].
    by rewrite int_of_str_of_int.
Qed.

(** * Markers *)

(** The dictionary a marker is parsed into. *)
Definition dict (fs : list (string * value)) : fields := (fun kv => (u kv.1, kv.2)) <$> fs.

Definition marker_ok (m : mkind * list (string * value)) : Prop :=
  m.2.*1 = marker_schema m.1 /\ Forall (printable m.1) m.2.

Lemma parse_render_fields k values fs :
  forallb key_ok fs.*1 = true -> Forall (printable k) fs -> NoDup (values.*1 ++ (u <$> fs.*1)) ->
  foldM (parse_token k) values (render_field <$> fs) = Ok (values ++ dict fs).
Proof.
  revert values. induction fs as [|kv fs IH]; intros values Hk Hp Hn; [cbn; by rewrite app_nil_r|].
  rewrite !fmap_cons in *. cbn [forallb] in Hk. apply andb_true_iff in Hk as [Hk1 Hk2].
  inversion Hp; subst. cbn [foldM]. rewrite parse_render_field; [|done|done|].
  - cbn [mbind result_bind]. rewrite IH; [|done|done|].
    + by rewrite <-app_assoc.
    + by rewrite fmap_app, <-app_assoc.
  - intros Hin. apply NoDup_app in Hn as (_ & Hn & _). eapply Hn; [done|]. by left.
Qed.

Lemma parse_render_marker_fields k fs :
  marker_ok (k, fs) -> parse_marker_fields k (render_field <$> fs) = Ok (dict fs).
Proof.
  intros [Hk Hp]. cbn [fst snd] in *. destruct (schema_keys k) as [S1 S2]. unfold parse_marker_fields.
  rewrite parse_render_fields; [|by rewrite Hk|done|by rewrite Hk]. cbn [mbind result_bind app].
  assert ((dict fs).*1 = schema k) as ->.
  { unfold dict, schema. rewrite <-Hk, <-!list_fmap_compose. done. }
  assert (same_set (schema k) (schema k) = true) as ->; [|done].
  unfold same_set. apply andb_true_iff. split; apply forallb_forall;
    intros x ?%list_elem_of_In; by apply bool_decide_eq_true.
Qed.

Lemma kind_solid k : solid (u (kind_name k)) /\ kind_of_text (u (kind_name k)) = Some k /\
  bool_decide (u (kind_name k) = u "FAIL") = false.
Proof. destruct k; (split; [split; [by vm_compute|repeat constructor]|split; vm_compute; reflexivity]). Qed.

Lemma field_solid k kv : key_ok kv.1 = true -> printable k kv -> solid (render_field kv).
Proof.
  intros [[Kn Ks] _]%key_ok_spec [Vn Vw]%value_text_word. unfold render_field.
  destruct (word_solid _ Vn Vw) as [[_ Vs] _]. split.
  - by intros [? _]%app_eq_nil.
  - apply Forall_app; split; [done|]. apply Forall_app; split; [repeat constructor|done].
Qed.

(** A rendered marker as the words it is split into. *)
Definition marker_words (m : mkind * list (string * value)) : list pystr :=
  u "PERSIST" :: u (kind_name m.1) :: (render_field <$> m.2).

Lemma marker_words_ok m : marker_ok m ->
  render_marker m.1 m.2 = join [32] (marker_words m) /\ Forall solid (marker_words m) /\ m.2 <> [].
Proof.
  destruct m as [k fs]. intros [Hk Hp]. cbn [fst snd] in *. destruct (schema_keys k) as [S1 _].
  assert (fs <> []) as Hn by (intros ->; by destruct k). split_and!; [| |done].
  - unfold render_marker, marker_words. cbn [fst snd]. destruct fs as [|f fs]; [done|].
    change (u "PERSIST ") with (u "PERSIST" ++ [32]). change (u " ") with [32].
    rewrite fmap_cons. cbn [join]. by rewrite <-app_assoc.
  - unfold marker_words. cbn [fst snd]. constructor; [split; [done|repeat constructor]|].
    constructor; [apply kind_solid|]. apply Forall_fmap. rewrite <-Hk in S1. clear Hk Hn.
    induction Hp as [|kv fs H _ IH]; [constructor|]. rewrite fmap_cons in S1. cbn [forallb] in S1.
    apply andb_true_iff in S1 as [? ?]. constructor; [by eapply field_solid|auto].
Qed.

Lemma startswith_app p s : startswith (p ++ s) p = true.
Proof. induction p as [|c p IH]; cbn [app]; [by destruct s|]. cbn [startswith]. by rewrite Z.eqb_refl. Qed.

Definition marker_of (m : mkind * list (string * value)) : Marker :=
  {| mk_kind := m.1; mk_fields := dict m.2; mk_line := render_marker m.1 m.2 |}.

Lemma parse_render_line ms m : marker_ok m ->
  parse_line ms (render_marker m.1 m.2) = Ok (ms ++ [marker_of m]).
Proof.
  intros Hm. destruct (marker_words_ok _ Hm) as (Ew & Hw & Hn). destruct m as [k fs]. cbn [fst snd] in *.
  unfold parse_line. assert (words (render_marker k fs) = marker_words (k, fs)) as -> by (by rewrite Ew, words_join).
  assert (startswith (render_marker k fs) (u "PERSIST") = true) as -> by reflexivity.
  assert (startswith (render_marker k fs) (u "PERSIST ") = true) as -> by apply startswith_app.
  unfold marker_words. cbn [fst snd negb]. destruct (kind_solid k) as (_ & Ek & Ef).
  assert (3 <=? len (u "PERSIST" :: u (kind_name k) :: (render_field <$> fs)) = true) as ->.
  { apply Z.leb_le. destruct fs; [done|]. rewrite fmap_cons, len_length. cbn [length]. lia. }
  assert (forall A (a b : A) l, zdrop 2 (a :: b :: l) = l /\ index (a :: b :: l) 1 = Ok b) as Z.
  { intros A a b l. by destruct l. }
  rewrite (proj2 (Z _ _ _ _)), (proj1 (Z _ _ _ _)).
  cbn [mbind result_bind require]. rewrite Ef, Ek. cbn [negb mbind result_bind require].
  by rewrite parse_render_marker_fields.
Qed.

(** * Streams *)

Definition stream_case (s : Stream) : list pystr :=
  meta_case (st_meta s) :: l_case (st_ledger s) :: from_option (fun r => [r_case r]) [] (st_result s).
Definition stream_numbers (s : Stream) : list Z :=
  meta_values (st_meta s) ++ ledger_values (st_ledger s) ++ concat (event_values <$> st_events s) ++
  concat (buffer_values <$> st_buffers s) ++ from_option result_values [] (st_result s) ++
  from_option full_values [] (st_full s).

(** The streams the format can carry: case names, and integers within the
    interpreter's limit on digits. *)
Definition stream_ok (s : Stream) : Prop :=
  Forall (fun n => re_fullmatch case_re n = true) (stream_case s) /\
  Forall (fun z => (int_digits (str_of_int z) <= MAX_STR_DIGITS)%nat) (stream_numbers s).

Lemma combine_keys {A} (ks : list string) (vs : list A) : length ks = length vs -> (combine ks vs).*1 = ks.
Proof. revert vs. induction ks as [|k ks IH]; intros [|v vs]; cbn [length]; try done. intros [= H]. cbn [combine]. rewrite fmap_cons. by rewrite IH. Qed.

Lemma ints_ok k ks vs :
  forallb (fun key => negb (is_string_field k (u key))) ks = true ->
  Forall (fun z => (int_digits (str_of_int z) <= MAX_STR_DIGITS)%nat) vs ->
  Forall (printable k) (combine ks (VInt <$> vs)).
Proof.
  intros Hk Hv. revert ks Hk. induction Hv as [|z vs Hz _ IH]; intros [|key ks] Hk; try constructor.
  - cbn [forallb] in Hk. apply andb_true_iff in Hk as [Hk%negb_true_iff _]. done.
  - cbn [forallb] in Hk. apply andb_true_iff in Hk as [_ Hk]. by apply IH.
Qed.

Lemma int_marker_ok k vs :
  length (marker_schema k) = length vs ->
  forallb (fun key => negb (is_string_field k (u key))) (marker_schema k) = true ->
  Forall (fun z => (int_digits (str_of_int z) <= MAX_STR_DIGITS)%nat) vs ->
  marker_ok (k, int_fields k vs).
Proof.
  intros Hl Hk Hv. split; cbn [fst snd]; [|by apply ints_ok].
  apply combine_keys. by rewrite length_fmap.
Qed.

Lemma case_marker_ok k ks name vs :
  marker_schema k = "case"%string :: ks -> length ks = length vs ->
  is_string_field k (u "case") && forallb (fun key => negb (is_string_field k (u key))) ks = true ->
  re_fullmatch case_re name = true ->
  Forall (fun z => (int_digits (str_of_int z) <= MAX_STR_DIGITS)%nat) vs ->
  marker_ok (k, case_fields k name vs).
Proof.
  intros Hs Hl Hk Hn Hv. apply andb_true_iff in Hk as [Hk1 Hk2]. unfold case_fields.
  split; cbn [fst snd]; rewrite Hs; cbn [combine].
  - rewrite fmap_cons. f_equal. apply combine_keys. by rewrite length_fmap.
  - constructor; [by split|]. by apply ints_ok.
Qed.

Lemma Forall_concat_in {A} (P : A -> Prop) ls l : Forall P (concat ls) -> l ∈ ls -> Forall P l.
Proof.
  induction ls as [|x ls IH]; [by intros _ ?%not_elem_of_nil|]. cbn [concat].
  rewrite Forall_app. intros [? ?] [->|?]%elem_of_cons; auto.
Qed.

Lemma stream_markers_ok s : stream_ok s -> Forall marker_ok (stream_markers s).
Proof.
  intros [Hc Hn]. unfold stream_case in Hc. unfold stream_numbers in Hn. rewrite !Forall_app in Hn.
  destruct Hn as (Hm & Hl & He & Hb & Hr & Hf). inversion Hc as [|? ? Cm Hc1]; subst.
  inversion Hc1 as [|? ? Cl Cr]; subst.
  unfold stream_markers. rewrite !Forall_app. split_and!.
  - destruct (st_result s); cbn [from_option] in *; [|done]. inversion Cr; subst. constructor; [|done].
    eapply case_marker_ok; [reflexivity|done|reflexivity|done|done].
  - constructor; [|done]. eapply case_marker_ok; [reflexivity|done|reflexivity|done|done].
  - apply Forall_fmap, Forall_forall. intros e Hin. apply int_marker_ok; [done|done|].
    eapply Forall_concat_in; [exact He|]. by apply list_elem_of_fmap_2.
  - apply Forall_fmap, Forall_forall. intros b Hin. apply int_marker_ok; [done|done|].
    eapply Forall_concat_in; [exact Hb|]. by apply list_elem_of_fmap_2.
  - constructor; [|done]. eapply case_marker_ok; [reflexivity|done|reflexivity|done|done].
  - destruct (st_full s); cbn [from_option] in *; (constructor; [|done]).
    + by apply int_marker_ok.
    + eapply case_marker_ok; [reflexivity|done|reflexivity|done|done].
Qed.

Lemma parse_render_lines acc ms : Forall marker_ok ms ->
  foldM parse_line acc ((fun '(k, fs) => render_marker k fs) <$> ms) = Ok (acc ++ (marker_of <$> ms)).
Proof.
  intros H. revert acc. induction H as [|[k fs] ms Hm _ IH]; intros acc; [cbn; by rewrite app_nil_r|].
  rewrite !fmap_cons. cbn [foldM]. pose proof (parse_render_line acc (k, fs) Hm) as E.
  cbn [fst snd] in E. cbn beta iota. rewrite E. cbn [mbind result_bind].
  by rewrite IH, <-app_assoc.
Qed.

Lemma linebreak_space c : is_linebreak c = true -> isspace c = true.
Proof. unfold is_linebreak, isspace. lia. Qed.

Lemma join_chars (P : Z -> Prop) sep ws : Forall P sep -> Forall (Forall P) ws -> Forall P (join sep ws).
Proof.
  intros Hs. induction 1 as [|w ws Hw Hws IH]; [done|]. destruct ws; cbn [join]; [done|].
  apply Forall_app; split; [done|]. apply Forall_app; by split.
Qed.

Lemma marker_one_line m : marker_ok m ->
  Forall (fun c => is_linebreak c = false) (render_marker m.1 m.2).
Proof.
  intros (-> & Hw & _)%marker_words_ok. apply join_chars; [repeat constructor|].
  eapply Forall_impl; [done|]. intros w [_ Hs]. eapply Forall_impl; [done|].
  intros c Hc. apply not_true_iff_false. intros ?%linebreak_space. congruence.
Qed.

Lemma remove_char_id c s : c ∉ s -> remove_char c s = s.
Proof.
  unfold remove_char. induction s as [|d s IH]; intros H; [done|].
  apply not_elem_of_cons in H as [H1 H2]. rewrite filter_cons_True by congruence. by rewrite IH.
Qed.

(** The lines a list of markers is rendered to are parsed back into it. *)
Lemma parse_markers_render ms : Forall marker_ok ms -> ms <> [] ->
  parse_markers (join nl ((fun '(k, fs) => render_marker k fs) <$> ms) ++ nl) = Ok (marker_of <$> ms).
Proof.
  intros H Hn. set (ls := _ <$> ms).
  assert (Forall (Forall (fun c => is_linebreak c = false)) ls) as Hl.
  { apply Forall_fmap. eapply Forall_impl; [done|]. intros [k fs]. apply (marker_one_line (k, fs)). }
  unfold parse_markers. rewrite remove_char_id.
  - unfold nl. rewrite splitlines_lines; [|done|by destruct ms].
    unfold ls. rewrite parse_render_lines by done. cbn [mbind result_bind app]. by destruct ms.
  - assert (Forall (fun c => c <> cr) (join nl ls ++ nl)) as F.
    { apply Forall_app; split; [|by repeat constructor]. apply join_chars; [by repeat constructor|].
      eapply Forall_impl; [done|]. intros l Hf. eapply Forall_impl; [done|]. by intros c Hc ->. }
    rewrite Forall_forall in F. intros Hc%F. done.
Qed.

(** The stream has the markers its case asks for. *)
Definition stream_fits (s : Stream) (c : case) (panic : bool) : Prop :=
  match st_result s with Some _ => result_case c = true | None => result_case c = false end /\
  match st_full s with Some _ => panic = true | None => panic = false end /\
  len (st_events s) = meta_count (st_meta s) /\ len (st_buffers s) = NBUF.

Lemma span_kind_app {A} (f : A -> Marker) k l m ms :
  (forall a, mk_kind (f a) = k) -> mk_kind m <> k ->
  span_kind k ((f <$> l) ++ m :: ms) = (f <$> l, m :: ms).
Proof.
  intros Hf Hm. induction l as [|a l IH].
  - cbn. by rewrite bool_decide_eq_false_2.
  - rewrite fmap_cons. cbn [app span_kind]. by rewrite bool_decide_eq_true_2, IH.
Qed.

Lemma mapR_fmap {A B C} (g : A -> result B) (f : C -> A) (h : C -> B) l :
  (forall c, g (f c) = Ok (h c)) -> mapR g (f <$> l) = Ok (h <$> l).
Proof.
  intros H. induction l as [|c l IH]; [done|]. rewrite !fmap_cons. cbn [mapR]. rewrite H. cbn [mbind result_bind].
  by rewrite IH.
Qed.

(** The marker of each record, and its typed view. *)
Definition event_marker (e : Event) : Marker := marker_of (EVENT, int_fields EVENT (event_values e)).
Definition buffer_marker (v : BufView) : Marker := marker_of (BUFFER, int_fields BUFFER (buffer_values v)).

Lemma event_view e : event_of (mk_fields (event_marker e)) = Ok e.
Proof. destruct e. vm_compute. reflexivity. Qed.
Lemma buffer_view v : bufview_of (mk_fields (buffer_marker v)) = Ok v.
Proof. destruct v. vm_compute. reflexivity. Qed.
Lemma meta_view m : meta_of (dict (case_fields META (meta_case m) (meta_values m))) = Ok m.
Proof. destruct m. vm_compute. reflexivity. Qed.
Lemma ledger_view l : ledger_of (dict (case_fields LEDGER (l_case l) (ledger_values l))) = Ok l.
Proof. destruct l. vm_compute. reflexivity. Qed.
Lemma result_view r : result_of (dict (case_fields RESULT (r_case r) (result_values r))) = Ok r.
Proof. destruct r. vm_compute. reflexivity. Qed.
Lemma full_view f : full_of (dict (int_fields FULL (full_values f))) = Ok f.
Proof. destruct f. vm_compute. reflexivity. Qed.

(** The end of a stream: its ledger and its [FULL] or [PASS] marker. *)
Definition tail_markers (s : Stream) : list Marker :=
  [ marker_of (LEDGER, case_fields LEDGER (l_case (st_ledger s)) (ledger_values (st_ledger s)));
    match st_full s with
    | Some f => marker_of (FULL, int_fields FULL (full_values f))
    | None => marker_of (PASS, case_fields PASS (meta_case (st_meta s)) [])
    end ].
Definition body_markers (s : Stream) : list Marker :=
  marker_of (META, case_fields META (meta_case (st_meta s)) (meta_values (st_meta s))) ::
  (event_marker <$> st_events s) ++ (buffer_marker <$> st_buffers s) ++ tail_markers s.

Lemma marker_of_stream s :
  marker_of <$> stream_markers s =
  from_option (fun r => [marker_of (RESULT, case_fields RESULT (r_case r) (result_values r))]) [] (st_result s) ++
  body_markers s.
Proof.
  unfold stream_markers, body_markers, tail_markers. rewrite !fmap_app, <-!list_fmap_compose.
  by destruct (st_result s), (st_full s).
Qed.

Lemma buffers_follow {A} (f : A -> Marker) k s :
  (forall a, mk_kind (f a) = k) -> k <> BUFFER -> k <> LEDGER -> forall l,
  span_kind k ((f <$> l) ++ (buffer_marker <$> st_buffers s) ++ tail_markers s) =
  (f <$> l, (buffer_marker <$> st_buffers s) ++ tail_markers s).
Proof.
  intros Hf Hb Hl l. destruct (st_buffers s) as [|v vs].
  - apply span_kind_app; [done|]. cbn. congruence.
  - rewrite fmap_cons. cbn [app]. apply span_kind_app; [done|]. cbn. congruence.
Qed.

Lemma expect_kind_ok k m mk ms : mk_kind mk = k -> expect_kind k m (mk :: ms) = Ok (mk, ms).
Proof. intros Hk. unfold expect_kind. by rewrite bool_decide_eq_true_2. Qed.

Lemma validate_stream s c panic : stream_fits s c panic ->
  validate_marker_stream (marker_of <$> stream_markers s) c panic = Ok s.
Proof.
  intros (Hr & Hf & He & Hb). rewrite marker_of_stream. unfold validate_marker_stream.
  assert ((if result_case c then
     match from_option (fun r => [marker_of (RESULT, case_fields RESULT (r_case r) (result_values r))]) []
             (st_result s) ++ body_markers s with
     | [] => Raise IndexError
     | m :: ms => require (bool_decide (mk_kind m = RESULT))
                    [T (case_name c); T " must start with one RESULT marker"];;
                  r ← result_of (mk_fields m); Ok (Some r, ms)
     end
     else Ok (None, from_option (fun r => [marker_of (RESULT, case_fields RESULT (r_case r) (result_values r))]) []
             (st_result s) ++ body_markers s)) = Ok (st_result s, body_markers s)) as ->.
  { destruct (st_result s) as [r|]; rewrite Hr; cbn [from_option app]; [|done].
    cbn [marker_of mk_kind mk_fields fst snd]. by rewrite result_view. }
  cbn [mbind result_bind]. unfold body_markers. rewrite expect_kind_ok by done. cbn [mbind result_bind].
  change (mk_fields (marker_of (META, ?fs))) with (dict fs). rewrite meta_view. cbn [mbind result_bind].
  rewrite buffers_follow by done. rewrite (mapR_fmap _ event_marker id) by apply event_view.
  cbn [mbind result_bind]. rewrite list_fmap_id.
  unfold tail_markers at 1. rewrite (span_kind_app buffer_marker) by done.
  rewrite (mapR_fmap _ buffer_marker id) by apply buffer_view. cbn [mbind result_bind]. rewrite list_fmap_id.
  rewrite expect_kind_ok by done. cbn [mbind result_bind].
  change (mk_fields (marker_of (LEDGER, ?fs))) with (dict fs). rewrite ledger_view. cbn [mbind result_bind].
  rewrite He, Hb, !Z.eqb_refl. destruct s as [meta events buffers ledger res full]; cbn [st_full st_result] in *.
  destruct full as [f|]; rewrite Hf, expect_kind_ok by done; cbn [mbind result_bind].
  - change (mk_fields (marker_of (FULL, ?fs))) with (dict fs). rewrite full_view. cbn [mbind result_bind].
    destruct res; by rewrite Hr.
  - destruct res; by rewrite Hr.
Qed.

(** C20: the marker format of the persistence runner loses nothing: a stream
    of case names and integers that has the markers its case asks for, printed
    as marker lines, is parsed and validated back into the same stream. *)
Theorem stream_roundtrip s c panic :
  stream_ok s -> stream_fits s c panic ->
  (ms ← parse_markers (render_stream s); validate_marker_stream ms c panic) = Ok s.
Proof.
  intros Ho Hf. unfold render_stream. rewrite parse_markers_render.
  - by apply validate_stream.
  - by apply stream_markers_ok.
  - unfold stream_markers. by destruct (st_result s).
Qed.

Lemma stream_roundtrip_witness :
  (ms ← parse_markers (render_stream (synthetic_stream Same)); validate_marker_stream ms Same false) =
  Ok (synthetic_stream Same).
Proof.
  apply (stream_roundtrip (synthetic_stream Same) Same false).
  - split.
    + repeat constructor.
    + apply Forall_forall. intros z Hz. apply Nat.leb_le.
      assert (forallb (fun z => (int_digits (str_of_int z) <=? MAX_STR_DIGITS)%nat)
                (stream_numbers (synthetic_stream Same)) = true) as F by (vm_compute; reflexivity).
      rewrite forallb_forall in F. by apply F, list_elem_of_In.
  - repeat split.
Defined.
