(* ===== verification/PSelf.v ===== *)
(** The scenario file [persistence/scenarios.json] as a JSON value, and the
    whole of [self_test] of [persistence/run-lab.py] that does not touch the
    repository. *)

From stdpp Require Import base tactics list gmap strings numbers list_numbers.
From S2P Require Import Prelude PyText PyBytes PyJson PyMarkers PTrace PScen PCommon PCache PLog PCase PSynth.
Open Scope Z_scope.

Definition J (s : string) : json := JStr (u s).
Definition F (k : string) (v : json) : pystr * json := (u k, v).

Definition scenarios_json : json :=
  JObj [
    F "schema_version" (JInt 1);
    F "event_schema_version" (JInt 1);
    F "defaults" (JObj [
        F "image" (J "private-copy");
        F "event_budget" (JInt 512);
        F "watchdog_seconds" (JInt 45);
        F "cleanup" (J "required")]);
    F "point_capabilities" (JObj [
        F "CACHE_GET_ENTER" (J "sleep-ok");
        F "CACHE_SELECTED" (J "observe-only");
        F "CACHE_LOCKED" (J "sleep-ok-with-buffer-sleeplock");
        F "CACHE_PARTITION_HELD" (J "spin-2cpu-ok");
        F "CACHE_RELEASED" (J "observe-only");
        F "LOG_APPENDED" (J "sleep-ok");
        F "LOG_ABSORBED" (J "observe-only");
        F "BEGIN_ADMITTED" (J "sleep-ok");
        F "BEGIN_WAIT_SPACE" (J "observe-only");
        F "IO_SUBMIT" (J "observe-only");
        F "IO_COMPLETE" (J "observe-only");
        F "HEADER_COMMIT_COMPLETE" (J "observe-only");
        F "HOME_INSTALL_COMPLETE" (J "observe-only");
        F "HEADER_CLEAR_COMPLETE" (J "observe-only")]);
    F "cases" (JList [
        JObj [
          F "id" (J "transaction-flow");
          F "cpus" (JInt 1);
          F "actors" (JList [
              JObj [
                F "id" (J "writer");
                F "actions" (JList [
                    J "select-stable-home-block";
                    J "begin-op";
                    J "write-same-home-block-twice";
                    J "end-op";
                    J "orderly-stop"])]]);
          F "gates" (JList []);
          F "oracle" (J "transaction-state-machine");
          F "evidence" (JList [J "F"; J "R"])];
        JObj [
          F "id" (J "log-capacity-empty");
          F "cpus" (JInt 2);
          F "actors" (JList [
              JObj [F "id" (J "a"); F "actions" (JList [J "begin-op"; J "hold"; J "end-op"])];
              JObj [F "id" (J "b"); F "actions" (JList [J "begin-op"; J "hold"; J "end-op"])];
              JObj [F "id" (J "c"); F "actions" (JList [J "begin-op"; J "hold"; J "end-op"])];
              JObj [F "id" (J "d"); F "actions" (JList [J "begin-op"; J "end-op"])]]);
          F "gates" (JList [
              JObj [
                F "id" (J "hold-three-admitted");
                F "mode" (J "hold-until-event");
                F "point" (J "BEGIN_ADMITTED");
                F "actors" (JList [J "a"; J "b"; J "c"]);
                F "release_after" (JObj [F "point" (J "BEGIN_WAIT_SPACE"); F "actor" (J "d")])]]);
          F "oracle" (J "empty-log-admission-bound");
          F "evidence" (JList [J "B"; J "C"])];
        JObj [
          F "id" (J "log-capacity-used");
          F "cpus" (JInt 2);
          F "actors" (JList [
              JObj [
                F "id" (J "a");
                F "actions" (JList [J "begin-op"; J "append-one-block"; J "hold"; J "end-op"])];
              JObj [F "id" (J "b"); F "actions" (JList [J "begin-op"; J "hold"; J "end-op"])];
              JObj [F "id" (J "c"); F "actions" (JList [J "begin-op"; J "end-op"])]]);
          F "gates" (JList [
              JObj [
                F "id" (J "hold-one-log-entry");
                F "mode" (J "hold-until-event");
                F "point" (J "LOG_APPENDED");
                F "actors" (JList [J "a"]);
                F "release_after" (JObj [F "point" (J "BEGIN_WAIT_SPACE"); F "actor" (J "c")])];
              JObj [
                F "id" (J "hold-second-operation");
                F "mode" (J "hold-until-event");
                F "point" (J "BEGIN_ADMITTED");
                F "actors" (JList [J "b"]);
                F "release_after" (JObj [F "point" (J "BEGIN_WAIT_SPACE"); F "actor" (J "c")])]]);
          F "oracle" (J "used-log-admission-bound");
          F "evidence" (JList [J "B"; J "C"])];
        JObj [
          F "id" (J "cache-same-block");
          F "cpus" (JInt 2);
          F "actors" (JList [
              JObj [
                F "id" (J "a");
                F "actions" (JList [J "read-uncached-target"; J "hold"; J "release"])];
              JObj [
                F "id" (J "b");
                F "actions" (JList [J "read-uncached-target"; J "release"])]]);
          F "gates" (JList [
              JObj [
                F "id" (J "hold-first-buffer");
                F "mode" (J "hold-until-event");
                F "point" (J "CACHE_LOCKED");
                F "actors" (JList [J "a"]);
                F "release_after" (JObj [F "point" (J "CACHE_SELECTED"); F "actor" (J "b")])]]);
          F "oracle" (J "one-buffer-per-block");
          F "evidence" (JList [J "C"])];
        JObj [
          F "id" (J "cache-collision");
          F "cpus" (JInt 2);
          F "discovery" (J "two-distinct-blocks-same-partition");
          F "actors" (JList [
              JObj [
                F "id" (J "a");
                F "actions" (JList [J "read-discovered-left"; J "hold"; J "release"])];
              JObj [
                F "id" (J "b");
                F "actions" (JList [J "read-discovered-right"; J "hold"; J "release"])]]);
          F "gates" (JList [
              JObj [
                F "id" (J "collision-coexist");
                F "mode" (J "rendezvous-sleep");
                F "point" (J "CACHE_LOCKED");
                F "actors" (JList [J "a"; J "b"])]]);
          F "oracle" (J "collision-keeps-distinct-identities");
          F "evidence" (JList [J "C"])];
        JObj [
          F "id" (J "cache-parallel");
          F "cpus" (JInt 2);
          F "discovery" (J "two-blocks-different-partitions");
          F "actors" (JList [
              JObj [
                F "id" (J "a");
                F "actions" (JList [J "read-discovered-left"; J "release"])];
              JObj [
                F "id" (J "b");
                F "actions" (JList [J "read-discovered-right"; J "release"])]]);
          F "gates" (JList [
              JObj [
                F "id" (J "parallel-critical-sections");
                F "mode" (J "rendezvous-spin");
                F "point" (J "CACHE_PARTITION_HELD");
                F "actors" (JList [J "a"; J "b"]);
                F "iteration_budget" (JInt 10000000)]]);
          F "oracle" (J "different-partitions-overlap");
          F "evidence" (JList [J "C"])];
        JObj [
          F "id" (J "cache-full");
          F "cpus" (JInt 1);
          F "isolated_panic_run" (JBool true);
          F "actors" (JList [
              JObj [
                F "id" (J "holder");
                F "actions" (JList [
                    J "hold-nbuf-distinct-read-only-buffers";
                    J "request-one-more-buffer"])]]);
          F "gates" (JList []);
          F "oracle" (J "exact-no-buffer-panic");
          F "evidence" (JList [J "B"])]])].

Definition scenarios_root : obj := match scenarios_json with JObj o => o | _ => [] end.

(** * Mutated scenarios *)

Fixpoint set_key (k : string) (v : json) (o : obj) : obj :=
  match o with
  | [] => [F k v]
  | (k', w) :: o => if bool_decide (u k = k') then (k', v) :: o else (k', w) :: set_key k v o
  end.

(** [v[k] = f(v[k])] for a dictionary, and at an index of a list. *)
Definition at_key (k : string) (f : json -> json) (v : json) : json :=
  match v with JObj o => JObj (set_key k (f (get o k)) o) | _ => v end.
Definition at_index (i : nat) (f : json -> json) (v : json) : json :=
  match v with JList l => JList (alter f i l) | _ => v end.

Definition scenario_mutations : list (string * json) :=
  [ ("scenario-extra-field", at_key "unexpected" (fun _ => JInt 1) scenarios_json);
    ("panic-cpus",
     at_key "cases" (at_index 6 (at_key "cpus" (fun _ => JInt 2))) scenarios_json);
    ("unbounded-spin",
     at_key "cases" (at_index 5 (at_key "gates" (at_index 0
       (at_key "iteration_budget" (fun _ => JInt 0))))) scenarios_json);
    ("observe-only-gate",
     at_key "cases" (at_index 3 (at_key "gates" (at_index 0
       (at_key "point" (fun _ => J "CACHE_SELECTED"))))) scenarios_json) ].

(** * The self test *)

Definition accepts (c : case) : bool :=
  is_ok (validate_case_trace (synthetic_trace c) (u (case_name c)) scenarios_root
           (bool_decide (c = CacheFull))).

Definition rejects (m : string * result pystr * case) : bool :=
  let '(_, text, c) := m in
  match text with
  | Ok text => expect_rejected scenarios_root text c (bool_decide (c = CacheFull))
  | Raise _ => false
  end.

Definition rejects_scenario (m : string * json) : bool :=
  match validate_scenarios (snd m) with Raise (LabError _) => true | _ => false end.

Definition self_test : bool :=
  is_ok (validate_scenarios scenarios_json) &&
  forallb accepts all_cases && forallb rejects trace_mutations &&
  forallb rejects_scenario scenario_mutations.
