(* ===== verification/PLogSpec.v ===== *)
(** The log reducer against an abstract log.

    The abstract log is a set of blocks, a number of open operations, a commit
    flag and the list of requests in flight.  [lstep] is what the reducer checks
    of each event, in terms of it: the reducer, which keeps counters, accepts a
    trace exactly when it is a run of [lstep] that ends with everything drained.

    [dstep] is the log as [core/persistence.md] documents it.  It is stricter:
    [begin_op] waits and admits by the commit flag of the log, the last [end_op]
    and no other starts the commit, and blocks are logged inside an operation
    only.  [disciplined] is that difference as a check of the events, and a trace
    that passes it is accepted exactly when it is a run of the documented log. *)

From stdpp Require Import base tactics list gmap strings numbers list_numbers.
From S2P Require Import Prelude PyText PyBytes PyMarkers PTrace PCommon PLog.
Open Scope Z_scope.

Record AbsLog : Type := {
  blocks : gset Z;
  open : Z;
  commit : Z;
  inflight : list io_ident
}.

Definition abs_init : AbsLog := {| blocks := ∅; open := 0; commit := 0; inflight := [] |}.

(** Everything is drained. *)
Definition abs_final (s : AbsLog) : Prop :=
  blocks s = ∅ /\ open s = 0 /\ commit s = 0 /\ inflight s = [].

Definition logged (s : AbsLog) : Z := Z.of_nat (base.size (blocks s)).

(** The event carries this log length, operation count and commit flag. *)
Definition carries (e : Event) (n o c : Z) : Prop :=
  log_n e = n /\ outstanding e = o /\ committing e = c.

Definition with_blocks (b : gset Z) (s : AbsLog) : AbsLog :=
  {| blocks := b; open := open s; commit := commit s; inflight := inflight s |}.
Definition with_open (o : Z) (s : AbsLog) : AbsLog :=
  {| blocks := blocks s; open := o; commit := commit s; inflight := inflight s |}.
Definition with_commit (c : Z) (s : AbsLog) : AbsLog :=
  {| blocks := blocks s; open := open s; commit := c; inflight := inflight s |}.
Definition with_inflight (l : list io_ident) (s : AbsLog) : AbsLog :=
  {| blocks := blocks s; open := open s; commit := commit s; inflight := l |}.

Inductive lstep (s : AbsLog) (e : Event) : AbsLog -> Prop :=
| ls_cache :
    is_cache_point (point e) = true -> carries e (logged s) (open s) (commit s) -> lstep s e s
| ls_submit :
    point e = IO_SUBMIT -> carries e (logged s) (open s) (commit s) -> in01 (aux e) = true ->
    lstep s e (with_inflight (io_identity e :: inflight s) s)
| ls_complete l :
    point e = IO_COMPLETE -> carries e (logged s) (open s) (commit s) -> in01 (aux e) = true ->
    inflight s ≡ₚ io_identity e :: l ->
    lstep s e (with_inflight l s)
| ls_wait_commit :
    point e = LOG_WAIT_COMMIT -> carries e (logged s) (open s) 1 -> lstep s e s
| ls_wait_space :
    point e = LOG_WAIT_SPACE -> carries e (logged s) (open s) 0 ->
    LOGBLOCKS < logged s + (open s + 1) * MAXOPBLOCKS -> lstep s e s
| ls_admit :
    point e = LOG_ADMIT -> carries e (logged s) (open s + 1) 0 ->
    logged s + (open s + 1) * MAXOPBLOCKS <= LOGBLOCKS ->
    lstep s e (with_open (open s + 1) s)
| ls_end :
    point e = LOG_END -> carries e (logged s) (open s - 1) 0 -> aux e = 0 ->
    lstep s e (with_commit 0 (with_open (open s - 1) s))
| ls_end_last :
    point e = LOG_END -> carries e (logged s) 0 1 -> aux e = 1 -> open s = 1 ->
    lstep s e (with_commit 1 (with_open 0 s))
| ls_append :
    point e = LOG_APPEND -> carries e (logged s + 1) (open s) 0 -> commit s = 0 ->
    blockno e ∉ blocks s ->
    lstep s e (with_blocks ({[ blockno e ]} ∪ blocks s) s)
| ls_absorb :
    point e = LOG_ABSORB -> carries e (logged s) (open s) (commit s) -> blockno e ∈ blocks s ->
    lstep s e s
| ls_write :
    point e = LOG_PAYLOAD \/ point e = LOG_HOME ->
    carries e (logged s) (open s) 1 -> commit s = 1 -> blocks s <> ∅ -> lstep s e s
| ls_header :
    point e = LOG_HEADER -> carries e (logged s) (open s) 1 -> commit s = 1 -> blocks s <> ∅ ->
    aux e = logged s -> lstep s e s
| ls_clear :
    point e = LOG_CLEAR -> carries e 0 0 1 -> commit s = 1 -> blocks s <> ∅ -> aux e = 0 ->
    lstep s e (with_blocks ∅ s)
| ls_done :
    point e = LOG_COMMIT_DONE -> carries e 0 0 0 -> blocks s = ∅ -> open s = 0 -> commit s = 1 ->
    lstep s e (with_commit 0 s).

Inductive lrun : AbsLog -> list Event -> AbsLog -> Prop :=
| lrun_nil s : lrun s [] s
| lrun_cons s e s' l s'' : lstep s e s' -> lrun s' l s'' -> lrun s (e :: l) s''.

(** * The simulation relation *)

Definition io_aux (id : io_ident) : Z := id.2.
Definition count_id (id : io_ident) (l : list io_ident) : Z := len (filter (fun x => x = id) l).
Definition count_aux (a : Z) (l : list io_ident) : Z := len (filter (fun x => io_aux x = a) l).

Record rel (r : LogRed) (s : AbsLog) : Prop := {
  rl_n : n (lstate r) = logged s;
  rl_out : out (lstate r) = open s;
  rl_com : com (lstate r) = commit s;
  rl_entries : entries r = blocks s;
  rl_inflight id : default 0 (io_inflight r !! id) = count_id id (inflight s);
  rl_reads : submitted_read r - completed_read r = count_aux 0 (inflight s);
  rl_writes : submitted_write r - completed_write r = count_aux 1 (inflight s);
  rl_aux id : id ∈ inflight s -> in01 (io_aux id) = true
}.

Lemma rel_init : rel log_init abs_init.
Proof. split; try done. intros id. cbn. set_solver. Qed.

Lemma carried_eq r s e :
  rel r s -> carried e = lstate r <-> carries e (logged s) (open s) (commit s).
Proof.
  intros Hr. destruct (lstate r) as [n0 o0 c0] eqn:E.
  pose proof (rl_n _ _ Hr). pose proof (rl_out _ _ Hr). pose proof (rl_com _ _ Hr).
  rewrite E in *. cbn in *. unfold carried, carries. split; [intros [= -> -> ->]; auto|].
  intros (-> & -> & ->). by subst.
Qed.

Lemma logged_pos s : 0 < logged s <-> blocks s <> ∅.
Proof.
  unfold logged. rewrite <-leibniz_equiv_iff, <-size_non_empty_iff. lia.
Qed.

Lemma logged_append s b : b ∉ blocks s -> logged (with_blocks ({[ b ]} ∪ blocks s) s) = logged s + 1.
Proof.
  intros Hb. unfold logged. cbn [blocks with_blocks]. rewrite size_union, size_singleton by set_solver.
  lia.
Qed.

Lemma count_id_cons id x l : count_id id (x :: l) = count_id id l + (if decide (x = id) then 1 else 0).
Proof.
  unfold count_id. rewrite filter_cons. destruct (decide (x = id)); rewrite !len_length; cbn; lia.
Qed.

Lemma count_aux_cons a x l :
  count_aux a (x :: l) = count_aux a l + (if decide (io_aux x = a) then 1 else 0).
Proof.
  unfold count_aux. rewrite filter_cons. destruct (decide (io_aux x = a)); rewrite !len_length; cbn; lia.
Qed.

Lemma count_id_perm id l l' : l ≡ₚ l' -> count_id id l = count_id id l'.
Proof. intros Hp. unfold count_id. by rewrite !len_length, Hp. Qed.
Lemma count_aux_perm a l l' : l ≡ₚ l' -> count_aux a l = count_aux a l'.
Proof. intros Hp. unfold count_aux. by rewrite !len_length, Hp. Qed.

Lemma count_id_pos id l : 0 < count_id id l <-> id ∈ l.
Proof.
  unfold count_id. rewrite len_length. split.
  - intros H. destruct (filter (fun x => x = id) l) as [|y r] eqn:E; [cbn in H; lia|].
    assert (y ∈ filter (fun x => x = id) l) as Hy by (rewrite E; left).
    by apply list_elem_of_filter in Hy as [-> ?].
  - intros Hid. destruct (filter (fun x => x = id) l) as [|y r] eqn:E; [|cbn; lia].
    by apply (filter_nil_not_elem_of (fun x => x = id) l id) in E.
Qed.

(** * One event *)

(** The simulation ignores the event lists the reducer collects. *)
Lemma rel_ext r r' s :
  lstate r' = lstate r -> entries r' = entries r -> io_inflight r' = io_inflight r ->
  submitted_read r' = submitted_read r -> submitted_write r' = submitted_write r ->
  completed_read r' = completed_read r -> completed_write r' = completed_write r ->
  rel r s -> rel r' s.
Proof.
  intros E1 E2 E3 E4 E5 E6 E7 []. split; try intros id; rewrite ?E1, ?E2, ?E3, ?E4, ?E5, ?E6, ?E7; auto.
Qed.

Lemma rel_state r s n' o' c' b' :
  rel r s -> n' = Z.of_nat (base.size b') ->
  rel (with_state {| n := n'; out := o'; com := c' |} (with_entries b' r))
      {| blocks := b'; open := o'; commit := c'; inflight := inflight s |}.
Proof. intros [] ->. by split. Qed.

Lemma rel_counts r s n' o' c' :
  rel r s -> n' = logged s ->
  rel (with_state {| n := n'; out := o'; com := c' |} r) (with_commit c' (with_open o' s)).
Proof. intros [] ->. by split. Qed.

Lemma rel_completion r s e : rel r s -> rel (note_completion e r) s.
Proof. by apply rel_ext. Qed.

Lemma io_submit_rel r s e :
  rel r s -> in01 (aux e) = true ->
  exists r', io_submit e r = Ok r' /\ rel r' (with_inflight (io_identity e :: inflight s) s).
Proof.
  intros Hr Ha. unfold io_submit. unfold in01 in Ha.
  assert (Hcnt : forall id, default 0 (<[io_identity e :=
      default 0 (io_inflight r !! io_identity e) + 1]> (io_inflight r) !! id) =
      count_id id (io_identity e :: inflight s)).
  { intros id. rewrite count_id_cons. destruct (decide (io_identity e = id)) as [<-|Hne].
    - rewrite lookup_insert_eq. cbn. unfold id. by rewrite (rl_inflight _ _ Hr).
    - rewrite lookup_insert_ne by done. rewrite (rl_inflight _ _ Hr). lia. }
  assert (Hin : forall id, id ∈ io_identity e :: inflight s -> in01 (io_aux id) = true).
  { intros id [->|Hid]%elem_of_cons; [done|]. by apply (rl_aux _ _ Hr). }
  pose proof (rl_reads _ _ Hr). pose proof (rl_writes _ _ Hr).
  destruct (aux e =? 0) eqn:E0; [|destruct (aux e =? 1) eqn:E1; [|done]]; to_prop;
    (eexists; split; [done|]); split;
    cbn [lstate entries io_inflight submitted_read completed_read submitted_write completed_write
      blocks open commit inflight with_inflight]; try apply Hr; auto;
    rewrite count_aux_cons; change (io_aux (io_identity e)) with (aux e).
  - rewrite E0, decide_True by done. lia.
  - rewrite E0, decide_False by done. lia.
  - rewrite E1, decide_False by done. lia.
  - rewrite E1, decide_True by done. lia.
Qed.

Lemma io_complete_rel c r s e l :
  rel r s -> in01 (aux e) = true -> inflight s ≡ₚ io_identity e :: l ->
  exists r', io_complete c e r = Ok r' /\ rel r' (with_inflight l s).
Proof.
  intros Hr Ha Hp. unfold io_complete.
  pose proof (rl_inflight _ _ Hr (io_identity e)) as Hid.
  rewrite (count_id_perm _ _ _ Hp), count_id_cons, decide_True in Hid by done.
  assert (0 <= count_id (io_identity e) l) by (unfold count_id; rewrite len_length; lia).
  rewrite Hid. replace (0 <? _) with true by (symmetry; apply Z.ltb_lt; lia). cbn [require mbind result_bind].
  assert (Hcnt : forall id, default 0 (<[io_identity e :=
      count_id (io_identity e) l + 1 - 1]> (io_inflight r) !! id) = count_id id l).
  { intros id. destruct (decide (io_identity e = id)) as [<-|Hne].
    - rewrite lookup_insert_eq. cbn. unfold id. lia.
    - rewrite lookup_insert_ne by done. rewrite (rl_inflight _ _ Hr), (count_id_perm _ _ _ Hp).
      rewrite count_id_cons, decide_False by done. lia. }
  assert (Hin : forall id, id ∈ l -> in01 (io_aux id) = true).
  { intros id Hil. apply (rl_aux _ _ Hr). rewrite Hp. by right. }
  pose proof (rl_reads _ _ Hr) as Hrd. pose proof (rl_writes _ _ Hr) as Hwr.
  rewrite (count_aux_perm _ _ _ Hp), count_aux_cons in Hrd.
  rewrite (count_aux_perm _ _ _ Hp), count_aux_cons in Hwr.
  change (io_aux (io_identity e)) with (aux e) in *. unfold in01 in Ha.
  destruct (aux e =? 0) eqn:E0; [|destruct (aux e =? 1) eqn:E1; [|done]]; to_prop;
    (eexists; split; [done|]); split;
    cbn [lstate entries io_inflight submitted_read completed_read submitted_write completed_write
      blocks open commit inflight with_inflight]; try apply Hr; auto.
  - rewrite E0, decide_True in Hrd by done. lia.
  - rewrite E0, decide_False in Hwr by done. lia.
  - rewrite E1, decide_False in Hrd by done. lia.
  - rewrite E1, decide_True in Hwr by done. lia.
Qed.

Lemma io_complete_inv c r s e r' :
  rel r s -> io_complete c e r = Ok r' ->
  in01 (aux e) = true /\ exists l, inflight s ≡ₚ io_identity e :: l.
Proof.
  intros Hr H. unfold io_complete in H. inv_ok. to_prop.
  rewrite (rl_inflight _ _ Hr) in C. apply count_id_pos in C.
  destruct (proj1 (elem_of_Permutation _ _) C) as [l Hl]. split; [|eauto].
  by apply (rl_aux _ _ Hr) in C.
Qed.

(** The reducer's tests, as statements about the abstract log. *)
Lemma carried_wait r s e c' :
  rel r s ->
  carried e = {| n := n (lstate r); out := out (lstate r); com := c' |} <->
  carries e (logged s) (open s) c'.
Proof.
  intros Hr. rewrite (rl_n _ _ Hr), (rl_out _ _ Hr). unfold carried, carries.
  split; [intros [= -> -> ->]; auto|]. by intros (-> & -> & ->).
Qed.

(** A log event accepted by the reducer is a step of the abstract log. *)
Lemma log_point_forward c r s e r' :
  rel r s -> log_point_step c r e = Ok r' -> exists s', lstep s e s' /\ rel r' s'.
Proof.
  intros Hr H. unfold log_point_step in H. cbv zeta in H.
  pose proof (carried_wait r s e) as Hcw. pose proof (carried_eq r s e Hr) as Hce.
  pose proof (rl_n _ _ Hr) as Hn. pose proof (rl_out _ _ Hr) as Ho.
  pose proof (rl_com _ _ Hr) as Hc. pose proof (rl_entries _ _ Hr) as He.
  repeat match type of H with
  | (if ?p then _ else _) = Ok _ => destruct p eqn:?; [to_prop|]
  end; inv_ok; to_prop; rewrite ?Hce, ?Hcw in * by done.
  - exists s. split; [by apply ls_wait_commit|done].
  - exists s. split; [|done]. match goal with H : carries _ _ _ _ |- _ => destruct H as (E1 & E2 & E3) end.
    apply ls_wait_space; [done|done|]. by rewrite <-E1, <-E2.
  - exists (with_open (open s + 1) s). split.
    + apply ls_admit; [done|split; [lia|split; lia]|]. by rewrite <-Hn, <-Ho; replace (out (lstate r) + 1) with (outstanding e); lia.
    + replace (with_open (open s + 1) s) with (with_commit (commit s) (with_open (open s + 1) s)) by done.
      rewrite Hc. replace (outstanding e) with (open s + 1) by lia. apply rel_counts; [done|lia].
  - unfold in01 in *. match goal with H : (if _ then _ else _) = Ok tt |- _ => rename H into Hif end.
    destruct (aux e =? 0) eqn:E0; cbn [negb] in Hif; inv_ok; to_prop.
    + exists (with_commit 0 (with_open (open s - 1) s)). split.
      * apply ls_end; [done|split; [lia|split; lia]|done].
      * replace (outstanding e) with (open s - 1) by lia. replace (committing e) with 0 by lia.
        apply rel_counts; [done|lia].
    + exists (with_commit 1 (with_open 0 s)). split.
      * apply ls_end_last; [done|split; [lia|split; lia]|lia|lia].
      * replace (outstanding e) with 0 by lia. replace (committing e) with 1 by lia.
        apply rel_counts; [done|lia].
  - exists (with_blocks ({[ blockno e ]} ∪ blocks s) s). rewrite He in *. split.
    + apply ls_append; [done|split; [lia|split; lia]|lia|done].
    + rewrite Ho, Hc. apply rel_state; [done|].
      change (Z.of_nat (base.size ({[blockno e]} ∪ blocks s)))
        with (logged (with_blocks ({[ blockno e ]} ∪ blocks s) s)).
      rewrite logged_append by done. lia.
  - exists s. rewrite He in *. split; [by apply ls_absorb|done].
  - exists s. split; [|by apply rel_completion].
    match goal with H : carries _ _ _ _ |- _ => destruct H as (E1 & E2 & E3) end.
    assert (blocks s <> ∅) by (apply logged_pos; lia).
    assert (carries e (logged s) (open s) 1) by (split; [lia|split; lia]).
    destruct (point e =? LOG_HEADER) eqn:Eh; inv_ok; to_prop.
    + apply ls_header; auto; lia.
    + apply ls_write; auto; [|lia].
      match goal with H : _ \/ _ |- _ =>
        rewrite orb_true_iff, !Z.eqb_eq in H; destruct H as [[?|?]|?]; auto; lia end.
  - exists (with_blocks ∅ s). split.
    + apply ls_clear; auto; [split; [lia|split; lia]|lia|apply logged_pos; lia].
    + apply rel_completion. rewrite Ho, Hc. by apply rel_state.
  - exists (with_commit 0 s).
    match goal with H : lstate r = _ |- _ => rewrite H in *; cbn [n out com] in * end.
    assert (blocks s = ∅) as Hb.
    { apply dec_stable. intros Hb%logged_pos. lia. }
    match goal with H : carried e = _ |- _ => injection H as E1 E2 E3 end. split.
    + apply ls_done; auto. by split.
    + replace (with_commit 0 s) with (with_commit 0 (with_open (open s) s)) by done.
      rewrite <-Ho. apply rel_counts; [done|]. rewrite <-Hn. done.
Qed.

Lemma require_true b m : b = true -> require b m = Ok tt.
Proof. by intros ->. Qed.

(** Boolean guards from the facts in the context. *)
Ltac pass_guard :=
  match goal with
  | |- exists r', mbind _ (require ?b ?m) = Ok r' /\ _ => rewrite (require_true b m)
  | |- exists r', mbind _ (mbind _ (require ?b ?m)) = Ok r' /\ _ => rewrite (require_true b m)
  end;
  [cbn [mbind result_bind]
  |repeat match goal with
   | |- _ && _ = true => apply andb_true_intro; split
   | |- bool_decide _ = true => apply bool_decide_eq_true_2
   | |- negb (bool_decide _) = true => apply negb_true_iff, bool_decide_eq_false_2
   | |- (_ =? _) = true => apply Z.eqb_eq
   | |- (_ <=? _) = true => apply Z.leb_le
   | |- (_ <? _) = true => apply Z.ltb_lt
   end;
   auto; try lia].

(** A step of the abstract log at a log point is accepted by the reducer. *)
Lemma log_point_backward c r s e s' :
  rel r s -> lstep s e s' -> is_cache_point (point e) = false -> is_io_point (point e) = false ->
  exists r', log_point_step c r e = Ok r' /\ rel r' s'.
Proof.
  intros Hr Hs Hcp Hip.
  pose proof (carried_wait r s e) as Hcw. pose proof (carried_eq r s e Hr) as Hce.
  pose proof (rl_n _ _ Hr) as Hn. pose proof (rl_out _ _ Hr) as Ho.
  pose proof (rl_com _ _ Hr) as Hc. pose proof (rl_entries _ _ Hr) as He.
  unfold log_point_step. cbv zeta.
  destruct Hs as [Hp|Hp|l Hp|Hp Hca|Hp Hca Hcap|Hp (E1 & E2 & E3) Hcap|Hp (E1 & E2 & E3) Ha
    |Hp (E1 & E2 & E3) Ha Hop|Hp (E1 & E2 & E3) Hco Hb|Hp Hca Hb|Hp (E1 & E2 & E3) Hco Hb
    |Hp (E1 & E2 & E3) Hco Hb Ha|Hp (E1 & E2 & E3) Hco Hb Ha|Hp (E1 & E2 & E3) Hb Hop Hco];
    try (rewrite Hp in Hcp; done); try (rewrite Hp in Hip; done);
    try (rewrite Hp; cbn [Z.eqb Pos.eqb LOG_WAIT_COMMIT LOG_WAIT_SPACE LOG_ADMIT LOG_END LOG_APPEND
      LOG_ABSORB LOG_PAYLOAD LOG_HEADER LOG_HOME LOG_CLEAR LOG_COMMIT_DONE orb]).
  - pass_guard; [|by apply Hcw]. eauto.
  - destruct Hca as (E1 & E2 & E3). pass_guard; [eauto|by apply Hcw].
  - pass_guard. eexists; split; [done|].
    rewrite E2, Hc. by apply rel_counts.
  - rewrite Ha. pass_guard. cbn [negb Z.eqb]. pass_guard.
    eexists; split; [done|]. rewrite E2, E3. by apply rel_counts.
  - rewrite Ha. pass_guard. cbn [negb Z.eqb]. pass_guard.
    eexists; split; [done|]. rewrite E2, E3. by apply rel_counts.
  - rewrite He. pass_guard. eexists; split; [done|]. rewrite Ho, Hc, E1.
    apply rel_state; [done|]. change (Z.of_nat _) with (logged (with_blocks ({[ blockno e ]} ∪ blocks s) s)).
    by rewrite logged_append.
  - rewrite He. pass_guard; [eauto|by apply Hce].
  - apply logged_pos in Hb. destruct Hp as [-> | ->];
      cbn [Z.eqb Pos.eqb LOG_WAIT_COMMIT LOG_WAIT_SPACE LOG_ADMIT LOG_END LOG_APPEND
      LOG_ABSORB LOG_PAYLOAD LOG_HEADER LOG_HOME LOG_CLEAR LOG_COMMIT_DONE orb];
      (pass_guard; [eexists; split; [done|]; by apply rel_completion|apply Hce; split; [lia|split; lia]]).
  - apply logged_pos in Hb. pass_guard; [|apply Hce; split; [lia|split; lia]]. pass_guard.
    eexists; split; [done|]. by apply rel_completion.
  - apply logged_pos in Hb. pass_guard. eexists; split; [done|]. apply rel_completion.
    rewrite Ho, Hc. by apply rel_state.
  - pass_guard.
    + eexists; split; [done|]. rewrite Ho. replace (with_commit 0 s) with (with_commit 0 (with_open (open s) s)) by done.
      by apply rel_counts.
    + destruct (lstate r) as [n0 o0 c0]. cbn in *. f_equal; try lia. rewrite Hn. unfold logged. by rewrite Hb.
    + unfold carried. by rewrite E1, E2, E3.
Qed.

(** * A whole trace *)

Lemma rel_log_event r s e : rel r s -> rel (note_log_event e r) s.
Proof. by apply rel_ext. Qed.

Lemma log_step_forward c r s e r' :
  rel r s -> log_step c r e = Ok r' -> exists s', lstep s e s' /\ rel r' s'.
Proof.
  intros Hr H. unfold log_step in H. destruct (is_cache_point (point e)) eqn:Ec.
  { inv_ok. to_prop. exists s. split; [|done]. apply ls_cache; [done|]. by eapply carried_eq. }
  destruct (is_io_point (point e)) eqn:Ei.
  2: { eapply log_point_forward; [|done]. by apply rel_log_event. }
  inv_ok. to_prop. assert (carries e (logged s) (open s) (commit s)) as Hca by (by eapply carried_eq).
  unfold is_io_point in Ei. to_prop. destruct (point e =? IO_SUBMIT) eqn:Es; to_prop.
  - assert (in01 (aux e) = true) as Ha.
    { unfold io_submit in H. unfold in01. destruct (aux e =? 0), (aux e =? 1); done. }
    destruct (io_submit_rel r s e Hr Ha) as (r2 & E2 & Hr2). rewrite H in E2. injection E2 as <-.
    eexists; split; [by apply ls_submit|done].
  - destruct Ei as [?|Ei]; [done|]. to_prop.
    destruct (io_complete_inv c r s e r' Hr H) as (Ha & l & Hl).
    destruct (io_complete_rel c r s e l Hr Ha Hl) as (r2 & E2 & Hr2). rewrite H in E2.
    injection E2 as <-. eexists; split; [by apply (ls_complete s e l)|done].
Qed.

Lemma log_step_backward c r s e s' :
  rel r s -> lstep s e s' -> exists r', log_step c r e = Ok r' /\ rel r' s'.
Proof.
  intros Hr Hs. unfold log_step. pose proof (carried_eq r s e Hr) as Hce.
  destruct (is_cache_point (point e)) eqn:Ec; [|destruct (is_io_point (point e)) eqn:Ei].
  - assert (s' = s /\ carries e (logged s) (open s) (commit s)) as [-> Hca].
    { destruct Hs as [? ?|Hp|l Hp|Hp|Hp|Hp|Hp|Hp|Hp|Hp|[Hp|Hp]|Hp|Hp|Hp]; try (rewrite Hp in Ec; done).
      done. }
    pass_guard; [eauto|by apply Hce].
  - destruct Hs as [Hp|Hp Hca Ha|l Hp Hca Ha Hl|Hp|Hp|Hp|Hp|Hp|Hp|Hp|[Hp|Hp]|Hp|Hp|Hp];
      try (rewrite Hp in Ei; done).
    + congruence.
    + pass_guard; [|by apply Hce]. rewrite Hp. change (IO_SUBMIT =? IO_SUBMIT) with true. cbn iota.
      by apply io_submit_rel.
    + pass_guard; [|by apply Hce]. rewrite Hp. change (IO_COMPLETE =? IO_SUBMIT) with false. cbn iota.
      by apply io_complete_rel.
  - apply (log_point_backward c (note_log_event e r) s e s'); [by apply rel_log_event|done..].
Qed.

Lemma log_run_forward c events r s r' :
  rel r s -> foldM (log_step c) r events = Ok r' -> exists s', lrun s events s' /\ rel r' s'.
Proof.
  revert r s; induction events as [|e events IH]; intros r s Hr H; cbn in H.
  - inv_ok. exists s. split; [constructor|done].
  - apply bind_ok in H as (r1 & H1 & H). destruct (log_step_forward _ _ _ _ _ Hr H1) as (s1 & Hs1 & Hr1).
    destruct (IH r1 s1 Hr1 H) as (s2 & Hs2 & Hr2). exists s2. split; [by econstructor|done].
Qed.

Lemma log_run_backward c events r s s' :
  rel r s -> lrun s events s' -> exists r', foldM (log_step c) r events = Ok r' /\ rel r' s'.
Proof.
  intros Hr H. revert r Hr. induction H as [s|s e s1 l s2 Hs _ IH]; intros r Hr; cbn; [eauto|].
  destruct (log_step_backward c r s e s1 Hr Hs) as (r1 & -> & Hr1). cbn. by apply IH.
Qed.

(** The final tests hold exactly when the abstract log is drained. *)
Lemma log_final r s :
  rel r s ->
  (bool_decide (lstate r = {| n := 0; out := 0; com := 0 |}) = true /\
   (forallb (fun '(_, k) => k =? 0) (map_to_list (io_inflight r)) &&
    (submitted_read r =? completed_read r) && (submitted_write r =? completed_write r)) = true) <->
  abs_final s.
Proof.
  intros Hr. pose proof (rl_n _ _ Hr) as Hn. pose proof (rl_out _ _ Hr) as Ho.
  pose proof (rl_com _ _ Hr) as Hc. pose proof (rl_reads _ _ Hr) as Hrd. pose proof (rl_writes _ _ Hr) as Hwr.
  rewrite bool_decide_eq_true, !andb_true_iff, !Z.eqb_eq, forallb_forall.
  setoid_rewrite <-list_elem_of_In. unfold abs_final. split.
  - intros (Hst & (Hz & _) & _). rewrite Hst in *. cbn in *. repeat split; auto.
    + apply dec_stable. intros Hb%logged_pos. lia.
    + destruct (inflight s) as [|id l] eqn:El; [done|]. exfalso.
      pose proof (rl_inflight _ _ Hr id) as Hid. rewrite El, count_id_cons, decide_True in Hid by done.
      assert (0 <= count_id id l) by (unfold count_id; rewrite len_length; lia).
      destruct (io_inflight r !! id) as [k|] eqn:Ek; cbn in Hid; unfold Datatypes.id in *; [|lia].
      apply elem_of_map_to_list in Ek. apply Hz in Ek. to_prop. lia.
  - intros (Hb & Hop & Hco & Hin). rewrite Hin in *. unfold logged in Hn. rewrite Hb in Hn.
    split; [|split; [split|]].
    + destruct (lstate r). cbn in *. f_equal; try lia. rewrite Hn. done.
    + intros [id k] Hk. apply elem_of_map_to_list in Hk. apply Z.eqb_eq.
      pose proof (rl_inflight _ _ Hr id) as Hid. rewrite Hk, Hin in Hid. done.
    + cbn in Hrd. lia.
    + cbn in Hwr. lia.
Qed.

Lemma reduce_log_runs c events :
  is_ok (reduce_log c events) = true <-> exists s, lrun abs_init events s /\ abs_final s.
Proof.
  unfold reduce_log. split.
  - intros H. destruct (foldM (log_step c) log_init events) as [r|] eqn:E; [|done].
    cbn [mbind result_bind] in H.
    destruct (log_run_forward c events _ _ _ rel_init E) as (s & Hs & Hr).
    exists s. split; [done|]. apply (log_final r s Hr).
    destruct (bool_decide _); cbn [require mbind result_bind] in H; [|done].
    by destruct (forallb _ _ && _ && _).
  - intros (s & Hs & Hf). destruct (log_run_backward c events _ _ _ rel_init Hs) as (r & -> & Hr).
    cbn [mbind result_bind]. destruct (proj2 (log_final r s Hr) Hf) as [H1 H2].
    rewrite H1. cbn [require mbind result_bind]. by rewrite H2.
Qed.

(** * The documented log

    [begin_op] admits an operation while no commit is in progress and the log
    has room for every open operation and this one.  The last [end_op] starts
    the commit, which writes the logged blocks, clears the log and is done.  The
    order of the writes inside a commit is left open here. *)

Definition room (s : AbsLog) : Prop := logged s + (open s + 1) * MAXOPBLOCKS <= LOGBLOCKS.

Inductive moves (s : AbsLog) (e : Event) : AbsLog -> Prop :=
| mv_cache : is_cache_point (point e) = true -> moves s e s
| mv_submit :
    point e = IO_SUBMIT -> in01 (aux e) = true -> moves s e (with_inflight (io_identity e :: inflight s) s)
| mv_complete l :
    point e = IO_COMPLETE -> in01 (aux e) = true -> inflight s ≡ₚ io_identity e :: l ->
    moves s e (with_inflight l s)
| mv_wait_commit : point e = LOG_WAIT_COMMIT -> commit s = 1 -> moves s e s
| mv_wait_space : point e = LOG_WAIT_SPACE -> commit s = 0 -> ~ room s -> moves s e s
| mv_begin : point e = LOG_ADMIT -> commit s = 0 -> room s -> moves s e (with_open (open s + 1) s)
| mv_end : point e = LOG_END -> 1 < open s -> aux e = 0 -> moves s e (with_open (open s - 1) s)
| mv_end_last :
    point e = LOG_END -> open s = 1 -> aux e = 1 -> moves s e (with_commit 1 (with_open 0 s))
| mv_append :
    point e = LOG_APPEND -> 0 < open s -> blockno e ∉ blocks s ->
    moves s e (with_blocks ({[ blockno e ]} ∪ blocks s) s)
| mv_absorb : point e = LOG_ABSORB -> 0 < open s -> blockno e ∈ blocks s -> moves s e s
| mv_write :
    point e = LOG_PAYLOAD \/ point e = LOG_HOME -> commit s = 1 -> blocks s <> ∅ -> moves s e s
| mv_header :
    point e = LOG_HEADER -> commit s = 1 -> blocks s <> ∅ -> aux e = logged s -> moves s e s
| mv_clear :
    point e = LOG_CLEAR -> commit s = 1 -> blocks s <> ∅ -> aux e = 0 -> moves s e (with_blocks ∅ s)
| mv_done :
    point e = LOG_COMMIT_DONE -> commit s = 1 -> blocks s = ∅ -> moves s e (with_commit 0 s).

(** Every event reports the log as it leaves it. *)
Definition dstep (s : AbsLog) (e : Event) (s' : AbsLog) : Prop :=
  moves s e s' /\ carries e (logged s') (open s') (commit s').

Inductive drun : AbsLog -> list Event -> AbsLog -> Prop :=
| drun_nil s : drun s [] s
| drun_cons s e s' l s'' : dstep s e s' -> drun s' l s'' -> drun s (e :: l) s''.

(** What the reducer does not ask of an event, [c] being the commit flag before it *)
Definition in_order (c : Z) (e : Event) : bool :=
  if (point e =? LOG_WAIT_COMMIT) || (point e =? LOG_WAIT_SPACE) || (point e =? LOG_ADMIT) then committing e =? c
  else if point e =? LOG_END then (aux e =? 1) || (0 <? outstanding e)
  else if (point e =? LOG_APPEND) || (point e =? LOG_ABSORB) then 0 <? outstanding e
  else true.

(** The commit flag after an event: from the last [end_op] to the end of its commit *)
Definition flag_after (c : Z) (e : Event) : Z :=
  if point e =? LOG_END then aux e else if point e =? LOG_COMMIT_DONE then 0 else c.

Fixpoint disciplined (c : Z) (events : list Event) : bool :=
  match events with
  | [] => true
  | e :: events => in_order c e && disciplined (flag_after c e) events
  end.

(** No operation is open during a commit. *)
Definition sane (s : AbsLog) : Prop := (commit s = 0 \/ commit s = 1) /\ (commit s = 1 -> open s = 0).

Ltac at_point H := rewrite ?H;
  cbn [Z.eqb Pos.eqb LOG_WAIT_COMMIT LOG_WAIT_SPACE LOG_ADMIT LOG_END LOG_APPEND LOG_ABSORB LOG_PAYLOAD LOG_HEADER
       LOG_HOME LOG_CLEAR LOG_COMMIT_DONE IO_SUBMIT IO_COMPLETE orb andb].

Lemma cache_not_log e : is_cache_point (point e) = true -> forall c, in_order c e = true /\ flag_after c e = c.
Proof.
  unfold is_cache_point, in_order, flag_after. intros H c.
  repeat match goal with |- context [point e =? ?p] =>
    destruct (Z.eqb_spec (point e) p) as [E|_]; [rewrite E in H; discriminate H|] end. done.
Qed.

Lemma lstep_flag s e s' : lstep s e s' -> commit s' = flag_after (commit s) e.
Proof.
  destruct 1 as [H|H|l H|H|H|H|H|H|H|H|[H|H]|H|H|H];
    try (unfold flag_after; at_point H; cbn; congruence). by rewrite (proj2 (cache_not_log e H _)).
Qed.

Lemma dstep_sane s e s' : dstep s e s' -> sane s -> sane s'.
Proof. intros [M _] [H1 H2]. destruct M; unfold sane in *; cbn; try done; auto; split; auto; lia. Qed.

Lemma checked_step s e s' : sane s -> lstep s e s' -> in_order (commit s) e = true -> dstep s e s'.
Proof.
  intros [S1 S2] H. unfold in_order.
  destruct H as [H C|H C A|l H C A P|H C|H C R|H C R|H C A|H C A O|H C K B|H C B|H C K B|H C K B A|H C K B A|H C B O K];
    try (at_point H); intros D; to_prop; destruct C as (C1 & C2 & C3).
  - split; [by apply mv_cache|done].
  - split; [by apply mv_submit|done].
  - split; [by apply mv_complete|done].
  - split; [apply mv_wait_commit; [done|lia]|split; [done|split; [done|lia]]].
  - split; [apply mv_wait_space; [done|lia|unfold room; lia]|split; [done|split; [done|lia]]].
  - split; [apply mv_begin; [done|lia|done]|split; [done|split; [done|cbn; lia]]].
  - assert (1 < open s) as O by (destruct D; lia). assert (commit s = 0) as K by lia.
    replace (with_commit 0 (with_open (open s - 1) s)) with (with_open (open s - 1) s) by (unfold with_open, with_commit; by rewrite K).
    split; [by apply mv_end|split; [done|split; [done|cbn; lia]]].
  - split; [by apply mv_end_last|done].
  - split; [apply mv_append; [done|lia|done]|]. split; [by rewrite logged_append|split; [done|cbn; lia]].
  - split; [apply mv_absorb; [done|lia|done]|done].
  - split; [by apply mv_write|split; [done|split; [done|lia]]].
  - split; [by apply mv_header|split; [done|split; [done|lia]]].
  - split; [by apply mv_clear|split; [done|split; [cbn; rewrite S2; lia|cbn; lia]]].
  - split; [by apply mv_done|]. split; [|split; [cbn; lia|done]]. rewrite C1. unfold logged. cbn. by rewrite B.
Qed.

Lemma documented_step s e s' : sane s -> dstep s e s' -> lstep s e s' /\ in_order (commit s) e = true.
Proof.
  intros [S1 S2] [M (C1 & C2 & C3)].
  destruct M as [H|H A|l H A P|H K|H K R|H K R|H O A|H O A|H O B|H O B|H K B|H K B A|H K B A|H K B];
    cbn [blocks open commit inflight with_blocks with_open with_commit with_inflight] in *.
  - split; [by apply ls_cache|]. by apply cache_not_log.
  - split; [by apply ls_submit|]. unfold in_order. by at_point H.
  - split; [by apply ls_complete|]. unfold in_order. by at_point H.
  - split; [apply ls_wait_commit; [done|split; [done|split; [done|lia]]]|]. unfold in_order. at_point H. lia.
  - split; [apply ls_wait_space; [done|split; [done|split; [done|lia]]|unfold room in R; lia]|].
    unfold in_order. at_point H. lia.
  - split; [apply ls_admit; [done|split; [done|split; [done|lia]]|done]|]. unfold in_order. at_point H. lia.
  - assert (commit s = 0) as K by lia.
    replace (with_open (open s - 1) s) with (with_commit 0 (with_open (open s - 1) s)) by (unfold with_open, with_commit; by rewrite K).
    split; [apply ls_end; [done|split; [done|split; [done|lia]]|done]|]. unfold in_order. at_point H. lia.
  - split; [by apply ls_end_last|]. unfold in_order. at_point H. lia.
  - split; [apply ls_append; [done|split; [by rewrite logged_append in C1|split; [done|lia]]|lia|done]|].
    unfold in_order. at_point H. lia.
  - split; [by apply ls_absorb|]. unfold in_order. at_point H. lia.
  - split; [apply ls_write; [done|split; [done|split; [done|lia]]|done|done]|].
    unfold in_order. by destruct H as [H|H]; at_point H.
  - split; [apply ls_header; [done|split; [done|split; [done|lia]]|done..]|]. unfold in_order. by at_point H.
  - split; [apply ls_clear; [done|split; [done|split; [lia|lia]]|done..]|]. unfold in_order. by at_point H.
  - split; [apply ls_done; [done| |done|auto|done]|]; [|unfold in_order; by at_point H].
    split; [|split; [lia|done]]. rewrite C1. unfold logged. cbn. by rewrite B.
Qed.

Lemma documented_runs s events s' : sane s ->
  lrun s events s' /\ disciplined (commit s) events = true <-> drun s events s'.
Proof.
  intros S. split.
  - intros [H D]. induction H as [s|s e s1 l s2 Hs _ IH]; [constructor|]. cbn in D. to_prop.
    pose proof (checked_step _ _ _ S Hs H) as Hd. econstructor; [done|].
    apply IH; [by eapply dstep_sane|]. by rewrite (lstep_flag _ _ _ Hs).
  - induction 1 as [s|s e s1 l s2 Hs _ IH]; [split; [constructor|done]|].
    destruct (documented_step _ _ _ S Hs) as [Hl Ho]. destruct IH as [Hr Hd]; [by eapply dstep_sane|].
    split; [by econstructor|]. cbn. rewrite <- (lstep_flag _ _ _ Hl), Ho. done.
Qed.

Lemma reduce_log_documented c events :
  is_ok (reduce_log c events) = true /\ disciplined 0 events = true <->
  exists s, drun abs_init events s /\ abs_final s.
Proof.
  assert (sane abs_init) as S by (split; auto).
  rewrite reduce_log_runs. split.
  - intros [(s & Hr & Hf) D]. exists s. split; [|done]. by apply documented_runs.
  - intros (s & Hr & Hf). apply (documented_runs _ _ _ S) in Hr as [Hr D]. split; [by exists s|done].
Qed.
