(* ===== verification/PCacheSpec.v ===== *)
(** The cache reducer against an abstract buffer.

    For every buffer identity [(slot, generation)] the events that name it form
    a run of the automaton [bstep]: published or first hit, then hit, locked,
    pinned, unpinned and released.  Across identities, a slot holds one identity
    at a time and a block is cached by one slot at a time. *)

From stdpp Require Import base tactics list gmap strings numbers list_numbers.
From S2P Require Import Prelude PyText PyBytes PyMarkers PTrace PCommon PCache.
Open Scope Z_scope.

(** The event acts on the buffer it names. *)
Definition active (e : Event) : bool :=
  is_cache_point (point e) && negb (point e =? CACHE_LOOKUP) && negb (point e =? CACHE_GUARD).

(** One event of a buffer; [None] is a buffer not seen yet. *)
Inductive bstep (e : Event) : option BufState -> BufState -> Prop :=
| b_publish :
    point e = CACHE_PUBLISH -> ref e = 1 -> bstep e None (new_state e 1)
| b_first_hit :
    point e = CACHE_HIT -> 1 <= ref e -> bstep e None (new_state e (ref e))
| b_hit st :
    point e = CACHE_HIT -> bs_key st = event_key e -> bs_domain st = domain e ->
    ref e = raw st + 1 -> pid e ∉ waiters st -> owner st <> Some (pid e) ->
    bstep e (Some st)
      (set_counts st (raw st + 1) (ordinary st + 1) (pins st) (owner st) ({[ pid e ]} ∪ waiters st))
| b_sleep st :
    point e = CACHE_SLEEP -> bs_key st = event_key e -> bs_domain st = domain e ->
    ref e = raw st -> pid e ∈ waiters st -> owner st = None ->
    bstep e (Some st)
      (set_counts st (raw st) (ordinary st) (pins st) (Some (pid e)) (waiters st ∖ {[ pid e ]}))
| b_release st :
    point e = CACHE_RELEASE -> bs_key st = event_key e -> bs_domain st = domain e ->
    ref e = raw st - 1 -> owner st = Some (pid e) -> 0 < ordinary st ->
    bstep e (Some st)
      (set_counts st (raw st - 1) (ordinary st - 1) (pins st) None (waiters st))
| b_pin st :
    point e = CACHE_PIN -> bs_key st = event_key e -> bs_domain st = domain e ->
    ref e = raw st + 1 -> owner st = Some (pid e) -> pins st = 0 ->
    bstep e (Some st) (set_counts st (raw st + 1) (ordinary st) 1 (owner st) (waiters st))
| b_unpin st :
    point e = CACHE_UNPIN -> bs_key st = event_key e -> bs_domain st = domain e ->
    ref e = raw st - 1 -> owner st = Some (pid e) -> pins st = 1 ->
    bstep e (Some st) (set_counts st (raw st - 1) (ordinary st) 0 (owner st) (waiters st)).

Inductive brun_from (o0 : option BufState) : list Event -> option BufState -> Prop :=
| brun_nil : brun_from o0 [] o0
| brun_snoc l o e st : brun_from o0 l o -> bstep e o st -> brun_from o0 (l ++ [e]) (Some st).

(** The runs of a buffer that has not been seen before. *)
Abbreviation brun := (brun_from None).

(** The events of a trace that act on the buffer [id]. *)
Definition events_of (id : ident) (events : list Event) : list Event :=
  filter (fun e => active e = true /\ event_identity e = id) events.

Lemma active_points e :
  active e = true ->
  point e = CACHE_HIT \/ point e = CACHE_PUBLISH \/ point e = CACHE_SLEEP \/
  point e = CACHE_RELEASE \/ point e = CACHE_PIN \/ point e = CACHE_UNPIN.
Proof.
  unfold active, is_cache_point, CACHE_LOOKUP, CACHE_GUARD, CACHE_HIT, CACHE_PUBLISH, CACHE_SLEEP,
    CACHE_RELEASE, CACHE_PIN, CACHE_UNPIN. intros H. to_prop. lia.
Qed.

(** * One event of the reducer *)

Lemma states_register e st r : states (register_state e st r) = <[event_identity e := st]> (states r).
Proof. done. Qed.

(** What an accepted publication checked. *)
Lemma cache_publish_inv c r e r' :
  cache_publish c r e = Ok r' ->
  ref e = 1 /\ states r !! event_identity e = None /\
  states r' = <[event_identity e := new_state e 1]> (states r) /\
  current_slot r' = <[slot e := event_identity e]> (current_slot r) /\
  exists m, (match current_slot r !! slot e with
             | Some old => if decide (old = event_identity e) then m = current_key r else
                 old.2 < buffer_generation e /\
                 match states r !! old with
                 | Some st => idle st = true /\ m = delete (bs_key st) (current_key r)
                 | None => m = current_key r
                 end
             | None => m = current_key r
             end) /\
    (m !! event_key e = None \/ m !! event_key e = Some (event_identity e)) /\
    current_key r' = <[event_key e := event_identity e]> m.
Proof.
  intros H. unfold cache_publish in H. cbv zeta in H.
  apply bind_ok in H as ([] & H1 & H). apply require_ok in H1. to_prop. split; [done|].
  apply bind_ok in H as (r1 & Hr1 & H).
  apply bind_ok in H as ([] & H2 & H). apply require_ok in H2.
  apply bind_ok in H as ([] & H3 & H). apply require_ok in H3. to_prop. injection H as <-.
  assert (Hnd : current_key r1 !! event_key e = None \/
                current_key r1 !! event_key e = Some (event_identity e)).
  { unfold no_duplicate in H2. destruct (current_key r1 !! event_key e); [|auto].
    to_prop. subst. auto. }
  assert (Hr : states r1 = states r /\ current_slot r1 = current_slot r /\
    match current_slot r !! slot e with
    | Some old => if decide (old = event_identity e) then current_key r1 = current_key r else
        old.2 < buffer_generation e /\
        match states r !! old with
        | Some st => idle st = true /\ current_key r1 = delete (bs_key st) (current_key r)
        | None => current_key r1 = current_key r
        end
    | None => current_key r1 = current_key r
    end).
  { destruct (current_slot r !! slot e) as [old|]; [|by inv_ok].
    case_bool_decide; [inv_ok; by rewrite decide_True|]. rewrite decide_False by done.
    inv_ok. to_prop. destruct (states r !! old); naive_solver. }
  destruct Hr as (E1 & E2 & E3). rewrite E1 in H3. split; [done|].
  unfold remember_peak, register_state. cbn [states current_slot current_key].
  rewrite E1, E2. eauto 8.
Qed.

(** What an accepted hit checked. *)
Lemma cache_hit_inv c r e r' :
  cache_hit c r e = Ok r' ->
  (current_key r !! event_key e = None \/ current_key r !! event_key e = Some (event_identity e)) /\
  ((states r !! event_identity e = None /\ 1 <= ref e /\
    (current_slot r !! slot e = None \/ current_slot r !! slot e = Some (event_identity e)) /\
    states r' = <[event_identity e := new_state e (ref e)]> (states r) /\
    current_slot r' = <[slot e := event_identity e]> (current_slot r) /\
    current_key r' = <[event_key e := event_identity e]> (current_key r)) \/
   (exists st, states r !! event_identity e = Some st /\
      bs_key st = event_key e /\ bs_domain st = domain e /\ ref e = raw st + 1 /\
      pid e ∉ waiters st /\ owner st <> Some (pid e) /\
      states r' = <[event_identity e := set_counts st (raw st + 1) (ordinary st + 1) (pins st)
                       (owner st) ({[ pid e ]} ∪ waiters st)]> (states r) /\
      current_slot r' = current_slot r /\ current_key r' = current_key r)).
Proof.
  intros H. unfold cache_hit in H. cbv zeta in H.
  apply bind_ok in H as ([] & H1 & H). apply require_ok in H1. split.
  { unfold no_duplicate in H1. destruct (current_key r !! event_key e); [|auto]. to_prop. subst. auto. }
  destruct (states r !! event_identity e) as [st|]; inv_ok; to_prop; [right|left].
  - exists st. repeat split; auto.
  - repeat split; auto. destruct (current_slot r !! slot e); [|auto]. to_prop. subst. auto.
Qed.

(** What an accepted lock, release, pin or unpin checked. *)
Lemma cache_locked_inv c r e r' :
  active e = true -> point e <> CACHE_HIT -> point e <> CACHE_PUBLISH ->
  cache_locked_step c r e = Ok r' ->
  exists st st', states r !! event_identity e = Some st /\
    current_slot r !! slot e = Some (event_identity e) /\ bstep e (Some st) st' /\
    states r' = <[event_identity e := st']> (states r) /\
    current_slot r' = current_slot r /\ current_key r' = current_key r.
Proof.
  intros Ha Hh Hp H. unfold cache_locked_step in H. cbv zeta in H.
  destruct (states r !! event_identity e) as [st|]; [|done]. inv_ok. to_prop.
  destruct (active_points e Ha) as [?|[?|[Hq|[Hq|[Hq|Hq]]]]]; try done;
    rewrite Hq in H; cbn [Z.eqb Pos.eqb CACHE_SLEEP CACHE_RELEASE CACHE_PIN CACHE_UNPIN] in H;
    inv_ok; to_prop; exists st; eexists; repeat (split; [done|]); (split; [|done]).
  - by apply b_sleep.
  - by apply b_release.
  - by apply b_pin.
  - by apply b_unpin.
Qed.

Lemma cache_step_inv c r e r' :
  cache_step c r e = Ok r' ->
  if active e then
    exists st', bstep e (states r !! event_identity e) st' /\
      states r' = <[event_identity e := st']> (states r)
  else states r' = states r /\ current_slot r' = current_slot r /\ current_key r' = current_key r.
Proof.
  intros H. unfold cache_step in H. unfold active.
  destruct (is_cache_point (point e)) eqn:Ec; cbn [negb andb] in *; [|by inv_ok].
  destruct (point e =? CACHE_LOOKUP) eqn:El; cbn [negb andb orb] in *.
  { inv_ok. by destruct (point e =? CACHE_GUARD). }
  destruct (point e =? CACHE_GUARD) eqn:Eg; cbn [negb andb orb] in *; [by inv_ok|].
  assert (Ha : active e = true) by (unfold active; by rewrite Ec, El, Eg).
  destruct (point e =? CACHE_PUBLISH) eqn:Ep; [|destruct (point e =? CACHE_HIT) eqn:Eh]; to_prop.
  - apply cache_publish_inv in H as (Hr & Hn & Hs & _). exists (new_state e 1). rewrite Hn.
    split; [by apply b_publish|done].
  - apply cache_hit_inv in H as (_ & [(Hn & Hr & _ & Hs & _)|(st & Hst & Hk & Hd & Hr & Hw & Ho & Hs & _)]).
    + exists (new_state e (ref e)). rewrite Hn. split; [by apply b_first_hit|done].
    + eexists. rewrite Hst. split; [by apply b_hit|done].
  - apply cache_locked_inv in H as (st & st' & Hst & _ & Hb & Hs & _); [|done..].
    exists st'. rewrite Hst. done.
Qed.

(** The events of a buffer are a run of its automaton. *)
Lemma cache_runs c events r :
  foldM (cache_step c) cache_init events = Ok r ->
  forall id, brun (events_of id events) (states r !! id).
Proof.
  intros H. apply (foldM_inv (cache_step c)
    (fun done r => forall id, brun (events_of id done) (states r !! id)) events cache_init r); [| |done].
  - intros id. cbn. rewrite lookup_empty. constructor.
  - clear. intros done e r r' _ IH H id. apply cache_step_inv in H.
    unfold events_of. rewrite filter_app, filter_cons, filter_nil.
    destruct (active e) eqn:Ha.
    + destruct H as (st' & Hb & Hs). rewrite Hs. destruct (decide (event_identity e = id)) as [<-|Hne].
      * rewrite lookup_insert_eq, decide_True by done. econstructor; [apply IH|done].
      * rewrite lookup_insert_ne, decide_False by naive_solver. rewrite app_nil_r. apply IH.
    + destruct H as (Hs & _). rewrite Hs, decide_False by naive_solver. rewrite app_nil_r. apply IH.
Qed.

(** * Invariants of one buffer *)

Definition holders (st : BufState) : Z :=
  Z.of_nat (base.size (waiters st)) + match owner st with Some _ => 1 | None => 0 end.

(** References are accounted for: the raw count is the ordinary references
    plus the pin; every waiter and the owner hold an ordinary reference. *)
Record buf_ok (st : BufState) : Prop := {
  bo_raw : raw st = ordinary st + pins st;
  bo_pins : pins st = 0 \/ pins st = 1;
  bo_holders : holders st <= ordinary st;
  bo_owner p : owner st = Some p -> p ∉ waiters st
}.

Lemma bstep_ok e o st : (forall st0, o = Some st0 -> buf_ok st0) -> bstep e o st -> buf_ok st.
Proof.
  intros Ho Hb. destruct Hb as [Hp Hr|Hp Hr|st Hp _ _ Hr Hw Hn|st Hp _ _ Hr Hw Hn|st Hp _ _ Hr Hn H0
    |st Hp _ _ Hr Hn H0|st Hp _ _ Hr Hn H0];
    [| |specialize (Ho st eq_refl); destruct Ho as [H1 H2 H3 H4]; unfold holders in H3..].
  - split; unfold holders; cbn; rewrite ?size_singleton; (done || lia || auto).
  - split; unfold holders; cbn; rewrite ?size_singleton; (done || lia || auto).
  - split; unfold holders; cbn [set_counts raw ordinary pins owner waiters]; auto; try lia.
    + rewrite size_union, size_singleton by set_solver. lia.
    + intros p Hp'. specialize (H4 p Hp'). set_solver.
  - split; unfold holders; cbn [set_counts raw ordinary pins owner waiters]; auto; try lia.
    + rewrite Hn in H3. rewrite size_difference, size_singleton by set_solver.
      assert (base.size (waiters st) <> 0%nat) by (apply size_non_empty_iff; set_solver). lia.
    + intros p [= <-]. set_solver.
  - split; unfold holders; cbn [set_counts raw ordinary pins owner waiters]; auto; try lia; try done.
    rewrite Hn in H3. lia.
  - split; unfold holders; cbn [set_counts raw ordinary pins owner waiters]; auto; lia.
  - split; unfold holders; cbn [set_counts raw ordinary pins owner waiters]; auto; lia.
Qed.

Lemma brun_ok l o st : brun l o -> o = Some st -> buf_ok st.
Proof.
  intros H. revert st. induction H as [|l o e st1 Hrun IH Hb]; intros st [=]; subst.
  by eapply bstep_ok.
Qed.

(** * Runs *)

Lemma brun_app o0 l1 l2 o :
  brun_from o0 (l1 ++ l2) o <-> exists o1, brun_from o0 l1 o1 /\ brun_from o1 l2 o.
Proof.
  revert o. induction l2 as [|e l2 IH] using rev_ind; intros o.
  - rewrite app_nil_r. split.
    + intros H. exists o. split; [done|constructor].
    + intros (o1 & H1 & H2). inversion H2; subst; [done|].
      by destruct (app_nil_r l) || (destruct l).
  - rewrite app_assoc. split.
    + intros H. inversion H as [Hn|l o1 e' st Hl Hb Heq]; subst; [by destruct (l1 ++ l2)|].
      apply app_inj_tail in Heq as [-> ->]. apply IH in Hl as (o2 & H1 & H2).
      exists o2. split; [done|]. by econstructor.
    + intros (o1 & H1 & H2). inversion H2 as [Hn|l o2 e' st Hl Hb Heq]; subst; [by destruct l2|].
      apply app_inj_tail in Heq as [-> ->]. econstructor; [|done]. apply IH. eauto.
Qed.

Lemma brun_one o0 e o : brun_from o0 [e] o <-> exists st, bstep e o0 st /\ o = Some st.
Proof.
  split.
  - intros H. inversion H as [|l o1 e' st Hl Hb Heq]; subst.
    destruct l as [|x l]; [|by destruct l]. injection Heq as <-.
    inversion Hl; subst; [eauto|]. by destruct l.
  - intros (st & Hb & ->). apply (brun_snoc o0 [] o0); [constructor|done].
Qed.

Lemma brun_cons o0 e l o :
  brun_from o0 (e :: l) o <-> exists st, bstep e o0 st /\ brun_from (Some st) l o.
Proof.
  change (e :: l) with ([e] ++ l). rewrite brun_app. split.
  - intros (o1 & (st & Hb & ->)%brun_one & H). eauto.
  - intros (st & Hb & H). exists (Some st). split; [apply brun_one; eauto|done].
Qed.

(** Once locked by [p], the buffer stays locked by [p] until [p] releases it. *)
Lemma owner_kept st p l o :
  brun_from (Some st) l o -> owner st = Some p ->
  (exists e, e ∈ l /\ point e = CACHE_RELEASE /\ pid e = p) \/
  (exists st', o = Some st' /\ owner st' = Some p).
Proof.
  intros H Ho. induction H as [|l o e st1 Hrun IH Hb]; [eauto|].
  destruct IH as [(f & Hf & Hq)|(st2 & -> & Ho2)].
  { left. exists f. split; [set_solver|done]. }
  inversion Hb; subst; try (right; eexists; split; [done|]; done).
  - congruence.
  - left. exists e. split; [set_solver|]. split; [done|congruence].
Qed.

(** Counting the events at a point. *)
Definition at_point (p : Z) (l : list Event) : Z := len (filter (fun e => point e = p) l).

(** References held before the first event of the run: a hit may be the first
    the trace shows of a buffer. *)
Definition initial_refs (l : list Event) : Z :=
  match l with e :: _ => ref e - 1 | [] => 0 end.

Lemma at_point_snoc p l e :
  at_point p (l ++ [e]) = at_point p l + (if decide (point e = p) then 1 else 0).
Proof.
  unfold at_point. rewrite filter_app, len_app, filter_cons, filter_nil. by destruct (decide (point e = p)).
Qed.

Definition pinned (l : list Event) : Z := at_point CACHE_PIN l - at_point CACHE_UNPIN l.
(** References taken and not released, by these events *)
Definition taken (l : list Event) : Z :=
  at_point CACHE_PUBLISH l + at_point CACHE_HIT l - at_point CACHE_RELEASE l.
Definition referenced (l : list Event) : Z := initial_refs l + taken l.

Lemma at_point_app p l l' : at_point p (l ++ l') = at_point p l + at_point p l'.
Proof. unfold at_point. by rewrite filter_app, len_app. Qed.
Lemma taken_app l l' : taken (l ++ l') = taken l + taken l'.
Proof. unfold taken. rewrite !at_point_app. lia. Qed.
Lemma pinned_app l l' : pinned (l ++ l') = pinned l + pinned l'.
Proof. unfold pinned. rewrite !at_point_app. lia. Qed.
Lemma initial_refs_app l l' : l <> [] -> initial_refs (l ++ l') = initial_refs l.
Proof. by destruct l. Qed.

Lemma initial_refs_snoc l e : l <> [] -> initial_refs (l ++ [e]) = initial_refs l.
Proof. by destruct l. Qed.

Lemma brun_counts l o st :
  brun l o -> o = Some st -> pins st = pinned l /\ ordinary st = referenced l.
Proof.
  intros H. revert st. induction H as [|l o e st1 Hrun IH Hb]; intros st [=]; subst.
  unfold pinned, referenced, taken in *. rewrite !at_point_snoc.
  destruct Hb as [Hp Hr|Hp Hr|st0 Hp _ _ Hr Hw Hn|st0 Hp _ _ Hr Hw Hn|st0 Hp _ _ Hr Hn H0
    |st0 Hp _ _ Hr Hn H0|st0 Hp _ _ Hr Hn H0]; rewrite !Hp;
    change (decide (?a = ?b)) with (Z.eq_dec a b);
    cbn [set_counts new_state ordinary pins].
  1,2: assert (l = []) as -> by (inversion Hrun; subst; done); cbn; lia.
  all: assert (l <> []) as Hl by (intros ->; inversion Hrun; by destruct l);
    rewrite (initial_refs_snoc l e Hl); destruct (IH st0 eq_refl) as [IH1 IH2]; cbn; lia.
Qed.

Lemma brun_ref l e st : brun (l ++ [e]) (Some st) -> ref e = raw st.
Proof.
  intros H. inversion H as [Hn|l' o e' st' Hl Hb Heq]; subst.
  apply app_inj_tail in Heq as [-> ->]. destruct Hb; cbn; lia.
Qed.

(** * Slots and blocks *)

(** A slot holds one identity, a block has one live identity, and an identity
    that left its slot is older than the one that replaced it. *)
Record cache_inv (r : CacheRed) : Prop := {
  cv_slot s id : current_slot r !! s = Some id ->
    id.1 = s /\ exists st, states r !! id = Some st /\ current_key r !! bs_key st = Some id;
  cv_key k id : current_key r !! k = Some id ->
    current_slot r !! id.1 = Some id /\ exists st, states r !! id = Some st /\ bs_key st = k;
  cv_state id st : states r !! id = Some st ->
    exists cur, current_slot r !! id.1 = Some cur /\
      (id = cur \/ id.2 < cur.2)
}.

Lemma cache_inv_init : cache_inv cache_init.
Proof. split; intros *; cbn; rewrite lookup_empty; done. Qed.

Lemma bstep_key e st st' : bstep e (Some st) st' -> bs_key st' = bs_key st.
Proof. intros H. by inversion H. Qed.

(** Updating the state of the identity in a slot. *)
Lemma cache_inv_update r r' e st st' :
  cache_inv r -> states r !! event_identity e = Some st -> bs_key st' = bs_key st ->
  states r' = <[event_identity e := st']> (states r) ->
  current_slot r' = current_slot r -> current_key r' = current_key r -> cache_inv r'.
Proof.
  intros Hv Hst Hk Es Ec Ek. split; intros *; rewrite ?Es, ?Ec, ?Ek.
  - intros H. destruct (cv_slot _ Hv _ _ H) as (H1 & st0 & H2 & H3). split; [done|].
    destruct (decide (event_identity e = id)) as [<-|Hne].
    + rewrite lookup_insert_eq. exists st'. split; [done|]. rewrite Hk. congruence.
    + rewrite lookup_insert_ne by done. eauto.
  - intros H. destruct (cv_key _ Hv _ _ H) as (H1 & st0 & H2 & H3). split; [done|].
    destruct (decide (event_identity e = id)) as [<-|Hne].
    + rewrite lookup_insert_eq. exists st'. split; [done|]. congruence.
    + rewrite lookup_insert_ne by done. eauto.
  - destruct (decide (event_identity e = id)) as [<-|Hne].
    + intros _. by apply (cv_state _ Hv _ st).
    + rewrite lookup_insert_ne by done. apply Hv.
Qed.

(** Registering a new identity in a slot whose old identity, if any, is idle
    and older, and has lost its block. *)
Lemma cache_inv_register r r' e st m :
  cache_inv r -> states r !! event_identity e = None -> bs_key st = event_key e ->
  match current_slot r !! slot e with
  | Some old => old.2 < buffer_generation e /\
      exists st0, states r !! old = Some st0 /\ idle st0 = true /\ m = delete (bs_key st0) (current_key r)
  | None => m = current_key r
  end ->
  m !! event_key e = None ->
  states r' = <[event_identity e := st]> (states r) ->
  current_slot r' = <[slot e := event_identity e]> (current_slot r) ->
  current_key r' = <[event_key e := event_identity e]> m -> cache_inv r'.
Proof.
  intros Hv Hn Hk Hold Hm Es Ec Ek. split; intros *; rewrite ?Es, ?Ec, ?Ek.
  - destruct (decide (slot e = s)) as [<-|Hs].
    + rewrite lookup_insert_eq. intros [= <-]. split; [done|]. exists st.
      rewrite lookup_insert_eq, Hk, lookup_insert_eq. done.
    + rewrite lookup_insert_ne by done. intros H.
      destruct (cv_slot _ Hv _ _ H) as (H1 & st0 & H2 & H3). split; [done|].
      exists st0. assert (event_identity e <> id) by (intros <-; congruence).
      rewrite lookup_insert_ne by done. split; [done|].
      assert (m !! bs_key st0 = Some id) as Hmk.
      { destruct (current_slot r !! slot e) as [old|] eqn:Eo; [|by rewrite Hold].
        destruct Hold as (_ & st1 & Hst1 & _ & ->). rewrite lookup_delete_ne; [done|].
        intros Heq. destruct (cv_slot _ Hv _ _ Eo) as (Ho1 & st2 & Ho2 & Ho3).
        rewrite Hst1 in Ho2. injection Ho2 as <-. rewrite Heq, H3 in Ho3. injection Ho3 as ->.
        congruence. }
      rewrite lookup_insert_ne; [done|]. intros Heq. rewrite Heq in Hm. congruence.
  - destruct (decide (event_key e = k)) as [<-|Hke].
    + rewrite lookup_insert_eq. intros [= <-]. cbn [event_identity fst]. rewrite lookup_insert_eq.
      split; [done|]. exists st. by rewrite lookup_insert_eq.
    + rewrite lookup_insert_ne by done. intros H.
      assert (current_key r !! k = Some id /\ slot e <> id.1) as [Hkr Hsl].
      { destruct (current_slot r !! slot e) as [old|] eqn:Eo.
        - destruct Hold as (_ & st1 & Hst1 & _ & ->). apply lookup_delete_Some in H as [Hne H].
          split; [done|]. intros Heq. destruct (cv_key _ Hv _ _ H) as (Hc & st2 & Hst2 & Hk2).
          rewrite <-Heq, Eo in Hc. injection Hc as ->. congruence.
        - subst m. split; [done|]. intros Heq. destruct (cv_key _ Hv _ _ H) as (Hc & _). congruence. }
      destruct (cv_key _ Hv _ _ Hkr) as (Hc & st2 & Hst2 & Hk2).
      rewrite lookup_insert_ne by done. split; [done|]. exists st2.
      rewrite lookup_insert_ne; [done|]. intros <-. congruence.
  - destruct (decide (event_identity e = id)) as [<-|Hid].
    + intros _. exists (event_identity e). cbn [event_identity fst]. rewrite lookup_insert_eq. auto.
    + rewrite lookup_insert_ne by done. intros H.
      destruct (cv_state _ Hv _ _ H) as (cur & Hc & Hcur).
      destruct (decide (slot e = id.1)) as [Heq|Hs]; [|rewrite lookup_insert_ne by done; eauto].
      rewrite Heq, lookup_insert_eq. exists (event_identity e). split; [done|right].
      rewrite Heq, Hc in Hold. destruct Hold as (Hlt & _).
      cbn [event_identity snd]. destruct Hcur as [->|Hlt']; [done|lia].
Qed.

Lemma cache_step_slots c r e r' : cache_inv r -> cache_step c r e = Ok r' -> cache_inv r'.
Proof.
  intros Hv H. pose proof (cache_step_inv c r e r' H) as Hi. unfold cache_step in H. unfold active in Hi.
  destruct (is_cache_point (point e)) eqn:Ec; cbn [negb andb] in *; [|by inv_ok].
  destruct (point e =? CACHE_LOOKUP) eqn:El; cbn [negb andb orb] in *.
  { destruct Hi as (E1 & E2 & E3). split; rewrite E1, E2, ?E3; apply Hv. }
  destruct (point e =? CACHE_GUARD) eqn:Eg; cbn [negb andb orb] in *.
  { destruct Hi as (E1 & E2 & E3). split; rewrite E1, E2, ?E3; apply Hv. }
  assert (Ha : active e = true) by (unfold active; by rewrite Ec, El, Eg).
  assert (Hself : forall s, current_slot r !! s = Some (event_identity e) ->
            states r !! event_identity e = None -> False).
  { intros s Hs Hn. destruct (cv_slot _ Hv _ _ Hs) as (_ & st & Hst & _). congruence. }
  assert (Hselfk : forall k, current_key r !! k = Some (event_identity e) ->
            states r !! event_identity e = None -> False).
  { intros k Hk Hn. destruct (cv_key _ Hv _ _ Hk) as (_ & st & Hst & _). congruence. }
  destruct (point e =? CACHE_PUBLISH) eqn:Ep; [|destruct (point e =? CACHE_HIT) eqn:Eh]; to_prop.
  - apply cache_publish_inv in H as (_ & Hn & Es & Ecs & m & Hold & Hm & Ek).
    apply (cache_inv_register r r' e (new_state e 1) m); auto.
    + destruct (current_slot r !! slot e) as [old|] eqn:Eo; [|done].
      rewrite decide_False in Hold by (intros ->; eauto). destruct Hold as [Hlt Hold]. split; [done|].
      destruct (cv_slot _ Hv _ _ Eo) as (_ & st & Hst & _). rewrite Hst in Hold. naive_solver.
    + destruct Hm as [?|Hm]; [done|]. exfalso.
      destruct (current_slot r !! slot e) as [old|]; [|subst; eauto].
      destruct (decide _); [subst; eauto|]. destruct Hold as [_ Hold].
      destruct (states r !! old); [|subst; eauto]. destruct Hold as [_ ->].
      apply lookup_delete_Some in Hm as [_ Hm]. eauto.
  - apply cache_hit_inv in H as (Hd & [(Hn & _ & Hsl & Es & Ecs & Ek)|(st & Hst & Hk & _ & _ & _ & _ & Es & Ecs & Ek)]).
    + apply (cache_inv_register r r' e (new_state e (ref e)) (current_key r)); auto.
      * destruct Hsl as [->|Hsl]; [done|]. exfalso; eauto.
      * destruct Hd as [?|Hd]; [done|]. exfalso; eauto.
    + apply (cache_inv_update r r' e st) with (4 := Es); auto.
  - apply cache_locked_inv in H as (st & st' & Hst & Hsl & Hb & Es & Ecs & Ek); [|done..].
    eapply (cache_inv_update r r' e st st'); eauto. by eapply bstep_key.
Qed.
