(* ===== verification/PProps.v ===== *)
(** The guarantees of the persistence oracle's reducers: what a trace that was
    accepted by [reduce_log] and [reduce_cache] satisfies, event by event. *)

From stdpp Require Import base tactics list gmap strings numbers list_numbers.
From S2P Require Import Prelude PyText PyBytes PyJson PyMarkers PTrace PScen PCommon PCache PLog PCase PSynth.
From S2P Require Import PSelf PLogSpec PCacheSpec.
Open Scope Z_scope.

(** * The log *)


(** The synthetic traces of the self test are disciplined. *)
Lemma synthetic_disciplined :
  forallb (fun c => disciplined 0 (st_events (synthetic_stream c))) all_cases = true.
Proof. vm_compute. reflexivity. Qed.

(** Cutting a trace at an event, for the witnesses. *)
Definition event_at (i : nat) (l : list Event) : Event :=
  nth i l (Build_Event 0 0 0 0 0 0 0 0 0 0 0 0 0 0 0).

(** Operations begun and not ended by a trace. *)
Definition open_ops (l : list Event) : Z := at_point LOG_ADMIT l - at_point LOG_END l.

(** Blocks appended to the log since it was last cleared. *)
Definition log_blocks (l : list Event) : gset Z :=
  foldl (fun b e => if point e =? LOG_APPEND then {[ blockno e ]} ∪ b
                    else if point e =? LOG_CLEAR then ∅ else b) ∅ l.

Definition io_count (p : Z) (id : io_ident) (l : list Event) : Z :=
  len (filter (fun e => point e = p /\ io_identity e = id) l).

Lemma io_count_snoc p id l e :
  io_count p id (l ++ [e]) =
  io_count p id l + (if decide (point e = p /\ io_identity e = id) then 1 else 0).
Proof.
  unfold io_count. rewrite filter_app, len_app, filter_cons, filter_nil.
  by destruct (decide (point e = p /\ io_identity e = id)).
Qed.

(** The abstract state is a function of the events. *)
Record summary_of (l : list Event) (s : AbsLog) : Prop := {
  so_open : open s = open_ops l;
  so_blocks : blocks s = log_blocks l;
  so_inflight id : count_id id (inflight s) = io_count IO_SUBMIT id l - io_count IO_COMPLETE id l
}.

(** Points are constants: decide which one an event has. *)
Ltac points :=
  unfold is_cache_point, LOG_ADMIT, LOG_END, LOG_APPEND, LOG_ABSORB, LOG_CLEAR, LOG_PAYLOAD,
    LOG_HEADER, LOG_HOME, LOG_COMMIT_DONE, LOG_WAIT_COMMIT, LOG_WAIT_SPACE, IO_SUBMIT,
    IO_COMPLETE in *; to_prop;
  repeat match goal with
  | |- context [decide ?P] => destruct (decide P)
  | |- context [?a =? ?b] => destruct (Z.eqb_spec a b)
  end; try (exfalso; naive_solver lia); try lia.

(** The event is at another point than this case says. *)
Ltac other_point :=
  exfalso;
  repeat match goal with H : point ?e = _, H' : context [point ?e] |- _ => rewrite H in H'; clear H end;
  done.

Lemma lstep_open s e s' :
  lstep s e s' ->
  open s' = open s + (if decide (point e = LOG_ADMIT) then 1 else 0)
                   - (if decide (point e = LOG_END) then 1 else 0).
Proof. intros Hs. destruct Hs; cbn [open with_open with_commit with_blocks with_inflight]; points. Qed.

Lemma lstep_blocks s e s' :
  lstep s e s' ->
  blocks s' = if point e =? LOG_APPEND then {[ blockno e ]} ∪ blocks s
              else if point e =? LOG_CLEAR then ∅ else blocks s.
Proof. intros Hs. destruct Hs; cbn [blocks with_open with_commit with_blocks with_inflight]; points; done. Qed.

Lemma lstep_inflight s e s' id :
  lstep s e s' ->
  count_id id (inflight s') = count_id id (inflight s)
    + (if decide (point e = IO_SUBMIT /\ io_identity e = id) then 1 else 0)
    - (if decide (point e = IO_COMPLETE /\ io_identity e = id) then 1 else 0).
Proof.
  intros Hs. destruct Hs as [Hp|Hp|l0 Hp Hca Ha Hl|Hp|Hp|Hp|Hp|Hp Hca Ha Hop|Hp|Hp|[Hp|Hp]|Hp|Hp|Hp];
    cbn [inflight with_open with_commit with_blocks with_inflight];
    try (rewrite (count_id_perm _ _ _ Hl)); rewrite ?count_id_cons; points.
Qed.

Lemma lstep_summary l s e s' : summary_of l s -> lstep s e s' -> summary_of (l ++ [e]) s'.
Proof.
  intros [Ho Hb Hi] Hs. split.
  - rewrite (lstep_open _ _ _ Hs), Ho. unfold open_ops. rewrite !at_point_snoc. lia.
  - rewrite (lstep_blocks _ _ _ Hs), Hb. unfold log_blocks. by rewrite foldl_app.
  - intros id. rewrite (lstep_inflight _ _ _ id Hs), Hi, !io_count_snoc. lia.
Qed.

Lemma lrun_summary l0 s0 l s : summary_of l0 s0 -> lrun s0 l s -> summary_of (l0 ++ l) s.
Proof.
  intros H0 H. revert l0 H0. induction H as [s|s e s1 l s2 Hs _ IH]; intros l0 H0; [by rewrite app_nil_r|].
  rewrite cons_middle, app_assoc. apply IH. by eapply lstep_summary.
Qed.

Lemma init_summary : summary_of [] abs_init.
Proof. by split. Qed.

Lemma lrun_split s l1 l2 s2 : lrun s (l1 ++ l2) s2 -> exists s1, lrun s l1 s1 /\ lrun s1 l2 s2.
Proof.
  revert s; induction l1 as [|e l1 IH]; intros s H; cbn in H; [exists s; split; [constructor|done]|].
  inversion H as [|? ? s1 ? ? Hs Hr]; subst. destruct (IH _ Hr) as (s3 & H1 & H2).
  exists s3. split; [by econstructor|done].
Qed.

(** An accepted trace, cut at an event: the summary before it and the step. *)
Lemma accepted_at c pre e post :
  is_ok (reduce_log c (pre ++ e :: post)) = true ->
  exists s s', summary_of pre s /\ lstep s e s'.
Proof.
  intros (sf & Hr & _)%reduce_log_runs. apply lrun_split in Hr as (s & H1 & H2).
  inversion H2 as [|? ? s1 ? ? Hs _]; subst. exists s, s1.
  split; [apply (lrun_summary [] abs_init); [apply init_summary|done]|done].
Qed.

(** C14: whenever an accepted trace admits an operation, the blocks in the log
    plus ten for every open operation, the new one included, fit in the log;
    and the admission reports exactly those numbers. *)
Theorem admission_within_capacity c pre e post :
  is_ok (reduce_log c (pre ++ e :: post)) = true -> point e = LOG_ADMIT ->
  Z.of_nat (base.size (log_blocks pre)) + (open_ops pre + 1) * MAXOPBLOCKS <= LOGBLOCKS /\
  log_n e = Z.of_nat (base.size (log_blocks pre)) /\ outstanding e = open_ops pre + 1.
Proof.
  intros H Hp. apply accepted_at in H as (s & s' & [Ho Hb _] & Hs).
  destruct Hs as [?|?|?|?|?|_ (E1 & E2 & _) Hc|?|?|?|?|[?|?]|?|?|?]; try other_point.
  unfold logged in *. rewrite Ho, Hb in *. auto.
Qed.

(** The third admission of the empty-log case. *)
Lemma admission_within_capacity_witness :
  let l := synthetic_events AdmissionEmpty in
  let e := event_at 2 l in
  is_ok (reduce_log AdmissionEmpty (take 2 l ++ e :: drop 3 l)) = true /\ point e = LOG_ADMIT /\
  Z.of_nat (base.size (log_blocks (take 2 l))) + (open_ops (take 2 l) + 1) * MAXOPBLOCKS <= LOGBLOCKS /\
  log_n e = Z.of_nat (base.size (log_blocks (take 2 l))) /\ outstanding e = open_ops (take 2 l) + 1.
Proof.
  cbv zeta. split; [vm_compute; reflexivity|]. split; [reflexivity|].
  apply (admission_within_capacity AdmissionEmpty _ _ (drop 3 (synthetic_events AdmissionEmpty)));
    vm_compute; reflexivity.
Defined.

(** In an accepted trace every disk completion follows its own submission:
    for each request (slot, generation, device, block, direction) no prefix has
    more completions than submissions, and at the end they are as many. *)
Theorem io_requests_matched c events id :
  is_ok (reduce_log c events) = true ->
  io_count IO_COMPLETE id events = io_count IO_SUBMIT id events /\
  forall pre post, events = pre ++ post -> io_count IO_COMPLETE id pre <= io_count IO_SUBMIT id pre.
Proof.
  intros (sf & Hr & (_ & _ & _ & Hin))%reduce_log_runs. split.
  - pose proof (so_inflight _ _ (lrun_summary [] _ _ _ init_summary Hr) id) as Hid.
    rewrite Hin in Hid. cbn [app] in Hid. change (count_id id []) with 0 in Hid. lia.
  - intros pre post ->. apply lrun_split in Hr as (s & H1 & _).
    pose proof (so_inflight _ _ (lrun_summary [] _ _ _ init_summary H1) id) as Hid. cbn [app] in Hid.
    assert (0 <= count_id id (inflight s)) by (unfold count_id; rewrite len_length; lia). lia.
Qed.

Lemma io_requests_matched_witness :
  is_ok (reduce_log Tx (synthetic_events Tx)) = true /\
  io_count IO_COMPLETE (1, 1, 1, 3, 1) (synthetic_events Tx) =
  io_count IO_SUBMIT (1, 1, 1, 3, 1) (synthetic_events Tx).
Proof.
  split; [vm_compute; reflexivity|].
  apply (io_requests_matched Tx (synthetic_events Tx) (1, 1, 1, 3, 1)). vm_compute; reflexivity.
Defined.

(** A block is appended to the log once until the log is cleared, later
    writes to it are absorbed: an accepted append names a block that is not in
    the log, an accepted absorption names one that is. *)
Theorem append_or_absorb c pre e post :
  is_ok (reduce_log c (pre ++ e :: post)) = true ->
  (point e = LOG_APPEND -> blockno e ∉ log_blocks pre) /\
  (point e = LOG_ABSORB -> blockno e ∈ log_blocks pre).
Proof.
  intros H. apply accepted_at in H as (s & s' & [_ Hb _] & Hs). rewrite <-Hb.
  split; intros Hq; destruct Hs as [?|?|?|?|?|?|?|?|?|?|[?|?]|?|?|?]; (done || other_point).
Qed.

Lemma append_or_absorb_witness :
  let l := synthetic_events Tx in
  is_ok (reduce_log Tx (take 6 l ++ event_at 6 l :: drop 7 l)) = true /\
  point (event_at 6 l) = LOG_APPEND /\ blockno (event_at 6 l) ∉ log_blocks (take 6 l).
Proof.
  cbv zeta. split; [vm_compute; reflexivity|]. split; [reflexivity|].
  apply (append_or_absorb Tx (take 6 (synthetic_events Tx)) _ (drop 7 (synthetic_events Tx)));
    vm_compute; reflexivity.
Defined.

(** * The cache *)

Lemma accepted_cache c events buffers panic r :
  reduce_cache c events buffers panic = Ok r -> foldM (cache_step c) cache_init events = Ok r.
Proof.
  unfold reduce_cache. cbv zeta. intros H. apply bind_ok in H as (r1 & H1 & H).
  destruct panic; inv_ok; done.
Qed.

Lemma events_of_app id l1 l2 : events_of id (l1 ++ l2) = events_of id l1 ++ events_of id l2.
Proof. apply filter_app. Qed.
Lemma events_of_cons id e l :
  active e = true -> event_identity e = id -> events_of id (e :: l) = e :: events_of id l.
Proof. intros. unfold events_of. by rewrite filter_cons_True. Qed.

(** C17: buffer sleeplocks exclude: if an accepted trace locks the same buffer
    identity twice, the first holder released it in between. *)
Theorem buffer_lock_exclusion c events buffers panic r l1 a l2 b l3 :
  reduce_cache c events buffers panic = Ok r ->
  events = l1 ++ a :: l2 ++ b :: l3 ->
  point a = CACHE_SLEEP -> point b = CACHE_SLEEP -> event_identity a = event_identity b ->
  exists e, e ∈ l2 /\ point e = CACHE_RELEASE /\ event_identity e = event_identity a /\ pid e = pid a.
Proof.
  intros H -> Ha Hb Hid. apply accepted_cache in H.
  assert (Haa : active a = true) by (unfold active; by rewrite Ha).
  assert (Hab : active b = true) by (unfold active; by rewrite Hb).
  pose proof (cache_runs _ _ _ H (event_identity a)) as Hrun.
  rewrite events_of_app, events_of_cons, events_of_app, events_of_cons in Hrun by done.
  apply brun_app in Hrun as (o1 & _ & (st & Hsa & Hrun)%brun_cons).
  apply brun_app in Hrun as (o3 & Hmid & (st4 & Hsb & _)%brun_cons).
  assert (owner st = Some (pid a)) as Hown by (destruct Hsa; (done || other_point)).
  destruct (owner_kept _ _ _ _ Hmid Hown) as [(e & He & Hp & Hpid)|(st3 & -> & Ho3)].
  - apply list_elem_of_filter in He as [[_ Hei] He]. eauto.
  - inversion Hsb; subst; (congruence || other_point).
Qed.

(** The accepted runs of the synthetic traces. *)
Definition reduced (c : case) : result CacheRed :=
  reduce_cache c (synthetic_events c) (st_buffers (synthetic_stream c)) false.

Lemma buffer_lock_exclusion_witness :
  let l := synthetic_events Same in
  exists r, reduced Same = Ok r /\
  exists e, e ∈ take 4 (drop 4 l) /\ point e = CACHE_RELEASE /\
    event_identity e = event_identity (event_at 3 l) /\ pid e = pid (event_at 3 l).
Proof.
  cbv zeta. assert (Hok : is_ok (reduced Same) = true) by (vm_compute; reflexivity).
  destruct (reduced Same) as [r|] eqn:E; [|discriminate Hok]. exists r. split; [reflexivity|].
  unfold reduced in E. apply (buffer_lock_exclusion Same _ _ _ r (take 3 (synthetic_events Same)) _ _
    (event_at 8 (synthetic_events Same)) (drop 9 (synthetic_events Same)) E); vm_compute; reflexivity.
Defined.

(** The count an event reports, from the first event of its buffer on *)
Lemma refcount_from_first c events buffers panic r pre e post :
  reduce_cache c events buffers panic = Ok r ->
  events = pre ++ e :: post -> active e = true ->
  let l := events_of (event_identity e) (pre ++ [e]) in
  ref e = referenced l + pinned l /\ 0 <= pinned l <= 1.
Proof.
  intros H -> Ha l. apply accepted_cache in H.
  pose proof (cache_runs _ _ _ H (event_identity e)) as Hrun.
  rewrite cons_middle, app_assoc, events_of_app in Hrun. apply brun_app in Hrun as (o & Hrun & _).
  fold l in Hrun. assert (Hl : l = events_of (event_identity e) pre ++ [e]).
  { unfold l. by rewrite events_of_app, events_of_cons. }
  rewrite Hl in Hrun. inversion Hrun as [Hn|l' o' e' st Hl' Hb Heq]; subst; [by destruct (events_of _ pre)|].
  pose proof (brun_ref _ _ _ Hrun) as Href. rewrite <-Hl in Hrun.
  destruct (brun_counts _ _ _ Hrun eq_refl) as [Hp Ho].
  destruct (brun_ok _ _ _ Hrun eq_refl) as [Hraw Hpins _ _]. rewrite <-Hp, <-Ho. lia.
Qed.

(** C18: Reference counts add up.  In an accepted trace, from an event [d] of a
    buffer to a later event [e] of it, the reported count changes by the
    references the events in between and [e] take, less those they release, and
    by the pins less the unpins among them; and the pins of a buffer less its
    unpins are zero or one at every event. *)
Theorem reported_refcount c events buffers panic r pre d mid e post :
  reduce_cache c events buffers panic = Ok r ->
  events = pre ++ d :: mid ++ e :: post -> active d = true -> active e = true ->
  event_identity d = event_identity e ->
  let l := events_of (event_identity e) (mid ++ [e]) in
  ref e = ref d + taken l + pinned l /\
  0 <= pinned (events_of (event_identity e) (pre ++ d :: mid ++ [e])) <= 1.
Proof.
  intros H E Ad Ae Ei l.
  destruct (refcount_from_first _ _ _ _ _ pre d (mid ++ e :: post) H E Ad) as [Hd _].
  destruct (refcount_from_first _ _ _ _ _ (pre ++ d :: mid) e post H) as [He Hp]; [by rewrite E, <- app_assoc|done|].
  rewrite Ei in Hd. replace ((pre ++ d :: mid) ++ [e]) with ((pre ++ [d]) ++ (mid ++ [e])) in He, Hp
    by (by rewrite <- !app_assoc). rewrite (cons_middle d), app_assoc.
  split; [|exact Hp]. rewrite events_of_app in He. fold l in He. unfold referenced in *.
  rewrite initial_refs_app, taken_app, pinned_app in He; [lia|].
  rewrite events_of_app, events_of_cons by done. by destruct (events_of _ pre).
Qed.

Lemma reported_refcount_witness :
  let l := synthetic_events Tx in
  let mid := take 12 (drop 4 l) in
  let k := events_of (event_identity (event_at 16 l)) (mid ++ [event_at 16 l]) in
  exists r, reduced Tx = Ok r /\ ref (event_at 16 l) = ref (event_at 3 l) + taken k + pinned k.
Proof.
  cbv zeta. assert (Hok : is_ok (reduced Tx) = true) by (vm_compute; reflexivity).
  destruct (reduced Tx) as [r|] eqn:E; [|discriminate Hok]. exists r. split; [reflexivity|].
  unfold reduced in E. apply (reported_refcount Tx _ _ _ r (take 3 (synthetic_events Tx)) (event_at 3 (synthetic_events Tx))
    (take 12 (drop 4 (synthetic_events Tx))) (event_at 16 (synthetic_events Tx)) (drop 17 (synthetic_events Tx)) E);
    vm_compute; reflexivity.
Defined.

(** When a trace of a case that does not panic is accepted, every buffer
    was unpinned as often as it was pinned, and every reference was released. *)
Theorem buffers_drain c events buffers r id :
  reduce_cache c events buffers false = Ok r ->
  pinned (events_of id events) = 0 /\ referenced (events_of id events) = 0.
Proof.
  intros H. pose proof (cache_runs _ _ _ (accepted_cache _ _ _ _ _ H) id) as Hrun.
  unfold reduce_cache in H. inv_ok. rename E into Hf.
  destruct (states r !! id) as [st|] eqn:Est.
  - destruct (brun_counts _ _ _ Hrun eq_refl) as [<- <-].
    assert (drained st = true) as Hd.
    { rewrite forallb_forall in C. apply (C (id, st)), list_elem_of_In, elem_of_map_to_list, Est. }
    unfold drained in Hd. to_prop. lia.
  - inversion Hrun. done.
Qed.

Lemma buffers_drain_witness :
  exists r, reduced Tx = Ok r /\ pinned (events_of (0, 1) (synthetic_events Tx)) = 0 /\
    referenced (events_of (0, 1) (synthetic_events Tx)) = 0.
Proof.
  assert (Hok : is_ok (reduced Tx) = true) by (vm_compute; reflexivity).
  destruct (reduced Tx) as [r|] eqn:E; [|discriminate Hok]. exists r. split; [reflexivity|].
  exact (buffers_drain Tx _ _ r (0, 1) E).
Defined.

(** The identity in a slot and the block it caches. *)
Definition cached (r : CacheRed) (s : Z) (k : bkey) : Prop :=
  exists id st, current_slot r !! s = Some id /\ states r !! id = Some st /\ bs_key st = k.

(** C38: no two slots cache the same block: after any accepted prefix, slots
    that hold a buffer with the same device and block are the same slot. *)
Theorem no_block_cached_twice c events r s1 s2 k :
  foldM (cache_step c) cache_init events = Ok r -> cached r s1 k -> cached r s2 k -> s1 = s2.
Proof.
  intros H (id1 & st1 & H1 & E1 & K1) (id2 & st2 & H2 & E2 & K2).
  assert (Hv : cache_inv r).
  { apply (foldM_inv (cache_step c) (fun _ r => cache_inv r) events cache_init r);
      [apply cache_inv_init| |done]. intros ? ? ? ? _. apply cache_step_slots. }
  destruct (cv_slot _ Hv _ _ H1) as (<- & st & Hst & C1).
  destruct (cv_slot _ Hv _ _ H2) as (<- & st' & Hst' & C2). congruence.
Qed.

Lemma no_block_cached_twice_witness :
  exists r, foldM (cache_step Collision) cache_init (synthetic_events Collision) = Ok r /\
    cached r 0 (ROOTDEV, 2) /\ cached r 1 (ROOTDEV, 15) /\ 0 = 0.
Proof.
  destruct (foldM (cache_step Collision) cache_init (synthetic_events Collision)) as [r|] eqn:E;
    [|vm_compute in E; discriminate E].
  exists r. split; [reflexivity|].
  assert (H0 : cached r 0 (ROOTDEV, 2)).
  { vm_compute in E. injection E as <-. eexists _, _. repeat split; vm_compute; reflexivity. }
  split; [exact H0|]. split.
  - clear H0. vm_compute in E. injection E as <-. eexists _, _. repeat split; vm_compute; reflexivity.
  - exact (no_block_cached_twice Collision _ r 0 0 (ROOTDEV, 2) E H0 H0).
Defined.
