(* ===== verification/POracle.v ===== *)
(** What an accepted trace shows, end to end: from the text of a transcript
    through the parser, the common checks, the reducers and the oracle of the
    case, for the write-ahead order of a transaction and for the exhausted
    cache; and the runner's own self test. *)

From stdpp Require Import base tactics list gmap strings numbers list_numbers.
From S2P Require Import Prelude PyText PyBytes PyJson PyMarkers PTrace PScen PCommon PCache PLog PCase PSynth.
From S2P Require Import PSelf PLogSpec PCacheSpec.
Open Scope Z_scope.

(** * The stages of an accepted trace *)

Record accepted (b : EvidenceBundle) (panic : bool) (cache : CacheRed) (log : LogRed) : Prop := {
  ac_stream : validate_marker_stream (eb_markers b) (eb_case b) panic = Ok (eb_stream b);
  ac_seq : map seq (st_events (eb_stream b)) = range 1 (len (st_events (eb_stream b)) + 1);
  ac_cache : reduce_cache (eb_case b) (st_events (eb_stream b)) (st_buffers (eb_stream b)) panic = Ok cache;
  ac_log : reduce_log (eb_case b) (st_events (eb_stream b)) = Ok log;
  ac_summary : validate_summary (eb_raw b) (eb_case b) (eb_stream b) cache log = Ok (eb_summary b)
}.

Lemma common_seq c cpus gen s panic scenarios r :
  validate_common c cpus gen s panic scenarios = Ok r ->
  map seq (st_events s) = range 1 (len (st_events s) + 1).
Proof.
  unfold validate_common. cbv zeta. intros H.
  do 8 (apply bind_ok in H as (? & _ & H)).
  apply bind_ok in H as (? & _ & H). apply bind_ok in H as (? & Hs & H).
  apply require_ok in Hs. by to_prop.
Qed.

Lemma accepted_stages text name scenarios panic b :
  validate_case_trace text name scenarios panic = Ok b ->
  case_of_name name = Some (eb_case b) /\ eb_raw b = text /\
  parse_markers text = Ok (eb_markers b) /\
  exists cache log, accepted b panic cache log.
Proof.
  unfold validate_case_trace. intros H. destruct (case_of_name name) as [c|]; [|done].
  apply bind_ok in H as ([] & _ & H). apply bind_ok in H as ([[o g] cpus] & _ & H).
  apply bind_ok in H as (ms & Hm & H). apply bind_ok in H as (s & Hs & H).
  apply bind_ok in H as (t & _ & H). apply bind_ok in H as ([] & _ & H).
  apply bind_ok in H as (sl & Hc & H). apply bind_ok in H as (cache & Hca & H).
  apply bind_ok in H as (log & Hl & H). apply bind_ok in H as (sm & Hsm & H).
  injection H as <-. cbn. split_and!; [done..|]. exists cache, log.
  split; cbn; [done| |done..]. by eapply common_seq.
Qed.

Lemma panic_case text name scenarios panic b :
  validate_case_trace text name scenarios panic = Ok b -> panic = bool_decide (eb_case b = CacheFull).
Proof.
  unfold validate_case_trace. intros H. destruct (case_of_name name) as [c|]; [|done].
  apply bind_ok in H as ([] & Hp%require_ok & H). apply Bool.eqb_prop in Hp. rewrite Hp.
  apply bind_ok in H as ([[o g] cpus] & _ & H).
  repeat (apply bind_ok in H as (? & _ & H)). by injection H as <-.
Qed.

(** * Sequence numbers are positions *)

Lemma seq_at events i e :
  map seq events = range 1 (len events + 1) -> events !! i = Some e -> seq e = Z.of_nat i + 1.
Proof.
  intros Hs He. assert (map seq events !! i = Some (seq e)) as Hi by (by rewrite list_lookup_fmap, He).
  rewrite Hs in Hi. unfold range in Hi. apply lookup_seqZ in Hi as [Hi _]. lia.
Qed.

(** The event after [w] is the one with the next sequence number. *)
Lemma next_event events l1 w l2 e :
  map seq events = range 1 (len events + 1) -> events = l1 ++ w :: l2 -> e ∈ events ->
  seq w + 1 = seq e -> exists l3, l2 = e :: l3.
Proof.
  intros Hs -> He Hn. apply list_elem_of_lookup in He as [i Hi].
  pose proof (seq_at _ _ _ Hs Hi) as Hei.
  assert ((l1 ++ w :: l2) !! length l1 = Some w) as Hw by (by apply list_lookup_middle).
  pose proof (seq_at _ _ _ Hs Hw) as Hwi. assert (i = S (length l1)) as -> by lia.
  rewrite lookup_app_r in Hi by lia. replace (S (length l1) - length l1)%nat with 1%nat in Hi by lia.
  destruct l2 as [|x l3]; [done|]. injection Hi as ->. eauto.
Qed.

Lemma filter_first {A} (P : A -> Prop) `{!forall x, Decision (P x)} (l : list A) x xs :
  filter P l = x :: xs -> exists l1 l2, l = l1 ++ x :: l2 /\ filter P l1 = [] /\ filter P l2 = xs.
Proof.
  induction l as [|a l IH]; [done|]. rewrite filter_cons. destruct (decide (P a)) as [Ha|Ha].
  - intros [= -> Hl]. by exists [], l.
  - intros (l1 & l2 & -> & H1 & H2)%IH. exists (a :: l1), l2. split; [done|].
    by rewrite filter_cons_False.
Qed.

(** * Write-ahead order *)

Definition is_write (e : Event) : Prop := point e = IO_COMPLETE /\ aux e = 1.
#[global] Instance is_write_dec e : Decision (is_write e).
Proof. unfold is_write. apply _. Defined.

Lemma io_complete_writes c e r r' :
  point e = IO_COMPLETE -> io_complete c e r = Ok r' ->
  write_completions r' = write_completions r ++ (if decide (is_write e) then [e] else []).
Proof.
  intros Hp H. unfold io_complete in H. cbv zeta in H. apply bind_ok in H as ([] & _ & H).
  unfold is_write. destruct (aux e =? 0) eqn:E0; [|destruct (aux e =? 1) eqn:E1; [|done]];
    to_prop; injection H as <-; cbn [write_completions].
  - rewrite decide_False by (intros [_ ?]; congruence). by rewrite app_nil_r.
  - by rewrite decide_True.
Qed.

Lemma log_step_writes c r e r' :
  log_step c r e = Ok r' ->
  write_completions r' = write_completions r ++ (if decide (is_write e) then [e] else []).
Proof.
  intros H. unfold log_step in H. cbv zeta in H.
  assert (Hno : point e <> IO_COMPLETE -> write_completions r' = write_completions r ->
    write_completions r' = write_completions r ++ (if decide (is_write e) then [e] else [])).
  { intros Hp ->. rewrite decide_False by (by intros [? _]). by rewrite app_nil_r. }
  destruct (is_cache_point (point e)) eqn:Ec.
  { apply Hno; [by intros Hp; rewrite Hp in Ec|]. by inv_ok. }
  destruct (is_io_point (point e)) eqn:Ei.
  { apply bind_ok in H as ([] & _ & H). destruct (point e =? IO_SUBMIT) eqn:Es; to_prop.
    - apply Hno; [by rewrite Es|]. unfold io_submit in H. cbv zeta in H.
      destruct (aux e =? 0); [|destruct (aux e =? 1)]; by inv_ok.
    - eapply io_complete_writes; [|done]. unfold is_io_point in Ei. to_prop. destruct Ei; by to_prop. }
  apply Hno; [by intros Hp; rewrite Hp in Ei|]. unfold log_point_step in H. cbv zeta in H.
  repeat match type of H with (if ?b then _ else _) = _ => destruct b end; inv_ok; done.
Qed.

Lemma log_writes c events r :
  reduce_log c events = Ok r -> write_completions r = filter is_write events.
Proof.
  unfold reduce_log. cbv zeta. intros (r1 & H & Hr)%bind_ok. inv_ok.
  apply (foldM_inv (log_step c) (fun l r => write_completions r = filter is_write l) events log_init r);
    [done| |done].
  clear. intros l e r r' _ IH H. rewrite (log_step_writes _ _ _ _ H), IH, filter_app, filter_cons, filter_nil.
  by destruct (decide (is_write e)).
Qed.

Lemma only_elem events p c e : only events p c = Ok e -> e ∈ events /\ point e = p.
Proof.
  unfold only, events_at. cbv zeta. intros H.
  destruct (filter (fun e => point e = p) events) as [|x [|y l]] eqn:E; try done. injection H as <-.
  assert (x ∈ filter (fun e => point e = p) events) as Hx by (rewrite E; left).
  apply list_elem_of_filter in Hx. tauto.
Qed.

(** A write followed by its log point, cut out of the trace. *)
Lemma cut_write events done_ l w ws m :
  map seq events = range 1 (len events + 1) -> events = done_ ++ l -> filter is_write l = w :: ws ->
  m ∈ events -> ~ is_write m -> seq w + 1 = seq m ->
  exists l1 l2, l = l1 ++ [w; m] ++ l2 /\ filter is_write l1 = [] /\ filter is_write l2 = ws.
Proof.
  intros Hs -> Hf Hm Hnw Hq. apply filter_first in Hf as (l1 & l2 & -> & H1 & H2).
  destruct (next_event _ (done_ ++ l1) w l2 m Hs) as (l3 & ->); [by rewrite <-app_assoc|done..|].
  exists l1, l3. split; [done|]. rewrite filter_cons_False in H2 by done. done.
Qed.

Lemma transaction_writes events cache log s :
  validate_transaction events cache log = Ok s ->
  exists payload header home clear w0 w1 w2 w3,
    write_completions log = [w0; w1; w2; w3] /\
    Forall (fun e => e ∈ events) [payload; header; home; clear] /\
    map point [payload; header; home; clear] = [LOG_PAYLOAD; LOG_HEADER; LOG_HOME; LOG_CLEAR] /\
    map (fun e => seq e + 1) [w0; w1; w2; w3] = map seq [payload; header; home; clear] /\
    map blockno [w0; w1; w2; w3] = [blockno header + 1; blockno header; tx_home_block s; blockno header] /\
    aux header = 1 /\ aux clear = 0.
Proof.
  unfold validate_transaction. intros H.
  do 5 (apply bind_ok in H as (? & _ & H)).
  apply bind_ok in H as (payload & Hp%only_elem & H). apply bind_ok in H as (header & Hh%only_elem & H).
  apply bind_ok in H as (home & Hi%only_elem & H). apply bind_ok in H as (? & _ & H).
  apply bind_ok in H as (clear & Hc%only_elem & H). apply bind_ok in H as (? & _ & H).
  apply bind_ok in H as ([] & _ & H). apply bind_ok in H as ([] & H1%require_ok & H).
  apply bind_ok in H as ([] & _ & H). apply bind_ok in H as ([] & H2%require_ok & H).
  do 4 (apply bind_ok in H as ([] & _ & H)).
  apply bind_ok in H as ([] & H3 & H). injection H as <-.
  destruct (write_completions log) as [|w0 [|w1 [|w2 [|w3 [|? ?]]]]]; try done.
  apply bind_ok in H3 as ([] & H3%require_ok & _). to_prop.
  exists payload, header, home, clear, w0, w1, w2, w3. destruct Hp, Hh, Hi, Hc.
  split_and!; [done|by repeat constructor|cbn; congruence|done| |lia|lia].
  cbn [tx_home_block map] in *. repeat match goal with H : [_; _; _; _] = _ |- _ => injection H as ? ? ? ? end.
  congruence.
Qed.

Lemma tx_layout events pl hd hm cl w0 w1 w2 w3 :
  map seq events = range 1 (len events + 1) -> filter is_write events = [w0; w1; w2; w3] ->
  Forall (fun e => e ∈ events) [pl; hd; hm; cl] ->
  map point [pl; hd; hm; cl] = [LOG_PAYLOAD; LOG_HEADER; LOG_HOME; LOG_CLEAR] ->
  map (fun e => seq e + 1) [w0; w1; w2; w3] = map seq [pl; hd; hm; cl] ->
  exists l0 l1 l2 l3 l4,
    events = l0 ++ [w0; pl] ++ l1 ++ [w1; hd] ++ l2 ++ [w2; hm] ++ l3 ++ [w3; cl] ++ l4 /\
    Forall (fun l => filter is_write l = []) [l0; l1; l2; l3; l4].
Proof.
  intros Hs Hf Hin [= P0 P1 P2 P3] [= Q0 Q1 Q2 Q3].
  rewrite !Forall_cons in Hin. destruct Hin as (I0 & I1 & I2 & I3 & _).
  assert (Hnw : forall e p, point e = p -> p <> IO_COMPLETE -> ~ is_write e)
    by (intros e p <- Hne [? _]; done).
  destruct (cut_write events [] events w0 [w1; w2; w3] pl Hs) as (l0 & r0 & E0 & F0 & G0); try done; [by eapply Hnw|].
  destruct (cut_write events (l0 ++ [w0; pl]) r0 w1 [w2; w3] hd Hs) as (l1 & r1 & E1 & F1 & G1);
    try done; [by rewrite <-app_assoc|by eapply Hnw|].
  destruct (cut_write events (l0 ++ [w0; pl] ++ l1 ++ [w1; hd]) r1 w2 [w3] hm Hs) as (l2 & r2 & E2 & F2 & G2);
    try done; [rewrite E0, E1, <-!app_assoc; done|by eapply Hnw|].
  destruct (cut_write events (l0 ++ [w0; pl] ++ l1 ++ [w1; hd] ++ l2 ++ [w2; hm]) r2 w3 [] cl Hs)
    as (l3 & r3 & E3 & F3 & G3); try done; [rewrite E0, E1, E2, <-!app_assoc; done|by eapply Hnw|].
  exists l0, l1, l2, l3, r3. split; [|by repeat constructor]. rewrite E0, E1, E2, E3. done.
Qed.

Lemma transaction_home events cache log s :
  validate_transaction events cache log = Ok s -> tx_home_block s = 1990.
Proof.
  unfold validate_transaction. intros H.
  repeat (apply bind_ok in H as (? & _ & H)). by injection H as <-.
Qed.

(** C13: the write-ahead order of an accepted transaction: its trace has
    exactly four completed disk writes; the first goes to the log block after
    the header and is followed by the payload point, the second writes the
    non-empty header and is the commit, only then the home block is written,
    and last the header is cleared. *)
Theorem transaction_write_ahead text scenarios panic b :
  validate_case_trace text (u "tx") scenarios panic = Ok b ->
  exists l0 l1 l2 l3 l4 payload header home clear w0 w1 w2 w3,
    st_events (eb_stream b) =
      l0 ++ [w0; payload] ++ l1 ++ [w1; header] ++ l2 ++ [w2; home] ++ l3 ++ [w3; clear] ++ l4 /\
    Forall (fun l => filter is_write l = []) [l0; l1; l2; l3; l4] /\
    Forall is_write [w0; w1; w2; w3] /\
    map point [payload; header; home; clear] = [LOG_PAYLOAD; LOG_HEADER; LOG_HOME; LOG_CLEAR] /\
    map blockno [w0; w1; w2; w3] = [blockno header + 1; blockno header; 1990; blockno header] /\
    aux header = 1 /\ aux clear = 0.
Proof.
  intros (Hc & _ & _ & cache & log & [_ Hseq _ Hlog Hsum])%accepted_stages.
  injection Hc as Hc. rewrite <-Hc in *. cbn [validate_summary] in Hsum.
  destruct (validate_transaction _ cache log) as [s|] eqn:Htx; [|done].
  assert (tx_home_block s = 1990) as Hhome by (by eapply transaction_home).
  apply transaction_writes in Htx as
    (pl & hd & hm & cl & w0 & w1 & w2 & w3 & Hw & Hin & Hp & Hq & Hb & Ha1 & Ha2).
  rewrite (log_writes _ _ _ Hlog) in Hw. rewrite Hhome in Hb. clear - Hseq Hw Hin Hp Hq Hb Ha1 Ha2.
  destruct (tx_layout _ _ _ _ _ _ _ _ _ Hseq Hw Hin Hp Hq) as (l0 & l1 & l2 & l3 & l4 & He & Hn).
  exists l0, l1, l2, l3, l4, pl, hd, hm, cl, w0, w1, w2, w3. split_and!; try done.
  apply Forall_forall. intros w Hw'. rewrite <-Hw in Hw'. apply list_elem_of_filter in Hw'; tauto.
Qed.

Lemma transaction_write_ahead_witness :
  exists b, validate_case_trace (synthetic_trace Tx) (u "tx") scenarios_root false = Ok b /\
    exists l0 l1 w0 payload, st_events (eb_stream b) = l0 ++ [w0; payload] ++ l1 /\ is_write w0.
Proof.
  assert (Hok : accepts Tx = true) by (vm_compute; reflexivity). unfold accepts in Hok.
  change (bool_decide (Tx = CacheFull)) with false in Hok. change (u (case_name Tx)) with (u "tx") in Hok.
  destruct (validate_case_trace (synthetic_trace Tx) (u "tx") scenarios_root false) as [b|] eqn:E;
    [|discriminate Hok].
  exists b. split; [reflexivity|].
  destruct (transaction_write_ahead _ _ _ _ E) as
    (l0 & l1 & l2 & l3 & l4 & pl & hd & hm & cl & w0 & w1 & w2 & w3 & He & _ & Hw & _).
  exists l0. eexists. exists w0, pl. split; [exact He|]. inversion Hw; assumption.
Defined.

(** * The exhausted cache *)

Lemma size_list_to_set_le `{Countable A} (l : list A) :
  (base.size (list_to_set l : gset A) <= length l)%nat.
Proof.
  induction l as [|a l IH]; [done|]. cbn [list_to_set length].
  rewrite size_union_alt, size_singleton.
  assert (base.size ((list_to_set l : gset A) ∖ {[a]}) <= base.size (list_to_set l : gset A))%nat
    by (apply subseteq_size; set_solver). lia.
Qed.

(** A list whose set is as large as the list has no duplicates. *)
Lemma size_list_to_set_NoDup `{Countable A} (l : list A) :
  base.size (list_to_set l : gset A) = length l -> NoDup l.
Proof.
  induction l as [|a l IH]; [by constructor|]. cbn [list_to_set length]. intros Hs.
  pose proof (size_list_to_set_le l) as Hle. rewrite size_union_alt, size_singleton in Hs.
  assert (base.size ((list_to_set l : gset A) ∖ {[a]}) <= base.size (list_to_set l : gset A))%nat
    by (apply subseteq_size; set_solver).
  constructor; [|apply IH; lia]. intros Ha.
  assert (base.size ((list_to_set l : gset A) ∖ {[a]}) < base.size (list_to_set l : gset A))%nat
    by (apply subset_size; set_solver). lia.
Qed.

Lemma brun_locks l o st :
  brun l o -> o = Some st ->
  at_point CACHE_SLEEP l - at_point CACHE_RELEASE l = match owner st with Some _ => 1 | None => 0 end.
Proof.
  intros H. revert st. induction H as [|l o e st1 Hrun IH Hb]; intros st [=]; subst.
  rewrite !at_point_snoc.
  destruct Hb as [Hp|Hp|st0 Hp _ _ Hr Hw Hn|st0 Hp _ _ Hr Hw Hn|st0 Hp _ _ Hr Hn H0
    |st0 Hp _ _ Hr Hn H0|st0 Hp _ _ Hr Hn H0]; rewrite !Hp;
    change (decide (?a = ?b)) with (Z.eq_dec a b); cbn [set_counts new_state owner].
  1,2: assert (l = []) as -> by (inversion Hrun; subst; done); done.
  all: specialize (IH st0 eq_refl); rewrite ?Hn in *; cbn; try lia.
Qed.

Lemma sum_of_cons {A} (f : A -> Z) a l : sum_of f (a :: l) = f a + sum_of f l.
Proof. done. Qed.

Lemma sum_indicator (id : ident) ids :
  NoDup ids -> id ∈ ids -> sum_of (fun x => if decide (x = id) then 1 else 0) ids = 1.
Proof.
  induction 1 as [|x ids Hx Hnd IH]; intros Hid; [by apply not_elem_of_nil in Hid|]. rewrite sum_of_cons.
  assert (Hz : id ∉ ids -> sum_of (fun x => if decide (x = id) then 1 else 0) ids = 0).
  { clear. induction ids as [|y ids IH]; intros Hn; [done|]. rewrite sum_of_cons.
    rewrite decide_False by set_solver. rewrite IH; [done|set_solver]. }
  destruct (decide (x = id)) as [->|Hne]; [rewrite Hz; [done|done]|].
  rewrite IH; [done|set_solver].
Qed.

Lemma sum_of_plus {A} (f g : A -> Z) l : sum_of (fun a => f a + g a) l = sum_of f l + sum_of g l.
Proof. induction l as [|a l IH]; [done|]. rewrite !sum_of_cons. lia. Qed.
Lemma sum_of_ext {A} (f g : A -> Z) l : (forall a, a ∈ l -> f a = g a) -> sum_of f l = sum_of g l.
Proof.
  induction l as [|a l IH]; intros H; [done|]. rewrite !sum_of_cons, IH by set_solver.
  rewrite (H a) by set_solver. done.
Qed.
Lemma sum_of_const {A} (z : Z) (l : list A) : sum_of (fun _ => z) l = z * len l.
Proof. induction l as [|a l IH]; [cbn; lia|]. rewrite sum_of_cons, !len_length in *. cbn [length]. lia. Qed.

(** The events at an active point, summed over the buffers that have any. *)
Lemma at_point_by_buffer p ids events :
  NoDup ids -> (forall e, e ∈ events -> point e = p -> active e = true /\ event_identity e ∈ ids) ->
  at_point p events = sum_of (fun id => at_point p (events_of id events)) ids.
Proof.
  intros Hnd. induction events as [|e events IH] using rev_ind; intros He.
  { rewrite (sum_of_ext _ (fun _ => 0)) by done. rewrite sum_of_const. done. }
  rewrite at_point_snoc, IH by (intros f Hf; apply He; set_solver).
  rewrite (sum_of_ext (fun id => at_point p (events_of id (events ++ [e])))
    (fun id => at_point p (events_of id events) +
       (if decide (point e = p) then if decide (id = event_identity e) then 1 else 0 else 0))).
  - rewrite sum_of_plus. f_equal. destruct (decide (point e = p)) as [Hp|Hp].
    + symmetry. apply sum_indicator; [done|]. apply He; [set_solver|done].
    + by rewrite sum_of_const.
  - intros id _. unfold events_of. rewrite filter_app, filter_cons, filter_nil.
    destruct (decide (point e = p)) as [Hp|Hp].
    + destruct (He e) as [Ha _]; [set_solver|done|].
      destruct (decide (id = event_identity e)) as [->|Hne].
      * rewrite decide_True by done. rewrite at_point_snoc, decide_True by done. done.
      * rewrite decide_False by naive_solver. rewrite app_nil_r. lia.
    + destruct (decide _); [rewrite at_point_snoc, decide_False by done|rewrite app_nil_r]; lia.
Qed.

Lemma full_checks text events buffers cache meta ledger full s :
  validate_full text events buffers cache meta ledger full = Ok s ->
  let sleeps := events_at events CACHE_SLEEP in
  len sleeps = NBUF /\ NoDup (map pid sleeps) /\ NoDup (map event_key sleeps) /\
  Z.of_nat (base.size (states cache)) = NBUF.
Proof.
  unfold validate_full. intros H. cbv zeta in H. do 3 (apply bind_ok in H as ([] & _ & H)).
  apply bind_ok in H as ([] & H1%require_ok & H). apply bind_ok in H as ([] & H2%require_ok & _).
  to_prop. rewrite len_length in *. split_and!; try done.
  - apply size_list_to_set_NoDup. rewrite length_map. lia.
  - apply size_list_to_set_NoDup. rewrite length_map.
    match goal with E : _ = full_keys |- _ => rewrite E end.
    change (base.size full_keys) with 30%nat. unfold NBUF in *. lia.
Qed.

Lemma panic_locked c events buffers r :
  reduce_cache c events buffers true = Ok r ->
  forall id st, states r !! id = Some st -> owner st <> None.
Proof.
  intros H id st Hst. unfold reduce_cache in H. inv_ok.
  rewrite forallb_forall in C. assert (panic_state st = true) as Hp
    by (apply (C (id, st)), list_elem_of_In, elem_of_map_to_list, Hst).
  unfold panic_state in Hp. by to_prop.
Qed.

(** Every buffer seen is locked at the end, and there are as many locks as
    buffers: no lock was ever released. *)
Lemma full_never_released c events buffers r :
  reduce_cache c events buffers true = Ok r ->
  at_point CACHE_SLEEP events = Z.of_nat (base.size (states r)) ->
  at_point CACHE_RELEASE events = 0.
Proof.
  intros H Hs. pose proof (panic_locked _ _ _ _ H) as Hown.
  assert (Hrun : forall id, brun (events_of id events) (states r !! id)).
  { apply (cache_runs c). unfold reduce_cache in H. by inv_ok. }
  set (ids := (map_to_list (states r)).*1).
  assert (Hids : forall p e, (p = CACHE_SLEEP \/ p = CACHE_RELEASE) -> e ∈ events -> point e = p ->
            active e = true /\ event_identity e ∈ ids).
  { intros p e Hp He Hpe. assert (Ha : active e = true)
      by (unfold active; rewrite Hpe; by destruct Hp as [->| ->]).
    split; [done|]. specialize (Hrun (event_identity e)).
    destruct (states r !! event_identity e) as [st|] eqn:Est.
    - apply list_elem_of_fmap. exists (event_identity e, st). split; [done|]. by apply elem_of_map_to_list.
    - inversion Hrun as [Hn|]. assert (e ∈ events_of (event_identity e) events) as Hin
        by (by apply list_elem_of_filter). rewrite <-Hn in Hin. by apply not_elem_of_nil in Hin. }
  assert (Hnd : NoDup ids) by apply NoDup_fst_map_to_list.
  rewrite (at_point_by_buffer CACHE_SLEEP ids) in Hs by (done || intros e; apply (Hids CACHE_SLEEP); auto).
  rewrite (at_point_by_buffer CACHE_RELEASE ids) by (done || intros e; apply (Hids CACHE_RELEASE); auto).
  rewrite (sum_of_ext _ (fun id => at_point CACHE_RELEASE (events_of id events) + 1)) in Hs.
  - rewrite sum_of_plus, sum_of_const, len_length in Hs. unfold ids in Hs at 2.
    rewrite length_fmap, length_map_to_list in Hs. lia.
  - intros id ([id' st] & -> & Hst%elem_of_map_to_list)%list_elem_of_fmap. cbn.
    specialize (Hrun id'). rewrite Hst in Hrun. pose proof (brun_locks _ _ _ Hrun eq_refl) as Hl.
    pose proof (Hown _ _ Hst). destruct (owner st); [lia|done].
Qed.

(** An accepted cache-full trace exhausts the cache: thirty different
    processes lock thirty different blocks and no buffer is ever released. *)
Theorem cache_full_exhausts text scenarios panic b :
  validate_case_trace text (u "cache-full") scenarios panic = Ok b ->
  let events := st_events (eb_stream b) in
  let sleeps := events_at events CACHE_SLEEP in
  len sleeps = NBUF /\ NoDup (map pid sleeps) /\ NoDup (map event_key sleeps) /\
  events_at events CACHE_RELEASE = [].
Proof.
  intros H events sleeps. pose proof (panic_case _ _ _ _ _ H) as Hpanic.
  apply accepted_stages in H as (Hc & _ & _ & cache & log & [_ _ Hca _ Hsum]).
  injection Hc as Hc. rewrite <-Hc in *. subst panic. cbn [validate_summary] in Hsum.
  destruct (validate_full _ _ _ cache _ _ _) as [s|] eqn:Hf; [|done].
  apply full_checks in Hf as (H1 & H2 & H3 & H4). split_and!; try done.
  assert (at_point CACHE_RELEASE events = 0) as H0.
  { eapply full_never_released; [done|]. rewrite H4, <-H1. done. }
  unfold at_point in H0. rewrite len_length in H0. apply length_zero_iff_nil. unfold events_at. lia.
Qed.

Lemma cache_full_exhausts_witness :
  exists b, validate_case_trace (synthetic_trace CacheFull) (u "cache-full") scenarios_root true = Ok b /\
    len (events_at (st_events (eb_stream b)) CACHE_SLEEP) = NBUF /\
    events_at (st_events (eb_stream b)) CACHE_RELEASE = [].
Proof.
  assert (Hok : accepts CacheFull = true) by (vm_compute; reflexivity). unfold accepts in Hok.
  change (bool_decide (CacheFull = CacheFull)) with true in Hok.
  change (u (case_name CacheFull)) with (u "cache-full") in Hok.
  destruct (validate_case_trace (synthetic_trace CacheFull) (u "cache-full") scenarios_root true)
    as [b|] eqn:E; [|discriminate Hok].
  exists b. split; [reflexivity|]. destruct (cache_full_exhausts _ _ _ _ E) as (H1 & _ & _ & H4).
  split; assumption.
Defined.

(** * The runner's self test *)

(** The self test of the runner passes: the scenario file is accepted,
    the seven synthetic traces are accepted, and each of the twenty-nine
    mutated traces and four mutated scenario files is refused with a
    [LabError]. *)
Theorem self_test_passes : self_test = true.
Proof. vm_compute. reflexivity. Qed.

(** * Admission during a commit *)

(** The trace of the empty-log case with one more operation of process 14,
    admitted after its last [end_op] started the group commit. *)
Definition late_admission_events : list Event :=
  number_events 2 (take 9 admission_empty_events ++
    [ adm LOG_ADMIT 14 0 0 1 0 0 0; adm LOG_END 14 0 0 0 1 1 0; adm LOG_COMMIT_DONE 14 0 0 0 0 0 0 ]).

Definition late_admission_stream : Stream :=
  let s := synthetic_stream AdmissionEmpty in
  let m := st_meta s in
  {| st_meta := Build_Meta (meta_case m) (meta_abi m) (meta_generation m) (len late_admission_events)
                  (meta_error m) (meta_arrived m) (meta_gate m) (meta_holders m);
     st_events := late_admission_events; st_buffers := st_buffers s; st_ledger := st_ledger s;
     st_result := st_result s; st_full := st_full s |}.

(** The oracle accepts an operation admitted while a commit is in
    progress: right after the [end_op] that started the group commit and
    before the commit is done.  No such trace is a run of the documented log. *)
Theorem late_admission_accepted :
  is_ok (validate_case_trace (render_stream late_admission_stream) (u "admission-empty")
           scenarios_root false) = true /\
  exists pre last first_admit rest, late_admission_events = pre ++ [last; first_admit] ++ rest /\
    point last = LOG_END /\ aux last = 1 /\ committing last = 1 /\ point first_admit = LOG_ADMIT /\
    events_at (pre ++ [last; first_admit]) LOG_COMMIT_DONE = [] /\ disciplined 0 late_admission_events = false.
Proof.
  split; [vm_compute; reflexivity|].
  exists (take 8 late_admission_events), (List.nth 8 late_admission_events (Build_Event 0 0 0 0 0 0 0 0 0 0 0 0 0 0 0)),
    (List.nth 9 late_admission_events (Build_Event 0 0 0 0 0 0 0 0 0 0 0 0 0 0 0)), (drop 10 late_admission_events).
  vm_compute. repeat split; reflexivity.
Qed.
