(* ===== verification/Recover.v ===== *)
(** The image oracle of the crash/recovery runner,
    [docs/xv6-tutorial/resources/recovery/run-project.py]: the block patterns
    the guest writes, the log header and home blocks of an image, the offline
    check through [fsck.py], and what an image taken at a crash point has to
    look like. *)

From stdpp Require Import base tactics list gmap strings numbers list_numbers.
From S2P Require Import Prelude PyText PyBytes PyJson Sha256 Fsck.
Open Scope Z_scope.

(** * Constants *)

Definition FSSIZE : Z := 2000.
Definition HOME_BLOCKS : list Z := [1990; 1991].

(** A row of [POINTS]: case, logical identifier, point, final home state,
    header count in the crash image, count the next boot sees. *)
Record Point : Type := {
  p_case : string;
  p_id : Z;
  p_name : string;
  p_final : string;
  p_header_n : Z;
  p_seen : Z
}.

Definition POINTS : list Point :=
  [ Build_Point "crash-10-log-data" 10 "LOG_DATA_COMPLETE" "before" 0 0;
    Build_Point "crash-20-commit-header" 20 "COMMIT_HEADER_COMPLETE" "after" 2 2;
    Build_Point "crash-30-home-install" 30 "HOME_INSTALL_COMPLETE" "after" 2 2;
    Build_Point "crash-40-header-clear" 40 "HEADER_CLEAR_COMPLETE" "after" 0 0 ].

Definition TEAR_IDS : list string :=
  ["header-zero"; "payload-half"; "home-half"; "header-restore"; "invalid-count"; "invalid-target"].

(** * Blocks and header of an image *)

(** [bytearray([base + index] * BSIZE)] with the three header words packed in. *)
Definition expected_pattern (after : bool) (index epoch : Z) : result pybytes :=
  pack_into [FI; FI; FI] (repeat ((if after then 160 else 80) + index) (Z.to_nat BSIZE)) 0
    [epoch; Z.b2z after; index].

Definition image_geometry (data : pybytes) : result (Z * Z) :=
  require (len data =? FSSIZE * BSIZE) [T "private fs.img size changed"];;
  fields ← unpack_from SUPER data BSIZE;
  match fields with
  | [magic; size; _; _; _; logstart; inodestart; _] =>
      require ((magic =? 270544960) && (size =? FSSIZE)) [T "private fs.img superblock changed"];;
      Ok (logstart, inodestart)
  | _ => Raise IndexError
  end.

Definition log_state (data : pybytes) : result (Z * list Z * list pybytes) :=
  '(logstart, _) ← image_geometry data;
  count ← unpack_one Fi data (logstart * BSIZE);
  require ((0 <=? count) && (count <=? LOGBLOCKS)) [T "invalid live log count: "; D count];;
  targets ← (if count =? 0 then Ok []
             else unpack_from (repeat FI (Z.to_nat count)) data (logstart * BSIZE + 4));
  let payload := (fun index => slice ((logstart + 1 + index) * BSIZE) ((logstart + 2 + index) * BSIZE) data)
                   <$> range 0 (Z.min 2 (if count =? 0 then 2 else count)) in
  Ok (count, targets, payload).

(** The contents of the home blocks, and the two patterns of an epoch. *)
Definition homes_of (data : pybytes) : list pybytes :=
  (fun number => slice (number * BSIZE) ((number + 1) * BSIZE) data) <$> HOME_BLOCKS.
Definition patterns (after : bool) (epoch : Z) : result (list pybytes) :=
  mapR (fun index => expected_pattern after index epoch) (range 0 2).

Inductive home_state : Type := Before | After | Mixed.
#[global] Instance home_state_eq_dec : EqDecision home_state.
Proof. solve_decision. Defined.
Definition home_text (h : home_state) : string :=
  match h with Before => "before" | After => "after" | Mixed => "mixed" end.

Definition classify_homes (data : pybytes) (epoch : Z) : result home_state :=
  let homes := homes_of data in
  before ← patterns false epoch;
  after ← patterns true epoch;
  Ok (if bool_decide (homes = before) then Before
      else if bool_decide (homes = after) then After else Mixed).

(** * The offline check *)

Definition assert_fsck (data : pybytes) (pending : bool) (context : msg) : result Report :=
  result ← check_bytes data;
  require (clean result && recovered_clean result)
    (context ++ [T ": offline recovered view is inconsistent: "; L (report_diagnostics result)]);;
  require (bool_decide (log_pending result = Some pending))
    (context ++ [T ": offline log-pending state changed"]);;
  (if pending then Ok tt
   else require (raw_clean result) (context ++ [T ": clean-header raw image is inconsistent"]));;
  Ok result.

(** The part of a report that goes into the records; [input] is the hash
    [check_path] adds. *)
Definition fsck_summary (input : option pystr) (result : Report) : json :=
  JObj [ kv "input_sha256" (jopt (match input with Some s => Some s | None => raw_sha256 result end));
         kv "raw_clean" (JBool (raw_clean result));
         kv "recovered_clean" (JBool (recovered_clean result));
         kv "log_pending" (match log_pending result with Some b => JBool b | None => JNull end);
         kv "log" (match log result with
                   | Some (count, targets) =>
                       JObj [kv "count" (JInt count); kv "targets" (JList (JInt <$> targets))]
                   | None => JNull
                   end);
         kv "diagnostics" (JList (JStr <$> report_diagnostics result)) ].

(** [owned]: the addresses of every block of every inode. *)
Definition collect_owned (data : pybytes) (g : Geometry) (st : gset Z * Diagnostics) (inode : Inode)
    : result (gset Z * Diagnostics) :=
  let '(owned, d) := st in
  '(blocks, d) ← inode_blocks data g inode d;
  Ok (list_to_set (snd <$> blocks) ∪ owned, d).

(** [all(block not in owned and bitmap_bit(...) == 0 for block in ...)] *)
Fixpoint all_free (data : pybytes) (g : Geometry) (owned : gset Z) (blocks : list Z) : result bool :=
  match blocks with
  | [] => Ok true
  | b :: blocks =>
      if bool_decide (b ∈ owned) then Ok false
      else bit ← bitmap_bit data g b;
           if bit =? 0 then all_free data g owned blocks else Ok false
  end.

Definition verify_home_blocks_free (data : pybytes) : result unit :=
  '(layout, d) ← parse_geometry data ∅;
  match layout with
  | Some g =>
      require (no_codes d) [T "cannot verify fixture home-block ownership"];;
      '(inodes, d) ← parse_inodes data g d;
      '(owned, d) ← foldM (collect_owned data g) (∅, d) inodes;
      let failed := [T "fixture home blocks are not free and unreferenced"] in
      require (no_codes d) failed;;
      free ← all_free data g owned HOME_BLOCKS;
      require free failed
  | None => Raise (LabError [T "cannot verify fixture home-block ownership"])
  end.

(** * The image of a crash point *)

(** The home state the crash image has, by the name of the point. *)
Definition crash_home (p : Point) : home_state :=
  if bool_decide (p_name p ∈ ["LOG_DATA_COMPLETE"; "COMMIT_HEADER_COMPLETE"]%string)
  then Before else After.

Definition validate_crash (data : pybytes) (p : Point) (epoch : Z) : result json :=
  let case := T (p_case p) in
  '(count, targets, payload) ← log_state data;
  require (count =? p_header_n p) [case; T ": log header count changed: "; D count];;
  (if count =? 0 then Ok tt
   else require (bool_decide (targets = HOME_BLOCKS)) [case; T ": log targets changed: "; DL targets]);;
  after ← patterns true epoch;
  require (bool_decide (payload = after))
    [case; T ": completed log payload is not exact AFTER bytes"];;
  home ← classify_homes data epoch;
  require (bool_decide (home = crash_home p)) [case; T ": crash-image home state changed"];;
  check ← assert_fsck data (negb (count =? 0)) [case; T " crash image"];
  shadow ← of_option KeyError (shadow_sha256 check);
  Ok (JObj [ kv "case" (jstr (p_case p)); kv "point" (jstr (p_name p)); kv "epoch" (JInt epoch);
             kv "crash_sha256" (JStr (sha256 data)); kv "header_n" (JInt count);
             kv "targets" (JList (JInt <$> targets));
             kv "crash_home" (jstr (home_text (crash_home p)));
             kv "final" (jstr (p_final p)); kv "replay_seen_n" (JInt (p_seen p));
             kv "payload_sha256" (JList (JStr ∘ sha256 <$> payload));
             kv "home_sha256" (JList (JStr ∘ sha256 <$> homes_of data));
             kv "crash_fsck" (fsck_summary None check);
             kv "fsck_shadow_sha256" (JStr shadow) ]).

Definition set_log_count (data : pybytes) (count : Z) : result pybytes :=
  '(logstart, _) ← image_geometry data;
  pack_into [Fi] data (logstart * BSIZE) [count].
