(* ===== verification/RecoverSpec.v ===== *)
(** Facts about the image oracle of the crash/recovery runner: the header it
    reads is the one the checker replays, and the two block patterns never
    coincide. *)

From stdpp Require Import base tactics list gmap strings numbers list_numbers.
From S2P Require Import Prelude PyText PyBytes PyJson Sha256 Fsck FsckLog FsckTotal FsckSpec FsckBlocks.
From S2P Require Import FsckDirs FsckWalk FsckClean FsckProps Recover.
Open Scope Z_scope.

(** * Patterns *)

Lemma pack_fields_len fs vs bs : pack_fields fs vs = Some bs -> len bs = calcsize fs.
Proof.
  revert vs bs; induction fs as [|f fs IH]; intros [|v vs] bs H; try done; cbn in H.
  - by injection H as <-.
  - destruct (in_fmt f v); [|done]. destruct (pack_fields fs vs) as [r|] eqn:E; [|done].
    injection H as <-. rewrite len_app, length_encode, (IH _ _ E). done.
Qed.

Lemma repeat_lookup {A} (i n : nat) (x : A) : (i < n)%nat -> repeat x n !! i = Some x.
Proof. revert i; induction n as [|n IH]; intros [|i] H; cbn; try lia; [done|apply IH; lia]. Qed.

(** A pattern is a block whose last byte tells the state and the index. *)
Lemma expected_pattern_ok after index epoch p :
  expected_pattern after index epoch = Ok p ->
  len p = BSIZE /\ p !! 1023%nat = Some ((if after then 160 else 80) + index).
Proof.
  unfold expected_pattern, pack_into. set (l := repeat _ _). set (n := calcsize [FI; FI; FI]).
  assert (Hl : len l = 1024) by (unfold l; rewrite len_length, repeat_length; done).
  rewrite Hl. change (0 + n <=? 1024) with true. cbn iota.
  destruct (pack_fields _ _) as [bs|] eqn:E; [|done]. intros [= <-].
  apply pack_fields_len in E. change (0 + n) with 12. change (calcsize [FI; FI; FI]) with 12 in E.
  split; [rewrite len_splice; (done || lia)|].
  rewrite lookup_splice_old by lia. apply repeat_lookup. unfold BSIZE. lia.
Qed.

Lemma patterns_two after epoch l :
  patterns after epoch = Ok l ->
  exists p0 p1, l = [p0; p1] /\ expected_pattern after 0 epoch = Ok p0 /\
    expected_pattern after 1 epoch = Ok p1.
Proof.
  unfold patterns. change (range 0 2) with [0; 1]. cbn [mapR]. intros H.
  apply bind_ok in H as (p0 & H0 & H). apply bind_ok in H as (l1 & H1 & H).
  apply bind_ok in H1 as (p1 & H1 & H2). cbn in H2. injection H2 as <-. injection H as <-. eauto.
Qed.

(** The two patterns of an epoch are both defined or both undefined, and differ. *)
Lemma patterns_defined epoch l : patterns true epoch = Ok l -> exists l', patterns false epoch = Ok l'.
Proof.
  intros (p0 & p1 & _ & H0 & _)%patterns_two.
  assert (Hf : in_fmt FI epoch = true).
  { unfold expected_pattern, pack_into in H0. destruct (_ <=? _); [|done].
    cbn [pack_fields] in H0. by destruct (in_fmt FI epoch). }
  unfold patterns. change (range 0 2) with [0; 1]. cbn [mapR].
  unfold expected_pattern, pack_into. rewrite !len_length, !repeat_length.
  cbn [pack_fields]. rewrite Hf. cbn. eauto.
Qed.

Lemma patterns_differ epoch b a : patterns false epoch = Ok b -> patterns true epoch = Ok a -> a <> b.
Proof.
  intros (b0 & b1 & -> & Hb & _)%patterns_two (a0 & a1 & -> & Ha & _)%patterns_two [= -> ->].
  apply expected_pattern_ok in Ha as [_ Ha]. apply expected_pattern_ok in Hb as [_ Hb].
  rewrite Ha in Hb. done.
Qed.

(** Classification, as a relation. *)
Lemma classify_before data epoch a b :
  patterns true epoch = Ok a -> patterns false epoch = Ok b ->
  classify_homes data epoch = Ok Before <-> homes_of data = b.
Proof.
  intros Ha Hb. unfold classify_homes. rewrite Ha, Hb. cbn [mbind result_bind].
  case_bool_decide as H1; [by split|]. case_bool_decide; (split; [done|]); intros; done.
Qed.

Lemma classify_after data epoch a b :
  patterns true epoch = Ok a -> patterns false epoch = Ok b ->
  classify_homes data epoch = Ok After <-> homes_of data = a.
Proof.
  intros Ha Hb. pose proof (patterns_differ _ _ _ Hb Ha). unfold classify_homes.
  rewrite Ha, Hb. cbn [mbind result_bind].
  case_bool_decide as H1; [split; [done|]; intros; congruence|].
  case_bool_decide as H2; [by split|]. split; [done|]. intros; done.
Qed.

(** * The header of an image the checker can parse *)

Lemma homes_blocks data : homes_of data = [block data 1990; block data 1991].
Proof. done. Qed.

Lemma geometry_agree data d g ls ist :
  parse_geometry data d = Ok (Some g, d) -> image_geometry data = Ok (ls, ist) ->
  size g = 2000 /\ ls = logstart g.
Proof.
  unfold parse_geometry, image_geometry. destruct (_ <? _); [done|]. intros Hg Hi.
  apply bind_ok in Hi as ([] & _ & Hi). apply bind_ok in Hi as (fs & Hfs & Hi).
  rewrite Hfs in Hg. cbn [mbind result_bind] in Hg.
  do 8 (destruct fs as [|? fs]; [done|]). destruct fs; [|done].
  destruct (negb _); [done|]. cbv zeta in Hg. destruct (geometry_valid _ _ _ _ _ _ _ _ _); [|done].
  injection Hg as <-. apply bind_ok in Hi as ([] & Hq%require_ok & Hi). injection Hi as <- <-.
  to_prop. done.
Qed.

Lemma len_block_at data n : 0 <= n -> (n + 1) * BSIZE <= len data -> len (block data n) = BSIZE.
Proof. intros. unfold block. rewrite len_slice; unfold BSIZE in *; lia. Qed.

Lemma unpack_from_block fs data n off :
  0 <= n -> (n + 1) * BSIZE <= len data -> 0 <= off -> off + calcsize fs <= BSIZE ->
  unpack_from fs (block data n) off = unpack_from fs data (n * BSIZE + off).
Proof.
  intros Hn Hl Ho Hc. pose proof (calcsize_nonneg fs). unfold unpack_from.
  assert (Hb : len (block data n) = BSIZE) by (apply len_block_at; lia).
  assert (H1 : off + calcsize fs <=? BSIZE = true) by (apply Z.leb_le; lia).
  assert (H2 : n * BSIZE + off + calcsize fs <=? len data = true)
    by (apply Z.leb_le; unfold BSIZE in *; lia).
  rewrite Hb, H1, H2. f_equal. apply unpack_head_ext. unfold block. rewrite slice_take_drop, !ztake_take, !zdrop_drop.
  rewrite skipn_firstn_comm, take_take, drop_drop. unfold BSIZE in *. f_equal; [lia|]. f_equal. lia.
Qed.

Lemma unpack_one_block f data n off :
  0 <= n -> (n + 1) * BSIZE <= len data -> 0 <= off -> off + fmt_size f <= BSIZE ->
  unpack_one f (block data n) off = unpack_one f data (n * BSIZE + off).
Proof.
  intros Hn Hl Ho Hc. pose proof (fmt_size_pos f). unfold unpack_one.
  assert (Hb : len (block data n) = BSIZE) by (apply len_block_at; lia).
  assert (H1 : off + fmt_size f <=? BSIZE = true) by (apply Z.leb_le; lia).
  assert (H2 : n * BSIZE + off + fmt_size f <=? len data = true)
    by (apply Z.leb_le; unfold BSIZE in *; lia).
  rewrite Hb, H1, H2. f_equal. f_equal. unfold block, BSIZE in *. rewrite slice_slice by lia. f_equal; lia.
Qed.

(** The oracle and the checker read the same header. *)
Lemma log_state_agree data g c ts payload d c' ts' shadow :
  parse_geometry data ∅ = Ok (Some g, ∅) -> log_state data = Ok (c, ts, payload) ->
  parse_log data g ∅ = Ok ((c', ts', Some shadow), d) ->
  c' = c /\ ts' = ts /\
  payload = (fun i => block data (3 + i)) <$> range 0 (Z.min 2 (if c =? 0 then 2 else c)).
Proof.
  intros Hg Hs Hl. destruct (parse_geometry_wf _ _ _ _ Hg) as [Hwf _].
  unfold log_state in Hs. apply bind_ok in Hs as ([ls ist] & Hi & Hs).
  destruct (geometry_agree _ _ _ _ _ Hg Hi) as [Hsz ->].
  pose proof (wf_logstart _ _ Hwf) as Hls. pose proof (wf_len _ _ Hwf) as Hlen. rewrite Hls in *.
  unfold parse_log in Hl. rewrite Hls in Hl. cbv zeta in Hl.
  rewrite unpack_one_block in Hl by (unfold fmt_size, BSIZE in *; cbn; lia).
  change (2 * BSIZE + 0) with (2 * BSIZE) in Hl.
  apply bind_ok in Hs as (n & Hn & Hs). rewrite Hn in Hl. cbn [mbind result_bind] in Hl.
  apply bind_ok in Hs as ([] & Hb%require_ok & Hs). to_prop. unfold LOGBLOCKS in *.
  rewrite (proj2 (orb_false_iff _ _)) in Hl by (split; apply Z.ltb_ge; lia).
  apply bind_ok in Hs as (us & Hus & Hs). injection Hs as <- <- <-.
  assert (Hsame : (if n =? 0 then Ok [] else unpack_from (repeat FI (Z.to_nat n)) (block data 2) 4)
                  = Ok us).
  { destruct (n =? 0); [done|]. rewrite unpack_from_block; [done|lia|unfold BSIZE in *; lia|lia|].
    rewrite calcsize_repeat. unfold fmt_size, BSIZE; cbn. lia. }
  rewrite Hsame in Hl. cbn [mbind result_bind] in Hl.
  destruct (foldl _ _ _) as [seen d1]. destruct (negb _); [done|].
  apply bind_ok in Hl as (sh & _ & Hl). injection Hl as <- <- _ _.
  split_and!; [done|done|]. apply list_fmap_ext. intros _ i _. unfold block. f_equal; lia.
Qed.
