(* ===== verification/RecoverRun.v ===== *)
(** The runs of the crash/recovery runner: booting an image and reading its
    replay marker, crashing the guest at each point, recovering twice, and the
    synthetic tears.

    QEMU is not modelled: what a guest does with an image is a parameter.
    [boot_guest] takes the image of a private file and returns the transcript
    up to the first prompt and the image after the guest was stopped;
    [crash_boot] boots the image of a crash run up to the prompt, and
    [crash_guest] goes on with the crash command until its marker and returns
    the transcript of the command and the image after the kill.  Each may
    fail, as the watchdog does. *)

From stdpp Require Import base tactics list gmap strings numbers list_numbers.
From S2P Require Import Prelude PyText PyBytes PyJson Sha256 Fsck Recover.
Open Scope Z_scope.

(** * Markers *)

(** [CRASH_RE] and [REPLAY_RE] *)
Definition CRASH_RE : list line_part :=
  [Lit "RECOVERY CRASH abi=1 point="; Upper; Lit " hart="; Num; Lit " epoch="; Num; Lit " count="; Num;
   Lit " left="; Num; Lit " right="; Num; Lit " fired=1"].
Definition REPLAY_RE : list line_part :=
  [Lit "RECOVERY REPLAY abi=1 seen_n="; Num; Lit " installed="; Num; Lit " cleared=1 left="; Num;
   Lit " right="; Num].

Definition parse_replay (transcript : pystr) (seen : Z) (context : msg) : result (Z * Z) :=
  match find_lines REPLAY_RE transcript with
  | [groups] =>
      values ← mapR int_decimals groups;
      match values with
      | [observed; installed; left_; right_] =>
          require (bool_decide ([observed; installed; left_; right_] = [seen; seen] ++ HOME_BLOCKS))
            (context ++ [T ": replay marker changed: "; L groups]);;
          Ok (observed, installed)
      | _ => Raise ValueError
      end
  | matches => Raise (LabError (context ++ [T ": replay marker count changed: "; Elided]))
  end.

(** [REPLAY_RE.search(transcript).group(0)] *)
Definition group0 (pattern : list line_part) (transcript : pystr) : result pystr :=
  of_option AttributeError (first_line pattern transcript).

(** * Synthetic tears *)

Definition HALF : Z := BSIZE / 2.

(** The mutated images. *)
Definition tear_payload (header : pybytes) : result (Z * pybytes) :=
  '(logstart, _) ← image_geometry header;
  let offset := (logstart + 1) * BSIZE in
  before ← expected_pattern false 0 5890;
  Ok (offset, splice offset (offset + HALF) (ztake HALF before) header).

Definition tear_home (home : pybytes) : result pybytes :=
  let offset := 1990 * BSIZE in
  before ← expected_pattern false 0 5891;
  Ok (splice offset (offset + HALF) (ztake HALF before) home).

Definition restore_header (header clear : pybytes) : result (Z * pybytes) :=
  '(logstart, _) ← image_geometry clear;
  let header_block := slice (logstart * BSIZE) ((logstart + 1) * BSIZE) header in
  Ok (logstart, splice (logstart * BSIZE) ((logstart + 1) * BSIZE) header_block clear).

Definition bad_target_image (header : pybytes) : result (Z * pybytes) :=
  '(logstart, _) ← image_geometry header;
  image ← pack_into [FI] header (logstart * BSIZE + 4) [logstart];
  Ok (logstart, image).

Definition mutation_json (offset length : Z) (what : pystr * json) : json :=
  JObj [kv "offset" (JInt offset); kv "length" (JInt length); what].

(** [any(item.startswith(code) for item in diagnostics)] *)
Definition reports (code : string) (diagnostics : list pystr) : bool :=
  existsb (fun item => startswith item (u code)) diagnostics.

Section Guest.
Context (boot_guest : pybytes -> result (pystr * pybytes)).
Context (crash_boot : pybytes -> result pystr).
Context (crash_guest : pybytes -> pystr -> pystr -> result (pystr * pybytes)).

(** Transcript, image after the guest stopped and its hash. *)
Definition boot (image : pybytes) (seen : Z) (context : msg) : result (pystr * pybytes * pystr) :=
  '(transcript, stopped) ← boot_guest image;
  parse_replay transcript seen context;;
  Ok (transcript, stopped, sha256 stopped).

Definition crash (image : pybytes) (p : Point) (epoch : Z) : result (pystr * pybytes) :=
  let case := T (p_case p) in
  let marker := u "RECOVERY CRASH abi=1 point=" ++ u (p_name p) ++ u " hart=0 epoch=" ++
    str_of_int epoch ++ u " count=2 left=1990 right=1991 fired=1" ++ [newline] in
  let command := u "recoverycase " ++ u (p_name p) ++ u " " ++ str_of_int epoch in
  booted ← crash_boot image;
  parse_replay booted 0 [case; T " initial boot"];;
  '(transcript, data) ← crash_guest image command marker;
  match find_lines CRASH_RE transcript with
  | [observed_name :: numbers] =>
      values ← mapR int_decimals numbers;
      require (bool_decide (observed_name = u (p_name p)) &&
               bool_decide (values = [0; epoch; 2] ++ HOME_BLOCKS))
        [case; T ": crash marker changed: "; L (observed_name :: numbers)];;
      Ok (transcript, data)
  | _ => Raise (LabError [case; T ": crash marker count changed"])
  end.

(** One turn of the loop over [enumerate(POINTS, start=1)]; the image file of
    the case starts as a copy of [pristine]. *)
Definition run_crash_point (pristine : pybytes) (st : list (pystr * json) * list (string * pybytes))
    (it : Z * Point) : result (list (pystr * json) * list (string * pybytes)) :=
  let '(records, images) := st in
  let '(sequence, p) := it in
  let case := T (p_case p) in
  let epoch := 5888 + sequence in
  '(transcript, crash_data) ← crash pristine p epoch;
  record ← validate_crash crash_data p epoch;
  '(first_transcript, recovered, first_hash) ← boot crash_data (p_seen p) [case; T " first recovery"];
  '(n, _, _) ← log_state recovered;
  home ← (if n =? 0 then classify_homes recovered epoch else Ok Mixed);
  require ((n =? 0) && bool_decide (home_text home = p_final p))
    [case; T ": first recovery did not produce exact "; T (p_final p); T " state"];;
  first_fsck ← assert_fsck recovered false [case; T " first recovery"];
  '(second_transcript, second, second_hash) ← boot recovered 0 [case; T " idempotent restart"];
  second_fsck ← assert_fsck second false [case; T " idempotent restart"];
  require (bool_decide (first_hash = second_hash) && bool_decide (second = recovered))
    [case; T ": second restart changed the recovered image"];;
  crash_marker ← group0 CRASH_RE transcript;
  first_replay ← group0 REPLAY_RE first_transcript;
  second_replay ← group0 REPLAY_RE second_transcript;
  let record := match record with JObj o => o | _ => [] end ++
    [ kv "crash_marker" (JStr crash_marker); kv "first_replay" (JStr first_replay);
      kv "second_replay" (JStr second_replay); kv "first_stop_sha256" (JStr first_hash);
      kv "second_stop_sha256" (JStr second_hash); kv "first_stop_fsck" (fsck_summary None first_fsck);
      kv "second_stop_fsck" (fsck_summary None second_fsck) ] in
  Ok (records ++ [kv (p_case p) (JObj record)], images ++ [(p_case p, crash_data)]).

Definition run_crash_points (pristine : pybytes)
    : result (list (pystr * json) * list (string * pybytes)) :=
  foldM (run_crash_point pristine) ([], []) (enumerate_from 1 POINTS).
(** The part of [run_tears] for each entry of its result. *)
Definition run_header_zero (header : pybytes) : result json :=
  rollback ← set_log_count header 0;
  '(transcript, data, rollback_hash) ← boot rollback 0 [T "header-count rollback"];
  fsck ← assert_fsck data false [T "header-count rollback"];
  '(n, _, _) ← log_state data;
  home ← (if n =? 0 then classify_homes data 5890 else Ok Mixed);
  require ((n =? 0) && bool_decide (home = Before))
    [T "header-count rollback did not expose rejected BEFORE state"];;
  '(logstart, _) ← image_geometry header;
  replay ← group0 REPLAY_RE transcript;
  Ok (JObj [ kv "accepted_as_postcommit" (JBool false); kv "source_sha256" (JStr (sha256 header));
             kv "mutated_sha256" (JStr (sha256 rollback)); kv "first_stop_sha256" (JStr rollback_hash);
             kv "mutation" (mutation_json (logstart * BSIZE) 4 (kv "value" (JInt 0)));
             kv "observed" (jstr "before"); kv "replay" (JStr replay);
             kv "fsck" (fsck_summary None fsck) ]).

Definition run_payload_half (header : pybytes) : result json :=
  '(offset, payload_tear) ← tear_payload header;
  '(transcript, data, payload_hash) ← boot payload_tear 2 [T "log-payload half-write"];
  fsck ← check_bytes data;
  home ← classify_homes data 5890;
  require (bool_decide (home = Mixed)) [T "log-payload half-write was not rejected as MIXED"];;
  replay ← group0 REPLAY_RE transcript;
  Ok (JObj [ kv "accepted_as_postcommit" (JBool false); kv "source_sha256" (JStr (sha256 header));
             kv "mutated_sha256" (JStr (sha256 payload_tear)); kv "first_stop_sha256" (JStr payload_hash);
             kv "mutation" (mutation_json offset HALF (kv "replacement" (jstr "BEFORE block 0 prefix")));
             kv "replay" (JStr replay); kv "observed" (jstr "mixed");
             kv "fsck" (fsck_summary None fsck) ]).

Definition run_home_half (home : pybytes) : result json :=
  home_tear ← tear_home home;
  '(transcript, data, home_hash) ← boot home_tear 2 [T "home-block half-write"];
  fsck ← assert_fsck data false [T "home-block half-write"];
  '(n, _, _) ← log_state data;
  state ← (if n =? 0 then classify_homes data 5891 else Ok Mixed);
  require ((n =? 0) && bool_decide (state = After)) [T "redo did not repair the torn home block"];;
  replay ← group0 REPLAY_RE transcript;
  Ok (JObj [ kv "accepted" (JBool true); kv "source_sha256" (JStr (sha256 home));
             kv "mutated_sha256" (JStr (sha256 home_tear)); kv "first_stop_sha256" (JStr home_hash);
             kv "mutation" (mutation_json (1990 * BSIZE) HALF
                              (kv "replacement" (jstr "BEFORE block 0 prefix")));
             kv "replay" (JStr replay); kv "observed" (jstr "after");
             kv "fsck" (fsck_summary None fsck) ]).

Definition run_header_restore (header clear : pybytes) : result json :=
  '(logstart, reappeared) ← restore_header header clear;
  '(first_transcript, first_data, first_hash) ← boot reappeared 2 [T "cleared header reappears"];
  first_fsck ← assert_fsck first_data false [T "cleared header reappears"];
  '(second_transcript, second_data, second_hash) ←
    boot first_data 0 [T "cleared header idempotent restart"];
  second_fsck ← assert_fsck second_data false [T "cleared header idempotent restart"];
  '(n1, _, _) ← log_state first_data;
  ok ← (if n1 =? 0 then
          '(n2, _, _) ← log_state second_data;
          if n2 =? 0 then
            home ← classify_homes second_data 5892;
            Ok (bool_decide (home = After) && bool_decide (first_hash = second_hash))
          else Ok false
        else Ok false);
  require ok [T "repeated redo after restored header was not idempotent"];;
  first_replay ← group0 REPLAY_RE first_transcript;
  second_replay ← group0 REPLAY_RE second_transcript;
  Ok (JObj [ kv "accepted" (JBool true); kv "source_sha256" (JStr (sha256 clear));
             kv "mutated_sha256" (JStr (sha256 reappeared)); kv "first_stop_sha256" (JStr first_hash);
             kv "second_stop_sha256" (JStr second_hash);
             kv "mutation" (mutation_json (logstart * BSIZE) BSIZE
                              (kv "replacement" (jstr "committed header block")));
             kv "first_replay" (JStr first_replay); kv "second_replay" (JStr second_replay);
             kv "observed" (jstr "after"); kv "first_fsck" (fsck_summary None first_fsck);
             kv "second_fsck" (fsck_summary None second_fsck) ]).

Definition run_invalid_count (clear : pybytes) : result json :=
  bad_count ← set_log_count clear (LOGBLOCKS + 1);
  checked ← check_bytes bad_count;
  require (negb (clean checked) && reports "E_LOG_COUNT" (report_diagnostics checked))
    [T "offline checker accepted invalid log count"];;
  '(logstart, _) ← image_geometry bad_count;
  Ok (JObj [ kv "accepted" (JBool false); kv "mutated_sha256" (JStr (sha256 bad_count));
             kv "mutation" (mutation_json (logstart * BSIZE) 4 (kv "value" (JInt (LOGBLOCKS + 1))));
             kv "diagnostics" (JList (JStr <$> report_diagnostics checked)) ]).

Definition run_invalid_target (header : pybytes) : result json :=
  '(logstart, bad) ← bad_target_image header;
  checked ← check_bytes bad;
  require (negb (clean checked) && reports "E_LOG_TARGET" (report_diagnostics checked))
    [T "offline checker accepted a log-region target"];;
  Ok (JObj [ kv "accepted" (JBool false); kv "mutated_sha256" (JStr (sha256 bad));
             kv "mutation" (mutation_json (logstart * BSIZE + 4) 4 (kv "value" (JInt logstart)));
             kv "diagnostics" (JList (JStr <$> report_diagnostics checked)) ]).

(** [images[case]] *)
Definition image_of (images : list (string * pybytes)) (case : string) : result pybytes :=
  of_option KeyError (snd ∘ snd <$> list_find (fun '(k, _) => k = case) images).

Definition run_tears (images : list (string * pybytes)) : result json :=
  header ← image_of images "crash-20-commit-header";
  home ← image_of images "crash-30-home-install";
  clear ← image_of images "crash-40-header-clear";
  header_zero ← run_header_zero header;
  payload_half ← run_payload_half header;
  home_half ← run_home_half home;
  header_restore ← run_header_restore header clear;
  invalid_count ← run_invalid_count clear;
  invalid_target ← run_invalid_target header;
  Ok (JObj [ kv "header-zero" header_zero; kv "payload-half" payload_half; kv "home-half" home_half;
             kv "header-restore" header_restore; kv "invalid-count" invalid_count;
             kv "invalid-target" invalid_target ]).
End Guest.
