(* ===== verification/RecoverSelf.v ===== *)
(** The self test of the crash/recovery runner, [fsck_mutation_self_test]: the
    offline checker accepts the pristine image and an image whose pending log
    repairs it, and refuses every mutated image with the code the mutation is
    meant to raise.  The image file is its contents [good]; the runner and the
    checker only read it. *)

From stdpp Require Import base tactics list gmap strings numbers list_numbers.
From S2P Require Import Prelude PyText PyBytes PyJson Sha256 Fsck Recover RecoverRun.
Open Scope Z_scope.

Section SelfTest.
Context (good : pybytes) (layout : Geometry) (inodes : list Inode).

(** * The helpers inside the function *)

Definition inode_offset (inum : Z) : Z := inodestart layout * BSIZE + inum * calcsize DINODE.

Definition set_bitmap (data : pybytes) (number : Z) (value : bool) : result pybytes :=
  let offset := (bmapstart layout + number / BPB) * BSIZE in
  let offset := offset + (number mod BPB) / 8 in
  let mask := Z.shiftl 1 (number mod 8) in
  old ← index data offset;
  set_index data offset (if value then Z.lor old mask else Z.land old (Z.lnot mask)).

(** The entries of one block: the first used one with the wanted name. *)
Fixpoint find_dirent (wanted : pybytes) (offsets : list Z) : result (option (Z * Z)) :=
  match offsets with
  | [] => Ok None
  | offset :: offsets =>
      '(target, raw_name) ← unpack_dirent good offset;
      if negb (target =? 0) && bool_decide (decode_name raw_name = wanted)
      then Ok (Some (offset, target))
      else find_dirent wanted offsets
  end.

Fixpoint dirent_in (wanted : pybytes) (remaining : Z) (blocks : list (kind * Z * Z))
    : result (Z * Z) :=
  match blocks with
  | [] => Raise (LabError [T "self-test directory entry missing: "; R wanted])
  | (KIndirect, _, _) :: blocks => dirent_in wanted remaining blocks
  | (KData, _, address) :: blocks =>
      found ← find_dirent wanted ((fun local => address * BSIZE + local) <$>
                range_step 0 (Z.min remaining BSIZE) DIRENT_SIZE);
      match found with
      | Some entry => Ok entry
      | None => dirent_in wanted (remaining - Z.min remaining BSIZE) blocks
      end
  end.

Definition dirent (wanted : pybytes) : result (Z * Z) :=
  root ← of_option KeyError (get_inode inodes ROOTINO);
  '(blocks, _) ← inode_blocks good layout root ∅;
  dirent_in wanted (isize root) blocks.

(** * The mutations *)

Definition first_addr (inode : Inode) : Z := hd 0 (addrs inode).

(** Superblock, log header and the root directory. *)
Definition metadata_mutations (file0 : Inode) : result (list (string * pybytes * string)) :=
  super_magic ← pack_into [FI] good BSIZE [0];
  log_count ← set_log_count good (LOGBLOCKS + 1);
  '(logstart, _) ← image_geometry good;
  log_target ← set_log_count good 1;
  log_target ← pack_into [FI] log_target (logstart * BSIZE + 4) [logstart];
  '(dot_offset, _) ← dirent (u ".");
  directory_dot ← pack_into [FH] good dot_offset [0];
  '(dotdot_offset, _) ← dirent (u "..");
  directory_dotdot ← pack_into [FH] good dotdot_offset [inum file0];
  Ok [ ("super-magic", super_magic, "E_SUPER_MAGIC"); ("log-count", log_count, "E_LOG_COUNT");
       ("log-target", log_target, "E_LOG_TARGET"); ("directory-dot", directory_dot, "E_DOT");
       ("directory-dotdot", directory_dotdot, "E_DOTDOT") ]%string.

(** Bitmap and block addresses. *)
Definition block_mutations (file0 victim : Inode) : result (list (string * pybytes * string)) :=
  bitmap_metadata ← set_bitmap good 0 false;
  bitmap_missing ← set_bitmap good (first_addr file0) false;
  bitmap_leak ← set_bitmap good 1990 true;
  let file_inode := inode_offset (inum file0) in
  logical_hole ← pack_into [FI] good (file_inode + 12) [0];
  file_size ← unpack_one FI good (file_inode + 8);
  let trailing := (file_size + BSIZE - 1) / BSIZE in
  require (trailing <? 12) [T "self-test README no longer fits direct blocks"];;
  trailing_block ← pack_into [FI] good (file_inode + 12 + trailing * 4) [1990];
  duplicate ← pack_into [FI] good (inode_offset (inum victim) + 12) [first_addr file0];
  duplicate ← set_bitmap duplicate (first_addr victim) false;
  Ok [ ("bitmap-metadata", bitmap_metadata, "E_BITMAP_METADATA");
       ("bitmap-missing", bitmap_missing, "E_BITMAP_UNMARKED");
       ("bitmap-leak", bitmap_leak, "E_BITMAP_LEAK");
       ("file-logical-hole", logical_hole, "E_INODE_HOLE");
       ("file-trailing-block", trailing_block, "E_INODE_TRAILING");
       ("duplicate-owner", duplicate, "E_BLOCK_DUP") ]%string.

(** Link counts and reachability of README. *)
Definition link_mutations : result (list (string * pybytes * string)) :=
  '(readme_offset, readme_inum) ← dirent (u "README");
  unreachable ← pack_into [FH] good readme_offset [0];
  current_nlink ← unpack_one Fh good (inode_offset readme_inum + 6);
  mismatch ← pack_into [Fh] good (inode_offset readme_inum + 6) [current_nlink + 1];
  orphan ← pack_into [FH] good readme_offset [0];
  orphan ← pack_into [Fh] orphan (inode_offset readme_inum + 6) [0];
  Ok [ ("unreachable-nlink", unreachable, "E_UNREACHABLE");
       ("nlink-mismatch", mismatch, "E_NLINK"); ("orphan", orphan, "E_ORPHAN") ]%string.

Definition mutations (file0 victim : Inode) : result (list (string * pybytes * string)) :=
  metadata ← metadata_mutations file0;
  blocks ← block_mutations file0 victim;
  links ← link_mutations;
  Ok (metadata ++ blocks ++ links).

Definition rejected_json (name : string) (raw : pybytes) (code : string) (result : Report) : json :=
  JObj [ kv "id" (jstr name); kv "input_sha256" (JStr (sha256 raw)); kv "expected" (jstr code);
         kv "diagnostics" (JList (JStr <$> report_diagnostics result)) ].

Definition reject_mutation (it : string * pybytes * string) : result json :=
  let '(name, raw, code) := it in
  result ← check_bytes raw;
  require (negb (clean result) && reports code (report_diagnostics result))
    [T "offline checker accepted mutation: "; T name];;
  Ok (rejected_json name raw code result).

(** * A pending log *)

(** A log header with one target, the first bitmap block, and its payload. *)
Definition log_bitmap (payload image : pybytes) : result pybytes :=
  pack_into [Fi; FI]
    (splice ((logstart layout + 1) * BSIZE) ((logstart layout + 2) * BSIZE) payload image)
    (logstart layout * BSIZE) [1; bmapstart layout].

(** The home bitmap lost a bit, the logged one has it. *)
Definition pending_repairs (owned : Z) : result pybytes :=
  let bitmap := block good (bmapstart layout) in
  let repaired := splice ((logstart layout + 1) * BSIZE) ((logstart layout + 2) * BSIZE) bitmap good in
  repaired ← set_bitmap repaired owned false;
  pack_into [Fi; FI] repaired (logstart layout * BSIZE) [1; bmapstart layout].

(** The logged bitmap lost a bit, the home one has it. *)
Definition pending_corrupts (owned : Z) : result pybytes :=
  let bitmap := block good (bmapstart layout) in
  let local := (owned mod BPB) / 8 in
  old ← index bitmap local;
  bad_bitmap ← set_index bitmap local (Z.land old (Z.lnot (Z.shiftl 1 (owned mod 8))));
  log_bitmap bad_bitmap good.

Definition pending (result : Report) : bool := bool_decide (log_pending result = Some true).

Definition accept_pending (owned : Z) : result pybytes :=
  repaired ← pending_repairs owned;
  result ← check_bytes repaired;
  require (clean result && negb (raw_clean result) && recovered_clean result && pending result)
    [T "offline checker rejected recoverable pending log"];;
  Ok repaired.

Definition reject_pending (owned : Z) : result json :=
  corrupt ← pending_corrupts owned;
  result ← check_bytes corrupt;
  require (negb (clean result) && raw_clean result && negb (recovered_clean result) &&
           pending result && reports "E_BITMAP_UNMARKED" (report_diagnostics result))
    [T "offline checker accepted corrupt pending-log shadow"];;
  Ok (rejected_json "pending-corrupt-shadow" corrupt "E_BITMAP_UNMARKED" result).

Definition regular_files : list Inode :=
  filter (fun inode => type inode = T_FILE /\ isize inode <> 0 /\ first_addr inode <> 0) inodes.
End SelfTest.

(** * The self test *)

Definition fsck_mutation_self_test (good : pybytes) : result json :=
  verify_home_blocks_free good;;
  let before := sha256 good in
  '(pristine, input) ← check_path good good good;
  require (clean pristine && raw_clean pristine && recovered_clean pristine &&
           negb (pending pristine) && bool_decide (sha256 good = before))
    [T "offline checker rejected or modified pristine fs.img"];;
  '(layout, d) ← parse_geometry good ∅;
  match layout with
  | None => Raise (LabError [T "self-test cannot parse pristine geometry"])
  | Some layout =>
      require (no_codes d) [T "self-test cannot parse pristine geometry"];;
      '(inodes, _) ← parse_inodes good layout d;
      match regular_files inodes with
      | file0 :: victim :: _ =>
          mutated ← mutations good layout inodes file0 victim;
          rejected ← mapR reject_mutation mutated;
          let owned := first_addr file0 in
          repaired ← accept_pending good layout owned;
          corrupt ← reject_pending good layout owned;
          again ← check_bytes repaired;
          Ok (JObj [ kv "good" (JInt 2);
                     kv "accepted" (JList [
                       JObj [ kv "id" (jstr "pristine"); kv "input_sha256" (JStr before);
                              kv "fsck" (fsck_summary (Some input) pristine) ];
                       JObj [ kv "id" (jstr "pending-repairs-home");
                              kv "input_sha256" (JStr (sha256 repaired));
                              kv "fsck" (fsck_summary None again) ] ]);
                     kv "rejected" (JList (rejected ++ [corrupt])) ])
      | _ => Raise (LabError [T "self-test needs two allocated regular files"])
      end
  end.
