(* ===== verification/RecoverDocs.v ===== *)
(** The contract and source checks of the crash/recovery runner: the manifest
    and scenario file [load_contract] accepts, and the token checks of the
    pinned baseline and of the audit fixture.

    The documents are parsed JSON; the files of the exported tree are a
    function from paths to texts.  Which characters outside ASCII are
    alphanumeric, which only matters to the word boundary of one pattern, is a
    parameter. *)

From stdpp Require Import base tactics list gmap strings numbers list_numbers sorting.
From S2P Require Import Prelude PyText PyBytes PyRegex PyJson Fsck Recover.
Open Scope Z_scope.

(** * The contract *)

Definition expected_points : json :=
  let point id logical name phase n crash seen home :=
    JObj [ kv "id" (jstr id); kv "logical_id" (JInt logical); kv "point" (jstr name);
           kv "phase" (jstr phase); kv "crash_header_n" (JInt n); kv "crash_home" (jstr crash);
           kv "recovery_seen_n" (JInt seen); kv "recovery_home" (jstr home) ] in
  JList
    [ point "log-data" 10 "LOG_DATA_COMPLETE" "precommit" 0 "before" 0 "before";
      point "commit-header" 20 "COMMIT_HEADER_COMPLETE" "postcommit" 2 "before" 2 "after";
      point "home-install" 30 "HOME_INSTALL_COMPLETE" "postcommit" 2 "after" 2 "after";
      point "header-clear" 40 "HEADER_CLEAR_COMPLETE" "postcommit" 0 "after" 0 "after" ]%string.

Definition required_resources : list string :=
  [ "resources/recovery/recovery-audit.patch"; "resources/recovery/run-project.py";
    "resources/recovery/fsck.py"; "resources/recovery/scenarios.json";
    "resources/recovery/rubric.md"; "resources/recovery/report-template.md";
    "questions/recovery.md"; "questions/answers/recovery.md" ].

(** The unit of the dictionary [{unit.get("id"): unit for ...}]: the last of
    the dictionaries with this identifier; every identifier is hashed. *)
Definition add_unit (id : string) (found : option obj) (unit : json) : result (option obj) :=
  match unit with
  | JObj o =>
      if hashable (get o "id")
      then Ok (if is_str (get o "id") id then Some o else found)
      else Raise TypeError
  | _ => Ok found
  end.

Definition check_anchor (anchor : json) : result unit :=
  require (match anchor with JObj o => has_keys o ["path"; "symbol"] | _ => false end)
    [T "crash-recovery source anchor schema changed"].

(** The unit of this project in the manifest. *)
Definition check_unit (unit : obj) : result () :=
  let status_message := [T "crash-recovery manifest identity/status/requires changed"] in
  require (is_str (get unit "stage") "persistence" && is_int (get unit "order") 30) status_message;;
  status ← in_strs (get unit "status") ["draft"; "verified"];
  require (status && json_eq (get unit "requires") (jstrs ["core.persistence"])) status_message;;
  let ownership := [T "crash-recovery ownership or evidence dimensions changed"] in
  require (json_eq (get unit "resolves") (jstrs ["crash-recovery-and-offline-consistency"])) ownership;;
  dimensions ← py_set (default (JList []) (lookup_key (u "evidence_dimensions") unit));
  require (set_is dimensions ["S"; "F"; "B"; "R"]) ownership;;
  resources ← py_set (default (JList []) (lookup_key (u "resources") unit));
  require (forallb (set_has resources) required_resources)
    [T "crash-recovery resources are not manifest-authoritative"];;
  match get unit "source_anchors" with
  | JList (a :: anchors) => foldM (fun _ => check_anchor) tt (a :: anchors)
  | _ => Raise (LabError [T "crash-recovery source anchors are missing"])
  end.

(** [all(set(tear) == {...} for tear in tears)] *)
Fixpoint all_tears (tears : list json) : result bool :=
  match tears with
  | [] => Ok true
  | tear :: tears =>
      names ← py_set tear;
      if set_is names ["id"; "source_point"; "operation"; "expected"] then all_tears tears else Ok false
  end.

Definition check_scenarios (scenarios : json) : result () :=
  version ← jget scenarios "schema_version" JNull;
  abi ← jget scenarios "abi" JNull;
  homes ← jget scenarios "home_blocks" JNull;
  require (is_int version 1 && is_int abi 1 && json_eq homes (JList (JInt <$> HOME_BLOCKS)))
    [T "recovery scenario header changed"];;
  points ← jget scenarios "crash_points" JNull;
  require (match points with JList l => len l =? len POINTS | _ => false end)
    [T "recovery crash-point set changed"];;
  require (json_eq points expected_points) [T "recovery crash-point declarations changed"];;
  tears ← jget scenarios "synthetic_tears" JNull;
  let message := [T "synthetic tear declarations changed"] in
  match tears with
  | JList l =>
      let ids := omap (fun tear => match tear with JObj o => Some (get o "id") | _ => None end) l in
      require (json_eq (JList ids) (jstrs TEAR_IDS)) message;;
      ok ← all_tears l;
      require ok message
  | _ => Raise (LabError message)
  end.

(** The pinned commit; the two documents are returned as they are. *)
Definition load_contract (manifest scenarios : json) : result (json * json * pystr) :=
  release ← jget manifest "release" (JObj []);
  baseline ← jget release "baseline_commit" JNull;
  match baseline with
  | JStr commit =>
      require (is_commit commit) [T "manifest baseline_commit must be a full lowercase commit ID"];;
      units ← jget manifest "units" (JList []);
      units ← iterate units;
      unit ← foldM (add_unit "project.crash-recovery") None units;
      match unit with
      | Some unit => check_unit unit;; check_scenarios scenarios;; Ok (manifest, scenarios, commit)
      | None => Raise (LabError [T "manifest is missing project.crash-recovery"])
      end
  | _ => Raise (LabError [T "manifest baseline_commit must be a full lowercase commit ID"])
  end.

(** * Token order *)

(** [text.find(token, start)] for [0 <= start] *)
Definition find_from (token s : pystr) (start : Z) : option Z :=
  if len s <? start then None else (fun n => start + Z.of_nat n) <$> find token (zdrop start s).

(** The body of the loop of [ordered]; the state is [position]. *)
Definition ordered_step (s : pystr) (context : msg) (position : Z) (token : string) : result Z :=
  match find_from (u token) s (position + 1) with
  | Some position => Ok position
  | None => Raise (LabError (context ++ [T ": missing/out-of-order "; R (u token)]))
  end.

Definition ordered (s : pystr) (tokens : list string) (context : msg) : result () :=
  foldM (ordered_step s context) (-1) tokens;; Ok tt.

(** [for token in tokens: require(token in text, f"{context}: {token}")] *)
Definition require_tokens (s : pystr) (context : string) (tokens : list string) : result () :=
  foldM (fun _ token => require (contains (u token) s) [T context; T ": "; T token]) tt tokens.

Section Sources.
Context (source : string -> result pystr).
Context (alphanumeric : Z -> bool).

Definition analyze_baseline : result () :=
  log ← source "kernel/log.c";
  fs ← source "kernel/fs.c";
  param ← source "kernel/param.h";
  ordered log ["write_log();"; "write_head();"; "install_trans(0);"; "log.lh.n = 0;"; "write_head();"]
    [T "baseline commit"];;
  require_tokens (log ++ param) "baseline recovery anchor missing"
    ["recover_from_log("; "read_head();"; "install_trans(1);"; "struct logheader"; "LOGBLOCKS"];;
  require_tokens fs "baseline fsck anchor missing" ["ialloc("; "itrunc("; "dirlink("; "dirlookup("];;
  require (negb (contains (u "RECOVERY CRASH") log) && negb (contains (u "recoveryaudit_hit") log))
    [T "pinned baseline unexpectedly contains recovery fixture"].

Definition define_pattern (name : string) (id : Z) : pattern :=
  all_of [ bol; lit "#define"; plus (MChr isspace); lit name; plus (MChr isspace);
           text (str_of_int id); word_boundary alphanumeric ].

Definition point_ids : list (string * Z) :=
  [ ("RC_LOG_DATA_COMPLETE", 10); ("RC_COMMIT_HEADER_COMPLETE", 20);
    ("RC_HOME_INSTALL_COMPLETE", 30); ("RC_HEADER_CLEAR_COMPLETE", 40) ]%string.

Definition candidate_order : list string :=
  [ "write_log();"; "recoveryaudit_hit(RC_LOG_DATA_COMPLETE";
    "write_head();"; "recoveryaudit_hit(RC_COMMIT_HEADER_COMPLETE";
    "install_trans(0);"; "recoveryaudit_hit(RC_HOME_INSTALL_COMPLETE";
    "log.lh.n = 0;"; "write_head();"; "recoveryaudit_hit(RC_HEADER_CLEAR_COMPLETE" ].

(** The literal [asm volatile("wfi")], whose quotes are characters 34. *)
Definition wfi : pystr := u "asm volatile(" ++ [34] ++ u "wfi" ++ [34] ++ u ")".

Definition analyze_fixture (candidate : bool) : result () :=
  makefile ← source "Makefile";
  audit ← source "kernel/recoveryaudit.c";
  header ← source "kernel/recoveryaudit.h";
  guest ← source "user/recoverycase.c";
  log ← source "kernel/log.c";
  require_tokens makefile "fixture build token missing" ["$K/recoveryaudit.o"; "$U/_recoverycase"];;
  foldM (fun _ '(name, id) => require (found_in (define_pattern name id) header)
           [T "fixture logical ID changed: "; T name]) tt point_ids;;
  require_tokens (audit ++ header) "fixture oracle token missing"
    ["recoveryaudit_case("; "recoveryaudit_replay("; "RECOVERY REPLAY abi=1"; "RC_HOME0"; "RC_HOME1"];;
  require (contains (u "recoverycase(") guest && contains (u "LOG_DATA_COMPLETE") guest &&
           contains (u "HEADER_CLEAR_COMPLETE") guest) [T "fixture guest command contract changed"];;
  ordered log ["read_head();"; "seen = log.lh.n;"; "install_trans(1);"; "log.lh.n = 0;"; "write_head();";
               "recoveryaudit_replay("] [T "recovery observation"];;
  if negb candidate then
    require (negb (contains (u "RECOVERY CRASH abi=1") audit) &&
             negb (contains (u "recoveryaudit_hit(RC_") log))
      [T "published fixture contains the learner crash-hook answer"]
  else
    foldM (fun _ token => require (contains token audit)
             [T "candidate crash hook missing: "; V token]) tt
      [u "RECOVERY CRASH abi=1"; u "intr_off();"; wfi];;
    ordered log candidate_order [T "candidate crash points"].
End Sources.

(** * The order check finds an ordered occurrence of the tokens *)

(** [token] stands in [s] at position [p]. *)
Definition occurs_at (token s : pystr) (p : Z) : Prop :=
  exists b a, s = b ++ token ++ a /\ p = Z.of_nat (length b).

Lemma occurs_at_drop token s p start :
  0 <= start -> start <= p -> occurs_at token s p ->
  start <= len s /\ occurs_at token (zdrop start s) (p - start).
Proof.
  intros Hs Hp (b & a & -> & ->). rewrite len_length, !length_app. split; [lia|].
  exists (drop (Z.to_nat start) b), a. rewrite zdrop_drop, drop_app_le by lia. split; [done|].
  rewrite length_drop. lia.
Qed.

Lemma find_from_Some token s start p :
  0 <= start -> find_from token s start = Some p ->
  occurs_at token s p /\ start <= p /\ forall q, occurs_at token s q -> start <= q -> p <= q.
Proof.
  intros H0. unfold find_from. destruct (len s <? start) eqn:El; [done|]. unfold find.
  destruct (cut token (zdrop start s)) as [[b a]|] eqn:Ec; [|done]. intros [= <-]. cbn.
  apply Z.ltb_ge in El. split; [|split; [lia|]].
  - apply cut_Some in Ec. exists (take (Z.to_nat start) s ++ b), a.
    rewrite zdrop_drop in Ec. rewrite <-app_assoc, <-Ec, take_drop. split; [done|].
    rewrite len_length in El. rewrite length_app, length_take. lia.
  - intros q Hq Hsq. destruct (occurs_at_drop _ _ _ _ H0 Hsq Hq) as (_ & b' & a' & E & Eq).
    pose proof (cut_first _ _ _ _ Ec _ _ E). lia.
Qed.

Lemma find_from_None token s start q :
  0 <= start -> find_from token s start = None -> occurs_at token s q -> q < start.
Proof.
  intros H0 H Hq. destruct (Z.lt_ge_cases q start) as [|Hge]; [done|].
  destruct (occurs_at_drop _ _ _ _ H0 Hge Hq) as (Hl & b & a & E & _).
  unfold find_from in H. destruct (len s <? start) eqn:El; [lia|]. unfold find in H.
  destruct (cut token (zdrop start s)) as [[? ?]|] eqn:Ec; [done|]. by destruct (cut_None _ _ Ec b a).
Qed.

Lemma ordered_from s context tokens : forall start, -1 <= start ->
  is_ok (foldM (ordered_step s context) start tokens) = true <->
  exists ps, Forall2 (fun t p => occurs_at (u t) s p) tokens ps /\ Sorted Z.lt (start :: ps).
Proof.
  induction tokens as [|t tokens IH]; intros start Hs; cbn [foldM].
  { split; [|done]. intros _. exists []. split; constructor; constructor. }
  destruct (ordered_step s context start t) as [p|] eqn:Est; cbn [mbind result_bind];
    unfold ordered_step in Est; destruct (find_from (u t) s (start + 1)) as [p'|] eqn:E; try done.
  - injection Est as ->. apply find_from_Some in E as (Hp & Hle & Hmin); [|lia]. rewrite IH by lia. split.
    + intros (ps & Hps & Hsort). exists (p :: ps). split; [by constructor|].
      constructor; [done|]. constructor; lia.
    + intros (ps & Hps & Hsort). inversion Hps as [|? q ? qs Hq Hqs]; subst.
      apply Sorted_inv in Hsort as [Hsort Hhd]. apply HdRel_inv in Hhd.
      apply Sorted_inv in Hsort as [Hsort Hhd']. specialize (Hmin q Hq ltac:(lia)).
      exists qs. split; [done|]. constructor; [done|].
      destruct Hhd'; constructor. lia.
  - split; [done|]. intros (ps & Hps & Hsort). inversion Hps as [|? q ? qs Hq Hqs]; subst.
    apply Sorted_inv in Hsort as [_ Hhd]. apply HdRel_inv in Hhd.
    pose proof (find_from_None (u t) s (start + 1) q ltac:(lia) E Hq). lia.
Qed.

(** [ordered] accepts a text exactly when the tokens stand in it at
    strictly increasing positions: taking the first occurrence of each token
    after the previous one loses nothing. *)
Theorem ordered_iff s tokens context :
  is_ok (ordered s tokens context) = true <->
  exists ps, Forall2 (fun t p => occurs_at (u t) s p) tokens ps /\ Sorted Z.lt ps.
Proof.
  unfold ordered. transitivity (is_ok (foldM (ordered_step s context) (-1) tokens) = true).
  { by destruct (foldM _ _ _). }
  rewrite ordered_from by lia. split; intros (ps & H1 & H2); exists ps; (split; [done|]).
  - by apply Sorted_inv in H2 as [].
  - constructor; [done|]. destruct H1 as [|t p ? ? (b & ? & ? & ->)]; constructor. lia.
Qed.
