(* ===== verification/RecoverImage.v ===== *)
(** A full-size image for the crash/recovery oracle: 2000 blocks, a root
    directory and nothing else, with any contents in the log, in the home
    blocks and in the free blocks.  It is consistent whatever those contents
    are. *)

From stdpp Require Import base tactics list gmap strings numbers list_numbers.
From S2P Require Import Prelude PyText PyBytes PyJson Sha256 Fsck FsckLog FsckTotal FsckSpec FsckBlocks.
From S2P Require Import FsckDirs FsckWalk FsckClean FsckProps Recover RecoverSpec.
Open Scope Z_scope.

(** The inode block, the bitmap block and the block of the root directory. *)
Definition metadata : pybytes :=
  pad (zeros 64 ++ concat (map (encode Fh) [1; 0; 0; 1]) ++ words32 ([32; 35] ++ repeat 0 12)) ++
  pad [255; 255; 255; 255; 15] ++
  pad (dirent 1 "." ++ dirent 1 "..").

Definition full_geometry : Geometry := Build_Geometry 2000 1965 16 31 2 33 34 35.
Definition root_inode : Inode := Build_Inode 1 1 0 0 1 32 (35 :: repeat 0 12).
Definition root_entries : list (pybytes * Z) := [(dot, 1); (dotdot_name, 1)].

Section Consistent.
Context (front rest : pybytes).
Hypothesis Hfront : len front = 33 * BSIZE.

Let data := front ++ metadata ++ rest.

Lemma zdrop_front n : 0 <= n -> zdrop (33 * BSIZE + n) data = zdrop n (metadata ++ rest).
Proof using Hfront.
  intros Hn. unfold data. rewrite !zdrop_drop. rewrite len_length in Hfront.
  rewrite drop_app_ge by (unfold BSIZE in *; lia). f_equal. unfold BSIZE in *. lia.
Qed.

Lemma block_meta n : 33 <= n <= 35 -> block data n = slice ((n - 33) * BSIZE) ((n - 32) * BSIZE) metadata.
Proof using Hfront.
  intros Hn. unfold block, slice at 1. replace (n * BSIZE) with (33 * BSIZE + (n - 33) * BSIZE) by lia.
  rewrite zdrop_front by (unfold BSIZE; lia). unfold slice.
  assert (Hm : length metadata = 3072%nat) by (vm_compute; reflexivity).
  rewrite !zdrop_drop, !ztake_take.
  rewrite drop_app_le by (rewrite Hm; unfold BSIZE; lia).
  rewrite take_app_le by (rewrite length_drop, Hm; unfold BSIZE; lia). f_equal. unfold BSIZE. lia.
Qed.

Lemma full_table : inode_table data full_geometry = [root_inode].
Proof using Hfront.
  unfold inode_table. cbn [ninodes full_geometry].
  assert (Hd : dinode data full_geometry <$> range 1 16 =
    root_inode :: ((fun n => Build_Inode n 0 0 0 0 0 (repeat 0 13)) <$> range 2 16)).
  { unfold dinode. cbn [inodestart full_geometry].
    change (range 1 16) with [1; 2; 3; 4; 5; 6; 7; 8; 9; 10; 11; 12; 13; 14; 15].
    cbn [fmap list_fmap]. rewrite !zdrop_front by (vm_compute; done). vm_compute. reflexivity. }
  rewrite Hd. vm_compute. reflexivity.
Qed.

Lemma root_dinode : dinode data full_geometry ROOTINO = root_inode.
Proof using Hfront.
  unfold dinode. cbn [inodestart full_geometry]. rewrite zdrop_front by (vm_compute; done).
  vm_compute. reflexivity.
Qed.

Lemma free_dinode n : 2 <= n < 16 -> type (dinode data full_geometry n) = 0.
Proof using Hfront.
  intros Hn. unfold dinode. cbn [inodestart full_geometry].
  rewrite zdrop_front by (change (calcsize DINODE) with 64; lia).
  assert (n = 2 \/ n = 3 \/ n = 4 \/ n = 5 \/ n = 6 \/ n = 7 \/ n = 8 \/ n = 9 \/ n = 10 \/ n = 11 \/
          n = 12 \/ n = 13 \/ n = 14 \/ n = 15) as Hc by lia.
  repeat destruct Hc as [->|Hc]; try subst n; vm_compute; reflexivity.
Qed.

Lemma root_owned : owned data full_geometry root_inode = [35].
Proof. vm_compute. reflexivity. Qed.

Lemma root_content : content data full_geometry root_inode = dirent 1 "." ++ dirent 1 "..".
Proof using Hfront.
  unfold content, chunk. change (range 0 (required_blocks root_inode)) with [0].
  cbn [fmap list_fmap concat]. change (nth _ _ 0) with 35. cbn [isize root_inode].
  change (in_data full_geometry 35) with true. cbn iota. rewrite block_meta by lia.
  vm_compute. reflexivity.
Qed.

Lemma root_dirents : entries data full_geometry root_inode = root_entries.
Proof using Hfront. unfold entries. rewrite root_content. vm_compute. reflexivity. Qed.

Lemma no_links : all_links data full_geometry = [].
Proof using Hfront.
  unfold all_links. rewrite full_table.
  change (filter is_dir [root_inode]) with [root_inode]. cbn [fmap list_fmap concat]. unfold links.
  rewrite root_dirents. vm_compute. reflexivity.
Qed.

Lemma not_linked p n : ~ linked data full_geometry p n.
Proof using Hfront.
  intros (i & nm & Hi & _ & _ & Hl). rewrite full_table in Hi. apply list_elem_of_singleton in Hi as ->.
  unfold links in Hl. rewrite root_dirents in Hl. vm_compute in Hl. by apply not_elem_of_nil in Hl.
Qed.

Lemma full_bitmap b : 0 <= b < 2000 -> bitmap_bit data full_geometry b = Ok (if b <? 36 then 1 else 0).
Proof using Hfront.
  intros Hb. unfold bitmap_bit. cbn [bmapstart full_geometry].
  rewrite (Z.div_small b BPB), (Z.mod_small b BPB) by (unfold BPB, BSIZE; lia). rewrite block_meta by lia.
  assert (Hall : forallb (fun b =>
    match index (slice ((34 + 0 - 33) * BSIZE) ((34 + 0 - 32) * BSIZE) metadata) (b / 8) with
    | Ok x => Z.land (Z.shiftr x (b mod 8)) 1 =? (if b <? 36 then 1 else 0)
    | Raise _ => false
    end) (range 0 2000) = true) by (vm_compute; reflexivity).
  rewrite forallb_forall in Hall. specialize (Hall b). cbv beta in Hall.
  destruct (index _ _) as [x|]; cbn [mbind result_bind].
  - f_equal. apply Z.eqb_eq, Hall, list_elem_of_In, range_elem. lia.
  - exfalso. discriminate Hall. apply list_elem_of_In, range_elem. lia.
Qed.
End Consistent.

Lemma root_entry name target : (name, target) ∈ root_entries -> name <> [] /\ target = 1.
Proof.
  intros [[= -> ->]|[[= -> ->]|H%not_elem_of_nil]%elem_of_cons]%elem_of_cons; done.
Qed.

(** The image is consistent whatever is before and after the metadata. *)
Lemma full_consistent front rest :
  len front = 33 * BSIZE -> consistent (front ++ metadata ++ rest) full_geometry.
Proof.
  intros Hf. pose proof (full_table front rest Hf) as Ht.
  assert (Hroot : forall i, i ∈ inode_table (front ++ metadata ++ rest) full_geometry -> i = root_inode)
    by (intros i; rewrite Ht; apply list_elem_of_singleton).
  split.
  - intros n Hn. cbn [ninodes full_geometry] in Hn. destruct (decide (n = ROOTINO)) as [->|Hne].
    + right. rewrite (root_dinode front rest Hf). split; [left|vm_compute; done].
    + left. unfold ROOTINO in *. apply free_dinode; [done|lia].
  - split; [done|]. rewrite (root_dinode front rest Hf). done.
  - intros i ->%Hroot. split.
    + intros k a Ha. assert (Hp : pointers (front ++ metadata ++ rest) full_geometry root_inode
        = 35 :: repeat 0 267) by (vm_compute; reflexivity).
      rewrite Hp in Ha. change (required_blocks root_inode) with 1. destruct k as [|k]; cbn -[repeat] in Ha.
      * injection Ha as <-. lia.
      * assert (a = 0) as ->; [|lia]. apply list_elem_of_lookup_2 in Ha.
        by apply list_elem_of_In, repeat_spec in Ha.
    + intros Hi. vm_compute in Hi. done.
    + intros a. rewrite root_owned. intros ->%list_elem_of_singleton. cbn. lia.
  - rewrite Ht. cbn [fmap list_fmap concat]. rewrite root_owned. apply NoDup_singleton.
  - intros b Hb. cbn [size data_start full_geometry] in *. rewrite (full_bitmap front rest Hf b Hb).
    rewrite Ht. destruct (b <? 36) eqn:E; to_prop.
    + split; [|done]. intros _. destruct (decide (b = 35)) as [->|]; [right|left; lia].
      exists root_inode. rewrite root_owned. split; by apply list_elem_of_singleton.
    + split; [done|]. intros [?|(i & ->%list_elem_of_singleton & Ho)]; [lia|].
      rewrite root_owned in Ho. apply list_elem_of_singleton in Ho. lia.
  - intros i ->%Hroot _. pose proof (root_dirents front rest Hf) as He. split; rewrite ?He.
    + rewrite (root_content front rest Hf). vm_compute. reflexivity.
    + apply (bool_decide_eq_true (NoDup _)). vm_compute. reflexivity.
    + intros name target Hin. by apply root_entry in Hin as [? _].
    + intros name target Hin. rewrite Ht. apply root_entry in Hin as [_ ->]. left.
    + left.
  - intros i ->%Hroot. constructor.
  - rewrite (no_links front rest Hf). constructor.
  - rewrite (no_links front rest Hf). apply not_elem_of_nil.
  - intros i ->%Hroot _. rewrite (root_dirents front rest Hf). right. left.
  - intros i p _ _ Hl. by apply (not_linked front rest Hf) in Hl.
  - intros i ->%Hroot _. unfold links. rewrite (root_dirents front rest Hf), Ht. vm_compute. reflexivity.
  - intros i ->%Hroot Hd. by destruct Hd.
Qed.

(** * The whole image *)

Definition super_block : pybytes := pad (words32 [FSMAGIC; 2000; 1965; 16; 31; 2; 33; 34]).

Definition front_of (header log0 log1 : pybytes) : pybytes :=
  zeros BSIZE ++ super_block ++ header ++ log0 ++ log1 ++ zeros (28 * BSIZE).
Definition rest_of (home0 home1 : pybytes) : pybytes :=
  zeros (1954 * BSIZE) ++ home0 ++ home1 ++ zeros (8 * BSIZE).
Definition full_image (header log0 log1 home0 home1 : pybytes) : pybytes :=
  front_of header log0 log1 ++ metadata ++ rest_of home0 home1.

Lemma len_zeros n : 0 <= n -> len (zeros n) = n.
Proof. intros. unfold zeros. rewrite len_length, repeat_length. lia. Qed.

Lemma block_skip (l1 l2 : pybytes) k n :
  len l1 = k * BSIZE -> k <= n -> block (l1 ++ l2) n = block l2 (n - k).
Proof.
  intros Hl Hn. unfold block, slice. rewrite !zdrop_drop, !ztake_take. rewrite len_length in Hl.
  rewrite drop_app_ge by (unfold BSIZE in *; lia). f_equal; [|f_equal]; unfold BSIZE in *; lia.
Qed.

Lemma block_first (b l : pybytes) : len b = BSIZE -> block (b ++ l) 0 = b.
Proof.
  intros Hb. unfold block, slice. rewrite zdrop_drop, ztake_take. rewrite len_length in Hb.
  change (Z.to_nat (0 * BSIZE)) with 0%nat. rewrite drop_0, take_app_le by (unfold BSIZE in *; lia).
  apply take_ge. unfold BSIZE in *. lia.
Qed.

(** Three blocks and what is around them. *)
Lemma cut_metadata (l : pybytes) :
  len l = 2000 * BSIZE ->
  (forall n, 33 <= n <= 35 -> block l n = slice ((n - 33) * BSIZE) ((n - 32) * BSIZE) metadata) ->
  l = ztake (33 * BSIZE) l ++ metadata ++ zdrop (36 * BSIZE) l.
Proof.
  intros Hl Hb. rewrite len_length in Hl.
  assert (Hm : metadata = block l 33 ++ block l 34 ++ block l 35).
  { rewrite !Hb by lia. vm_compute. reflexivity. }
  assert (Hs : forall a b, 0 <= a <= b -> zdrop a l = slice a b l ++ zdrop b l).
  { intros a b Hab. rewrite slice_take_drop, !zdrop_drop.
    rewrite <-(take_drop (Z.to_nat (b - a)) (drop (Z.to_nat a) l)) at 1. f_equal.
    rewrite drop_drop. f_equal. lia. }
  rewrite Hm. unfold block. rewrite <-!app_assoc.
  change (zdrop (36 * BSIZE) l) with (zdrop (35 * BSIZE + BSIZE) l).
  rewrite <-(Hs (35 * BSIZE) (35 * BSIZE + BSIZE)) by (unfold BSIZE; lia).
  change (zdrop (35 * BSIZE) l) with (zdrop (34 * BSIZE + BSIZE) l).
  rewrite <-(Hs (34 * BSIZE) (34 * BSIZE + BSIZE)) by (unfold BSIZE; lia).
  change (zdrop (34 * BSIZE) l) with (zdrop (33 * BSIZE + BSIZE) l).
  rewrite <-(Hs (33 * BSIZE) (33 * BSIZE + BSIZE)) by (unfold BSIZE; lia).
  rewrite zdrop_drop, ztake_take. symmetry. apply take_drop.
Qed.

(** An image with this metadata is clean before and after replay. *)
Lemma full_clean (l : pybytes) c ts shadow d :
  parse_geometry l ∅ = Ok (Some full_geometry, ∅) ->
  (forall n, 33 <= n <= 35 -> block l n = slice ((n - 33) * BSIZE) ((n - 32) * BSIZE) metadata) ->
  parse_log l full_geometry ∅ = Ok ((c, ts, Some shadow), d) -> Forall (fun t => 35 < t) ts ->
  exists r, check_bytes l = Ok r /\ clean r = true /\ raw_clean r = true /\
    recovered_clean r = true /\ log_pending r = Some (negb (c =? 0)) /\
    shadow_sha256 r = Some (sha256 shadow).
Proof.
  intros Hg Hb Hl Hts. destruct (parse_geometry_wf _ _ _ _ Hg) as [Hwf _].
  destruct (parse_log_shadow _ _ _ _ _ _ _ Hwf Hl) as (_ & -> & _ & _ & _ & Hrp).
  pose proof (wf_len _ _ Hwf) as Hlen. change (size full_geometry) with 2000 in Hlen.
  assert (Hcons : forall k : pybytes, len k = 2000 * BSIZE ->
    (forall n, 33 <= n <= 35 -> block k n = slice ((n - 33) * BSIZE) ((n - 32) * BSIZE) metadata) ->
    consistent k full_geometry).
  { intros k Hk Hkb. rewrite (cut_metadata k Hk Hkb). apply full_consistent.
    rewrite len_length in *. rewrite ztake_take, length_take. unfold BSIZE in *. lia. }
  assert (Hsb : forall n, 33 <= n <= 35 ->
    block shadow n = slice ((n - 33) * BSIZE) ((n - 32) * BSIZE) metadata).
  { intros n Hn. rewrite (rp_other _ _ _ _ Hrp); [by apply Hb|cbn; lia| |cbn; lia].
    intros Hin. rewrite Forall_forall in Hts. specialize (Hts n Hin). lia. }
  pose proof (Hcons l Hlen Hb) as C1. pose proof (Hcons shadow (eq_trans (rp_len _ _ _ _ Hrp) Hlen) Hsb) as C2.
  pose proof (wf_geometry_len _ _ _ Hwf (rp_len _ _ _ _ Hrp)) as Hwf'.
  unfold check_bytes. rewrite Hg. cbn [mbind result_bind]. rewrite Hl. cbn [mbind result_bind].
  destruct (inspect_view_clean _ _ Hwf) as (v1 & -> & V1).
  destruct (inspect_view_clean _ _ Hwf') as (v2 & -> & V2). cbn [mbind result_bind].
  eexists; split; [done|]. cbn [clean raw_clean recovered_clean log_pending shadow_sha256].
  rewrite (proj2 V1 C1), (proj2 V2 C2). done.
Qed.

Section Image.
Context (header log0 log1 home0 home1 : pybytes).
Hypothesis Hheader : len header = BSIZE.
Hypothesis Hlog0 : len log0 = BSIZE.
Hypothesis Hlog1 : len log1 = BSIZE.
Hypothesis Hhome0 : len home0 = BSIZE.
Hypothesis Hhome1 : len home1 = BSIZE.

Let image := full_image header log0 log1 home0 home1.

Lemma len_super : len super_block = BSIZE.
Proof. vm_compute. reflexivity. Qed.
Lemma len_metadata : len metadata = 3 * BSIZE.
Proof. vm_compute. reflexivity. Qed.

Lemma len_front : len (front_of header log0 log1) = 33 * BSIZE.
Proof using Hheader Hlog0 Hlog1.
  unfold front_of. rewrite !len_app, len_super, !len_zeros, Hheader, Hlog0, Hlog1 by (unfold BSIZE; lia).
  lia.
Qed.

Lemma len_image : len image = 2000 * BSIZE.
Proof using Hheader Hlog0 Hlog1 Hhome0 Hhome1.
  unfold image, full_image, rest_of. rewrite !len_app, len_front, len_metadata, !len_zeros, Hhome0, Hhome1
    by (unfold BSIZE; lia). lia.
Qed.

(** Skipping the blocks in front of the one asked for. *)
Lemma image_low n :
  0 <= n < 33 -> block image n =
  block (zeros BSIZE ++ super_block ++ header ++ log0 ++ log1 ++ zeros (28 * BSIZE)) n.
Proof using Hheader Hlog0 Hlog1.
  intros Hn. unfold image, full_image, block, slice. pose proof len_front as Hf.
  rewrite !zdrop_drop, !ztake_take. rewrite len_length in Hf.
  rewrite drop_app_le, take_app_le; [done| |]; rewrite ?length_drop; unfold BSIZE in *; lia.
Qed.

Lemma image_super : block image 1 = super_block.
Proof using Hheader Hlog0 Hlog1.
  rewrite image_low by lia. rewrite (block_skip _ _ 1) by (rewrite ?len_zeros; unfold BSIZE; lia).
  apply block_first, len_super.
Qed.

Lemma image_header : block image 2 = header /\ block image 3 = log0 /\ block image 4 = log1.
Proof using Hheader Hlog0 Hlog1.
  rewrite !image_low by lia. rewrite app_assoc.
  assert (H2 : len (zeros BSIZE ++ super_block) = 2 * BSIZE)
    by (rewrite len_app, len_zeros, len_super; unfold BSIZE; lia).
  rewrite !(block_skip (zeros BSIZE ++ super_block) _ 2) by (done || lia). split; [by apply block_first|].
  rewrite !(block_skip header _ 1) by lia. split; [by apply block_first|].
  rewrite (block_skip log0 _ 1) by lia. by apply block_first.
Qed.

Lemma image_homes : block image 1990 = home0 /\ block image 1991 = home1.
Proof using Hheader Hlog0 Hlog1 Hhome0 Hhome1.
  unfold image, full_image. rewrite !(block_skip (front_of header log0 log1) _ 33) by (apply len_front || lia).
  rewrite !(block_skip metadata _ 3) by (apply len_metadata || lia). unfold rest_of.
  rewrite !(block_skip (zeros (1954 * BSIZE)) _ 1954) by (rewrite ?len_zeros; unfold BSIZE; lia).
  split; [by apply block_first|]. rewrite (block_skip home0 _ 1) by lia. by apply block_first.
Qed.

Lemma image_metadata n :
  33 <= n <= 35 -> block image n = slice ((n - 33) * BSIZE) ((n - 32) * BSIZE) metadata.
Proof using Hheader Hlog0 Hlog1. apply block_meta, len_front. Qed.

Lemma image_parse : parse_geometry image ∅ = Ok (Some full_geometry, ∅).
Proof using Hheader Hlog0 Hlog1 Hhome0 Hhome1.
  unfold parse_geometry. rewrite len_image. change (2000 * BSIZE <? 2 * BSIZE) with false. cbn iota.
  replace (unpack_from SUPER image BSIZE) with (unpack_from SUPER (block image 1) 0).
  - rewrite image_super. vm_compute. reflexivity.
  - apply unpack_from_block; [lia|rewrite len_image; unfold BSIZE; lia|lia|vm_compute; done].
Qed.
End Image.

(** * The image of the second crash point: committed header, old home blocks *)

Definition epoch2 : Z := 5890.
Definition pattern_block (after : bool) (index : Z) : pybytes :=
  match expected_pattern after index epoch2 with Ok p => p | Raise _ => [] end.
Definition commit_header : pybytes := pad (words32 [2; 1990; 1991]).

Definition commit_image : pybytes :=
  full_image commit_header (pattern_block true 0) (pattern_block true 1)
    (pattern_block false 0) (pattern_block false 1).

Lemma len_pattern after index : 0 <= index <= 1 -> len (pattern_block after index) = BSIZE.
Proof.
  intros Hi. assert (index = 0 \/ index = 1) as [-> | ->] by lia; destruct after; vm_compute; reflexivity.
Qed.

Lemma len_commit_header : len commit_header = BSIZE.
Proof. vm_compute. reflexivity. Qed.

(** The state of a log with the two home blocks in it. *)
Lemma commit_log_state (data : pybytes) :
  len data = 2000 * BSIZE -> block data 1 = super_block -> block data 2 = commit_header ->
  log_state data = Ok (2, HOME_BLOCKS, [block data 3; block data 4]).
Proof.
  intros Hlen E1 E2. unfold log_state, image_geometry.
  rewrite Hlen. change (2000 * BSIZE =? FSSIZE * BSIZE) with true. cbn [require mbind result_bind].
  replace (unpack_from SUPER data BSIZE) with (unpack_from SUPER (block data 1) 0)
    by (apply unpack_from_block; [lia|rewrite Hlen; unfold BSIZE; lia|lia|vm_compute; done]).
  rewrite E1. change (unpack_from SUPER super_block 0) with (Ok [FSMAGIC; 2000; 1965; 16; 31; 2; 33; 34]).
  cbn [mbind result_bind]. change ((FSMAGIC =? 270544960) && (2000 =? FSSIZE)) with true.
  cbn [require mbind result_bind].
  replace (unpack_one Fi data (2 * BSIZE)) with (unpack_one Fi (block data 2) 0)
    by (apply unpack_one_block; [lia|rewrite Hlen; unfold BSIZE; lia|lia|vm_compute; done]).
  rewrite E2. change (unpack_one Fi commit_header 0) with (@Ok Z 2). cbn [mbind result_bind].
  change ((0 <=? 2) && (2 <=? LOGBLOCKS)) with true. cbn [require mbind result_bind].
  change (2 =? 0) with false. cbn iota.
  replace (unpack_from (repeat FI (Z.to_nat 2)) data (2 * BSIZE + 4))
    with (unpack_from (repeat FI (Z.to_nat 2)) (block data 2) 4)
    by (apply unpack_from_block; [lia|rewrite Hlen; unfold BSIZE; lia|lia|vm_compute; done]).
  rewrite E2. change (unpack_from (repeat FI (Z.to_nat 2)) commit_header 4) with (Ok HOME_BLOCKS).
  reflexivity.
Qed.

Definition point_commit : Point :=
  Build_Point "crash-20-commit-header" 20 "COMMIT_HEADER_COMPLETE" "after" 2 2.

(** What the oracle asks of an image at this point. *)
Lemma commit_point_accepts (data : pybytes) epoch after rep shadow :
  log_state data = Ok (2, HOME_BLOCKS, after) -> patterns true epoch = Ok after ->
  classify_homes data epoch = Ok Before -> check_bytes data = Ok rep -> clean rep = true ->
  recovered_clean rep = true -> log_pending rep = Some true -> shadow_sha256 rep = Some shadow ->
  exists r, validate_crash data point_commit epoch = Ok r.
Proof.
  intros Hl Ha Hb Hr Hc Hrc Hp Hsh. unfold validate_crash. rewrite Hl. cbn [mbind result_bind].
  cbn [point_commit p_header_n p_case p_name].
  change (2 =? 2) with true. cbn [require mbind result_bind]. change (2 =? 0) with false. cbn iota.
  rewrite (bool_decide_eq_true_2 (HOME_BLOCKS = HOME_BLOCKS)) by done. cbn [require mbind result_bind].
  rewrite Ha. cbn [mbind result_bind]. rewrite bool_decide_eq_true_2 by done. cbn [require mbind result_bind].
  rewrite Hb. cbn [mbind result_bind]. change (bool_decide (Before = crash_home _)) with true.
  cbn [require mbind result_bind]. unfold assert_fsck. rewrite Hr. cbn [mbind result_bind negb].
  rewrite Hc, Hrc, Hp. rewrite bool_decide_eq_true_2 by done.
  cbn [andb require mbind result_bind]. rewrite Hsh. cbn [of_option mbind result_bind]. eauto.
Qed.

Section Commit.
Let Hh := len_commit_header.
Let H0 := len_pattern true 0 (conj (Z.le_refl 0) Z.le_0_1).
Let H1 := len_pattern true 1 (conj Z.le_0_1 (Z.le_refl 1)).
Let B0 := len_pattern false 0 (conj (Z.le_refl 0) Z.le_0_1).
Let B1 := len_pattern false 1 (conj Z.le_0_1 (Z.le_refl 1)).

Lemma commit_parse : parse_geometry commit_image ∅ = Ok (Some full_geometry, ∅).
Proof. apply image_parse; assumption. Qed.

Lemma commit_blocks :
  block commit_image 2 = commit_header /\ block commit_image 3 = pattern_block true 0 /\
  block commit_image 4 = pattern_block true 1 /\
  homes_of commit_image = [pattern_block false 0; pattern_block false 1].
Proof.
  destruct (image_header commit_header _ _ (pattern_block false 0) (pattern_block false 1) Hh H0 H1)
    as (E2 & E3 & E4).
  destruct (image_homes commit_header _ _ _ _ Hh H0 H1 B0 B1) as [E5 E6].
  split_and!; try assumption. rewrite homes_blocks. unfold commit_image. by rewrite E5, E6.
Qed.

Lemma commit_log :
  exists shadow, parse_log commit_image full_geometry ∅ = Ok ((2, HOME_BLOCKS, Some shadow), ∅).
Proof.
  destruct (parse_geometry_wf _ _ _ _ commit_parse) as [Hwf _].
  destruct (parse_log_total full_geometry commit_image Hwf ∅) as [r Hr]. revert Hr. unfold parse_log.
  change (logstart full_geometry) with 2. rewrite (proj1 commit_blocks). cbv zeta.
  change (unpack_one Fi commit_header 0) with (@Ok Z 2). cbn [mbind result_bind].
  change ((2 <? 0) || (LOGBLOCKS <? 2)) with false. cbn iota. change (2 =? 0) with false. cbn iota.
  change (unpack_from (repeat FI (Z.to_nat 2)) commit_header 4) with (Ok HOME_BLOCKS).
  cbn [mbind result_bind].
  destruct (foldl (check_target full_geometry) (∅, ∅) (enumerate HOME_BLOCKS)) as [seen d] eqn:E.
  assert (d = ∅) as -> by (vm_compute in E; by injection E).
  change (no_codes ∅) with true. cbn [negb].
  destruct (pack_into _ _ _ _) as [shadow|]; cbn [mbind result_bind]; [|done]. eauto.
Qed.

End Commit.

(** The oracle accepts the image at its crash point. *)
Lemma commit_accepted : exists r, validate_crash commit_image point_commit epoch2 = Ok r.
Proof.
  destruct commit_log as [shadow Hl]. destruct commit_blocks as (E2 & E3 & E4 & Eh).
  destruct (full_clean commit_image 2 HOME_BLOCKS shadow ∅ commit_parse) as
    (rep & Hr & Hc & _ & Hrc & Hp & Hsh); [|exact Hl|repeat constructor|].
  { apply image_metadata; [apply len_commit_header|apply len_pattern; lia..]. }
  destruct (parse_geometry_wf _ _ _ _ commit_parse) as [Hwf _].
  apply (commit_point_accepts commit_image epoch2 [pattern_block true 0; pattern_block true 1] rep
           (sha256 shadow)).
  - rewrite <-E3, <-E4. apply commit_log_state; [apply (wf_len _ _ Hwf)| |exact E2].
    apply image_super; [apply len_commit_header|apply len_pattern; lia..].
  - vm_compute. reflexivity.
  - apply (classify_before commit_image epoch2 [pattern_block true 0; pattern_block true 1]
             [pattern_block false 0; pattern_block false 1]); [vm_compute; reflexivity..|exact Eh].
  - exact Hr.
  - exact Hc.
  - exact Hrc.
  - exact Hp.
  - exact Hsh.
Qed.
