(* ===== verification/RecoverProps.v ===== *)
(** The guarantees of the crash/recovery oracle: an image accepted at a crash
    point replays to the home state the point declares, with a concrete image on
    which this applies. *)

From stdpp Require Import base tactics list gmap strings numbers list_numbers.
From S2P Require Import Prelude PyText PyBytes PyJson Sha256 Fsck FsckLog FsckTotal FsckSpec FsckBlocks.
From S2P Require Import FsckDirs FsckWalk FsckClean FsckProps Recover RecoverSpec RecoverImage.
Open Scope Z_scope.

(** * What the checks establish *)

Lemma assert_fsck_inv data pending context r :
  assert_fsck data pending context = Ok r ->
  check_bytes data = Ok r /\ clean r = true /\ log_pending r = Some pending /\
  (pending = false -> raw_clean r = true).
Proof.
  unfold assert_fsck. intros H. apply bind_ok in H as (rep & Hr & H).
  apply bind_ok in H as ([] & H1%require_ok & H). apply bind_ok in H as ([] & H2%require_ok & H).
  apply bind_ok in H as ([] & H3 & H). injection H as <-. to_prop.
  split_and!; try done. intros ->. by apply require_ok in H3.
Qed.


(** The facts behind an accepted crash image. *)
Lemma validate_crash_inv data p epoch r :
  validate_crash data p epoch = Ok r ->
  exists targets after rep,
    log_state data = Ok (p_header_n p, targets, after) /\
    (p_header_n p <> 0 -> targets = HOME_BLOCKS) /\ patterns true epoch = Ok after /\
    classify_homes data epoch = Ok (crash_home p) /\
    check_bytes data = Ok rep /\ clean rep = true.
Proof.
  unfold validate_crash. intros H. apply bind_ok in H as ([[count targets] payload] & Hl & H).
  apply bind_ok in H as ([] & H1%require_ok & H). to_prop. subst count.
  apply bind_ok in H as ([] & H2 & H). apply bind_ok in H as (after & Ha & H).
  apply bind_ok in H as ([] & H3%require_ok & H). to_prop. subst payload.
  apply bind_ok in H as (home & Hh & H). apply bind_ok in H as ([] & H4%require_ok & H).
  to_prop. subst home. apply bind_ok in H as (rep & Hr%assert_fsck_inv & _).
  exists targets, after, rep. split_and!; try done; try tauto.
  intros Hn. rewrite (proj2 (Z.eqb_neq _ _) Hn) in H2. apply require_ok in H2. by to_prop.
Qed.

(** A clean image has a geometry, a log and a shadow. *)
Lemma clean_shadow data rep :
  check_bytes data = Ok rep -> clean rep = true ->
  exists g count targets shadow,
    parse_geometry data ∅ = Ok (Some g, ∅) /\ wf_geometry g data /\
    parse_log data g ∅ = Ok ((count, targets, Some shadow), ∅) /\
    replayed_image g data shadow targets /\ shadow_of data = Some shadow.
Proof.
  intros Hr Hc. destruct (verdict data) as (r' & Hr' & _ & Hrec & He).
  rewrite Hr in Hr'. injection Hr' as <-. rewrite He in Hc.
  apply Hrec in Hc as (g & shadow & Hg & Hsh & _).
  destruct (parse_geometry_wf _ _ _ _ Hg) as [Hwf _].
  unfold shadow_of in *. rewrite Hg in *.
  destruct (parse_log data g ∅) as [[[[c ts] s] d]|] eqn:Hl; [|done]. subst s.
  destruct (parse_log_shadow _ _ _ _ _ _ _ Hwf Hl) as (_ & -> & _ & _ & _ & Hrp). eauto 10.
Qed.

(** The home blocks after replay. *)
Lemma replay_homes g data shadow targets after :
  wf_geometry g data -> size g = 2000 -> replayed_image g data shadow targets ->
  (targets = [] -> homes_of shadow = homes_of data) /\
  (targets = HOME_BLOCKS -> after = [block data 3; block data 4] -> homes_of shadow = after).
Proof.
  intros Hwf Hsz Hrp. pose proof (wf_logstart _ _ Hwf) as Hls. split.
  - intros ->. rewrite !homes_blocks. f_equal; [|f_equal]; apply (rp_other _ _ _ _ Hrp); (set_solver || lia).
  - intros -> ->. rewrite homes_blocks.
    rewrite (rp_target _ _ _ _ Hrp 0%nat 1990), (rp_target _ _ _ _ Hrp 1%nat 1991) by done.
    rewrite Hls. done.
Qed.

(** The state of the log header once the log has been replayed. *)
Lemma replay_log_state g data count targets shadow :
  parse_geometry data ∅ = Ok (Some g, ∅) -> size g = 2000 ->
  parse_log data g ∅ = Ok ((count, targets, Some shadow), ∅) ->
  exists payload, log_state shadow = Ok (0, [], payload).
Proof.
  intros Hg Hsz Hl. destruct (replay_again _ _ _ _ _ _ _ Hg Hl) as [Hg' Hl'].
  destruct (parse_geometry_wf _ _ _ _ Hg') as [Hwf _].
  assert (Hi : exists ist, image_geometry shadow = Ok (2, ist)).
  { pose proof (wf_len _ _ Hwf) as Hlen. pose proof (wf_logstart _ _ Hwf) as Hls. revert Hg'.
    unfold parse_geometry, image_geometry. destruct (_ <? _); [done|].
    rewrite Hlen, Hsz. change (2000 * BSIZE =? FSSIZE * BSIZE) with true. cbn [require].
    intros (fs & Hfs & H)%bind_ok. rewrite Hfs. cbn [mbind result_bind].
    do 8 (destruct fs as [|? fs]; [done|]). destruct fs; [|done].
    destruct (negb _) eqn:Em; [done|]. cbv zeta in H. destruct (geometry_valid _ _ _ _ _ _ _ _ _); [|done].
    injection H as <-. cbn [size logstart] in *. subst. to_prop. subst. eauto. }
  destruct Hi as [ist Hi]. unfold log_state. rewrite Hi. cbn [mbind result_bind].
  pose proof (wf_len _ _ Hwf) as Hlen. pose proof (wf_logstart _ _ Hwf) as Hls.
  unfold parse_log in Hl'. rewrite Hls in Hl'. cbv zeta in Hl'.
  rewrite unpack_one_block in Hl' by (unfold fmt_size, BSIZE in *; cbn; lia).
  change (2 * BSIZE + 0) with (2 * BSIZE) in Hl'.
  apply bind_ok in Hl' as (n & Hn & Hl'). rewrite Hn. cbn [mbind result_bind].
  assert (n = 0) as ->.
  { destruct (_ || _); [by injection Hl'|]. apply bind_ok in Hl' as (ts & _ & Hl').
    destruct (foldl _ _ _) as [? ?]. destruct (negb _); [by injection Hl'|].
    apply bind_ok in Hl' as (? & _ & Hl'). by injection Hl'. }
  cbn. eauto.
Qed.

(** C19: every image accepted at a crash point replays to the declared final
    state: the offline shadow exists, its log is empty, and its home blocks
    are exactly the [before] or [after] pattern the point announces. *)
Theorem crash_point_recovers data p epoch r :
  p ∈ POINTS -> validate_crash data p epoch = Ok r ->
  exists shadow home payload,
    shadow_of data = Some shadow /\ log_state shadow = Ok (0, [], payload) /\
    classify_homes shadow epoch = Ok home /\ home_text home = p_final p.
Proof.
  intros Hp (targets & after & rep & Hls & Ht & Ha & Hh & Hr & Hc)%validate_crash_inv.
  destruct (clean_shadow _ _ Hr Hc) as (g & c & ts & shadow & Hg & Hwf & Hl & Hrp & Hsh).
  destruct (log_state_agree _ _ _ _ _ _ _ _ _ Hg Hls Hl) as (-> & -> & Hpay).
  assert (Hsz : size g = 2000).
  { unfold log_state in Hls. apply bind_ok in Hls as ([ls ist] & Hi & _). by eapply geometry_agree. }
  destruct (replay_log_state _ _ _ _ _ Hg Hsz Hl) as [payload Hlog].
  destruct (patterns_defined _ _ Ha) as [before Hb].
  destruct (replay_homes g data shadow targets after Hwf Hsz Hrp) as [Hempty Hfull].
  pose proof (classify_before data epoch _ _ Ha Hb) as Cb.
  pose proof (classify_after data epoch _ _ Ha Hb) as Ca.
  pose proof (classify_before shadow epoch _ _ Ha Hb) as Sb.
  pose proof (classify_after shadow epoch _ _ Ha Hb) as Sa.
  assert (Hnil : p_header_n p = 0 -> targets = []).
  { intros H0. rewrite H0 in Hls. unfold log_state in Hls.
    apply bind_ok in Hls as ([ls ist] & _ & Hls). apply bind_ok in Hls as (n & _ & Hls).
    apply bind_ok in Hls as (? & _ & Hls). apply bind_ok in Hls as (us & Hus & Hls).
    injection Hls as -> -> _. by injection Hus. }
  exists shadow. repeat (apply elem_of_cons in Hp as [->|Hp]); [| | | |by apply not_elem_of_nil in Hp];
    cbn [p_header_n p_final] in *; [exists Before|exists After|exists After|exists After];
    exists payload; split_and!; try done.
  - apply Sb. rewrite Hempty by auto. by apply Cb.
  - apply Sa, Hfull; [by apply Ht|]. exact Hpay.
  - apply Sa, Hfull; [by apply Ht|]. exact Hpay.
  - apply Sa. rewrite Hempty by auto. by apply Ca.
Qed.

Lemma crash_point_recovers_witness :
  exists r, validate_crash commit_image point_commit epoch2 = Ok r /\
  exists shadow home payload,
    shadow_of commit_image = Some shadow /\ log_state shadow = Ok (0, [], payload) /\
    classify_homes shadow epoch2 = Ok home /\ home_text home = p_final point_commit.
Proof.
  destruct commit_accepted as [r Hr]. exists r. split; [exact Hr|].
  apply (crash_point_recovers commit_image point_commit epoch2 r); [|exact Hr].
  unfold POINTS. right. left.
Defined.
