(* ===== verification/SourceCheck.v ===== *)
(** The checks of source text the lab runners share: tokens that must occur,
    tokens in order, the body of a C function, and the paths of a patch. *)

From stdpp Require Import base tactics list gmap strings numbers list_numbers sorting.
From S2P Require Import Prelude PyText PyBytes PyRegex PyJson PyPath RecoverDocs.
Open Scope Z_scope.

(** * Tokens *)

(** [missing = [token for token in tokens if token not in text]], and
    [f"{context} missing anchors: {', '.join(missing)}"] *)
Definition require_anchors (s : pystr) (tokens : list pystr) (context : string) : result () :=
  let missing := filter (fun token => contains token s = false) tokens in
  require (bool_decide (missing = [])) [T context; T " missing anchors: "; V (join (u ", ") missing)].

(** A literal of the runner: [`] is written for the double quote and [^] for
    the newline, which no literal contains. *)
Definition src (s : string) : pystr :=
  (fun c => if c =? 96 then 34 else if c =? 94 then newline else c) <$> u s.

(** [token in text], [token not in text] and [text.count(token)] *)
Definition has (s : pystr) (token : string) : bool := contains (src token) s.
Definition lacks (s : pystr) (token : string) : bool := negb (has s token).
Definition times (s : pystr) (token : string) : Z := count (src token) s.
(** [s.endswith(p)] *)
Definition endswith (s p : pystr) : bool := startswith (rev s) (rev p).

(** The next token is looked for after the end of the last one. *)
Definition order_step (failed : string) (source : pystr) (context : string) (offset : Z) (token : string)
    : result Z :=
  match find_from (src token) source offset with
  | Some position => Ok (position + len (src token))
  | None => Raise (LabError [T context; T failed; V (src token)])
  end.
Definition require_in_order (source : pystr) (tokens : list string) (context : string) : result () :=
  foldM (order_step " token missing or reordered: " source context) 0 tokens;; Ok tt.

(** [\b<word>\b]; [alphanumeric] is [str.isalnum] outside ASCII. *)
Definition word (alphanumeric : Z -> bool) (w : string) : pattern :=
  all_of [word_boundary alphanumeric; lit w; word_boundary alphanumeric].

(** [for token in tokens: require(token in text, f"{context}{token}")] *)
Definition require_each (s : pystr) (context : string) (tokens : list string) : result () :=
  foldM (fun _ token => require (has s token) [T context; V (src token)]) tt tokens.

(** [source.index(token, start)] and [source[start:end]] *)
Definition index_from (source : pystr) (token : string) (start : Z) : result Z :=
  of_option ValueError (find_from (src token) source start).
Definition function_body (source : pystr) (signature end_marker : string) : result pystr :=
  start ← index_from source signature 0;
  end_ ← index_from source end_marker start;
  Ok (slice start end_ source).

(** [source.find(token, start)] and [source[start:end]] with the indices of
    Python, where a negative one counts from the end *)
Definition from_end (s : pystr) (i : Z) : Z := if i <? 0 then Z.max 0 (len s + i) else i.
Definition py_find (source : pystr) (token : string) (start : Z) : Z :=
  default (-1) (find_from (src token) source (from_end source start)).
Definition py_slice (start end_ : Z) (source : pystr) : pystr :=
  slice (from_end source start) (from_end source end_) source.

(** * The tree of sources *)

(** [{path: (root / path).read_text() for path in paths}], where [source] is
    the tree: the text of a file, or the exception reading it raises. *)
Definition read_all (source : string -> result pystr) (paths : list string) : result (list (pystr * pystr)) :=
  mapR (fun path => content ← source path; Ok (u path, content)) paths.
(** The same for the paths that are files *)
Definition read_present (source : string -> result (option pystr)) (paths : list string)
    : result (list (pystr * pystr)) :=
  foldM (fun sources path =>
    found ← source path;
    Ok (match found with Some content => sources ++ [(u path, content)] | None => sources end)) [] paths.
Definition source_of (sources : list (pystr * pystr)) (path : string) : result pystr :=
  of_option KeyError (lookup_key (u path) sources).

(** The paths of [git apply --numstat]: three columns separated by tabs *)
Definition numstat_paths (failed : string) (output : pystr) : result (list pystr) :=
  foldM (fun paths line =>
    match splitn 2 [9] line with
    | [_; _; path] => Ok (if bool_decide (path ∈ paths) then paths else paths ++ [path])
    | _ => Raise (LabError [T failed; R line])
    end) [] (splitlines output).

(** * Patches *)

(** [^diff --git a/(.+?) b/(.+?)$] *)
Definition diff_re : pattern :=
  let lazy_plus p := MCat p (MStar false p) in
  all_of [ bol; lit "diff --git a/"; MGrp 1 (lazy_plus dot_); lit " b/"; MGrp 2 (lazy_plus dot_); eol ].

(** A path that stays inside the tree it is applied to *)
Definition safe_path (path : pystr) : bool :=
  negb (is_absolute path) && negb (bool_decide (u ".." ∈ path_parts path)).

Definition add_path (paths : list pystr) (g : groups) : result (list pystr) :=
  let old := default [] (group g 1) in
  let new := default [] (group g 2) in
  require (bool_decide (old = new)) [T "rename patch is not allowed: "; V old; T " -> "; V new];;
  require (safe_path new) [T "unsafe patch path: "; V new];;
  Ok (if bool_decide (new ∈ paths) then paths else paths ++ [new]).

(** The set of paths, in the order they are added *)
Definition patch_paths (patch : pybytes) : result (list pystr) :=
  let text := utf8_replace None patch in
  paths ← foldM add_path [] (re_finditer diff_re text);
  require (negb (bool_decide (paths = []))) [T "patch contains no git diff paths"];;
  Ok paths.

(** * Lemmas *)

Lemma same_set_iff a b : same_set a b = true -> forall x, x ∈ a <-> x ∈ b.
Proof.
  unfold same_set. rewrite andb_true_iff, !forallb_forall. intros [H1 H2] x.
  setoid_rewrite bool_decide_eq_true in H1. setoid_rewrite bool_decide_eq_true in H2.
  split; intros I%list_elem_of_In; auto.
Qed.

Lemma require_anchors_ok s tokens context :
  require_anchors s tokens context = Ok tt <-> Forall (fun t => contains t s = true) tokens.
Proof.
  unfold require_anchors, require. case_bool_decide as E.
  - split; [intros _|done]. apply Forall_forall. intros t Ht.
    apply not_false_iff_true. intros F. apply (not_elem_of_nil t). rewrite <- E.
    by apply list_elem_of_filter.
  - split; [done|]. intros H. destruct E. rewrite Forall_forall in H.
    destruct (filter _ _) as [|t l] eqn:F; [done|].
    assert (t ∈ filter (fun token => contains token s = false) tokens) as I by (rewrite F; left).
    apply list_elem_of_filter in I as [I J]. apply H in J. congruence.
Qed.

(** Every path of an accepted patch is relative and has no [..]. *)
Lemma patch_paths_safe patch paths :
  patch_paths patch = Ok paths -> paths <> [] /\ NoDup paths /\ Forall (fun p => safe_path p = true) paths.
Proof.
  unfold patch_paths. intros H. inv_ok. apply negb_true_iff, bool_decide_eq_false in C. split; [done|].
  refine (foldM_inv add_path (fun _ ps => NoDup ps /\ Forall (fun p => safe_path p = true) ps) _ _ _ _ _ E).
  { split; constructor. }
  intros l g ps ps' _ [Hn Hs] Hg. unfold add_path in Hg. inv_ok.
  clear C1. case_bool_decide as I; [by split|]. split.
  - apply NoDup_app. split; [done|]. split; [|apply NoDup_singleton].
    intros x Hx ->%list_elem_of_singleton. done.
  - apply Forall_app. split; [done|]. by apply Forall_singleton.
Qed.

(** * Tokens in order *)

(** The tokens stand in the text one after the other, without overlap. *)
Inductive in_order : list pystr -> pystr -> Prop :=
| in_order_nil s : in_order [] s
| in_order_cons t ts b a : in_order ts a -> in_order (t :: ts) (b ++ t ++ a).

Lemma in_order_app x ts s : in_order ts s -> in_order ts (x ++ s).
Proof. destruct 1; [constructor|]. rewrite app_assoc. by constructor. Qed.

(** Leaving out tokens keeps the order. *)
Lemma in_order_sublist ts' ts s : ts' `sublist_of` ts -> in_order ts s -> in_order ts' s.
Proof.
  intros H. revert s. induction H as [|t ts' ts _ IH|t ts' ts _ IH]; intros s Hs.
  - constructor.
  - inversion Hs; subst. constructor. auto.
  - inversion Hs; subst. rewrite app_assoc. apply in_order_app. auto.
Qed.

Lemma in_order_some (l' l : list string) s :
  l' `sublist_of` l -> in_order (src <$> l) s -> in_order (src <$> l') s.
Proof. intros H. apply in_order_sublist. induction H; rewrite ?fmap_cons; by constructor. Qed.

(** The first occurrence leaves the most text. *)
Lemma in_order_cut t ts s :
  in_order (t :: ts) s <-> exists b a, cut t s = Some (b, a) /\ in_order ts a.
Proof.
  split.
  - inversion 1 as [|? ? b' a' H' E1 E2]; subst. destruct (cut t (b' ++ t ++ a')) as [[b a]|] eqn:E.
    + exists b, a. split; [done|]. pose proof (cut_first _ _ _ _ E _ _ eq_refl) as L.
      apply cut_Some in E. rewrite !app_assoc in E. apply app_eq_inv in E as [(k & E1 & E2)|(k & E1 & E2)].
      * subst. by apply in_order_app.
      * subst. apply (f_equal length) in E1. rewrite !length_app in E1. destruct k; [done|cbn in E1; lia].
    + by destruct (cut_None _ _ E b' a').
  - intros (b & a & ->%cut_Some & H). by constructor.
Qed.

Lemma find_from_cut t s start : 0 <= start <= len s ->
  find_from t s start = (fun r => start + len r.1) <$> cut t (zdrop start s).
Proof.
  intros H. unfold find_from. destruct (len s <? start) eqn:E; [lia|]. unfold find.
  destruct (cut t _) as [[b a]|]; [|done]. cbn. by rewrite len_length.
Qed.

Lemma order_step_cut failed source context offset token : 0 <= offset <= len source ->
  order_step failed source context offset token =
  match cut (src token) (zdrop offset source) with
  | Some (b, a) => Ok (offset + len b + len (src token))
  | None => Raise (LabError [T context; T failed; V (src token)])
  end.
Proof. intros H. unfold order_step. rewrite find_from_cut by done. by destruct (cut _ _) as [[b a]|]. Qed.

Lemma order_from failed source context tokens : forall offset, 0 <= offset <= len source ->
  is_ok (foldM (order_step failed source context) offset tokens) = true <->
  in_order (src <$> tokens) (zdrop offset source).
Proof.
  induction tokens as [|t tokens IH]; intros offset Ho; cbn [foldM].
  { split; [constructor|done]. }
  rewrite fmap_cons, in_order_cut. rewrite order_step_cut by done.
  destruct (cut (src t) (zdrop offset source)) as [[b a]|] eqn:E; cbn [mbind result_bind].
  - apply cut_Some in E. rewrite !len_length in Ho. rewrite zdrop_drop in E.
    pose proof (f_equal length E) as L. rewrite length_drop, !length_app in L.
    rewrite IH by (rewrite !len_length; lia).
    assert (zdrop (offset + len b + len (src t)) source = a) as ->.
    { rewrite zdrop_drop, !len_length.
      replace (Z.to_nat _) with (Z.to_nat offset + length (b ++ src t))%nat by (rewrite length_app; lia).
      rewrite <- drop_drop, E, app_assoc. apply drop_app_length. }
    naive_solver.
  - split; [done|]. by intros (? & ? & ? & _).
Qed.

Lemma in_order_ok source tokens context :
  require_in_order source tokens context = Ok tt -> in_order (src <$> tokens) source.
Proof.
  unfold require_in_order. intros H. apply bind_ok in H as (n & Hn & _).
  pose proof (order_from " token missing or reordered: " source context tokens 0) as [O _].
  { rewrite len_length; lia. }
  rewrite zdrop_drop, drop_0 in O. apply O. by rewrite Hn.
Qed.

(** The text from the signature up to the end marker. *)
Lemma function_body_ok source a b body : function_body source a b = Ok body ->
  exists before after from, source = before ++ body ++ src b ++ after /\
    body ++ src b ++ after = src a ++ from.
Proof.
  unfold function_body, index_from. intros H.
  destruct (find_from (src a) source 0) as [p0|] eqn:E; cbn in H; [|done].
  destruct (find_from (src b) source p0) as [q0|] eqn:E0; cbn in H; [|done]. injection H as <-.
  apply find_from_Some in E as ((x & y & Ex & Lx) & Hp & _); [|done].
  apply find_from_Some in E0 as ((x' & y' & Ex' & Lx') & Hq & _); [|lia].
  subst p0 q0. set (p := length x) in *. set (q := length x') in *.
  assert (source = take p source ++ take (q - p) (drop p source) ++ drop q source) as D.
  { rewrite <- (take_drop p source) at 1. f_equal.
    rewrite <- (take_drop (q - p) (drop p source)) at 1. f_equal. rewrite drop_drop. f_equal. lia. }
  assert (drop q source = src b ++ y') as Dq by (unfold q; rewrite Ex'; apply drop_app_length).
  assert (drop p source = src a ++ y) as Dp by (unfold p; rewrite Ex; apply drop_app_length).
  unfold slice. rewrite ztake_take, zdrop_drop.
  replace (Z.to_nat (Z.of_nat q - Z.of_nat p)) with (q - p)%nat by lia. rewrite Nat2Z.id.
  exists (take p source), y', y. rewrite <- Dq. split; [done|].
  rewrite <- Dp. rewrite D at 3. rewrite drop_app_length'; [done|].
  rewrite length_take. rewrite Ex, length_app. lia.
Qed.

(** [require_in_order] accepts a text exactly when the tokens occur in it
    one after the other without overlap: searching each token from the end of
    the previous one finds such places whenever there are any. *)
Theorem require_in_order_iff source tokens context :
  is_ok (require_in_order source tokens context) = true <-> in_order (src <$> tokens) source.
Proof.
  unfold require_in_order.
  transitivity (is_ok (foldM (order_step " token missing or reordered: " source context) 0 tokens) = true).
  { by destruct (foldM _ _ _). }
  rewrite order_from by (rewrite len_length; lia). by rewrite zdrop_drop, drop_0.
Qed.
