(* ===== verification/PExport.v ===== *)
(** Exported trees of [persistence/run-lab.py]: the patches that may be applied,
    the session that applies and removes them, and the static checks run on the
    export.  The files of the tree are an interface, and so are the processes
    ([HostSession]); a command runs in the exported tree. *)

From stdpp Require Import base tactics list gmap strings numbers list_numbers.
From S2P Require Import Prelude PyText PyBytes PyIo PyRegex PyJson PyPath Sha256 FileTree HostSession Recover RecoverDocs SourceCheck.
Open Scope Z_scope.

Class Files (W : Type) := {
  (** what [os.walk] and [lstat] find, or the exception they raise *)
  tree_of : W -> result tree;
  (** [(root / path).read_text(encoding="utf-8")] *)
  text_of : W -> pystr -> result pystr;
  (** [(root / path).read_bytes()] *)
  bytes_of : W -> pystr -> result pybytes;
  is_file : W -> pystr -> bool;
  is_symlink : W -> pystr -> bool;
  (** [S_IMODE((root / path).stat().st_mode)] *)
  stat_mode : W -> pystr -> Z;
  unlink : pystr -> W -> result () * W;
  (** [root.mkdir()] and [extractall(root)] *)
  extract : pybytes -> W -> result () * W
}.

(** [except OSError] *)
Definition os_error (e : exn) : bool :=
  match e with OSError | ProcessLookupError | PermissionError | BrokenPipeError => true | _ => false end.

(** [f"{exception}"] *)
Definition exception_text (e : exn) : msg := match e with LabError m => m | _ => [Elided] end.

(** [re.sub(p, "", s)] for a pattern that matches no empty text *)
Fixpoint remove_matches (from : Z) (matches : list (place * place * groups)) (s : pystr) : pystr :=
  match matches with
  | [] => zdrop from s
  | (first, next, _) :: matches => slice from (here first) s ++ remove_matches (here next) matches s
  end.
Definition re_remove (p : pattern) (s : pystr) : pystr :=
  remove_matches 0 (find_all (length s) p (start_of s)) s.

(** * Patches *)

(** [^ create mode [0-7]+ (.+)$] and the same with its end of line *)
Definition create_re : pattern :=
  all_of [bol; lit " create mode "; plus (MChr (in_range "0" "7")); lit " "; MGrp 1 (plus dot_); eol].
Definition create_line_re : pattern :=
  all_of [bol; lit " create mode "; plus (MChr (in_range "0" "7")); lit " "; plus dot_; opt (one newline)].

(** [bytes.isdigit] *)
Definition isdigits (s : pybytes) : bool := negb (bool_decide (s = [])) && forallb digit s.

Section Exporting.
Context {W : Type} `{!Host W} `{!Files W}.
(** [os.fsdecode], and [str.isalnum] outside ASCII *)
Context (fsdecode : pybytes -> pystr) (alphanumeric : Z -> bool).

Definition numstat_entry (record : pybytes) : result (pystr * Z * Z) :=
  match splitn 2 [9] record with
  | [added; deleted; raw_path] =>
      require (isdigits added && isdigits deleted) [T "binary patches are not accepted"];;
      let path := fsdecode raw_path in
      require (negb (bool_decide (path = [])) && safe_path path) [T "unsafe patch path: "; R path];;
      added ← py_int added;
      deleted ← py_int deleted;
      Ok (path, added, deleted)
  | _ => Raise (LabError [T "malformed patch numstat: "; R record])
  end.

Definition numstat_entries (raw : pybytes) (patch : string) : result (list (pystr * Z * Z)) :=
  entries ← mapR numstat_entry (base.filter (fun record => record <> []) (split [0] raw));
  require (negb (bool_decide (entries = []))) [T "empty patch: "; T patch];;
  require (bool_decide (NoDup entries.*1.*1)) [T "patch mentions a path more than once: "; T patch];;
  Ok entries.

Definition patch_numstat (patch : string) : io W (list (pystr * Z * Z)) :=
  raw ← checked_bytes Exported ["git"; "apply"; "--numstat"; "-z"; "--"; patch] (seconds 300);
  lift (numstat_entries raw patch).

(** The files a patch creates, and that it does nothing else to modes or names *)
Definition created_paths (summary : pystr) : list pystr :=
  (fun g => default [] (group g 1)) <$> re_finditer create_re summary.
Definition check_summary (summary : pystr) (expected_created : list string) : result () :=
  require (same_set (created_paths summary) (u <$> expected_created))
    [T "patch create/delete/rename/mode summary changed: "; R (strip summary)];;
  let residual := strip (re_remove create_line_re summary) in
  require (bool_decide (residual = [])) [T "unsupported patch metadata operation: "; V residual].

Definition inspect_patch (patch : string) (expected_paths expected_created : list string) : io W (list pystr) :=
  entries ← patch_numstat patch;
  let paths := entries.*1.*1 in
  lift (require (same_set paths (u <$> expected_paths))
    [T "patch scope changed: expected "; L (sorted_strs (u <$> expected_paths)); T ", got "; L (sorted_strs paths)]);;
  summary ← checked ["git"; "apply"; "--summary"; "--"; patch] (seconds 300);
  lift (check_summary summary expected_created);;
  checked ["git"; "apply"; "--check"; "--unidiff-zero"; "--whitespace=error-all"; "--"; patch] (seconds 300);;
  mret (sorted_strs paths).

Definition apply_patch_file (patch : string) (reverse : bool) : io W () :=
  checked (["git"; "apply"; "--unidiff-zero"; "--whitespace=error-all"] ++
           (if reverse then ["--reverse"] else []) ++ ["--"; patch]) (seconds 300);;
  mret tt.

(** * The session *)

Record ExportSession : Type := {
  original : gmap pystr fsvalue;
  applied : list string;
  cleaned : bool;
  world : W
}.
Definition set_world (w : W) (s : ExportSession) : ExportSession :=
  {| original := original s; applied := applied s; cleaned := cleaned s; world := w |}.
Definition in_tree {A} (m : io W A) : io ExportSession A := zoom world set_world m.

Definition snapshot_of : io W (gmap pystr fsvalue) :=
  w ← state; t ← lift (tree_of w); mret (snapshot t).

(** [session.apply(patch)] *)
Definition apply_ (patch : string) : io ExportSession () :=
  in_tree (apply_patch_file patch false);;
  update (fun s => {| original := original s; applied := applied s ++ [patch];
                      cleaned := cleaned s; world := world s |}).

(** A step of the cleanup whose failure is noted *)
Definition attempt (label : msg) (noted : exn -> bool) (m : io W ()) (errors : list msg)
    : io ExportSession (list msg) :=
  catch (in_tree m;; mret errors) (fun e =>
    if noted e then Some (mret (errors ++ [label ++ exception_text e])) else None).

(** [except (LabError, OSError)] *)
Definition lab_or_os (e : exn) : bool := match e with LabError _ => true | _ => os_error e end.

Definition difference (before after : gmap pystr fsvalue) : msg :=
  let names m := sorted_strs m in
  [ T "source snapshot differs after cleanup: added=";
    L (take 8 (names (elements (dom after ∖ dom before)))); T " removed=";
    L (take 8 (names (elements (dom before ∖ dom after)))); T " changed=";
    L (take 8 (names (base.filter (fun name => before !! name <> after !! name)
                        (elements (dom before ∩ dom after))))) ].

(** The tree is compared with the one the session started from. *)
Definition compare_tree (errors : list msg) : io ExportSession (list msg) :=
  catch
    (restored ← in_tree snapshot_of;
     s ← state;
     mret (if bool_decide (restored = original s) then errors
           else errors ++ [difference (original s) restored]))
    (fun e => if os_error e then Some (mret (errors ++ [[T "snapshot after cleanup: "; Elided]])) else None).

Definition joined (errors : list msg) : msg :=
  match errors with
  | [] => []
  | e :: errors => e ++ flat_map (fun e => T "; " :: e) errors
  end.

Definition generated : pystr := u "test-xv6.out".

Definition cleanup : io ExportSession () :=
  s ← state;
  if cleaned s then mret tt else
  errors ← attempt [T "make clean: "] lab_or_os (checked ["make"; "clean"] (seconds 180);; mret tt) [];
  s ← state;
  errors ← (if is_file (world s) generated && negb (is_symlink (world s) generated)
            then attempt [T "remove test-xv6.out: "] os_error (act (unlink generated)) errors
            else mret errors);
  s ← state;
  errors ← fold_io (fun errors patch =>
      attempt [T "reverse "; V (name_of (u patch)); T ": "] lab_or_os (apply_patch_file patch true) errors)
    errors (rev (applied s));
  errors ← compare_tree errors;
  update (fun s => {| original := original s; applied := applied s; cleaned := true; world := world s |});;
  lift (match errors with [] => Ok tt | _ => Raise (LabError (joined errors)) end).

(** [__exit__]: the exception of the body is kept, with that of the cleanup. *)
Definition leave_session {A : Type} (r : result A) : io ExportSession A :=
  failed ← catch (cleanup;; mret None)
             (fun e => match e with LabError m => Some (mret (Some m)) | _ => None end);
  lift (match failed, r with
        | None, r => r
        | Some m, Ok _ => Raise (LabError m)
        | Some m, Raise e => Raise (LabError (exception_text e ++ [T "; cleanup also failed: "] ++ m))
        end).

Definition new_session (original : gmap pystr fsvalue) (w : W) : ExportSession :=
  {| original := original; applied := []; cleaned := false; world := w |}.

(** [with ExportSession(root, original) as session: body] *)
Definition with_export {A : Type} (original : gmap pystr fsvalue) (body : io ExportSession A) : io W A :=
  scope (new_session original) world (observe body leave_session).

(** * The manifest and the sources *)

Definition required_resources : list string :=
  [ "resources/persistence/persistence-audit.patch"; "resources/persistence/baseline-cache-adapter.patch";
    "resources/persistence/run-lab.py"; "resources/persistence/scenarios.json";
    "resources/persistence/rubric.md"; "resources/persistence/report-template.md" ].

Definition check_source_anchor (w : W) (anchor : json) : result () :=
  match anchor with
  | JObj o =>
      require (has_keys o ["path"; "symbol"]) [T "persistence source anchor schema changed"];;
      path ← item o "path";
      path ← of_option TypeError (as_str path);
      require (is_file w path && negb (is_symlink w path)) [T "source anchor path missing: "; V path];;
      symbol ← item o "symbol";
      content ← text_of w path;
      symbol ← of_option TypeError (as_str symbol);
      require (contains symbol content) [T "source anchor missing: "; V path; T ":"; V symbol]
  | _ => Raise (LabError [T "persistence source anchor schema changed"])
  end.

(** [^#define\s+<name>\s+] and what follows *)
Definition defines (name : string) (value : list pattern) : pattern :=
  all_of ([bol; lit "#define"; plus (MChr isspace); lit name; plus (MChr isspace)] ++ value).
(** [\(MAXOPBLOCKS\s*\*\s*3\)] *)
Definition three_ops : list pattern :=
  [lit "(MAXOPBLOCKS"; star (MChr isspace); lit "*"; star (MChr isspace); lit "3)"].

Definition check_manifest_and_anchors (w : W) (manifest : obj) : result pystr :=
  release ← item manifest "release";
  baseline ← jget release "baseline_commit" JNull;
  match baseline with
  | JStr baseline =>
      units ← iterate (default (JList []) (lookup_key (u "units") manifest));
      unit ← foldM (add_unit "core.persistence") None units;
      unit ← of_option (LabError [T "manifest is missing core.persistence"]) unit;
      require (json_eq (get unit "requires") (jstrs ["core.filesystem"])) [T "persistence requires edge changed"];;
      dimensions ← py_set (default (JList []) (lookup_key (u "evidence_dimensions") unit));
      require (set_is dimensions ["S"; "F"; "B"; "C"; "R"]) [T "persistence evidence dimensions changed"];;
      resources ← py_set (default (JList []) (lookup_key (u "resources") unit));
      require (forallb (set_has resources) required_resources)
        [T "persistence resources are not manifest-authoritative"];;
      match get unit "source_anchors" with
      | JList (a :: anchors) => foldM (fun _ => check_source_anchor w) tt (a :: anchors)
      | _ => Raise (LabError [T "persistence source anchors are missing"])
      end;;
      param ← text_of w (u "kernel/param.h");
      require (found_in (defines "MAXOPBLOCKS" [lit "10"; word_boundary alphanumeric]) param &&
               found_in (defines "LOGBLOCKS" three_ops) param && found_in (defines "NBUF" three_ops) param)
        [T "pinned NBUF/MAXOPBLOCKS/LOGBLOCKS relation changed"];;
      Ok baseline
  | _ => Raise (LabError [T "manifest baseline_commit is missing"])
  end.
End Exporting.
Arguments ExportSession W : clear implicits.
