(* ===== verification/PRuns.v ===== *)
(** The runs of [persistence/run-lab.py] on an exported tree: the sources of the
    audit, the static export, the cases in QEMU sessions, the image an orderly
    run leaves, and the regressions. *)

From stdpp Require Import base tactics list gmap strings numbers list_numbers pretty.
From S2P Require Import Prelude PyText PyBytes PyIo PyRegex PyJson PyPath Sha256 Fsck Recover RecoverDocs SourceCheck.
From S2P Require Import PTrace PCase FileTree HostSession SharedRepo PExport.
Open Scope Z_scope.

Definition PANIC_TEXT : string := "panic: bget: no buffers".
Definition FIXTURE_PATHS : list string :=
  [ "Makefile"; "kernel/defs.h"; "kernel/log.c"; "kernel/main.c"; "kernel/persistenceaudit.c";
    "kernel/persistenceaudit.h"; "kernel/syscall.c"; "kernel/syscall.h"; "kernel/sysproc.c";
    "kernel/virtio_disk.c"; "user/persisttrace.c"; "user/user.h"; "user/usys.pl" ].
Definition FIXTURE_CREATED : list string :=
  [ "kernel/persistenceaudit.c"; "kernel/persistenceaudit.h"; "user/persisttrace.c" ].
Definition CACHE_PATCH_PATHS : list string := ["kernel/bio.c"].

(** * The sources *)

Definition ordered_step (source : pystr) (message : string) (position : Z) (token : string) : result Z :=
  match find_from (u token) source (position + 1) with
  | Some next_position => Ok next_position
  | None => Raise (LabError [T message; T ": missing/order "; R (u token)])
  end.
Definition ordered_tokens (source : pystr) (tokens : list string) (message : string) : result () :=
  foldM (ordered_step source message) (-1) tokens;; Ok tt.

(** [source.index(token)] *)
Definition index_of (source : pystr) (token : string) : result Z := of_option ValueError (find_from (u token) source 0).

(** The text from [token] up to the next [stop]: [find] gives -1 without one. *)
Definition isolated (source : pystr) (token stop : string) (failed : string) : result pystr :=
  start ← index_of source token;
  let end_ := default (-1) (find_from (u stop) source start) in
  require (start <? end_) [T failed];;
  Ok (slice start end_ source).

(** [POINT] *)
Definition POINT : list (string * Z) :=
  [ ("CACHE_LOOKUP", 1); ("CACHE_GUARD", 2); ("CACHE_HIT", 3); ("CACHE_PUBLISH", 4); ("CACHE_SLEEP", 5);
    ("CACHE_RELEASE", 6); ("CACHE_PIN", 7); ("CACHE_UNPIN", 8); ("LOG_WAIT_COMMIT", 20);
    ("LOG_WAIT_SPACE", 21); ("LOG_ADMIT", 22); ("LOG_END", 23); ("LOG_APPEND", 24); ("LOG_ABSORB", 25);
    ("LOG_PAYLOAD", 26); ("LOG_HEADER", 27); ("LOG_HOME", 28); ("LOG_CLEAR", 29); ("LOG_COMMIT_DONE", 30);
    ("IO_SUBMIT", 40); ("IO_COMPLETE", 41) ]%string.

Section Runs.
Context {W : Type} `{!Host W} `{!Files W} `{!Repository W}.
Context (fsdecode : pybytes -> pystr) (alphanumeric : Z -> bool).

(** The hooks of the log: each follows the completion it reports. *)
Definition check_log_hooks (log : pystr) : result () :=
  ordered_tokens log ["bwrite(dbuf)"; "PA_LOG_HOME"; "bunpin(dbuf)"] "home completion/unpin hook moved";;
  write_head ← isolated log "write_head(void)" "recover_from_log(void)" "cannot isolate write_head source";
  ordered_tokens write_head ["bwrite(buf)"; "PA_LOG_CLEAR"; "PA_LOG_HEADER"] "header completion hook moved";;
  write_log ← isolated log "write_log(void)" "commit()" "cannot isolate write_log source";
  ordered_tokens write_log ["bwrite(to)"; "PA_LOG_PAYLOAD"] "payload completion hook moved";;
  from ← index_of log "install_trans(int recovering)";
  upto ← index_of log "read_head(void)";
  ordered_tokens (slice from upto log) ["bwrite(dbuf)"; "PA_LOG_HOME"; "bunpin(dbuf)"]
    "install completion hook moved".

Definition check_audit_sources (w : W) : result () :=
  guest ← text_of w (u "user/persisttrace.c");
  require_each guest "guest evidence token missing: "
    [ "run_log("; "run_admission_empty("; "run_admission_used("; "run_same("; "run_pair("; "run_full(";
      "PERSIST META"; "PERSIST EVENT"; "PERSIST BUFFER"; "PERSIST LEDGER"; "PERSIST RESULT"; "PERSIST FULL";
      "PERSIST PASS"; "PERSIST FAIL" ];;
  header ← text_of w (u "kernel/persistenceaudit.h");
  foldM (fun _ '(name, value) =>
      require (found_in (defines (String.append "PA_" name)
                 [PyRegex.text (str_of_int value); word_boundary alphanumeric]) header)
        [T "fixture point ID changed: PA_"; T name]) tt POINT;;
  require (found_in (defines "PA_ABI" [lit "1"; word_boundary alphanumeric]) header &&
           found_in (defines "PA_MAX_RECORDS" [lit "512"; word_boundary alphanumeric]) header)
    [T "fixture ABI/event budget changed"];;
  audit ← text_of w (u "kernel/persistenceaudit.c");
  require_each audit "fixture audit seam missing: "
    [ "record_locked("; "audit.next_seq++"; "audit.count >= PA_MAX_RECORDS"; "audit.error = 1";
      "spins == 10000000"; "cacheproject_snapshot("; "persistenceaudit_command(" ];;
  bio ← text_of w (u "kernel/bio.c");
  require_each bio "cache adapter seam missing: "
    [ "cacheproject_partition("; "cacheproject_snapshot("; "persistenceaudit_cache_event(";
      "persistenceaudit_cache_gate("; "PA_CACHE_PUBLISH"; "PA_CACHE_PIN"; "PA_CACHE_UNPIN"; "bget: no buffers" ];;
  require (has bio "persistenceaudit_cache_gate(PA_CACHE_SLEEP")
    [T "cache adapter lacks the collision lock-held rendezvous"];;
  log ← text_of w (u "kernel/log.c");
  check_log_hooks log.

(** A check of the tree as it is *)
Definition inspect {A} (f : W -> result A) : io W A := w ← state; lift (f w).

(** * The static export *)

(** [manifest["release"]["baseline_commit"]] *)
Definition release_commit (manifest : obj) : result json :=
  release ← item manifest "release";
  release ← of_option TypeError (as_obj release);
  item release "baseline_commit".

Definition export_baseline (commit : json) : io W () :=
  commit ← lift (of_option TypeError (as_str commit));
  lift (require (is_commit commit) [T "manifest baseline_commit must be a full lowercase commit ID"]);;
  checked_in Shared ["git"; "cat-file"; "-e"; String.append (argument commit) "^{commit}"] (seconds 300);;
  archive ← checked_bytes Shared ["git"; "archive"; "--format=tar"; argument commit] (seconds 300);
  act (extract archive).

(** The values of the returned dictionary; the digests of the report are left
    out, and the builds stand for theirs. *)
Record StaticExport : Type := {
  se_baseline : pystr;
  se_native_build : pystr;
  se_instrumented_build : pystr;
  se_cases : list json
}.

(** [[case["id"] for case in scenarios["cases"]]] *)
Definition scenario_ids (scenarios : obj) : result (list json) :=
  cases ← item scenarios "cases";
  cases ← iterate cases;
  mapR (fun case => match case with JObj o => item o "id" | _ => Raise TypeError end) cases.

(** In the session: the native build, the clean tree, and the two patches *)
Definition instrumented (original : gmap pystr fsvalue) (adapter fixture : string) : io (ExportSession W) pystr :=
  native_build ← in_tree (checked ["make"; "-j2"; "kernel/kernel"] (seconds 360));
  in_tree (checked ["make"; "clean"] (seconds 180));;
  cleaned ← in_tree snapshot_of;
  lift (require (bool_decide (cleaned = original))
    [T "audit-disabled baseline build did not clean to its snapshot"]);;
  apply_ adapter;;
  apply_ fixture;;
  mret native_build.

Definition run_static_export (manifest scenarios : obj) (adapter fixture : string) : io W StaticExport :=
  baseline ← lift (release_commit manifest);
  export_baseline baseline;;
  original ← snapshot_of;
  checked_baseline ← inspect (fun w => check_manifest_and_anchors alphanumeric w manifest);
  lift (require (json_eq (JStr checked_baseline) baseline) [T "manifest baseline changed during export"]);;
  inspect_patch fsdecode adapter CACHE_PATCH_PATHS [];;
  inspect_patch fsdecode fixture FIXTURE_PATHS FIXTURE_CREATED;;
  '(native_build, instrumented_build) ← with_export original
    (native_build ← instrumented original adapter fixture;
     in_tree (inspect check_audit_sources);;
     instrumented_build ← in_tree (checked ["make"; "-j2"; "kernel/kernel"; "user/_persisttrace"] (seconds 360));
     mret (native_build, instrumented_build));
  ids ← lift (scenario_ids scenarios);
  mret {| se_baseline := checked_baseline; se_native_build := native_build;
          se_instrumented_build := instrumented_build; se_cases := ids |}.

(** * Cases *)

(** [f"persisttrace {guest_case}"] *)
Definition guest_command (c : case) : string :=
  String.append "persisttrace " (match c with Tx => "log"%string | _ => case_name c end).

(** [ReplaySource(transcript).run(case, scenarios)], with the end of the
    transcript in the message of a failure *)
Definition judge (scenarios : obj) (c : case) (transcript : pystr) : result EvidenceBundle :=
  match validate_case_trace transcript (u (case_name c)) scenarios false with
  | Raise (LabError m) =>
      Raise (LabError ([T (case_name c); T ": "] ++ m ++ [V [newline]; V (tail 12000 transcript)]))
  | r => r
  end.

Definition run_cases (scenarios : obj) (cases : list case) : io (QemuSource W) (list (case * EvidenceBundle)) :=
  fold_io (fun bundles c =>
    transcript ← command (guest_command c);
    bundle ← lift (judge scenarios c transcript);
    mret (bundles ++ [(c, bundle)])) [] cases.

Definition run_case_group (scenarios : obj) (cases : list case) (cpus timeout : Z)
    : io W (list (case * EvidenceBundle)) :=
  with_source patience cpus timeout (run_cases scenarios cases).

Definition run_panic_case (scenarios : obj) (timeout : Z) : io W EvidenceBundle :=
  with_source patience 1 timeout
    (transcript ← panic_command "persisttrace cache-full" PANIC_TEXT;
     lift (validate_case_trace transcript (u "cache-full") scenarios true)).

(** * The image and the regressions *)

Record OrderlyImage : Type := { oi_logstart : Z; oi_header_n : Z; oi_home_bytes : pybytes }.

Definition inspect_orderly_image (data : pybytes) : result OrderlyImage :=
  require (len data =? FSSIZE * BSIZE) [T "private fs.img size changed"];;
  superblock ← unpack_from (repeat FI 8) data BSIZE;
  match superblock with
  | [magic; size; _; _; _; logstart; _; _] =>
      require ((magic =? 270544960) && (size =? FSSIZE)) [T "private image superblock changed"];;
      header_n ← unpack_one FI data (logstart * BSIZE);
      let home := slice (1990 * BSIZE) (1990 * BSIZE + 2) data in
      require (header_n =? 0) [T "orderly transaction left a nonzero log header"];;
      require (bool_decide (home = [81; 82])) [T "orderly transaction home bytes changed"];;
      Ok {| oi_logstart := logstart; oi_header_n := header_n; oi_home_bytes := home |}
  | _ => Raise IndexError
  end.

Definition passed_once (transcript : pystr) : bool :=
  (times transcript "ALL TESTS PASSED" =? 1) && lacks transcript "SOME TESTS FAILED" && lacks transcript "PERSIST ".

Definition assert_usertest (command : string) (transcript : pystr) : result () :=
  require (passed_once transcript)
    [T "focused regression failed: "; T command; V [newline]; V (tail 5000 transcript)].

Definition run_driver (arguments : list string) (cpus timeout : Z) : io W pystr :=
  output ← checked_env Exported [("CPUS"%string, pretty cpus)] (["python3"; "test-xv6.py"] ++ arguments) timeout;
  let output := utf8_replace None output in
  lift (require (passed_once output) [T "driver regression failed: "; V (join (u " ") (u <$> arguments))]);;
  mret output.

(** [s.lower()], as far as [failed] can occur in it *)
Definition lowered (s : pystr) : pystr := (fun c => if in_range "A" "Z" c then c + 32 else c) <$> s.

Definition focused_names : list string := ["writebig"; "bigwrite"; "bigfile"; "manywrites"].

Definition run_focused : io (QemuSource W) (list (string * pystr)) :=
  focused ← fold_io (fun focused name =>
      let c := String.append "usertests " name in
      transcript ← command c;
      lift (assert_usertest c transcript);;
      mret (focused ++ [(c, transcript)])) [] focused_names;
  transcript ← command "logstress f0";
  lift (require ((times transcript "write failed -1" =? 1) && lacks transcript "panic:" && lacks transcript "PERSIST ")
    [T "logstress boundary changed:"; V [newline]; V (tail 5000 transcript)]);;
  cleanup ← command "rm f0";
  lift (require (lacks (lowered cleanup) "failed") [T "logstress files did not clean up"]);;
  mret (focused ++ [("logstress f0"%string, transcript)]).

(** * The dynamic export *)

Record DynamicExport : Type := {
  de_bundles : list (case * EvidenceBundle);
  de_orderly : OrderlyImage;
  de_panic_image : pystr;
  de_focused : list (string * pystr);
  de_quick : pystr;
  de_full : pystr
}.

Definition image : pystr := u "fs.img".
Definition image_digest (w : W) : result pystr := data ← bytes_of w image; Ok (sha256 data).

Definition watchdog (scenarios : obj) : result Z :=
  defaults ← item scenarios "defaults";
  defaults ← of_option TypeError (as_obj defaults);
  v ← item defaults "watchdog_seconds";
  of_option TypeError (as_int v).

(** What runs between applying the patches and taking them away *)
Definition run_all (scenarios : obj) (timeout : Z) : io W DynamicExport :=
  inspect check_audit_sources;;
  checked ["make"; "-j2"; "fs.img"] (seconds 420);;
  first ← run_case_group scenarios [Tx] 1 (seconds timeout);
  orderly ← inspect (fun w => data ← bytes_of w image; inspect_orderly_image data);
  others ← run_case_group scenarios [AdmissionEmpty; AdmissionUsed; Same; Collision; Parallel] 2 (seconds timeout);
  before ← inspect image_digest;
  panic ← run_panic_case scenarios (seconds timeout);
  after ← inspect image_digest;
  lift (require (bool_decide (after = before)) [T "isolated read-only panic run changed private fs.img"]);;
  focused ← with_source patience 1 (seconds (Z.max timeout 240)) run_focused;
  checked ["make"; "clean"] (seconds 180);;
  quick ← run_driver ["-q"; "usertests"] 2 (seconds 600);
  checked ["make"; "clean"] (seconds 180);;
  full ← run_driver ["usertests"] 1 (seconds 1200);
  mret {| de_bundles := first ++ others ++ [(CacheFull, panic)]; de_orderly := orderly; de_panic_image := after;
          de_focused := focused; de_quick := quick; de_full := full |}.

Definition run_dynamic_export (manifest scenarios : obj) (candidate fixture : string) : io W (DynamicExport * Environment) :=
  baseline ← lift (release_commit manifest);
  export_baseline baseline;;
  original ← snapshot_of;
  inspect_patch fsdecode candidate CACHE_PATCH_PATHS [];;
  inspect_patch fsdecode fixture FIXTURE_PATHS FIXTURE_CREATED;;
  timeout ← lift (watchdog scenarios);
  evidence ← with_export original (apply_ candidate;; apply_ fixture;; in_tree (run_all scenarios timeout));
  environment ← tool_environment;
  mret (evidence, environment).
End Runs.
