(* ===== verification/PRunsProps.v ===== *)
(** What the exports of [persistence/run-lab.py] guarantee when they return: the
    patches stayed in their scope, every case was judged on what its own guest
    wrote, and the tree is as it was exported. *)

From stdpp Require Import base tactics list gmap strings numbers list_numbers pretty sorting.
From S2P Require Import Prelude PyText PyBytes PyIo PyRegex PyJson PyPath Sha256 Fsck Recover RecoverDocs SourceCheck.
From S2P Require Import PTrace PCase PSynth PSelf FileTree HostSession HostProps SharedRepo PExport PRuns.
Open Scope Z_scope.

(** * The hooks of the log *)

(** The tokens stand in the text at increasing positions. *)
Definition in_sequence (tokens : list string) (s : pystr) : Prop :=
  exists ps, Forall2 (fun t p => occurs_at (u t) s p) tokens ps /\ Sorted Z.lt ps.

Lemma ordered_tokens_ok s tokens message : ordered_tokens s tokens message = Ok tt -> in_sequence tokens s.
Proof.
  intros H. apply (proj1 (ordered_iff s tokens [])). unfold ordered_tokens in H. unfold ordered.
  apply bind_ok in H as (p & H & _). enough (foldM (RecoverDocs.ordered_step s []) (-1) tokens = Ok p) as -> by done.
  revert H. generalize (-1). induction tokens as [|t tokens IH]; intros q H; cbn in *; [done|].
  unfold ordered_step, RecoverDocs.ordered_step in *. destruct (find_from _ _ _); cbn in *; [auto|done].
Qed.

(** A part of a source that starts with [token] and stops where [stop] starts *)
Definition part_of (source : pystr) (token stop : string) (part : pystr) : Prop :=
  exists before after, source = before ++ part ++ after /\
    (exists from, part ++ after = u token ++ from) /\ exists rest, after = u stop ++ rest.

Lemma slice_between {A} (l : list A) p q : 0 <= p -> p <= q -> q <= len l ->
  exists before after, l = before ++ slice p q l ++ after /\ zdrop p l = slice p q l ++ after /\ zdrop q l = after.
Proof.
  intros Hp Hq Hl. rewrite len_length in Hl. exists (take (Z.to_nat p) l), (zdrop q l). unfold slice.
  rewrite ztake_take, !zdrop_drop.
  assert (drop (Z.to_nat p) l = take (Z.to_nat (q - p)) (drop (Z.to_nat p) l) ++ drop (Z.to_nat q) l) as E.
  { replace (drop (Z.to_nat q) l) with (drop (Z.to_nat (q - p)) (drop (Z.to_nat p) l)).
    - by rewrite take_drop.
    - rewrite drop_drop. f_equal. lia. }
  split; [|split; [exact E|done]]. rewrite <- E. by rewrite take_drop.
Qed.

Lemma occurs_at_start token s p : occurs_at token s p -> exists rest, zdrop p s = token ++ rest.
Proof.
  intros (b & a & -> & ->). exists a. rewrite zdrop_drop, Nat2Z.id. apply drop_app_length.
Qed.

Lemma occurs_at_bound token s p : occurs_at token s p -> 0 <= p <= len s.
Proof. intros (b & a & -> & ->). rewrite len_length, !length_app. lia. Qed.

Lemma isolated_ok source token stop failed part :
  isolated source token stop failed = Ok part -> part_of source token stop part.
Proof.
  unfold isolated, index_of. intros H. destruct (find_from (u token) source 0) as [p|] eqn:E; [|done]. cbn in H.
  destruct (find_from (u stop) source p) as [q|] eqn:E0; cbn in H; apply find_from_Some in E as (Op & Hp & _); [|done| |done].
  2: { destruct (p <? -1) eqn:L; [lia|done]. }
  apply find_from_Some in E0 as (Oq & Hq & _); [|lia]. destruct (p <? q) eqn:L; cbn in H; [|done]. injection H as <-.
  destruct (slice_between source p q) as (before & after & E1 & E2 & E3);
    [lia|lia|by apply occurs_at_bound in Oq as []|].
  exists before, after. split; [done|]. rewrite <- E2, <- E3. split; by apply occurs_at_start.
Qed.

(** Every completion is followed by its hook: where a home block is installed,
    where the header is written and where the payload is. *)
Definition hooked (log : pystr) : Prop :=
  in_sequence ["bwrite(dbuf)"; "PA_LOG_HOME"; "bunpin(dbuf)"] log /\
  (exists part, part_of log "write_head(void)" "recover_from_log(void)" part /\
     in_sequence ["bwrite(buf)"; "PA_LOG_CLEAR"; "PA_LOG_HEADER"] part) /\
  exists part, part_of log "write_log(void)" "commit()" part /\ in_sequence ["bwrite(to)"; "PA_LOG_PAYLOAD"] part.

Lemma check_log_hooks_ok log : check_log_hooks log = Ok tt -> hooked log.
Proof.
  unfold check_log_hooks. intros H. inv_ok. split; [by eapply ordered_tokens_ok|].
  split; eexists; (split; [by eapply isolated_ok|by eapply ordered_tokens_ok]).
Qed.

Lemma json_eq_text s v : json_eq (JStr s) v = true -> JStr s = v.
Proof. destruct v; cbn; try done. intros E. by case_bool_decide; subst. Qed.

Section Props.
Context {W : Type} `{!Host W} `{!Files W}.
Context (fsdecode : pybytes -> pystr) (alphanumeric : Z -> bool).

(** * Every program here has at most one outcome *)

#[global] Instance mono_numstat p : Mono (patch_numstat (W := W) fsdecode p).
Proof. unfold patch_numstat. by_parts. Qed.
#[global] Instance mono_inspect_patch p e c : Mono (inspect_patch (W := W) fsdecode p e c).
Proof. unfold inspect_patch. by_parts. Qed.
#[global] Instance mono_apply_file p r : Mono (apply_patch_file (W := W) p r).
Proof. unfold apply_patch_file. by_parts. Qed.
#[global] Instance mono_in_tree A (m : io W A) : Mono m -> Mono (in_tree m).
Proof. apply mono_zoom. Qed.
#[global] Instance mono_snapshot : Mono (snapshot_of (W := W)).
Proof. unfold snapshot_of. by_parts. Qed.
#[global] Instance mono_apply p : Mono (apply_ (W := W) p).
Proof. unfold apply_. by_parts. Qed.
#[global] Instance mono_attempt l f (m : io W ()) es : Mono m -> Mono (attempt l f m es).
Proof. unfold attempt. by_parts. Qed.
#[global] Instance mono_compare es : Mono (compare_tree (W := W) es).
Proof. unfold compare_tree. by_parts. Qed.
#[global] Instance mono_cleanup : Mono (cleanup (W := W)).
Proof. unfold cleanup. by_parts. Qed.
#[global] Instance mono_leave A (r : result A) : Mono (leave_session (W := W) r).
Proof. unfold leave_session. by_parts. Qed.
#[global] Instance mono_export A o (m : io (ExportSession W) A) : Mono m -> Mono (with_export o m).
Proof. intros. unfold with_export. by_parts. Qed.
#[global] Instance mono_inspect A (f : W -> result A) : Mono (inspect f).
Proof. unfold inspect. by_parts. Qed.
#[global] Instance mono_baseline c : Mono (export_baseline (W := W) c).
Proof. unfold export_baseline. by_parts. Qed.
#[global] Instance mono_instrumented o a f : Mono (instrumented (W := W) o a f).
Proof. unfold instrumented. by_parts. Qed.
#[global] Instance mono_static m s a f : Mono (run_static_export (W := W) fsdecode alphanumeric m s a f).
Proof. unfold run_static_export. by_parts. Qed.

Context `{!HostLaws W}.

#[global] Instance total_numstat p : Total (patch_numstat (W := W) fsdecode p).
Proof. unfold patch_numstat. by_parts. Qed.
#[global] Instance total_inspect_patch p e c : Total (inspect_patch (W := W) fsdecode p e c).
Proof. unfold inspect_patch. by_parts. Qed.
#[global] Instance total_apply_file p r : Total (apply_patch_file (W := W) p r).
Proof. unfold apply_patch_file. by_parts. Qed.
#[global] Instance total_in_tree A (m : io W A) : Total m -> Total (in_tree m).
Proof. apply total_zoom. Qed.
#[global] Instance total_snapshot : Total (snapshot_of (W := W)).
Proof. unfold snapshot_of. by_parts. Qed.
#[global] Instance total_apply p : Total (apply_ (W := W) p).
Proof. unfold apply_. by_parts. Qed.
#[global] Instance total_attempt l f (m : io W ()) es : Mono m -> Total m -> Total (attempt l f m es).
Proof. intros. unfold attempt. by_parts. Qed.
#[global] Instance total_compare es : Total (compare_tree (W := W) es).
Proof. unfold compare_tree. by_parts. Qed.
#[global] Instance total_cleanup : Total (cleanup (W := W)).
Proof. unfold cleanup. by_parts. Qed.
#[global] Instance total_leave A (r : result A) : Total (leave_session (W := W) r).
Proof. unfold leave_session. by_parts. Qed.
#[global] Instance total_export A o (m : io (ExportSession W) A) : Mono m -> Total m -> Total (with_export o m).
Proof. intros. unfold with_export. by_parts. Qed.
#[global] Instance total_inspect A (f : W -> result A) : Total (inspect f).
Proof. unfold inspect. by_parts. Qed.
#[global] Instance total_baseline c : Total (export_baseline (W := W) c).
Proof. unfold export_baseline. by_parts. Qed.
#[global] Instance total_instrumented o a f : Total (instrumented (W := W) o a f).
Proof. unfold instrumented. by_parts. Qed.
#[global] Instance total_static m s a f : Total (run_static_export (W := W) fsdecode alphanumeric m s a f).
Proof. unfold run_static_export. by_parts. Qed.

(** * The session *)

(** The fields of the session, the tree apart *)
Definition keeps (s s1 : ExportSession W) : Prop :=
  original s1 = original s /\ applied s1 = applied s /\ cleaned s1 = cleaned s.

Lemma keeps_trans s1 s2 s3 : keeps s1 s2 -> keeps s2 s3 -> keeps s1 s3.
Proof. unfold keeps. intuition congruence. Qed.

Lemma in_tree_post A (m : io W A) s : post (in_tree m) s (fun _ s1 => keeps s s1).
Proof. apply post_zoom. by intros r w _. Qed.

Lemma attempt_post l f (m : io W ()) es s : post (attempt l f m es) s (fun r s1 =>
  keeps s s1 /\ (r = Ok [] -> es = [])).
Proof.
  unfold attempt. do 2 post_step. eapply post_mono; [apply in_tree_post|]. intros [[]|e] s1 K.
  - post_step. split; [done|]. naive_solver.
  - destruct (f e); [|done]. post_step. split; [done|]. by destruct es.
Qed.

(** The tree of a state has this snapshot. *)
Definition has_snapshot (w : W) (m : gmap pystr fsvalue) : Prop := exists t, tree_of w = Ok t /\ snapshot t = m.

Lemma snapshot_post w : post snapshot_of w (fun r w1 => w1 = w /\ forall m, r = Ok m -> has_snapshot w m).
Proof.
  unfold snapshot_of. do 4 post_step. destruct (tree_of w) as [t|] eqn:E; cbn; [|done].
  post_step. split; [done|]. intros m [= <-]. by exists t.
Qed.

Lemma compare_post es s : post (compare_tree es) s (fun r s1 =>
  keeps s s1 /\ (r = Ok [] -> es = [] /\ has_snapshot (world s1) (original s))).
Proof.
  unfold compare_tree. do 2 post_step. apply post_zoom. eapply post_mono; [apply snapshot_post|].
  intros [m|e] w [-> H]; cbn.
  - do 3 post_step. split; [done|]. case_bool_decide as E; [|by destruct es]. intros [= ->].
    split; [done|]. cbn in *. rewrite <- E. by apply H.
  - destruct (os_error e); [|done]. post_step. split; [done|]. by destruct es.
Qed.

Lemma reversal_post es patches s : post (fold_io (fun errors patch =>
    attempt [T "reverse "; V (name_of (u patch)); T ": "] lab_or_os (apply_patch_file patch true) errors) es patches)
  s (fun r s1 => keeps s s1 /\ (r = Ok [] -> es = [])).
Proof.
  revert es s. induction patches as [|p patches IH]; intros es s; cbn.
  - post_step. split; [done|]. naive_solver.
  - post_step. eapply post_mono; [apply attempt_post|]. intros [es1|e] s1 [K H]; [|naive_solver].
    eapply post_mono; [apply IH|]. intros r s2 [K2 H2]. split; [by eapply keeps_trans|].
    intros ->. apply H. f_equal. by apply H2.
Qed.

(** A cleanup that raises nothing leaves the tree of the beginning. *)
Lemma cleanup_post s : cleaned s = false -> post cleanup s (fun r s1 =>
  r = Ok tt -> has_snapshot (world s1) (original s)).
Proof.
  intros N. unfold cleanup. do 2 post_step. rewrite N. post_step. eapply post_mono; [apply attempt_post|].
  intros [es1|e] s1 [K1 _]; [|done]. do 3 post_step.
  apply post_mono with (P := fun r s2 => keeps s1 s2).
  { destruct (_ && _); [|by post_step]. eapply post_mono; [apply attempt_post|]. naive_solver. }
  intros [es2|e] s2 K2; [|done]. do 3 post_step. eapply post_mono; [apply reversal_post|].
  intros [es3|e] s3 [K3 _]; [|done]. post_step. eapply post_mono; [apply compare_post|].
  intros [es4|e] s4 [K4 H4]; [|done]. do 3 post_step. destruct es4; [|done]. intros _. cbn.
  destruct (H4 eq_refl) as [_ H]. pose proof (keeps_trans _ _ _ (keeps_trans _ _ _ K1 K2) K3) as [<- _]. done.
Qed.

Lemma post_runs A (m : io W A) w : post m w (fun r w1 => runs m w r w1).
Proof. by intros r w1 H. Qed.
Lemma post_session_runs A (m : io (ExportSession W) A) s : post m s (fun r s1 => runs m s r s1).
Proof. by intros r s1 H. Qed.

(** What the steps of a session keep *)
Definition in_session (s s1 : ExportSession W) : Prop := original s1 = original s /\ cleaned s1 = cleaned s.

(** A session that returns has run its body on the tree, and has restored it. *)
Lemma export_post A o (body : io (ExportSession W) A) w :
  (forall s, post body s (fun _ s1 => in_session s s1)) ->
  post (with_export o body) w (fun r w1 => forall a, r = Ok a ->
    (exists s1, runs body (new_session o w) (Ok a) s1) /\ has_snapshot w1 o).
Proof.
  intros Hb. unfold with_export. apply post_scope, post_observe.
  intros r s1 R. destruct (Hb _ _ _ R) as [O1 C1]. unfold leave_session. do 3 post_step.
  eapply post_mono; [by apply cleanup_post|]. intros [[]|e] s2 H2.
  - do 2 post_step. intros a ->. split; [by exists s1|]. rewrite <- (O1 : original s1 = o). by apply H2.
  - destruct e; try (by intros a [=]). post_step. post_step. by destruct r.
Qed.

(** * Patches *)

(** From [w] to [w'] git was asked about the patch: it changes exactly the files
    of [paths], creates exactly those of [created], does nothing else to names
    and modes, and applies to the tree. *)
Definition in_scope (patch : string) (paths created : list string) (w w' : W) : Prop :=
  exists raw entries summary applies w1 w2,
    runs (checked_bytes Exported ["git"; "apply"; "--numstat"; "-z"; "--"; patch] (seconds 300)) w (Ok raw) w1 /\
    numstat_entries fsdecode raw patch = Ok entries /\ NoDup entries.*1.*1 /\
    (forall p, p ∈ entries.*1.*1 <-> p ∈ u <$> paths) /\
    Forall (fun p => p <> [] /\ safe_path p = true) entries.*1.*1 /\
    runs (checked ["git"; "apply"; "--summary"; "--"; patch] (seconds 300)) w1 (Ok summary) w2 /\
    (forall p, p ∈ created_paths summary <-> p ∈ u <$> created) /\
    strip (re_remove create_line_re summary) = [] /\
    runs (checked ["git"; "apply"; "--check"; "--unidiff-zero"; "--whitespace=error-all"; "--"; patch] (seconds 300))
      w2 (Ok applies) w'.

Lemma numstat_entry_ok record e : numstat_entry fsdecode record = Ok e -> e.1.1 <> [] /\ safe_path e.1.1 = true.
Proof.
  unfold numstat_entry. intros H. destruct (splitn 2 [9] record) as [|a [|b [|c [|d l]]]]; try done.
  inv_ok. by to_prop.
Qed.

Lemma numstat_ok raw patch entries : numstat_entries fsdecode raw patch = Ok entries ->
  NoDup entries.*1.*1 /\ Forall (fun p => p <> [] /\ safe_path p = true) entries.*1.*1.
Proof.
  unfold numstat_entries. intros H. inv_ok. to_prop. split; [done|]. apply mapR_ok in E.
  clear C C0. induction E as [|x y l k Hxy _ IH]; constructor; [|done]. by apply numstat_entry_ok in Hxy.
Qed.

Lemma inspect_patch_post patch paths created w : post (inspect_patch fsdecode patch paths created) w
  (fun r w' => forall x, r = Ok x -> in_scope patch paths created w w').
Proof.
  unfold inspect_patch, patch_numstat. do 2 post_step. eapply post_mono; [apply post_runs|].
  intros [raw|e] w1 Hr; [|done]. post_step. destruct (numstat_entries fsdecode raw patch) as [entries|] eqn:E; [|done].
  do 2 post_step. destruct (same_set _ _) eqn:Es; cbn [require]; [|done]. post_step.
  eapply post_mono; [apply post_runs|]. intros [summary|e] w2 Hs; [|done]. do 2 post_step.
  destruct (check_summary _ _) as [[]|] eqn:Ec; [|done]. post_step. eapply post_mono; [apply post_runs|].
  intros [applies|e] w3 H3; [|done]. post_step. intros x _.
  destruct (numstat_ok _ _ _ E) as [Hd Hf]. exists raw, entries, summary, applies, w1, w2.
  split; [done|]. split; [done|]. split; [done|]. split; [by apply same_set_iff|]. split; [done|]. split; [done|].
  unfold check_summary in Ec. inv_ok. to_prop. split; [by apply same_set_iff|done].
Qed.

(** * The static export *)

Lemma audit_sources_ok w : check_audit_sources alphanumeric w = Ok tt ->
  exists log, text_of w (u "kernel/log.c") = Ok log /\ hooked log.
Proof.
  unfold check_audit_sources. intros H.
  do 10 (apply bind_ok in H as (? & _ & H)). apply bind_ok in H as (log & E & H). exists log. split; [done|].
  by apply check_log_hooks_ok.
Qed.

Lemma inspect_post A (f : W -> result A) w : post (inspect f) w (fun r w1 => w1 = w /\ r = f w).
Proof. unfold inspect. do 2 post_step. by post_step. Qed.

Lemma apply_post p s : post (apply_ p) s (fun _ s1 => in_session s s1).
Proof.
  unfold apply_. post_step. eapply post_mono; [apply in_tree_post|]. intros [[]|e] s1 (? & ? & ?); [|done].
  by post_step.
Qed.

Lemma session_bind A B (m : io (ExportSession W) A) (f : A -> io (ExportSession W) B) s :
  post m s (fun _ s1 => in_session s s1) -> (forall a s1, post (f a) s1 (fun _ s2 => in_session s1 s2)) ->
  post (m ≫= f) s (fun _ s1 => in_session s s1).
Proof.
  intros Hm Hf. post_step. eapply post_mono; [apply Hm|]. intros [a|e] s1 [O C]; [|done].
  eapply post_mono; [apply Hf|]. intros r s2 [O2 C2]. split; congruence.
Qed.

Lemma session_tree A (m : io W A) s : post (in_tree m) s (fun _ s1 => in_session s s1).
Proof. eapply post_mono; [apply in_tree_post|]. by intros r s1 (? & ? & ?). Qed.

(** Every step of a session keeps it. *)
Ltac session_steps :=
  repeat match goal with
  | |- post (_ ≫= _) _ _ => apply session_bind; [|intros]
  | |- post (in_tree _) _ _ => apply session_tree
  | |- post (apply_ _) _ _ => apply apply_post
  | |- post (lift _) _ _ => by post_step
  | |- post (mret _) _ _ => by post_step
  end.

(** The body of the session of a static export *)
Definition static_body (original : gmap pystr fsvalue) (adapter fixture : string) : io (ExportSession W) (pystr * pystr) :=
  native_build ← instrumented original adapter fixture;
  in_tree (inspect (check_audit_sources alphanumeric));;
  instrumented_build ← in_tree (checked ["make"; "-j2"; "kernel/kernel"; "user/_persisttrace"] (seconds 360));
  mret (native_build, instrumented_build).

Lemma static_body_keeps o adapter fixture s : post (static_body o adapter fixture) s (fun _ s1 => in_session s s1).
Proof. unfold static_body, instrumented. session_steps. Qed.

(** In the session, with both patches applied, every hook of the log is behind
    the completion it reports. *)
Definition hooks_shown (original : gmap pystr fsvalue) (adapter fixture : string) (w : W) : Prop :=
  exists native s1 log, runs (instrumented original adapter fixture) (new_session original w) (Ok native) s1 /\
    text_of (world s1) (u "kernel/log.c") = Ok log /\ hooked log.

Lemma static_body_shows o adapter fixture w a s1 :
  runs (static_body o adapter fixture) (new_session o w) (Ok a) s1 -> hooks_shown o adapter fixture w.
Proof.
  intros H. enough (post (static_body o adapter fixture) (new_session o w) (fun r _ =>
    forall a, r = Ok a -> hooks_shown o adapter fixture w)) as X by exact (X _ _ H a eq_refl).
  clear. unfold static_body. post_step. eapply post_mono; [apply post_session_runs|].
  intros [native|e] s1 H1; [|done]. post_step. apply post_zoom. eapply post_mono; [apply inspect_post|].
  intros r w1 [-> Hr]. destruct r as [[]|]; [|done]. symmetry in Hr. apply audit_sources_ok in Hr as (log & El & Hl).
  intros r s2 _ a _. by exists native, s1, log.
Qed.

(** What a static export from [w] to [w'] has shown: the tree was exported and
    passed the manifest check, both patches stayed in their scope, the tree with
    the patches has its hooks, and at the end the tree is as it was exported. *)
Definition static_shows (manifest : obj) (adapter fixture : string) (w w' : W) : Prop :=
  exists commit exported w0 w1 w2, release_commit manifest = Ok (JStr commit) /\
    runs (export_baseline (JStr commit)) w (Ok tt) w0 /\ has_snapshot w0 exported /\
    check_manifest_and_anchors alphanumeric w0 manifest = Ok commit /\
    in_scope adapter CACHE_PATCH_PATHS [] w0 w1 /\ in_scope fixture FIXTURE_PATHS FIXTURE_CREATED w1 w2 /\
    hooks_shown exported adapter fixture w2 /\ has_snapshot w' exported.

Lemma static_post manifest scenarios adapter fixture w :
  post (run_static_export fsdecode alphanumeric manifest scenarios adapter fixture) w (fun r w' =>
  forall x, r = Ok x -> static_shows manifest adapter fixture w w').
Proof.
  unfold run_static_export. post_step. post_step. destruct (release_commit manifest) as [commit|] eqn:Er; [|done].
  post_step. eapply post_mono; [apply post_runs|]. intros [[]|e] w0 H0; [|done].
  post_step. eapply post_mono; [apply snapshot_post|]. intros [o|e] wa [-> Ho]; [|done].
  post_step. eapply post_mono; [apply inspect_post|]. intros r wa [-> Hm]. destruct r as [baseline|e]; [|done].
  post_step. post_step. destruct (json_eq _ _) eqn:Eb; cbn [require]; [|done]. apply json_eq_text in Eb. subst commit.
  post_step. eapply post_mono; [apply inspect_patch_post|]. intros [x1|e] w1 Ha; [|done].
  post_step. eapply post_mono; [apply inspect_patch_post|]. intros [x2|e] w2 Hf; [|done]. post_step.
  eapply post_mono; [apply export_post, (static_body_keeps o adapter fixture)|].
  intros [[native build]|e] w3 H; [|done]. destruct (H _ eq_refl) as [[s1 Hb] Hs]. post_step.
  post_step. destruct (scenario_ids scenarios); [|done]. post_step. intros x _.
  exists baseline, o, w0, w1, w2. split; [done|]. split; [done|]. split; [by apply Ho|]. split; [done|].
  split; [by eapply Ha|]. split; [by eapply Hf|]. split; [by eapply static_body_shows|done].
Qed.

(** C5: The static export has an outcome on every host that keeps its laws.
    When it returns, in this run the tree was exported and passed the manifest
    check, both patches stayed in their scope, the tree with the patches had
    every hook of the log behind the completion it reports, and at the end the
    tree is as it was exported. *)
Theorem static_export_restores manifest scenarios adapter fixture w :
  exists r w', runs (run_static_export fsdecode alphanumeric manifest scenarios adapter fixture) w r w' /\
  forall x, r = Ok x -> static_shows manifest adapter fixture w w'.
Proof.
  destruct (total_static manifest scenarios adapter fixture w) as (r & w' & H). exists r, w'. split; [done|].
  exact (static_post manifest scenarios adapter fixture w r w' H).
Qed.

End Props.

(** * Cases *)

Section Cases.
Context {W : Type} `{!Host W} `{!HostLaws W}.

#[global] Instance mono_run_cases sc cases : Mono (run_cases (W := W) sc cases).
Proof. unfold run_cases. apply mono_fold. intros. by_parts. Qed.
#[global] Instance total_run_cases sc cases : Total (run_cases (W := W) sc cases).
Proof. unfold run_cases. apply total_fold; intros; by_parts. Qed.

(** The bundle is the verdict on what came back after the command of the case. *)
Definition heard (scenarios : obj) (e : case * EvidenceBundle) : Prop :=
  exists (s s1 : QemuSource W) new, exchanged s s1 new /\
    sent (host s1) (process s) = sent (host s) (process s) ++ bytes_of_string (guest_command e.1) ++ [newline] /\
    validate_case_trace (utf8_replace None (remove_char cr new)) (u (case_name e.1)) scenarios false = Ok e.2.

(** A session goes from one state to another through its cases, one after the
    other: the command of the case is written, and the bundle is the verdict on
    what is read until the next one. *)
Inductive tells (scenarios : obj) (s : QemuSource W) : list (case * EvidenceBundle) -> QemuSource W -> Prop :=
  | tells_nothing : tells scenarios s [] s
  | tells_case l e s1 s2 new : tells scenarios s l s1 -> exchanged s1 s2 new ->
      sent (host s2) (process s1) = sent (host s1) (process s1) ++ bytes_of_string (guest_command e.1) ++ [newline] ->
      validate_case_trace (utf8_replace None (remove_char cr new)) (u (case_name e.1)) scenarios false = Ok e.2 ->
      tells scenarios s (l ++ [e]) s2.

Lemma tells_heard sc s l s1 : tells sc s l s1 -> Forall (heard sc) l.
Proof.
  induction 1 as [|l e s1 s2 new _ IH X S V]; [constructor|]. apply Forall_app. split; [done|].
  apply Forall_singleton. by exists s1, s2, new.
Qed.

Lemma run_cases_post sc cases s : post (run_cases sc cases) s (fun r s1 => process s1 = process s /\
  forall bundles, r = Ok bundles -> bundles.*1 = cases /\ tells sc s bundles s1).
Proof.
  unfold run_cases.
  apply (post_fold _ (fun l bundles s1 => process s1 = process s /\ bundles.*1 = l /\ tells sc s bundles s1));
    [|naive_solver|by repeat split; constructor].
  intros l c bundles s1 _ (P1 & E1 & F1). post_step. eapply post_mono; [apply command_post|].
  intros r s2 (new & X & H). assert (process s2 = process s) as P2 by (destruct X as (-> & _); done).
  destruct r as [t|e]; [|naive_solver]. destruct H as (Hs & -> & _). do 2 post_step.
  unfold judge. destruct (validate_case_trace _ _ _ _) as [b|e] eqn:E; [|destruct e; naive_solver].
  post_step. split; [done|]. rewrite fmap_app, E1. split; [done|]. by apply (tells_case sc s bundles (c, b) s1 s2 new).
Qed.

Lemma run_cases_kept sc cases s : post (run_cases sc cases) s (fun r s1 => process s1 = process s /\
  forall bundles, r = Ok bundles -> bundles.*1 = cases /\ Forall (heard sc) bundles).
Proof.
  eapply post_mono; [apply run_cases_post|]. intros r s1 [P H]. split; [done|]. intros b E.
  destruct (H b E) as [? ?%tells_heard]. done.
Qed.

(** The session of a group, from the start of QEMU to its end *)
Definition group_session (sc : obj) (cpus t : Z) (bundles : list (case * EvidenceBundle)) (w w' : W) : Prop :=
  exists pid w0 s0 s1 s2, popen Exported [] ["make"; String.append "CPUS=" (pretty cpus); "qemu"] w = (Ok pid, w0) /\
    runs (opened patience) (new_source t pid w0) (Ok tt) s0 /\ tells sc s0 bundles s1 /\
    runs (close patience) s1 (Ok tt) s2 /\ w' = host s2 /\ alive w' pid = false.

Lemma case_group_states sc cases cpus t w : post (run_case_group sc cases cpus t) w (fun r w' => forall bundles, r = Ok bundles ->
  bundles.*1 = cases /\ group_session sc cpus t bundles w w').
Proof.
  intros r w' H bundles E.
  destruct (with_states _ _ _ _ _ _ _ _ H bundles E) as (pid & w0 & s0 & s1 & s2 & Hp & H0 & H1 & H2 & ->).
  destruct (run_cases_post sc cases s0 _ _ H1) as [_ Hc]. destruct (Hc _ eq_refl) as [Hb Ht]. split; [done|].
  exists pid, w0, s0, s1, s2. repeat (split; [done|]).
  destruct (with_post _ patience cpus t (run_cases sc cases) w _ (run_cases_kept sc cases) r (host s2) H bundles E)
    as (_ & pid' & w0' & Hp' & Ha). rewrite Hp in Hp'. by injection Hp' as <- <-.
Qed.

(** C15: A group of cases has an outcome on every host that keeps its laws.
    When it returns there is one bundle per case, in order; in one session, from
    its prompt to its end, the command of each case was written after the case
    before it, each bundle is the verdict of the oracle on the text read after
    the command of its own case, and the QEMU process has no member of its group
    left. *)
Theorem case_group_judged sc cases cpus t w : exists r w', runs (run_case_group sc cases cpus t) w r w' /\
  forall bundles, r = Ok bundles -> bundles.*1 = cases /\ Forall (heard sc) bundles /\
    group_session sc cpus t bundles w w'.
Proof.
  destruct (total_with _ patience cpus t (run_cases sc cases) _ _ w) as (r & w' & H). exists r, w'. split; [done|].
  intros bundles E. destruct (case_group_states sc cases cpus t w r w' H bundles E) as [Hc Hs]. split; [done|].
  split; [|done]. destruct Hs as (pid & w0 & s0 & s1 & s2 & _ & _ & Ht & _). by eapply tells_heard.
Qed.

End Cases.

(** * The dynamic export *)

Section Dynamic.
Context {W : Type} `{!Host W} `{!HostLaws W} `{!Files W} `{!Repository W}.
Context (fsdecode : pybytes -> pystr) (alphanumeric : Z -> bool).

(** The bundle is the verdict of the oracle on some transcript. *)
Definition judged (scenarios : obj) (e : case * EvidenceBundle) : Prop :=
  exists transcript,
    validate_case_trace transcript (u (case_name e.1)) scenarios (bool_decide (e.1 = CacheFull)) = Ok e.2.

Lemma case_group_post sc cases cpus t w : CacheFull ∉ cases ->
  post (run_case_group sc cases cpus t) w (fun r _ => forall bundles, r = Ok bundles ->
    bundles.*1 = cases /\ Forall (judged sc) bundles).
Proof.
  intros N. eapply post_mono; [apply (with_post _ _ _ _ _ _ _ (run_cases_kept sc cases))|].
  intros r w1 H bundles E. destruct (H bundles E) as [[Hc Hf] _]. split; [done|].
  apply Forall_forall. intros [c b] I. rewrite Forall_forall in Hf.
  destruct (Hf _ I) as (s & s1 & new & _ & _ & Hv). eexists. cbn [fst snd] in *.
  rewrite bool_decide_false; [exact Hv|]. intros ->. apply N. rewrite <- Hc. by apply (list_elem_of_fmap_2 fst) in I.
Qed.

Lemma panic_case_post sc t w : post (run_panic_case sc t) w (fun r _ => forall b, r = Ok b -> judged sc (CacheFull, b)).
Proof.
  unfold run_panic_case. eapply post_mono; [apply with_post with (P := fun b => judged sc (CacheFull, b))|naive_solver].
  intros s. unfold panic_command, send, write. post_step. do 2 post_step. do 3 post_step. apply post_on_host. post_step.
  destruct (write_in _ _ _) as [[[]|e] w1]; cbn [fst snd]; [|done].
  post_step. eapply post_mono; [apply wait_for_post|]. intros [[]|e] s1 (new & (_ & P1 & _) & _); [|done].
  cbn in P1. post_step. apply (post_mono _ _ _ (fun _ s2 => process s2 = process s)).
  - apply (post_while _ _ (fun s2 => process s2 = process s) (fun s2 => process s2 = process s)); [| |done].
    + intros s2 P2. eapply post_mono; [apply read_post|]. intros [[]|e] s3 (_ & n & (_ & P3 & _) & _); congruence.
    + intros s2 P2. by post_step.
  - intros [[]|e] s2 P2; [|done]. unfold transcript_from. do 3 post_step. post_step. split; [done|].
    intros b E. eexists. cbn [fst snd]. rewrite bool_decide_true by done. exact E.
Qed.

Lemma driver_post args cpus t w : post (run_driver args cpus t) w (fun r _ => forall o, r = Ok o -> passed_once o = true).
Proof.
  unfold run_driver. post_step. intros [out|e] w1 _; [|done]. post_step. post_step.
  destruct (passed_once _) eqn:E; cbn [require]; [|done]. post_step. intros o [= <-]. done.
Qed.

(** What the runs on the patched tree have shown *)
Definition evidence (scenarios : obj) (x : DynamicExport) : Prop :=
  (de_bundles x).*1 = [Tx; AdmissionEmpty; AdmissionUsed; Same; Collision; Parallel; CacheFull] /\
  Forall (judged scenarios) (de_bundles x) /\ passed_once (de_quick x) = true /\ passed_once (de_full x) = true /\
  oi_header_n (de_orderly x) = 0 /\ oi_home_bytes (de_orderly x) = [81; 82].

Lemma orderly_ok data o : inspect_orderly_image data = Ok o -> oi_header_n o = 0 /\ oi_home_bytes o = [81; 82].
Proof.
  unfold inspect_orderly_image. intros H. apply bind_ok in H as ([] & _ & H). apply bind_ok in H as (sb & _ & H).
  destruct sb as [|a [|b [|c [|d [|e [|f [|g [|h [|i sb]]]]]]]]]; try done.
  apply bind_ok in H as ([] & _ & H). apply bind_ok in H as (n & _ & H).
  apply bind_ok in H as ([] & Hn & H). apply bind_ok in H as ([] & Hh & H). injection H as <-.
  apply require_ok in Hn, Hh. cbn. by to_prop.
Qed.

Lemma run_all_post sc t w : post (run_all alphanumeric sc t) w (fun r _ => forall x, r = Ok x -> evidence sc x).
Proof.
  unfold run_all. post_step. intros [[]|e] w0 _; [|done]. post_step. intros [?|e] w1 _; [|done].
  post_step. eapply post_mono; [apply case_group_post; by apply (bool_decide_unpack _); vm_compute|].
  intros [first|e] w2 H1; [|done]. post_step. eapply post_mono; [apply inspect_post|].
  intros [orderly|e] w3 [-> Ho]; [|done]. symmetry in Ho. apply bind_ok in Ho as (data & _ & Ho%orderly_ok).
  post_step. eapply post_mono; [apply case_group_post; by apply (bool_decide_unpack _); vm_compute|].
  intros [others|e] w4 H2; [|done]. post_step. intros [before|e] w5 _; [|done].
  post_step. eapply post_mono; [apply panic_case_post|]. intros [panic|e] w6 H3; [|done].
  post_step. intros [after|e] w7 _; [|done]. post_step. intros [[]|e] w8 _; [|done].
  post_step. intros [focused|e] w9 _; [|done]. post_step. intros [?|e] w10 _; [|done].
  post_step. eapply post_mono; [apply driver_post|]. intros [quick|e] w11 H4; [|done].
  post_step. intros [?|e] w12 _; [|done]. post_step. eapply post_mono; [apply driver_post|].
  intros [full|e] w13 H5; [|done]. post_step. intros x [= <-].
  destruct (H1 _ eq_refl) as [E1 F1], (H2 _ eq_refl) as [E2 F2].
  unfold evidence. cbn [de_bundles de_quick de_full de_orderly]. rewrite !fmap_app, E1, E2.
  split; [done|]. split; [|split; [by apply H4|split; [by apply H5|done]]].
  apply Forall_app. split; [done|]. apply Forall_app. split; [done|]. apply Forall_singleton. by apply H3.
Qed.

(** The body of the session of a dynamic export *)
Definition dynamic_body (sc : obj) (candidate fixture : string) (timeout : Z) : io (ExportSession W) DynamicExport :=
  apply_ candidate;; apply_ fixture;; in_tree (run_all alphanumeric sc timeout).

Lemma dynamic_body_keeps sc candidate fixture t s : post (dynamic_body sc candidate fixture t) s (fun _ s1 => in_session s s1).
Proof. unfold dynamic_body. do 2 (apply session_bind; [apply apply_post|intros]). apply session_tree. Qed.

Lemma dynamic_body_post sc candidate fixture t s : post (dynamic_body sc candidate fixture t) s (fun r _ =>
  forall x, r = Ok x -> evidence sc x).
Proof.
  unfold dynamic_body. post_step. intros [[]|e] s1 _; [|done]. post_step. intros [[]|e] s2 _; [|done].
  apply post_zoom. apply run_all_post.
Qed.

(** A dynamic export from [w] to [w'] exported the tree, both patches stayed in
    their scope, the session on the tree returned the evidence, which has a verdict for
    each of the seven cases and an image whose log is clear, and after it the
    tree was as it was exported; the loop that reads what follows a panic has no
    time limit, so that the export need not return. *)
Definition dynamic_shows (manifest sc : obj) (candidate fixture : string) (x : DynamicExport * Environment)
    (w w' : W) : Prop :=
  exists commit timeout exported w0 w1 w2 w3, release_commit manifest = Ok commit /\ watchdog sc = Ok timeout /\
    runs (export_baseline commit) w (Ok tt) w0 /\ has_snapshot w0 exported /\
    in_scope fsdecode candidate CACHE_PATCH_PATHS [] w0 w1 /\
    in_scope fsdecode fixture FIXTURE_PATHS FIXTURE_CREATED w1 w2 /\
    runs (with_export exported (dynamic_body sc candidate fixture timeout)) w2 (Ok x.1) w3 /\ evidence sc x.1 /\
    has_snapshot w3 exported /\ runs tool_environment w3 (Ok x.2) w'.

Lemma dynamic_post manifest sc candidate fixture w :
  post (run_dynamic_export fsdecode alphanumeric manifest sc candidate fixture) w (fun r w' =>
    forall x, r = Ok x -> dynamic_shows manifest sc candidate fixture x w w').
Proof.
  unfold run_dynamic_export. post_step. post_step. destruct (release_commit manifest) as [commit|] eqn:Er; [|done].
  post_step. eapply post_mono; [apply post_runs|]. intros [[]|e] w0 H0; [|done].
  post_step. eapply post_mono; [apply snapshot_post|]. intros [o|e] wa [-> Ho]; [|done].
  post_step. eapply post_mono; [apply inspect_patch_post|]. intros [x1|e] w1 Ha; [|done].
  post_step. eapply post_mono; [apply inspect_patch_post|]. intros [x2|e] w2 Hf; [|done].
  post_step. post_step. destruct (watchdog sc) as [t|] eqn:Et; [|done]. post_step.
  intros [x|e] w3 H3; [|done].
  destruct (export_post _ _ _ _ (dynamic_body_keeps sc candidate fixture t) _ _ H3 x eq_refl) as [[s1 Hb] Hs].
  pose proof (dynamic_body_post _ _ _ _ _ _ _ Hb x eq_refl) as He. post_step.
  eapply post_mono; [apply post_runs|]. intros [env|e] w4 H4; [|done]. post_step. intros y [= <-].
  exists commit, t, o, w0, w1, w2, w3. split; [done|]. split; [done|]. split; [done|]. split; [by apply Ho|].
  split; [by eapply Ha|]. split; [by eapply Hf|]. done.
Qed.
End Dynamic.

(** * A group of cases *)

(** A guest that boots, and prints the trace of a transaction *)
Definition booted : console :=
  {| now := 0; group := true; stubborn := true; lingering := false;
     inbox := [u "xv6 kernel is booting" ++ [cr; newline] ++ prompt;
               u "persisttrace log" ++ [cr; newline]; synthetic_trace Tx ++ prompt];
     got := []; put := []; final := ([], 0) |}.

Lemma case_group_judged_witness : exists b w', (exists n, run_case_group (W := console) scenarios_root [Tx] 1 (seconds 60) n booted =
    Some (Ok [(Tx, b)], w')) /\ heard (W := console) scenarios_root (Tx, b) /\ group w' = false.
Proof.
  destruct (case_group_judged (W := console) scenarios_root [Tx] 1 (seconds 60) booted) as (r & w' & [n H] & Hr).
  assert (match run_case_group (W := console) scenarios_root [Tx] 1 (seconds 60) 200%nat booted with
    | Some (Ok _, _) => true | _ => false end = true) as E by (vm_compute; reflexivity).
  destruct (run_case_group scenarios_root [Tx] 1 (seconds 60) 200%nat booted) as [[[bundles|e] w2]|] eqn:E2;
    [|discriminate E..].
  destruct (runs_det _ _ _ _ _ _ _ (ex_intro _ n H) (ex_intro _ 200%nat E2)) as [-> ->].
  destruct (Hr bundles eq_refl) as (Hc & Hf & pid & w0 & s0 & s1 & s2 & _ & _ & _ & _ & _ & Ha).
  destruct bundles as [|[c b] [|]]; [discriminate Hc| |discriminate Hc]. injection Hc as ->.
  exists b, w2. split; [by exists n|]. split; [by inversion Hf|exact Ha].
Defined.
