(* ===== verification/PMain.v ===== *)
(** The whole run of [persistence/run-lab.py]: self test, static export, and
    unless it is left out the dynamic export of a candidate, between two looks at
    the shared repository. *)

From stdpp Require Import base tactics list gmap strings numbers list_numbers pretty sorting.
From S2P Require Import Prelude PyText PyBytes PyIo PyJson PyPath PTrace PScen PSynth PSelf POracle.
From S2P Require Import FileTree HostSession HostProps SharedRepo PExport PRuns PRunsProps.
Open Scope Z_scope.

Section Run.
Context {W : Type} `{!Host W} `{!Files W} `{!Repository W}.
Context (fsdecode fsencode : pybytes -> pystr) (alphanumeric : Z -> bool).
(** [REPO_ROOT], [BASELINE_ADAPTER], [FIXTURE] and the staged candidate *)
Context (repo_root : pystr) (adapter fixture staged : string).

(** [load_manifest], from the decoded document *)
Definition load_manifest (data : json) : result obj :=
  match data with
  | JObj o =>
      match get o "release" with
      | JObj _ => Ok o
      | _ => Raise (LabError [T "curriculum manifest release is missing"])
      end
  | _ => Raise (LabError [T "curriculum manifest release is missing"])
  end.

Definition published (w : W) : result () :=
  let missing := [T "published persistence patches are missing"] in
  a ← there w adapter;
  require a missing;;
  f ← there w fixture;
  require f missing.

(** The candidate is outside of the repository. *)
Definition outside (w : W) (candidate : option pystr) : result (option pystr) :=
  match candidate with
  | None => Ok None
  | Some path =>
      path ← resolved w path;
      require (negb (is_relative_to path repo_root)) [T "--candidate must be outside the repository"];;
      Ok (Some path)
  end.

Definition shared_image : pystr := u "fs.img".

(** The repository and its image have the digests of the beginning. *)
Definition still_there (before before_image : pystr) : io W () :=
  after ← repo_state fsdecode fsencode;
  lift (require (bool_decide (after = before)) [T "shared repository content, mode, status, or index changed"]);;
  after_image ← inspect (fun w => digest_or_missing w shared_image);
  lift (require (bool_decide (after_image = before_image)) [T "shared fs.img changed"]).

Definition run_static_part (static_only : bool) (candidate : option pystr) (manifest : obj)
    : io W (StaticExport * option (DynamicExport * Environment)) :=
  static ← run_static_export fsdecode alphanumeric manifest scenarios_root adapter fixture;
  if static_only then mret (static, None) else
  candidate ← lift (of_option AttributeError candidate);
  stage_artifact candidate (u staged);;
  dynamic ← run_dynamic_export fsdecode alphanumeric manifest scenarios_root staged fixture;
  mret (static, Some dynamic).

(** What follows the self test *)
Definition run_exports (static_only : bool) (candidate : option pystr) (data : json)
    : io W (StaticExport * option (DynamicExport * Environment)) :=
  manifest ← lift (load_manifest data);
  before ← repo_state fsdecode fsencode;
  before_image ← inspect (fun w => digest_or_missing w shared_image);
  checked_in Shared ["git"; "rev-parse"; "HEAD"] (seconds 300);;
  inspect published;;
  (if static_only then mret tt else
     inspect (fun w => require (which w "qemu-system-riscv64") [T "qemu-system-riscv64 is required"]);;
     lift (require (bool_decide (is_Some candidate)) [T "--candidate is required unless --static-only is selected"]));;
  candidate ← inspect (fun w => outside w candidate);
  exports ← run_static_part static_only candidate manifest;
  still_there before before_image;;
  mret exports.

(** [RUNNER], [SCENARIO_PATH] and [FIXTURE], relative to [REPO_ROOT] *)
Definition sampled_resources : list string :=
  [ "docs/xv6-tutorial/resources/persistence/run-lab.py"; "docs/xv6-tutorial/resources/persistence/scenarios.json";
    "docs/xv6-tutorial/resources/persistence/persistence-audit.patch" ].

(** The end of [self_test]: the files of the runner are in the sample of the
    repository. *)
Definition check_sampled (w : W) (sampled : list pystr) : result () :=
  foldM (fun _ resource =>
    if exists_at w (u resource) then
      require (bool_decide (u resource ∈ sampled)) [T "repository sampling omitted "; V (name_of (u resource))]
    else Ok tt) tt sampled_resources.
Definition self_test_sampling : io W () :=
  w ← state;
  if root_there w then
    sampled ← repo_file_names fsdecode;
    inspect (fun w => check_sampled w sampled)
  else mret tt.

(** [run] without a report; [data] is the decoded manifest. *)
Definition run (self_test_only static_only : bool) (candidate : option pystr) (data : json)
    : io W (option (StaticExport * option (DynamicExport * Environment))) :=
  lift (validate_scenarios scenarios_json);;
  lift (require self_test [Elided]);;
  self_test_sampling;;
  if self_test_only then mret None else
  exports ← run_exports static_only candidate data;
  mret (Some exports).

(** [main] without a report *)
Definition main (self_test_only static_only : bool) (candidate : option pystr) (data : json)
    : io W (option (StaticExport * option (DynamicExport * Environment))) :=
  lift (require (negb (self_test_only && (static_only || bool_decide (is_Some candidate))))
    [T "--self-test cannot be combined with other options"]);;
  run self_test_only static_only candidate data.
End Run.
#[global] Typeclasses Opaque self_test_sampling still_there run_static_part run_exports run main run_static_export run_dynamic_export.

Lemma scenarios_accepted : exists x, validate_scenarios scenarios_json = Ok x.
Proof.
  pose proof self_test_passes as S. unfold self_test in S.
  apply andb_prop in S as [S _]. apply andb_prop in S as [S _]. apply andb_prop in S as [S _].
  revert S. generalize (validate_scenarios scenarios_json). intros [x|e] S; [by exists x|discriminate S].
Qed.

Section Props.
Context {W : Type} `{!Host W} `{!HostLaws W} `{!Files W} `{!Repository W}.
Context (fsdecode fsencode : pybytes -> pystr) (alphanumeric : Z -> bool).
Context (repo_root : pystr) (adapter fixture staged : string).
#[local] Opaque self_test validate_scenarios scenarios_json scenarios_root.

#[global] Instance mono_still b i : Mono (still_there (W := W) fsdecode fsencode b i).
Proof. unfold still_there. by_parts. Qed.
#[global] Instance total_still b i : Total (still_there (W := W) fsdecode fsencode b i).
Proof. unfold still_there. by_parts. Qed.
#[global] Instance mono_sampling : Mono (self_test_sampling (W := W) fsdecode).
Proof. unfold self_test_sampling. by_parts. Qed.
#[global] Instance total_sampling : Total (self_test_sampling (W := W) fsdecode).
Proof. unfold self_test_sampling. by_parts. Qed.
#[global] Instance mono_static_part c m :
  Mono (run_static_part (W := W) fsdecode alphanumeric adapter fixture staged true c m).
Proof. unfold run_static_part. by_parts. Qed.
#[global] Instance total_static_part c m :
  Total (run_static_part (W := W) fsdecode alphanumeric adapter fixture staged true c m).
Proof. unfold run_static_part. by_parts. Qed.
#[global] Instance mono_exports c d :
  Mono (run_exports (W := W) fsdecode fsencode alphanumeric repo_root adapter fixture staged true c d).
Proof. unfold run_exports. by_parts. Qed.
#[global] Instance total_exports c d :
  Total (run_exports (W := W) fsdecode fsencode alphanumeric repo_root adapter fixture staged true c d).
Proof. unfold run_exports. by_parts. Qed.
#[global] Instance mono_run s c d :
  Mono (run (W := W) fsdecode fsencode alphanumeric repo_root adapter fixture staged s true c d).
Proof. unfold run. by_parts. Qed.
#[global] Instance total_run s c d :
  Total (run (W := W) fsdecode fsencode alphanumeric repo_root adapter fixture staged s true c d).
Proof. unfold run. by_parts. Qed.

(** A look at the shared repository that ends in [w'] finds this digest and this
    image. *)
Definition looks (digest image : pystr) (w w' : W) : Prop :=
  runs (repo_state fsdecode fsencode) w (Ok digest) w' /\ digest_or_missing w' shared_image = Ok image.

(** The exports from [w] to [w']: the static one, and unless it was left out the
    staging of the candidate and the dynamic one. *)
Definition exports_show (static_only : bool) (manifest : obj) (x : option (DynamicExport * Environment)) (w w' : W) : Prop :=
  exists w1, static_shows fsdecode alphanumeric manifest adapter fixture w w1 /\
  match x with
  | None => static_only = true /\ w' = w1
  | Some d => static_only = false /\ exists path digest w2,
      runs (stage_artifact path (u staged)) w1 (Ok digest) w2 /\
      dynamic_shows fsdecode alphanumeric manifest scenarios_root staged fixture d w2 w'
  end.

Lemma static_part_post static_only c m w :
  post (run_static_part fsdecode alphanumeric adapter fixture staged static_only c m) w (fun r w' =>
    forall x, r = Ok x -> exports_show static_only m x.2 w w').
Proof.
  unfold run_static_part. post_step. eapply post_mono; [apply static_post|]. intros [static|e] w1 H1; [|done].
  specialize (H1 _ eq_refl). destruct static_only.
  - post_step. intros x [= <-]. by exists w1.
  - post_step. post_step. destruct c as [path|]; [|done]. cbn [of_option]. post_step.
    eapply post_mono; [apply post_runs|]. intros [digest|e] w2 H2; [|done].
    post_step. eapply post_mono; [apply dynamic_post|]. intros [[d env]|e] w3 H3; [|done].
    post_step. intros x [= <-]. exists w1. split; [done|]. split; [done|]. exists path, digest, w2.
    split; [done|]. by apply (H3 _ eq_refl).
Qed.

Lemma still_post before image w : post (still_there fsdecode fsencode before image) w (fun r w' =>
  r = Ok tt -> looks before image w w').
Proof.
  unfold still_there. post_step. eapply post_mono; [apply post_runs|]. intros [after|e] w1 R; [|done].
  post_step. post_step. case_bool_decide as Ed; cbn [require]; [|done]. subst after.
  post_step. eapply post_mono; [apply inspect_post|]. intros r w2 [-> H]. destruct r as [image'|]; [|done].
  post_step. case_bool_decide as Ei; cbn [require]; [|done]. subst image'. by intros _.
Qed.

(** A run from [w] to [w']: the sample of the repository was complete, a look at
    it was taken, the exports showed what they must, and a look at the end finds
    the same digest and the same image, after which nothing is done. *)
Definition run_shows (static_only : bool) (data : json)
    (dynamic : option (DynamicExport * Environment)) (w w' : W) : Prop :=
  exists manifest digest image commit w0 w1 w2 w3, data = JObj manifest /\
    runs (self_test_sampling fsdecode) w (Ok tt) w0 /\
    looks digest image w0 w1 /\
    runs (checked_in Shared ["git"; "rev-parse"; "HEAD"] (seconds 300)) w1 (Ok commit) w2 /\
    exports_show static_only manifest dynamic w2 w3 /\
    looks digest image w3 w'.

(** Checks that look at the state leave it as it is. *)
Lemma qemu_checked (static_only : bool) (c : option pystr) w : post (if static_only then mret tt else
     inspect (fun w => require (which w "qemu-system-riscv64") [T "qemu-system-riscv64 is required"]);;
     lift (require (bool_decide (is_Some c)) [T "--candidate is required unless --static-only is selected"])) w
  (fun _ w' => w' = w).
Proof.
  destruct static_only; [by post_step|]. post_step. eapply post_mono; [apply inspect_post|].
  intros [[]|e] w1 [-> _]; [|done]. by post_step.
Qed.

Lemma run_post static_only c data w :
  post (run fsdecode fsencode alphanumeric repo_root adapter fixture staged false static_only c data) w (fun r w' =>
    forall x, r = Ok x -> exists static dynamic, x = Some (static, dynamic) /\
      run_shows static_only data dynamic w w').
Proof.
  unfold run, run_exports. post_step. post_step. destruct (validate_scenarios scenarios_json); [|done].
  post_step. post_step. destruct self_test; cbn [require]; [|done].
  post_step. eapply post_mono; [apply post_runs|]. intros [[]|e] w0 R0; [|done]. do 3 post_step.
  destruct (load_manifest data) as [manifest|] eqn:Em; [|done].
  assert (data = JObj manifest) as ->.
  { unfold load_manifest in Em. destruct data; try done. destruct (get _ _); try done. by injection Em as ->. }
  post_step. eapply post_mono; [apply post_runs|]. intros [before|e] w1 R1; [|done].
  post_step. eapply post_mono; [apply inspect_post|]. intros r wa [-> Hi]. destruct r as [image|]; [|done].
  post_step. eapply post_mono; [apply post_runs|]. intros [commit|e] w2 R2; [|done].
  post_step. eapply post_mono; [apply inspect_post|]. intros r wa [-> Hp]. destruct r as [[]|]; [|done].
  post_step. eapply post_mono; [apply qemu_checked|]. intros [[]|e] wa ->; [|done].
  post_step. eapply post_mono; [apply inspect_post|]. intros r wa [-> Hc]. destruct r as [c'|]; [|done].
  post_step. eapply post_mono; [apply static_part_post|]. intros [[static dynamic]|e] w3 H3; [|done].
  post_step. eapply post_mono; [apply still_post|]. intros [[]|e] w4 H4; [|done]. do 2 post_step.
  intros x [= <-]. exists static, dynamic. split; [done|]. exists manifest, before, image, commit, w0, w1, w2, w3.
  split; [done|]. split; [done|]. split; [done|]. split; [done|]. split; [apply (H3 _ eq_refl)|by apply H4].
Qed.

(** The oracle's self test passes, so that a run goes on to the sample and its
    exports. *)
Lemma run_begins static_only c data n w :
  run fsdecode fsencode alphanumeric repo_root adapter fixture staged false static_only c data n w =
  (self_test_sampling fsdecode;;
   exports ← run_exports fsdecode fsencode alphanumeric repo_root adapter fixture staged static_only c data;
   mret (Some exports)) n w.
Proof.
  destruct scenarios_accepted as [x Ex]. unfold run. rewrite Ex, self_test_passes. reflexivity.
Qed.

End Props.

(** * A host

    A host on which a static run of [persistence/run-lab.py] returns: a
    tree of a few files, and a git that applies the two patches one after the
    other and takes them away in the opposite order only. *)

Definition lines (l : list string) : pystr := join [newline] (u <$> l).

Definition param_h : pystr :=
  lines ["#define MAXOPBLOCKS 10"; "#define LOGBLOCKS (MAXOPBLOCKS*3)"; "#define NBUF (MAXOPBLOCKS * 3)"].

(** The sources once both patches are applied *)
Definition guest_c : pystr :=
  lines [ "run_log("; "run_admission_empty("; "run_admission_used("; "run_same("; "run_pair("; "run_full(";
          "PERSIST META"; "PERSIST EVENT"; "PERSIST BUFFER"; "PERSIST LEDGER"; "PERSIST RESULT"; "PERSIST FULL";
          "PERSIST PASS"; "PERSIST FAIL" ].
Definition audit_h : pystr :=
  join [newline] ((u "#define PA_ABI 1" :: u "#define PA_MAX_RECORDS 512" ::
    ((fun p => u "#define PA_" ++ u p.1 ++ u " " ++ str_of_int p.2) <$> POINT))).
Definition audit_c : pystr :=
  lines [ "record_locked("; "audit.next_seq++"; "audit.count >= PA_MAX_RECORDS"; "audit.error = 1";
          "spins == 10000000"; "cacheproject_snapshot("; "persistenceaudit_command(" ].
Definition bio_c : pystr :=
  lines [ "cacheproject_partition("; "cacheproject_snapshot("; "persistenceaudit_cache_event(";
          "persistenceaudit_cache_gate(PA_CACHE_SLEEP"; "PA_CACHE_PUBLISH"; "PA_CACHE_PIN"; "PA_CACHE_UNPIN";
          "bget: no buffers" ].
Definition log_c : pystr :=
  lines [ "install_trans(int recovering)"; "bwrite(dbuf)"; "PA_LOG_HOME"; "bunpin(dbuf)"; "read_head(void)";
          "write_head(void)"; "bwrite(buf)"; "PA_LOG_CLEAR"; "PA_LOG_HEADER"; "recover_from_log(void)";
          "write_log(void)"; "bwrite(to)"; "PA_LOG_PAYLOAD"; "commit()" ].

(** The files at a level: exported, with the adapter, with the fixture too *)
Definition files (level : Z) : list (pystr * pystr) :=
  [ (u "kernel/param.h", param_h);
    (u "kernel/bio.c", if level =? 0 then u "bget: no buffers" else bio_c) ] ++
  if level =? 2 then
    [ (u "kernel/log.c", log_c); (u "kernel/persistenceaudit.h", audit_h);
      (u "kernel/persistenceaudit.c", audit_c); (u "user/persisttrace.c", guest_c) ]
  else [ (u "kernel/log.c", u "commit()") ].

Record desk : Type := { d_now : Z; d_level : Z; d_out : pybytes * Z }.

Definition answer (w : desk) (level : Z) (out : pybytes) (code : Z) : desk :=
  {| d_now := d_now w; d_level := level; d_out := (out, code) |}.

(** A change of the tree is accepted at one level only. *)
Definition step_to (w : desk) (from to : Z) : desk :=
  if d_level w =? from then answer w to [] 0 else answer w (d_level w) [] 1.

Definition numstat_of (paths : list string) : pybytes := concat ((fun p => u "1" ++ [9] ++ u "0" ++ [9] ++ u p ++ [0]) <$> paths).
Definition summary_of (paths : list string) : pybytes := concat ((fun p => u " create mode 100644 " ++ u p ++ [newline]) <$> paths).

Definition execute (command : list string) (w : desk) : desk :=
  let apply := ["git"; "apply"; "--unidiff-zero"; "--whitespace=error-all"]%string in
  let same c := bool_decide (command = c) in
  if same ["git"; "apply"; "--numstat"; "-z"; "--"; "adapter"]%string then answer w (d_level w) (numstat_of CACHE_PATCH_PATHS) 0
  else if same ["git"; "apply"; "--numstat"; "-z"; "--"; "fixture"]%string then answer w (d_level w) (numstat_of FIXTURE_PATHS) 0
  else if same ["git"; "apply"; "--summary"; "--"; "fixture"]%string then answer w (d_level w) (summary_of FIXTURE_CREATED) 0
  else if same (apply ++ ["--"; "adapter"]%string) then step_to w 0 1
  else if same (apply ++ ["--"; "fixture"]%string) then step_to w 1 2
  else if same (apply ++ ["--reverse"; "--"; "fixture"]%string) then step_to w 2 1
  else if same (apply ++ ["--reverse"; "--"; "adapter"]%string) then step_to w 1 0
  else if same ["git"; "ls-files"; "-z"; "--cached"; "--others"; "--exclude-standard"]%string
  then answer w (d_level w) (join [0] (u <$> "Makefile" :: sampled_resources) ++ [0]) 0
  else answer w (d_level w) [] 0.

Definition later (t : Z) (w : desk) : desk :=
  {| d_now := d_now w + Z.max 1 t; d_level := d_level w; d_out := d_out w |}.

#[local] Instance desk_host : Host desk := {|
  popen _ _ command w := (Ok 1, execute command w);
  monotonic w := (d_now w, w);
  sleep t w := later t w;
  poll _ w := (Some 0, w);
  wait _ _ w := (Ok 0, w);
  killpg _ _ w := (Raise ProcessLookupError, w);
  communicate _ _ w := (Ok (d_out w), w);
  select_ _ _ w := (false, later 1 w);
  os_read _ w := ([], w);
  write_in _ _ w := (Raise BrokenPipeError, w)
|}.

#[local] Instance desk_laws : HostLaws desk.
Proof.
  refine {| clock := d_now; received _ _ := []; sent _ _ := []; alive _ _ := false |}; cbn; try done; intros; lia.
Defined.

#[local] Instance desk_files : Files desk := {|
  tree_of w := Ok ((fun e => (e.1, File 420 e.2)) <$> files (d_level w));
  text_of w path := of_option OSError (lookup_key path (files (d_level w)));
  bytes_of w path := of_option OSError (lookup_key path (files (d_level w)));
  is_file w path := match lookup_key path (files (d_level w)) with Some _ => true | None => false end;
  is_symlink _ _ := false;
  stat_mode _ _ := 420;
  unlink _ w := (Ok tt, w);
  extract _ w := (Ok tt, answer w 0 [] 0)
|}.

Definition commit_id : string := "0123456789abcdef0123456789abcdef01234567".

Definition manifest : obj :=
  [ F "release" (JObj [F "baseline_commit" (J commit_id)]);
    F "units" (JList [JObj
      [ F "id" (J "core.persistence"); F "requires" (JList [J "core.filesystem"]);
        F "evidence_dimensions" (JList (J <$> ["S"; "F"; "B"; "C"; "R"]%string));
        F "resources" (JList (J <$> required_resources));
        F "source_anchors" (JList [JObj [F "path" (J "kernel/log.c"); F "symbol" (J "commit()")]]) ]]) ].

Definition idle : desk := {| d_now := 0; d_level := 0; d_out := ([], 0) |}.

Definition sample_scenarios : obj := [F "cases" (JList [JObj [F "id" (J "tx")]])].

Definition sample_export : io desk StaticExport :=
  run_static_export id (fun _ => false) manifest sample_scenarios "adapter" "fixture".

Lemma sample_export_returns : exists x w', sample_export 9%nat idle = Some (Ok x, w').
Proof. eexists _, _. vm_compute. reflexivity. Qed.

Lemma static_export_restores_witness : exists x w', runs sample_export idle (Ok x) w' /\
  static_shows (W := desk) id (fun _ => false) manifest "adapter" "fixture" idle w'.
Proof.
  destruct (static_export_restores (W := desk) id (fun _ => false) manifest sample_scenarios "adapter" "fixture" idle)
    as (r & w' & H & Hr).
  fold sample_export in H. destruct sample_export_returns as (x & w2 & E).
  destruct (runs_det _ sample_export (Mm := mono_static _ _ _ _ _ _) idle _ _ _ _ H (ex_intro _ 9%nat E)) as [-> ->].
  exists x, w2. split; [exact H|exact (Hr x eq_refl)].
Defined.

(** * A whole run, static only *)

#[local] Instance desk_repository : Repository desk := {|
  lstat_at _ path := Ok (if bool_decide (path = u "fs.img") then Absent else Regular 420 [97]);
  file_at _ _ := Ok (Some (420, [97]));
  root_there _ := true;
  exists_at _ _ := true;
  which _ _ := true;
  resolved _ path := Ok path;
  copyfile _ _ w := (Ok tt, w)
|}.

Definition sample_run : io desk (option (StaticExport * option (DynamicExport * Environment))) :=
  run id id (fun _ => false) (u "/xv6") "adapter" "fixture" "staged" false true None (JObj manifest).

Lemma sample_run_returns : exists static w', sample_run 9%nat idle = Some (Ok (Some (static, None)), w').
Proof. eexists _, _. unfold sample_run. rewrite run_begins. vm_compute. reflexivity. Qed.

