(* ===== verification/LabRuns.v ===== *)
(** The runs of [device-io/run-lab.py] and [filesystem/run-lab.py]: commands and
    the state of the shared repository, the static checks of manifest and
    sources, the QEMU session that feeds the oracle, the regressions, and the
    comparison of tree and repository at the end.

    Groups are stopped and sessions held as in [HostSession], with a wait after
    SIGKILL that has no limit. *)

From stdpp Require Import base tactics list gmap strings numbers list_numbers pretty.
From S2P Require Import Prelude PyText PyBytes PyIo PyRegex PyJson PyPath Sha256 Fsck Recover RecoverDocs SourceCheck.
From S2P Require Import FileTree HostSession SharedRepo PExport PRuns DeviceIo FsLab.
Open Scope Z_scope.

(** * Documents *)

(** [{unit["id"]: unit for unit in manifest["units"]}[id]], the last such unit *)
Definition unit_by_id (id : string) (manifest : obj) : result (option obj) :=
  units ← item manifest "units";
  units ← iterate units;
  foldM (fun found unit =>
    match unit with
    | JObj o =>
        key ← item o "id";
        if hashable key then Ok (if is_str key id then Some o else found) else Raise TypeError
    | _ => Raise TypeError
    end) None units.

(** [s in v] *)
Definition py_in (s : string) (v : json) : result bool :=
  match v with
  | JList l => Ok (existsb (fun x => is_str x s) l)
  | JStr t => Ok (contains (u s) t)
  | JObj o => Ok (match lookup_key (u s) o with Some _ => true | None => false end)
  | _ => Raise TypeError
  end.

(** [text=True]: strict UTF-8, every line end a newline *)
Definition text_mode (output : pybytes) : result pystr :=
  s ← utf8_strict None output;
  Ok (replace [cr] [newline] (replace [cr; newline] [newline] s)).

Section Labs.
Context {W : Type} `{!Host W} `{!Files W} `{!Repository W}.

(** * Commands and the shared repository *)

Definition lab_checked_env (cwd : directory) (env : list (string * string)) (command : list string) (timeout : Z)
    : io W pystr :=
  pid ← act (popen cwd env command);
  finally
    (catch
       ('(output, returncode) ← act (communicate pid (Some timeout));
        output ← lift (text_mode output);
        if returncode =? 0 then mret output
        else raise (LabError [T "command failed ("; D returncode; T "): "; V (spoken command); V [newline];
                              V (tail 8000 output)]))
       (fun e => match e with
          | TimeoutExpired => Some (raise (LabError [T "command watchdog expired: "; V (spoken command)]))
          | _ => None
          end))
    (stop_group None (Some pid)).
Definition lab_checked (cwd : directory) : list string -> Z -> io W pystr := lab_checked_env cwd [].

Definition lab_file_names : io W (list pystr) :=
  visible ← lab_checked Shared ["git"; "ls-files"; "-z"; "--cached"; "--others"; "--exclude-standard"] (seconds 300);
  ignored ← lab_checked Shared ["git"; "ls-files"; "-z"; "--others"; "--ignored"; "--exclude-standard"] (seconds 300);
  mret (sorted_strs (remove_dups (base.filter (fun item => item <> []) (split [0] visible ++ split [0] ignored)))).

(** [self_test]: the oracle, and then the sample of the repository *)
Definition lab_self_test (oracle : result Z) (sampling : list pystr -> result ()) : io W () :=
  lift oracle;;
  sampled ← lab_file_names;
  lift (sampling sampled).

(** What a name adds to the digest: nothing unless it is a file *)
Definition file_fields (w : W) (name : pystr) : result pybytes :=
  f ← file_at w name;
  Ok (match f with
      | None => []
      | Some (mode, content) => utf8_encode name ++ [0] ++ str_of_int mode ++ [0] ++ sha256 content ++ [0]
      end).

(** The digest, and the status as text *)
Definition lab_repo_state : io W (pystr * pystr) :=
  index ← lab_checked Shared ["git"; "ls-files"; "--stage"; "-z"] (seconds 300);
  names ← lab_file_names;
  w ← state;
  files ← lift (mapR (file_fields w) names);
  status ← lab_checked Shared ["git"; "status"; "--porcelain=v1"; "--untracked-files=all"; "--ignored"] (seconds 300);
  let text := strip status in
  mret (sha256 (u "INDEX" ++ [0] ++ utf8_encode index ++ [0] ++ u "FILES" ++ [0] ++ concat files ++ utf8_encode status),
        if bool_decide (text = []) then u "clean" else text).

(** [digest_or_missing(REPO_ROOT / "fs.img")] *)
Definition lab_image (w : W) : result pystr :=
  f ← file_at w (u "fs.img");
  Ok (match f with Some (_, content) => sha256 content | None => u "missing" end).

Definition lab_version (tool : string) : io W pystr :=
  output ← lab_checked Shared [tool; "--version"] (seconds 300);
  lift (of_option IndexError (head (splitlines output))).
Definition lab_environment : io W Environment :=
  w ← state;
  compiler ← lift (of_option (LabError [T "RISC-V compiler is required"]) (head (base.filter (fun c => which w c = true) compilers)));
  make ← lab_version "make";
  compiler ← lab_version compiler;
  qemu ← lab_version "qemu-system-riscv64";
  mret {| env_make := make; env_compiler := compiler; env_qemu := qemu |}.

(** [export_baseline]: [subprocess.run(..., check=True)] has no time limit. *)
Definition lab_export (commit : json) : io W () :=
  commit ← lift (of_option TypeError (as_str commit));
  pid ← act (popen Shared [] ["git"; "archive"; "--format=tar"; argument commit]);
  '(archive, code) ← act (communicate pid None);
  lift (if code =? 0 then Ok tt else Raise (CalledProcessError code));;
  act (extract archive).

(** The repository and its image have the digests of the beginning. *)
Definition unchanged (before image : pystr) (repository_changed image_changed : string) : io W () :=
  '(after, _) ← lab_repo_state;
  lift (require (bool_decide (after = before)) [T repository_changed]);;
  again ← inspect lab_image;
  lift (require (bool_decide (again = image)) [T image_changed]).

(** * Checks of sources *)

Definition check_anchor_in (w : W) (anchor : json) : result () :=
  match anchor with
  | JObj o =>
      path ← item o "path";
      path ← of_option TypeError (as_str path);
      require (is_file w path) [T "source anchor path missing: "; V path];;
      symbol ← item o "symbol";
      content ← text_of w path;
      symbol ← of_option TypeError (as_str symbol);
      require (contains symbol content) [T "source anchor missing: "; V path; T ":"; V symbol]
  | _ => Raise TypeError
  end.
Definition check_anchors_in (w : W) (unit : obj) : result () :=
  anchors ← item unit "source_anchors";
  anchors ← iterate anchors;
  foldM (fun _ => check_anchor_in w) tt anchors.

Definition source_in (w : W) (path : string) : result pystr := text_of w (u path).

(** [snapshot]: the regular files, and links to them *)
Definition plain_entry (w : W) (files : gmap pystr (Z * pystr)) (path : pystr) : result (gmap pystr (Z * pystr)) :=
  if is_file w path then content ← bytes_of w path; Ok (<[path := (stat_mode w path, sha256 content)]> files)
  else Ok files.
Definition plain_snapshot (w : W) : result (gmap pystr (Z * pystr)) :=
  t ← tree_of w; foldM (plain_entry w) ∅ (walk t).*1.

Definition patch_paths_of (patch : string) : io W (list pystr) :=
  output ← lab_checked Exported ["git"; "apply"; "--numstat"; patch] (seconds 300);
  lift (numstat_paths "bad patch numstat: " output).

Definition apply_fixture (patch : string) (reverse : bool) : io W () :=
  lab_checked Exported (["git"; "apply"; "--whitespace=error-all"] ++ (if reverse then ["--reverse"] else []) ++ [patch])
    (seconds 300);;
  mret tt.

(** [ALL TESTS PASSED] once, and no marker of the lab *)
Definition regression_passed (marker : string) (transcript : pystr) : bool :=
  (times transcript "ALL TESTS PASSED" =? 1) && lacks transcript "SOME TESTS FAILED" && lacks transcript marker.
Definition assert_regression (marker command : string) (transcript : pystr) : result () :=
  require (regression_passed marker transcript)
    [T "focused regression failed: "; T command; V [newline]; V (tail 5000 transcript)].
Definition run_lab_driver (marker : string) (arguments : list string) (cpus timeout : Z) : io W pystr :=
  output ← lab_checked_env Exported [("CPUS"%string, pretty cpus)] (["python3"; "test-xv6.py"] ++ arguments) timeout;
  lift (require (regression_passed marker output)
    [T "driver regression failed: "; V (join (u " ") (u <$> arguments))]);;
  mret output.

Definition run_commands (marker : string) (commands : list string) : io (QemuSource W) (list (string * pystr)) :=
  fold_io (fun focused c =>
    transcript ← command c;
    lift (assert_regression marker c transcript);;
    mret (focused ++ [(c, transcript)])) [] commands.

(** * Device I/O *)

Definition DEVICE_PATHS : list string :=
  [ "Makefile"; "kernel/bio.c"; "kernel/console.c"; "kernel/devaudit.c"; "kernel/devaudit.h"; "kernel/plic.c";
    "kernel/proc.c"; "kernel/syscall.c"; "kernel/syscall.h"; "kernel/sysproc.c"; "kernel/uart.c";
    "kernel/virtio_disk.c"; "user/devtrace.c"; "user/user.h"; "user/usys.pl" ].

(** The checks of manifest and sources of [static_check] *)
Definition check_device_sources (w : W) (manifest : obj) : result () :=
  unit ← unit_by_id "core.device-io" manifest;
  unit ← of_option (LabError [T "manifest is missing core.device-io"]) unit;
  requires ← item unit "requires";
  require (json_eq requires (jstrs ["core.communication-and-io"])) [T "device unit requires edge changed"];;
  dimensions ← item unit "evidence_dimensions";
  dimensions ← py_set dimensions;
  require (set_is dimensions ["S"; "F"; "B"; "C"]) [T "device unit evidence dimensions changed"];;
  check_anchors_in w unit;;
  source ← source_in w "user/devtrace.c";
  require_each source "guest oracle token missing: "
    [ "console_case("; "disk_case("; "queue_case("; "DEV CONSOLE_WAIT"; "DEV DISK"; "DEV QUEUE"; "DEV PASS";
      "condition_before"; "lock_errors" ];;
  driver ← source_in w "kernel/virtio_disk.c";
  require_each driver "driver audit seam missing: "
    [ "devaudit_disk_program"; "devaudit_disk_publish"; "devaudit_disk_notify"; "devaudit_disk_complete";
      "virtio_disk_audit_release"; "virtio_disk_audit_ledger" ];;
  bio ← source_in w "kernel/bio.c";
  require (has bio "bioauditrefs") [T "buffer reference ledger seam missing"].

Definition device_self_test : io W () := lab_self_test DeviceIo.self_test DeviceIo.sampling.

Definition device_static (manifest : obj) (patch : string) : io W () :=
  device_self_test;;
  paths ← patch_paths_of patch;
  lift (require (same_set paths (u <$> DEVICE_PATHS))
    [T "device fixture scope differs from the fifteen declared paths"]);;
  inspect (fun w => check_device_sources w manifest);;
  lab_checked Exported ["make"; "-j2"; "kernel/kernel"; "user/_devtrace"] (seconds 300);;
  mret tt.

(** [qemu.console_trace()]: input is typed once the guest waits for it. *)
Definition console_trace : io (QemuSource W) pystr :=
  s ← state;
  let start := len (output s) in
  send "devtrace console";;
  wait_for (bytes_of_string " seq=1" ++ [newline]) start;;
  send "D14-input";;
  wait_for prompt start;;
  transcript_from start.

Definition device_session : io (QemuSource W) (pystr * pystr * pystr * list (string * pystr)) :=
  console ← console_trace;
  disk ← command "devtrace disk";
  queue ← command "devtrace queue";
  lift (validate_devtrace console disk queue);;
  focused ← run_commands "DEV " ["usertests pipe1"; "usertests writebig"; "usertests bigfile"; "usertests manywrites"];
  mret (console, disk, queue, focused).

(** The tree is restored and compared. *)
Definition restore (patch : string) (original : gmap pystr (Z * pystr)) (failed : string) : io W () :=
  lab_checked Exported ["make"; "clean"] (seconds 120);;
  apply_fixture patch true;;
  restored ← inspect plain_snapshot;
  lift (require (bool_decide (restored = original)) [T failed]).

Definition device_run (manifest : obj) (patch : string) (static_only : bool)
    : io W (option (pystr * pystr * pystr)) :=
  original ← inspect plain_snapshot;
  lab_checked Exported ["git"; "apply"; "--check"; "--whitespace=error-all"; patch] (seconds 300);;
  apply_fixture patch false;;
  device_static manifest patch;;
  if static_only then restore patch original "static-only fixture did not reverse to baseline";; mret None else
  lab_checked Exported ["make"; "-j2"; "fs.img"] (seconds 300);;
  '(console, disk, queue, _) ← with_source None 2 (seconds 240) device_session;
  run_lab_driver "DEV " ["-q"; "usertests"] 2 (seconds 420);;
  run_lab_driver "DEV " ["usertests"] 1 (seconds 780);;
  restore patch original "temporary source did not restore exactly";;
  mret (Some (console, disk, queue)).

(** The tools, and the exported tree *)
Definition lab_setup (static_only : bool) (baseline : json) : io W () :=
  (if static_only then mret tt else lab_environment;; mret tt);;
  lab_export baseline.

(** [main] without a report: the self test alone, or a run between two looks at
    the shared repository *)
Definition lab_main {A} (selftest : io W ()) (missing : string) (run : bool -> io W (option A))
    (self_test_only static_only : bool) (manifest : obj) (patch : string) : io W (option A) :=
  if self_test_only then selftest;; mret None else
  inspect (fun w => f ← there w patch; require f [T missing]);;
  (if static_only then mret tt else
     inspect (fun w => require (which w "qemu-system-riscv64") [T "qemu-system-riscv64 is required"]));;
  baseline ← lift (release_commit manifest);
  lab_checked Shared ["git"; "rev-parse"; "HEAD"] (seconds 300);;
  '(before, _) ← lab_repo_state;
  image ← inspect lab_image;
  lab_setup static_only baseline;;
  traces ← run static_only;
  (if static_only
   then unchanged before image "shared repository changed during static-only run"
          "shared fs.img changed during static-only run"
   else unchanged before image "shared repository content, mode, or index changed during run"
          "shared fs.img changed during isolated run");;
  mret traces.

Definition device_main (self_test_only static_only : bool) (manifest : obj) (patch : string) : io W (option (pystr * pystr * pystr)) :=
  lab_main device_self_test "missing device-audit.patch" (device_run manifest patch) self_test_only static_only manifest patch.

(** * File system *)

Definition FILESYSTEM_PATHS : list string :=
  [ "Makefile"; "kernel/bio.c"; "kernel/defs.h"; "kernel/file.c"; "kernel/fs.c"; "kernel/fsaudit.c";
    "kernel/fsaudit.h"; "kernel/main.c"; "kernel/syscall.c"; "kernel/syscall.h"; "kernel/sysfile.c";
    "kernel/sysproc.c"; "user/fstrace.c"; "user/user.h"; "user/usys.pl" ].

Definition check_manifest_anchors (w : W) (manifest : obj) : result () :=
  unit ← unit_by_id "core.filesystem" manifest;
  unit ← of_option (LabError [T "manifest is missing core.filesystem"]) unit;
  requires ← item unit "requires";
  require (json_eq requires (jstrs ["core.device-io"])) [T "filesystem unit requires edge changed"];;
  dimensions ← item unit "evidence_dimensions";
  dimensions ← py_set dimensions;
  require (set_is dimensions ["S"; "F"; "B"]) [T "filesystem evidence dimensions changed"];;
  let failed := [T "filesystem resources are not manifest-authoritative"] in
  resources ← item unit "resources";
  patch ← py_in "resources/filesystem/filesystem-audit.patch" resources;
  require patch failed;;
  runner ← py_in "resources/filesystem/run-lab.py" resources;
  require runner failed;;
  check_anchors_in w unit.

Definition audit_hooks : list (string * list string) :=
  [ ("kernel/fs.c", ["fsaudit_balloc_fail"; "fsaudit_dirlink_fail"; "fsaudit_path_step"; "fs_audit_inode";
                     "fs_audit_counts"]);
    ("kernel/fsaudit.c", ["fsaudit_command"; "inspect_fd"; "audit.lock"]);
    ("kernel/file.c", ["fsaudit_event"; "file_audit_counts"]);
    ("kernel/bio.c", ["bio_audit_counts"]) ]%string.

Definition check_filesystem_sources (w : W) (manifest : obj) : result () :=
  check_manifest_anchors w manifest;;
  guest ← source_in w "user/fstrace.c";
  require_each guest "guest oracle token missing: "
    [ "case_rw("; "case_link("; "case_trunc("; "case_fdfail("; "case_linkfail("; "case_allocfail("; "FS BASE"; "FS PASS" ];;
  foldM (fun _ hook =>
    source ← source_in w hook.1;
    require_each source (String.append "filesystem audit seam missing: " (String.append hook.1 ":")) hook.2) tt audit_hooks.

Definition filesystem_self_test : io W () := lab_self_test FsLab.self_test FsLab.sampling.

Definition filesystem_static (manifest : obj) (patch : string) : io W () :=
  filesystem_self_test;;
  paths ← patch_paths_of patch;
  lift (require (same_set paths (u <$> FILESYSTEM_PATHS))
    [T "filesystem fixture scope differs from the fifteen declared paths"]);;
  inspect (fun w => check_filesystem_sources w manifest);;
  lab_checked Exported ["make"; "-j2"; "kernel/kernel"; "user/_fstrace"] (seconds 300);;
  mret tt.

Definition filesystem_session : io (QemuSource W) (pystr * list (string * pystr)) :=
  trace ← command "fstrace";
  lift (validate_fstrace trace);;
  focused ← run_commands "FS "
    [ "usertests unlinkread"; "usertests linktest"; "usertests createdelete"; "usertests subdir";
      "usertests dirfile"; "usertests iref"; "usertests writebig"; "usertests bigfile" ];
  mret (trace, focused).

Definition filesystem_run (manifest : obj) (patch : string) (static_only : bool)
    : io W (option pystr) :=
  original ← inspect plain_snapshot;
  inspect (fun w => check_manifest_anchors w manifest);;
  lab_checked Exported ["git"; "apply"; "--check"; "--whitespace=error-all"; patch] (seconds 300);;
  apply_fixture patch false;;
  filesystem_static manifest patch;;
  if static_only then restore patch original "static-only fixture did not reverse to baseline";; mret None else
  lab_checked Exported ["make"; "-j2"; "fs.img"] (seconds 300);;
  '(trace, _) ← with_source None 1 (seconds 240) filesystem_session;
  run_lab_driver "FS " ["-q"; "usertests"] 2 (seconds 420);;
  run_lab_driver "FS " ["usertests"] 1 (seconds 780);;
  restore patch original "temporary source did not restore exactly";;
  mret (Some trace).

Definition filesystem_main (self_test_only static_only : bool) (manifest : obj) (patch : string) : io W (option pystr) :=
  lab_main filesystem_self_test "missing filesystem-audit.patch" (filesystem_run manifest patch) self_test_only static_only manifest patch.
End Labs.
