(* ===== verification/LabRunsProps.v ===== *)
(** What the runs of [LabRuns] guarantee when they return: the patch stayed in
    its scope, the sources were accepted, the guest's own transcripts passed the
    oracle, the files of the tree are as they were, and so is the shared
    repository. *)

From stdpp Require Import base tactics list gmap strings numbers list_numbers pretty sorting.
From S2P Require Import Prelude PyText PyBytes PyIo PyRegex PyJson PyPath Sha256 SourceCheck PSelf.
From S2P Require Import FileTree HostSession HostProps SharedRepo PExport PRuns PRunsProps DeviceIo FsLab LabRuns.
Open Scope Z_scope.

#[local] Opaque DeviceIo.self_test FsLab.self_test validate_devtrace validate_fstrace.
#[global] Typeclasses Opaque device_static filesystem_static device_session filesystem_session device_run
  filesystem_run restore console_trace run_commands run_lab_driver patch_paths_of apply_fixture
  lab_checked_env lab_checked lab_file_names lab_repo_state lab_version lab_environment lab_export unchanged lab_main
  lab_self_test device_self_test filesystem_self_test lab_setup.

Section Props.
Context {W : Type} `{!Host W} `{!Files W} `{!Repository W}.

#[global] Instance mono_lab_env d e c t : Mono (lab_checked_env (W := W) d e c t).
Proof. unfold lab_checked_env. by_parts. Qed.
#[global] Instance mono_lab_checked d c t : Mono (lab_checked (W := W) d c t).
Proof. unfold lab_checked. by_parts. Qed.
#[global] Instance mono_lab_names : Mono (lab_file_names (W := W)).
Proof. unfold lab_file_names. by_parts. Qed.
#[global] Instance mono_lab_state : Mono (lab_repo_state (W := W)).
Proof. unfold lab_repo_state. by_parts. Qed.
#[global] Instance mono_lab_version c : Mono (lab_version (W := W) c).
Proof. unfold lab_version. by_parts. Qed.
#[global] Instance mono_lab_environment : Mono (lab_environment (W := W)).
Proof. unfold lab_environment. by_parts. Qed.
#[global] Instance mono_lab_export c : Mono (lab_export (W := W) c).
Proof. unfold lab_export. by_parts. Qed.
#[global] Instance mono_unchanged b i m n : Mono (unchanged (W := W) b i m n).
Proof. unfold unchanged. by_parts. Qed.
#[global] Instance mono_paths_of p : Mono (patch_paths_of (W := W) p).
Proof. unfold patch_paths_of. by_parts. Qed.
#[global] Instance mono_fixture p r : Mono (apply_fixture (W := W) p r).
Proof. unfold apply_fixture. by_parts. Qed.
#[global] Instance mono_lab_driver m a c t : Mono (run_lab_driver (W := W) m a c t).
Proof. unfold run_lab_driver. by_parts. Qed.
#[global] Instance mono_commands m cs : Mono (run_commands (W := W) m cs).
Proof. unfold run_commands. apply mono_fold. intros. by_parts. Qed.
#[global] Instance mono_console : Mono (console_trace (W := W)).
Proof. unfold console_trace, send. by_parts. Qed.
#[global] Instance mono_device_session : Mono (device_session (W := W)).
Proof. unfold device_session. by_parts. Qed.
#[global] Instance mono_filesystem_session : Mono (filesystem_session (W := W)).
Proof. unfold filesystem_session. by_parts. Qed.
#[global] Instance mono_restore p o f : Mono (restore (W := W) p o f).
Proof. unfold restore. by_parts. Qed.
#[global] Instance mono_self_test o s : Mono (lab_self_test (W := W) o s).
Proof. unfold lab_self_test. by_parts. Qed.
#[global] Instance mono_device_self : Mono (device_self_test (W := W)).
Proof. unfold device_self_test. by_parts. Qed.
#[global] Instance mono_filesystem_self : Mono (filesystem_self_test (W := W)).
Proof. unfold filesystem_self_test. by_parts. Qed.
#[global] Instance mono_setup b c : Mono (lab_setup (W := W) b c).
Proof. unfold lab_setup. by_parts. Qed.
#[global] Instance mono_device_static m p : Mono (device_static (W := W) m p).
Proof. unfold device_static. by_parts. Qed.
#[global] Instance mono_filesystem_static m p : Mono (filesystem_static (W := W) m p).
Proof. unfold filesystem_static. by_parts. Qed.
#[global] Instance mono_device_run m p b : Mono (device_run (W := W) m p b).
Proof. unfold device_run. by_parts. Qed.
#[global] Instance mono_filesystem_run m p b : Mono (filesystem_run (W := W) m p b).
Proof. unfold filesystem_run. by_parts. Qed.
#[global] Instance mono_lab_main A s m (run : bool -> io W (option A)) b c d p :
  Mono s -> (forall b, Mono (run b)) -> Mono (lab_main s m run b c d p).
Proof. intros. unfold lab_main. by_parts. Qed.

Context `{!HostLaws W}.

#[global] Instance total_lab_env d e c t : Total (lab_checked_env (W := W) d e c t).
Proof. unfold lab_checked_env. by_parts. Qed.
#[global] Instance total_lab_checked d c t : Total (lab_checked (W := W) d c t).
Proof. unfold lab_checked. by_parts. Qed.
#[global] Instance total_lab_names : Total (lab_file_names (W := W)).
Proof. unfold lab_file_names. by_parts. Qed.
#[global] Instance total_lab_state : Total (lab_repo_state (W := W)).
Proof. unfold lab_repo_state. by_parts. Qed.
#[global] Instance total_lab_version c : Total (lab_version (W := W) c).
Proof. unfold lab_version. by_parts. Qed.
#[global] Instance total_lab_environment : Total (lab_environment (W := W)).
Proof. unfold lab_environment. by_parts. Qed.
#[global] Instance total_lab_export c : Total (lab_export (W := W) c).
Proof. unfold lab_export. by_parts. Qed.
#[global] Instance total_unchanged b i m n : Total (unchanged (W := W) b i m n).
Proof. unfold unchanged. by_parts. Qed.
#[global] Instance total_paths_of p : Total (patch_paths_of (W := W) p).
Proof. unfold patch_paths_of. by_parts. Qed.
#[global] Instance total_fixture p r : Total (apply_fixture (W := W) p r).
Proof. unfold apply_fixture. by_parts. Qed.
#[global] Instance total_lab_driver m a c t : Total (run_lab_driver (W := W) m a c t).
Proof. unfold run_lab_driver. by_parts. Qed.
#[global] Instance total_commands m cs : Total (run_commands (W := W) m cs).
Proof. unfold run_commands. apply total_fold; intros; by_parts. Qed.
#[global] Instance total_console : Total (console_trace (W := W)).
Proof. unfold console_trace, send. by_parts. Qed.
#[global] Instance total_device_session : Total (device_session (W := W)).
Proof. unfold device_session. by_parts. Qed.
#[global] Instance total_filesystem_session : Total (filesystem_session (W := W)).
Proof. unfold filesystem_session. by_parts. Qed.
#[global] Instance total_restore p o f : Total (restore (W := W) p o f).
Proof. unfold restore. by_parts. Qed.
#[global] Instance total_self_test o s : Total (lab_self_test (W := W) o s).
Proof. unfold lab_self_test. by_parts. Qed.
#[global] Instance total_device_self : Total (device_self_test (W := W)).
Proof. unfold device_self_test. by_parts. Qed.
#[global] Instance total_filesystem_self : Total (filesystem_self_test (W := W)).
Proof. unfold filesystem_self_test. by_parts. Qed.
#[global] Instance total_setup b c : Total (lab_setup (W := W) b c).
Proof. unfold lab_setup. by_parts. Qed.
#[global] Instance total_device_static m p : Total (device_static (W := W) m p).
Proof. unfold device_static. by_parts. Qed.
#[global] Instance total_filesystem_static m p : Total (filesystem_static (W := W) m p).
Proof. unfold filesystem_static. by_parts. Qed.
#[global] Instance total_device_run m p b : Total (device_run (W := W) m p b).
Proof. unfold device_run. by_parts. Qed.
#[global] Instance total_filesystem_run m p b : Total (filesystem_run (W := W) m p b).
Proof. unfold filesystem_run. by_parts. Qed.
#[global] Instance total_lab_main A s m (run : bool -> io W (option A)) b c d p :
  Mono s -> Total s -> (forall b, Mono (run b)) -> (forall b, Total (run b)) -> Total (lab_main s m run b c d p).
Proof. intros. unfold lab_main. by_parts. Qed.

(** * Sessions *)

(** The session keeps its process, and a result satisfies [P]. *)
Definition session {A} (P : A -> Prop) (s : QemuSource W) (r : result A) (s1 : QemuSource W) : Prop :=
  process s1 = process s /\ forall a, r = Ok a -> P a.

Lemma session_seq A B (m : io (QemuSource W) A) (f : A -> io (QemuSource W) B) (P : A -> Prop) (Q : B -> Prop) s :
  post m s (session P s) -> (forall a s1, P a -> post (f a) s1 (session Q s1)) -> post (m ≫= f) s (session Q s).
Proof.
  intros Hm Hf. post_step. eapply post_mono; [apply Hm|]. intros [a|e] s1 [E H]; [|by split].
  eapply post_mono; [apply Hf; by apply H|]. intros r s2 [E2 H2]. split; [congruence|done].
Qed.

Lemma session_command c s : post (command c) s (session (fun _ => True) s).
Proof. eapply post_mono; [apply command_post|]. intros r s1 (new & (E & _) & _). by split. Qed.
Lemma session_wait k n s : post (wait_for k n) s (session (fun _ => True) s).
Proof. eapply post_mono; [apply wait_for_post|]. intros r s1 (new & (_ & E & _) & _). by split. Qed.
Lemma session_send c s : post (send c) s (session (fun _ => True) s).
Proof. unfold send, write. do 2 post_step. apply post_on_host. by post_step. Qed.
Lemma session_result A (r : result A) (P : A -> Prop) s : (forall a, r = Ok a -> P a) -> post (lift r) s (session P s).
Proof. intros H. by post_step. Qed.

Lemma session_commands m cs s : post (run_commands m cs) s (session (fun _ => True) s).
Proof.
  unfold run_commands. apply (post_fold _ (fun _ _ s1 => process s1 = process s)); [|by split|done].
  intros _ c l s1 _ E. apply (post_mono _ _ _ (session (fun _ => True) s1)).
  - apply (session_seq _ _ _ _ (fun _ => True)); [apply session_command|intros t s2 _].
    apply (session_seq _ _ _ _ (fun _ => True)); [by apply session_result|intros _ s3 _]. by post_step.
  - intros r s2 [E2 _]. destruct r; [congruence|]. split; [congruence|done].
Qed.

Lemma session_console s : post console_trace s (session (fun _ => True) s).
Proof.
  unfold console_trace. do 2 post_step.
  apply (session_seq _ _ _ _ (fun _ => True)); [apply session_send|intros _ s1 _].
  apply (session_seq _ _ _ _ (fun _ => True)); [apply session_wait|intros _ s2 _].
  apply (session_seq _ _ _ _ (fun _ => True)); [apply session_send|intros _ s3 _].
  apply (session_seq _ _ _ _ (fun _ => True)); [apply session_wait|intros _ s4 _].
  unfold transcript_from. by do 3 post_step.
Qed.

Lemma device_session_post s : post device_session s
  (session (fun a => exists x, validate_devtrace a.1.1.1 a.1.1.2 a.1.2 = Ok x) s).
Proof.
  unfold device_session.
  apply (session_seq _ _ _ _ (fun _ => True)); [apply session_console|intros console s1 _].
  apply (session_seq _ _ _ _ (fun _ => True)); [apply session_command|intros disk s2 _].
  apply (session_seq _ _ _ _ (fun _ => True)); [apply session_command|intros queue s3 _].
  apply (session_seq _ _ _ _ (fun _ => exists x, validate_devtrace console disk queue = Ok x));
    [apply session_result; eauto|intros x s4 Hx].
  apply (session_seq _ _ _ _ (fun _ => True)); [apply session_commands|intros focused s5 _].
  post_step. split; [done|]. intros a [= <-]. exact Hx.
Qed.

Lemma filesystem_session_post s : post filesystem_session s
  (session (fun a => exists x, validate_fstrace a.1 = Ok x) s).
Proof.
  unfold filesystem_session.
  apply (session_seq _ _ _ _ (fun _ => True)); [apply session_command|intros trace s1 _].
  apply (session_seq _ _ _ _ (fun _ => exists x, validate_fstrace trace = Ok x));
    [apply session_result; eauto|intros x s2 Hx].
  apply (session_seq _ _ _ _ (fun _ => True)); [apply session_commands|intros focused s3 _].
  post_step. split; [done|]. intros a [= <-]. exact Hx.
Qed.

(** * Runs

    Every statement below is about the states the run goes through: the state
    that one part leaves is the one the next part starts from. *)

(** The fixture is applied. *)
Definition lab_apply (patch : string) : io W () :=
  lab_checked Exported ["git"; "apply"; "--check"; "--whitespace=error-all"; patch] (seconds 300);;
  apply_fixture patch false.

(** The static part from [w] to [w']: the self test passed, the patch changes
    exactly these files, as git lists them then, the check accepted the tree as
    it is then, and it was built. *)
Definition statically_checked (selftest : io W ()) (patch : string) (paths : list string) (check : W -> result ())
    (program : string) (w w' : W) : Prop :=
  exists w1 w2 listed built,
    runs selftest w (Ok tt) w1 /\
    runs (patch_paths_of patch) w1 (Ok listed) w2 /\ (forall p, p ∈ listed <-> p ∈ u <$> paths) /\
    check w2 = Ok tt /\
    runs (lab_checked Exported ["make"; "-j2"; "kernel/kernel"; program] (seconds 300)) w2 (Ok built) w'.

Lemma static_parts selftest patch paths m (check : W -> result ()) program w :
  post (selftest;; listed ← patch_paths_of patch; lift (require (same_set listed (u <$> paths)) m);;
        inspect check;; lab_checked Exported ["make"; "-j2"; "kernel/kernel"; program] (seconds 300);; mret tt) w
    (fun r w' => r = Ok tt -> statically_checked selftest patch paths check program w w').
Proof.
  post_step. eapply post_mono; [apply post_runs|]. intros [[]|e] w1 H1; [|done].
  post_step. eapply post_mono; [apply post_runs|]. intros [listed|e] w2 H2; [|done].
  post_step. post_step. destruct (same_set _ _) eqn:E; cbn [require]; [|done].
  post_step. eapply post_mono; [apply inspect_post|]. intros rc w3 [-> Hc].
  destruct rc as [[]|]; [|done]. post_step. eapply post_mono; [apply post_runs|]. intros [built|e] w4 H4; [|done].
  post_step. intros _. exists w1, w2, listed, built. split; [done|]. split; [done|].
  split; [by apply same_set_iff|done].
Qed.

Lemma restore_post patch original failed w : post (restore patch original failed) w (fun r w1 =>
  r = Ok tt -> plain_snapshot w1 = Ok original).
Proof.
  unfold restore. post_step. intros [x|e] w1 _; [|done]. post_step. intros [[]|e] w2 _; [|done].
  post_step. eapply post_mono; [apply inspect_post|]. intros [o|e] w3 [-> Hs]; [|done].
  post_step. case_bool_decide as E; cbn [require]; [|done]. intros _. by rewrite <- E.
Qed.

(** The dynamic part from [w] to [w']: the image was built, the session returned
    the value [a], and both drivers reported that the tests passed. *)
Definition dynamically_checked {A} (marker : string) (cpus : Z) (body : io (QemuSource W) A) (a : A) (w w' : W) : Prop :=
  exists w1 w2 w3 image quick full,
    runs (lab_checked Exported ["make"; "-j2"; "fs.img"] (seconds 300)) w (Ok image) w1 /\
    runs (with_source None cpus (seconds 240) body) w1 (Ok a) w2 /\
    runs (run_lab_driver marker ["-q"; "usertests"] 2 (seconds 420)) w2 (Ok quick) w3 /\
    regression_passed marker quick = true /\
    runs (run_lab_driver marker ["usertests"] 1 (seconds 780)) w3 (Ok full) w' /\
    regression_passed marker full = true.

Lemma lab_driver_post marker arguments cpus t w : post (run_lab_driver marker arguments cpus t) w (fun r w1 =>
  runs (run_lab_driver marker arguments cpus t) w r w1 /\ forall out, r = Ok out -> regression_passed marker out = true).
Proof.
  intros r w1 H. split; [done|]. revert r w1 H. change (post (run_lab_driver marker arguments cpus t) w
    (fun r _ => forall out, r = Ok out -> regression_passed marker out = true)).
  unfold run_lab_driver. post_step. intros [out|e] w1 _; [|done]. post_step. post_step.
  destruct (regression_passed marker out) eqn:E; cbn [require]; [|done]. post_step. by intros o [= <-].
Qed.

(** The end of every run: the tree is as it was. *)
Definition put_back (patch : string) (files : gmap pystr (Z * pystr)) (w w' : W) : Prop :=
  (exists failed, runs (restore patch files failed) w (Ok tt) w') /\ plain_snapshot w' = Ok files.

Lemma ending_post B patch original failed (b : B) w : post (restore patch original failed;; mret b) w
  (fun r w' => forall x, r = Ok x -> x = b /\ put_back patch original w w').
Proof.
  post_step. intros [[]|e] w1 H1; [|done]. pose proof (restore_post _ _ _ _ _ _ H1 eq_refl) as Hs. post_step.
  intros x [= <-]. split; [done|]. split; [by exists failed|done].
Qed.

Lemma dynamic_parts A B marker cpus (body : io (QemuSource W) A) patch original failed (view : A -> B)
    (k : A -> io W (option B)) w :
  (forall a, k a = (run_lab_driver marker ["-q"; "usertests"] 2 (seconds 420);;
                    run_lab_driver marker ["usertests"] 1 (seconds 780);;
                    restore patch original failed;; mret (Some (view a)))) ->
  post (lab_checked Exported ["make"; "-j2"; "fs.img"] (seconds 300);; with_source None cpus (seconds 240) body ≫= k) w
  (fun r w' => forall b, r = Ok b -> exists a w1, b = Some (view a) /\
     dynamically_checked marker cpus body a w w1 /\ put_back patch original w1 w').
Proof.
  intros Hk. post_step. eapply post_mono; [apply post_runs|]. intros [image|e] w1 H1; [|done].
  post_step. eapply post_mono; [apply post_runs|]. intros [a|e] w2 H2; [|done]. rewrite Hk.
  post_step. eapply post_mono; [apply lab_driver_post|]. intros [quick|e] w3 [H3 Q]; [|done].
  post_step. eapply post_mono; [apply lab_driver_post|]. intros [full|e] w4 [H4 F]; [|done].
  eapply post_mono; [apply ending_post|]. intros r w5 H5 b E. destruct (H5 b E) as [-> H].
  exists a, w4. split; [done|]. split; [|done]. exists w1, w2, w3, image, quick, full.
  repeat (split; [by eauto|]). by apply F.
Qed.

(** A run on the exported tree, from [w] to [w']: the fixture was applied, the
    tree was checked, and at the end its files have the modes and digests they
    had at the start. *)
Definition tree_checked (patch : string) (static dynamic : W -> W -> Prop) (w w' : W) : Prop :=
  exists files w1 w2 w3, plain_snapshot w = Ok files /\
    runs (lab_apply patch) w (Ok tt) w1 /\ static w1 w2 /\ dynamic w2 w3 /\ put_back patch files w3 w'.

(** The device lab: unless only the static part was asked for, the three
    transcripts the session returned passed the oracle. *)
Definition device_checked (manifest : obj) (patch : string) (static_only : bool) (a : option (pystr * pystr * pystr)) :
    W -> W -> Prop :=
  tree_checked patch
    (statically_checked device_self_test patch DEVICE_PATHS (fun w => check_device_sources w manifest) "user/_devtrace")
    (fun w w' =>
       match a with
       | None => static_only = true /\ w' = w
       | Some (console, disk, queue) => static_only = false /\
           (exists x, validate_devtrace console disk queue = Ok x) /\
           exists focused, dynamically_checked "DEV " 2 device_session (console, disk, queue, focused) w w'
       end).

Definition filesystem_checked (manifest : obj) (patch : string) (static_only : bool) (a : option pystr) : W -> W -> Prop :=
  tree_checked patch
    (statically_checked filesystem_self_test patch FILESYSTEM_PATHS (fun w => check_filesystem_sources w manifest) "user/_fstrace")
    (fun w w' =>
       match a with
       | None => static_only = true /\ w' = w
       | Some trace => static_only = false /\ (exists x, validate_fstrace trace = Ok x) /\
           exists focused, dynamically_checked "FS " 1 filesystem_session (trace, focused) w w'
       end).

Lemma session_validated A (P : A -> Prop) marker cpus (body : io (QemuSource W) A) a w w' :
  (forall s, post body s (session P s)) -> dynamically_checked marker cpus body a w w' -> P a.
Proof.
  intros Hb (w1 & w2 & w3 & i & q & f & _ & H & _).
  by apply (with_post _ _ _ _ _ _ _ Hb _ _ H a eq_refl).
Qed.

Lemma apply_first B patch (k : io W B) w (Q : result B -> W -> Prop) :
  (forall w1, runs (lab_apply patch) w (Ok tt) w1 -> post k w1 Q) -> (forall e w1, Q (Raise e) w1) ->
  post (lab_checked Exported ["git"; "apply"; "--check"; "--whitespace=error-all"; patch] (seconds 300);;
        apply_fixture patch false;; k) w Q.
Proof.
  intros Hk HQ. post_step. eapply post_mono; [apply post_runs|]. intros [x|e] w1 H1; [|done].
  post_step. eapply post_mono; [apply post_runs|]. intros [[]|e] w2 H2; [|done]. apply Hk.
  unfold lab_apply. apply runs_bind_ok; [apply _..|]. by exists x, w1.
Qed.

Lemma device_run_post manifest patch static_only w :
  post (device_run manifest patch static_only) w (fun r w' => forall a, r = Ok a ->
    device_checked manifest patch static_only a w w').
Proof.
  unfold device_run, device_static. post_step. eapply post_mono; [apply inspect_post|].
  intros r w0 [-> Hs]. destruct r as [original|]; [|done]. apply apply_first; [|done]. intros w1 H1.
  post_step. eapply post_mono; [apply static_parts|].
  intros [[]|e] w2 H2; [|done]. specialize (H2 eq_refl). destruct static_only.
  - eapply post_mono; [apply ending_post|]. intros r w3 H3 a E. destruct (H3 a E) as [-> Hb].
    exists original, w1, w2, w2. by repeat (split; [done|]).
  - eapply post_mono; [apply (dynamic_parts _ _ "DEV " 2 device_session patch original
      "temporary source did not restore exactly" (fun x => x.1)); by intros [[[]]]|].
    intros r w3 H3 a E. destruct (H3 a E) as ([[[console disk] queue] focused] & w4 & -> & Hd & Hb).
    exists original, w1, w2, w4. split; [done|]. split; [done|]. split; [done|]. split; [|done]. split; [done|].
    split; [|by exists focused]. exact (session_validated _ _ _ _ _ _ _ _ device_session_post Hd).
Qed.

Lemma filesystem_run_post manifest patch static_only w :
  post (filesystem_run manifest patch static_only) w (fun r w' => forall a, r = Ok a ->
    check_manifest_anchors w manifest = Ok tt /\ filesystem_checked manifest patch static_only a w w').
Proof.
  unfold filesystem_run, filesystem_static. post_step. eapply post_mono; [apply inspect_post|].
  intros r w0 [-> Hs]. destruct r as [original|]; [|done]. post_step. eapply post_mono; [apply inspect_post|].
  intros r wa [-> Ha]. destruct r as [[]|]; [|done]. apply apply_first; [|done]. intros w1 H1.
  post_step. eapply post_mono; [apply static_parts|].
  intros [[]|e] w2 H2; [|done]. specialize (H2 eq_refl). destruct static_only.
  - eapply post_mono; [apply ending_post|]. intros r w3 H3 a E. destruct (H3 a E) as [-> Hb]. split; [done|].
    exists original, w1, w2, w2. by repeat (split; [done|]).
  - eapply post_mono; [apply (dynamic_parts _ _ "FS " 1 filesystem_session patch original
      "temporary source did not restore exactly" (fun x => x.1)); by intros []|].
    intros r w3 H3 a E. destruct (H3 a E) as ([trace focused] & w4 & -> & Hd & Hb). split; [done|].
    exists original, w1, w2, w4. split; [done|]. split; [done|]. split; [done|]. split; [|done]. split; [done|].
    split; [|by exists focused]. exact (session_validated _ _ _ _ _ _ _ _ filesystem_session_post Hd).
Qed.

(** * Whole runs *)

(** A look at the shared repository from [w] to [w'] finds this digest and this
    image. *)
Definition lab_looks (digest image : pystr) (w w' : W) : Prop :=
  (exists status, runs lab_repo_state w (Ok (digest, status)) w') /\ lab_image w' = Ok image.

(** A whole run from [w] to [w']: a look at the shared repository, the tools and
    the exported tree, the checks on it, and a look that finds the same digest
    and the same image, after which nothing is done. *)
Definition lab_keeps (static_only : bool) (manifest : obj) (checks : W -> W -> Prop) (w w' : W) : Prop :=
  exists baseline commit digest image w1 w2 w3 w4,
    release_commit manifest = Ok baseline /\
    runs (lab_checked Shared ["git"; "rev-parse"; "HEAD"] (seconds 300)) w (Ok commit) w1 /\
    lab_looks digest image w1 w2 /\
    runs (lab_setup static_only baseline) w2 (Ok tt) w3 /\
    checks w3 w4 /\
    lab_looks digest image w4 w'.

Lemma unchanged_post before image m n w : post (unchanged before image m n) w (fun r w' =>
  r = Ok tt -> lab_looks before image w w').
Proof.
  unfold unchanged. post_step. eapply post_mono; [apply post_runs|]. intros [[after status]|e] w1 R; [|done].
  post_step. post_step. case_bool_decide as E; cbn [require]; [|done]. subst after.
  post_step. eapply post_mono; [apply inspect_post|]. intros r w2 [-> H]. destruct r as [again|]; [|done].
  post_step. case_bool_decide as E; cbn [require]; [|done]. subst again. intros _. split; [by exists status|done].
Qed.

Lemma lab_main_post A s m (run : bool -> io W (option A)) static_only manifest patch w (P : option A -> W -> W -> Prop) :
  (forall w1, post (run static_only) w1 (fun r w2 => forall a, r = Ok a -> P a w1 w2)) ->
  post (lab_main s m run false static_only manifest patch) w (fun r w' => forall a, r = Ok a ->
    lab_keeps static_only manifest (P a) w w').
Proof.
  intros Hr. unfold lab_main. post_step. eapply post_mono; [apply inspect_post|]. intros [[]|e] wa [-> _]; [|done].
  post_step. apply (post_mono _ _ _ (fun _ w1 => w1 = w)).
  { destruct static_only; [by post_step|]. eapply post_mono; [apply inspect_post|]. by intros r w1 [-> _]. }
  intros [[]|e] wa ->; [|done]. post_step. post_step. destruct (release_commit manifest) as [baseline|] eqn:Eb; [|done].
  post_step. eapply post_mono; [apply post_runs|]. intros [commit|e] w1 R1; [|done].
  post_step. eapply post_mono; [apply post_runs|]. intros [[before status]|e] w2 R2; [|done].
  post_step. eapply post_mono; [apply inspect_post|]. intros r wa [-> Hi]. destruct r as [image|]; [|done].
  post_step. eapply post_mono; [apply post_runs|]. intros [[]|e] w3 R3; [|done].
  post_step. eapply post_mono; [apply Hr|]. intros [traces|e] w4 H4; [|done]. post_step.
  apply (post_mono _ _ _ (fun r w' => r = Ok tt -> lab_looks before image w4 w')).
  { destruct static_only; apply unchanged_post. }
  intros [[]|e] w5 H5; [|done]. post_step. intros b [= <-].
  exists baseline, commit, before, image, w1, w2, w3, w4. split; [done|]. split; [done|].
  split; [split; [by exists status|done]|]. split; [done|]. split; [by apply H4|by apply H5].
Qed.


(** The same for the file-system lab, with its one transcript. *)
Theorem filesystem_run_restores manifest patch static_only w :
  exists r w', runs (filesystem_main false static_only manifest patch) w r w' /\ forall a, r = Ok a ->
    lab_keeps static_only manifest
      (fun w1 w2 => check_manifest_anchors w1 manifest = Ok tt /\ filesystem_checked manifest patch static_only a w1 w2) w w'.
Proof.
  assert (Total (filesystem_main (W := W) false static_only manifest patch)) as T by (unfold filesystem_main; apply _).
  destruct (T w) as (r & w' & H). exists r, w'. split; [done|]. unfold filesystem_main in H.
  exact (lab_main_post _ _ _ _ static_only manifest patch w _ (filesystem_run_post manifest patch static_only) r w' H).
Qed.
End Props.

(** * A host

    A host on which a run of [device-io/run-lab.py] returns: a tree of a few
    files, a git that applies and removes the patch, and a guest that prints the
    traces of the self test. *)

#[local] Transparent DeviceIo.self_test FsLab.self_test validate_devtrace validate_fstrace.

Definition text_lines_of (l : list string) : pystr := join [newline] (u <$> l).

Definition devtrace_c : pystr :=
  text_lines_of [ "console_case("; "disk_case("; "queue_case("; "DEV CONSOLE_WAIT"; "DEV DISK"; "DEV QUEUE"; "DEV PASS";
                  "condition_before"; "lock_errors" ].
Definition virtio_c : pystr :=
  text_lines_of [ "devaudit_disk_program"; "devaudit_disk_publish"; "devaudit_disk_notify"; "devaudit_disk_complete";
                  "virtio_disk_audit_release"; "virtio_disk_audit_ledger" ].

(** The files before and after the patch *)
Definition site_files (patched : bool) : list (pystr * pystr) :=
  if patched then [ (u "kernel/bio.c", u "bioauditrefs"); (u "kernel/virtio_disk.c", virtio_c); (u "user/devtrace.c", devtrace_c) ]
  else [ (u "kernel/bio.c", u "bget"); (u "kernel/virtio_disk.c", u "virtio_disk_rw") ].

Record site : Type := {
  s_now : Z; s_patched : bool; s_out : pybytes * Z; s_inbox : list pybytes; s_got : pybytes; s_put : pybytes
}.

Definition site_answer (w : site) (patched : bool) (out : pybytes) (code : Z) : site :=
  {| s_now := s_now w; s_patched := patched; s_out := (out, code); s_inbox := s_inbox w; s_got := s_got w; s_put := s_put w |}.

Definition site_execute (command : list string) (w : site) : site :=
  let same c := bool_decide (command = c) in
  if same ["git"; "apply"; "--numstat"; "patch"]%string then
    site_answer w (s_patched w) (concat ((fun p => u "1" ++ [9] ++ u "0" ++ [9] ++ u p ++ [newline]) <$> DEVICE_PATHS)) 0
  else if same ["git"; "apply"; "--whitespace=error-all"; "patch"]%string then
    site_answer w true [] (Z.b2z (s_patched w))
  else if same ["git"; "apply"; "--whitespace=error-all"; "--reverse"; "patch"]%string then
    site_answer w false [] (Z.b2z (negb (s_patched w)))
  else if same ["git"; "ls-files"; "-z"; "--cached"; "--others"; "--exclude-standard"]%string
  then site_answer w (s_patched w) (join [0] (u <$> "Makefile" :: DeviceIo.resources) ++ [0]) 0
  else site_answer w (s_patched w) (u "ALL TESTS PASSED" ++ [newline]) 0.

Definition site_later (t : Z) (w : site) : site :=
  {| s_now := s_now w + Z.max 1 t; s_patched := s_patched w; s_out := s_out w; s_inbox := s_inbox w;
     s_got := s_got w; s_put := s_put w |}.

#[local] Instance site_host : Host site := {|
  popen _ _ command w := (Ok 1, site_execute command w);
  monotonic w := (s_now w, w);
  sleep t w := site_later t w;
  poll _ w := (Some 0, w);
  wait _ _ w := (Ok 0, w);
  killpg _ _ w := (Raise ProcessLookupError, w);
  communicate _ _ w := (Ok (s_out w), w);
  select_ _ _ w := (negb (bool_decide (s_inbox w = [])), site_later 1 w);
  os_read _ w :=
    match s_inbox w with
    | [] => ([], w)
    | chunk :: inbox =>
        (chunk, {| s_now := s_now w; s_patched := s_patched w; s_out := s_out w; s_inbox := inbox;
                   s_got := s_got w ++ chunk; s_put := s_put w |})
    end;
  write_in _ data w :=
    (Ok tt, {| s_now := s_now w; s_patched := s_patched w; s_out := s_out w; s_inbox := s_inbox w;
               s_got := s_got w; s_put := s_put w ++ data |})
|}.

#[local] Instance site_laws : HostLaws site.
Proof.
  refine {| clock := s_now; received w _ := s_got w; sent w _ := s_put w; alive _ _ := false |};
    cbn; try done; intros; try lia.
  - by destruct (s_inbox w).
  - destruct (s_inbox w); cbn; [by rewrite app_nil_r|done].
  - by destruct (s_inbox w).
Defined.

#[local] Instance site_tree : Files site := {|
  tree_of w := Ok ((fun e => (e.1, File 420 e.2)) <$> site_files (s_patched w));
  text_of w path := of_option OSError (lookup_key path (site_files (s_patched w)));
  bytes_of w path := of_option OSError (lookup_key path (site_files (s_patched w)));
  is_file w path := match lookup_key path (site_files (s_patched w)) with Some _ => true | None => false end;
  is_symlink _ _ := false;
  stat_mode _ _ := 420;
  unlink _ w := (Ok tt, w);
  extract _ w := (Ok tt, w)
|}.

#[local] Instance site_repository : Repository site := {|
  lstat_at _ _ := Ok (Regular 420 [97]);
  file_at _ path := Ok (if bool_decide (path = u "fs.img") then None else Some (420, [97]));
  root_there _ := true;
  exists_at _ _ := true;
  which _ _ := true;
  resolved _ path := Ok path;
  copyfile _ _ w := (Ok tt, w)
|}.

Definition site_manifest : obj :=
  [ F "release" (JObj [F "baseline_commit" (J "0123456789abcdef0123456789abcdef01234567")]);
    F "units" (JList [JObj
      [ F "id" (J "core.device-io"); F "requires" (JList [J "core.communication-and-io"]);
        F "evidence_dimensions" (JList (J <$> ["S"; "F"; "B"; "C"]%string));
        F "source_anchors" (JList [JObj [F "path" (J "kernel/bio.c"); F "symbol" (J "bioauditrefs")]]) ]]) ].

Definition site_ready : site :=
  {| s_now := 0; s_patched := false; s_out := ([], 0); s_got := []; s_put := [];
     s_inbox := [prompt; console_text ++ prompt; disk_text ++ prompt; queue_text ++ prompt] ++
                repeat (u "ALL TESTS PASSED" ++ [cr; newline] ++ prompt) 4 |}.

Definition sample_device_run : io site (option (pystr * pystr * pystr)) :=
  device_main false false site_manifest "patch".

Lemma sample_device_returns : exists a w', sample_device_run 20%nat site_ready = Some (Ok (Some a), w').
Proof. eexists _, _. vm_compute. reflexivity. Qed.


(** The snapshot of these runners has no directories: one that is left behind
    is not noticed, where the one of [FileTree] tells the trees apart. *)
Definition left_behind (extra : bool) : tree :=
  (u "Makefile", File 420 [97]) :: if extra then [(u "left", Directory 493 [])] else [].
Definition just_files : Files bool := {|
  tree_of extra := Ok (left_behind extra);
  text_of _ _ := Ok [97]; bytes_of _ _ := Ok [97];
  is_file _ path := bool_decide (path = u "Makefile");
  is_symlink _ _ := false; stat_mode _ _ := 420;
  unlink _ w := (Ok tt, w); extract _ w := (Ok tt, w)
|}.

Lemma left_directory_unnoticed :
  plain_snapshot (Files0 := just_files) true = plain_snapshot (Files0 := just_files) false /\
  snapshot (left_behind true) <> snapshot (left_behind false).
Proof.
  split; [reflexivity|]. intros E. apply (f_equal (lookup (u "left"))) in E. vm_compute in E. discriminate E.
Qed.
