(* ===== verification/SchedLab.v ===== *)
(** The oracles of the scheduling lab,
    [docs/xv6-tutorial/resources/scheduling-and-synchronization/run-lab.py]: the
    events of a sleep/wakeup handshake on two harts, once with the condition
    lock held until the waiter sleeps and once with the lock released too
    early, and the sequence of four runs. *)

From stdpp Require Import base tactics list gmap strings numbers list_numbers sorting.
From S2P Require Import Prelude PyText PyBytes PyRegex PyJson PyDyn.
Open Scope Z_scope.

Definition FIXED_ORDER : list string :=
  [ "PRODUCER_ARMED"; "WAIT_CHECK"; "WAIT_PLOCK"; "PRODUCER_ATTEMPT"; "WAIT_RELEASE_BOUNDARY";
    "PRODUCER_ACQUIRE"; "WAIT_PUBLISH"; "PRODUCER_READY"; "WAKE_MATCH"; "WAKE_DONE"; "ORIGIN_SKIP";
    "MIGRATE_RELEASE"; "MIGRATE_SELECT"; "WAIT_RESUME"; "WAIT_RECHECK" ].
Definition BROKEN_ORDER : list string :=
  [ "PRODUCER_ARMED"; "WAIT_CHECK"; "WAIT_RELEASED"; "PRODUCER_ATTEMPT"; "PRODUCER_ACQUIRE";
    "PRODUCER_READY"; "WAKE_MISS"; "WAKE_DONE"; "WAIT_PUBLISH"; "BAD_ORACLE"; "RESCUE_BEGIN";
    "RESCUE_MATCH"; "RESCUE_DONE"; "ORIGIN_SKIP"; "MIGRATE_RELEASE"; "MIGRATE_SELECT"; "WAIT_RESUME";
    "WAIT_RECHECK" ].

(** [event.get(key)] *)
Definition get_key (key : string) (r : record) : dyn := default DNone (lookup_key (u key) r).

(** [event_map]: the last event of a kind is the one found. *)
Definition event_map (events : list record) : result (list (dyn * record)) := keyed "kind" events.
Definition at_kind (by_kind : list (dyn * record)) (kind : string) : result record :=
  at_key by_kind (DStr (u kind)).

(** The tuple of [validate_common]. *)
Record Common : Type := {
  event_lines : list pystr; events : list record; final : record;
  final_line : pystr; clean_line : pystr; pass_line : pystr }.

(** [final.get("used_before", 0)] *)
Definition look_zero (r : record) (key : string) : result dyn :=
  Ok (default (DInt 0) (lookup_key (u key) r)).

Definition check_summary (mode : string) (generations : list dyn) (n : Z) (final clean : record) : result () :=
  (let f := look final in
   let c := look clean in
   requireR (f "mode" == text mode &&. c "mode" == text mode) [T mode; T " summary label changed"];;
   requireR (inR (f "gen") generations &&. inR (c "gen") generations)
     [T mode; T " summary generation changed"];;
   requireR (f "used_before" == f "used_after" &&. look_zero final "used_before" >= #3)
     [T mode; T " process ledger did not recover"];;
   requireR (f "target" == #0 &&. f "ready" == #1 &&. f "cond" == #0 &&. f "migrated" == #1)
     [T mode; T " final state/lock/migration relation failed"];;
   requireR (inR (f "origin") [DInt 0; DInt 1] &&. inR (f "resume") [DInt 0; DInt 1] &&.
             f "origin" != f "resume") [T mode; T " did not resume on the other hart"];;
   requireR (f "events" == #n) [T mode; T " trace count changed"];;
   mapR (fun key => requireR (c key == #0) [T mode; T " cleanup retained "; T key])
     ["active"; "target"; "ready"; "cond"; "trace"; "gates"]%string;;
   requireR (c "used" == c "baseline" &&. c "baseline" == f "used_before")
     [T mode; T " cleanup process ledger changed"])%dyn.

Definition validate_common (mode : string) (output : pystr) (expected_order : list string) : result Common :=
  require (negb (contains (u "SYNC FAIL") output)) [T "guest rejected "; T mode; T " scenario"];;
  let event_lines := lines_starting output "SYNC EVENT " in
  let events := found_fields <$> event_lines in
  require (bool_decide (get_key "kind" <$> events = (DStr ∘ u) <$> expected_order))
    [T mode; T " event order changed: "; Elided];;
  require (bool_decide (get_key "seq" <$> events = DInt <$> range 0 (len events)))
    [T mode; T " event sequence is not contiguous"];;
  let generations := get_key "gen" <$> events in
  require (bool_decide (length (remove_dups generations) = 1%nat)) [T mode; T " mixed generations: "; Elided];;
  require (forallb (fun event => bool_decide (get_key "mode" event = DStr (u mode))) events)
    [T mode; T " event label mismatch"];;
  match lines_starting output "SYNC FINAL ", lines_starting output "SYNC CLEAN ",
        lines_starting output "SYNC PASS " with
  | [final_line], [clean_line], [pass_line] =>
      let final := found_fields final_line in
      let clean := found_fields clean_line in
      check_summary mode generations (len events) final clean;;
      Ok {| event_lines := event_lines; events := events; final := final;
            final_line := final_line; clean_line := clean_line; pass_line := pass_line |}
  | _, _, _ => Raise (LabError [T mode; T " final/clean/pass marker count changed"])
  end.

Definition validate_fixed (output : pystr) : result Common :=
  (common ← validate_common "fixed" output FIXED_ORDER;
   by_kind ← event_map (events common);
   let final := fetch (final common) in
   check ← at_kind by_kind "WAIT_CHECK";
   plock ← at_kind by_kind "WAIT_PLOCK";
   attempt ← at_kind by_kind "PRODUCER_ATTEMPT";
   released ← at_kind by_kind "WAIT_RELEASE_BOUNDARY";
   acquired ← at_kind by_kind "PRODUCER_ACQUIRE";
   published ← at_kind by_kind "WAIT_PUBLISH";
   ready ← at_kind by_kind "PRODUCER_READY";
   match_ ← at_kind by_kind "WAKE_MATCH";
   skipped ← at_kind by_kind "ORIGIN_SKIP";
   selected ← at_kind by_kind "MIGRATE_SELECT";
   resumed ← at_kind by_kind "WAIT_RESUME";
   recheck ← at_kind by_kind "WAIT_RECHECK";
   requireR (fetch check "state" == #4 &&. fetch check "ready" == #0 &&. fetch check "cond" == #1 &&.
             fetch check "cond_owner" == fetch check "hart" &&. fetch check "noff" == #1)
     [T "fixed waiter did not check under the condition lock"];;
   requireR (fetch plock "cond_owner" == fetch plock "hart" &&.
             fetch plock "hart" == fetch plock "proc_owner" &&.
             fetch plock "plock" == #1 &&. fetch plock "noff" == #2)
     [T "fixed waiter did not hold lk and p->lock together"];;
   requireR (fetch attempt "hart" != fetch plock "hart" &&.
             fetch attempt "cond_owner" == fetch plock "hart")
     [T "fixed producer was not blocked behind waiter condition ownership"];;
   requireR (fetch released "proc_owner" == fetch plock "hart" &&.
             fetch released "cond_owner" == fetch plock "hart" &&. fetch released "cond" == #1)
     [T "fixed release boundary lost waiter ownership before release"];;
   requireR (fetch acquired "hart" == fetch acquired "cond_owner" &&.
             fetch acquired "cond_owner" == fetch attempt "hart" &&. fetch acquired "noff" == #2)
     [T "fixed producer condition-lock acquisition is inconsistent"];;
   requireR (fetch published "state" == #2 &&. fetch published "chan" == #1 &&.
             fetch published "ready" == #0 &&. fetch published "proc_owner" == fetch plock "hart")
     [T "fixed waiter did not publish SLEEPING before predicate update"];;
   requireR (fetch ready "ready" == #1 &&. fetch ready "cond_owner" == fetch attempt "hart")
     [T "fixed producer did not update predicate under lk"];;
   requireR (fetch match_ "state" == #2 &&. fetch match_ "chan" == #1 &&.
             fetch match_ "proc_owner" == fetch match_ "hart" &&.
             fetch match_ "hart" == fetch attempt "hart")
     [T "fixed wakeup did not match under target p->lock"];;
   requireR (fetch skipped "state" == #3 &&. fetch skipped "hart" == final "origin")
     [T "fixed origin scheduler did not skip RUNNABLE target"];;
   requireR (fetch selected "state" == #3 &&. fetch selected "hart" == final "resume")
     [T "fixed other hart did not select RUNNABLE target"];;
   requireR (fetch resumed "state" == #4 &&. fetch resumed "chan" == #1 &&.
             fetch resumed "hart" == fetch resumed "proc_owner" &&.
             fetch resumed "proc_owner" == final "resume")
     [T "fixed waiter resume ownership changed"];;
   requireR (fetch recheck "ready" == #1 &&. fetch recheck "chan" == #0 &&.
             fetch recheck "cond_owner" == fetch recheck "hart")
     [T "fixed waiter did not clear channel and recheck under lk"];;
   requireR (final "miss" == #0 &&. final "match" == #1 &&. final "rescue" == #0)
     [T "fixed wake accounting changed"];;
   require (bool_decide (lines_starting output "SYNC BADSTATE " = []))
     [T "fixed scenario unexpectedly reported a bad state"];;
   Ok common)%dyn.

Definition validate_broken (output : pystr) : result (Common * pystr) :=
  (common ← validate_common "broken" output BROKEN_ORDER;
   by_kind ← event_map (events common);
   let final := fetch (final common) in
   released ← at_kind by_kind "WAIT_RELEASED";
   miss ← at_kind by_kind "WAKE_MISS";
   wake_done ← at_kind by_kind "WAKE_DONE";
   published ← at_kind by_kind "WAIT_PUBLISH";
   oracle ← at_kind by_kind "BAD_ORACLE";
   rescue ← at_kind by_kind "RESCUE_MATCH";
   selected ← at_kind by_kind "MIGRATE_SELECT";
   resumed ← at_kind by_kind "WAIT_RESUME";
   requireR (fetch released "cond" == #0 &&. fetch released "plock" == #0 &&.
             fetch released "intr" == #0 &&. fetch released "noff" == #1)
     [T "broken window did not release lk while pinning its hart"];;
   requireR (fetch miss "state" == #4 &&. fetch miss "ready" == #1 &&. fetch miss "chan" == #0 &&.
             fetch miss "proc_owner" == fetch miss "hart")
     [T "broken wake did not scan the still-RUNNING target"];;
   requireR (fetch wake_done "seq" < fetch published "seq" &&. fetch published "state" == #2 &&.
             fetch published "ready" == #1 &&. fetch published "chan" == #1)
     [T "broken waiter did not publish only after the wake completed"];;
   requireR (fetch oracle "state" == #2 &&. fetch oracle "ready" == #1 &&. fetch oracle "chan" == #1)
     [T "broken active bad-state oracle changed"];;
   bad_line ← only_line (lines_starting output "SYNC BADSTATE ")
     [T "broken bad-state marker count changed"];
   let bad := look (found_fields bad_line) in
   requireR (bad "ready" == #1 &&. bad "state" == #2 &&. bad "chan" == #1 &&. bad "miss" == #1 &&.
             bad "killed" == #0)
     [T "broken snapshot is not ready=1/SLEEPING/expected-chan/wake-miss"];;
   requireR (fetch rescue "state" == #2 &&. fetch rescue "chan" == #1)
     [T "rescue did not target the recorded sleeper"];;
   requireR (fetch selected "hart" == final "resume" &&. final "resume" != final "origin" &&.
             fetch resumed "hart" == final "resume")
     [T "broken cleanup did not restore on the other hart"];;
   requireR (final "miss" == #1 &&. final "match" == #0 &&. final "rescue" == #1)
     [T "broken wake/rescue accounting changed"];;
   Ok (common, bad_line))%dyn.

Definition validate_regression (command transcript : pystr) : result () :=
  require (count (u "ALL TESTS PASSED") transcript =? 1) [T "regression marker count changed: "; V command];;
  require (negb (contains (u "SOME TESTS FAILED") transcript))
    [T "regression reported failure: "; V command];;
  require (negb (contains (u "SYNC ") transcript))
    [T "syncproject marker leaked into regression: "; V command].

(** * The four runs *)

Inductive mode : Type := Fixed | Broken.
Definition run_modes : list mode := [Fixed; Broken; Fixed; Broken].

(** One round of the loop of [run_dynamic]; [guest] is what the emulator printed. *)
Definition run_case (guest : pystr) (m : mode) : result record :=
  match m with
  | Fixed => common ← validate_fixed guest; Ok (final common)
  | Broken => '(common, _) ← validate_broken guest; Ok (final common)
  end.

(** [generations == list(range(generations[0], generations[0] + 4))] *)
Definition check_generations (generations : list dyn) : result () :=
  first ← of_option IndexError (head generations);
  match first with
  | DInt g => require (bool_decide (generations = DInt <$> range g (g + 4)))
                [T "generation/reset sequence changed: "; Elided]
  | _ => Raise TypeError
  end.

(** Append [final["gen"]] of every run, then compare them. *)
Definition run_cases (guests : list pystr) : result (list record) :=
  finals ← mapR (fun '(guest, m) => f ← run_case guest m; fetch f "gen";; Ok f) (zip guests run_modes);
  generations ← mapR (fun f => fetch f "gen") finals;
  check_generations generations;;
  Ok finals.
