(* ===== verification/SchedProps.v ===== *)
(** What the scheduling oracles guarantee: a run accepted as fixed woke a waiter
    that was already asleep, a run accepted as broken lost its wakeup, and
    neither is taken for the other. *)

From stdpp Require Import base tactics list gmap strings numbers list_numbers sorting.
From S2P Require Import Prelude PyText PyBytes PyRegex PyJson PyDyn SchedLab.
Open Scope Z_scope.

(** * Events by position *)

(** The event of this kind stands at position [i] of the trace. *)
Definition happens (evs : list record) (i : Z) (kind : string) (e : record) : Prop :=
  evs !! Z.to_nat i = Some e /\ fetch e "kind" = Ok (DStr (u kind)) /\ fetch e "seq" = Ok (DInt i).

Lemma get_key_look r k : look r k = Ok (get_key k r).
Proof. done. Qed.

(** ** The checks every run passes *)

Section common.
Context (mode : string) (output : pystr) (order : list string) (c : Common).
Hypothesis accepted : validate_common mode output order = Ok c.

Lemma common_order : get_key "kind" <$> events c = (DStr ∘ u) <$> order /\
  get_key "seq" <$> events c = DInt <$> range 0 (len (events c)).
Proof.
  unfold validate_common in accepted. inv_ok. to_prop.
  repeat case_match; inv_ok; try done.
Qed.

Lemma common_events : events c = found_fields <$> lines_starting output "SYNC EVENT ".
Proof.
  unfold validate_common in accepted. inv_ok. repeat case_match; inv_ok; try done.
Qed.

Lemma common_summary : exists generations clean,
  check_summary mode generations (len (events c)) (final c) clean = Ok tt.
Proof.
  unfold validate_common in accepted. inv_ok. repeat case_match; inv_ok; try done. eauto.
Qed.

Lemma common_happens m kind e (i : nat) :
  NoDup (u <$> order) -> (u <$> order) !! i = Some (u kind) ->
  event_map (events c) = Ok m -> at_kind m kind = Ok e -> happens (events c) (Z.of_nat i) kind e.
Proof.
  intros Hn Hi Hm Ha. destruct (at_key_elem _ _ _ _ _ Hm Ha) as [[j Hj]%list_elem_of_lookup Hk].
  destruct common_order as [Ho Hs].
  assert (j = i) as ->.
  { eapply NoDup_lookup; [exact Hn| |exact Hi].
    assert ((get_key "kind" <$> events c) !! j = Some (DStr (u kind))) as E.
    { rewrite list_lookup_fmap, Hj. cbn. apply fetch_look in Hk. rewrite get_key_look in Hk. congruence. }
    rewrite Ho, list_lookup_fmap in E. rewrite list_lookup_fmap.
    destruct (order !! j); cbn in *; congruence. }
  split; [by rewrite Nat2Z.id|]. split; [done|]. apply look_int.
  assert ((get_key "seq" <$> events c) !! i = Some (get_key "seq" e)) as E by (by rewrite list_lookup_fmap, Hj).
  rewrite Hs, list_lookup_fmap in E. unfold range in E.
  destruct (seqZ 0 (len (events c) - 0) !! i) as [z|] eqn:Ez; [|done]. cbn in E.
  apply lookup_seqZ in Ez as [-> _]. rewrite get_key_look. injection E as <-. done.
Qed.
End common.

Lemma fixed_distinct : NoDup (u <$> FIXED_ORDER).
Proof. refine (proj1 (bool_decide_eq_true _) _). vm_compute. reflexivity. Qed.
Lemma broken_distinct : NoDup (u <$> BROKEN_ORDER).
Proof. refine (proj1 (bool_decide_eq_true _) _). vm_compute. reflexivity. Qed.

(** A waiter asleep on the channel, with the predicate as given. *)
Definition asleep (e : record) (ready : Z) : Prop :=
  fetch e "state" = Ok (DInt 2) /\ fetch e "chan" = Ok (DInt 1) /\ fetch e "ready" = Ok (DInt ready).

(** The event of this kind at position [i] has these values. *)
Definition reports (evs : list record) (i : Z) (kind : string) (values : list (string * dyn)) : Prop :=
  exists e, happens evs i kind e /\ Forall (fun kv => fetch e kv.1 = Ok kv.2) values.

(** The harts [waiter] and [producer] and their locks, event by event: the waiter
    holds the condition lock and the lock of its process, and keeps the latter
    when the producer gets the former; it publishes its sleep under the lock of
    its process while the predicate is false; the producer then sets the
    predicate under the condition lock, and its wakeup, holding the lock of the
    process, finds the waiter asleep. *)
Record woken (evs : list record) (waiter producer : dyn) : Prop := {
  wk_harts : producer <> waiter;
  wk_plock : reports evs 2 "WAIT_PLOCK" [("hart", waiter); ("cond_owner", waiter); ("proc_owner", waiter)]%string;
  wk_attempt : reports evs 3 "PRODUCER_ATTEMPT" [("hart", producer); ("cond_owner", waiter)]%string;
  wk_release : reports evs 4 "WAIT_RELEASE_BOUNDARY" [("cond_owner", waiter); ("proc_owner", waiter)]%string;
  wk_acquire : reports evs 5 "PRODUCER_ACQUIRE" [("hart", producer); ("cond_owner", producer)]%string;
  wk_publish : reports evs 6 "WAIT_PUBLISH"
    [("state", DInt 2); ("chan", DInt 1); ("ready", DInt 0); ("proc_owner", waiter)]%string;
  wk_ready : reports evs 7 "PRODUCER_READY" [("ready", DInt 1); ("cond_owner", producer)]%string;
  wk_match : reports evs 8 "WAKE_MATCH"
    [("hart", producer); ("proc_owner", producer); ("state", DInt 2); ("chan", DInt 1)]%string }.

(** The wakeup scans a waiter that still runs and is over before the waiter
    publishes its sleep, with the predicate already true. *)
Record lost (evs : list record) : Prop := {
  lo_miss : exists e, happens evs 6 "WAKE_MISS" e /\ fetch e "state" = Ok (DInt 4) /\
    fetch e "ready" = Ok (DInt 1) /\ fetch e "chan" = Ok (DInt 0);
  lo_done : exists e, happens evs 7 "WAKE_DONE" e;
  lo_publish : exists e, happens evs 8 "WAIT_PUBLISH" e /\ asleep e 1 }.

Lemma summary_harts mode gens n f clean :
  check_summary mode gens n f clean = Ok tt ->
  exists a b, fetch f "origin" = Ok (DInt a) /\ fetch f "resume" = Ok (DInt b) /\ a <> b /\
    look f "used_before" = look f "used_after" /\ look clean "used" = look f "used_before".
Proof.
  unfold check_summary. intros H. inv_ok. facts.
  repeat match goal with H : inR _ [DInt 0; DInt 1] = Ok true |- _ => apply inR_ok in H as (? & ? & ?) end.
  assert (forall x, x ∈ [DInt 0; DInt 1] -> exists z, x = DInt z) as I.
  { intros y Hx. rewrite !elem_of_cons in Hx. destruct Hx as [->|[->|[]%not_elem_of_nil]]; eauto. }
  repeat match goal with H : _ ∈ [DInt 0; DInt 1] |- _ => apply I in H as [? ->] end.
  repeat match goal with H : look f "origin" = _, H' : look f "origin" = _ |- _ => rewrite H in H'; injection H' as <- end.
  repeat match goal with H : look f "resume" = _, H' : look f "resume" = _ |- _ => rewrite H in H'; injection H' as <- end.
  eexists _, _. repeat split; try (by apply look_int); congruence.
Qed.

(** * The two oracles *)

(** The event of a kind, at its position in the order. *)
Ltac event distinct kind i :=
  match goal with
  | Hv : validate_common _ _ _ = Ok ?c, Hm : event_map (events ?c) = Ok ?m,
    Ha : at_kind ?m kind = Ok ?e |- _ =>
      pose proof (common_happens _ _ _ _ Hv m kind e i distinct ltac:(vm_compute; reflexivity) Hm Ha)
  end.

Ltac summary :=
  match goal with H : validate_common _ _ _ = Ok _ |- _ =>
    let L := fresh in
    destruct (common_summary _ _ _ _ H) as (? & ? & L); apply summary_harts in L as (? & ? & ? & ? & ? & ? & _)
  end.

(** C11: A run accepted as fixed loses no wakeup.  The waiter publishes its sleep
    while it holds the lock of its process and the predicate is false; only then
    the producer, which by now owns the condition lock on another hart, sets the
    predicate, and its wakeup, under the lock of the process, finds the waiter
    asleep on the channel.  The waiter resumes on the other hart and rechecks the
    predicate under the condition lock, and the process table is as before. *)
Theorem fixed_run_wakes output c :
  validate_fixed output = Ok c ->
  (exists waiter producer, woken (events c) waiter producer) /\
  fetch (final c) "miss" = Ok (DInt 0) /\ fetch (final c) "match" = Ok (DInt 1) /\
  (exists a b h, fetch (final c) "origin" = Ok (DInt a) /\ fetch (final c) "resume" = Ok (DInt b) /\ a <> b /\
     reports (events c) 13 "WAIT_RESUME" [("state", DInt 4); ("hart", DInt b); ("proc_owner", DInt b)]%string /\
     reports (events c) 14 "WAIT_RECHECK" [("ready", DInt 1); ("chan", DInt 0); ("hart", h); ("cond_owner", h)]%string) /\
  look (final c) "used_before" = look (final c) "used_after".
Proof.
  unfold validate_fixed. intros H. inv_ok. facts.
  event fixed_distinct "WAIT_PLOCK"%string 2%nat. event fixed_distinct "PRODUCER_ATTEMPT"%string 3%nat.
  event fixed_distinct "WAIT_RELEASE_BOUNDARY"%string 4%nat. event fixed_distinct "PRODUCER_ACQUIRE"%string 5%nat.
  event fixed_distinct "WAIT_PUBLISH"%string 6%nat. event fixed_distinct "PRODUCER_READY"%string 7%nat.
  event fixed_distinct "WAKE_MATCH"%string 8%nat. event fixed_distinct "WAIT_RESUME"%string 13%nat.
  event fixed_distinct "WAIT_RECHECK"%string 14%nat.
  summary. merge. split_and!; [|done..| |done].
  - eexists _, _. split; [eassumption|..]; eexists; (split; [eassumption|]); repeat apply Forall_cons_2;
      first [eassumption|apply Forall_nil_2].
  - eexists _, _, _. split_and!; [eassumption..|done| |]; eexists; (split; [eassumption|]); repeat apply Forall_cons_2;
      first [eassumption|apply Forall_nil_2].
Qed.

(** No output passes the checks of two modes whose orders differ in length. *)
Lemma modes_exclusive m m' output order order' c c' :
  validate_common m output order = Ok c -> validate_common m' output order' = Ok c' ->
  length order = length order'.
Proof.
  intros H H'. destruct (common_order _ _ _ _ H) as [E _], (common_order _ _ _ _ H') as [E' _].
  apply (f_equal length) in E, E'. rewrite !length_fmap in E, E'. rewrite <- E, <- E'.
  by rewrite (common_events _ _ _ _ H), (common_events _ _ _ _ H').
Qed.

(** C12: a run accepted as broken has lost its wakeup: the wakeup scans a
    waiter that is still running with the predicate already true and finishes,
    and the waiter goes to sleep after it. Only the rescue wakes it, and the
    same output is never accepted as a fixed run. *)
Theorem broken_run_loses output c line :
  validate_broken output = Ok (c, line) ->
  lost (events c) /\ fetch (final c) "miss" = Ok (DInt 1) /\ fetch (final c) "match" = Ok (DInt 0) /\
  fetch (final c) "rescue" = Ok (DInt 1) /\
  (exists a b, fetch (final c) "origin" = Ok (DInt a) /\ fetch (final c) "resume" = Ok (DInt b) /\ a <> b) /\
  forall c', validate_fixed output <> Ok c'.
Proof.
  unfold validate_broken. intros H. inv_ok. facts.
  event broken_distinct "WAKE_MISS"%string 6%nat. event broken_distinct "WAKE_DONE"%string 7%nat.
  event broken_distinct "WAIT_PUBLISH"%string 8%nat.
  summary. merge. split; [|split_and!; [done..|by eauto 10|]].
  - by split; eexists; [split; [eassumption|]..|eassumption|split; [eassumption|]].
  - intros c' Hf. unfold validate_fixed in Hf. apply bind_ok in Hf as (c2 & Hf & _).
    pose proof (modes_exclusive _ _ _ _ _ _ _ E Hf) as L. discriminate L.
Qed.

(** * Runs *)

Definition sync_line (mode gen : string) (line : string * string) : pystr :=
  u "SYNC " ++ u line.1 ++ u " mode=" ++ u mode ++ u " gen=" ++ u gen ++ u " " ++ u line.2 ++ [newline].
Definition transcript (mode gen : string) (lines : list (string * string)) : pystr :=
  mjoin (sync_line mode gen <$> lines) ++ u "SYNC PASS mode=" ++ u mode ++ [newline].

Definition sample_fixed (gen : string) : pystr :=
  transcript "fixed" gen [("EVENT", "seq=0 kind=PRODUCER_ARMED pid=5 hart=1 state=4 ready=0 chan=0 cond=0 cond_owner=-1 plock=0 proc_owner=-1 intr=1 noff=0");
    ("EVENT", "seq=1 kind=WAIT_CHECK pid=5 hart=0 state=4 ready=0 chan=0 cond=1 cond_owner=0 plock=0 proc_owner=-1 intr=0 noff=1");
    ("EVENT", "seq=2 kind=WAIT_PLOCK pid=5 hart=0 state=4 ready=0 chan=0 cond=1 cond_owner=0 plock=1 proc_owner=0 intr=0 noff=2");
    ("EVENT", "seq=3 kind=PRODUCER_ATTEMPT pid=5 hart=1 state=4 ready=0 chan=0 cond=1 cond_owner=0 plock=1 proc_owner=0 intr=0 noff=1");
    ("EVENT", "seq=4 kind=WAIT_RELEASE_BOUNDARY pid=5 hart=0 state=4 ready=0 chan=0 cond=1 cond_owner=0 plock=1 proc_owner=0 intr=0 noff=2");
    ("EVENT", "seq=5 kind=PRODUCER_ACQUIRE pid=5 hart=1 state=4 ready=0 chan=0 cond=1 cond_owner=1 plock=1 proc_owner=0 intr=0 noff=2");
    ("EVENT", "seq=6 kind=WAIT_PUBLISH pid=5 hart=0 state=2 ready=0 chan=1 cond=1 cond_owner=1 plock=1 proc_owner=0 intr=0 noff=1");
    ("EVENT", "seq=7 kind=PRODUCER_READY pid=5 hart=1 state=2 ready=1 chan=1 cond=1 cond_owner=1 plock=0 proc_owner=-1 intr=0 noff=1");
    ("EVENT", "seq=8 kind=WAKE_MATCH pid=5 hart=1 state=2 ready=1 chan=1 cond=1 cond_owner=1 plock=1 proc_owner=1 intr=0 noff=2");
    ("EVENT", "seq=9 kind=WAKE_DONE pid=5 hart=1 state=3 ready=1 chan=1 cond=1 cond_owner=1 plock=0 proc_owner=-1 intr=0 noff=1");
    ("EVENT", "seq=10 kind=ORIGIN_SKIP pid=5 hart=0 state=3 ready=1 chan=1 cond=0 cond_owner=-1 plock=1 proc_owner=0 intr=0 noff=1");
    ("EVENT", "seq=11 kind=MIGRATE_RELEASE pid=5 hart=0 state=3 ready=1 chan=1 cond=0 cond_owner=-1 plock=0 proc_owner=-1 intr=1 noff=0");
    ("EVENT", "seq=12 kind=MIGRATE_SELECT pid=5 hart=1 state=3 ready=1 chan=1 cond=0 cond_owner=-1 plock=1 proc_owner=1 intr=0 noff=1");
    ("EVENT", "seq=13 kind=WAIT_RESUME pid=5 hart=1 state=4 ready=1 chan=1 cond=0 cond_owner=-1 plock=1 proc_owner=1 intr=0 noff=1");
    ("EVENT", "seq=14 kind=WAIT_RECHECK pid=5 hart=1 state=4 ready=1 chan=0 cond=1 cond_owner=1 plock=0 proc_owner=-1 intr=0 noff=1");
    ("FINAL", "used_before=3 used_after=3 target=0 ready=1 miss=0 match=1 rescue=0 origin=0 resume=1 migrated=1 events=15 cond=0");
    ("CLEAN", "used=3 baseline=3 active=0 target=0 ready=0 cond=0 trace=0 gates=0")]%string.
Definition sample_broken (gen : string) : pystr :=
  transcript "broken" gen [("EVENT", "seq=0 kind=PRODUCER_ARMED pid=5 hart=1 state=4 ready=0 chan=0 cond=0 cond_owner=-1 plock=0 proc_owner=-1 intr=1 noff=0");
    ("EVENT", "seq=1 kind=WAIT_CHECK pid=5 hart=0 state=4 ready=0 chan=0 cond=1 cond_owner=0 plock=0 proc_owner=-1 intr=0 noff=1");
    ("EVENT", "seq=2 kind=WAIT_RELEASED pid=5 hart=0 state=4 ready=0 chan=0 cond=0 cond_owner=-1 plock=0 proc_owner=-1 intr=0 noff=1");
    ("EVENT", "seq=3 kind=PRODUCER_ATTEMPT pid=5 hart=1 state=4 ready=0 chan=0 cond=0 cond_owner=-1 plock=0 proc_owner=-1 intr=0 noff=1");
    ("EVENT", "seq=4 kind=PRODUCER_ACQUIRE pid=5 hart=1 state=4 ready=0 chan=0 cond=1 cond_owner=1 plock=0 proc_owner=-1 intr=0 noff=1");
    ("EVENT", "seq=5 kind=PRODUCER_READY pid=5 hart=1 state=4 ready=1 chan=0 cond=1 cond_owner=1 plock=0 proc_owner=-1 intr=0 noff=1");
    ("EVENT", "seq=6 kind=WAKE_MISS pid=5 hart=1 state=4 ready=1 chan=0 cond=1 cond_owner=1 plock=1 proc_owner=1 intr=0 noff=2");
    ("EVENT", "seq=7 kind=WAKE_DONE pid=5 hart=1 state=4 ready=1 chan=0 cond=1 cond_owner=1 plock=0 proc_owner=-1 intr=0 noff=1");
    ("EVENT", "seq=8 kind=WAIT_PUBLISH pid=5 hart=0 state=2 ready=1 chan=1 cond=0 cond_owner=-1 plock=1 proc_owner=0 intr=0 noff=1");
    ("EVENT", "seq=9 kind=BAD_ORACLE pid=5 hart=1 state=2 ready=1 chan=1 cond=0 cond_owner=-1 plock=1 proc_owner=1 intr=0 noff=1");
    ("EVENT", "seq=10 kind=RESCUE_BEGIN pid=5 hart=1 state=2 ready=1 chan=1 cond=1 cond_owner=1 plock=0 proc_owner=-1 intr=0 noff=1");
    ("EVENT", "seq=11 kind=RESCUE_MATCH pid=5 hart=1 state=2 ready=1 chan=1 cond=1 cond_owner=1 plock=1 proc_owner=1 intr=0 noff=2");
    ("EVENT", "seq=12 kind=RESCUE_DONE pid=5 hart=1 state=3 ready=1 chan=1 cond=1 cond_owner=1 plock=0 proc_owner=-1 intr=0 noff=1");
    ("EVENT", "seq=13 kind=ORIGIN_SKIP pid=5 hart=0 state=3 ready=1 chan=1 cond=0 cond_owner=-1 plock=1 proc_owner=0 intr=0 noff=1");
    ("EVENT", "seq=14 kind=MIGRATE_RELEASE pid=5 hart=0 state=3 ready=1 chan=1 cond=0 cond_owner=-1 plock=0 proc_owner=-1 intr=1 noff=0");
    ("EVENT", "seq=15 kind=MIGRATE_SELECT pid=5 hart=1 state=3 ready=1 chan=1 cond=0 cond_owner=-1 plock=1 proc_owner=1 intr=0 noff=1");
    ("EVENT", "seq=16 kind=WAIT_RESUME pid=5 hart=1 state=4 ready=1 chan=1 cond=0 cond_owner=-1 plock=1 proc_owner=1 intr=0 noff=1");
    ("EVENT", "seq=17 kind=WAIT_RECHECK pid=5 hart=1 state=4 ready=1 chan=0 cond=1 cond_owner=1 plock=0 proc_owner=-1 intr=0 noff=1");
    ("BADSTATE", "ready=1 state=2 chan=1 miss=1 killed=0");
    ("FINAL", "used_before=3 used_after=3 target=0 ready=1 miss=1 match=0 rescue=1 origin=0 resume=1 migrated=1 events=18 cond=0");
    ("CLEAN", "used=3 baseline=3 active=0 target=0 ready=0 cond=0 trace=0 gates=0")]%string.

Lemma fixed_run_wakes_witness : exists c, validate_fixed (sample_fixed "1") = Ok c /\ exists waiter producer, woken (events c) waiter producer.
Proof.
  eexists. assert (validate_fixed (sample_fixed "1") = Ok _) as H by (vm_compute; reflexivity).
  split; [exact H|]. exact (proj1 (fixed_run_wakes _ _ H)).
Defined.

Lemma broken_run_loses_witness : exists c line, validate_broken (sample_broken "2") = Ok (c, line) /\ lost (events c).
Proof.
  eexists _, _. assert (validate_broken (sample_broken "2") = Ok (_, _)) as H by (vm_compute; reflexivity).
  split; [exact H|]. exact (proj1 (broken_run_loses _ _ _ H)).
Defined.

(** Events with their sequence number and kind only *)
Definition sample_bare : pystr :=
  transcript "fixed" "1" [("EVENT", "seq=0 kind=PRODUCER_ARMED");
    ("EVENT", "seq=1 kind=WAIT_CHECK");
    ("EVENT", "seq=2 kind=WAIT_PLOCK");
    ("EVENT", "seq=3 kind=PRODUCER_ATTEMPT");
    ("EVENT", "seq=4 kind=WAIT_RELEASE_BOUNDARY");
    ("EVENT", "seq=5 kind=PRODUCER_ACQUIRE");
    ("EVENT", "seq=6 kind=WAIT_PUBLISH");
    ("EVENT", "seq=7 kind=PRODUCER_READY");
    ("EVENT", "seq=8 kind=WAKE_MATCH");
    ("EVENT", "seq=9 kind=WAKE_DONE");
    ("EVENT", "seq=10 kind=ORIGIN_SKIP");
    ("EVENT", "seq=11 kind=MIGRATE_RELEASE");
    ("EVENT", "seq=12 kind=MIGRATE_SELECT");
    ("EVENT", "seq=13 kind=WAIT_RESUME");
    ("EVENT", "seq=14 kind=WAIT_RECHECK");
    ("FINAL", "used_before=3 used_after=3 target=0 ready=1 miss=0 match=1 rescue=0 origin=0 resume=1 migrated=1 events=15 cond=0");
    ("CLEAN", "used=3 baseline=3 active=0 target=0 ready=0 cond=0 trace=0 gates=0")]%string.

(** A field that an event lacks is not a [LabError]: [check["state"]] raises. *)
Example missing_field_escapes :
  validate_fixed sample_bare = Raise KeyError /\
  exists c, validate_common "fixed" sample_bare FIXED_ORDER = Ok c.
Proof. split; [|eexists]; vm_compute; reflexivity. Qed.

(** * The four runs *)

Lemma fixed_ledger output c : validate_fixed output = Ok c -> fetch (final c) "miss" = Ok (DInt 0).
Proof. unfold validate_fixed. intros H. inv_ok. by facts. Qed.

Lemma broken_ledger output c line : validate_broken output = Ok (c, line) -> fetch (final c) "miss" = Ok (DInt 1).
Proof. unfold validate_broken. intros H. inv_ok. by facts. Qed.

Lemma range_four g : [g; g + 1; g + 2; g + 3] = range g (g + 4).
Proof.
  unfold range. replace (g + 4 - g) with 4 by lia. change (seqZ g 4) with ((fun i => Z.of_nat i + g) <$> [0;1;2;3]%nat).
  rewrite !fmap_cons, fmap_nil. repeat (apply f_equal2; [lia|]). done.
Qed.

Lemma check_generations_ok gens : check_generations gens = Ok tt -> exists g, gens = DInt <$> range g (g + 4).
Proof.
  unfold check_generations. intros H. inv_ok. destruct a as [|g|]; [done| |done].
  inv_ok. to_prop. eauto.
Qed.

Lemma run_case_miss guest m f :
  (f ← run_case guest m; fetch f "gen";; Ok f) = Ok f -> fetch f "miss" = Ok (DInt (if m is Broken then 1 else 0)).
Proof.
  destruct m; unfold run_case; intros H; inv_ok.
  - eapply fixed_ledger; eassumption.
  - repeat case_match; inv_ok. eapply broken_ledger; eassumption.
Qed.

(** The lab passes only on four runs of consecutive generations that
    alternate: the fixed kernel misses no wakeup, the broken one misses one,
    and both do so again. *)
Theorem runs_alternate guests fs :
  run_cases guests = Ok fs ->
  (exists g, mapR (fun f => fetch f "gen") fs = Ok (DInt <$> [g; g + 1; g + 2; g + 3])) /\
  mapR (fun f => fetch f "miss") fs = Ok (DInt <$> [0; 1; 0; 1]).
Proof.
  unfold run_cases. intros H. apply bind_ok in H as (l & Hl & H).
  apply bind_ok in H as (gens & Hg & H). apply bind_ok in H as ([] & [g Hr]%check_generations_ok & H).
  injection H as ->. subst gens. replace (range g (g + 4)) with [g; g + 1; g + 2; g + 3] in Hg by apply range_four.
  split; [by eexists|]. apply mapR_ok in Hg, Hl. apply mapR_ok.
  pose proof (Forall2_length _ _ _ Hl) as L. rewrite (Forall2_length _ _ _ Hg) in L.
  do 4 (destruct guests as [|? guests]; [discriminate L|]). cbn in Hl.
  clear Hg L. repeat match goal with H : Forall2 _ (_ :: _) _ |- _ => inv H end.
  repeat match goal with H : Forall2 _ (zip guests []) _ |- _ => destruct guests; inv H end.
  all: repeat match goal with H : (_ ≫= _) = Ok _ |- _ => apply run_case_miss in H end.
  all: repeat first [apply Forall2_nil_2 | apply Forall2_cons_2; [done|]].
Qed.

Lemma runs_alternate_witness : exists fs,
  run_cases [sample_fixed "1"; sample_broken "2"; sample_fixed "3"; sample_broken "4"] = Ok fs /\
  mapR (fun f => fetch f "miss") fs = Ok (DInt <$> [0; 1; 0; 1]).
Proof.
  eexists. assert (run_cases [sample_fixed "1"; sample_broken "2"; sample_fixed "3"; sample_broken "4"] = Ok _)
    as H by (vm_compute; reflexivity).
  split; [exact H|]. exact (proj2 (runs_alternate _ _ H)).
Defined.
