(* ===== verification/CowLab.v ===== *)
(** The oracle of the copy-on-write project,
    [docs/xv6-tutorial/resources/copy-on-write/run-project.py]: the scope of a
    candidate patch, the anchors in the sources, and the [COW] markers of a
    guest run with the page-table leaves they report. *)

From stdpp Require Import base tactics list gmap strings numbers list_numbers sorting.
From S2P Require Import Prelude PyText PyBytes PyRegex PyJson PyPath PyDyn SourceCheck.
Open Scope Z_scope.

(** * The candidate and the fixture *)

Definition AUDIT_PATHS : list string :=
  [ "Makefile"; "kernel/cowaudit.c"; "kernel/cowaudit.h"; "kernel/kalloc.c"; "kernel/main.c";
    "kernel/syscall.c"; "kernel/syscall.h"; "kernel/sysproc.c"; "user/cowtrace.c"; "user/user.h";
    "user/usys.pl" ].

Inductive case : Type :=
| SHARE | MULTI | LAZY | COPYOUT | PARTIAL | OOM | ROLLBACK | PAIR | BOUNDARY | TEARDOWN.
Definition CASE_NAMES : list case :=
  [SHARE; MULTI; LAZY; COPYOUT; PARTIAL; OOM; ROLLBACK; PAIR; BOUNDARY; TEARDOWN].
Definition case_name (c : case) : string :=
  match c with
  | SHARE => "SHARE"
  | MULTI => "MULTI"
  | LAZY => "LAZY"
  | COPYOUT => "COPYOUT"
  | PARTIAL => "PARTIAL"
  | OOM => "OOM"
  | ROLLBACK => "ROLLBACK"
  | PAIR => "PAIR"
  | BOUNDARY => "BOUNDARY"
  | TEARDOWN => "TEARDOWN"
  end.

Definition MARKER_FIELDS (c : case) : list string :=
  match c with
  | SHARE =>
      [ "pa"; "parent_new"; "child_old"; "before_flags"; "before_refs"; "before_cows"; "after_flags";
        "after_refs"; "after_cows"; "fast_flags"; "fast_ref"; "fast_cow"; "parent_alloc"; "child_alloc";
        "values" ]
  | MULTI =>
      [ "root"; "child"; "grandchild"; "shared_pa"; "before_flags"; "before_refs"; "before_cows";
        "after_pa"; "after_flags"; "after_refs"; "after_cows"; "before_values"; "after_values" ]
  | LAZY =>
      [ "before"; "before_flags"; "parent_pa"; "child_pa"; "after_flags"; "after_refs"; "after_cows";
        "values" ]
  | COPYOUT => [ "parent_pa"; "child_pa"; "flags"; "refs"; "cows"; "parent"; "child" ]
  | PARTIAL =>
      [ "generation"; "eligible"; "first"; "retry"; "fail_at"; "fired"; "parent"; "child";
        "parent_flags"; "child_flags"; "parent_refs"; "child_refs"; "parent_cows"; "child_cows";
        "parent_values"; "child_values" ]
  | OOM =>
      [ "generation"; "eligible"; "status"; "fail_at"; "fired"; "old_pa"; "old_flags"; "old_ref";
        "old_cow"; "fast_alloc"; "value" ]
  | ROLLBACK =>
      [ "generation"; "fork"; "fail_at"; "fired"; "eligible"; "preexisting_pa"; "preexisting_flags";
        "preexisting_ref"; "preexisting_cow"; "new_parent_flags"; "new_parent_ref"; "new_parent_cow";
        "fast_flags"; "fast_ref"; "fast_cow"; "fast_alloc"; "setup_free"; "after_fork_free"; "values" ]
  | PAIR =>
      [ "generation"; "pids"; "harts"; "arrived"; "gate_open"; "eligible"; "old"; "new"; "flags";
        "refs"; "cows"; "values" ]
  | BOUNDARY =>
      [ "text_pa"; "text_flags"; "text_ref"; "text_cow"; "guard_parent_pa"; "guard_child_pa";
        "guard_flags"; "guard_cows"; "guard_status"; "text_status"; "tail_status" ]
  | TEARDOWN =>
      [ "shrink_leaf"; "child_pa"; "parent_pa"; "parent_flags"; "parent_ref"; "parent_cow"; "exec_bad";
        "bad_before_pa"; "bad_after_pa"; "bad_flags"; "bad_refs"; "bad_cows"; "bad_value";
        "exec_status"; "errors" ]
  end.
Definition PASS_FIELDS : list string := ["cases"].
Definition CLEAN_FIELDS : list string :=
  [ "base"; "after"; "errors"; "active_before"; "active_after"; "refs_before"; "refs_after" ].

Definition forbidden : list string := [ "kernel/cowaudit.c"; "kernel/cowaudit.h"; "user/cowtrace.c" ].
Definition fixture_tokens : list string := [ "COWAUDIT"; "cowaudit"; "cowtrace"; "COW CLEAN"; "COW PASS" ].

(** The paths are a set: which of several bad paths the message names is up to
    its order, that there is a message is not. *)
Definition validate_candidate_patch (patch : pybytes) : result (list pystr) :=
  paths ← patch_paths patch;
  require (forallb (fun path => negb (bool_decide (path ∈ u <$> forbidden))) paths)
    [T "candidate must not include audit fixture files: "; Elided];;
  mapR (fun path =>
    require (negb (bool_decide (path = u "fs.img")) && negb (startswith path (u "docs/")))
      [T "candidate patch changes publication/shared artifacts: "; V path];;
    require (startswith path (u "kernel/") || startswith path (u "user/") ||
             bool_decide (path = u "Makefile"))
      [T "candidate patch leaves xv6 source scope: "; V path]) paths;;
  let content := utf8_replace None patch in
  mapR (fun token => require (negb (contains (u token) content))
    [T "candidate patch embeds the publication fixture: "; T token]) fixture_tokens;;
  Ok paths.

Definition analyze_audit_patch (patch : pybytes) : result (list pystr) :=
  paths ← patch_paths patch;
  require (same_set paths (u <$> AUDIT_PATHS)) [T "audit fixture scope changed: "; Elided];;
  let content := utf8_replace None patch in
  require_anchors content
    (u <$> ["cowaudit"; "COWAUDIT_"; "cowaudit_kalloc_gate"; "_cowtrace"; "cowproject_"; "COW SHARE";
            "COW PAIR"; "COW CLEAN"]%string) "audit fixture";;
  require (negb (contains (u "PTE_COW") content) && negb (contains (u "kref_") content))
    [T "audit fixture leaks candidate-specific COW symbols"];;
  require (negb (contains (u "cow_resolve") content) && negb (contains (u "uvmcopy(") content))
    [T "audit fixture must not publish a complete COW implementation"];;
  Ok paths.

Section Sources.
(** [root / path] if it is a file, and its text *)
Context (source : string -> result (option pystr)).

Definition read_sources (paths : list string) : result (list (pystr * pystr)) := read_present source paths.

Definition baseline_paths : list string :=
  [ "kernel/riscv.h"; "kernel/kalloc.c"; "kernel/vm.c"; "kernel/proc.c"; "kernel/trap.c"; "kernel/exec.c";
    "kernel/pipe.c"; "user/usertests.c" ].
Definition baseline_anchors : list (string * list string * string) :=
  [ ("kernel/riscv.h", ["PTE_V"; "PTE_R"; "PTE_W"; "PTE_X"; "PTE_U"; "PTE_FLAGS"; "sfence_vma"],
     "Sv39/PTE baseline");
    ("kernel/kalloc.c", ["kinit("; "freerange("; "kalloc("; "kfree("], "allocator baseline");
    ("kernel/vm.c", ["walk("; "mappages("; "uvmcopy("; "uvmunmap("; "uvmfree("; "copyout("; "copyin("],
     "address-space baseline");
    ("kernel/proc.c", ["freeproc("; "kfork("; "proc_freepagetable("], "process teardown baseline");
    ("kernel/trap.c", ["usertrap("], "trap baseline");
    ("kernel/exec.c", ["kexec("], "exec baseline");
    ("kernel/pipe.c", ["piperead("], "pipe baseline");
    ("user/usertests.c", ["forktest("; "copyout("; "lazy_copy("; "sbrkfail("], "regression baseline") ]%string.

Definition anchored (sources : list (pystr * pystr)) '(path, tokens, context) : result () :=
  content ← source_of sources path; require_anchors content (u <$> tokens) context.

Definition analyze_baseline : result () :=
  sources ← read_sources baseline_paths;
  require (len sources =? len baseline_paths) [T "pinned baseline source scope is incomplete"];;
  mapR (anchored sources) baseline_anchors;;
  let all_source := join [newline] sources.*2 in
  mapR (fun token => require (negb (contains (u token) all_source))
      [T "pinned baseline unexpectedly contains candidate token: "; T token])
    ["PTE_COW"; "cow_resolve"; "kref_get"; "COWAUDIT"]%string;;
  Ok tt.

Definition fixture_anchors : list (string * list string * string) :=
  [ ("Makefile", ["$K/cowaudit.o"; "$U/_cowtrace"], "audit build registration");
    ("kernel/cowaudit.c",
     ["cowaudit_command"; "cowaudit_kalloc_gate"; "cowproject_ref"; "cowproject_is_cow";
      "COWAUDIT_MODE_PAIR"], "audit kernel seam");
    ("user/cowtrace.c",
     ((String.append "COW " ∘ case_name <$> CASE_NAMES) ++
      ["COW PASS cases=%d"; "COW CLEAN"; "active_before=%d"; "refs_before=%d"]%string)%list, "audit guest oracle") ]%string.

Definition analyze_fixture : result () :=
  sources ← read_sources AUDIT_PATHS;
  require (has_key (u "kernel/cowaudit.c") sources && has_key (u "user/cowtrace.c") sources)
    [T "audit fixture files did not apply"];;
  mapR (anchored sources) fixture_anchors;;
  Ok tt.

(** [str.isalnum] outside ASCII *)
Context (alphanumeric : Z -> bool).

Definition spaces : pattern := star (MChr isspace).
Definition letter_or_underscore (c : Z) : bool := in_range "A" "Z" c || in_range "a" "z" c || (c =? 95).
(** [\b<result>\s+<name>\s*\(\s*<argument>\s*\)\s*\{] *)
Definition signature (result_type name : string) (argument : pattern) : pattern :=
  all_of [ word_boundary alphanumeric; lit result_type; plus (MChr isspace); lit name; spaces; lit "(";
           spaces; argument; spaces; lit ")"; spaces; lit "{" ].
(** [<type>\s+[A-Za-z_]\w*] *)
Definition named (type : string) : pattern :=
  all_of [ lit type; plus (MChr isspace); MChr letter_or_underscore; star (MChr (word_char alphanumeric)) ].
Definition adapter_signatures : list (string * pattern) :=
  [ ("cowproject_ref", signature "uint" "cowproject_ref" (named "uint64"));
    ("cowproject_active", signature "uint" "cowproject_active" (lit "void"));
    ("cowproject_total", signature "uint" "cowproject_total" (lit "void"));
    ("cowproject_errors", signature "uint" "cowproject_errors" (lit "void"));
    ("cowproject_free_pages", signature "int" "cowproject_free_pages" (lit "void"));
    ("cowproject_is_cow", signature "int" "cowproject_is_cow" (named "pte_t")) ]%string.

(** [changed] are the texts of the candidate's files, [tree] the files below
    [kernel] and [user]. *)
Definition analyze_candidate (changed : list pystr) (tree : list (pystr * pystr)) : result () :=
  let changed_text := join [newline] changed in
  let all_source := join [newline]
    (filter (fun f => suffix f.1 ∈ [u ".c"; u ".h"; u ".S"]) tree).*2 in
  require (contains (u "uvmcopy(") all_source && contains (u "copyout(") all_source &&
           contains (u "usertrap(") all_source)
    [T "candidate does not cover fork, kernel copyout, and store-fault paths"];;
  require (found_in (all_of [lit "kalloc"; spaces; lit "("]) all_source &&
           found_in (all_of [lit "kfree"; spaces; lit "("]) all_source)
    [T "candidate does not expose allocation and release paths"];;
  let missing := filter (fun e => found_in e.2 changed_text = false) adapter_signatures in
  require (bool_decide (missing.*1 = []))
    [T "candidate audit adapter signatures missing: "; V (join (u ", ") (u <$> missing.*1))].
End Sources.

(** * Markers *)

Definition add_field (values : record) (token : pystr) : result record :=
  match re_full field_re token with
  | None => Raise (LabError [T "malformed marker field: "; V token])
  | Some g =>
      let '(key, value) := field_of g in
      require (negb (has_key key values)) [T "duplicate marker field: "; V key];;
      Ok (values ++ [(key, dyn_of value)])
  end.
Definition parse_fields (line : pystr) : result record :=
  let tokens := words line in
  require (3 <=? len tokens) [T "marker has no fields: "; V line];;
  foldM add_field [] (drop 2 tokens).

Definition require_exact_fields (fields : record) (expected : list string) (context : string) : result () :=
  require (same_set fields.*1 (u <$> expected)) [T context; T " field set changed: expected "; Elided].

(** A number alone counts as one field. *)
Definition parse_int_list (value : dyn) (count : Z) (context : string) : result (list Z) :=
  match value with
  | DInt z => require (count =? 1) [T context; T " expected "; D count; T " fields, got one"];; Ok [z]
  | DStr s =>
      let parts := split (u "/") s in
      require (len parts =? count) [T context; T " field count changed: "; V s];;
      mapR (fun part => of_option (LabError [T context; T " contains a non-integer value: "; V s])
                          (int0 part)) parts
  | DNone => Raise (LabError [T context; T " is not a slash-separated field"])
  end.
(** [parse_int_list(fields.get(key), ...)] *)
Definition int_list (fields : record) (key : string) (count : Z) (context : string) : result (list Z) :=
  parse_int_list (default DNone (lookup_key (u key) fields)) count context.

Definition marker_lines (output : pystr) (prefix : string) : list pystr :=
  strip <$> filter (fun line => startswith (strip line) (u prefix) = true) (splitlines output).

(** [[(value & 0x1f) for value in l]] *)
Definition masked (l : list Z) : list Z := (fun v => Z.land v 31) <$> l.
(** [len(set(l)) == n] *)
Definition set_size {A} `{!EqDecision A} (l : list A) : nat := length (remove_dups l).

Definition validate_leaf_fields (fields : record) (flags refs cows : string) (count : Z)
    (expected_flags expected_ref expected_cow : Z) (context : string) : result () :=
  flag_values ← int_list fields flags count (context ++ " flags")%string;
  ref_values ← int_list fields refs count (context ++ " refs")%string;
  cow_values ← int_list fields cows count (context ++ " cows")%string;
  require (forallb (fun value => Z.land value 31 =? expected_flags) flag_values)
    [T context; T " PTE flag mask changed: "; DL flag_values];;
  require (forallb (fun value => value =? expected_ref) ref_values)
    [T context; T " refcount changed: "; DL ref_values];;
  require (forallb (fun value => value =? expected_cow) cow_values)
    [T context; T " normalized COW bit changed: "; DL cow_values].

Definition validate_single_leaf (fields : record) (flags ref cow : string)
    (expected_flags expected_ref expected_cow : Z) (context : string) : result () :=
  validate_leaf_fields fields flags ref cow 1 expected_flags expected_ref expected_cow context.

(** [isinstance(fields.get(key), int) and fields[key] != 0] *)
Definition nonzero (fields : record) (key : string) : result bool :=
  (isint (look fields key) &&. fetch fields key != #0)%dyn.

(** * The cases *)

Definition check_clean (clean : record) : result () :=
  (let c := look clean in
   requireR (c "base" == c "after" &&. c "errors" == #0 &&. c "active_before" == c "active_after" &&.
             c "refs_before" == c "refs_after" &&. isint (c "active_before") &&.
             fetch clean "active_before" > #0 &&. isint (c "refs_before") &&.
             fetch clean "refs_before" > #0)
     [T "whole-worker free-page/refcount ledger did not recover"])%dyn.

Definition check_share (share : record) : result () :=
  (let s := look share in
   requireR (s "pa" == s "child_old" &&. s "pa" != s "parent_new" &&. nonzero share "pa")
     [T "share PA ownership relation failed"];;
   requireR (nonzero share "parent_new") [T "share private PA is zero"];;
   validate_leaf_fields share "before_flags" "before_refs" "before_cows" 2 19 2 1 "share before";;
   share_after_flags ← int_list share "after_flags" 2 "share after flags";
   share_after_refs ← int_list share "after_refs" 2 "share after refs";
   share_after_cows ← int_list share "after_cows" 2 "share after cows";
   requireR (holds (masked share_after_flags = [23; 19]) &&. holds (share_after_refs = [1; 1]) &&.
             holds (share_after_cows = [0; 1])) [T "share after PTE ownership relation failed"];;
   validate_single_leaf share "fast_flags" "fast_ref" "fast_cow" 23 1 0 "share fast path";;
   share_values ← int_list share "values" 2 "share values";
   requireR (s "parent_alloc" == #1 &&. s "child_alloc" == #0 &&. holds (share_values = [34; 51]))
     [T "share/fast-path oracle failed"])%dyn.

Definition check_multi (multi : record) : result () :=
  (let m := look multi in
   let multi_pids := [m "root"; m "child"; m "grandchild"] in
   multi_before_flags ← int_list multi "before_flags" 3 "multi before flags";
   multi_before_refs ← int_list multi "before_refs" 3 "multi before refs";
   multi_before_cows ← int_list multi "before_cows" 3 "multi before cows";
   multi_after_pa ← int_list multi "after_pa" 3 "multi after PA";
   multi_after_flags ← int_list multi "after_flags" 3 "multi after flags";
   multi_after_refs ← int_list multi "after_refs" 3 "multi after refs";
   multi_after_cows ← int_list multi "after_cows" 3 "multi after cows";
   multi_before_values ← int_list multi "before_values" 3 "multi before values";
   multi_after_values ← int_list multi "after_values" 3 "multi after values";
   pids ← mapR (fun pid => pid) multi_pids;
   requireR (allR (fun pid => isint pid &&. pid > #0) multi_pids &&. holds (set_size pids = 3%nat) &&.
             nonzero multi "shared_pa" &&.
             holds (masked multi_before_flags = [19; 19; 19]) &&. holds (multi_before_refs = [3; 3; 3]) &&.
             holds (multi_before_cows = [1; 1; 1]) &&.
             item multi_after_pa 0 == item multi_after_pa 1 &&.
             item multi_after_pa 1 == fetch multi "shared_pa" &&.
             item multi_after_pa 2 != #0 &&. item multi_after_pa 2 != fetch multi "shared_pa" &&.
             holds (masked multi_after_flags = [19; 19; 23]) &&. holds (multi_after_refs = [2; 2; 1]) &&.
             holds (multi_after_cows = [1; 1; 0]) &&. holds (multi_before_values = [33; 33; 33]) &&.
             holds (multi_after_values = [33; 33; 42]))
     [T "multi-generation write/refcount oracle failed"])%dyn.

Definition check_lazy (lazy : record) : result () :=
  (before_flags ← int_list lazy "before_flags" 2 "lazy before flags";
   lazy_values ← int_list lazy "values" 2 "lazy values";
   requireR (look lazy "before" == text "0/0" &&. holds (before_flags = [0; 0]) &&.
             holds (lazy_values = [102; 85]) &&. isint (look lazy "parent_pa") &&.
             isint (look lazy "child_pa") &&. fetch lazy "parent_pa" != #0 &&.
             fetch lazy "child_pa" != #0 &&. fetch lazy "parent_pa" != fetch lazy "child_pa")
     [T "lazy-hole oracle failed"];;
   validate_leaf_fields lazy "after_flags" "after_refs" "after_cows" 2 23 1 0 "lazy after")%dyn.

(** [l[i] & 0x1f] *)
Definition item_mask (l : list Z) (i : nat) : result dyn := (item l i & #31)%dyn.

Definition check_copyout (copyout : record) : result () :=
  (copyout_flags ← int_list copyout "flags" 2 "copyout flags";
   copyout_refs ← int_list copyout "refs" 2 "copyout refs";
   copyout_cows ← int_list copyout "cows" 2 "copyout cows";
   requireR (item_mask copyout_flags 0 == #19 &&. item_mask copyout_flags 1 == #23 &&.
             holds (copyout_refs = [1; 1]) &&. holds (copyout_cows = [1; 0]))
     [T "copyout PTE ownership relation failed"];;
   copyout_values ← int_list copyout "child" 4 "copyout child bytes";
   requireR (look copyout "parent" == #68 &&. holds (copyout_values = [97; 98; 99; 100]) &&.
             isint (look copyout "parent_pa") &&. isint (look copyout "child_pa") &&.
             fetch copyout "parent_pa" != #0 &&. fetch copyout "child_pa" != #0 &&.
             fetch copyout "parent_pa" != fetch copyout "child_pa")
     [T "kernel copyout isolation oracle failed"])%dyn.

Definition check_partial (partial : record) : result () :=
  (let p := look partial in
   partial_parent ← int_list partial "parent" 2 "partial parent PA";
   partial_child ← int_list partial "child" 2 "partial child PA";
   validate_leaf_fields partial "parent_flags" "parent_refs" "parent_cows" 2 19 1 1 "partial parent";;
   validate_leaf_fields partial "child_flags" "child_refs" "child_cows" 2 23 1 0 "partial child";;
   parent_values ← int_list partial "parent_values" 2 "partial parent values";
   child_values ← int_list partial "child_values" 2 "partial child values";
   requireR (p "generation" == #5 &&. p "eligible" == #2 &&. p "first" == #16 &&. p "retry" == #16 &&.
             p "fail_at" == #2 &&. p "fired" == #1 &&. holds (parent_values = [65; 65]) &&.
             holds (child_values = [32; 48]) &&.
             holds (Forall (fun pa => pa <> 0) (partial_parent ++ partial_child)) &&.
             item partial_parent 0 != item partial_child 0 &&.
             item partial_parent 1 != item partial_child 1 &&.
             holds (set_size partial_parent = 2%nat) &&. holds (set_size partial_child = 2%nat) &&.
             holds (set_size (partial_parent ++ partial_child) = 4%nat))
     [T "partial copyout/OOM oracle failed"])%dyn.

Definition check_oom (oom : record) : result () :=
  (let o := look oom in
   validate_single_leaf oom "old_flags" "old_ref" "old_cow" 19 1 1 "store OOM old mapping";;
   requireR (o "generation" == #6 &&. o "eligible" == #1 &&. o "status" == #(-1) &&. o "fail_at" == #1 &&.
             o "fired" == #1 &&. isint (o "old_pa") &&. fetch oom "old_pa" != #0 &&.
             o "fast_alloc" == #0 &&. o "value" == #51)
     [T "store-fault OOM oracle failed"])%dyn.

Definition check_rollback (rollback : record) : result () :=
  (let r := look rollback in
   validate_single_leaf rollback "preexisting_flags" "preexisting_ref" "preexisting_cow" 19 2 1
     "rollback preexisting";;
   validate_single_leaf rollback "new_parent_flags" "new_parent_ref" "new_parent_cow" 23 1 0
     "rollback new parent";;
   validate_single_leaf rollback "fast_flags" "fast_ref" "fast_cow" 23 1 0 "rollback fast path";;
   rollback_values ← int_list rollback "values" 3 "rollback values";
   requireR (r "generation" == #7 &&. r "fork" == #(-1) &&. r "fail_at" == #8 &&. r "fired" == #1 &&.
             r "eligible" == #8 &&. r "fast_alloc" == #0 &&. r "setup_free" == r "after_fork_free" &&.
             holds (rollback_values = [65; 82; 67]) &&. isint (r "preexisting_pa") &&.
             fetch rollback "preexisting_pa" != #0 &&. isint (r "setup_free") &&.
             fetch rollback "setup_free" > #0)
     [T "partial fork rollback oracle failed"])%dyn.

(** [sorted(l) == [114, 115]] *)
Definition check_pair (pair : record) : result () :=
  (let p := look pair in
   pair_pids ← int_list pair "pids" 2 "pair pids";
   pair_harts ← int_list pair "harts" 2 "pair harts";
   pair_new ← int_list pair "new" 2 "pair new PA";
   pair_refs ← int_list pair "refs" 3 "pair refs";
   pair_flags ← int_list pair "flags" 3 "pair flags";
   pair_cows ← int_list pair "cows" 3 "pair cows";
   requireR (holds (masked pair_flags = [19; 23; 23]) &&. holds (pair_cows = [1; 0; 0]))
     [T "two-hart PTE ownership relation failed"];;
   pair_values ← int_list pair "values" 2 "pair values";
   requireR (p "generation" == #8 &&. p "arrived" == #3 &&. p "gate_open" == #1 &&. p "eligible" == #2 &&.
             holds (merge_sort Z.le pair_values = [114; 115]) &&.
             item pair_pids 0 != item pair_pids 1 &&. item pair_harts 0 != item pair_harts 1 &&.
             holds (Forall (fun pid => 0 < pid)%Z pair_pids) &&. holds (Forall (fun hart => 0 <= hart)%Z pair_harts) &&.
             isint (p "old") &&. fetch pair "old" != #0 &&. holds (Forall (fun pa => pa <> 0) pair_new) &&.
             (old ← fetch pair "old"; holds (set_size (old :: (DInt <$> pair_new)) = 3%nat)) &&.
             holds (pair_refs = [1; 1; 1]))
     [T "two-hart simultaneous split oracle failed"])%dyn.

(** [int(fields.get(key, -1))]: a text is read again, in base ten. *)
Definition int_of (fields : record) (key : string) : result Z :=
  match default (DInt (-1)) (lookup_key (u key) fields) with
  | DInt z => Ok z
  | DStr s => of_option ValueError (int10 s)
  | DNone => Raise TypeError
  end.

Definition check_boundary (boundary : record) : result () :=
  (let b := look boundary in
   text_flags ← int_of boundary "text_flags";
   text_ref ← int_of boundary "text_ref";
   text_cow ← int_of boundary "text_cow";
   require ((Z.land text_flags 31 =? 27) && (2 <=? text_ref) && (text_cow =? 0))
     [T "text boundary PTE ownership relation failed"];;
   guard_flags ← int_list boundary "guard_flags" 2 "guard flags";
   guard_cows ← int_list boundary "guard_cows" 2 "guard cows";
   requireR (isint (b "text_pa") &&. fetch boundary "text_pa" != #0 &&. isint (b "guard_parent_pa") &&.
             isint (b "guard_child_pa") &&. fetch boundary "guard_parent_pa" != #0 &&.
             fetch boundary "guard_child_pa" != #0 &&.
             fetch boundary "guard_parent_pa" != fetch boundary "guard_child_pa" &&.
             holds (Forall (fun value => Z.land value 16 = 0) guard_flags) &&. holds (guard_cows = [0; 0]) &&.
             b "guard_status" == #(-1) &&. b "text_status" == #(-1) &&. b "tail_status" == #0)
     [T "text/guard/tail boundary oracle failed"])%dyn.

Definition check_teardown (teardown : record) : result () :=
  (let t := look teardown in
   validate_single_leaf teardown "parent_flags" "parent_ref" "parent_cow" 19 1 1 "teardown parent";;
   bad_flags ← int_list teardown "bad_flags" 2 "teardown bad flags";
   bad_refs ← int_list teardown "bad_refs" 2 "teardown bad refs";
   bad_cows ← int_list teardown "bad_cows" 2 "teardown bad cows";
   requireR (t "shrink_leaf" == #0 &&. t "child_pa" == #0 &&. t "parent_pa" != #0 &&. t "exec_bad" == #(-1) &&.
             t "bad_before_pa" == t "bad_after_pa" &&. t "bad_before_pa" != #0 &&.
             holds (masked bad_flags = [19; 19]) &&. holds (bad_refs = [2; 2]) &&. holds (bad_cows = [1; 1]) &&.
             t "bad_value" == #25 &&. t "exec_status" == #0 &&. t "errors" == #0)
     [T "teardown/exec oracle failed"])%dyn.

Definition check_case (c : case) : record -> result () :=
  match c with
  | SHARE => check_share
  | MULTI => check_multi
  | LAZY => check_lazy
  | COPYOUT => check_copyout
  | PARTIAL => check_partial
  | OOM => check_oom
  | ROLLBACK => check_rollback
  | PAIR => check_pair
  | BOUNDARY => check_boundary
  | TEARDOWN => check_teardown
  end.

(** * The trace *)

(** The one marker with this label, and its fields *)
Definition read_marker (output : pystr) (label : string) (expected : list string) : result (pystr * record) :=
  line ← only_line (marker_lines output ("COW " ++ label ++ " ")%string)
    [T "COW "; T label; T " marker count changed"];
  fields ← parse_fields line;
  require_exact_fields fields expected ("COW " ++ label)%string;;
  Ok (line, fields).

Definition allowed : list pystr :=
  ((fun c => u "COW " ++ u (case_name c)) <$> CASE_NAMES) ++ [u "COW PASS"; u "COW CLEAN"].
(** [line.split(" ", 2)[0] + " " + line.split(" ", 2)[1]] *)
Definition label_of (line : pystr) : result pystr :=
  first ← of_option IndexError (splitn 2 (u " ") line !! 0%nat);
  second ← of_option IndexError (splitn 2 (u " ") line !! 1%nat);
  Ok (first ++ u " " ++ second).

Definition validate_cowtrace (output : pystr) : result (list pystr * pystr) :=
  require (bool_decide (marker_lines output "COW FAIL " = []))
    [T "cowtrace reported failed oracle(s): "; Elided];;
  cases ← mapR (fun c => read_marker output (case_name c) (MARKER_FIELDS c)) CASE_NAMES;
  '(pass_line, passed) ← read_marker output "PASS" PASS_FIELDS;
  requireR (eqR (look passed "cases") (Ok (DInt (len CASE_NAMES))))
    [T "COW PASS case count does not match observed cases"];;
  '(clean_line, clean) ← read_marker output "CLEAN" CLEAN_FIELDS;
  check_clean clean;;
  mapR (fun '(c, (_, fields)) => check_case c fields) (zip CASE_NAMES cases);;
  observed ← mapR label_of (filter (fun line => startswith line (u "COW ") = true) (splitlines output));
  require (forallb (fun label => bool_decide (label ∈ allowed)) observed)
    [T "unexpected COW markers: "; Elided];;
  Ok (cases.*1 ++ [pass_line; clean_line], output).

Definition validate_regression (name : string) (output : pystr) : result () :=
  require (negb (contains (u "SOME TESTS FAILED") output)) [T "related regression failed: "; T name];;
  require (count (u "ALL TESTS PASSED") output =? 1) [T "related marker count changed: "; T name];;
  require (contains (u ("test " ++ name ++ ":")%string) output) [T "related test did not execute: "; T name];;
  require (negb (contains (u "COW ") output)) [T "audit marker leaked into related regression: "; T name].
