(* ===== verification/CowProps.v ===== *)
(** What the copy-on-write oracle guarantees: in an accepted trace no page is
    shared and writable at once, split pages are in different frames, and the
    page ledger is as before.  The only exception besides [LabError] is the
    [ValueError] of a text boundary field that is no number. *)

From stdpp Require Import base tactics list gmap strings numbers list_numbers sorting.
From S2P Require Import Prelude PyText PyBytes PyRegex PyJson PyPath PyDyn PyMarkers SourceCheck CowLab.
Open Scope Z_scope.

(** * Leaves *)

(** The permission bits of a page-table entry *)
Definition PTE_V := 0.
Definition PTE_W := 2.
Definition PTE_X := 3.
Definition PTE_U := 4.

(** A data page of the user that is mapped, and copy-on-write exactly when it cannot be
    written; a page that can be written has one owner. *)
Definition safe_leaf (flags ref cow : Z) : Prop :=
  Z.testbit flags PTE_V = true /\ Z.testbit flags PTE_U = true /\
  (cow = 1 /\ Z.testbit flags PTE_W = false \/ cow = 0 /\ Z.testbit flags PTE_W = true /\ ref = 1).

(** The [n] leaves that three fields describe *)
Definition safe_leaves (fields : record) (flags refs cows : string) (n : Z) : Prop :=
  exists fs rs ks, int_list fields flags n "" = Ok fs /\ int_list fields refs n "" = Ok rs /\
    int_list fields cows n "" = Ok ks /\ len fs = n /\ Forall3 safe_leaf fs rs ks.

(** Two frames of different addresses *)
Definition apart (fields : record) (a b : string) : Prop :=
  exists x y, fetch fields a = Ok (DInt x) /\ fetch fields b = Ok (DInt y) /\ x <> 0 /\ y <> 0 /\ x <> y.

(** The leaves of data pages; a trace also reports those of the program text, of
    the guard page, and of pages that are not mapped yet, which are in
    [other_leaves]. *)
Definition leaf_fields : list (case * string * string * string * Z) :=
  [ (SHARE, "before_flags", "before_refs", "before_cows", 2);
    (SHARE, "after_flags", "after_refs", "after_cows", 2);
    (SHARE, "fast_flags", "fast_ref", "fast_cow", 1);
    (MULTI, "before_flags", "before_refs", "before_cows", 3);
    (MULTI, "after_flags", "after_refs", "after_cows", 3);
    (LAZY, "after_flags", "after_refs", "after_cows", 2);
    (COPYOUT, "flags", "refs", "cows", 2);
    (PARTIAL, "parent_flags", "parent_refs", "parent_cows", 2);
    (PARTIAL, "child_flags", "child_refs", "child_cows", 2);
    (OOM, "old_flags", "old_ref", "old_cow", 1);
    (ROLLBACK, "preexisting_flags", "preexisting_ref", "preexisting_cow", 1);
    (ROLLBACK, "new_parent_flags", "new_parent_ref", "new_parent_cow", 1);
    (ROLLBACK, "fast_flags", "fast_ref", "fast_cow", 1);
    (PAIR, "flags", "refs", "cows", 3);
    (TEARDOWN, "parent_flags", "parent_ref", "parent_cow", 1);
    (TEARDOWN, "bad_flags", "bad_refs", "bad_cows", 2) ]%string.

(** The text is shared, executable and never writable, and not copy-on-write; the
    guard page belongs to no user and is not copy-on-write either; a page that
    was not touched has no entry. *)
Record other_leaves (boundary lazy : record) : Prop := {
  ol_text : exists f r, int_of boundary "text_flags" = Ok f /\ int_of boundary "text_ref" = Ok r /\
    int_of boundary "text_cow" = Ok 0 /\ 2 <= r /\ Z.testbit f PTE_V = true /\ Z.testbit f PTE_U = true /\
    Z.testbit f PTE_X = true /\ Z.testbit f PTE_W = false;
  ol_guard : exists fs, int_list boundary "guard_flags" 2 "" = Ok fs /\ len fs = 2 /\
    Forall (fun f => Z.testbit f PTE_U = false) fs /\ int_list boundary "guard_cows" 2 "" = Ok [0; 0];
  ol_lazy : int_list lazy "before_flags" 2 "" = Ok [0; 0] }.

(** ** Lists of numbers *)

Lemma int_list_context fields key n c c' l : int_list fields key n c = Ok l -> int_list fields key n c' = Ok l.
Proof.
  unfold int_list, parse_int_list. destruct (default _ _); intros H; [done| |].
  - inv_ok. cbn. done.
  - inv_ok. cbn. apply mapR_ok in H. apply mapR_ok. eapply Forall2_impl; [exact H|].
    intros p z Hp. cbv beta in *. destruct (int0 p); cbn in *; congruence.
Qed.

Lemma int_list_length fields key n c l : int_list fields key n c = Ok l -> len l = n.
Proof.
  unfold int_list, parse_int_list. destruct (default _ _); intros H; [done| |]; inv_ok.
  - apply Z.eqb_eq in C. rewrite C. done.
  - apply mapR_ok, Forall2_length in H. apply Z.eqb_eq in C. rewrite !len_length in *. by rewrite <- C, H.
Qed.

(** The low five bits decide. *)
Lemma low_bits f m i : Z.land f 31 = m -> 0 <= i < 5 -> Z.testbit f i = Z.testbit m i.
Proof.
  intros <- Hi. rewrite Z.land_spec. change 31 with (Z.ones 5).
  rewrite Z.ones_spec_low by lia. by rewrite andb_true_r.
Qed.

Lemma masked_leaf f r k m :
  Z.land f 31 = m -> (k = 1 /\ m = 19 \/ k = 0 /\ m = 23 /\ r = 1) -> safe_leaf f r k.
Proof.
  intros E H. unfold safe_leaf, PTE_V, PTE_W, PTE_U.
  rewrite !(low_bits f m _ E) by lia. destruct H as [[-> ->]|(-> & -> & ->)]; split_and!; auto.
Qed.

Lemma listed_leaves fields flags refs cows n c1 c2 c3 fs rs ks ms :
  int_list fields flags n c1 = Ok fs -> int_list fields refs n c2 = Ok rs ->
  int_list fields cows n c3 = Ok ks -> masked fs = ms ->
  Forall3 (fun m r k => k = 1 /\ m = 19 \/ k = 0 /\ m = 23 /\ r = 1) ms rs ks ->
  safe_leaves fields flags refs cows n.
Proof.
  intros Hf Hr Hk <- H. exists fs, rs, ks.
  split_and!; [by eapply int_list_context..|by eapply int_list_length|].
  clear -H. unfold masked in H. remember ((fun v => Z.land v 31) <$> fs) as ms eqn:E.
  revert fs E. induction H as [|m r k ms rs ks Hm _ IH]; intros [|f fs] E; try done; constructor.
  - eapply masked_leaf; [|exact Hm]. by injection E.
  - apply IH. by injection E.
Qed.

Lemma uniform_leaves (P : Z -> Z -> Z -> Prop) fs rs ks m r k :
  P m r k -> length fs = length rs -> length fs = length ks ->
  forallb (fun v => Z.land v 31 =? m) fs = true -> forallb (fun v => v =? r) rs = true ->
  forallb (fun v => v =? k) ks = true -> Forall3 P (masked fs) rs ks.
Proof.
  intros HP. revert rs ks. induction fs as [|x fs IH]; intros [|y rs] [|z ks]; try done; [constructor|].
  cbn [forallb]. rewrite !andb_true_iff, !Z.eqb_eq. intros [= ?] [= ?] [? ?] [-> ?] [-> ?].
  unfold masked. rewrite fmap_cons. constructor; [congruence|by apply IH].
Qed.

Lemma leaf_fields_safe fields flags refs cows n m r k context :
  validate_leaf_fields fields flags refs cows n m r k context = Ok tt ->
  (k = 1 /\ m = 19 \/ k = 0 /\ m = 23 /\ r = 1) -> safe_leaves fields flags refs cows n.
Proof.
  unfold validate_leaf_fields. intros H Hs. inv_ok.
  eapply listed_leaves; [eassumption..|reflexivity|].
  repeat match goal with H : int_list _ _ _ _ = Ok _ |- _ => apply int_list_length in H; rewrite len_length in H end.
  eapply uniform_leaves; [exact Hs|lia|lia|eassumption..].
Qed.

Lemma apart_facts fields a b x y :
  fetch fields a = Ok (DInt x) -> fetch fields b = Ok (DInt y) -> DInt x <> DInt 0 -> DInt y <> DInt 0 ->
  DInt x <> DInt y -> apart fields a b.
Proof. intros ? ? ? ? ?. exists x, y. split_and!; congruence. Qed.

(** ** Case by case *)

Ltac leaves :=
  first [ eapply leaf_fields_safe; [eassumption|lia]
        | eapply listed_leaves; [eassumption..| |]; [eassumption|repeat constructor; lia] ].
Ltac frames := eapply apart_facts; [eassumption..| | |]; congruence.

Lemma share_safe f : check_share f = Ok tt ->
  safe_leaves f "before_flags" "before_refs" "before_cows" 2 /\
  safe_leaves f "after_flags" "after_refs" "after_cows" 2 /\
  safe_leaves f "fast_flags" "fast_ref" "fast_cow" 1 /\
  apart f "pa" "parent_new" /\ look f "pa" = look f "child_old".
Proof.
  unfold check_share, validate_single_leaf, nonzero. intros H. inv_ok. facts. subst.
  split_and!; [leaves..| |congruence].
  merge. frames.
Qed.

Lemma len_three (l : list Z) : len l = 3 -> exists a b c, l = [a; b; c].
Proof. rewrite len_length. destruct l as [|a [|b [|c [|? ?]]]]; cbn; try lia. eauto. Qed.
Lemma len_two (l : list Z) : len l = 2 -> exists a b, l = [a; b].
Proof. rewrite len_length. destruct l as [|a [|b [|? ?]]]; cbn; try lia. eauto. Qed.

Lemma set_size_NoDup {A} `{!EqDecision A} (l : list A) : set_size l = length l -> NoDup l.
Proof.
  unfold set_size. assert (forall l : list A, (length (remove_dups l) <= length l)%nat) as B.
  { intros k. induction k as [|x k IH]; cbn; [done|]. case_decide; cbn; lia. }
  induction l as [|x l IH]; [constructor|]. cbn. specialize (B l). case_decide; cbn; [lia|].
  intros [= ?]. constructor; auto.
Qed.

(** Two owners keep the frame, the writer has another one. *)
Definition one_split (f : record) : Prop := exists p q,
  fetch f "shared_pa" = Ok (DInt p) /\ int_list f "after_pa" 3 "" = Ok [p; p; q] /\ p <> 0 /\ q <> 0 /\ p <> q.

Lemma multi_safe f : check_multi f = Ok tt ->
  safe_leaves f "before_flags" "before_refs" "before_cows" 3 /\
  safe_leaves f "after_flags" "after_refs" "after_cows" 3 /\ one_split f.
Proof.
  unfold check_multi, nonzero. intros H. inv_ok. facts. subst.
  split_and!; [leaves..|].
  match goal with H : int_list f "after_pa" 3 _ = Ok ?l |- _ =>
    destruct (len_three l (int_list_length _ _ _ _ _ H)) as (p & p' & q & ->); apply (int_list_context _ _ _ _ "") in H
  end.
  cbn in *. inv_ok. merge. simplify_eq. do 2 eexists. split_and!; [eassumption..|congruence|congruence|congruence].
Qed.

Lemma lazy_safe f : check_lazy f = Ok tt ->
  safe_leaves f "after_flags" "after_refs" "after_cows" 2 /\ apart f "parent_pa" "child_pa".
Proof.
  unfold check_lazy. intros H. inv_ok. facts. subst. split_and!; [leaves|]. merge. frames.
Qed.

Lemma copyout_safe f : check_copyout f = Ok tt ->
  safe_leaves f "flags" "refs" "cows" 2 /\ apart f "parent_pa" "child_pa".
Proof.
  unfold check_copyout, item_mask. intros H. inv_ok. facts. subst. split.
  - match goal with H : int_list f "flags" 2 _ = Ok ?l |- _ =>
      destruct (len_two l (int_list_length _ _ _ _ _ H)) as (p & q & ->) end.
    cbn in *. inv_ok. eapply listed_leaves; [eassumption..|reflexivity|].
    unfold masked. rewrite !fmap_cons. repeat constructor; lia.
  - merge. frames.
Qed.

Lemma partial_safe f : check_partial f = Ok tt ->
  safe_leaves f "parent_flags" "parent_refs" "parent_cows" 2 /\
  safe_leaves f "child_flags" "child_refs" "child_cows" 2 /\
  exists ps cs, int_list f "parent" 2 "" = Ok ps /\ int_list f "child" 2 "" = Ok cs /\ NoDup (ps ++ cs).
Proof.
  unfold check_partial. intros H. inv_ok. facts. subst. split_and!; [leaves..|].
  eexists _, _. split_and!; [by eapply int_list_context..|].
  repeat match goal with H : int_list _ _ _ _ = Ok _ |- _ => apply int_list_length in H; rewrite len_length in H end.
  apply set_size_NoDup. rewrite length_app. lia.
Qed.

Lemma oom_safe f : check_oom f = Ok tt -> safe_leaves f "old_flags" "old_ref" "old_cow" 1.
Proof. unfold check_oom, validate_single_leaf. intros H. inv_ok. leaves. Qed.

Lemma rollback_safe f : check_rollback f = Ok tt ->
  safe_leaves f "preexisting_flags" "preexisting_ref" "preexisting_cow" 1 /\
  safe_leaves f "new_parent_flags" "new_parent_ref" "new_parent_cow" 1 /\
  safe_leaves f "fast_flags" "fast_ref" "fast_cow" 1 /\
  exists n, 0 < n /\ fetch f "setup_free" = Ok (DInt n) /\ fetch f "after_fork_free" = Ok (DInt n).
Proof.
  unfold check_rollback, validate_single_leaf. intros H. inv_ok. facts. split_and!; [leaves..|].
  merge. facts. merge. subst. eauto.
Qed.

Lemma pair_safe f : check_pair f = Ok tt ->
  safe_leaves f "flags" "refs" "cows" 3 /\
  exists old new, fetch f "old" = Ok old /\ int_list f "new" 2 "" = Ok new /\ NoDup (old :: (DInt <$> new)).
Proof.
  unfold check_pair. intros H. inv_ok. facts. subst. split_and!; [leaves|].
  match goal with H : (fetch f "old" ≫= _) = _, E : fetch f "old" = Ok (DInt _) |- _ =>
    rewrite E in H; cbn [mbind result_bind] in H end. facts. merge.
  eexists _, _. split_and!; [eassumption|by eapply int_list_context|].
  apply set_size_NoDup. cbn [length]. rewrite length_fmap.
  match goal with H : int_list f "new" 2 _ = Ok _ |- _ => apply int_list_length in H; rewrite len_length in H end.
  lia.
Qed.

Lemma boundary_safe f : check_boundary f = Ok tt -> apart f "guard_parent_pa" "guard_child_pa".
Proof. unfold check_boundary. intros H. inv_ok. facts. merge. frames. Qed.

Lemma other_leaves_safe b l : check_boundary b = Ok tt -> check_lazy l = Ok tt -> other_leaves b l.
Proof.
  unfold check_boundary, check_lazy. intros Hb Hl. inv_ok. facts. to_prop. subst. split.
  - match goal with H : Z.land ?f 31 = 27 |- _ => rename H into Hm; exists f end. eexists.
    unfold PTE_V, PTE_U, PTE_X, PTE_W. rewrite !(low_bits _ _ _ Hm) by lia. split_and!; done.
  - match goal with H : int_list b "guard_flags" _ _ = Ok ?fs |- _ => exists fs; pose proof (int_list_length _ _ _ _ _ H) end.
    split_and!; [by eapply int_list_context|done| |by eapply int_list_context].
    match goal with H : Forall _ ?fs |- Forall _ ?fs => eapply Forall_impl; [exact H|] end.
    intros f Hf. unfold PTE_U. apply (f_equal (fun z => Z.testbit z 4)) in Hf. cbv beta in Hf.
    rewrite Z.land_spec in Hf. change (Z.testbit 16 4) with true in Hf. by rewrite andb_true_r in Hf.
  - by eapply int_list_context.
Qed.

Lemma teardown_safe f : check_teardown f = Ok tt ->
  safe_leaves f "parent_flags" "parent_ref" "parent_cow" 1 /\
  safe_leaves f "bad_flags" "bad_refs" "bad_cows" 2.
Proof.
  unfold check_teardown, validate_single_leaf. intros H. inv_ok. facts. subst. split_and!; leaves.
Qed.

(** * The trace *)

(** The fields of the one marker of a case *)
Definition marked (output : pystr) (label : string) (fields : record) : Prop :=
  exists line, marker_lines output ("COW " ++ label ++ " ")%string = [line] /\ parse_fields line = Ok fields.

(** Pages after a split are in frames of their own. *)
Record split_apart (fields : case -> record) : Prop := {
  sa_share : apart (fields SHARE) "pa" "parent_new" /\
    look (fields SHARE) "pa" = look (fields SHARE) "child_old";
  sa_multi : one_split (fields MULTI);
  sa_lazy : apart (fields LAZY) "parent_pa" "child_pa";
  sa_copyout : apart (fields COPYOUT) "parent_pa" "child_pa";
  sa_partial : exists ps cs, int_list (fields PARTIAL) "parent" 2 "" = Ok ps /\
    int_list (fields PARTIAL) "child" 2 "" = Ok cs /\ NoDup (ps ++ cs);
  sa_pair : exists old new, fetch (fields PAIR) "old" = Ok old /\
    int_list (fields PAIR) "new" 2 "" = Ok new /\ NoDup (old :: (DInt <$> new));
  sa_guard : apart (fields BOUNDARY) "guard_parent_pa" "guard_child_pa" }.

(** The free pages, the active references and the errors at the end *)
Definition ledger_kept (clean : record) : Prop :=
  look clean "base" = look clean "after" /\ fetch clean "errors" = Ok (DInt 0) /\
  (exists n, 0 < n /\ fetch clean "active_before" = Ok (DInt n) /\ fetch clean "active_after" = Ok (DInt n)) /\
  (exists n, 0 < n /\ fetch clean "refs_before" = Ok (DInt n) /\ fetch clean "refs_after" = Ok (DInt n)).

Lemma clean_kept clean : check_clean clean = Ok tt -> ledger_kept clean.
Proof.
  unfold check_clean. intros H. facts. merge. facts. merge. subst.
  split_and!; [congruence|done|by eauto..].
Qed.

Lemma read_marker_ok output label expected line fields :
  read_marker output label expected = Ok (line, fields) -> marked output label fields.
Proof.
  unfold read_marker, only_line. intros H. inv_ok. repeat case_match; inv_ok; try done. by eexists.
Qed.

(** What [validate_cowtrace] established before it returned *)
Lemma cowtrace_cases output m : validate_cowtrace output = Ok m ->
  exists (fields : case -> record) clean,
    (forall c, marked output (case_name c) (fields c) /\ check_case c (fields c) = Ok tt) /\
    marked output "CLEAN" clean /\ check_clean clean = Ok tt.
Proof.
  unfold validate_cowtrace. intros H.
  apply bind_ok in H as ([] & _ & H). apply bind_ok in H as (cases & Hc & H).
  apply bind_ok in H as ([? ?] & _ & H). apply bind_ok in H as ([] & _ & H).
  apply bind_ok in H as ([? clean] & Hl & H). apply bind_ok in H as ([] & Hk & H).
  apply bind_ok in H as (us & Hu & _). apply read_marker_ok in Hl.
  apply mapR_ok in Hc, Hu. unfold CASE_NAMES in Hc.
  repeat match goal with H : Forall2 _ (_ :: _) _ |- _ => apply Forall2_cons_inv_l in H as ([? ?] & ? & ? & H & ->) end.
  apply Forall2_nil_inv_l in Hc as ->. cbn in Hu.
  repeat match goal with H : Forall2 _ (_ :: _) _ |- _ => apply Forall2_cons_inv_l in H as ([] & ? & ? & H & ->) end.
  match goal with
  | H0 : read_marker _ _ (MARKER_FIELDS SHARE) = Ok (_, ?f0), H1 : read_marker _ _ (MARKER_FIELDS MULTI) = Ok (_, ?f1),
    H2 : read_marker _ _ (MARKER_FIELDS LAZY) = Ok (_, ?f2), H3 : read_marker _ _ (MARKER_FIELDS COPYOUT) = Ok (_, ?f3),
    H4 : read_marker _ _ (MARKER_FIELDS PARTIAL) = Ok (_, ?f4), H5 : read_marker _ _ (MARKER_FIELDS OOM) = Ok (_, ?f5),
    H6 : read_marker _ _ (MARKER_FIELDS ROLLBACK) = Ok (_, ?f6), H7 : read_marker _ _ (MARKER_FIELDS PAIR) = Ok (_, ?f7),
    H8 : read_marker _ _ (MARKER_FIELDS BOUNDARY) = Ok (_, ?f8), H9 : read_marker _ _ (MARKER_FIELDS TEARDOWN) = Ok (_, ?f9) |- _ =>
      exists (fun c => match c with SHARE => f0 | MULTI => f1 | LAZY => f2 | COPYOUT => f3 | PARTIAL => f4
                               | OOM => f5 | ROLLBACK => f6 | PAIR => f7 | BOUNDARY => f8 | TEARDOWN => f9 end), clean
  end.
  split; [|done]. intros []; split; try assumption; by eapply read_marker_ok.
Qed.

(** C4: In an accepted trace every reported leaf of a data page is copy-on-write
    exactly when it is write protected, and a writable one has a single owner;
    the leaf of the program text is shared, never writable and not copy-on-write,
    so that no page is shared and writable.  After every split the owners are in
    different frames, and the page and reference ledger ends as it began. *)
Theorem cowtrace_isolates output m :
  validate_cowtrace output = Ok m ->
  exists (fields : case -> record) clean,
    (forall c, marked output (case_name c) (fields c)) /\
    Forall (fun '(c, flags, refs, cows, n) => safe_leaves (fields c) flags refs cows n) leaf_fields /\
    other_leaves (fields BOUNDARY) (fields LAZY) /\
    split_apart fields /\ marked output "CLEAN" clean /\ ledger_kept clean.
Proof.
  intros (fields & clean & H & Hm & Hk%clean_kept)%cowtrace_cases. exists fields, clean.
  assert (forall c, check_case c (fields c) = Ok tt) as K by (intros c; apply H).
  destruct (share_safe _ (K SHARE)) as (? & ? & ? & ? & ?), (multi_safe _ (K MULTI)) as (? & ? & ?),
    (lazy_safe _ (K LAZY)) as (? & ?), (copyout_safe _ (K COPYOUT)) as (? & ?),
    (partial_safe _ (K PARTIAL)) as (? & ? & ?), (rollback_safe _ (K ROLLBACK)) as (? & ? & ? & _),
    (pair_safe _ (K PAIR)) as (? & ?), (teardown_safe _ (K TEARDOWN)) as (? & ?).
  pose proof (oom_safe _ (K OOM)). pose proof (boundary_safe _ (K BOUNDARY)).
  split_and!; [intros c; apply H| |exact (other_leaves_safe _ _ (K BOUNDARY) (K LAZY))|by split|done|done].
  unfold leaf_fields. by repeat (apply Forall_cons_2; [assumption|]).
Qed.

(** ** A trace *)

Definition sample_lines : list string := [
  "COW SHARE pa=0x87f40000 parent_new=0x87f41000 child_old=0x87f40000 before_flags=0x13/0x13 before_refs=2/2 before_cows=1/1 after_flags=0x17/0x13 after_refs=1/1 after_cows=0/1 fast_flags=0x17 fast_ref=1 fast_cow=0 parent_alloc=1 child_alloc=0 values=34/51";
  "COW MULTI root=4 child=5 grandchild=6 shared_pa=0x87f40000 before_flags=0x13/0x13/0x13 before_refs=3/3/3 before_cows=1/1/1 after_pa=0x87f40000/0x87f40000/0x87f41000 after_flags=0x13/0x13/0x17 after_refs=2/2/1 after_cows=1/1/0 before_values=33/33/33 after_values=33/33/42";
  "COW LAZY before=0/0 before_flags=0/0 parent_pa=0x87f40000 child_pa=0x87f41000 after_flags=0x17/0x17 after_refs=1/1 after_cows=0/0 values=102/85";
  "COW COPYOUT parent_pa=0x87f40000 child_pa=0x87f41000 flags=0x13/0x17 refs=1/1 cows=1/0 parent=68 child=97/98/99/100";
  "COW PARTIAL generation=5 eligible=2 first=16 retry=16 fail_at=2 fired=1 parent=0x1000/0x2000 child=0x3000/0x4000 parent_flags=0x13/0x13 child_flags=0x17/0x17 parent_refs=1/1 child_refs=1/1 parent_cows=1/1 child_cows=0/0 parent_values=65/65 child_values=32/48";
  "COW OOM generation=6 eligible=1 status=-1 fail_at=1 fired=1 old_pa=0x1000 old_flags=0x13 old_ref=1 old_cow=1 fast_alloc=0 value=51";
  "COW ROLLBACK generation=7 fork=-1 fail_at=8 fired=1 eligible=8 preexisting_pa=0x1000 preexisting_flags=0x13 preexisting_ref=2 preexisting_cow=1 new_parent_flags=0x17 new_parent_ref=1 new_parent_cow=0 fast_flags=0x17 fast_ref=1 fast_cow=0 fast_alloc=0 setup_free=31000 after_fork_free=31000 values=65/82/67";
  "COW PAIR generation=8 pids=9/10 harts=0/1 arrived=3 gate_open=1 eligible=2 old=0x1000 new=0x2000/0x3000 flags=0x13/0x17/0x17 refs=1/1/1 cows=1/0/0 values=115/114";
  "COW BOUNDARY text_pa=0x1000 text_flags=0x1b text_ref=2 text_cow=0 guard_parent_pa=0x2000 guard_child_pa=0x3000 guard_flags=0x7/0x7 guard_cows=0/0 guard_status=-1 text_status=-1 tail_status=0";
  "COW TEARDOWN shrink_leaf=0 child_pa=0 parent_pa=0x1000 parent_flags=0x13 parent_ref=1 parent_cow=1 exec_bad=-1 bad_before_pa=0x2000 bad_after_pa=0x2000 bad_flags=0x13/0x13 bad_refs=2/2 bad_cows=1/1 bad_value=25 exec_status=0 errors=0";
  "COW PASS cases=10";
  "COW CLEAN base=31000 after=31000 errors=0 active_before=120 active_after=120 refs_before=121 refs_after=121" ]%string.
Definition sample (lines : list string) : pystr := mjoin ((fun l => u l ++ [newline]) <$> lines).

Lemma cowtrace_isolates_witness : exists m, validate_cowtrace (sample sample_lines) = Ok m /\
  exists (fields : case -> record), split_apart fields.
Proof.
  eexists. assert (validate_cowtrace (sample sample_lines) = Ok _) as H by (vm_compute; reflexivity).
  split; [exact H|]. destruct (cowtrace_isolates _ _ H) as (f & _ & _ & _ & _ & K & _). exists f. exact K.
Defined.

(** * What can be raised *)

Definition cow_errors (e : exn) : Prop := match e with LabError _ | ValueError => True | _ => False end.

Lemma int_list_raises fields key n c : raises cow_errors (int_list fields key n c).
Proof.
  unfold int_list, parse_int_list. destruct (default _ _).
  - by apply raises_raise.
  - apply raises_bind; [by apply raises_require|]. intros. apply raises_ok.
  - apply raises_bind; [by apply raises_require|]. intros. apply raises_mapR. intros. by apply raises_of_option.
Qed.

Lemma item_raises fields key n c l (i : nat) :
  int_list fields key n c = Ok l -> Z.of_nat i < n -> raises cow_errors (item l i).
Proof.
  intros L%int_list_length Hi. rewrite len_length in L. unfold item.
  destruct (lookup_lt_is_Some_2 l i ltac:(lia)) as [z ->]. apply raises_ok.
Qed.

Lemma item_mask_raises fields key n c l (i : nat) :
  int_list fields key n c = Ok l -> Z.of_nat i < n -> raises cow_errors (item_mask l i).
Proof.
  intros L%int_list_length Hi. rewrite len_length in L. unfold item_mask, item.
  destruct (lookup_lt_is_Some_2 l i ltac:(lia)) as [z ->]. apply raises_ok.
Qed.

Lemma leaf_fields_raises fields flags refs cows n m r k c :
  raises cow_errors (validate_leaf_fields fields flags refs cows n m r k c).
Proof.
  unfold validate_leaf_fields.
  do 3 (apply raises_bind; [apply int_list_raises|intros ? _]).
  do 2 (apply raises_bind; [by apply raises_require|intros ? _]). by apply raises_require.
Qed.
#[local] Hint Resolve int_list_raises leaf_fields_raises : raises.

Ltac bounded :=
  repeat first
    [ apply int_list_raises | apply leaf_fields_raises | by apply raises_require
    | apply raises_requireR; [|exact I]
    | match goal with
      | H : int_list _ _ _ _ = Ok ?l |- raises _ (item ?l _) => by apply (item_raises _ _ _ _ _ _ H)
      | H : int_list _ _ _ _ = Ok ?l |- raises _ (item_mask ?l _) => by apply (item_mask_raises _ _ _ _ _ _ H)
      end
    | apply raises_bind; [|intros ? ?]
    | progress cbn [allR mapR] | progress condition ].

(** A field that was read is a number or a text. *)
Lemma parse_fields_values line fields :
  parse_fields line = Ok fields -> Forall (fun e => e.2 <> DNone) fields.
Proof.
  unfold parse_fields. intros H. inv_ok.
  refine (foldM_inv add_field (fun _ fs => Forall (fun e => e.2 <> DNone) fs) _ _ _ _ _ H); [constructor|].
  intros done_ token s s' _ Hs Ha. unfold add_field in Ha. case_match; [|done].
  case_match. inv_ok. apply Forall_app. split; [done|]. apply Forall_singleton. cbn.
  unfold dyn_of. by case_match.
Qed.

Lemma int_of_raises fields key : Forall (fun e => e.2 <> DNone) fields -> raises cow_errors (int_of fields key).
Proof.
  intros H. unfold int_of. destruct (lookup_key _ _) as [[]|] eqn:E; cbn [default].
  - apply lookup_key_Some in E. rewrite Forall_forall in H. by apply H in E.
  - apply raises_ok.
  - by apply raises_of_option.
  - apply raises_ok.
Qed.

Lemma case_raises c fields :
  Forall (fun e => e.2 <> DNone) fields -> raises cow_errors (check_case c fields).
Proof.
  intros Hv. destruct c; cbn [check_case];
    unfold check_share, check_multi, check_lazy, check_copyout, check_partial, check_oom, check_rollback,
      check_pair, check_boundary, check_teardown, validate_single_leaf, nonzero; bounded;
    by apply int_of_raises.
Qed.

Lemma read_marker_raises output label expected : raises cow_errors (read_marker output label expected).
Proof.
  unfold read_marker, only_line. apply raises_bind; [by repeat case_match; [apply raises_raise|apply raises_ok|apply raises_raise]|].
  intros line _. apply raises_bind.
  - unfold parse_fields. apply raises_bind; [by apply raises_require|]. intros _ _. apply raises_foldM.
    intros s a. unfold add_field. case_match; [|by apply raises_raise]. case_match.
    apply raises_bind; [by apply raises_require|]. intros. apply raises_ok.
  - intros f _. apply raises_bind; [by apply raises_require|]. intros. apply raises_ok.
Qed.

Lemma read_marker_values output label expected line fields :
  read_marker output label expected = Ok (line, fields) -> Forall (fun e => e.2 <> DNone) fields.
Proof. intros (l & _ & H)%read_marker_ok. by eapply parse_fields_values. Qed.

(** A line that starts with [COW ] has a second word. *)
Lemma label_of_raises line : startswith line (u "COW ") = true -> raises cow_errors (label_of line).
Proof.
  intros H. change (u "COW ") with [67; 79; 87; 32] in H.
  do 4 (destruct line as [|? line]; cbn [startswith] in H; [done|]; apply andb_true_iff in H as [<-%Z.eqb_eq H]).
  unfold label_of, splitn. change (u " ") with [32]. cbn.
  destruct (cut [32] line) as [[? ?]|]; cbn; apply raises_ok.
Qed.

Lemma clean_raises clean : raises cow_errors (check_clean clean).
Proof. unfold check_clean. bounded. Qed.

Lemma cowtrace_raises output : raises cow_errors (validate_cowtrace output).
Proof.
  unfold validate_cowtrace. apply raises_bind; [by apply raises_require|intros ? _].
  apply raises_bind; [apply raises_mapR; intros; apply read_marker_raises|intros cases Hc].
  apply raises_bind; [apply read_marker_raises|intros [? ?] _].
  apply raises_bind; [by apply raises_requireR; [condition|]|intros ? _].
  apply raises_bind; [apply read_marker_raises|intros [? ?] _].
  apply raises_bind; [apply clean_raises|intros ? _].
  apply raises_bind; [|intros ? _].
  { apply mapR_ok in Hc. apply raises_mapR_elem. intros [c [line fields]] I.
    apply elem_of_lookup_zip_with in I as (i & c' & [l' f'] & [= -> -> ->] & H1 & H2).
    pose proof (Forall2_lookup_lr _ _ _ _ _ _ Hc H1 H2). apply case_raises. exact (read_marker_values _ _ _ _ _ H). }
  apply raises_bind; [|intros ? _].
  { apply raises_mapR_elem. intros line [H _]%list_elem_of_filter. by apply label_of_raises. }
  apply raises_bind; [by apply raises_require|]. intros. apply raises_ok.
Qed.

(** The copy-on-write oracle ends with a [LabError] on every trace it does
    not accept, unless a text-page field of the boundary case is a text that is
    no number: reading it again raises [ValueError]. *)
Theorem cowtrace_errors output e :
  validate_cowtrace output = Raise e -> (exists m, e = LabError m) \/ e = ValueError.
Proof. intros H%cowtrace_raises. destruct e; naive_solver. Qed.

(** The sample with other lines for two of its cases *)
Definition boundary_line (flags : string) : string :=
  "COW BOUNDARY text_pa=0x1000 text_flags=" ++ flags ++
  " text_ref=2 text_cow=0 guard_parent_pa=0x2000 guard_child_pa=0x3000 guard_flags=0x7/0x7 guard_cows=0/0 guard_status=-1 text_status=-1 tail_status=0".
Definition teardown_line (pa : string) : string :=
  "COW TEARDOWN shrink_leaf=0 child_pa=0 parent_pa=" ++ pa ++
  " parent_flags=0x13 parent_ref=1 parent_cow=1 exec_bad=-1 bad_before_pa=" ++ pa ++ " bad_after_pa=" ++ pa ++
  " bad_flags=0x13/0x13 bad_refs=2/2 bad_cows=1/1 bad_value=25 exec_status=0 errors=0".
Definition sample_with (flags pa : string) : pystr :=
  sample (<[8%nat := boundary_line flags]> (<[9%nat := teardown_line pa]> sample_lines)).

Lemma cowtrace_errors_witness : exists e, validate_cowtrace (sample_with "0x1b?" "0x1000") = Raise e /\
  ((exists m, e = LabError m) \/ e = ValueError).
Proof.
  eexists. assert (validate_cowtrace (sample_with "0x1b?" "0x1000") = Raise _) as H by (vm_compute; reflexivity).
  split; [exact H|]. exact (cowtrace_errors _ _ H).
Defined.

(** Addresses of the teardown case that are no numbers are accepted, because a
    text is not equal to zero; so is a decimal number with a leading zero. *)
Example text_addresses_accepted : exists m, validate_cowtrace (sample_with "027" "none") = Ok m.
Proof. eexists. vm_compute. reflexivity. Qed.

(** * The candidate *)

(** A candidate patch that is accepted names at least one path, each of
    them relative, without [..], in [kernel/], [user/] or the [Makefile], and
    none of the fixture's own files. *)
Theorem candidate_scope patch paths :
  validate_candidate_patch patch = Ok paths ->
  paths <> [] /\ NoDup paths /\
  Forall (fun p => safe_path p = true /\ p ∉ u <$> forbidden /\
    (startswith p (u "kernel/") = true \/ startswith p (u "user/") = true \/ p = u "Makefile")) paths.
Proof.
  unfold validate_candidate_patch. intros H. apply bind_ok in H as (ps & Hp & H).
  apply bind_ok in H as ([] & Hf & H). apply bind_ok in H as (us & Hm & H). inv_ok.
  destruct (patch_paths_safe _ _ Hp) as (He & Hn & Hs). split; [done|]. split; [done|].
  rewrite Forall_forall in *. intros p I. split; [by apply Hs|].
  destruct (mapR_each _ _ _ p Hm I) as ([] & Hb). cbv beta in Hb. inv_ok. to_prop. split.
  - rewrite forallb_forall in C. apply list_elem_of_In, C in I.
    by apply negb_true_iff, bool_decide_eq_false in I.
  - rewrite orb_true_iff, bool_decide_eq_true in C0. tauto.
Qed.

Definition sample_patch : pybytes :=
  u "diff --git a/kernel/vm.c b/kernel/vm.c" ++ [newline] ++ u "--- a/kernel/vm.c" ++ [newline] ++
  u "diff --git a/Makefile b/Makefile" ++ [newline].

Lemma candidate_scope_witness : exists paths, validate_candidate_patch sample_patch = Ok paths /\ NoDup paths.
Proof.
  eexists. assert (validate_candidate_patch sample_patch = Ok _) as H by (vm_compute; reflexivity).
  split; [exact H|]. exact (proj1 (proj2 (candidate_scope _ _ H))).
Defined.
