(* ===== verification/VmLab.v ===== *)
(** The virtual-memory lab,
    [docs/xv6-tutorial/resources/virtual-memory/run-lab.py]: the contracts its
    sources must show and the oracle of a guest run with its page-table flags,
    fault causes and page ledger. *)

From stdpp Require Import base tactics list gmap strings numbers list_numbers sorting.
From S2P Require Import Prelude PyText PyBytes PyRegex PyJson PyDyn SourceCheck.
Open Scope Z_scope.

(** * Page-table flags *)

Definition PTE_V := Z.shiftl 1 0.
Definition PTE_R := Z.shiftl 1 1.
Definition PTE_W := Z.shiftl 1 2.
Definition PTE_X := Z.shiftl 1 3.
Definition PTE_U := Z.shiftl 1 4.
Definition LEAF_MASK := Z.lor (Z.lor (Z.lor (Z.lor PTE_V PTE_R) PTE_W) PTE_X) PTE_U.
Definition DATA_FLAGS := Z.lor (Z.lor (Z.lor PTE_V PTE_R) PTE_W) PTE_U.
Definition TRAPFRAME_GPRS : list (string * Z) :=
  [ ("ra", 40); ("sp", 48); ("gp", 56); ("tp", 64); ("t0", 72); ("t1", 80); ("t2", 88); ("s0", 96);
    ("s1", 104); ("a1", 120); ("a2", 128); ("a3", 136); ("a4", 144); ("a5", 152); ("a6", 160); ("a7", 168);
    ("s2", 176); ("s3", 184); ("s4", 192); ("s5", 200); ("s6", 208); ("s7", 216); ("s8", 224); ("s9", 232);
    ("s10", 240); ("s11", 248); ("t3", 256); ("t4", 264); ("t5", 272); ("t6", 280) ]%string.

(** * Sources *)

Definition PATCH_PATHS : list string :=
  [ "Makefile"; "kernel/defs.h"; "kernel/kalloc.c"; "kernel/syscall.c"; "kernel/syscall.h";
    "kernel/sysproc.c"; "kernel/trap.c"; "kernel/vm.c"; "kernel/vmprobe.h"; "user/user.h";
    "user/usys.pl"; "user/vmtrace.c" ].
Definition SOURCE_PATHS : list string :=
  PATCH_PATHS ++
  [ "kernel/exec.c"; "kernel/kernel.ld"; "kernel/memlayout.h"; "kernel/proc.c"; "kernel/proc.h";
    "kernel/riscv.h"; "kernel/trampoline.S"; "kernel/vm.h"; "user/ulib.c"; "user/usertests.c" ].

Section Sources.
(** [root / path] if it is a file, and its text *)
Context (source : string -> result (option pystr)).

Definition read_sources : result (list (pystr * pystr)) := read_present source SOURCE_PATHS.

(** [match.group(0)] *)
Definition matched (m : place * place * groups) : pystr :=
  let '(start, next, _) := m in ztake (here next - here start) (rest start).
(** [else if \(\(r_scause\(\) == 15 \|\| r_scause\(\) == 13\).*?vmfault] with [re.S] *)
Definition fault_re : pattern :=
  all_of [ lit "else if ((r_scause() == 15 || r_scause() == 13)"; MStar false (MChr (fun _ => true));
           lit "vmfault" ].

(** [sd ra, 40(a0)] *)
Definition register_slot (opcode : string) '(register, offset) : pystr :=
  u opcode ++ u " " ++ u register ++ u ", " ++ str_of_int offset ++ u "(a0)".

Definition check_registers (uservec userret : pystr) : result () :=
  foldM (fun _ '(register, offset) =>
    require (contains (register_slot "sd" (register, offset)) uservec)
      [T "uservec does not save "; T register; T " at trapframe+"; D offset];;
    require (contains (register_slot "ld" (register, offset)) userret)
      [T "userret does not restore "; T register; T " from trapframe+"; D offset]) tt TRAPFRAME_GPRS.

Definition check_vm_policy (vm trap : pystr) : result () :=
  require_in_order vm ["walk(pagetable_t"; "for (int level = 2"; "kalloc()"; "PA2PTE"]
    "Sv39 walk allocation";;
  require_in_order vm ["uvmalloc("; "PTE_R | PTE_U | xperm"; "uvmdealloc"] "eager allocation rollback";;
  require_in_order vm ["uvmcopy("; "continue; // page table entry hasn't been allocated";
    "continue; // physical page hasn't been allocated"; "PTE_FLAGS"] "fork sparse mapping";;
  require_in_order vm ["copyout("; "walkaddr"; "vmfault"; "PTE_W"] "copyout permission path";;
  require_in_order vm ["copyin("; "walkaddr"; "vmfault"] "copyin fault path";;
  require_in_order vm ["copyinstr("; "walkaddr"; "if (pa0 == 0)"; "return -1"]
    "copyinstr no-allocation path";;
  require_in_order vm ["vmfault("; "if (va >= p->sz)"; "PGROUNDDOWN"; "ismapped"; "kalloc";
    "PTE_W | PTE_U | PTE_R"] "lazy fault policy";;
  '(fault_condition : pystr) ← of_option (LabError [T "usertrap no longer limits lazy repair to 13/15"])
    (matched <$> re_search fault_re trap);
  require (lacks fault_condition "r_scause() == 12") [T "instruction fault entered baseline lazy repair"].

Definition analyze_baseline : result () :=
  sources ← read_sources;
  vm ← source_of sources "kernel/vm.c";
  trap ← source_of sources "kernel/trap.c";
  proc ← source_of sources "kernel/proc.c";
  exec_source ← source_of sources "kernel/exec.c";
  trampoline ← source_of sources "kernel/trampoline.S";
  linker ← source_of sources "kernel/kernel.ld";
  sysproc ← source_of sources "kernel/sysproc.c";
  check_vm_policy vm trap;;
  require_in_order proc ["proc_pagetable("; "TRAMPOLINE"; "PTE_R | PTE_X"; "TRAPFRAME"; "PTE_R | PTE_W"]
    "special user mappings";;
  require_in_order proc ["proc_freepagetable("; "uvmunmap(pagetable, TRAMPOLINE, 1, 0)";
    "uvmunmap(pagetable, TRAPFRAME, 1, 0)"; "uvmfree"] "special mapping teardown";;
  require_in_order exec_source ["flags2perm"; "PTE_X"; "PTE_W"; "kexec("; "pagetable = proc_pagetable";
    "oldpagetable = p->pagetable"; "p->pagetable = pagetable"; "proc_freepagetable(oldpagetable"; "bad:";
    "proc_freepagetable(pagetable, sz)"] "exec commit and rollback";;
  require_in_order sysproc ["sys_sbrk"; "SBRK_EAGER || n < 0"; "addr + n < addr"; "addr + n > TRAPFRAME";
    "myproc()->sz += n"] "lazy logical growth";;
  require_in_order trap ["prepare_return();"; "MAKE_SATP(p->pagetable)"; "return satp;"]
    "usertrap return handoff";;
  require_in_order trap ["prepare_return(void)"; "intr_off()"; "TRAMPOLINE + (uservec - trampoline)";
    "w_stvec(trampoline_uservec)"; "kernel_satp = r_satp()"; "kernel_sp = p->kstack + PGSIZE";
    "kernel_trap = (uint64)usertrap"; "kernel_hartid = r_tp()"; "r_sstatus()"; "~SSTATUS_SPP";
    "SSTATUS_SPIE"; "w_sstatus(x)"; "w_sepc(p->trapframe->epc)"] "prepare_return user contract";;
  require_in_order trampoline ["uservec:"; "csrw sscratch, a0"; "li a0, TRAPFRAME"; "csrr t0, sscratch";
    "sd t0, 112(a0)"; "ld sp, 8(a0)"; "ld tp, 32(a0)"; "ld t0, 16(a0)"; "ld t1, 0(a0)";
    "sfence.vma zero, zero"; "csrw satp, t1"; "sfence.vma zero, zero"; "jalr t0"; "userret:";
    "sfence.vma zero, zero"; "csrw satp, a0"; "sfence.vma zero, zero"; "li a0, TRAPFRAME";
    "ld a0, 112(a0)"; "sret"] "full trampoline contract";;
  match splitn 1 (u "userret:") trampoline with
  | [uservec; userret] =>
      check_registers uservec userret;;
      require (has linker "ASSERT(. - _trampoline == 0x1000")
        [T "trampoline one-page linker assertion missing"]
  | _ => Raise ValueError
  end.

Definition analyze_patched : result () :=
  sources ← read_sources;
  vm ← source_of sources "kernel/vm.c";
  trap ← source_of sources "kernel/trap.c";
  kalloc ← source_of sources "kernel/kalloc.c";
  guest ← source_of sources "user/vmtrace.c";
  require (has vm "VMACCESS_COPYOUT" && has vm "VMACCESS_COPYIN") [T "copy helper access kinds missing"];;
  require (has trap "VMACCESS_LOAD : VMACCESS_STORE") [T "hardware access kinds missing"];;
  require_in_order vm ["vmprobe_begin(access"; "if (va >= p->sz)"; "ismapped"; "kalloc()"; "mappages";
    "PTE_W | PTE_U | PTE_R"; "vmprobe_finish(1"] "patched fault trace";;
  require (has kalloc "vmprobe_kalloc_should_fail" && has kalloc "kfreepages") [T
    "scoped allocator seam missing"];;
  require (has vm "!vmprobe_state.active || !vmprobe_state.in_fault" && has vm
    "p->pid != vmprobe_state.pid") [T "failpoint is not scoped to active pid/fault"];;
  require_in_order vm ["if (op == VMPROBE_FETCH)"; "result = copyout"; "vmprobe_state.active = 0";
    "return result"] "record fetch must disarm the test seam";;
  require (has guest "uchar pattern[4] = {0x11, 0x22, 0x33, 0x44}" && has guest "p[0] != 0x11" && has guest
    "bytes[0] != 0") [T "copyin/copyout payload oracle missing"];;
  let exec_case_start := py_find guest "run_exec_rollback(void)" 0 in
  let exec_case_end := py_find guest "^int^main(void)" exec_case_start in
  require ((0 <=? exec_case_start) && (exec_case_start <? exec_case_end))
    [T "late exec rollback fixture missing"];;
  require (lacks (py_slice exec_case_start exec_case_end guest) "VMPROBE_ARM")
    [T "late exec rollback left the audit seam armed"];;
  require_in_order guest ["run_success(`load`"; "run_success(`store`"; "run_success(`copyout`";
    "run_success(`copyin`"; "run_killed(`invalid`"; "run_killed(`permission`"; "run_killed(`nx`";
    "VMPROBE_SET_X"; "run_oom(9, 1)"; "run_oom(10, 2)"; "run_oom(11, 3)"; "run_exec_rollback()";
    "VM PASS cases=12"] "guest scenario order";;
  require (has guest "0x00008067" && has guest "fence.i") [T "valid ret instruction or fence.i missing"];;
  require (has guest "exec_arg[3000]" && has guest "exec_arg2[3000]" && has guest "exit(42)") [T
    "late exec rollback discriminator missing"].
End Sources.

(** * The trace *)

Definition check_special (special : record) : result () :=
  (let s := fetch special in
   requireR (s "user_root" != s "kernel_root") [T "kernel and user roots unexpectedly match"];;
   requireR (s "tramp_va" == #0x3FFFFFF000 &&. s "trap_va" == #0x3FFFFFE000)
     [T "special virtual addresses changed"];;
   requireR (s "user_tramp_pa" == s "kernel_tramp_pa" &&. s "kernel_tramp_pa" != #0)
     [T "trampoline is not same VA/PA in both roots"];;
   requireR (s "trap_pa" == s "owner_pa" &&. s "owner_pa" != #0)
     [T "user TRAPFRAME does not map the process-owned page"];;
   requireR (s "user_tramp_flags" & #LEAF_MASK == #(Z.lor (Z.lor PTE_V PTE_R) PTE_X))
     [T "user trampoline flags changed"];;
   requireR (s "kernel_tramp_flags" & #LEAF_MASK == #(Z.lor (Z.lor PTE_V PTE_R) PTE_X))
     [T "kernel trampoline flags changed"];;
   requireR (s "trap_flags" & #LEAF_MASK == #(Z.lor (Z.lor PTE_V PTE_R) PTE_W))
     [T "user trapframe flags changed"];;
   requireR (s "kernel_trap_flags" == #0) [T "kernel table unexpectedly maps numeric TRAPFRAME VA"])%dyn.

(** [{case["gen"]: case for case in cases}]: the last case of a generation is
    the one found. *)
Definition by_generation (cases : list record) : result (list (dyn * record)) := keyed "gen" cases.
Definition at_generation (m : list (dyn * record)) (generation : Z) : result record :=
  at_key m (DInt generation).

(** [sorted(...)] in the message is evaluated first: numbers and texts together
    are a [TypeError]. *)
Definition sort_keys (keys : list dyn) : result () :=
  let number k := match k with DInt _ => true | _ => false end in
  if existsb number keys && existsb (negb ∘ number) keys then Raise TypeError else Ok tt.

Definition GENERATIONS : list dyn := DInt <$> [1; 2; 3; 4; 5; 6; 7; 9; 10; 11].
Definition check_generations (m : list (dyn * record)) : result () :=
  sort_keys m.*1;;
  require (forallb (fun g => bool_decide (g ∈ GENERATIONS)) m.*1 &&
           forallb (fun g => bool_decide (g ∈ m.*1)) GENERATIONS)
    [T "case generations changed: "; Elided].

Definition normal_cases : list (Z * string * Z * Z) :=
  [ (1, "load", 1, 13); (2, "store", 2, 15); (3, "copyout", 4, 0); (4, "copyin", 3, 0) ]%string.
Definition check_normal (m : list (dyn * record)) '(generation, name, access, scause) : result () :=
  (case ← at_generation m generation;
   let c := fetch case in
   requireR (c "name" == text name &&. c "access" == #access &&. c "status" == #0 &&. c "result" == #1 &&.
             c "scause" == #scause &&. c "before" == #0 &&.
             c "after_flags" & #LEAF_MASK == #DATA_FLAGS &&. c "allocations" >= #1)
     [T "normal oracle failed: "; T name])%dyn.

Definition check_invalid (m : list (dyn * record)) : result () :=
  (invalid ← at_generation m 5;
   let c := fetch invalid in
   requireR (c "name" == text "invalid" &&. c "status" == #(-1) &&. c "scause" == #15 &&. c "result" == #0 &&.
             c "before" == c "after_flags" &&. c "after_flags" == #0 &&. c "allocations" == #0)
     [T "invalid-address oracle failed"])%dyn.

Definition RXU := Z.lor (Z.lor (Z.lor PTE_V PTE_R) PTE_X) PTE_U.
Definition check_permission (m : list (dyn * record)) : result () :=
  (permission ← at_generation m 6;
   let c := fetch permission in
   requireR (c "name" == text "permission" &&. c "status" == #(-1) &&. c "scause" == #15 &&.
             c "result" == #0 &&. c "before" & #RXU == #RXU &&. c "before" & #PTE_W == #0 &&.
             c "after_flags" == c "before" &&. c "allocations" == #0)
     [T "permission-fault oracle failed"])%dyn.

Definition check_nx (m : list (dyn * record)) : result () :=
  (nx ← at_generation m 7;
   let c := fetch nx in
   requireR (c "name" == text "nx" &&. c "status" == #(-1) &&. c "access" == #5 &&. c "scause" == #12 &&.
             c "stval" == c "epc" &&. c "epc" != #0 &&. c "after_flags" & #LEAF_MASK == #DATA_FLAGS &&.
             c "allocations" == #0)
     [T "NX instruction-fault oracle failed"])%dyn.

Definition oom_cases : list (Z * Z) := [(9, 1); (10, 2); (11, 3)].
Definition check_oom (m : list (dyn * record)) '(generation, fail_at) : result () :=
  (case ← at_generation m generation;
   let c := fetch case in
   requireR (c "name" == text "oom" &&. c "status" == #(-1) &&. c "scause" == #15 &&. c "result" == #0 &&.
             c "fail_at" == #fail_at &&. c "allocations" == #fail_at &&.
             c "before" == c "after_flags" &&. c "after_flags" == #0)
     [T "OOM oracle failed at allocation "; D fail_at];;
   let debt := if (fail_at =? 3)%Z then 1 else 0 in
   requireR (c "free_after" == c "free_before" - #debt)
     [T "OOM immediate rollback debt changed at allocation "; D fail_at])%dyn.

(** The lines of the result *)
Record Trace : Type := { special_line : pystr; case_lines : list pystr; mutation_line : pystr; exec_line : pystr }.

Definition validate_vmtrace (output : pystr) : result Trace :=
  (require (negb (contains (u "VM FAIL") output)) [T "guest rejected a VM scenario"];;
   require (count (u "VM PASS cases=12") output =? 1)%Z [T "VM PASS marker count changed"];;
   special_line ← only_line (lines_starting output "VM SPECIAL ") [T "special mapping marker count changed"];
   check_special (found_fields special_line);;
   let case_lines := lines_starting output "VM CASE " in
   require (len case_lines =? 10)%Z [T "VM CASE count changed: "; D (len case_lines)];;
   let cases := found_fields <$> case_lines in
   m ← by_generation cases;
   check_generations m;;
   mapR (fun case => requireR (fetch case "base" == fetch case "after")
           [T "post-wait page ledger changed: generation "; Elided]) cases;;
   mapR (check_normal m) normal_cases;;
   check_invalid m;;
   check_permission m;;
   check_nx m;;
   mapR (check_oom m) oom_cases;;
   mutation_line ← only_line (lines_starting output "VM MUTATION ") [T "mutation marker count changed"];
   let mutation := fetch (found_fields mutation_line) in
   requireR (mutation "status" == #0 &&. mutation "flags" & #PTE_X != #0)
     [T "PTE_X mutation did not execute the same ret instruction"];;
   exec_line ← only_line (lines_starting output "VM EXEC ") [T "exec marker count changed"];
   let exec_record := fetch (found_fields exec_line) in
   requireR (exec_record "status" == #42 &&. exec_record "base" == exec_record "after")
     [T "late exec rollback did not preserve the old image and ledger"];;
   Ok {| special_line := special_line; case_lines := case_lines; mutation_line := mutation_line;
         exec_line := exec_line |})%dyn.

Definition validate_guest_regression (name : string) (transcript : pystr) : result () :=
  require (count (u "ALL TESTS PASSED") transcript =? 1)
    [T "guest regression marker count changed: "; T name];;
  require (contains (u ("test " ++ name ++ ":")%string) transcript)
    [T "guest regression did not report the selected test: "; T name];;
  require (negb (contains (u "SOME TESTS FAILED") transcript)) [T "guest regression failed: "; T name];;
  require (negb (contains (u "VM ") transcript)) [T "vmprobe marker leaked into guest regression: "; T name].
