(* ===== verification/VmProps.v ===== *)
(** What the virtual-memory oracle guarantees: lazily made pages are never
    executable, the trampoline is never writable, a page that refused a store
    still does, failed allocations leave no leaf behind, and every case returns
    its pages. *)

From stdpp Require Import base tactics list gmap strings numbers list_numbers sorting.
From S2P Require Import Prelude PyText PyBytes PyRegex PyJson PyDyn PyMarkers SourceCheck VmLab.
Open Scope Z_scope.

(** * Leaves *)

(** The flags under a key: valid, and readable, writable, executable, user as given *)
Definition leaf (e : record) (key : string) (r w x us : bool) : Prop :=
  exists f, fetch e key = Ok (DInt f) /\ Z.testbit f 0 = true /\ Z.testbit f 1 = r /\
    Z.testbit f 2 = w /\ Z.testbit f 3 = x /\ Z.testbit f 4 = us.

Lemma leaf_mask e key f m r w x us :
  fetch e key = Ok (DInt f) -> m = Z.land f LEAF_MASK ->
  Z.testbit m 0 = true /\ Z.testbit m 1 = r /\ Z.testbit m 2 = w /\ Z.testbit m 3 = x /\ Z.testbit m 4 = us ->
  leaf e key r w x us.
Proof.
  intros Hf -> H. exists f. split; [done|].
  assert (forall i, 0 <= i < 5 -> Z.testbit (Z.land f LEAF_MASK) i = Z.testbit f i) as B.
  { intros i Hi. rewrite Z.land_spec. change LEAF_MASK with (Z.ones 5).
    rewrite Z.ones_spec_low by lia. apply andb_true_r. }
  rewrite !B in H by lia. done.
Qed.

Ltac leaf := eapply leaf_mask; [eassumption|eassumption|by vm_compute].

Lemma special_leaves s : check_special s = Ok tt ->
  leaf s "user_tramp_flags" true false true false /\ leaf s "kernel_tramp_flags" true false true false /\
  leaf s "trap_flags" true true false false /\
  (exists pa, fetch s "user_tramp_pa" = Ok pa /\ fetch s "kernel_tramp_pa" = Ok pa /\ pa <> DInt 0) /\
  (exists pa, fetch s "trap_pa" = Ok pa /\ fetch s "owner_pa" = Ok pa /\ pa <> DInt 0).
Proof.
  unfold check_special. intros H. inv_ok. facts. merge.
  split_and!; [leaf..| |]; eauto.
Qed.

(** ** The generations *)

Lemma generations_distinct : NoDup GENERATIONS.
Proof. refine (proj1 (bool_decide_eq_true _) _). vm_compute. reflexivity. Qed.

(** Ten lines and ten generations: each has one line. *)
Lemma generations_once m : check_generations m = Ok tt -> length m = 10%nat -> m.*1 ≡ₚ GENERATIONS.
Proof.
  unfold check_generations. intros H L. inv_ok. apply andb_true_iff in C as [_ C].
  rewrite forallb_forall in C. symmetry. apply submseteq_length_Permutation.
  - apply NoDup_submseteq; [apply generations_distinct|]. intros g Hg%list_elem_of_In.
    by apply C, bool_decide_eq_true in Hg.
  - rewrite length_fmap, L. done.
Qed.

(** * Cases *)

Definition page_kept (e : record) : Prop := exists f, fetch e "before" = Ok (DInt f) /\
  fetch e "after_flags" = Ok (DInt f) /\ Z.testbit f 2 = false /\ Z.testbit f 3 = true /\
  fetch e "allocations" = Ok (DInt 0).

(** The [k]-th allocation fails: no leaf, and at most one page in debt. *)
Definition rolled_back (e : record) (k : Z) : Prop := exists n,
  fetch e "after_flags" = Ok (DInt 0) /\ fetch e "allocations" = Ok (DInt k) /\
  fetch e "free_before" = Ok (DInt n) /\ fetch e "free_after" = Ok (DInt (if k =? 3 then n - 1 else n)).

Definition returned (e : record) : Prop := exists n, fetch e "base" = Ok n /\ fetch e "after" = Ok n.

Lemma normal_leaf m g name access scause e :
  at_generation m g = Ok e -> check_normal m (g, name, access, scause) = Ok tt ->
  leaf e "after_flags" true true false true.
Proof.
  intros He. unfold check_normal. rewrite He. cbn [mbind result_bind]. intros H. facts. leaf.
Qed.

Lemma nx_leaf m e : at_generation m 7 = Ok e -> check_nx m = Ok tt -> leaf e "after_flags" true true false true.
Proof. intros He. unfold check_nx. rewrite He. cbn [mbind result_bind]. intros H. facts. leaf. Qed.

Lemma permission_kept m e : at_generation m 6 = Ok e -> check_permission m = Ok tt -> page_kept e.
Proof.
  intros He. unfold check_permission. rewrite He. cbn [mbind result_bind]. intros H. facts. merge. subst.
  eexists. split_and!; [eassumption..| | |done].
  - match goal with H : 0 = Z.land _ PTE_W |- _ => apply (f_equal (fun z => Z.testbit z 2)) in H;
      rewrite Z.land_spec in H; by rewrite andb_true_r in H end.
  - match goal with H : RXU = Z.land _ RXU |- _ => apply (f_equal (fun z => Z.testbit z 3)) in H;
      rewrite Z.land_spec in H; by rewrite andb_true_r in H end.
Qed.

Lemma oom_rolled_back m g k e :
  at_generation m g = Ok e -> check_oom m (g, k) = Ok tt -> rolled_back e k.
Proof.
  intros He. unfold check_oom. rewrite He. cbn [mbind result_bind]. intros H. inv_ok. facts. merge.
  facts. subst. eexists. split_and!; [done..|]. destruct (k =? 3); [done|]. by rewrite Z.sub_0_r in *.
Qed.

Lemma normal_made m us : mapR (check_normal m) normal_cases = Ok us ->
  forall g n a s, (g, n, a, s) ∈ normal_cases ->
  exists e, at_generation m g = Ok e /\ leaf e "after_flags" true true false true.
Proof.
  intros Hn g n a s I. destruct (mapR_each _ _ _ _ Hn I) as [[] K].
  destruct (at_generation m g) as [e|] eqn:Ee; [|by unfold check_normal in K; rewrite Ee in K].
  exists e. split; [done|]. by eapply normal_leaf.
Qed.

Lemma oom_made m us : mapR (check_oom m) oom_cases = Ok us ->
  forall g k, (g, k) ∈ oom_cases -> exists e, at_generation m g = Ok e /\ rolled_back e k.
Proof.
  intros Ho g k I. destruct (mapR_each _ _ _ _ Ho I) as [[] K].
  destruct (at_generation m g) as [e|] eqn:Ee; [|by unfold check_oom in K; rewrite Ee in K].
  exists e. split; [done|]. by eapply oom_rolled_back.
Qed.

(** * The trace *)

(** Every page a fault made can be written and not executed, and the pages of
    the trampoline the other way round; [case] gives the case of a generation. *)
Record protected (t : Trace) (case : Z -> record) : Prop := {
  pr_cases : forall g, DInt g ∈ GENERATIONS ->
    case g ∈ found_fields <$> case_lines t /\ fetch (case g) "gen" = Ok (DInt g);
  pr_once : exists gens, mapR (fun l => fetch (found_fields l) "gen") (case_lines t) = Ok gens /\ gens ≡ₚ GENERATIONS;
  pr_special : leaf (found_fields (special_line t)) "user_tramp_flags" true false true false /\
    leaf (found_fields (special_line t)) "kernel_tramp_flags" true false true false /\
    leaf (found_fields (special_line t)) "trap_flags" true true false false;
  pr_made : Forall (fun g => leaf (case g) "after_flags" true true false true) [1; 2; 3; 4; 7];
  pr_kept : page_kept (case 6);
  pr_oom : Forall (fun '(g, k) => rolled_back (case g) k) oom_cases;
  pr_ledger : Forall returned (found_fields <$> case_lines t) /\ returned (found_fields (exec_line t)) }.

Lemma keyed_gens lines m : by_generation (found_fields <$> lines) = Ok m ->
  mapR (fun l => fetch (found_fields l) "gen") lines = Ok (rev m.*1) /\ length m = length lines.
Proof.
  intros [Hr _]%keyed_spec. apply Forall2_fmap_l in Hr. split; [by apply mapR_ok|].
  apply Forall2_length in Hr. rewrite length_rev, length_fmap in Hr. done.
Qed.

Ltac in_list := unfold GENERATIONS, normal_cases; rewrite ?fmap_cons; repeat first [left | right].

(** C25: an accepted run has one case per generation; every page a fault made
    is writable and not executable, trampoline pages are executable and not
    writable, the read-only page is as before, a failed allocation leaves no
    leaf and at most one page in debt, and every case gives its pages back. *)
Theorem vmtrace_protects output t :
  validate_vmtrace output = Ok t -> exists case, protected t case.
Proof.
  unfold validate_vmtrace. intros H.
  apply bind_ok in H as ([] & _ & H). apply bind_ok in H as ([] & _ & H).
  apply bind_ok in H as (sl & _ & H). apply bind_ok in H as ([] & Hs%special_leaves & H).
  apply bind_ok in H as ([] & Hl & H). apply bind_ok in H as (m & Hm & H).
  apply bind_ok in H as ([] & Hg & H). apply bind_ok in H as (us & Hb & H).
  apply bind_ok in H as (us1 & Hn & H). apply bind_ok in H as ([] & _ & H).
  apply bind_ok in H as ([] & Hp & H). apply bind_ok in H as ([] & Hx & H).
  apply bind_ok in H as (us2 & Ho & H). apply bind_ok in H as (ml & _ & H).
  apply bind_ok in H as ([] & _ & H). apply bind_ok in H as (el & _ & H).
  apply bind_ok in H as ([] & He & H). injection H as <-.
  exists (fun g => match at_generation m g with Ok e => e | Raise _ => [] end).
  destruct (keyed_gens _ _ Hm) as [Hk L].
  assert (m.*1 ≡ₚ GENERATIONS) as P.
  { apply generations_once; [done|]. rewrite L. inv_ok. apply Z.eqb_eq in C. rewrite len_length in C. lia. }
  assert (forall g, DInt g ∈ GENERATIONS -> exists e, at_generation m g = Ok e) as F.
  { intros g G. apply at_key_found. by rewrite P. }
  constructor; cbn [special_line case_lines exec_line].
  - intros g [e Ee]%F. rewrite Ee. by apply (at_key_elem _ _ _ _ _ Hm Ee).
  - eexists. split; [exact Hk|]. by rewrite <- Permutation_rev, P.
  - tauto.
  - pose proof (normal_made _ _ Hn) as N. destruct (F 7 ltac:(in_list)) as [e7 E7].
    destruct (N 1 _ _ _ ltac:(in_list)) as (? & E1 & ?), (N 2 _ _ _ ltac:(in_list)) as (? & E2 & ?),
      (N 3 _ _ _ ltac:(in_list)) as (? & E3 & ?), (N 4 _ _ _ ltac:(in_list)) as (? & E4 & ?).
    rewrite !Forall_cons, E1, E2, E3, E4, E7. split_and!; [done..|by eapply nx_leaf|constructor].
  - destruct (F 6 ltac:(in_list)) as [e E6]. rewrite E6. by eapply permission_kept.
  - apply Forall_forall. intros [g k] (e & -> & R)%(oom_made _ _ Ho). done.
  - split.
    + apply Forall_forall. intros e I. destruct (mapR_each _ _ _ _ Hb I) as [[] K]. facts. by eexists.
    + facts. by eexists.
Qed.

(** ** A run *)

Definition sample_lines : list string := [
  "VM SPECIAL user_root=0x87f6e000 kernel_root=0x87fff000 tramp_va=0x3ffffff000 trap_va=0x3fffffe000 user_tramp_pa=0x80007000 kernel_tramp_pa=0x80007000 trap_pa=0x87f70000 owner_pa=0x87f70000 user_tramp_flags=0x4b kernel_tramp_flags=0xcb trap_flags=0xc7 kernel_trap_flags=0";
  "VM CASE name=load gen=1 access=1 status=0 result=1 scause=13 before=0 after_flags=0x57 allocations=1 base=31900 after=31900";
  "VM CASE name=store gen=2 access=2 status=0 result=1 scause=15 before=0 after_flags=0xd7 allocations=1 base=31900 after=31900";
  "VM CASE name=copyout gen=3 access=4 status=0 result=1 scause=0 before=0 after_flags=0xd7 allocations=1 base=31900 after=31900";
  "VM CASE name=copyin gen=4 access=3 status=0 result=1 scause=0 before=0 after_flags=0x57 allocations=1 base=31900 after=31900";
  "VM CASE name=invalid gen=5 access=2 status=-1 result=0 scause=15 before=0 after_flags=0 allocations=0 base=31900 after=31900";
  "VM CASE name=permission gen=6 access=2 status=-1 result=0 scause=15 before=0x5b after_flags=0x5b allocations=0 base=31900 after=31900";
  "VM CASE name=nx gen=7 access=5 status=-1 result=0 scause=12 stval=0x4000 epc=0x4000 before=0 after_flags=0x57 allocations=0 base=31900 after=31900";
  "VM CASE name=oom gen=9 status=-1 result=0 scause=15 fail_at=1 allocations=1 before=0 after_flags=0 free_before=31800 free_after=31800 base=31900 after=31900";
  "VM CASE name=oom gen=10 status=-1 result=0 scause=15 fail_at=2 allocations=2 before=0 after_flags=0 free_before=31800 free_after=31800 base=31900 after=31900";
  "VM CASE name=oom gen=11 status=-1 result=0 scause=15 fail_at=3 allocations=3 before=0 after_flags=0 free_before=31800 free_after=31799 base=31900 after=31900";
  "VM MUTATION status=0 flags=0x5f";
  "VM EXEC status=42 base=31900 after=31900";
  "VM PASS cases=12" ]%string.
Definition sample : pystr := mjoin ((fun l => u l ++ [newline]) <$> sample_lines).

Lemma vmtrace_protects_witness : exists t, validate_vmtrace sample = Ok t /\ exists case, protected t case.
Proof.
  eexists. assert (validate_vmtrace sample = Ok _) as H by (vm_compute; reflexivity).
  split; [exact H|]. exact (vmtrace_protects _ _ H).
Defined.

(** A case without its generation, and generations that are a text and a
    number, end the oracle with exceptions other than [LabError]. *)
Definition with_case (line : string) : pystr :=
  mjoin ((fun l => u l ++ [newline]) <$> <[1%nat := line]> sample_lines).
Example case_key_errors :
  validate_vmtrace (with_case "VM CASE name=load") = Raise KeyError /\
  validate_vmtrace (with_case "VM CASE gen=one") = Raise TypeError.
Proof. split; vm_compute; reflexivity. Qed.

(** * Sources *)

(** The slots of the trap frame are distinct words, and none is that of [a0]. *)
Lemma slots_distinct : NoDup (112 :: TRAPFRAME_GPRS.*2) /\ Forall (fun o => o `mod` 8 = 0) TRAPFRAME_GPRS.*2.
Proof. refine (proj1 (bool_decide_eq_true _) _). vm_compute. reflexivity. Qed.

Lemma registers_checked uservec userret : check_registers uservec userret = Ok tt ->
  Forall (fun slot => contains (register_slot "sd" slot) uservec = true /\
                      contains (register_slot "ld" slot) userret = true) TRAPFRAME_GPRS.
Proof.
  unfold check_registers. generalize TRAPFRAME_GPRS. intros l. induction l as [|[r o] l IH]; [constructor|].
  cbn [foldM]. intros H. apply bind_ok in H as ([] & Hr & H). inv_ok. constructor; auto.
Qed.

(** Where the baseline is accepted, the text of the trampoline before the
    label [userret:] stores every register of the list in its slot, and the text
    after it loads every one of them back; the slots are distinct words. *)
Theorem baseline_saves_registers source :
  analyze_baseline source = Ok tt -> exists trampoline uservec userret,
    (sources ← read_sources source; source_of sources "kernel/trampoline.S") = Ok trampoline /\
    trampoline = uservec ++ u "userret:" ++ userret /\
    Forall (fun slot => contains (register_slot "sd" slot) uservec = true /\
                        contains (register_slot "ld" slot) userret = true) TRAPFRAME_GPRS /\
    NoDup (112 :: TRAPFRAME_GPRS.*2).
Proof.
  unfold analyze_baseline. intros H. apply bind_ok in H as (sources & Hs & H).
  do 4 (apply bind_ok in H as (? & _ & H)). apply bind_ok in H as (trampoline & Ht & H).
  do 10 (apply bind_ok in H as (? & _ & H)).
  unfold splitn in H. cbn [pieces_fuel] in H.
  destruct (cut (u "userret:") trampoline) as [[uservec userret]|] eqn:Ec; [|done].
  apply bind_ok in H as ([] & Hr & _). exists trampoline, uservec, userret.
  split_and!; [by rewrite Hs|by apply cut_Some|by apply registers_checked|apply slots_distinct].
Qed.

(** A tree that shows every contract *)
Definition sample_source (path : string) : result (option pystr) :=
  let file lines := Ok (Some (join [newline] (src <$> lines))) in
  if (path =? "kernel/vm.c")%string then
    file ["walk(pagetable_t"; "for (int level = 2"; "kalloc()"; "PA2PTE"; "uvmalloc("; "PTE_R | PTE_U | xperm";
          "uvmdealloc"; "uvmcopy("; "continue; // page table entry hasn't been allocated";
          "continue; // physical page hasn't been allocated"; "PTE_FLAGS"; "copyout("; "walkaddr"; "vmfault"; "PTE_W";
          "copyin("; "walkaddr"; "vmfault"; "copyinstr("; "walkaddr"; "if (pa0 == 0)"; "return -1"; "vmfault(";
          "if (va >= p->sz)"; "PGROUNDDOWN"; "ismapped"; "kalloc"; "PTE_W | PTE_U | PTE_R"]%string
  else if (path =? "kernel/trap.c")%string then
    file ["else if ((r_scause() == 15 || r_scause() == 13) && vmfault"; "prepare_return();"; "MAKE_SATP(p->pagetable)";
          "return satp;"; "prepare_return(void)"; "intr_off()"; "TRAMPOLINE + (uservec - trampoline)";
          "w_stvec(trampoline_uservec)"; "kernel_satp = r_satp()"; "kernel_sp = p->kstack + PGSIZE";
          "kernel_trap = (uint64)usertrap"; "kernel_hartid = r_tp()"; "r_sstatus()"; "~SSTATUS_SPP"; "SSTATUS_SPIE";
          "w_sstatus(x)"; "w_sepc(p->trapframe->epc)"]%string
  else if (path =? "kernel/proc.c")%string then
    file ["proc_pagetable("; "TRAMPOLINE"; "PTE_R | PTE_X"; "TRAPFRAME"; "PTE_R | PTE_W"; "proc_freepagetable(";
          "uvmunmap(pagetable, TRAMPOLINE, 1, 0)"; "uvmunmap(pagetable, TRAPFRAME, 1, 0)"; "uvmfree"]%string
  else if (path =? "kernel/exec.c")%string then
    file ["flags2perm"; "PTE_X"; "PTE_W"; "kexec("; "pagetable = proc_pagetable"; "oldpagetable = p->pagetable";
          "p->pagetable = pagetable"; "proc_freepagetable(oldpagetable"; "bad:"; "proc_freepagetable(pagetable, sz)"]%string
  else if (path =? "kernel/sysproc.c")%string then
    file ["sys_sbrk"; "SBRK_EAGER || n < 0"; "addr + n < addr"; "addr + n > TRAPFRAME"; "myproc()->sz += n"]%string
  else if (path =? "kernel/kernel.ld")%string then file ["ASSERT(. - _trampoline == 0x1000"]%string
  else if (path =? "kernel/trampoline.S")%string then
    Ok (Some (join [newline]
      ((src <$> ["uservec:"; "csrw sscratch, a0"; "li a0, TRAPFRAME"]%string) ++
       (register_slot "sd" <$> TRAPFRAME_GPRS) ++
       (src <$> ["csrr t0, sscratch"; "sd t0, 112(a0)"; "ld sp, 8(a0)"; "ld tp, 32(a0)"; "ld t0, 16(a0)";
                 "ld t1, 0(a0)"; "sfence.vma zero, zero"; "csrw satp, t1"; "sfence.vma zero, zero"; "jalr t0";
                 "userret:"; "sfence.vma zero, zero"; "csrw satp, a0"; "sfence.vma zero, zero";
                 "li a0, TRAPFRAME"]%string) ++
       (register_slot "ld" <$> TRAPFRAME_GPRS) ++ (src <$> ["ld a0, 112(a0)"; "sret"]%string))))
  else Ok None.

Lemma baseline_saves_registers_witness : analyze_baseline sample_source = Ok tt /\ exists trampoline uservec userret : pystr,
  trampoline = uservec ++ u "userret:" ++ userret.
Proof.
  assert (analyze_baseline sample_source = Ok tt) as H by (vm_compute; reflexivity).
  split; [exact H|]. destruct (baseline_saves_registers _ H) as (t & a & b & _ & K & _). exists t, a, b. exact K.
Defined.
