(* ===== verification/SchedSource.v ===== *)
(** The source contracts of the scheduling lab,
    [docs/xv6-tutorial/resources/scheduling-and-synchronization/run-lab.py]: the
    context switch, the locks, the order of sleep and wakeup, and the fixture
    that brackets them. *)

From stdpp Require Import base tactics list gmap strings numbers list_numbers sorting.
From S2P Require Import Prelude PyText PyBytes PyRegex PyJson PyDyn PyMarkers RecoverDocs SourceCheck.
Open Scope Z_scope.

Definition PATCH_PATHS : list string :=
  [ "Makefile"; "kernel/defs.h"; "kernel/proc.c"; "kernel/syncproject.c"; "kernel/syncproject.h";
    "kernel/syscall.c"; "kernel/syscall.h"; "kernel/sysproc.c"; "user/schedtrace.c"; "user/user.h";
    "user/usys.pl" ].
Definition SOURCE_PATHS : list string :=
  PATCH_PATHS ++
  [ "kernel/pipe.c"; "kernel/proc.h"; "kernel/riscv.h"; "kernel/sleeplock.c"; "kernel/spinlock.c";
    "kernel/spinlock.h"; "kernel/swtch.S"; "kernel/trap.c"; "user/usertests.c" ].

Section Sources.
(** [str.isalnum] outside ASCII *)
Context (alphanumeric : Z -> bool).

(** ** The context switch *)

(** [{"ra", "sp", *[f"s{i}" for i in range(12)]}] *)
Definition expected_registers : list string :=
  [ "ra"; "sp"; "s0"; "s1"; "s2"; "s3"; "s4"; "s5"; "s6"; "s7"; "s8"; "s9"; "s10"; "s11" ].
(** [\b<opcode>\s+<register>,] *)
Definition transfer (opcode register : string) : pattern :=
  all_of [word_boundary alphanumeric; lit opcode; plus (MChr isspace); lit register; lit ","].
(** [^\s*<opcode>\s+(\w+),] *)
Definition transfers (opcode : string) : pattern :=
  all_of [bol; star (MChr isspace); lit opcode; plus (MChr isspace);
          MGrp 1 (plus (MChr (word_char alphanumeric))); lit ","].
Definition registers (opcode : string) (swtch : pystr) : list pystr :=
  (fun g => default [] (group g 1)) <$> re_finditer (transfers opcode) swtch.

Definition check_swtch (swtch : pystr) : result () :=
  mapR (fun register =>
    require (found_in (transfer "sd" register) swtch) [T "swtch save missing: "; T register];;
    require (found_in (transfer "ld" register) swtch) [T "swtch restore missing: "; T register])
    expected_registers;;
  let saved_registers := registers "sd" swtch in
  let loaded_registers := registers "ld" swtch in
  require (same_set saved_registers loaded_registers && same_set loaded_registers (u <$> expected_registers))
    [T "swtch register save/restore set changed"];;
  require (lacks swtch "sret" && lacks swtch "satp")
    [T "swtch unexpectedly crosses privilege/page-table boundary"].

(** ** Declarations, locks, sleep and wakeup *)

Definition check_declarations (sources : list (pystr * pystr)) : result () :=
  makefile ← source_of sources "Makefile";
  require (has makefile "$K/syncproject.o" && has makefile "$U/_schedtrace")
    [T "syncproject build registrations are missing"];;
  require (has makefile "$U/usys.S :") [T "generated syscall stub rule is missing"];;
  proc_header ← source_of sources "kernel/proc.h";
  require_in_order proc_header ["struct context"; "uint64 ra"; "uint64 sp"; "uint64 s0"; "uint64 s11";
    "struct cpu"; "struct proc *proc"; "int noff"; "int intena"] "context/cpu declarations";;
  require_in_order proc_header ["UNUSED"; "USED"; "SLEEPING"; "RUNNABLE"; "RUNNING"; "ZOMBIE"]
    "process states".

Definition check_locks (sources : list (pystr * pystr)) : result () :=
  spinlock ← source_of sources "kernel/spinlock.c";
  acquire_body ← function_body spinlock "^acquire(" "^// Release";
  require_in_order acquire_body ["push_off()"; "holding(lk)"; "__atomic_exchange_n"; "__ATOMIC_ACQUIRE";
    "lk->cpu = mycpu()"] "spinlock acquire";;
  release_body ← function_body spinlock "^release(" "^// Check";
  require_in_order release_body ["holding(lk)"; "lk->cpu = 0"; "__atomic_store_n"; "__ATOMIC_RELEASE";
    "pop_off()"] "spinlock release";;
  require_in_order spinlock ["push_off(void)"; "int old = intr_get()"; "intr_off()";
    "mycpu()->intena = old"; "mycpu()->noff += 1"; "pop_off(void)"; "c->noff"; "intr_on()"]
    "nested interrupt state";;
  proc ← source_of sources "kernel/proc.c";
  scheduler ← function_body proc "^scheduler(void)" "^// Switch to scheduler";
  require_in_order scheduler ["intr_on()"; "intr_off()"; "acquire(&p->lock)"; "p->state == RUNNABLE";
    "syncproject_scheduler_skip(p)"; "syncproject_scheduler_select(p)"; "p->state = RUNNING";
    "c->proc = p"; "swtch(&c->context, &p->context)"; "c->proc = 0"; "release(&p->lock)"]
    "scheduler lock transfer";;
  sched ← function_body proc "^sched(void)" "^// Give up";
  require_each sched "sched precondition/transfer missing: " ["holding(&p->lock)"; "mycpu()->noff != 1";
    "p->state == RUNNING"; "intr_get()"; "intena = mycpu()->intena";
    "swtch(&p->context, &mycpu()->context)"; "mycpu()->intena = intena"];;
  yield_body ← function_body proc "^yield(void)" "^// A fork";
  require_in_order yield_body ["acquire(&p->lock)"; "p->state = RUNNABLE"; "sched()"; "release(&p->lock)"]
    "yield transition";;
  sleep_body ← function_body proc "^sleep(void *chan" "^// Wake up";
  require_in_order sleep_body ["acquire(&p->lock)"; "syncproject_sleep_before_release"; "release(lk)";
    "syncproject_sleep_after_release"; "p->chan = chan"; "p->state = SLEEPING";
    "syncproject_sleep_published"; "sched()"; "syncproject_sleep_resumed"; "p->chan = 0";
    "release(&p->lock)"; "acquire(lk)"] "sleep ownership handoff";;
  wakeup_body ← function_body proc "^wakeup(void *chan)" "^// Kill";
  require_in_order wakeup_body ["acquire(&p->lock)"; "p->state == SLEEPING && p->chan == chan";
    "syncproject_wakeup_scan"; "p->state = RUNNABLE"; "release(&p->lock)"] "wakeup publication".

Definition check_waiting (sources : list (pystr * pystr)) : result () :=
  trap ← source_of sources "kernel/trap.c";
  require ((times trap "if (which_dev == 2)" =? 1) && has trap "if (which_dev == 2 && myproc() != 0)")
    [T "user/kernel timer preemption branches changed"];;
  require ((times trap "yield();" =? 2)) [T "timer yield call count changed"];;
  prepare_return ← function_body trap "^prepare_return(void)" "^// interrupts";
  require (has prepare_return "p->trapframe->kernel_hartid = r_tp()")
    [T "prepare_return no longer publishes the current hart id"];;
  pipe ← source_of sources "kernel/pipe.c";
  require_in_order pipe ["acquire(&pi->lock)"; "pi->nread == pi->nwrite && pi->writeopen";
    "sleep(&pi->nread, &pi->lock)"; "wakeup(&pi->nwrite)"; "release(&pi->lock)"]
    "pipe condition protocol";;
  sleeplock ← source_of sources "kernel/sleeplock.c";
  require_in_order sleeplock ["while (lk->locked)"; "sleep(lk, &lk->lk)"; "lk->locked = 1"; "wakeup(lk)"]
    "sleep-lock condition loop".

(** ** The fixture *)

Definition check_trace_header (sources : list (pystr * pystr)) : result () :=
  header ← source_of sources "kernel/syncproject.h";
  mapR (fun field => require (found_in (word alphanumeric field) header) [T "trace field missing: "; T field])
    ["generation"; "target_state"; "target_chan_match"; "condition_locked"; "gate_pending";
    "wake_misses"; "wake_matches"; "origin_hart"; "resume_hart"; "migrated"; "condition_owner_hart";
    "proc_owner_hart"]%string;;
  require (has header "#define SYNC_MAX_EVENTS 32") [T "trace bound changed"].

Definition check_project (sources : list (pystr * pystr)) : result () :=
  project ← source_of sources "kernel/syncproject.c";
  require_in_order project ["target_event(struct proc"; "aload(&project.active)";
    "p->pid == aload(&project.target_pid)"; "chan == &project.channel"] "targeted hook predicate";;
  require (has project "__atomic_fetch_add(&project.next_event" && has project
    "__atomic_store_n(&event->valid, 1, __ATOMIC_RELEASE)" && has project
    "__atomic_load_n(&project.events[i].valid, __ATOMIC_ACQUIRE)")
    [T "bounded event publication changed"];;
  before_release ← function_body project "^syncproject_sleep_before_release"
    "^void^syncproject_sleep_after_release";
  require_in_order before_release ["SYNC_EVENT_WAIT_PLOCK"; "project.wait_plock_ready, 1";
    "while (!aload(&project.producer_attempt))"; "SYNC_EVENT_WAIT_RELEASE_BOUNDARY"]
    "fixed pre-release checkpoint";;
  after_release ← function_body project "^syncproject_sleep_after_release"
    "^void^syncproject_sleep_published";
  require_in_order after_release ["project.condition_released, 1";
    "while (!aload(&project.producer_acquired))"] "fixed post-release handoff";;
  broken ← function_body project "^broken_sleep(void)" "^int^syncprojectwait";
  require_in_order broken ["push_off()"; "release(&project.condition)"; "SYNC_EVENT_WAIT_RELEASED";
    "while (!aload(&project.wake_done))"; "acquire(&p->lock)"; "pop_off()"; "p->chan = &project.channel";
    "p->state = SLEEPING"; "sched()"] "broken lost-wakeup mutation";;
  producer ← function_body project "^syncprojectproduce(void)" "^static int^bad_state_recorded";
  require_in_order producer ["push_off()"; "SYNC_EVENT_PRODUCER_ARMED"; "project.producer_started";
    "SYNC_EVENT_PRODUCER_ATTEMPT"; "acquire(&project.condition)"; "SYNC_EVENT_PRODUCER_ACQUIRE";
    "project.ready, 1"; "SYNC_EVENT_PRODUCER_READY"; "wakeup(&project.channel)"; "SYNC_EVENT_WAKE_DONE";
    "project.origin_skip_seen"; "SYNC_EVENT_MIGRATE_RELEASE"; "project.resume_allowed, 1";
    "release(&project.condition)"; "pop_off()"] "two-hart producer control";;
  bad ← function_body project "^bad_state_recorded(void)" "^int^syncprojectrescue";
  require_each bad "bad-state oracle missing: " ["p->state == SLEEPING"; "p->chan == &project.channel";
    "aload(&project.ready) == 1"; "aload(&project.wake_misses) == 1"; "p->killed == 0";
    "SYNC_EVENT_BAD_ORACLE"];;
  rescue ← function_body project "^syncprojectrescue(void)" "^void^syncprojectsnapshot";
  require_in_order rescue ["bad_state_recorded()"; "project.rescuing, 1"; "SYNC_EVENT_RESCUE_BEGIN";
    "wakeup(&project.channel)"; "SYNC_EVENT_RESCUE_DONE"; "project.origin_skip_seen";
    "SYNC_EVENT_MIGRATE_RELEASE"; "project.resume_allowed, 1"] "post-oracle rescue";;
  scheduler_gate ← function_body project "^syncproject_scheduler_skip"
    "^void^syncproject_scheduler_select";
  require (has scheduler_gate "cpuid() == aload(&project.origin_hart)" && has scheduler_gate
    "!aload(&project.origin_skip_seen) || !aload(&project.resume_allowed)")
    [T "migration gate no longer waits for origin skip and release"].

Definition check_user (sources : list (pystr * pystr)) : result () :=
  syscall_h ← source_of sources "kernel/syscall.h";
  syscall_c ← source_of sources "kernel/syscall.c";
  sysproc ← source_of sources "kernel/sysproc.c";
  user_h ← source_of sources "user/user.h";
  usys ← source_of sources "user/usys.pl";
  require (has syscall_h "#define SYS_syncproject 22") [T "syncproject syscall number changed"];;
  require (has syscall_c "[SYS_syncproject] sys_syncproject") [T "syncproject dispatch slot missing"];;
  mapR (fun operation => require (has sysproc ("SYNC_OP_" ++ operation))
      [T "syncproject syscall operation missing: "; T operation]) ["RESET"; "WAIT"; "PRODUCE";
      "SNAPSHOT"; "RESCUE"; "CLEAR"]%string;;
  require (has user_h "int syncproject(int, int, struct syncsnapshot *);" && has usys
    "entry(`syncproject`);")
    [T "syncproject user ABI generation chain missing"];;
  guest ← source_of sources "user/schedtrace.c";
  require_in_order guest ["SYNC_OP_RESET"; "baseline_used = snapshot.used"; "fork()"; "SYNC_OP_PRODUCE";
    "snapshot.producer_started"; "fork()"; "SYNC_OP_WAIT"; "snapshot.target_state == 2";
    "snapshot.target_chan_match"; "snapshot.wake_misses == 1"; "SYNC BADSTATE"; "SYNC_OP_RESCUE";
    "wait_child()"; "dump_events"; "SYNC FINAL"; "SYNC_OP_CLEAR"; "SYNC CLEAN"; "SYNC PASS"]
    "guest trigger/oracle/cleanup flow";;
  require (has guest "uptime() + 50" && has guest "fail(`bad-state watchdog`)")
    [T "guest watchdog boundary missing"];;
  require (has guest "snapshot.target_killed == 0")
    [T "guest rescue gate no longer requires an un-killed target"].

(** [source] is the exported tree, [numstat] the answer of git. *)
Definition analyze_sources (source : string -> result pystr) (numstat : pystr) : result () :=
  paths ← numstat_paths "unexpected patch numstat: " numstat;
  require (same_set paths (u <$> PATCH_PATHS)) [T "syncproject patch path scope changed"];;
  sources ← read_all source SOURCE_PATHS;
  check_declarations sources;;
  swtch ← source_of sources "kernel/swtch.S";
  check_swtch swtch;;
  check_locks sources;;
  check_waiting sources;;
  check_trace_header sources;;
  check_project sources;;
  check_user sources.
End Sources.
