(* ===== verification/SchedTree.v ===== *)
(** What the source contracts of the scheduling lab guarantee of the text of
    the kernel, and a tree that fulfils them. *)

From stdpp Require Import base tactics list gmap strings numbers list_numbers sorting.
From S2P Require Import Prelude PyText PyBytes PyRegex PyJson PyDyn PyMarkers RecoverDocs SourceCheck SchedSource.
Open Scope Z_scope.

(** The function of this file shows the tokens in this order. *)
Definition shows (sources : list (pystr * pystr)) (path signature end_marker : string) (tokens : list string) : Prop :=
  exists content body, source_of sources path = Ok content /\ function_body content signature end_marker = Ok body /\
    in_order (src <$> tokens) body.

Section tree.
Context (alphanumeric : Z -> bool).

Lemma swtch_registers swtch : check_swtch alphanumeric swtch = Ok tt -> forall r,
  (r ∈ registers alphanumeric "sd" swtch <-> r ∈ u <$> expected_registers) /\
  (r ∈ registers alphanumeric "ld" swtch <-> r ∈ u <$> expected_registers).
Proof.
  unfold check_swtch. intros H r. apply bind_ok in H as (us & _ & H). inv_ok. to_prop.
  rewrite (same_set_iff _ _ H2). by split; apply same_set_iff.
Qed.

Lemma locks_shown sources : check_locks sources = Ok tt ->
  shows sources "kernel/proc.c" "^sleep(void *chan" "^// Wake up"
    ["acquire(&p->lock)"; "release(lk)"; "p->chan = chan"; "p->state = SLEEPING"; "sched()"] /\
  shows sources "kernel/proc.c" "^wakeup(void *chan)" "^// Kill"
    ["acquire(&p->lock)"; "p->state == SLEEPING && p->chan == chan"; "p->state = RUNNABLE"; "release(&p->lock)"].
Proof.
  unfold check_locks. intros H.
  do 6 (apply bind_ok in H as (? & _ & H)). apply bind_ok in H as (proc & Hp & H).
  do 6 (apply bind_ok in H as (? & _ & H)).
  apply bind_ok in H as (sleep & Hs & H). apply bind_ok in H as ([] & Hso & H).
  apply bind_ok in H as (wakeup & Hw & H). apply in_order_ok in Hso, H.
  split; eexists _, _; (split_and!; [eassumption..|]); (eapply in_order_some; [|eassumption]);
    repeat constructor.
Qed.

Lemma broken_shown sources : check_project sources = Ok tt ->
  shows sources "kernel/syncproject.c" "^broken_sleep(void)" "^int^syncprojectwait"
    ["release(&project.condition)"; "while (!aload(&project.wake_done))"; "acquire(&p->lock)"; "p->state = SLEEPING"].
Proof.
  unfold check_project. intros H. apply bind_ok in H as (project & Hp & H).
  do 6 (apply bind_ok in H as (? & _ & H)).
  apply bind_ok in H as (broken & Hb & H). apply bind_ok in H as ([] & Ho & _). apply in_order_ok in Ho.
  eexists _, _. split_and!; [eassumption..|]. eapply in_order_some; [|exact Ho].
  repeat constructor.
Qed.

(** What the text of an accepted tree says: the offsets of the context switch
    name exactly the callee-saved registers in saves and in loads, and in the
    bodies of sleep, wakeup and the broken variant the locks, the publication
    and the switch are written in this order.  It is a check of the text, and
    nothing is said about what the code does when it runs. *)
Theorem scheduling_sources source numstat :
  analyze_sources alphanumeric source numstat = Ok tt -> exists sources swtch,
    read_all source SOURCE_PATHS = Ok sources /\ source_of sources "kernel/swtch.S" = Ok swtch /\
    (forall r, (r ∈ registers alphanumeric "sd" swtch <-> r ∈ u <$> expected_registers) /\
               (r ∈ registers alphanumeric "ld" swtch <-> r ∈ u <$> expected_registers)) /\
    shows sources "kernel/proc.c" "^sleep(void *chan" "^// Wake up"
      ["acquire(&p->lock)"; "release(lk)"; "p->chan = chan"; "p->state = SLEEPING"; "sched()"] /\
    shows sources "kernel/proc.c" "^wakeup(void *chan)" "^// Kill"
      ["acquire(&p->lock)"; "p->state == SLEEPING && p->chan == chan"; "p->state = RUNNABLE"; "release(&p->lock)"] /\
    shows sources "kernel/syncproject.c" "^broken_sleep(void)" "^int^syncprojectwait"
      ["release(&project.condition)"; "while (!aload(&project.wake_done))"; "acquire(&p->lock)"; "p->state = SLEEPING"].
Proof.
  unfold analyze_sources. intros H.
  apply bind_ok in H as (? & _ & H). apply bind_ok in H as ([] & _ & H). apply bind_ok in H as (sources & Hs & H).
  apply bind_ok in H as ([] & _ & H). apply bind_ok in H as (swtch & Hw & H).
  apply bind_ok in H as ([] & Hr & H). apply bind_ok in H as ([] & Hl & H).
  apply bind_ok in H as ([] & _ & H). apply bind_ok in H as ([] & _ & H). apply bind_ok in H as ([] & Hp & _).
  exists sources, swtch. split_and!; [done|done|by apply swtch_registers|by apply locks_shown..|by apply broken_shown].
Qed.
End tree.

(** ** A tree *)

Definition sample_tree : list (string * list string) :=
  [ ("Makefile",
     ["$K/syncproject.o"; "$U/_schedtrace"; "$U/usys.S :"]);
    ("kernel/proc.h",
     ["struct context"; "uint64 ra"; "uint64 sp"; "uint64 s0"; "uint64 s11"; "struct cpu";
      "struct proc *proc"; "int noff"; "int intena"; "UNUSED"; "USED"; "SLEEPING"; "RUNNABLE"; "RUNNING";
      "ZOMBIE"]);
    ("kernel/swtch.S",
     ["sd ra, 0(a0)"; "sd sp, 8(a0)"; "sd s0, 16(a0)"; "sd s1, 24(a0)"; "sd s2, 32(a0)"; "sd s3, 40(a0)";
      "sd s4, 48(a0)"; "sd s5, 56(a0)"; "sd s6, 64(a0)"; "sd s7, 72(a0)"; "sd s8, 80(a0)"; "sd s9, 88(a0)";
      "sd s10, 96(a0)"; "sd s11, 104(a0)"; "ld ra, 0(a1)"; "ld sp, 8(a1)"; "ld s0, 16(a1)";
      "ld s1, 24(a1)"; "ld s2, 32(a1)"; "ld s3, 40(a1)"; "ld s4, 48(a1)"; "ld s5, 56(a1)"; "ld s6, 64(a1)";
      "ld s7, 72(a1)"; "ld s8, 80(a1)"; "ld s9, 88(a1)"; "ld s10, 96(a1)"; "ld s11, 104(a1)"; "ret"]);
    ("kernel/spinlock.c",
     [""; "acquire("; "push_off()"; "holding(lk)"; "__atomic_exchange_n"; "__ATOMIC_ACQUIRE";
      "lk->cpu = mycpu()"; "// Release"; "release("; "holding(lk)"; "lk->cpu = 0"; "__atomic_store_n";
      "__ATOMIC_RELEASE"; "pop_off()"; "// Check"; "push_off(void)"; "int old = intr_get()"; "intr_off()";
      "mycpu()->intena = old"; "mycpu()->noff += 1"; "pop_off(void)"; "c->noff"; "intr_on()"]);
    ("kernel/proc.c",
     [""; "scheduler(void)"; "intr_on()"; "intr_off()"; "acquire(&p->lock)"; "p->state == RUNNABLE";
      "syncproject_scheduler_skip(p)"; "syncproject_scheduler_select(p)"; "p->state = RUNNING";
      "c->proc = p"; "swtch(&c->context, &p->context)"; "c->proc = 0"; "release(&p->lock)";
      "// Switch to scheduler"; "sched(void)"; "holding(&p->lock)"; "mycpu()->noff != 1";
      "p->state == RUNNING"; "intr_get()"; "intena = mycpu()->intena";
      "swtch(&p->context, &mycpu()->context)"; "mycpu()->intena = intena"; "// Give up"; "yield(void)";
      "acquire(&p->lock)"; "p->state = RUNNABLE"; "sched()"; "release(&p->lock)"; "// A fork";
      "sleep(void *chan"; "acquire(&p->lock)"; "syncproject_sleep_before_release"; "release(lk)";
      "syncproject_sleep_after_release"; "p->chan = chan"; "p->state = SLEEPING";
      "syncproject_sleep_published"; "sched()"; "syncproject_sleep_resumed"; "p->chan = 0";
      "release(&p->lock)"; "acquire(lk)"; "// Wake up"; "wakeup(void *chan)"; "acquire(&p->lock)";
      "p->state == SLEEPING && p->chan == chan"; "syncproject_wakeup_scan"; "p->state = RUNNABLE";
      "release(&p->lock)"; "// Kill"]);
    ("kernel/trap.c",
     ["if (which_dev == 2)"; "yield();"; "if (which_dev == 2 && myproc() != 0)"; "yield();";
      "prepare_return(void)"; "p->trapframe->kernel_hartid = r_tp()"; "// interrupts"]);
    ("kernel/pipe.c",
     ["acquire(&pi->lock)"; "pi->nread == pi->nwrite && pi->writeopen"; "sleep(&pi->nread, &pi->lock)";
      "wakeup(&pi->nwrite)"; "release(&pi->lock)"]);
    ("kernel/sleeplock.c",
     ["while (lk->locked)"; "sleep(lk, &lk->lk)"; "lk->locked = 1"; "wakeup(lk)"]);
    ("kernel/syncproject.h",
     ["generation"; "target_state"; "target_chan_match"; "condition_locked"; "gate_pending"; "wake_misses";
      "wake_matches"; "origin_hart"; "resume_hart"; "migrated"; "condition_owner_hart"; "proc_owner_hart";
      "#define SYNC_MAX_EVENTS 32"]);
    ("kernel/syncproject.c",
     ["target_event(struct proc"; "aload(&project.active)"; "p->pid == aload(&project.target_pid)";
      "chan == &project.channel"; "__atomic_fetch_add(&project.next_event";
      "__atomic_store_n(&event->valid, 1, __ATOMIC_RELEASE)";
      "__atomic_load_n(&project.events[i].valid, __ATOMIC_ACQUIRE)"; "syncproject_sleep_before_release";
      "SYNC_EVENT_WAIT_PLOCK"; "project.wait_plock_ready, 1"; "while (!aload(&project.producer_attempt))";
      "SYNC_EVENT_WAIT_RELEASE_BOUNDARY"; "void"; "syncproject_sleep_after_release";
      "project.condition_released, 1"; "while (!aload(&project.producer_acquired))"; "void";
      "syncproject_sleep_published"; "broken_sleep(void)"; "push_off()"; "release(&project.condition)";
      "SYNC_EVENT_WAIT_RELEASED"; "while (!aload(&project.wake_done))"; "acquire(&p->lock)"; "pop_off()";
      "p->chan = &project.channel"; "p->state = SLEEPING"; "sched()"; "int"; "syncprojectwait";
      "syncprojectproduce(void)"; "push_off()"; "SYNC_EVENT_PRODUCER_ARMED"; "project.producer_started";
      "SYNC_EVENT_PRODUCER_ATTEMPT"; "acquire(&project.condition)"; "SYNC_EVENT_PRODUCER_ACQUIRE";
      "project.ready, 1"; "SYNC_EVENT_PRODUCER_READY"; "wakeup(&project.channel)"; "SYNC_EVENT_WAKE_DONE";
      "project.origin_skip_seen"; "SYNC_EVENT_MIGRATE_RELEASE"; "project.resume_allowed, 1";
      "release(&project.condition)"; "pop_off()"; "static int"; "bad_state_recorded(void)";
      "p->state == SLEEPING"; "p->chan == &project.channel"; "aload(&project.ready) == 1";
      "aload(&project.wake_misses) == 1"; "p->killed == 0"; "SYNC_EVENT_BAD_ORACLE"; "int";
      "syncprojectrescue(void)"; "bad_state_recorded()"; "project.rescuing, 1"; "SYNC_EVENT_RESCUE_BEGIN";
      "wakeup(&project.channel)"; "SYNC_EVENT_RESCUE_DONE"; "project.origin_skip_seen";
      "SYNC_EVENT_MIGRATE_RELEASE"; "project.resume_allowed, 1"; "void"; "syncprojectsnapshot";
      "syncproject_scheduler_skip"; "cpuid() == aload(&project.origin_hart)";
      "!aload(&project.origin_skip_seen) || !aload(&project.resume_allowed)"; "void";
      "syncproject_scheduler_select"]);
    ("kernel/syscall.h",
     ["#define SYS_syncproject 22"]);
    ("kernel/syscall.c",
     ["[SYS_syncproject] sys_syncproject"]);
    ("kernel/sysproc.c",
     ["SYNC_OP_RESET"; "SYNC_OP_WAIT"; "SYNC_OP_PRODUCE"; "SYNC_OP_SNAPSHOT"; "SYNC_OP_RESCUE";
      "SYNC_OP_CLEAR"]);
    ("user/user.h",
     ["int syncproject(int, int, struct syncsnapshot *);"]);
    ("user/usys.pl",
     ["entry(`syncproject`);"]);
    ("user/schedtrace.c",
     ["SYNC_OP_RESET"; "baseline_used = snapshot.used"; "fork()"; "SYNC_OP_PRODUCE";
      "snapshot.producer_started"; "fork()"; "SYNC_OP_WAIT"; "snapshot.target_state == 2";
      "snapshot.target_chan_match"; "snapshot.wake_misses == 1"; "SYNC BADSTATE"; "SYNC_OP_RESCUE";
      "wait_child()"; "dump_events"; "SYNC FINAL"; "SYNC_OP_CLEAR"; "SYNC CLEAN"; "SYNC PASS";
      "uptime() + 50"; "fail(`bad-state watchdog`)"; "snapshot.target_killed == 0"]) ]%string.


Definition sample_source (path : string) : result pystr :=
  Ok (match list_find (fun e => e.1 = path) sample_tree with
      | Some (_, (_, lines)) => join [newline] (src <$> lines)
      | None => []
      end).
Definition sample_numstat : pystr := mjoin ((fun p => u "1" ++ [9] ++ u "0" ++ [9] ++ u p ++ [newline]) <$> PATCH_PATHS).

Lemma scheduling_sources_witness :
  analyze_sources (fun _ => false) sample_source sample_numstat = Ok tt /\
  exists sources, read_all sample_source SOURCE_PATHS = Ok sources.
Proof.
  assert (analyze_sources (fun _ => false) sample_source sample_numstat = Ok tt) as H by (vm_compute; reflexivity).
  split; [exact H|]. destruct (scheduling_sources _ _ _ H) as (s & _ & E & _). exists s. exact E.
Defined.
