(* ===== verification/LifeLab.v ===== *)
(** The process-lifecycle lab,
    [docs/xv6-tutorial/resources/process-lifecycle/run-lab.py]: the contracts of
    fork, exec, exit and wait in the sources, and the oracle of a guest run with
    its ledger of processes, pages and file references. *)

From stdpp Require Import base tactics list gmap strings numbers list_numbers sorting.
From S2P Require Import Prelude PyText PyBytes PyRegex PyJson PyDyn PyMarkers RecoverDocs SourceCheck.
Open Scope Z_scope.

Definition PATCH_PATHS : list string :=
  [ "Makefile"; "kernel/defs.h"; "kernel/file.c"; "kernel/kalloc.c"; "kernel/lifecycle.h";
    "kernel/proc.c"; "kernel/syscall.c"; "kernel/syscall.h"; "kernel/sysproc.c"; "user/lifecycle.c";
    "user/lifeexec.c"; "user/user.h"; "user/usys.pl" ].
(** A union of sets: a path of both is read once. *)
Definition SOURCE_PATHS : list string :=
  PATCH_PATHS ++
  [ "kernel/exec.c"; "kernel/fs.c"; "kernel/param.h"; "kernel/pipe.c"; "kernel/proc.h";
    "kernel/riscv.h"; "kernel/sysfile.c"; "kernel/trap.c"; "kernel/vm.c"; "user/init.c";
    "user/sh.c"; "user/usertests.c" ].

(** * Tokens in order, with their positions *)

Definition position_step (source : pystr) (context : string) '(positions, offset) (token : string)
    : result (list Z * Z) :=
  match find_from (src token) source offset with
  | Some position => Ok (positions ++ [position], position + len (src token))
  | None => Raise (LabError [T context; T " token missing: "; V (src token)])
  end.
Definition require_in_order (source : pystr) (tokens : list string) (context : string) : result () :=
  '(positions, _) ← foldM (position_step source context) ([], 0) tokens;
  require (bool_decide (positions = merge_sort Z.le positions)) [T context; T " order changed"].

(** * Sources *)

Section Sources.
(** [str.isalnum] outside ASCII *)
Context (alphanumeric : Z -> bool).

(** [\b<symbol>\s*\(] *)
Definition called (symbol : string) : pattern :=
  all_of [word_boundary alphanumeric; lit symbol; star (MChr isspace); lit "("].
(** [^#define <name>\s+(\d+)] *)
Definition defined (name : string) : pattern :=
  all_of [bol; lit "#define "; lit name; plus (MChr isspace); MGrp 1 (plus (MChr is_decimal))].
Definition constant (name : string) (header : pystr) : option pystr :=
  m ← re_search (defined name) header; group m.2 1.

Definition check_snapshot_call (sources : list (pystr * pystr)) : result () :=
  makefile ← source_of sources "Makefile";
  require (has makefile "$U/_lifecycle" && has makefile "$U/_lifeexec")
    [T "lifecycle programs are not registered in UPROGS"];;
  require (has makefile "$U/usys.S :") [T "generated stub rule is missing"];;
  header ← source_of sources "kernel/lifecycle.h";
  mapR (fun field => require (found_in (word alphanumeric field) header) [T "snapshot field missing: "; T field])
    ["used"; "sleeping"; "runnable"; "running"; "zombie"; "free_pages"; "active_files";
    "file_refs"; "parent_links"; "target_present"; "target_sleeping"; "target_zombie";
    "target_parent_is_init"; "target_sz"; "target_name"; "target_ofile_slots"]%string;;
  syscall_h ← source_of sources "kernel/syscall.h";
  require (found_in (all_of [bol; lit "#define SYS_lifesnapshot 22"; eol]) syscall_h)
    [T "lifesnapshot must use the next syscall number 22"];;
  syscall_c ← source_of sources "kernel/syscall.c";
  require (has syscall_c "extern uint64 sys_lifesnapshot(void);")
    [T "lifesnapshot syscall declaration missing"];;
  require (found_in (all_of [lit "[SYS_lifesnapshot]"; plus (MChr isspace); lit "sys_lifesnapshot"]) syscall_c)
    [T "lifesnapshot dispatch slot missing"];;
  sysproc ← source_of sources "kernel/sysproc.c";
  require (has sysproc "sys_lifesnapshot(void)" && has sysproc "procsnapshot")
    [T "lifesnapshot handler does not call the process snapshot"];;
  user_h ← source_of sources "user/user.h";
  require (has user_h "int lifesnapshot(int, void *);") [T "lifesnapshot user declaration missing"];;
  usys ← source_of sources "user/usys.pl";
  require (has usys "entry(`lifesnapshot`);") [T "lifesnapshot generator entry missing"].

Definition check_proc (sources : list (pystr * pystr)) : result () :=
  proc ← source_of sources "kernel/proc.c";
  proc_header ← source_of sources "kernel/proc.h";
  require_in_order proc_header ["UNUSED"; "USED"; "SLEEPING"; "RUNNABLE"; "RUNNING"; "ZOMBIE"]
    "process state declaration";;
  mapR (fun symbol => require (found_in (called symbol) proc)
    [T "process lifecycle anchor missing: "; T symbol]) ["allocproc"; "freeproc"; "proc_pagetable";
      "proc_freepagetable"; "userinit"; "kfork"; "reparent"; "kexit"; "kwait"; "forkret"; "kkill";
      "killed"; "procsnapshot"]%string;;
  require_each proc "process state token missing: " ["UNUSED"; "USED"; "RUNNABLE"; "RUNNING"; "SLEEPING";
    "ZOMBIE"];;
  require (has proc "acquire(&wait_lock)" && has proc "acquire(&p->lock)")
    [T "snapshot/wait locking contract missing"];;
  require (has proc "p->state = ZOMBIE" && has proc "freeproc(pp)")
    [T "zombie and wait reclamation paths missing"];;
  require (has proc "pp->parent = initproc" && has proc "wakeup(initproc)")
    [T "orphan reparent path missing"];;
  require (has proc "p->state = RUNNABLE" && has proc "p->killed = 1")
    [T "blocked-kill wakeup path missing"];;
  userinit ← function_body proc "^userinit(" "^// Grow";
  require_in_order userinit ["allocproc()"; "initproc = p"; "namei(`/`)"; "p->state = RUNNABLE"]
    "first-process publication";;
  forkret ← function_body proc "^forkret(" "^// Sleep";
  require_in_order forkret ["release(&p->lock)"; "fsinit(ROOTDEV)"; "first = 0"; "kexec(`/init`"]
    "first-process exec";;
  fork_body ← function_body proc "^kfork(" "^// Pass";
  require_in_order fork_body ["allocproc()"; "uvmcopy("; "np->trapframe->a0 = 0"; "filedup("; "idup(";
    "acquire(&wait_lock)"; "np->parent = p"; "np->state = RUNNABLE"] "fork ownership publication";;
  exit_body ← function_body proc "^kexit(" "^// Wait";
  require_in_order exit_body ["fileclose("; "iput(p->cwd)"; "acquire(&wait_lock)"; "reparent(p)";
    "p->xstate = status"; "p->state = ZOMBIE"] "exit ownership transfer";;
  wait_body ← function_body proc "^kwait(" "^// Per-CPU";
  require_in_order wait_body ["if (pp->state == ZOMBIE)"; "copyout("; "freeproc(pp)"]
    "wait status delivery and reclamation".

Definition check_ownership (sources : list (pystr * pystr)) : result () :=
  exec_source ← source_of sources "kernel/exec.c";
  require (has exec_source "kexec(" && has exec_source "oldpagetable = p->pagetable")
    [T "exec replacement commit anchor missing"];;
  require (has exec_source "if (pagetable)" && has exec_source "proc_freepagetable(pagetable, sz)")
    [T "exec failure cleanup missing"];;
  require (has exec_source "p->pagetable = pagetable" && has exec_source "p->trapframe->epc = elf.entry")
    [T "exec commit fields missing"];;
  require_in_order exec_source ["proc_pagetable(p)"; "uvmalloc("; "oldpagetable = p->pagetable";
    "p->pagetable = pagetable"; "proc_freepagetable(oldpagetable, oldsz)"; "bad:";
    "proc_freepagetable(pagetable, sz)"] "exec prepare/commit/rollback";;
  file_source ← source_of sources "kernel/file.c";
  require (has file_source "filealloc(" && has file_source "filedup(" && has file_source "fileclose(")
    [T "file ownership anchors missing"];;
  require (has file_source "filerefcount(" && has file_source "f->ref")
    [T "file reference ledger missing"];;
  kalloc ← source_of sources "kernel/kalloc.c";
  require (has kalloc "kalloc(" && has kalloc "kfree(" && has kalloc "freepagecount(")
    [T "page ownership ledger missing"];;
  pipe_source ← source_of sources "kernel/pipe.c";
  start ← index_from pipe_source "^piperead(" 0;
  let pipe_read := zdrop start pipe_source in
  require_in_order pipe_read ["if (killed(pr))"; "sleep(&pi->nread"; "return i"]
    "blocked pipe cancellation";;
  init_source ← source_of sources "user/init.c";
  require_in_order init_source ["exec(`sh`"; "for (;;) {"; "wait((int *)0)"]
    "init shell/orphan reap loop";;
  shell_source ← source_of sources "user/sh.c";
  require (has shell_source "runcmd(" && has shell_source "exec(ecmd->argv[0]" && has shell_source
    "if (fork1() == 0)" && has shell_source "wait(0)")
    [T "shell fork/exec/wait path missing"].

Definition check_phases (lifecycle : pystr) : result () :=
  require_each lifecycle "lifecycle phase missing: " ["LIFE BASE"; "LIFE EXEC_READY"; "LIFE EXEC_AFTER";
    "LIFE WAIT_BAD"; "LIFE EXEC_REAP"; "LIFE EXECFAIL"; "LIFE KILL_SLEEP"; "LIFE KILL_REAP";
    "LIFE ORPHAN_REPARENT"; "LIFE ORPHAN_REAP"; "LIFE CAPACITY"; "LIFE CAPACITY_REAP"; "LIFE FINAL";
    "LIFE PASS"];;
  require_each lifecycle "lifecycle operation missing: " ["fork()"; "exec("; "wait("; "kill(";
    "lifesnapshot("; "O_RDONLY"];;
  require (has lifecycle "fork_fail" && has lifecycle "target_parent_is_init")
    [T "capacity/orphan oracle fields missing"].

Definition check_capacity (sources : list (pystr * pystr)) (lifecycle : pystr) : result () :=
  param ← source_of sources "kernel/param.h";
  riscv ← source_of sources "kernel/riscv.h";
  match constant "MAXARG" param, constant "USERSTACK" param, constant "PGSIZE" riscv with
  | Some maxarg, Some userstack, Some pgsize =>
      maxarg ← int_decimals maxarg;
      userstack ← int_decimals userstack;
      pgsize ← int_decimals pgsize;
      let user_stack_bytes := userstack * pgsize in
      require ((maxarg =? 32) && (user_stack_bytes =? 4096))
        [T "exec rollback fixture capacity assumptions changed"];;
      require (has lifecycle "static char oversized_args[MAXARG - 1][300]" && has lifecycle
        "for (int i = 0; i < MAXARG - 1; i++)" && has lifecycle "for (int j = 0; j < 299; j++)" && has
        lifecycle "oversized_args[i][299] = 0" && has lifecycle "arguments[0] = `lifeexec`" && has lifecycle
        "arguments[MAXARG - 1] = 0" && has lifecycle "exec(`lifeexec`, arguments)")
        [T "exec rollback fixture argument construction changed"];;
      let oversized_argv_bytes := 9 + (maxarg - 2) * 300 in
      require (user_stack_bytes <? oversized_argv_bytes)
        [T "exec rollback argv no longer exceeds the new user stack"]
  | _, _, _ => Raise (LabError [T "exec argument/stack capacity constants are missing"])
  end.

Definition check_exec_helper (sources : list (pystr * pystr)) : result () :=
  sysfile ← source_of sources "kernel/sysfile.c";
  sys_exec ← function_body sysfile "^sys_exec(" "^uint64^sys_pipe";
  require_in_order sys_exec ["fetchaddr("; "kalloc()"; "fetchstr("; "kexec(path, argv)"; "kfree(argv[i])"]
    "exec argv pre-copy and release";;
  helper ← source_of sources "user/lifeexec.c";
  require (lacks helper "exec" && has helper "getpid()" && has helper "read(")
    [T "exec helper must prove inherited pid and descriptors"];;
  defs ← source_of sources "kernel/defs.h";
  require (has defs "freepagecount" && has defs "filerefcount" && has defs "procsnapshot")
    [T "snapshot helper declarations missing"].

(** [source] is the exported tree, [numstat] the answer of git. *)
Definition analyze_sources (patched : bool) (source : string -> result pystr) (numstat : pystr) : result () :=
  paths ← numstat_paths "unexpected patch numstat line: " numstat;
  require (same_set paths (u <$> PATCH_PATHS)) [T "patch paths differ: "; Elided];;
  sources ← read_all source SOURCE_PATHS;
  check_snapshot_call sources;;
  check_proc sources;;
  check_ownership sources;;
  lifecycle ← source_of sources "user/lifecycle.c";
  check_phases lifecycle;;
  check_capacity sources lifecycle;;
  check_exec_helper sources;;
  if patched then
    proc ← source_of sources "kernel/proc.c";
    require (has proc "struct lifesnapshot") [T "patched proc.c does not include snapshot type"]
  else Ok tt.
End Sources.

(** * Markers *)

(** [name] is kept as text, the other fields are numbers where they can be. *)
Definition parse_snapshot (line : pystr) : record :=
  foldl (fun values g =>
    let '(key, value) := field_of g in
    dict_set key (if bool_decide (key = u "name") then DStr value else dyn_of value) values)
    [] (re_finditer field_re line).

(** [LIFE ([A-Z_]+)] *)
Definition phase_re : pattern :=
  all_of [lit "LIFE "; MGrp 1 (plus (MChr (fun c => in_range "A" "Z" c || (c =? 95))))].

(** The markers with their phases, in order; the dictionary of the source maps
    a phase to its markers. *)
Definition lifecycle_lines (output : pystr) : result (list pystr * list (pystr * record)) :=
  let lines := lines_starting output "LIFE " in
  require (negb (bool_decide (lines = []))) [T "lifecycle produced no markers: "; Elided];;
  phases ← mapR (fun line =>
    match re_match phase_re line with
    | Some g => Ok (default [] (group g 1), parse_snapshot line)
    | None => Raise (LabError [T "malformed lifecycle marker: "; V line])
    end) lines;
  Ok (lines, phases).
Definition markers_of (phases : list (pystr * record)) (phase : string) : list record :=
  (filter (fun e => e.1 = u phase) phases).*2.
(** [phases[phase][0]] *)
Definition marker (phases : list (pystr * record)) (phase : string) : result record :=
  of_option KeyError (head (markers_of phases phase)).

Definition expected : list string :=
  [ "BASE"; "EXEC_READY"; "EXEC_AFTER"; "WAIT_BAD"; "EXEC_REAP"; "EXECFAIL"; "KILL_SLEEP"; "KILL_REAP";
    "ORPHAN_REPARENT"; "ORPHAN_REAP"; "CAPACITY"; "CAPACITY_REAP"; "FINAL"; "PASS" ].
Definition LEDGER : list string := [ "used"; "free"; "active_files"; "refs"; "parents" ].

Definition require_baseline_ledger (base : record) (phase : string) (values : record) : result () :=
  foldM (fun _ key => requireR (eqR (look values key) (fetch base key))
           [T phase; T " ledger did not recover: "; T key]) tt LEDGER.

Definition check_base (base : record) : result () :=
  (foldM (fun _ key => require (has_key (u key) base) [T "BASE missing "; T key]) tt LEDGER;;
   requireR (fetch base "used" >= #3 &&. fetch base "free" > #0) [T "invalid baseline resource ledger"])%dyn.

Definition check_exec (phases : list (pystr * record)) (base : record) : result () :=
  (ready ← marker phases "EXEC_READY";
   after ← marker phases "EXEC_AFTER";
   reap ← marker phases "EXEC_REAP";
   requireR (look ready "pid" == look after "pid") [T "exec changed pid"];;
   requireR (look after "pid" == look reap "pid") [T "wait reported another pid"];;
   requireR (look ready "pid_same" == #1 &&. look ready "fd_ok" == #1)
     [T "exec helper did not prove pid/fd inheritance"];;
   requireR (look ready "sleeping" == #1 &&. look ready "name" == text "lifecycle")
     [T "pre-exec checkpoint is not a blocked lifecycle child"];;
   requireR (look after "sleeping" == #1 &&. look after "name" == text "lifeexec")
     [T "post-exec checkpoint is not a blocked lifeexec child"];;
   requireR (look after "sz_changed" == #1) [T "exec did not replace the address-space size"];;
   requireR (look after "pagetable_changed" == #1 &&. look after "trapframe_same" == #1)
     [T "exec changed the wrong process-owned objects"];;
   requireR (look after "cwd_same" == #1) [T "exec did not preserve cwd ownership"];;
   requireR (fetch ready "used" > fetch base "used" &&. fetch ready "parents" > fetch base "parents")
     [T "fork did not publish a child slot/parent link"];;
   requireR (fetch ready "free" < fetch base "free" &&. fetch ready "refs" > fetch base "refs")
     [T "fork did not account copied pages/file references"];;
   bad ← marker phases "WAIT_BAD";
   requireR (look bad "ret" == #(-1) &&. look bad "target_present" == #1 &&. look bad "zombie" == #1 &&.
             look bad "ofile" == #0)
     [T "invalid wait status pointer did not retain a cleaned zombie"];;
   requireR (look reap "status" == #37) [T "fork-exec child exit status was not preserved"];;
   require_baseline_ledger base "EXEC_REAP" reap)%dyn.

Definition check_execfail (phases : list (pystr * record)) (base : record) : result () :=
  (failed ← marker phases "EXECFAIL";
   requireR (look failed "ret" == #(-1) &&. look failed "pid_same" == #1)
     [T "failed exec did not return while retaining the process"];;
   requireR (look failed "sz_same" == #1 &&. look failed "fd_ok" == #1)
     [T "failed exec did not preserve image/resources"];;
   requireR (fetch base "free" > #64)
     [T "baseline lacks enough free pages to rule out argv pre-copy exhaustion"])%dyn.

Definition check_kill (phases : list (pystr * record)) (base : record) : result () :=
  (kill_sleep ← marker phases "KILL_SLEEP";
   kill_reap ← marker phases "KILL_REAP";
   requireR (look kill_sleep "sleeping" == #1 &&. look kill_sleep "target_present" == #1)
     [T "kill fixture was not observed blocked"];;
   requireR (look kill_reap "status" == #(-1) &&. look kill_reap "target_present" == #0)
     [T "blocked kill did not produce -1 status and reclaim the target"];;
   require_baseline_ledger base "KILL_REAP" kill_reap)%dyn.

Definition check_orphan (phases : list (pystr * record)) (base : record) : result () :=
  (orphan ← marker phases "ORPHAN_REPARENT";
   orphan_reap ← marker phases "ORPHAN_REAP";
   requireR (look orphan "target_present" == #1 &&. look orphan "sleeping" == #1)
     [T "orphan was not retained as a live blocked child"];;
   requireR (look orphan "target_parent_init" == #1)
     [T "orphan parent was not init after intermediate exit"];;
   requireR (look orphan_reap "target_present" == #0 &&. look orphan_reap "absent" == #1)
     [T "init did not reclaim the orphan"];;
   require_baseline_ledger base "ORPHAN_REAP" orphan_reap)%dyn.

Definition check_full (phases : list (pystr * record)) (base : record) : result () :=
  (capacity ← marker phases "CAPACITY";
   cap_reap ← marker phases "CAPACITY_REAP";
   let c := look capacity in
   requireR (c "fork_fail" == #(-1)) [T "capacity fixture did not hit fork failure"];;
   requireR (c "used" == #64) [T "capacity fixture did not fill NPROC slots"];;
   requireR (c "free" > #0) [T "capacity fixture exhausted pages before NPROC"];;
   requireR (c "children" == fetch capacity "used" - fetch base "used")
     [T "capacity child count does not match used slots"];;
   requireR (c "parents" == fetch base "parents" + fetch capacity "children")
     [T "capacity parent-link ledger mismatch"];;
   requireR (c "active_files" == fetch base "active_files" + #2)
     [T "capacity created an unexpected number of file objects"];;
   expected_refs ← fetch base "refs" + #2 + fetch capacity "children" * #4;
   requireR (c "refs" == Ok expected_refs &&. c "inherited_refs" == Ok expected_refs - fetch base "refs")
     [T "capacity file reference ledger mismatch"];;
   require_baseline_ledger base "CAPACITY_REAP" cap_reap)%dyn.

Definition validate_lifecycle (output : pystr) : result (list pystr) :=
  '(lines, phases) ← lifecycle_lines output;
  require (bool_decide (phases.*1 = u <$> expected)) [T "lifecycle phase sequence changed: "; L phases.*1];;
  foldM (fun _ phase => require (len (markers_of phases phase) =? 1) [T "phase count mismatch: "; T phase])
    tt expected;;
  base ← marker phases "BASE";
  check_base base;;
  check_exec phases base;;
  check_execfail phases base;;
  check_kill phases base;;
  check_orphan phases base;;
  check_full phases base;;
  final ← marker phases "FINAL";
  require_baseline_ledger base "FINAL" final;;
  Ok lines.
