(* ===== verification/LifeProps.v ===== *)
(** What the process-lifecycle oracle guarantees: the phases in their order,
    the ledger of processes, pages and files back at its base after every
    scenario, and the counts of a full process table. *)

From stdpp Require Import base tactics list gmap strings numbers list_numbers sorting.
From S2P Require Import Prelude PyText PyBytes PyRegex PyJson PyDyn PyMarkers RecoverDocs SourceCheck LifeLab.
Open Scope Z_scope.

(** * Tokens in order *)

Lemma sorted_merge_sort (l : list Z) : Sorted Z.le l -> merge_sort Z.le l = l.
Proof.
  intros H. apply (Sorted_unique Z.le); [|done|apply merge_sort_Permutation].
  apply Sorted_merge_sort. intros ??. lia.
Qed.

Lemma sorted_snoc l x : Sorted Z.le l -> Forall (fun p => p <= x) l -> Sorted Z.le (l ++ [x]).
Proof.
  induction l as [|y l IH]; intros Hs Hf; cbn; [repeat constructor|].
  apply Sorted_inv in Hs as [Hs Hh]. apply Forall_cons in Hf as [Hy Hf]. constructor; [auto|].
  destruct l as [|z l]; cbn; constructor; [done|]. by apply HdRel_inv in Hh.
Qed.

(** The positions are sorted and not past the offset, so the loop and the one
    without positions agree step by step. *)
Lemma positions_agree source context tokens : forall positions offset,
  0 <= offset -> Sorted Z.le positions -> Forall (fun p => p <= offset) positions ->
  match foldM (position_step source context) (positions, offset) tokens,
        foldM (order_step " token missing: " source context) offset tokens with
  | Ok (ps, n), Ok n' => n = n' /\ Sorted Z.le ps
  | Raise e, Raise e' => e = e'
  | _, _ => False
  end.
Proof.
  induction tokens as [|t tokens IH]; intros ps offset Ho Hs Hf; cbn [foldM]; [done|].
  destruct (find_from (src t) source offset) as [p|] eqn:E.
  2: { assert (position_step source context (ps, offset) t =
         Raise (LabError [T context; T " token missing: "; V (src t)])) as -> by (unfold position_step; by rewrite E).
       assert (order_step " token missing: " source context offset t =
         Raise (LabError [T context; T " token missing: "; V (src t)])) as -> by (unfold order_step; by rewrite E).
       done. }
  assert (position_step source context (ps, offset) t = Ok (ps ++ [p], p + len (src t))) as ->
    by (unfold position_step; by rewrite E).
  assert (order_step " token missing: " source context offset t = Ok (p + len (src t))) as ->
    by (unfold order_step; by rewrite E). cbn [mbind result_bind].
  apply find_from_Some in E as (_ & Hp & _); [|done]. rewrite len_length. apply IH; [lia| |].
  - apply sorted_snoc; [done|]. eapply Forall_impl; [exact Hf|]. cbn. lia.
  - apply Forall_app. split; [|apply Forall_singleton; lia]. eapply Forall_impl; [exact Hf|]. cbn. lia.
Qed.

(** The lifecycle runner compares the positions it found with their
    sorted list; that check never fails, so its order check is the one of the
    other runners. *)
Theorem position_check_redundant source tokens context :
  require_in_order source tokens context =
  (foldM (order_step " token missing: " source context) 0 tokens;; Ok tt).
Proof.
  unfold require_in_order. pose proof (positions_agree source context tokens [] 0) as H.
  specialize (H ltac:(lia) (Sorted_nil _) (Forall_nil_2 _)).
  destruct (foldM (position_step _ _) _ _) as [[ps n]|], (foldM (order_step _ _ _) _ _); cbn; try done.
  - destruct H as [_ H]. rewrite sorted_merge_sort by done. by rewrite bool_decide_true.
  - congruence.
Qed.

(** * The run *)

(** The scenarios that end with everything given back *)
Definition reaped : list string := [ "EXEC_REAP"; "KILL_REAP"; "ORPHAN_REAP"; "CAPACITY_REAP"; "FINAL" ].

Definition same_ledger (base r : record) : Prop :=
  Forall (fun key => exists v, fetch base key = Ok v /\ look r key = Ok v) LEDGER.

(** The table is full: every slot beyond the base holds a child, each child has
    one parent link, and its four descriptors with the two new files account
    for the references. *)
Definition table_full (base c : record) : Prop := exists used parents files refs,
  fetch base "used" = Ok (DInt used) /\ fetch base "parents" = Ok (DInt parents) /\
  fetch base "active_files" = Ok (DInt files) /\ fetch base "refs" = Ok (DInt refs) /\
  fetch c "fork_fail" = Ok (DInt (-1)) /\ fetch c "used" = Ok (DInt 64) /\
  fetch c "children" = Ok (DInt (64 - used)) /\ fetch c "parents" = Ok (DInt (parents + (64 - used))) /\
  fetch c "active_files" = Ok (DInt (files + 2)) /\
  fetch c "refs" = Ok (DInt (refs + 2 + (64 - used) * 4)) /\
  fetch c "inherited_refs" = Ok (DInt (2 + (64 - used) * 4)).

Record lifecycle (phase : string -> record) : Prop := {
  lc_base : exists used free, 3 <= used /\ 64 < free /\
    fetch (phase "BASE") "used" = Ok (DInt used) /\ fetch (phase "BASE") "free" = Ok (DInt free);
  lc_pid : look (phase "EXEC_READY") "pid" = look (phase "EXEC_AFTER") "pid" /\
    look (phase "EXEC_AFTER") "pid" = look (phase "EXEC_REAP") "pid";
  lc_status : fetch (phase "EXEC_REAP") "status" = Ok (DInt 37) /\
    fetch (phase "KILL_REAP") "status" = Ok (DInt (-1));
  lc_orphan : fetch (phase "ORPHAN_REPARENT") "target_parent_init" = Ok (DInt 1) /\
    fetch (phase "ORPHAN_REAP") "absent" = Ok (DInt 1);
  lc_ledger : Forall (fun p => same_ledger (phase "BASE") (phase p)) reaped;
  lc_full : table_full (phase "BASE") (phase "CAPACITY") }.

Lemma ledger_same base name r : require_baseline_ledger base name r = Ok tt -> same_ledger base r.
Proof.
  unfold require_baseline_ledger, same_ledger. generalize LEDGER. intros l.
  induction l as [|k l IH]; [constructor|]. cbn [foldM]. intros H. apply bind_ok in H as ([] & Hk & H).
  constructor; [|auto]. facts. eauto.
Qed.

Lemma full_life_table phases base c : check_full phases base = Ok tt -> marker phases "CAPACITY" = Ok c ->
  table_full base c.
Proof.
  unfold check_full. intros H Hc. rewrite Hc in H. cbn [mbind result_bind] in H.
  apply bind_ok in H as (r & _ & H). inv_ok. facts. merge. facts. merge. subst.
  eexists _, _, _, _. split_and!; first [eassumption | etrans; [eassumption|]; do 2 f_equal; lia].
Qed.

Lemma marker_found phases p : u p ∈ phases.*1 -> exists r, marker phases p = Ok r.
Proof.
  intros (e & Ep & He)%list_elem_of_fmap. unfold marker, markers_of.
  destruct (filter (fun e => e.1 = u p) phases) as [|f l] eqn:F; [|by eexists].
  exfalso. apply (not_elem_of_nil e). rewrite <- F. apply list_elem_of_filter. done.
Qed.

Section scenarios.
Context (phases : list (pystr * record)) (base : record).

Lemma exec_scenario ready after reap :
  check_exec phases base = Ok tt -> marker phases "EXEC_READY" = Ok ready ->
  marker phases "EXEC_AFTER" = Ok after -> marker phases "EXEC_REAP" = Ok reap ->
  look ready "pid" = look after "pid" /\ look after "pid" = look reap "pid" /\
  fetch reap "status" = Ok (DInt 37) /\ same_ledger base reap.
Proof.
  unfold check_exec. intros H E1 E2 E3. rewrite E1, E2, E3 in H. cbn [mbind result_bind] in H.
  clear E1 E2 E3. inv_ok. facts. split_and!; [congruence..|done|by eapply ledger_same].
Qed.

Lemma kill_scenario reap :
  check_kill phases base = Ok tt -> marker phases "KILL_REAP" = Ok reap ->
  fetch reap "status" = Ok (DInt (-1)) /\ same_ledger base reap.
Proof.
  unfold check_kill. intros H E. rewrite E in H. clear E. cbn [mbind result_bind] in H.
  apply bind_ok in H as (? & _ & H). inv_ok. facts. split; [done|by eapply ledger_same].
Qed.

Lemma orphan_scenario orphan reap :
  check_orphan phases base = Ok tt -> marker phases "ORPHAN_REPARENT" = Ok orphan ->
  marker phases "ORPHAN_REAP" = Ok reap ->
  fetch orphan "target_parent_init" = Ok (DInt 1) /\ fetch reap "absent" = Ok (DInt 1) /\ same_ledger base reap.
Proof.
  unfold check_orphan. intros H E1 E2. rewrite E1, E2 in H. clear E1 E2. cbn [mbind result_bind] in H.
  inv_ok. facts. split_and!; [done..|by eapply ledger_same].
Qed.

Lemma full_ledger reap :
  check_full phases base = Ok tt -> marker phases "CAPACITY_REAP" = Ok reap -> same_ledger base reap.
Proof.
  unfold check_full. intros H E. rewrite E in H. clear E. cbn [mbind result_bind] in H.
  do 8 (apply bind_ok in H as (? & _ & H)). apply bind_ok in H as (? & _ & H). by eapply ledger_same.
Qed.

Lemma base_numbers : check_base base = Ok tt -> check_execfail phases base = Ok tt ->
  exists used free, 3 <= used /\ 64 < free /\
    fetch base "used" = Ok (DInt used) /\ fetch base "free" = Ok (DInt free).
Proof.
  unfold check_base, check_execfail. intros H1 H2. apply bind_ok in H1 as (? & _ & H1).
  do 3 (apply bind_ok in H2 as (? & _ & H2)). facts. merge. subst. eauto 10.
Qed.
End scenarios.

Ltac in_expected := unfold expected; repeat first [left | right].

(** C26: an accepted run shows the phases in their order; the pid survives exec
    and wait, exit statuses arrive, an orphan goes to init, every scenario gives
    back its processes, pages, files and references, and a full process table
    accounts for each slot, parent link and file reference. *)
Theorem lifecycle_accounts output lines :
  validate_lifecycle output = Ok lines -> exists phases phase,
    lifecycle_lines output = Ok (lines, phases) /\ phases.*1 = u <$> expected /\
    (forall p, p ∈ expected -> marker phases p = Ok (phase p)) /\ lifecycle phase.
Proof.
  unfold validate_lifecycle. intros H.
  apply bind_ok in H as ([lines' phases] & Hl & H). apply bind_ok in H as ([] & Hp & H).
  apply bind_ok in H as ([] & Hc & H). apply bind_ok in H as (base & Hb & H).
  apply bind_ok in H as ([] & Hbase & H). apply bind_ok in H as ([] & Hexec & H).
  apply bind_ok in H as ([] & Hfail & H). apply bind_ok in H as ([] & Hkill & H).
  apply bind_ok in H as ([] & Horphan & H). apply bind_ok in H as ([] & Hfull & H).
  apply bind_ok in H as (final & Hf & H). apply bind_ok in H as ([] & Hled & H). injection H as <-.
  exists phases, (fun p => match marker phases p with Ok r => r | Raise _ => [] end).
  assert (phases.*1 = u <$> expected) as Hx by (clear -Hp; inv_ok; by to_prop).
  assert (forall p, p ∈ expected -> exists r, marker phases p = Ok r) as F.
  { intros p I. apply marker_found. rewrite Hx. by apply list_elem_of_fmap_2. }
  split_and!; [done|done|intros p [r ->]%F; done|].
  destruct (F "EXEC_READY" ltac:(in_expected)) as [r1 E1], (F "EXEC_AFTER" ltac:(in_expected)) as [r2 E2],
    (F "EXEC_REAP" ltac:(in_expected)) as [r3 E3], (F "KILL_REAP" ltac:(in_expected)) as [r4 E4],
    (F "ORPHAN_REPARENT" ltac:(in_expected)) as [r5 E5], (F "ORPHAN_REAP" ltac:(in_expected)) as [r6 E6],
    (F "CAPACITY" ltac:(in_expected)) as [r7 E7], (F "CAPACITY_REAP" ltac:(in_expected)) as [r8 E8].
  destruct (exec_scenario _ _ _ _ _ Hexec E1 E2 E3) as (? & ? & ? & ?), (kill_scenario _ _ _ Hkill E4) as (? & ?),
    (orphan_scenario _ _ _ _ Horphan E5 E6) as (? & ? & ?).
  constructor; rewrite ?Hb, ?E1, ?E2, ?E3, ?E4, ?E5, ?E6, ?E7; [by eapply base_numbers|done..| |by eapply full_life_table].
  unfold reaped. rewrite !Forall_cons, E3, E4, E6, E8, Hf.
  split_and!; [done..|by eapply full_ledger|by eapply ledger_same|constructor].
Qed.

(** ** A run *)

Definition sample_lines : list string := [
  "LIFE BASE used=3 free=32000 active_files=1 refs=9 parents=2";
  "LIFE EXEC_READY pid=4 pid_same=1 fd_ok=1 sleeping=1 name=lifecycle used=4 free=31980 active_files=3 refs=15 parents=3";
  "LIFE EXEC_AFTER pid=4 sleeping=1 name=lifeexec sz_changed=1 pagetable_changed=1 trapframe_same=1 cwd_same=1";
  "LIFE WAIT_BAD ret=-1 target_present=1 zombie=1 ofile=0";
  "LIFE EXEC_REAP pid=4 status=37 used=3 free=32000 active_files=1 refs=9 parents=2";
  "LIFE EXECFAIL ret=-1 pid_same=1 sz_same=1 fd_ok=1";
  "LIFE KILL_SLEEP sleeping=1 target_present=1";
  "LIFE KILL_REAP status=-1 target_present=0 used=3 free=32000 active_files=1 refs=9 parents=2";
  "LIFE ORPHAN_REPARENT target_present=1 sleeping=1 target_parent_init=1";
  "LIFE ORPHAN_REAP target_present=0 absent=1 used=3 free=32000 active_files=1 refs=9 parents=2";
  "LIFE CAPACITY fork_fail=-1 used=64 free=30000 children=61 parents=63 active_files=3 refs=255 inherited_refs=246";
  "LIFE CAPACITY_REAP used=3 free=32000 active_files=1 refs=9 parents=2";
  "LIFE FINAL used=3 free=32000 active_files=1 refs=9 parents=2";
  "LIFE PASS" ]%string.
Definition sample (lines : list string) : pystr := mjoin ((fun l => u l ++ [newline]) <$> lines).

Lemma lifecycle_accounts_witness : exists lines, validate_lifecycle (sample sample_lines) = Ok lines /\
  exists phase, lifecycle phase.
Proof.
  eexists. assert (validate_lifecycle (sample sample_lines) = Ok _) as H by (vm_compute; reflexivity).
  split; [exact H|]. destruct (lifecycle_accounts _ _ H) as (? & phase & _ & _ & _ & K). exists phase. exact K.
Defined.

(** A field that is missing or is no number leaves the oracle with a [KeyError]
    or a [TypeError]. *)
Example life_field_errors :
  validate_lifecycle (sample (<[1%nat := "LIFE EXEC_READY pid=4 pid_same=1 fd_ok=1 sleeping=1 name=lifecycle"%string]> sample_lines)) = Raise KeyError /\
  validate_lifecycle (sample (<[0%nat := "LIFE BASE used=three free=32000 active_files=1 refs=9 parents=2"%string]> sample_lines)) = Raise TypeError.
Proof. split; vm_compute; reflexivity. Qed.
