(* ===== verification/IoFlow.v ===== *)
(** The communication lab,
    [docs/xv6-tutorial/resources/communication-and-io/run-lab.py]: its source
    anchors, and the oracle of a guest run with pipes, sleepers, end of file,
    killed processes and the resource ledger after every scenario. *)

From stdpp Require Import base tactics list gmap strings numbers list_numbers sorting.
From S2P Require Import Prelude PyText PyBytes PyRegex PyJson PyDyn PyMarkers RecoverDocs SourceCheck.
Open Scope Z_scope.

(** * Sources *)

Definition PATCH_PATHS : list string :=
  [ "Makefile"; "kernel/defs.h"; "kernel/file.c"; "kernel/ioaudit.h"; "kernel/kalloc.c"; "kernel/pipe.c";
    "kernel/proc.c"; "kernel/syscall.c"; "kernel/syscall.h"; "kernel/sysproc.c"; "user/ioflow.c"; "user/user.h";
    "user/usys.pl" ].
Definition anchors : list (string * list string) :=
  [ ("kernel/file.c", ["filealloc("; "filedup("; "fileclose("; "fileread("; "filewrite("]);
    ("kernel/param.h", ["#define NOFILE"; "#define NFILE"]);
    ("kernel/pipe.c", ["pipealloc("; "pipeclose("; "pipewrite("; "piperead("]);
    ("kernel/proc.c", ["sleep("; "wakeup("; "kkill("; "kwait("]);
    ("kernel/sysfile.c", ["argfd("; "fdalloc("; "sys_read("; "sys_write("; "sys_dup("; "sys_close("; "sys_pipe("]);
    ("user/sh.c", ["runcmd("; "case PIPE"; "dup(p[1])"; "dup(p[0])"]);
    ("kernel/console.c", ["consolewrite("; "consoleread("; "consoleintr("]);
    ("kernel/uart.c", ["uartwrite("; "uartintr("]);
    ("kernel/plic.c", ["plic_claim("; "plic_complete("]);
    ("kernel/bio.c", ["bread("; "brelse("]);
    ("kernel/fs.c", ["readi("]);
    ("kernel/log.c", ["begin_op("; "end_op("]);
    ("kernel/virtio_disk.c", ["virtio_disk_rw("; "virtio_disk_intr("]) ]%string.
Definition helpers : list (string * string) :=
  [ ("kernel/file.c", "fileaudit("); ("kernel/kalloc.c", "freepagecount("); ("kernel/pipe.c", "pipeaudit(");
    ("kernel/proc.c", "procaudit("); ("kernel/sysproc.c", "sys_iosnapshot(") ]%string.

(** [source] is the patched tree, [numstat] the answer of git; the build that
    follows the checks is the host's. *)
Definition static_check (alphanumeric : Z -> bool) (source : string -> result pystr) (numstat : pystr) : result () :=
  paths ← numstat_paths "bad patch numstat: " numstat;
  require (same_set paths (u <$> PATCH_PATHS)) [T "fixture scope differs from the thirteen audit paths"];;
  ioflow ← source "user/ioflow.c";
  require_each ioflow "fixture token missing: "
    ["pipeline(base)"; "empty_wakeup(base)"; "full_wakeup(base)"; "eof_case(base)"; "broken_case(base)";
     "killed_reader(base)"; "killed_writer(base)"; "fd_rollback(base)"; "device_case(base)"; "wait_for_pipe";
     "wait_status"; "same_ledger"; "print_after"; "IO PASS"];;
  makefile ← source "Makefile";
  require (has makefile "$U/_ioflow") [T "ioflow is not registered in UPROGS"];;
  mapR (fun '(path, tokens) =>
    content ← source path;
    foldM (fun _ token => require (has content token)
             [T "missing source anchor "; T path; T ":"; T token]) tt tokens) anchors;;
  header ← source "kernel/ioaudit.h";
  mapR (fun field => require (found_in (word alphanumeric field) header) [T "snapshot field missing: "; T field])
    ["fd_slots"; "active_files"; "file_refs"; "active_pipes"; "used_procs"; "free_pages"; "target_state";
     "target_chan"; "occupancy"; "readopen"; "writeopen"]%string;;
  mapR (fun '(path, symbol) =>
    content ← source path;
    require (has content symbol) [T "audit helper missing: "; T path; T ":"; T symbol]) helpers;;
  Ok tt.

(** * Markers *)

Inductive phase : Type :=
| BASE | PIPELINE | EMPTY | FULL | EOF | BROKEN | KILL_READ | KILL_WRITE | FD_ROLLBACK | DEVICE | PASS.
#[global] Instance phase_eq_dec : EqDecision phase.
Proof. solve_decision. Defined.
Definition phase_name (p : phase) : string :=
  match p with
  | BASE => "BASE"
  | PIPELINE => "PIPELINE"
  | EMPTY => "EMPTY"
  | FULL => "FULL"
  | EOF => "EOF"
  | BROKEN => "BROKEN"
  | KILL_READ => "KILL_READ"
  | KILL_WRITE => "KILL_WRITE"
  | FD_ROLLBACK => "FD_ROLLBACK"
  | DEVICE => "DEVICE"
  | PASS => "PASS"
  end.

Definition LEDGER_FIELDS : list string := [ "fd"; "files"; "refs"; "pipes"; "procs"; "free" ].
Definition SCHEMAS (p : phase) : list string :=
  match p with
  | BASE => LEDGER_FIELDS
  | PIPELINE => [ "left"; "right"; "left_fd"; "right_fd"; "bytes"; "eof"; "cleanup" ]
  | EMPTY => [ "child"; "state"; "chan"; "occupancy"; "wake"; "cleanup" ]
  | FULL => [ "child"; "state"; "chan"; "occupancy"; "wake"; "cleanup" ]
  | EOF => [ "occupancy"; "read"; "cleanup" ]
  | BROKEN => [ "occupancy"; "write"; "cleanup" ]
  | KILL_READ => [ "child"; "state"; "chan"; "result"; "cleanup" ]
  | KILL_WRITE => [ "child"; "state"; "chan"; "committed"; "result"; "cleanup" ]
  | FD_ROLLBACK => [ "filled"; "pipe"; "cleanup" ]
  | DEVICE => [ "read"; "cleanup" ]
  | PASS => [ "cleanup" ]
  end.
Definition expected_order : list phase :=
  [BASE; PIPELINE; EMPTY; FULL; EOF; BROKEN; KILL_READ; KILL_WRITE; FD_ROLLBACK; DEVICE].
Definition all_phases : list phase := expected_order ++ [PASS].

(** [key, raw = token.split("=", 1)] after the count of [=] was checked *)
Definition key_value (context : string) (values : fields) (token : pystr) : result (pystr * pystr) :=
  require (count (u "=") token =? 1) [T "malformed "; T context; T " field: "; V token];;
  match splitn 1 (u "=") token with
  | [key; raw] =>
      require (negb (has_key key values)) [T "duplicate "; T context; T " field: "; V key];;
      Ok (key, raw)
  | _ => Raise ValueError
  end.
Definition integer (context : string) (token raw : pystr) : result value :=
  require (re_fullmatch int_re raw) [T "non-integer "; T context; T " field: "; V token];;
  z ← py_int raw;
  Ok (VInt z).

Definition add_field (p : phase) (values : fields) (token : pystr) : result fields :=
  '(key, raw) ← key_value (phase_name p) values token;
  v ← integer (phase_name p) token raw;
  Ok (values ++ [(key, v)]).
Definition parse_fields (p : phase) (tokens : list pystr) : result fields :=
  values ← foldM (add_field p) [] tokens;
  require (has_fields values (SCHEMAS p)) [T (phase_name p); T " fields changed: "; Elided];;
  Ok values.

Definition add_after (values : fields) (token : pystr) : result fields :=
  '(key, raw) ← key_value "after" values token;
  if bool_decide (key = u "phase") then
    require (bool_decide (raw ∈ (u ∘ phase_name <$> all_phases))) [T "unknown after phase: "; V raw];;
    Ok (values ++ [(key, VStr raw)])
  else
    v ← integer "after" token raw;
    Ok (values ++ [(key, v)]).
Definition parse_after (line : pystr) : result fields :=
  let fields := words line in
  require ((4 <=? len fields) && bool_decide (take 2 fields = [u "IO"; u "AFTER"]))
    [T "malformed after marker: "; V line];;
  values ← foldM add_after [] (drop 2 fields);
  require (has_fields values ("phase" :: LEDGER_FIELDS)%string) [T "after fields changed: "; Elided];;
  Ok values.

(** * The run *)

(** The three lists the lines that start with [IO ] go to *)
Inductive line_kind : Type := Marker | After | Pass.
#[global] Instance line_kind_eq_dec : EqDecision line_kind.
Proof. solve_decision. Defined.
Definition kind_of (line : pystr) : line_kind :=
  match words line !! 1%nat with
  | Some name => if bool_decide (name = u "AFTER") then After
                 else if bool_decide (name = u "PASS") then Pass else Marker
  | None => Marker
  end.
Definition lines_of (k : line_kind) (transcript : pystr) : list pystr :=
  filter (fun line => startswith line (u "IO ") = true /\ kind_of line = k) (splitlines transcript).


Definition read_phase '(line, expected) : result fields :=
  let fields := words line in
  require ((3 <=? len fields) && bool_decide (take 2 fields = [u "IO"; u (phase_name expected)]))
    [T "ioflow phase order changed: "; V line];;
  parse_fields expected (drop 2 fields).

Definition check_phases (of_ : phase -> fields) : result () :=
  let base := num (of_ BASE) in
  require ((base "fd" =? 3) && (base "files" =? 1) && (base "refs" =? 9) && (base "pipes" =? 0) &&
           (base "procs" =? 3) && (32000 <? base "free")) [T "unexpected baseline ledger: "; Elided];;
  let pipeline := num (of_ PIPELINE) in
  require ((0 <? pipeline "left") && (0 <? pipeline "right") && negb (pipeline "left" =? pipeline "right") &&
           (pipeline "left_fd" =? 1) && (pipeline "right_fd" =? 0) && (pipeline "bytes" =? 641) &&
           (pipeline "eof" =? 0)) [T "pipeline oracle failed: "; Elided];;
  let empty := num (of_ EMPTY) in
  let full := num (of_ FULL) in
  require ((0 <? empty "child") && (empty "state" =? 2) && (empty "chan" =? 1) && (empty "occupancy" =? 0) &&
           (empty "wake" =? 1)) [T "empty-pipe oracle failed: "; Elided];;
  require ((0 <? full "child") && (full "state" =? 2) && (full "chan" =? 2) && (full "occupancy" =? 512) &&
           (full "wake" =? 1)) [T "full-pipe oracle failed: "; Elided];;
  require (fields_are (of_ EOF) [("occupancy", 0); ("read", 0); ("cleanup", 1)]%string)
    [T "EOF oracle failed: "; Elided];;
  require (fields_are (of_ BROKEN) [("occupancy", 0); ("write", -1); ("cleanup", 1)]%string)
    [T "broken-end oracle failed: "; Elided];;
  let killed_read := num (of_ KILL_READ) in
  let killed_write := num (of_ KILL_WRITE) in
  require ((0 <? killed_read "child") && (killed_read "state" =? 2) && (killed_read "chan" =? 1) &&
           (killed_read "result" =? -1)) [T "killed-reader oracle failed: "; Elided];;
  require ((0 <? killed_write "child") && (killed_write "state" =? 2) && (killed_write "chan" =? 2) &&
           (killed_write "committed" =? 512) && (killed_write "result" =? -1))
    [T "killed-writer oracle failed: "; Elided];;
  require (fields_are (of_ FD_ROLLBACK) [("filled", 13); ("pipe", -1); ("cleanup", 1)]%string)
    [T "fd rollback oracle failed: "; Elided];;
  require (fields_are (of_ DEVICE) [("read", 16); ("cleanup", 1)]%string) [T "device oracle failed: "; Elided];;
  require (forallb (fun p => bool_decide (p = BASE) || (num (of_ p) "cleanup" =? 1)) expected_order)
    [T "one scenario did not report cleanup"];;
  let child_pids := [pipeline "left"; pipeline "right"; empty "child"; full "child"; killed_read "child";
                     killed_write "child"] in
  require (distinct child_pids) [T "scenario child identities overlap: "; DL child_pids].

(** The dictionary of after-ledgers: phase names with their fields *)
Definition add_ledger (after : list (pystr * fields)) (line : pystr) : result (list (pystr * fields)) :=
  v ← parse_after line;
  name ← get_str v "phase";
  require (negb (has_key name after)) [T "duplicate after phase: "; V name];;
  Ok (after ++ [(name, v)]).

Definition same_ledger (base value : fields) : bool :=
  forallb (fun key => num value key =? num base key) LEDGER_FIELDS.

Definition validate_ioflow (transcript : pystr) : result (list (phase * fields)) :=
  require (startswith transcript (u "ioflow" ++ [newline]) && endswith transcript (u "$ "))
    [T "ioflow transcript framing changed: "; R transcript];;
  let marker_lines := lines_of Marker transcript in
  let after_lines := lines_of After transcript in
  let pass_lines := lines_of Pass transcript in
  require (len marker_lines =? len expected_order) [T "ioflow marker count changed: "; L marker_lines];;
  found ← mapR read_phase (zip marker_lines expected_order);
  let phases := zip expected_order found in
  let of_ p := default [] (snd ∘ snd <$> list_find (fun e => e.1 = p) phases) in
  match pass_lines with
  | [line] =>
      v ← parse_fields PASS (drop 2 (words line));
      require (fields_are v [("cleanup", 1)]%string) [T "PASS marker changed: "; L pass_lines]
  | _ => Raise (LabError [T "PASS marker changed: "; L pass_lines])
  end;;
  check_phases of_;;
  require (len after_lines =? len expected_order + 1) [T "after-ledger marker count changed: "; L after_lines];;
  after ← foldM add_ledger [] after_lines;
  require (same_set after.*1 (u ∘ phase_name <$> all_phases)) [T "after-ledger phases changed: "; L after.*1];;
  mapR (fun '(name, value) => require (same_ledger (of_ BASE) value)
          [V name; T " after-ledger did not return to BASE: "; Elided]) after;;
  Ok phases.
