(* ===== verification/IoProps.v ===== *)
(** What the communication oracle guarantees: the phases in order, sleepers at
    an empty and at a full pipe, distinct children, and one ledger per phase
    that equals the base; on any other transcript it raises [LabError], but for
    numbers too long to read. *)

From stdpp Require Import base tactics list gmap strings numbers list_numbers sorting.
From S2P Require Import Prelude PyText PyBytes PyRegex PyJson PyDyn PyMarkers RecoverDocs SourceCheck IoFlow.
Open Scope Z_scope.

Definition child_pids (of_ : phase -> fields) : list Z :=
  [ num (of_ PIPELINE) "left"; num (of_ PIPELINE) "right"; num (of_ EMPTY) "child"; num (of_ FULL) "child";
    num (of_ KILL_READ) "child"; num (of_ KILL_WRITE) "child" ].

(** A process asleep in the pipe: on the reader's channel with nothing in it,
    on the writer's with nothing left *)
Definition blocked (fs : fields) (chan occupancy : Z) : Prop :=
  num fs "state" = 2 /\ num fs "chan" = chan /\ num fs "occupancy" = occupancy /\ num fs "wake" = 1.

(** The last marker of a phase reports the base ledger. *)
Definition returned (transcript : pystr) (base : fields) (p : phase) : Prop :=
  exists line v, line ∈ lines_of After transcript /\ parse_after line = Ok v /\
    get_str v "phase" = Ok (u (phase_name p)) /\ Forall (fun key => num v key = num base key) LEDGER_FIELDS.

Lemma check_phases_ok of_ : check_phases of_ = Ok tt ->
  blocked (of_ EMPTY) 1 0 /\ blocked (of_ FULL) 2 512 /\ NoDup (child_pids of_) /\
  Forall (fun pid => 0 < pid) (child_pids of_) /\ num (of_ PIPELINE) "bytes" = 641 /\
  num (of_ KILL_WRITE) "committed" = 512 /\ num (of_ BASE) "pipes" = 0.
Proof.
  unfold check_phases. intros H. inv_ok. to_prop.
  match goal with H : distinct _ = true |- _ => apply distinct_NoDup in H end.
  unfold blocked, child_pids. split_and!; try assumption. by repeat constructor.
Qed.

(** The dictionary holds the fields of lines that were read. *)
Lemma ledgers_read lines after :
  foldM add_ledger [] lines = Ok after ->
  Forall (fun e => exists line, line ∈ lines /\ parse_after line = Ok e.2 /\ get_str e.2 "phase" = Ok e.1) after.
Proof.
  intros H.
  refine (foldM_inv add_ledger (fun seen after =>
    Forall (fun e => exists line, line ∈ seen /\ parse_after line = Ok e.2 /\ get_str e.2 "phase" = Ok e.1) after)
    lines [] after _ _ H); [constructor|].
  intros seen line s s' _ Hs Ha. unfold add_ledger in Ha. inv_ok. apply Forall_app. split.
  - eapply Forall_impl; [exact Hs|]. intros e (l & ? & ?). exists l. split; [set_solver|done].
  - apply Forall_singleton. exists line. split; [set_solver|done].
Qed.

Lemma same_ledger_ok base v : same_ledger base v = true -> Forall (fun key => num v key = num base key) LEDGER_FIELDS.
Proof.
  unfold same_ledger. rewrite forallb_forall. intros H. apply Forall_forall. intros k I%list_elem_of_In.
  by apply Z.eqb_eq, H.
Qed.

Lemma order_distinct : NoDup expected_order.
Proof. refine (proj1 (bool_decide_eq_true _) _). vm_compute. reflexivity. Qed.

Lemma find_key {A} (l : list (phase * A)) p v :
  NoDup l.*1 -> (p, v) ∈ l -> snd ∘ snd <$> list_find (fun e => e.1 = p) l = Some v.
Proof.
  intros N [i Hi]%list_elem_of_lookup. assert (list_find (fun e => e.1 = p) l = Some (i, (p, v))) as ->; [|done].
  apply list_find_Some. split_and!; [done..|]. intros j [q w] Hj Hlt E. cbn in E. subst q.
  assert (j = i); [|lia].
  eapply NoDup_lookup; [exact N| |]; rewrite list_lookup_fmap; [by rewrite Hj|by rewrite Hi].
Qed.

(** C27: an accepted transcript runs the phases in order; a reader sleeps on the
    empty pipe and a writer on the full one, the six children are distinct, and
    after every phase the descriptors, files, references, pipes, processes and
    free pages are those of the base. *)
Theorem ioflow_returns transcript phases :
  validate_ioflow transcript = Ok phases -> exists of_ : phase -> fields,
    phases.*1 = expected_order /\ (forall p v, (p, v) ∈ phases -> of_ p = v) /\
    blocked (of_ EMPTY) 1 0 /\ blocked (of_ FULL) 2 512 /\ NoDup (child_pids of_) /\
    Forall (fun pid => 0 < pid) (child_pids of_) /\
    Forall (returned transcript (of_ BASE)) all_phases.
Proof.
  unfold validate_ioflow. intros H. apply bind_ok in H as ([] & _ & H). apply bind_ok in H as ([] & Hn & H).
  apply bind_ok in H as (found & Hf & H). apply bind_ok in H as ([] & _ & H).
  set (of_ := fun p => default [] (snd ∘ snd <$> list_find (fun e => e.1 = p) (zip expected_order found))) in H.
  apply bind_ok in H as ([] & Hc%check_phases_ok & H). apply bind_ok in H as ([] & _ & H).
  apply bind_ok in H as (after & Ha & H). apply bind_ok in H as ([] & Hs & H).
  apply bind_ok in H as (us & Hl & H). injection H as <-. exists of_.
  assert (length found = 10%nat) as L.
  { apply mapR_ok, Forall2_length in Hf. rewrite length_zip in Hf. clear -Hn Hf. inv_ok.
    apply Z.eqb_eq in C. rewrite !len_length in C. cbn in C, Hf. lia. }
  assert ((zip expected_order found).*1 = expected_order) as F by (apply fst_zip; by rewrite L).
  split; [done|]. split.
  { intros p v I. unfold of_. by rewrite (find_key _ _ v); [|rewrite F; apply order_distinct|]. }
  destruct Hc as (? & ? & ? & ? & _). split_and!; [done..|].
  apply Forall_forall. intros p I. apply (list_elem_of_fmap_2 (u ∘ phase_name)) in I.
  assert (same_set after.*1 (u ∘ phase_name <$> all_phases) = true) as S by (clear -Hs; by inv_ok).
  apply (same_set_elem _ _ _ S) in I as ([n v] & En & I)%list_elem_of_fmap. cbn in En. subst n.
  pose proof (ledgers_read _ _ Ha) as R. rewrite Forall_forall in R. apply R in I as R'. destruct R' as (line & ? & ? & ?).
  destruct (mapR_each _ _ _ _ Hl I) as ([] & K). exists line, v. split_and!; [done..|].
  apply same_ledger_ok. clear -K. by inv_ok.
Qed.

(** ** A transcript *)

Definition sample_markers : list string := [
  "IO BASE fd=3 files=1 refs=9 pipes=0 procs=3 free=32500";
  "IO PIPELINE left=5 right=6 left_fd=1 right_fd=0 bytes=641 eof=0 cleanup=1";
  "IO EMPTY child=7 state=2 chan=1 occupancy=0 wake=1 cleanup=1";
  "IO FULL child=8 state=2 chan=2 occupancy=512 wake=1 cleanup=1";
  "IO EOF occupancy=0 read=0 cleanup=1"; "IO BROKEN occupancy=0 write=-1 cleanup=1";
  "IO KILL_READ child=9 state=2 chan=1 result=-1 cleanup=1";
  "IO KILL_WRITE child=10 state=2 chan=2 committed=512 result=-1 cleanup=1";
  "IO FD_ROLLBACK filled=13 pipe=-1 cleanup=1"; "IO DEVICE read=16 cleanup=1"; "IO PASS cleanup=1" ]%string.
Definition after_line (p : phase) : string :=
  "IO AFTER phase=" ++ phase_name p ++ " fd=3 files=1 refs=9 pipes=0 procs=3 free=32500".
Definition sample (markers : list string) : pystr :=
  u "ioflow" ++ [newline] ++
  mjoin ((fun l => u l ++ [newline]) <$> markers ++ (after_line <$> all_phases)) ++ u "$ ".

Lemma ioflow_returns_witness : exists phases, validate_ioflow (sample sample_markers) = Ok phases /\
  phases.*1 = expected_order.
Proof.
  eexists. assert (validate_ioflow (sample sample_markers) = Ok _) as H by (vm_compute; reflexivity).
  split; [exact H|]. destruct (ioflow_returns _ _ H) as (_ & K & _). exact K.
Defined.

(** * What can be raised *)

Definition io_errors (e : exn) : Prop := match e with LabError _ | ValueError => True | _ => False end.

Lemma key_value_raises context values token : raises io_errors (key_value context values token).
Proof.
  unfold key_value. apply raises_bind; [by apply raises_require|intros _ _].
  repeat case_match; try by apply raises_raise.
  apply raises_bind; [by apply raises_require|]. intros. apply raises_ok.
Qed.

Lemma integer_raises context token raw : raises io_errors (integer context token raw).
Proof.
  unfold integer, py_int. apply raises_bind; [by apply raises_require|intros _ _].
  apply raises_bind; [|intros; apply raises_ok].
  case_match; [by apply raises_raise|by apply raises_of_option].
Qed.

Lemma io_fields_raises p tokens : raises io_errors (parse_fields p tokens).
Proof.
  unfold parse_fields. apply raises_bind.
  - apply raises_foldM. intros s a. unfold add_field. apply raises_bind; [apply key_value_raises|].
    intros [? ?] _. apply raises_bind; [apply integer_raises|]. intros. apply raises_ok.
  - intros. apply raises_bind; [by apply raises_require|]. intros. apply raises_ok.
Qed.

Lemma parse_after_raises line : raises io_errors (parse_after line).
Proof.
  unfold parse_after. apply raises_bind; [by apply raises_require|intros _ _]. apply raises_bind.
  - apply raises_foldM. intros s a. unfold add_after. apply raises_bind; [apply key_value_raises|].
    intros [? ?] _. case_match.
    + apply raises_bind; [by apply raises_require|]. intros. apply raises_ok.
    + apply raises_bind; [apply integer_raises|]. intros. apply raises_ok.
  - intros. apply raises_bind; [by apply raises_require|]. intros. apply raises_ok.
Qed.

(** A marker that was read has a phase, and it is a text. *)
Lemma after_phase line v : parse_after line = Ok v -> exists s, get_str v "phase" = Ok s.
Proof.
  unfold parse_after. intros H. apply bind_ok in H as ([] & _ & H). apply bind_ok in H as (vs & Hv & H).
  apply bind_ok in H as ([] & Hf & H). injection H as ->.
  assert (Forall (fun e => e.1 = u "phase" -> exists s, e.2 = VStr s) v) as F.
  { refine (foldM_inv add_after (fun _ vs => Forall (fun e => e.1 = u "phase" -> exists s, e.2 = VStr s) vs)
      _ [] v _ _ Hv); [constructor|].
    intros seen token s s' _ Hs Ha. unfold add_after in Ha. apply bind_ok in Ha as ([k r] & _ & Ha).
    case_bool_decide as Ek; inv_ok; (apply Forall_app; split; [done|]); apply Forall_singleton; cbn; eauto.
    intros E'. done. }
  assert (u "phase" ∈ v.*1) as I.
  { unfold require in Hf. destruct (has_fields v _) eqn:E; [|done]. unfold has_fields in E.
    apply (same_set_elem _ _ _ E). left. }
  apply lookup_key_elem in I as [x Ex]. unfold get_str. rewrite Ex. apply lookup_key_Some in Ex.
  rewrite Forall_forall in F. destruct (F _ Ex eq_refl) as [s Es]. cbn in Es. subst x. eauto.
Qed.

Lemma add_ledger_raises after line : raises io_errors (add_ledger after line).
Proof.
  unfold add_ledger. apply raises_bind; [apply parse_after_raises|]. intros v [s ->]%after_phase.
  cbn [mbind result_bind]. apply raises_bind; [by apply raises_require|]. intros. apply raises_ok.
Qed.

Lemma check_phases_raises of_ : raises io_errors (check_phases of_).
Proof.
  unfold check_phases. cbv zeta. repeat (apply raises_bind; [by apply raises_require|intros _ _]).
  by apply raises_require.
Qed.

(** On a transcript it does not accept the communication oracle raises
    [LabError], or [ValueError] for a number with more digits than [int] reads. *)
Theorem ioflow_errors transcript e :
  validate_ioflow transcript = Raise e -> (exists m, e = LabError m) \/ e = ValueError.
Proof.
  intros H. cut (io_errors e); [destruct e; naive_solver|]. revert e H. fold (raises io_errors (validate_ioflow transcript)).
  unfold validate_ioflow. cbv zeta. apply raises_bind; [by apply raises_require|intros _ _].
  apply raises_bind; [by apply raises_require|intros _ _].
  apply raises_bind.
  { apply raises_mapR. intros [line p]. unfold read_phase. apply raises_bind; [by apply raises_require|].
    intros. apply io_fields_raises. }
  intros found _. apply raises_bind.
  { repeat case_match; try by apply raises_raise. apply raises_bind; [apply io_fields_raises|].
    intros. by apply raises_require. }
  intros _ _. apply raises_bind; [apply check_phases_raises|intros _ _].
  apply raises_bind; [by apply raises_require|intros _ _].
  apply raises_bind; [apply raises_foldM; intros; apply add_ledger_raises|intros after _].
  apply raises_bind; [by apply raises_require|intros _ _].
  apply raises_bind; [|intros; apply raises_ok]. apply raises_mapR. intros [? ?]. by apply raises_require.
Qed.

Lemma ioflow_errors_witness : exists e,
  validate_ioflow (sample (<[10%nat := "IO PASS cleanup=no"%string]> sample_markers)) = Raise e /\
  ((exists m, e = LabError m) \/ e = ValueError).
Proof.
  eexists.
  assert (validate_ioflow (sample (<[10%nat := "IO PASS cleanup=no"%string]> sample_markers)) = Raise _) as H
    by (vm_compute; reflexivity).
  split; [exact H|]. exact (ioflow_errors _ _ H).
Defined.
