(* ===== verification/BootLab.v ===== *)
(** The boot and trap lab,
    [docs/xv6-tutorial/resources/boot-traps-and-interrupts/run-lab.py]: the
    contracts of machine entry, trap vectors, trampoline, kernel vector, context
    switch and timer in the sources, and the oracle of one timer interrupt. *)

From stdpp Require Import base tactics list gmap strings numbers list_numbers sorting.
From S2P Require Import Prelude PyText PyBytes PyRegex PyJson PyDyn PyMarkers RecoverDocs SourceCheck.
Open Scope Z_scope.

Definition PATCH_PATHS : list string :=
  [ "Makefile"; "kernel/defs.h"; "kernel/sysproc.c"; "kernel/trap.c"; "user/irqtrace.c" ].
Definition TIMER_CAUSE : Z := 0x8000000000000005.

(** * Checks of a text *)

(** The first occurrences of the tokens are in order. *)
Definition ordered (s : pystr) (tokens : list string) (label : string) : result () :=
  let positions := (fun token => py_find s token 0) <$> tokens in
  require (forallb (fun position => 0 <=? position) positions) [T "missing "; T label; T ": "; Elided];;
  require (bool_decide (positions = merge_sort Z.le positions)) [T "wrong "; T label; T " order: "; Elided].

Definition count_once (s : pystr) (token label : string) : result () :=
  require (times s token =? 1) [T label; T " is not unique: "; R (src token)].


Definition blank (c : Z) : bool := (c =? space) || (c =? 9).
Definition alnum (c : Z) : bool := in_range "a" "z" c || in_range "0" "9" c.
(** A line that is an opcode, a register, a comma and an offset from the base *)
Definition slot_re (opcode base : string) : pattern :=
  all_of [ bol; star (MChr blank); lit opcode; plus (MChr blank);
           MGrp 1 (MCat (MChr (in_range "a" "z")) (star (MChr alnum))); lit ","; star (MChr blank);
           MGrp 2 (plus (MChr is_decimal)); lit "("; lit base; lit ")"; star (MChr blank); eol ].
(** The set of registers with their offsets *)
Definition register_slots (s : pystr) (opcode base : string) : result (list (pystr * Z)) :=
  mapR (fun g => offset ← int_decimals (default [] (group g 2)); Ok (default [] (group g 1), offset))
    (re_finditer (slot_re opcode base) s).
Definition same_slots (found : list (pystr * Z)) (expected : list (string * Z)) : bool :=
  let wanted := (fun '(register, offset) => (u register, offset)) <$> expected in
  forallb (fun slot => bool_decide (slot ∈ wanted)) found && forallb (fun slot => bool_decide (slot ∈ found)) wanted.

(** * Sources *)

Definition check_machine_entry (entry start riscv : pystr) : result () :=
  ordered entry ["_entry:"; "la sp, stack0"; "li a0, 1024*4"; "csrr a1, mhartid"; "addi a1, a1, 1";
    "mul a0, a0, a1"; "add sp, sp, a0"; "call start"] "machine entry";;
  ordered start ["r_mstatus()"; "MSTATUS_MPP_S"; "w_mepc((uint64)main)"; "w_satp(0)"; "w_medeleg(0xffff)";
    "w_mideleg(0xffff)"; "SIE_SEIE | SIE_STIE"; "w_pmpaddr0"; "  timerinit();"; "r_mhartid()"; "w_tp(id)";
    "asm volatile(`mret`)"] "M-to-S transition";;
  require (found_in (all_of [bol; lit "#define MSTATUS_MPP_S"; plus (MChr isspace); lit "(1L << 11)"; eol]) riscv)
    [T "MPP_S definition changed"];;
  require (has start "w_stimecmp(r_time() + 1000000)") [T "first timer is not armed"].

Definition check_hart_initialization (main : pystr) : result () :=
  ordered main ["if (cpuid() == 0)"; "trapinit()"; "trapinithart()"; "plicinit()"; "plicinithart()";
    "__atomic_thread_fence(__ATOMIC_SEQ_CST)"; "started = 1"] "hart-zero publication";;
  require (times main "__atomic_thread_fence(__ATOMIC_SEQ_CST)" =? 2) [T "hart fence count changed"];;
  let else_start := py_find main "} else {" 0 in
  require (0 <=? else_start) [T "secondary-hart branch is missing"];;
  ordered (zdrop else_start main) ["while (started == 0)"; "__atomic_thread_fence(__ATOMIC_SEQ_CST)";
    "kvminithart()"; "trapinithart()"; "plicinithart()"] "secondary-hart acquire and initialization".

Definition check_trap_vectors_and_devices (trap plic : pystr) : result () :=
  require (has trap "w_stvec((uint64)kernelvec)") [T "kernel vector is not installed"];;
  require (has trap "w_stvec(trampoline_uservec)") [T "user vector is not prepared"];;
  let return_start := py_find trap "prepare_return(void)" 0 in
  require (0 <=? return_start) [T "prepare_return definition is missing"];;
  let return_block := zdrop return_start trap in
  ordered return_block ["prepare_return(void)"; "intr_off();"; "w_stvec(trampoline_uservec)";
    "w_sepc(p->trapframe->epc)"] "return preparation";;
  require (has trap "r_scause() == 8") [T "user syscall cause is missing"];;
  require (has trap "0x8000000000000005L") [T "timer cause is missing"];;
  require (has trap "0x8000000000000009L") [T "external cause is missing"];;
  require (has trap "int irq = plic_claim()") [T "PLIC claim is missing"];;
  require (has trap "irq == UART0_IRQ" && has trap "uartintr()") [T "UART route is missing"];;
  require (has trap "irq == VIRTIO0_IRQ" && has trap "virtio_disk_intr()")
    [T "VirtIO route is missing"];;
  require (has trap "plic_complete(irq)") [T "PLIC completion is missing"];;
  require (has plic "*(uint32 *)PLIC_SCLAIM(hart)") [T "PLIC claim/complete register changed"].

Definition user_slots : list (string * Z) :=
  [ ("ra", 40); ("sp", 48); ("gp", 56); ("tp", 64); ("t0", 72); ("t1", 80); ("t2", 88); ("s0", 96);
    ("s1", 104); ("a1", 120); ("a2", 128); ("a3", 136); ("a4", 144); ("a5", 152); ("a6", 160); ("a7", 168);
    ("s2", 176); ("s3", 184); ("s4", 192); ("s5", 200); ("s6", 208); ("s7", 216); ("s8", 224); ("s9", 232);
    ("s10", 240); ("s11", 248); ("t3", 256); ("t4", 264); ("t5", 272); ("t6", 280) ]%string.
Definition check_trampoline (trampoline : pystr) : result () :=
  let uservec_start := py_find trampoline "uservec:" 0 in
  let userret_start := py_find trampoline "userret:" 0 in
  require ((0 <=? uservec_start) && (uservec_start <? userret_start))
    [T "trampoline entry labels are missing or reordered"];;
  let uservec := slice uservec_start userret_start trampoline in
  let userret := zdrop userret_start trampoline in
  ordered uservec ["uservec:"; "csrw sscratch, a0"; "csrw satp, t1"; "jalr t0"] "uservec contract";;
  ordered userret ["userret:"; "csrw satp, a0"; "sret"] "userret contract";;
  saved ← register_slots uservec "sd" "a0";
  require (same_slots saved (user_slots ++ [("t0", 112)]%string))
    [T "uservec save slots changed"];;
  restored ← register_slots userret "ld" "a0";
  require (same_slots restored (user_slots ++ [("a0", 112)]%string))
    [T "userret restore slots changed"];;
  ordered uservec ["csrr t0, sscratch"; "sd t0, 112(a0)"] "saved user a0".

Definition kernel_slots : list (string * Z) :=
  [ ("ra", 0); ("gp", 16); ("t0", 32); ("t1", 40); ("t2", 48); ("a0", 72); ("a1", 80); ("a2", 88);
    ("a3", 96); ("a4", 104); ("a5", 112); ("a6", 120); ("a7", 128); ("t3", 216); ("t4", 224); ("t5", 232);
    ("t6", 240) ]%string.
Definition check_kernelvec (kernelvec : pystr) : result () :=
  require (has kernelvec "addi sp, sp, -256") [T "kernelvec frame size changed"];;
  require (has kernelvec "sd ra, 0(sp)" && has kernelvec "call kerneltrap")
    [T "kernelvec save/call missing"];;
  require (has kernelvec "# sd sp, 8(sp)" && has kernelvec "# not tp" && has kernelvec
    "in case we moved CPUs")
    [T "kernelvec sp/tp exception missing"];;
  saved ← register_slots kernelvec "sd" "sp";
  require (same_slots saved kernel_slots)
    [T "kernelvec save slots changed"];;
  restored ← register_slots kernelvec "ld" "sp";
  require (same_slots restored kernel_slots)
    [T "kernelvec restore slots changed"];;
  require (endswith (rstrip kernelvec) (u "sret")) [T "kernelvec does not return with sret"].

Definition check_swtch (swtch proc_h : pystr) : result () :=
  mapR (fun register =>
    require (has swtch ("sd " ++ register ++ ",")) [T "swtch does not save "; T register];;
    require (has swtch ("ld " ++ register ++ ",")) [T "swtch does not restore "; T register])
    ["ra"; "sp"; "s0"; "s1"; "s2"; "s3"; "s4"; "s5"; "s6"; "s7"; "s8"; "s9"; "s10"; "s11"]%string;;
  require (endswith (rstrip swtch) (u "ret")) [T "swtch does not return through restored ra"];;
  require (has proc_h "struct context" && has proc_h "uint64 s11;") [T "context shape changed"].

Definition check_timer_routing (trap : pystr) : result () :=
  let clock_start := py_find trap "clockintr()" 0 in
  let devintr_start := py_find trap "devintr()" clock_start in
  require ((0 <=? clock_start) && (clock_start <? devintr_start))
    [T "clock/devintr blocks are missing"];;
  ordered (slice clock_start devintr_start trap) ["if (cpuid() == 0)"; "acquire(&tickslock)"; "ticks++";
    "wakeup(&ticks)"; "release(&tickslock)"; "w_stimecmp"] "clock interrupt contract";;
  let devintr_block := zdrop devintr_start trap in
  ordered devintr_block ["scause == 0x8000000000000005L"; "clockintr();"; "return 2;"]
    "timer dispatch contract";;
  let usertrap_base := py_find trap "usertrap(void)" 0 in
  let prepare_base := py_find trap "prepare_return(void)" usertrap_base in
  ordered (py_slice usertrap_base prepare_base trap) ["which_dev = devintr()"; "if (which_dev == 2)";
    "yield();"; "prepare_return();"] "user timer yield contract";;
  let kerneltrap_base := py_find trap "kerneltrap()" prepare_base in
  let clock_base := py_find trap "clockintr()" kerneltrap_base in
  ordered (py_slice kerneltrap_base clock_base trap) ["which_dev = devintr()";
    "if (which_dev == 2 && myproc() != 0)"; "yield();"; "w_sepc(sepc)"; "w_sstatus(sstatus)"]
    "kernel timer yield contract".

Section Trees.
Context (source : string -> result pystr).

(** The build that follows is the host's. *)
Definition analyze_baseline : result () :=
  entry ← source "kernel/entry.S";
  start ← source "kernel/start.c";
  riscv ← source "kernel/riscv.h";
  check_machine_entry entry start riscv;;
  main ← source "kernel/main.c";
  check_hart_initialization main;;
  trap ← source "kernel/trap.c";
  plic ← source "kernel/plic.c";
  check_trap_vectors_and_devices trap plic;;
  check_timer_routing trap;;
  trampoline ← source "kernel/trampoline.S";
  check_trampoline trampoline;;
  kernelvec ← source "kernel/kernelvec.S";
  check_kernelvec kernelvec;;
  swtch ← source "kernel/swtch.S";
  proc_h ← source "kernel/proc.h";
  check_swtch swtch proc_h.

(** [numstat] is the answer of git. *)
Definition check_instrumentation (numstat : pystr) : result (list pystr) :=
  paths ← numstat_paths "unexpected patch numstat: " numstat;
  require (same_set paths (u <$> PATCH_PATHS)) [T "patch paths differ: "; Elided];;
  trap ← source "kernel/trap.c";
  sysproc ← source "kernel/sysproc.c";
  makefile ← source "Makefile";
  user ← source "user/irqtrace.c";
  require (has makefile "$U/_irqtrace\") [T "irqtrace is not in UPROGS"];;
  require (has sysproc "strncmp(myproc()->name, `irqtrace`") [T "uptime arm gate is missing"];;
  ordered trap ["irqtrace_arm(void)"; "intr_off()"; "irqtrace_stage = 1"] "trace arm";;
  mapR (fun marker => count_once trap marker "trace marker") ["IRQTRACE 1 USERTRAP"; "IRQTRACE 2 CLOCK";
    "IRQTRACE 3 YIELD"; "IRQTRACE 4 RESUME"]%string;;
  let usertrap_start := py_find trap "usertrap(void)" 0 in
  let prepare_return_start := py_find trap "prepare_return(void)" usertrap_start in
  require ((0 <=? usertrap_start) && (usertrap_start <? prepare_return_start))
    [T "usertrap block is missing"];;
  ordered (slice usertrap_start prepare_return_start trap) ["IRQTRACE 1 USERTRAP"; "which_dev = devintr()";
    "if (which_dev != 2 || ticks != irqtrace_before + 1)"; "IRQTRACE 2 CLOCK"; "if (which_dev == 2)";
    "panic(`irqtrace before yield state`)"; "IRQTRACE 3 YIELD"; "yield();";
    "panic(`irqtrace after yield state`)"; "IRQTRACE 4 RESUME"; "irqtrace_stage = 2"; "prepare_return();"]
    "instrumented timer path";;
  require (times trap "if (p->state != RUNNING)" =? 2)
    [T "trace must check RUNNING state on both sides of yield"];;
  require (has trap "ticks != irqtrace_before + 1") [T "single-tick oracle is missing"];;
  require (has user "for (int i = 0; i < 10000000; i++)") [T "user-mode window changed"];;
  require (times user "uptime()" =? 2) [T "irqtrace must sample uptime twice in source"];;
  require (has user "while (after == before)") [T "irqtrace completion loop is missing"];;
  Ok (sorted_strs paths).
End Trees.

(** * The interrupt *)

Definition number (n : Z) : pattern := MGrp n (plus (MChr is_decimal)).
Definition hex_number (n : Z) : pattern := MGrp n (plus (MChr (fun c => in_range "0" "9" c || in_range "a" "f" c))).
Definition line_end : pattern := one newline.
Definition trace_re : pattern :=
  all_of [ lit "irqtrace"; line_end; lit "IRQTRACE ARM"; line_end;
           lit "IRQTRACE 1 USERTRAP pid="; number 1; lit " scause=0x"; hex_number 2; lit " sepc=0x"; hex_number 3;
           line_end; lit "IRQTRACE 2 CLOCK pid="; number 4; lit " ticks="; number 5; lit "->"; number 6; line_end;
           lit "IRQTRACE 3 YIELD pid="; number 7; lit " state=RUNNING"; line_end;
           lit "IRQTRACE 4 RESUME pid="; number 8; lit " state=RUNNING"; line_end;
           lit "IRQTRACE USER ticks="; number 9; lit "->"; number 10; lit " spin=1"; line_end; lit "$ " ].

(** [int(value, 16)] of hexadecimal digits *)
Definition value_of (g : groups) (n : Z) : result Z :=
  let s := default [] (group g n) in
  if (n =? 2) || (n =? 3) then int16 s else int_decimals s.

Record Tick : Type := { pid : Z; sepc : Z; tick_before : Z; tick_after : Z }.

Definition validate_trace (transcript : pystr) : result Tick :=
  match re_full trace_re transcript with
  | None => Raise (LabError [T "unexpected irqtrace transcript:"; Elided])
  | Some g =>
      values ← mapR (value_of g) [1; 2; 3; 4; 5; 6; 7; 8; 9; 10];
      match values with
      | [pid1; cause; sepc; pid2; tick0; tick1; pid3; pid4; user0; user1] =>
          require ((0 <? pid1) && (pid2 =? pid1) && (pid3 =? pid1) && (pid4 =? pid1)) [T "trace pid changed"];;
          require (cause =? TIMER_CAUSE) [T "wrong timer cause: "; Elided];;
          require (0 <? sepc) [T "timer sepc is not a user address"];;
          require (tick1 =? tick0 + 1) [T "clock trace did not advance exactly one tick"];;
          require ((user0 <=? tick0) && (tick1 <=? user1) && (user0 <? user1)) [T "user tick observation mismatch"];;
          Ok {| pid := pid1; sepc := sepc; tick_before := tick0; tick_after := tick1 |}
      | _ => Raise ValueError
      end
  end.
