(* ===== verification/BootProps.v ===== *)
(** What the boot and trap oracle guarantees: the transcript of a timer
    interrupt has exactly the printed form, with numbers that agree; and how its
    order check relates to the one of the other runners. *)

From stdpp Require Import base tactics list gmap strings numbers list_numbers sorting.
From S2P Require Import Prelude PyText PyBytes PyRegex RegexSpec PyJson PyDyn PyMarkers RecoverDocs SourceCheck BootLab.
Open Scope Z_scope.

(** * The transcript of the interrupt *)

(** What the guest prints, with the ten numerals [d] *)
Definition irq_text (d : Z -> pystr) : pystr :=
  u "irqtrace" ++ [newline] ++ u "IRQTRACE ARM" ++ [newline] ++
  u "IRQTRACE 1 USERTRAP pid=" ++ d 1 ++ u " scause=0x" ++ d 2 ++ u " sepc=0x" ++ d 3 ++ [newline] ++
  u "IRQTRACE 2 CLOCK pid=" ++ d 4 ++ u " ticks=" ++ d 5 ++ u "->" ++ d 6 ++ [newline] ++
  u "IRQTRACE 3 YIELD pid=" ++ d 7 ++ u " state=RUNNING" ++ [newline] ++
  u "IRQTRACE 4 RESUME pid=" ++ d 8 ++ u " state=RUNNING" ++ [newline] ++
  u "IRQTRACE USER ticks=" ++ d 9 ++ u "->" ++ d 10 ++ u " spin=1" ++ [newline] ++ u "$ ".

Lemma lit_matches s a ga b gb : matches (lit s) a ga b gb -> gb = ga /\ rest a = u s ++ rest b.
Proof. intros [-> (H & _)]%matches_text. done. Qed.
Lemma line_end_matches a ga b gb : matches line_end a ga b gb -> gb = ga /\ rest a = [newline] ++ rest b.
Proof. intros [-> (H & _)]%(matches_text [newline]). done. Qed.
Lemma number_matches n a ga b gb : matches (number n) a ga b gb ->
  exists w, gb = (n, w) :: ga /\ rest a = w ++ rest b /\ w <> [] /\ Forall (fun c => is_decimal c = true) w.
Proof.
  intros (w & g & (E & H & P) & -> & M)%matches_group. apply matches_plus_class in M as (-> & v & Hv & F & (E' & H' & _)).
  exists w. split_and!; [done..| |]; replace w with v; [done| |done|].
  all: rewrite E in E'; apply app_inv_tail in E'; congruence.
Qed.
Lemma hex_number_matches n a ga b gb : matches (hex_number n) a ga b gb ->
  exists w, gb = (n, w) :: ga /\ rest a = w ++ rest b.
Proof. intros (w & g & (E & _) & -> & M)%matches_group. apply matches_plus_class in M as (-> & _). eauto. Qed.

Ltac peel :=
  repeat match goal with
  | M : matches (all_of (_ :: _ :: _)) _ _ _ _ |- _ => apply matches_seq in M as (? & ? & ? & M)
  | M : matches (all_of [_]) _ _ _ _ |- _ => apply matches_last in M
  | M : matches (lit _) _ _ _ _ |- _ => apply lit_matches in M as [-> M]
  | M : matches line_end _ _ _ _ |- _ => apply line_end_matches in M as [-> M]
  | M : matches (number _) _ _ _ _ |- _ => apply number_matches in M as (? & -> & M & ? & ?)
  | M : matches (hex_number _) _ _ _ _ |- _ => apply hex_number_matches in M as (? & -> & M)
  end.

Lemma trace_text transcript g : re_full trace_re transcript = Some g ->
  transcript = irq_text (fun n => default [] (group g n)).
Proof.
  intros (b & M & Eb)%re_full_sound. unfold trace_re in M. peel.
  assert (rest (start_of transcript) = transcript) as <- by done.
  repeat match goal with E : rest ?x = _ |- context [rest ?x] => rewrite E; clear E end.
  unfold irq_text. cbn -[u app]. by rewrite ?app_nil_r.
Qed.

(** An accepted transcript is exactly the text of the instrumented
    interrupt, with ten numerals in it; the four events are those of one
    process, the cause is that of the timer, the clock advances by one tick and
    the two times the program reads enclose it. *)
Theorem irqtrace_exact transcript t :
  BootLab.validate_trace transcript = Ok t -> exists d before after,
    transcript = irq_text d /\
    Forall (fun n => int_decimals (d n) = Ok (pid t)) [1; 4; 7; 8] /\ 0 < pid t /\
    read_number 16 (d 2) = Some TIMER_CAUSE /\ read_number 16 (d 3) = Some (sepc t) /\ 0 < sepc t /\
    int_decimals (d 5) = Ok (tick_before t) /\ int_decimals (d 6) = Ok (tick_after t) /\
    tick_after t = tick_before t + 1 /\
    int_decimals (d 9) = Ok before /\ int_decimals (d 10) = Ok after /\
    before <= tick_before t /\ tick_after t <= after.
Proof.
  unfold BootLab.validate_trace. destruct (re_full _ _) as [g|] eqn:E; [|done]. intros H.
  apply trace_text in E. apply bind_ok in H as (values & Hv & H). apply mapR_ok in Hv.
  set (d := fun n => default [] (group g n)) in E.
  assert (forall n, value_of g n = if (n =? 2) || (n =? 3) then int16 (d n) else int_decimals (d n)) as K by done.
  clearbody d. do 10 (inversion Hv as [|? ? ? ? ?Hn Hv']; clear Hv; rename Hv' into Hv; subst).
  inversion Hv; subst. rewrite K in *. cbn in * |-. unfold int16 in *. inv_ok. to_prop. subst. exists d.
  do 2 eexists. cbn [pid sepc tick_before tick_after]. split; [reflexivity|].
  rewrite !Forall_cons. split_and!; first [apply Forall_nil_2 | eassumption | reflexivity].
Qed.

Definition sample_irq : pystr := irq_text (fun n =>
  u (default "" ([""; "3"; "8000000000000005"; "1c"; "3"; "41"; "42"; "3"; "3"; "40"; "43"] !! Z.to_nat n))%string).
Lemma irqtrace_exact_witness : exists t, BootLab.validate_trace sample_irq = Ok t /\ tick_after t = tick_before t + 1.
Proof.
  eexists. assert (BootLab.validate_trace sample_irq = Ok _) as H by (vm_compute; reflexivity).
  split; [exact H|]. destruct (irqtrace_exact _ _ H) as (d & b & a & K). exact (proj1 (proj2 (proj2 (proj2 (proj2 (proj2
    (proj2 (proj2 (proj2 K))))))))).
Defined.

(** * The frame of the kernel vector *)

(** The stores of the slots in the order of the text, into the frame *)
Definition store_all (slots : list (pystr * Z)) (f : pystr -> Z) (frame : Z -> Z) : Z -> Z :=
  foldl (fun m '(r, o) x => if decide (x = o) then f r else m x) frame slots.
(** The loads of the slots from the frame *)
Definition load_all (slots : list (pystr * Z)) (frame : Z -> Z) (f : pystr -> Z) : pystr -> Z :=
  foldl (fun g '(r, o) x => if decide (x = r) then frame o else g x) f slots.

Lemma store_all_spec slots f frame r o :
  (forall r', (r', o) ∈ slots -> r' = r) -> (r, o) ∈ slots -> store_all slots f frame o = f r.
Proof.
  revert frame. unfold store_all. induction slots as [|[r' o'] slots IH] using rev_ind; [set_solver|].
  intros frame Hu Hin. rewrite foldl_snoc. cbn. case_decide as E; [subst; f_equal; apply Hu; set_solver|].
  apply IH; set_solver.
Qed.
Lemma load_all_spec slots frame f r o :
  (forall o', (r, o') ∈ slots -> o' = o) -> (r, o) ∈ slots -> load_all slots frame f r = frame o.
Proof.
  unfold load_all. induction slots as [|[r' o'] slots IH] using rev_ind; [set_solver|].
  intros Hu Hin. rewrite foldl_snoc. cbn. case_decide as E; [subst; f_equal; apply Hu; set_solver|].
  apply IH; set_solver.
Qed.
Lemma load_all_other slots frame f r : r ∉ slots.*1 -> load_all slots frame f r = f r.
Proof.
  unfold load_all. induction slots as [|[r' o'] slots IH] using rev_ind; [done|].
  rewrite foldl_snoc, fmap_app, not_elem_of_app. cbn. intros [H1 H2]. rewrite decide_False by set_solver. auto.
Qed.

Definition wanted_slots (l : list (string * Z)) : list (pystr * Z) := (fun '(r, o) => (u r, o)) <$> l.
Lemma same_slots_iff found expected : same_slots found expected = true <->
  forall slot, slot ∈ found <-> slot ∈ wanted_slots expected.
Proof.
  unfold same_slots. fold (wanted_slots expected).
  rewrite andb_true_iff, !forallb_forall. setoid_rewrite bool_decide_eq_true. setoid_rewrite <-list_elem_of_In. naive_solver.
Qed.

Lemma kernel_slots_frame :
  NoDup (wanted_slots kernel_slots).*1 /\ NoDup (wanted_slots kernel_slots).*2 /\
  Forall (fun o => 0 <= o /\ o + 8 <= 256) (wanted_slots kernel_slots).*2.
Proof. refine (proj1 (bool_decide_eq_true _) _). vm_compute. reflexivity. Qed.

Lemma slot_unique {A B} (l : list (A * B)) a b b' : NoDup l.*1 -> (a, b) ∈ l -> (a, b') ∈ l -> b = b'.
Proof.
  induction l as [|[x y] l IH]; cbn; rewrite ?NoDup_cons, ?elem_of_nil, ?elem_of_cons; [done|].
  intros [Hx Hl] [E|H] [E'|H']; simplify_eq; auto.
  all: destruct Hx; first [by apply (list_elem_of_fmap_2 fst) in H | by apply (list_elem_of_fmap_2 fst) in H'].
Qed.
Lemma slot_owner {A B} (l : list (A * B)) a a' b : NoDup l.*2 -> (a, b) ∈ l -> (a', b) ∈ l -> a = a'.
Proof.
  induction l as [|[x y] l IH]; cbn; rewrite ?NoDup_cons, ?elem_of_nil, ?elem_of_cons; [done|].
  intros [Hx Hl] [E|H] [E'|H']; simplify_eq; auto.
  all: destruct Hx; first [by apply (list_elem_of_fmap_2 snd) in H | by apply (list_elem_of_fmap_2 snd) in H'].
Qed.

(** C33: the saves and restores of an accepted kernel vector are inverse: the
    stores the text holds and then its loads give every saved register the value
    it had before the trap, whatever the handler did to it, and leave the other
    registers (the stack pointer and the hart among them) as the handler left
    them; every store stays inside the frame of 256 bytes. *)
Theorem kernelvec_restores kernelvec :
  check_kernelvec kernelvec = Ok tt -> exists saved restored,
    register_slots kernelvec "sd" "sp" = Ok saved /\ register_slots kernelvec "ld" "sp" = Ok restored /\
    Forall (fun '(_, o) => 0 <= o /\ o + 8 <= 256) saved /\
    forall before after frame r, load_all restored (store_all saved before frame) after r =
      if decide (r ∈ u <$> kernel_slots.*1) then before r else after r.
Proof.
  intros H. unfold check_kernelvec in H.
  do 3 (apply bind_ok in H as (? & _ & H)).
  apply bind_ok in H as (saved & Es & H). apply bind_ok in H as ([] & Hs & H).
  apply bind_ok in H as (restored & Er & H). apply bind_ok in H as ([] & Hr & _).
  apply require_ok in Hs, Hr. rewrite same_slots_iff in Hs, Hr.
  destruct kernel_slots_frame as (D1 & D2 & Hb). exists saved, restored. split_and!; [done..| |].
  - apply Forall_forall. intros [r o] Hin%Hs. rewrite Forall_forall in Hb. apply Hb.
    by apply (list_elem_of_fmap_2 snd) in Hin.
  - intros before after frame r.
    assert (u <$> kernel_slots.*1 = (wanted_slots kernel_slots).*1) as -> by reflexivity.
    case_decide as Hin.
    + apply list_elem_of_fmap in Hin as ([r' o] & -> & Hin). cbn.
      rewrite (load_all_spec _ _ _ _ o), (store_all_spec _ _ _ r').
      * done.
      * intros r'' H'%Hs. by apply (slot_owner (wanted_slots kernel_slots) r'' r' o).
      * by apply Hs.
      * intros o' H'%Hr. by apply (slot_unique (wanted_slots kernel_slots) r' o' o).
      * by apply Hr.
    + apply load_all_other. intros ([r' o] & -> & H')%list_elem_of_fmap. destruct Hin.
      by apply (list_elem_of_fmap_2 fst _ _), Hr.
Qed.

(** The vector of the kernel *)
Definition sample_vector : pystr :=
  let lines opcode := (fun '(r, o) => u "        " ++ u opcode ++ u " " ++ r ++ u ", " ++ str_of_int o ++ u "(sp)")
                        <$> wanted_slots kernel_slots in
  join [newline] ([u "kernelvec:"; u "        addi sp, sp, -256"] ++ lines "sd" ++
    [u "        # sd sp, 8(sp)"; u "        call kerneltrap"] ++ lines "ld" ++
    [u "        # not tp (contains hartid), in case we moved CPUs"; u "        addi sp, sp, 256"; u "        sret"; []]).
Lemma kernelvec_restores_witness : check_kernelvec sample_vector = Ok tt /\ exists saved : list (pystr * Z),
  register_slots sample_vector "sd" "sp" = Ok saved /\ Forall (fun '(_, o) => 0 <= o /\ o + 8 <= 256) saved.
Proof.
  assert (check_kernelvec sample_vector = Ok tt) as H by (vm_compute; reflexivity).
  split; [exact H|]. destruct (kernelvec_restores _ H) as (s & r & Hs & _ & F & _). exists s. exact (conj Hs F).
Defined.

(** * The order of tokens *)

(** The order check looks at first occurrences only: it takes tokens that
    overlap, and refuses a text whose tokens do occur in order when one of them
    has occurred before. The check of the other runners decides both the other
    way. *)
Example first_occurrences :
  ordered (src "yield();") ["yield();"; "yield();"]%string "order" = Ok tt /\
  require_in_order (src "yield();") ["yield();"; "yield();"]%string "order" <> Ok tt /\
  ordered (src "b(); a(); b();") ["a();"; "b();"]%string "order" <> Ok tt /\
  require_in_order (src "b(); a(); b();") ["a();"; "b();"]%string "order" = Ok tt.
Proof. vm_compute. done. Qed.
