(* ===== verification/SyscallTrace.v ===== *)
(** The trace of one system call,
    [docs/xv6-tutorial/resources/syscall-roundtrip/run-trace.py]: the addresses
    read from the generated listings, the script for the debugger, the markers
    it prints and the oracle of the round trip.  The class [TraceError] of the
    script is [LabError] here: it is what [require] raises. *)

From stdpp Require Import base tactics list gmap strings numbers list_numbers.
From S2P Require Import Prelude PyText PyBytes PyRegex PyJson PyDyn PyMarkers RecoverDocs SourceCheck.
Open Scope Z_scope.

Definition MASK64 : Z := 2 ^ 64 - 1.
Definition TRAMPOLINE : Z := 2 ^ 38 - 4096.
Definition TRAPFRAME : Z := TRAMPOLINE - 4096.

(** * Listings *)

Record Instruction : Type := { address : Z; encoding : pystr; mnemonic : pystr; operands : pystr }.

Definition lower_hex (c : Z) : bool := in_range "0" "9" c || in_range "a" "f" c.
Definition instruction_re : pattern :=
  all_of [ star (MChr isspace); MGrp 1 (plus (MChr lower_hex)); lit ":"; plus (MChr isspace);
           MGrp 2 (plus (MChr lower_hex)); plus (MChr isspace);
           MGrp 3 (plus (MChr (fun c => (c =? 46) || in_range "a" "z" c || in_range "0" "9" c)));
           opt (MCat (plus (MChr isspace)) (MGrp 4 (MStar false dot_))); star (MChr isspace); eol ].
Definition instruction_of (line : pystr) : result (option Instruction) :=
  match re_match instruction_re line with
  | None => Ok None
  | Some g =>
      a ← int16 (default [] (group g 1));
      Ok (Some {| address := a; encoding := default [] (group g 2); mnemonic := default [] (group g 3);
                  operands := remove_char space (default [] (group g 4)) |})
  end.
Definition parse_instructions (s : pystr) : result (list Instruction) :=
  found ← mapR instruction_of (splitlines s); Ok (omap (fun i => i) (found : list (option Instruction))).

(** [symbols] is the text of the symbol file. *)
Definition symbol_address (symbols : pystr) (symbol : string) : result Z :=
  match re_search (all_of [bol; MGrp 1 (plus (MChr lower_hex)); plus (MChr isspace); lit symbol; eol]) symbols with
  | Some (_, _, g) => int16 (default [] (group g 1))
  | None => Raise (LabError [T "missing symbol in "; Elided; T ": "; T symbol])
  end.

(** The first instruction that has a successor and satisfies the predicate *)
Fixpoint next_address (instructions : list Instruction) (predicate : Instruction -> bool) (description : string)
    : result (Z * Z) :=
  match instructions with
  | i :: (j :: _) as more =>
      if predicate i then Ok (address i, address j) else next_address more predicate description
  | _ => Raise (LabError [T "cannot locate instruction: "; T description])
  end.

(** The block of a function in a listing; the lookahead of the expression only
    says where it ends, so the next label is read here. *)
Definition block_re (symbol : string) : pattern :=
  all_of [ bol; plus (MChr lower_hex); lit " <"; lit symbol; lit ">:"; one newline;
           MGrp 1 (MStar false (MChr (fun _ => true)));
           bol; plus (MChr lower_hex); lit " <"; plus (MChr (other ">")); lit ">:"; one newline ].
Definition block (listing : pystr) (symbol : string) : option pystr :=
  match re_search (block_re symbol) listing with Some (_, _, g) => group g 1 | None => None end.

Definition is_op (m o : string) (i : Instruction) : bool :=
  bool_decide (mnemonic i = u m) && bool_decide (operands i = u o).
Definition calls (symbol : string) (i : Instruction) : bool :=
  bool_decide (mnemonic i = u "jal") && endswith (operands i) (u "<" ++ u symbol ++ u ">").
Definition within (low high : Z) (l : list Instruction) : list Instruction :=
  filter (fun i => low <= address i < high) l.

(** * The static identity of the call *)

Record Static : Type := {
  sysno : Z; unknown : Z; stub : Z; caller_return : Z; li_width : Z; ecall : Z; after : Z;
  ecall_encoding : pystr; trampoline : Z; trapframe : Z; uservec : Z; saved : Z; kstack : Z;
  kpagetable : Z; advanced : Z; userret : Z; user_satp : Z; restored : Z }.
#[global] Instance Static_eq_dec : EqDecision Static.
Proof. solve_decision. Defined.

Section Listings.
(** [str.isalnum] outside ASCII, and the files of the build *)
Context (alphanumeric : Z -> bool) (source : string -> result pystr).

Definition define_re : pattern :=
  all_of [ bol; lit "#define SYS_"; MGrp 1 (plus (MChr (word_char alphanumeric))); plus (MChr isspace);
           MGrp 2 (plus (MChr is_decimal)); eol ].
Definition syscall_numbers (header : pystr) : result (list (pystr * Z)) :=
  foldM (fun numbers g => z ← int_decimals (default [] (group g 2));
                          Ok (dict_set (default [] (group g 1)) z numbers))
    [] (re_finditer define_re header).

(** The number of the call, and the first number no call has *)
Definition call_numbers : result (Z * Z) :=
  header ← source "kernel/syscall.h";
  numbers ← syscall_numbers header;
  require (bool_decide (lookup_key (u "getpid") numbers = Some 11)) [T "expected SYS_getpid=11, got "; Elided];;
  Ok (11, foldr Z.max 11 numbers.*2 + 1).

Definition check_kernel_sources : result () :=
  syscall_source ← source "kernel/syscall.c";
  require (found_in (all_of [lit "[SYS_getpid]"; plus (MChr isspace); lit "sys_getpid"]) syscall_source)
    [T "getpid dispatch entry is missing"];;
  require (has syscall_source "num < NELEM(syscalls)") [T "syscall bounds guard is missing"];;
  require (has syscall_source "unknown sys call %d") [T "unknown-system-call diagnostic is missing"];;
  riscv ← source "kernel/riscv.h";
  memlayout ← source "kernel/memlayout.h";
  require (found_in (all_of [lit "#define MAXVA"; plus (MChr isspace); lit "(1L << (9 + 9 + 9 + 12 - 1))"]) riscv)
    [T "MAXVA expression changed"];;
  require (found_in (all_of [lit "#define PGSIZE"; plus (MChr isspace); lit "4096"; word_boundary alphanumeric]) riscv)
    [T "PGSIZE expression changed"];;
  require (has memlayout "#define TRAMPOLINE (MAXVA - PGSIZE)") [T "TRAMPOLINE expression changed"];;
  require (has memlayout "#define TRAPFRAME (TRAMPOLINE - PGSIZE)") [T "TRAPFRAME expression changed"].

(** The three instructions of the generated stub, and the address after the
    first call of it in [reparent] *)
Definition user_stub : result (Instruction * Instruction * Instruction * Z) :=
  user_asm ← source "user/usertests.asm";
  match block user_asm "getpid" with
  | None => Raise (LabError [T "cannot find generated getpid stub"])
  | Some body =>
      stub_instructions ← parse_instructions body;
      match stub_instructions with
      | [li; ecall; ret] =>
          require (is_op "li" "a7,11" li) [T "unexpected getpid number load: "; Elided];;
          require (bool_decide (mnemonic ecall = u "ecall") && bool_decide (encoding ecall = u "00000073"))
            [T "unexpected ecall instruction: "; Elided];;
          require (bool_decide (mnemonic ret = u "ret") && (address ret =? address ecall + 4))
            [T "ecall does not advance to E+4: "; Elided];;
          match block user_asm "reparent" with
          | None => Raise (LabError [T "cannot find reparent in usertests disassembly"])
          | Some body =>
              reparent_instructions ← parse_instructions body;
              match next_address reparent_instructions (calls "getpid") "reparent" with
              | Ok (_, caller_return) => Ok (li, ecall, ret, caller_return)
              | Raise _ => Raise (LabError [T "cannot find reparent's first getpid call"])
              end
          end
      | _ => Raise (LabError [T "expected three getpid instructions, got "; Elided])
      end
  end.

(** The links of the trampoline and of the checkpoints in it *)
Record Links : Type := {
  trampoline_link : Z; userret_link : Z; saved_link : Z; kstack_link : Z; kpagetable_link : Z;
  user_satp_link : Z; sret_link : Z; advanced_link : Z }.

Definition kernel_links : result Links :=
  kernel_sym ← source "kernel/kernel.sym";
  trampoline_link ← symbol_address kernel_sym "trampoline";
  uservec_link ← symbol_address kernel_sym "uservec";
  userret_link ← symbol_address kernel_sym "userret";
  usertrap_link ← symbol_address kernel_sym "usertrap";
  kerneltrap_link ← symbol_address kernel_sym "kerneltrap";
  require (uservec_link =? trampoline_link) [T "uservec no longer aliases trampoline start"];;
  kernel_asm ← source "kernel/kernel.asm";
  kernel_instructions ← parse_instructions kernel_asm;
  let uservec_instructions := within trampoline_link userret_link kernel_instructions in
  let userret_instructions := within userret_link (userret_link + 0x200) kernel_instructions in
  let usertrap_instructions := within usertrap_link kerneltrap_link kernel_instructions in
  '(saved_link, kstack_link) ← next_address uservec_instructions (is_op "ld" "sp,8(a0)") "uservec ld sp,8(a0)";
  '(_, kpagetable_link) ← next_address uservec_instructions (is_op "csrw" "satp,t1") "uservec csrw satp,t1";
  '(_, user_satp_link) ← next_address userret_instructions (is_op "csrw" "satp,a0") "userret csrw satp,a0";
  match list_find (fun i => mnemonic i = u "sret") userret_instructions with
  | None => Raise (LabError [T "cannot locate userret sret"])
  | Some (_, sret) =>
      match filter (fun i => calls "syscall" i = true) usertrap_instructions with
      | [call] =>
          match last (filter (fun i => address i < address call /\ mnemonic i = u "csrr" /\
                                       endswith (operands i) (u ",sstatus") = true) usertrap_instructions) with
          | None => Raise (LabError [T "cannot locate the pre-intr_on checkpoint"])
          | Some i =>
              Ok {| trampoline_link := trampoline_link; userret_link := userret_link; saved_link := saved_link;
                    kstack_link := kstack_link; kpagetable_link := kpagetable_link;
                    user_satp_link := user_satp_link; sret_link := address sret; advanced_link := address i |}
          end
      | _ => Raise (LabError [T "cannot identify usertrap syscall call: "; Elided])
      end
  end.

Definition relocate (l : Links) (a : Z) : Z := TRAMPOLINE + a - trampoline_link l.

Definition analyze_static : result Static :=
  '(sysno, unknown) ← call_numbers;
  check_kernel_sources;;
  '(li, ecall, ret, caller_return) ← user_stub;
  l ← kernel_links;
  Ok {| sysno := sysno; unknown := unknown; stub := address li; caller_return := caller_return;
        li_width := address ecall - address li; ecall := address ecall; after := address ret;
        ecall_encoding := encoding ecall; trampoline := TRAMPOLINE; trapframe := TRAPFRAME;
        uservec := relocate l (trampoline_link l); saved := relocate l (saved_link l);
        kstack := relocate l (kstack_link l); kpagetable := relocate l (kpagetable_link l);
        advanced := advanced_link l; userret := relocate l (userret_link l);
        user_satp := relocate l (user_satp_link l); restored := relocate l (sret_link l) |}.
End Listings.

(** * Hexadecimal numbers *)

(** The digits of [z] in base 16, and [hex(z)] *)
Definition hex_digits (z : Z) : pystr := hex_fuel (S (Z.to_nat (Z.log2 z))) z [].
Definition py_hex (z : Z) : pystr := if z <? 0 then u "-0x" ++ hex_digits (- z) else u "0x" ++ hex_digits z.
(** [f"0x{z:x}"] *)
Definition hex_field (z : Z) : pystr := u "0x" ++ (if z <? 0 then u "-" ++ hex_digits (- z) else hex_digits z).

(** * The script for the debugger *)

Definition replacements (static : Static) (port : Z) (mutate : bool) : list (string * pystr) :=
  [ ("PORT", str_of_int port); ("STUB", py_hex (stub static)); ("ECALL", py_hex (ecall static));
    ("UNKNOWN", str_of_int (unknown static)); ("MUTATE", u (if mutate then "1" else "0"));
    ("USERVEC", py_hex (uservec static)); ("SAVED", py_hex (saved static)); ("KSTACK", py_hex (kstack static));
    ("KPAGETABLE", py_hex (kpagetable static)); ("ADVANCED", py_hex (advanced static));
    ("TRAPFRAME", py_hex (trapframe static)); ("USERRET", py_hex (userret static));
    ("USER_SATP", py_hex (user_satp static)); ("RESTORED", py_hex (restored static));
    ("AFTER", py_hex (after static)) ]%string.
Definition token_re : pattern :=
  all_of [lit "@"; plus (MChr (fun c => in_range "A" "Z" c || (c =? 95))); lit "@"].
Definition render_gdb (static : Static) (port : Z) (mutate : bool) (template : pystr) : result pystr :=
  let s := foldl (fun s '(key, value) => replace (u "@" ++ u key ++ u "@") value s) template
             (replacements static port mutate) in
  require (negb (found_in token_re s)) [T "unresolved GDB template token"];; Ok s.

(** * Markers *)

Definition add_value (values : record) (item : pystr) : result record :=
  match cut (u "=") item with
  | None => Ok values
  | Some (key, value) => z ← of_option ValueError (int0 value); Ok (dict_set key (DInt z) values)
  end.
Definition marker_of (line : pystr) : result (pystr * record) :=
  let parts := words line in
  name ← of_option IndexError (parts !! 1%nat);
  values ← foldM add_value [] (drop 2 parts);
  Ok (name, values).
(** [output] is the decoded output of the debugger without carriage returns. *)
Definition parse_markers (output : pystr) : result (list (pystr * record)) :=
  mapR marker_of (filter (fun line => startswith line (u "TRACE ") = true) (splitlines output)).

(** * The oracle *)

Definition expected_names (mutate : bool) : list string :=
  ["ARMED"; "STUB"; "ECALL_BEFORE"; "ECALL"; "USERVEC"; "SAVED"; "KSTACK"; "KPAGETABLE"; "USERTRAP";
   "ADVANCED"; "SYSCALL"]%string ++ (if mutate then [] else ["HANDLER"%string]) ++
  ["PREPARE"; "USERRET"; "USER_SATP"; "RESTORED"; "AFTER"; "DONE"]%string.
Definition user_points : list string := ["STUB"; "ECALL_BEFORE"; "ECALL"; "AFTER"]%string.
Definition supervisor_points (mutate : bool) : list string :=
  ["USERVEC"; "SAVED"; "KSTACK"; "KPAGETABLE"; "USERTRAP"; "ADVANCED"; "SYSCALL"; "PREPARE"; "USERRET";
   "USER_SATP"; "RESTORED"]%string ++ (if mutate then [] else ["HANDLER"%string]).

Abbreviation points := (list (pystr * record)).
(** [{name: values for name, values in markers}], and [points[name][key]] *)
Definition points_of (markers : list (pystr * record)) : points :=
  foldl (fun d '(name, values) => dict_set name values d) [] markers.
Definition point (ps : points) (name key : string) : result dyn :=
  values ← of_option KeyError (lookup_key (u name) ps); fetch values key.

Section Oracle.
Context (static : Static) (mutate : bool) (ps : points).
Let p := point ps.
Context (expected_num expected_result : Z).

Definition check_privilege : result () :=
  mapR (fun name => requireR (p name "priv" == #0)%dyn [T name; T " is not in user mode"]) user_points;;
  mapR (fun name => requireR (p name "priv" == #1)%dyn [T name; T " is not in supervisor mode"])
    (supervisor_points mutate);;
  Ok tt.

Definition check_ecall : result () :=
  requireR (p "STUB" "pc" == #(stub static))%dyn [T "stub PC mismatch"];;
  requireR (p "STUB" "ra" == #(caller_return static))%dyn [T "trace did not start at reparent's first getpid"];;
  requireR (p "ECALL" "pc" == #(ecall static))%dyn [T "ecall PC mismatch"];;
  requireR (p "ECALL_BEFORE" "pc" == #(ecall static))%dyn [T "pre-mutation ecall PC mismatch"];;
  requireR (p "ECALL_BEFORE" "a7" == #(sysno static))%dyn [T "generated stub did not load SYS_getpid"];;
  mapR (fun register => requireR (p "ECALL_BEFORE" register == p "ECALL" register)%dyn
    [T "GDB mutation changed "; T register]) ["priv"; "pc"; "sp"; "ra"; "a0"; "satp"]%string;;
  requireR (p "ECALL_BEFORE" "ra" == #(caller_return static))%dyn [T "ecall caller mismatch"];;
  requireR (p "ECALL" "a7" == #expected_num)%dyn [T "ecall a7 mismatch"].

Definition check_uservec : result () :=
  requireR (p "USERVEC" "pc" == #(uservec static))%dyn [T "uservec PC mismatch"];;
  requireR (p "USERVEC" "sepc" == #(ecall static))%dyn [T "uservec sepc mismatch"];;
  requireR (p "USERVEC" "scause" == #8)%dyn [T "uservec scause is not user ecall"];;
  requireR ((p "USERVEC" "sstatus" & #0x100) == #0)%dyn [T "SPP does not identify user origin"];;
  requireR (p "USERVEC" "stvec" == #(uservec static))%dyn [T "stvec does not target runtime uservec"];;
  requireR (p "USERVEC" "satp" == p "ECALL" "satp")%dyn [T "hardware changed satp"];;
  requireR (p "USERVEC" "sp" == p "ECALL" "sp")%dyn [T "hardware changed sp"].

Definition check_switch : result () :=
  requireR (p "SAVED" "pc" == #(saved static))%dyn [T "saved checkpoint mismatch"];;
  requireR (p "SAVED" "tf_sp" == p "ECALL" "sp")%dyn [T "user sp was not saved"];;
  requireR (p "SAVED" "tf_a0" == p "ECALL" "a0")%dyn [T "user a0 was not saved"];;
  requireR (p "SAVED" "tf_a7" == #expected_num)%dyn [T "user a7 was not saved"];;
  requireR (p "KSTACK" "pc" == #(kstack static))%dyn [T "kernel-stack checkpoint mismatch"];;
  requireR (p "KSTACK" "sp" != p "ECALL" "sp")%dyn [T "stack did not switch"];;
  requireR (p "KSTACK" "satp" == p "ECALL" "satp")%dyn [T "satp switched before checkpoint"];;
  requireR (p "KPAGETABLE" "pc" == #(kpagetable static))%dyn [T "kernel-satp checkpoint mismatch"];;
  requireR (p "KPAGETABLE" "satp" != p "ECALL" "satp")%dyn [T "satp did not switch"];;
  requireR (p "KPAGETABLE" "sp" == p "KSTACK" "sp")%dyn [T "kernel sp changed unexpectedly"].

Definition check_usertrap : result () :=
  requireR (p "USERTRAP" "satp" == p "KPAGETABLE" "satp")%dyn [T "usertrap page table mismatch"];;
  requireR (p "USERTRAP" "sp" == p "KSTACK" "sp")%dyn [T "usertrap stack mismatch"];;
  requireR (p "USERTRAP" "scause" == #8)%dyn [T "usertrap lost original scause before intr_on"];;
  requireR (p "USERTRAP" "sepc" == #(ecall static))%dyn [T "usertrap sepc mismatch"];;
  requireR (p "ADVANCED" "pc" == #(advanced static))%dyn [T "pre-intr_on checkpoint mismatch"];;
  requireR (p "ADVANCED" "scause" == #8)%dyn [T "pre-intr_on scause mismatch"];;
  requireR (p "ADVANCED" "sepc" == #(ecall static))%dyn [T "pre-intr_on sepc mismatch"];;
  requireR ((p "ADVANCED" "sstatus" & #2) == #0)%dyn [T "interrupts enabled before intr_on"];;
  requireR (p "ADVANCED" "tf_epc" == #(after static))%dyn [T "epc was not advanced before intr_on"];;
  requireR (p "ADVANCED" "tf_a7" == #expected_num)%dyn [T "pre-intr_on a7 mismatch"].

Definition check_dispatch : result () :=
  requireR (p "SYSCALL" "pid" > #0)%dyn [T "invalid dynamic pid"];;
  requireR (p "SYSCALL" "tf_epc" == #(after static))%dyn [T "epc was not advanced by four"];;
  requireR (p "SYSCALL" "tf_a7" == #expected_num)%dyn [T "dispatch number mismatch"];;
  requireR (p "SYSCALL" "tf_a0" == p "ECALL" "a0")%dyn [T "saved a0 changed before dispatch"];;
  requireR (p "PREPARE" "pid" == p "SYSCALL" "pid")%dyn [T "process changed during trace"];;
  requireR (p "PREPARE" "handler_hits" == #(if mutate then 0 else 1))%dyn [T "handler hit count mismatch"];;
  requireR (p "PREPARE" "tf_epc" == #(after static))%dyn [T "return epc mismatch"];;
  requireR (p "PREPARE" "tf_a7" == #expected_num)%dyn [T "return a7 mismatch"];;
  requireR (p "PREPARE" "tf_a0" == #expected_result)%dyn [T "trapframe result mismatch"];;
  if mutate then Ok tt else requireR (p "HANDLER" "pid" == p "SYSCALL" "pid")%dyn [T "handler pid mismatch"].

Definition check_userret : result () :=
  requireR (p "USERRET" "pc" == #(userret static))%dyn [T "runtime userret PC mismatch"];;
  requireR (p "USERRET" "satp" == p "KPAGETABLE" "satp")%dyn [T "userret did not start on kernel satp"];;
  requireR (p "USERRET" "sp" == p "KSTACK" "sp")%dyn [T "userret did not start on kernel stack"];;
  requireR (p "USERRET" "target_satp" == p "ECALL" "satp")%dyn [T "wrong target user satp"];;
  requireR (p "USERRET" "sepc" == #(after static))%dyn [T "userret sepc mismatch"];;
  requireR ((p "USERRET" "sstatus" & #0x100) == #0)%dyn [T "userret SPP is not user"];;
  requireR (p "USER_SATP" "pc" == #(user_satp static))%dyn [T "user-satp checkpoint mismatch"];;
  requireR (p "USER_SATP" "satp" == p "ECALL" "satp")%dyn [T "user satp not restored"];;
  requireR (p "USER_SATP" "sp" == p "KSTACK" "sp")%dyn [T "stack restored too early"].

Definition check_restored : result () :=
  requireR (p "RESTORED" "pc" == #(restored static))%dyn [T "sret checkpoint mismatch"];;
  requireR (p "RESTORED" "sp" == p "ECALL" "sp")%dyn [T "user sp not restored"];;
  requireR (p "RESTORED" "a0" == #expected_result)%dyn [T "user a0 not restored"];;
  requireR (p "RESTORED" "a7" == #expected_num)%dyn [T "user a7 not restored"];;
  requireR (p "RESTORED" "satp" == p "ECALL" "satp")%dyn [T "sret uses wrong satp"];;
  requireR (p "RESTORED" "sepc" == #(after static))%dyn [T "sret destination mismatch"];;
  requireR (p "AFTER" "pc" == #(after static))%dyn [T "did not reach E+4"];;
  requireR (p "AFTER" "ra" == #(caller_return static))%dyn [T "post-sret caller return mismatch"];;
  requireR (p "AFTER" "sp" == p "ECALL" "sp")%dyn [T "post-sret sp mismatch"];;
  requireR (p "AFTER" "a0" == #expected_result)%dyn [T "post-sret result mismatch"];;
  requireR (p "AFTER" "a7" == #expected_num)%dyn [T "post-sret a7 mismatch"];;
  requireR (p "AFTER" "satp" == p "ECALL" "satp")%dyn [T "post-sret satp mismatch"].

Definition diagnostic_re : pattern :=
  all_of [ MGrp 1 (plus (MChr is_decimal)); lit " usertests: unknown sys call "; MGrp 2 (plus (MChr is_decimal));
           one newline ].
Definition check_diagnostics (console : pystr) : result () :=
  let diagnostics := re_finditer diagnostic_re console in
  if mutate then
    match diagnostics with
    | [g] =>
        pid ← int_decimals (default [] (group g 1));
        requireR (#pid == p "SYSCALL" "pid")%dyn [T "diagnostic pid mismatch"];;
        number ← int_decimals (default [] (group g 2));
        require (number =? unknown static) [T "diagnostic number mismatch"]
    | _ => Raise (LabError [T "expected one unknown diagnostic, got "; Elided])
    end
  else require (bool_decide (diagnostics = [])) [T "normal trace printed unknown diagnostic: "; Elided].

Definition check_points (console : pystr) : result () :=
  check_ecall;; check_uservec;; check_switch;; check_usertrap;; check_dispatch;; check_userret;; check_restored;;
  check_diagnostics console.
End Oracle.

(** The two outputs are decoded and without carriage returns. *)
Definition validate_trace (static : Static) (mutate : bool) (gdb_output qemu_output : pystr) : result points :=
  markers ← parse_markers gdb_output;
  require (bool_decide (markers.*1 = u <$> expected_names mutate)) [T "unexpected checkpoint order: "; Elided];;
  let ps := points_of markers in
  check_privilege mutate ps;;
  let expected_num := if mutate then unknown static else sysno static in
  expected_result ← (if mutate then Ok (DInt MASK64) else point ps "SYSCALL" "pid");
  match expected_result with
  | DInt expected_result => check_points static mutate ps expected_num expected_result qemu_output;; Ok ps
  | _ => Raise TypeError
  end.

(** * Reports *)

Definition format_values (values : list (pystr * Z)) : pystr :=
  join (u ", ") ((fun '(key, value) => key ++ u "=" ++ hex_field value) <$> values).
