(* ===== verification/SyscallProps.v ===== *)
(** What the system call trace guarantees: the markers of the debugger are read
    back, an accepted trace is a round trip into the kernel and back, and the
    addresses of an accepted build fit together. *)

From stdpp Require Import base tactics list gmap strings numbers list_numbers.
From S2P Require Import Prelude PyText PyBytes PyRegex PyJson PyDyn PyMarkers PRound RecoverDocs SourceCheck SyscallTrace.
Open Scope Z_scope.

(** * Hexadecimal numbers *)

Lemma hex_digit_value d : 0 <= d < 16 -> digit_value (hex_digit d) = Some d /\ (hex_digit d =? 95) = false.
Proof.
  intros H. assert (d ∈ seqZ 0 16) as Hd by (apply elem_of_seqZ; lia). clear H.
  revert d Hd. apply Forall_forall. repeat constructor.
Qed.

Lemma read_hex_digit fresh z d n t : 0 <= d < 16 ->
  read_digits 16 fresh z n (hex_digit d :: t) = read_digits 16 false (z * 16 + d) (n + 1) t.
Proof.
  intros H. destruct (hex_digit_value d H) as [E1 E2]. cbn [read_digits]. rewrite E2, E1.
  by rewrite (proj2 (Z.ltb_lt d 16)) by lia.
Qed.

Lemma hex_fuel_step fuel z t : hex_fuel (S fuel) z t =
  if z / 16 =? 0 then hex_digit (z mod 16) :: t else hex_fuel fuel (z / 16) (hex_digit (z mod 16) :: t).
Proof. done. Qed.

Lemma read_hex_fuel fuel : forall z t n, 0 <= z < 16 ^ Z.of_nat (S fuel) ->
  exists n', read_digits 16 true 0 n (hex_fuel (S fuel) z t) = read_digits 16 false z n' t.
Proof.
  induction fuel as [|fuel IH]; intros z t n Hz; rewrite hex_fuel_step; pose proof (Z.mod_pos_bound z 16 ltac:(lia));
    pose proof (Z.div_mod z 16 ltac:(lia)) as E; destruct (Z.eqb_spec (z / 16) 0) as [E0|E0].
  - exists (n + 1). rewrite read_hex_digit by done. f_equal. lia.
  - change (16 ^ Z.of_nat 1) with 16 in Hz. rewrite Z.div_small in E0 by done. done.
  - exists (n + 1). rewrite read_hex_digit by done. f_equal. lia.
  - destruct (IH (z / 16) (hex_digit (z mod 16) :: t) n) as [n' ->].
    { split; [apply Z.div_pos; lia|]. apply Z.div_lt_upper_bound; [lia|].
      rewrite (Nat2Z.inj_succ (S fuel)), Z.pow_succ_r in Hz by lia. lia. }
    exists (n' + 1). rewrite read_hex_digit by done. f_equal. lia.
Qed.

Lemma read_hex z : 0 <= z -> read_number 16 (hex_digits z) = Some z.
Proof.
  intros Hz. unfold read_number, hex_digits.
  destruct (read_hex_fuel (Z.to_nat (Z.log2 z)) z [] 0) as [n ->]; [|done]. split; [done|].
  destruct (Z.eq_dec z 0) as [->|]; [done|]. destruct (Z.log2_spec z ltac:(lia)) as [_ Hl].
  pose proof (Z.log2_nonneg z). rewrite Nat2Z.inj_succ, Z2Nat.id by done.
  eapply Z.lt_le_trans; [exact Hl|]. apply Z.pow_le_mono_l. lia.
Qed.

Lemma hex_digits_chars z : 0 <= z -> Forall (fun c => lower_hex c = true) (hex_digits z).
Proof.
  unfold hex_digits. generalize (S (Z.to_nat (Z.log2 z))). intros fuel.
  assert (Forall (fun c => lower_hex c = true) []) as Ht by constructor. revert z Ht. generalize (@nil Z).
  induction fuel as [|fuel IH]; intros t z Ht Hz; [done|]. cbn [hex_fuel].
  assert (Forall (fun c => lower_hex c = true) (hex_digit (z mod 16) :: t)).
  { constructor; [|done]. pose proof (Z.mod_pos_bound z 16 ltac:(lia)) as H.
    assert (z mod 16 ∈ seqZ 0 16) as Hd by (apply elem_of_seqZ; lia). revert Hd. generalize (z mod 16).
    apply Forall_forall. repeat constructor. }
  destruct (_ =? _); [done|]. apply IH; [done|]. apply Z.div_pos; lia.
Qed.

(** A fact about the hexadecimal digits is checked on the characters around
    them. *)
Lemma hex_chars (P : Z -> Prop) `{D : forall c, Decision (P c)} s :
  bool_decide (Forall (fun c => lower_hex c = true -> P c) (seqZ 48 55)) = true ->
  Forall (fun c => lower_hex c = true) s -> Forall P s.
Proof.
  intros Hb%bool_decide_eq_true H. eapply Forall_impl; [exact H|]. intros c Hc. rewrite Forall_forall in Hb.
  apply Hb; [|done]. apply elem_of_seqZ. change (in_range "0" "9" c || in_range "a" "f" c = true) in Hc.
  unfold in_range in Hc. rewrite orb_true_iff, !andb_true_iff, !Z.leb_le in Hc.
  change (hd 0 (u "0")) with 48 in Hc. change (hd 0 (u "9")) with 57 in Hc.
  change (hd 0 (u "a")) with 97 in Hc. change (hd 0 (u "f")) with 102 in Hc. lia.
Qed.

Lemma ascii_hex s : Forall (fun c => lower_hex c = true) s -> ascii_digit <$> s = s.
Proof.
  intros H. apply (hex_chars (fun c => ascii_digit c = c)) in H; [|vm_compute; reflexivity].
  induction H as [|c s Hc _ IH]; [done|]. by rewrite fmap_cons, IH, Hc.
Qed.

Lemma skip_hex s : Forall (fun c => lower_hex c = true) s -> skip_underscore s = s.
Proof.
  intros H. destruct H as [|c s Hc _]; [done|]. unfold skip_underscore. repeat case_match; subst; done.
Qed.

(** What the debugger prints for a number is read as that number. *)
Lemma int0_hex z : 0 <= z -> int0 (u "0x" ++ hex_digits z) = Some z.
Proof.
  intros Hz. pose proof (hex_digits_chars z Hz) as Hc. unfold int0, signed.
  rewrite fmap_app, (ascii_hex _ Hc). change (ascii_digit <$> u "0x") with [48; 120]. cbn [app].
  change (read_number 16 (skip_underscore (hex_digits z)) = Some z). rewrite (skip_hex _ Hc). by apply read_hex.
Qed.

(** * Markers *)

(** A marker as the script prints it, between two line ends *)
Definition marker_line (m : pystr * list (pystr * Z)) : pystr :=
  join [32] (u "TRACE" :: m.1 :: ((fun '(key, z) => key ++ u "=0x" ++ hex_digits z) <$> m.2)).
Definition debugger_text (ms : list (pystr * list (pystr * Z))) : pystr :=
  join [newline] (mjoin ((fun m => [[]; marker_line m]) <$> ms)) ++ [newline].
Definition values_of (m : pystr * list (pystr * Z)) : pystr * record := (m.1, (fun '(k, z) => (k, DInt z)) <$> m.2).

(** A name and keys that are one word each, and values that are not negative *)
Definition printable (m : pystr * list (pystr * Z)) : Prop :=
  solid m.1 /\ NoDup m.2.*1 /\ Forall (fun '(k, z) => solid k /\ 61 ∉ k /\ 0 <= z) m.2.

Lemma add_value_hex values k z : 61 ∉ k -> 0 <= z ->
  add_value values (k ++ u "=0x" ++ hex_digits z) = Ok (dict_set k (DInt z) values).
Proof.
  intros Hk Hz. unfold add_value. change (u "=") with [61]. change (u "=0x") with ([61] ++ u "0x").
  rewrite <-app_assoc. change ([61] ++ ?x) with (61 :: x). rewrite cut_char by done.
  by rewrite int0_hex.
Qed.

Lemma dict_set_new {A} k (v : A) d : k ∉ d.*1 -> dict_set k v d = d ++ [(k, v)].
Proof.
  induction d as [|[k' v'] d IH]; cbn; [done|]. intros [H1 H2]%not_elem_of_cons.
  rewrite bool_decide_false by done. by rewrite IH.
Qed.

Lemma add_values kvs : Forall (fun '(k, z) => solid k /\ 61 ∉ k /\ 0 <= z) kvs ->
  forall values, NoDup (values.*1 ++ kvs.*1) ->
  foldM add_value values ((fun '(key, z) => key ++ u "=0x" ++ hex_digits z) <$> kvs) =
    Ok (values ++ ((fun '(k, z) => (k, DInt z)) <$> kvs)).
Proof.
  induction 1 as [|[k z] kvs (_ & Hk & Hz) _ IH]; intros values Hn; cbn [fmap list_fmap foldM].
  { by rewrite app_nil_r. }
  rewrite add_value_hex by done. cbn [mbind result_bind].
  rewrite dict_set_new.
  - rewrite IH.
    + by rewrite <-app_assoc.
    + by rewrite fmap_app, <-app_assoc.
  - cbn in Hn. apply NoDup_app in Hn as (_ & Hn & _). intros H. apply (Hn k H). left.
Qed.

Lemma hex_solid k z : solid k -> 0 <= z -> solid (k ++ u "=0x" ++ hex_digits z).
Proof.
  intros [Hn Hk] Hz. split; [by destruct k|]. apply Forall_app. split; [done|]. apply Forall_app. split.
  - repeat constructor.
  - apply (hex_chars (fun c => isspace c = false)); [vm_compute; reflexivity|]. by apply hex_digits_chars.
Qed.

Lemma marker_words m : printable m -> words (marker_line m) =
  u "TRACE" :: m.1 :: ((fun '(key, z) => key ++ u "=0x" ++ hex_digits z) <$> m.2).
Proof.
  intros (Hn & _ & Hv). apply words_join. constructor; [by repeat constructor|]. constructor; [done|].
  apply Forall_fmap. eapply Forall_impl; [exact Hv|]. intros [k z] (? & _ & ?). by apply hex_solid.
Qed.

Lemma marker_read m : printable m -> marker_of (marker_line m) = Ok (values_of m).
Proof.
  intros Hm. unfold marker_of. rewrite marker_words by done. destruct Hm as (_ & Hd & Hv).
  change (drop 2 (?a :: ?b :: ?l)) with l. by rewrite (add_values _ Hv []).
Qed.

Lemma join_unbroken ws : Forall solid ws -> Forall (fun c => is_linebreak c = false) (join [32] ws).
Proof.
  intros H. assert (forall w, solid w -> Forall (fun c => is_linebreak c = false) w) as K.
  { intros w [_ Hw]. eapply Forall_impl; [exact Hw|]. intros c Hc. apply not_true_is_false.
    intros ?%linebreak_space. congruence. }
  induction H as [|w ws Hw _ IH]; [constructor|]. destruct ws; cbn [join]; [auto|].
  apply Forall_app. split; [auto|]. by constructor.
Qed.

Lemma marker_line_start m : startswith (marker_line m) (u "TRACE ") = true.
Proof. unfold marker_line. cbn [join]. change (u "TRACE ") with (u "TRACE" ++ [32]). rewrite app_assoc. apply startswith_app. Qed.

Lemma marker_lines_kept ms :
  filter (fun line => startswith line (u "TRACE ") = true) (mjoin ((fun m => [[]; marker_line m]) <$> ms)) =
  marker_line <$> ms.
Proof.
  induction ms as [|m ms IH]; [done|]. cbn [fmap list_fmap mjoin list_join app].
  rewrite filter_cons_False by done. rewrite filter_cons_True by apply marker_line_start. f_equal. exact IH.
Qed.

(** The markers the script prints are read back as they were: their order,
    their names, and under every key the number that was printed in base 16. *)
Theorem markers_round_trip ms :
  Forall printable ms -> parse_markers (debugger_text ms) = Ok (values_of <$> ms).
Proof.
  intros H. unfold parse_markers, debugger_text. destruct ms as [|m0 ms0]; [done|].
  rewrite splitlines_lines, marker_lines_kept; [|clear -H|done].
  - apply mapR_ok. rewrite Forall2_fmap. apply Forall_Forall2_diag. eapply Forall_impl; [exact H|].
    intros m. apply marker_read.
  - induction H as [|m ms Hm _ IH]; [constructor|].
    apply Forall_cons. split; [constructor|]. apply Forall_cons. split; [|exact IH].
    destruct Hm as (Hn & _ & Hv). apply join_unbroken. constructor; [by repeat constructor|]. constructor; [done|].
    apply Forall_fmap. eapply Forall_impl; [exact Hv|]. intros [k z] (? & _ & ?). by apply hex_solid.
Qed.

(** * Samples *)

Definition sample_static : Static :=
  {| sysno := 11; unknown := 22; stub := 0x500; caller_return := 0x120; li_width := 2; ecall := 0x502; after := 0x506;
     ecall_encoding := u "00000073"; trampoline := TRAMPOLINE; trapframe := TRAPFRAME; uservec := TRAMPOLINE;
     saved := TRAMPOLINE + 0x8c; kstack := TRAMPOLINE + 0x90; kpagetable := TRAMPOLINE + 0xa4; advanced := 0x80001c2c;
     userret := TRAMPOLINE + 0xb0; user_satp := TRAMPOLINE + 0xb8; restored := TRAMPOLINE + 0x140 |}.

(** The markers of a call, with the number and the result of the scenario *)
Definition sample_markers (mutate : bool) : list (pystr * list (pystr * Z)) :=
  let s := sample_static in
  let num := if mutate then unknown s else sysno s in
  let result := if mutate then MASK64 else 5 in
  let user_satp_ := 0x8000000000087f4a in let kernel_satp := 0x8000000000087fff in
  let user_sp := 0x3f80 in let kernel_sp := 0x3fffffd000 in
  let m (name : string) (kvs : list (string * Z)) := (u name, ((fun '(k, z) => (u k, z)) <$> kvs : list (pystr * Z))) in
  let user pc a0 a7 := [("priv", 0); ("pc", pc); ("sp", user_sp); ("ra", caller_return s); ("a0", a0); ("a7", a7);
                        ("satp", user_satp_)]%string in
  let kernel pc more := ([("priv", 1); ("pc", pc); ("sp", kernel_sp); ("satp", kernel_satp)]%string ++ more)%list in
  [ m "ARMED" []; m "STUB" (user (stub s) 3 7); m "ECALL_BEFORE" (user (ecall s) 3 11); m "ECALL" (user (ecall s) 3 num);
    m "USERVEC" [("priv", 1); ("pc", uservec s); ("sp", user_sp); ("satp", user_satp_); ("sepc", ecall s); ("scause", 8);
                 ("sstatus", 0x20); ("stvec", uservec s)];
    m "SAVED" [("priv", 1); ("pc", saved s); ("sp", user_sp); ("satp", user_satp_); ("tf_sp", user_sp); ("tf_a0", 3);
               ("tf_a7", num)];
    m "KSTACK" [("priv", 1); ("pc", kstack s); ("sp", kernel_sp); ("satp", user_satp_)];
    m "KPAGETABLE" (kernel (kpagetable s) []);
    m "USERTRAP" (kernel 0x80001bd8 [("sepc", ecall s); ("scause", 8); ("sstatus", 0x20)]);
    m "ADVANCED" (kernel (advanced s) [("sepc", ecall s); ("scause", 8); ("sstatus", 0x20); ("tf_epc", after s);
                  ("tf_a7", num)]);
    m "SYSCALL" (kernel 0x80002100 [("pid", 5); ("tf_epc", after s); ("tf_a0", 3); ("tf_a7", num)]) ]%string ++
  (if mutate then [] else [m "HANDLER" (kernel 0x80002300 [("pid", 5)])]%string) ++
  [ m "PREPARE" (kernel 0x80001b00 [("pid", 5); ("handler_hits", if mutate then 0 else 1); ("tf_epc", after s);
                 ("tf_a0", result); ("tf_a7", num)]);
    m "USERRET" (kernel (userret s) [("target_satp", user_satp_); ("sepc", after s); ("sstatus", 0x20)]);
    m "USER_SATP" [("priv", 1); ("pc", user_satp s); ("sp", kernel_sp); ("satp", user_satp_)];
    m "RESTORED" [("priv", 1); ("pc", restored s); ("sp", user_sp); ("a0", result); ("a7", num); ("satp", user_satp_);
                  ("sepc", after s)];
    m "AFTER" (user (after s) result num); m "DONE" [] ]%string.

Definition sample_console : pystr := u "usertests starting" ++ [newline] ++ u "5 usertests: unknown sys call 22" ++ [newline].

#[local] Instance solid_decision w : Decision (solid w).
Proof. unfold solid. apply _. Defined.
#[local] Instance printable_decision m : Decision (printable m).
Proof. unfold printable. assert (forall kz : pystr * Z, Decision (let '(k, z) := kz in solid k /\ 61 ∉ k /\ 0 <= z)) by (intros []; apply _). apply _. Defined.
Lemma sample_printable mutate : Forall printable (sample_markers mutate).
Proof. destruct mutate; refine (proj1 (bool_decide_eq_true _) _); vm_compute; reflexivity. Qed.

Lemma markers_round_trip_witness :
  parse_markers (debugger_text (sample_markers false)) = Ok (values_of <$> sample_markers false).
Proof. apply markers_round_trip. exact (sample_printable false). Defined.

(** * The round trip *)

Lemma points_of_spec ms : NoDup ms.*1 -> points_of ms = ms.
Proof.
  enough (forall d, NoDup (d.*1 ++ ms.*1) -> foldl (fun d '(name, values) => dict_set name values d) d ms = d ++ ms) as K.
  { intros H. by apply (K []). }
  induction ms as [|[name values] ms IH]; intros d H; cbn [foldl]; [by rewrite app_nil_r|].
  rewrite dict_set_new.
  - rewrite IH; rewrite ?fmap_app, <-app_assoc; done.
  - cbn in H. apply NoDup_app in H as (_ & H & _). intros Hn. apply (H name Hn). left.
Qed.

Lemma names_distinct mutate : NoDup (u <$> expected_names mutate).
Proof. destruct mutate; refine (proj1 (bool_decide_eq_true _) _); vm_compute; reflexivity. Qed.

(** One value per point *)
Ltac merge_points :=
  repeat match goal with
  | H : point ?ps ?n ?k = Ok ?x, H' : point ?ps ?n ?k = Ok ?y |- _ =>
      rewrite H in H'; first [is_var y; injection H' as <- | is_var x; injection H' as -> | clear H']
  end.

Lemma modes ps mutate : check_privilege mutate ps = Ok tt ->
  Forall (fun n => point ps n "priv" = Ok (DInt 0)) user_points /\
  Forall (fun n => point ps n "priv" = Ok (DInt 1)) (supervisor_points mutate).
Proof.
  unfold check_privilege. intros H. apply bind_ok in H as (us & Hu & H). apply bind_ok in H as (ss & Hs & _).
  split; apply Forall_forall; intros n Hn.
  - destruct (mapR_each _ _ _ _ Hu Hn) as ([] & K). facts. done.
  - destruct (mapR_each _ _ _ _ Hs Hn) as ([] & K). facts. done.
Qed.

(** The registers [keys] have the same values at two points; a register has
    different values. *)
Definition kept (ps : points) (a b : string) (keys : list string) : Prop :=
  Forall (fun k => exists x, point ps a k = Ok x /\ point ps b k = Ok x) keys.
Definition differs (ps : points) (a b key : string) : Prop :=
  exists x y, point ps a key = Ok x /\ point ps b key = Ok y /\ x <> y.

Ltac settle := inv_ok; facts; merge_points; unfold kept, differs; rewrite ?Forall_cons; split_and!; eauto 10.

Section accepted.
Context (static : Static) (mutate : bool) (ps : points) (num res : Z) (console : pystr).
Hypothesis accepted : check_points static mutate ps num res console = Ok tt.

(** The user side: what is restored, and where the program goes on *)
Lemma accepted_return :
  kept ps "ECALL" "AFTER" ["sp"; "ra"; "satp"; "a7"]%string /\ point ps "ECALL" "pc" = Ok (DInt (ecall static)) /\
  point ps "ECALL" "a7" = Ok (DInt num) /\ point ps "AFTER" "pc" = Ok (DInt (after static)) /\
  point ps "AFTER" "a0" = Ok (DInt res).
Proof using accepted.
  unfold check_points, check_ecall, check_restored in accepted. inv_ok.
  match goal with H : mapR _ _ = Ok _ |- _ => cbn [mapR] in H end. settle.
Qed.

(** The kernel side: its stack and page table, from the entry to the return *)
Lemma accepted_switch :
  differs ps "KSTACK" "ECALL" "sp" /\
  Forall (fun n => kept ps "KSTACK" n ["sp"]%string) ["KPAGETABLE"; "USERTRAP"; "USERRET"; "USER_SATP"]%string /\
  differs ps "KPAGETABLE" "ECALL" "satp" /\
  Forall (fun n => kept ps "KPAGETABLE" n ["satp"]%string) ["USERTRAP"; "USERRET"]%string.
Proof using accepted.
  unfold check_points, check_switch, check_usertrap, check_userret, check_restored in accepted. settle.
Qed.

(** The trap frame: what is saved, and the instruction to return to *)
Lemma accepted_frame :
  (exists sp a0, point ps "ECALL" "sp" = Ok sp /\ point ps "SAVED" "tf_sp" = Ok sp /\ point ps "ECALL" "a0" = Ok a0 /\
     point ps "SAVED" "tf_a0" = Ok a0 /\ point ps "SYSCALL" "tf_a0" = Ok a0) /\
  Forall (fun n => point ps n "tf_a7" = Ok (DInt num)) ["SAVED"; "ADVANCED"; "SYSCALL"; "PREPARE"]%string /\
  Forall (fun n => point ps n "tf_epc" = Ok (DInt (after static))) ["ADVANCED"; "SYSCALL"; "PREPARE"]%string /\
  point ps "PREPARE" "tf_a0" = Ok (DInt res).
Proof using accepted.
  unfold check_points, check_switch, check_usertrap, check_dispatch in accepted. settle.
Qed.

(** One process, with the handler called once or not at all *)
Lemma accepted_process : exists pid, 0 < pid /\
  point ps "SYSCALL" "pid" = Ok (DInt pid) /\ point ps "PREPARE" "pid" = Ok (DInt pid) /\
  point ps "PREPARE" "handler_hits" = Ok (DInt (if mutate then 0 else 1)) /\
  if mutate then exists g, re_finditer diagnostic_re console = [g] /\
      int_decimals (default [] (group g 1)) = Ok pid /\ int_decimals (default [] (group g 2)) = Ok (unknown static)
  else point ps "HANDLER" "pid" = Ok (DInt pid) /\ re_finditer diagnostic_re console = [].
Proof using accepted.
  unfold check_points, check_dispatch, check_diagnostics in accepted. destruct mutate.
  - destruct (re_finditer _ _) as [|g [|]]; [by inv_ok| |by inv_ok]. inv_ok. facts. merge_points. to_prop. simplify_eq.
    eexists. split_and!; eauto.
  - inv_ok. facts. merge_points. to_prop. eexists. split_and!; eauto.
Qed.
End accepted.

(** What the program sees of a call, and what the kernel does meanwhile *)
Record round_trip (static : Static) (mutate : bool) (console : pystr) (ps : points) : Prop := {
  rt_names : ps.*1 = u <$> expected_names mutate;
  rt_modes : Forall (fun n => point ps n "priv" = Ok (DInt 0)) user_points /\
             Forall (fun n => point ps n "priv" = Ok (DInt 1)) (supervisor_points mutate);
  rt_call : point ps "ECALL" "pc" = Ok (DInt (ecall static)) /\
            point ps "ECALL" "a7" = Ok (DInt (if mutate then unknown static else sysno static));
  rt_kept : kept ps "ECALL" "AFTER" ["sp"; "ra"; "satp"; "a7"]%string;
  rt_next : Forall (fun n => point ps n "tf_epc" = Ok (DInt (after static))) ["ADVANCED"; "SYSCALL"; "PREPARE"]%string /\
            point ps "AFTER" "pc" = Ok (DInt (after static));
  rt_switch : differs ps "KSTACK" "ECALL" "sp" /\
    Forall (fun n => kept ps "KSTACK" n ["sp"]%string) ["KPAGETABLE"; "USERTRAP"; "USERRET"; "USER_SATP"]%string /\
    differs ps "KPAGETABLE" "ECALL" "satp" /\
    Forall (fun n => kept ps "KPAGETABLE" n ["satp"]%string) ["USERTRAP"; "USERRET"]%string;
  rt_result : exists pid, 0 < pid /\ point ps "SYSCALL" "pid" = Ok (DInt pid) /\
    point ps "AFTER" "a0" = Ok (DInt (if mutate then MASK64 else pid)) /\
    point ps "PREPARE" "handler_hits" = Ok (DInt (if mutate then 0 else 1)) /\
    if mutate then exists g, re_finditer diagnostic_re console = [g] /\
        int_decimals (default [] (group g 1)) = Ok pid /\ int_decimals (default [] (group g 2)) = Ok (unknown static)
    else point ps "HANDLER" "pid" = Ok (DInt pid) /\ re_finditer diagnostic_re console = [] }.



(** The other scenario *)
Example sample_normal : is_ok (SyscallTrace.validate_trace sample_static false (debugger_text (sample_markers false)) []) = true.
Proof. vm_compute. reflexivity. Qed.

(** * Exceptions *)

Definition numeric (r : record) : Prop := Forall (fun kv => exists z, kv.2 = DInt z) r.

Lemma dict_set_numeric k z r : numeric r -> numeric (dict_set k (DInt z) r).
Proof. induction 1 as [|[k' v] r Hv Hr IH]; cbn; [|case_bool_decide]; repeat constructor; eauto. Qed.

Lemma marker_numeric line m : marker_of line = Ok m -> numeric m.2.
Proof.
  unfold marker_of. intros H. inv_ok. cbn [snd].
  refine (foldM_inv _ (fun _ r => numeric r) _ [] _ _ _ E0); [constructor|].
  intros _ item r r' _ Hr Hi. unfold add_value in Hi. destruct (cut _ _) as [[]|]; inv_ok; [|done].
  by apply dict_set_numeric.
Qed.

Lemma lookup_dict_numeric (ps : points) k r d :
  Forall (fun m => numeric m.2) d -> Forall (fun m => numeric m.2) ps ->
  lookup_key k (foldl (fun d '(name, values) => dict_set name values d) d ps) = Some r -> numeric r.
Proof.
  intros Hd Hps. revert d Hd. induction Hps as [|[n v] ps Hv _ IH]; intros d Hd; cbn [foldl].
  - intros H%lookup_key_Some. rewrite Forall_forall in Hd. by apply (Hd (k, r)).
  - apply IH. clear -Hd Hv. cbn in Hv. induction Hd as [|[k' v'] d Hx Hd IHd]; cbn; [|case_bool_decide]; repeat constructor; auto.
Qed.

(** What leaves the oracle *)
Definition trace_error (e : exn) : Prop :=
  match e with LabError _ | KeyError | IndexError | ValueError => True | _ => False end.

Section errors.
Context (ps : points) (numbers : forall n k x, point ps n k = Ok x -> exists z, x = DInt z).

Lemma point_raises n k : raises trace_error (point ps n k).
Proof. unfold point, fetch. apply raises_bind; [by apply raises_of_option|]. intros. by apply raises_of_option. Qed.
Lemma point_arith f n k z : raises trace_error (arith f (point ps n k) (Ok (DInt z))).
Proof using numbers.
  apply raises_bind; [apply point_raises|]. intros x Hx. destruct (numbers _ _ _ Hx) as [y ->]. apply raises_ok.
Qed.
Lemma point_gt n k z : raises trace_error (gtR (point ps n k) (Ok (DInt z))).
Proof using numbers.
  apply raises_bind; [apply point_raises|]. intros x Hx. destruct (numbers _ _ _ Hx) as [y ->]. apply raises_ok.
Qed.

Ltac conditions :=
  repeat first [ apply raises_requireR; [|exact I] | apply raises_require; exact I | apply raises_eqR | apply raises_neR
               | apply point_raises | apply point_arith | apply point_gt | apply raises_ok
               | apply raises_mapR; intros ? | apply raises_bind; [|intros ? _] ].

Lemma decimals_raise s : raises trace_error (int_decimals s).
Proof. unfold int_decimals. by destruct (_ <? _)%nat; [apply raises_raise|apply raises_ok]. Qed.

Lemma check_points_raises static mutate num res console :
  raises trace_error (check_points static mutate ps num res console).
Proof using numbers.
  unfold check_points, check_ecall, check_uservec, check_switch, check_usertrap, check_dispatch, check_userret,
    check_restored, check_diagnostics.
  conditions; destruct mutate; conditions.
  destruct (re_finditer _ _) as [|? []]; try by apply raises_raise. conditions; apply decimals_raise.
Qed.
Lemma check_privilege_raises mutate : raises trace_error (check_privilege mutate ps).
Proof. unfold check_privilege. conditions. Qed.
End errors.

Lemma parse_markers_raises gdb : raises trace_error (parse_markers gdb).
Proof.
  apply raises_mapR. intros line. unfold marker_of. apply raises_bind; [by apply raises_of_option|]. intros name _.
  apply raises_bind; [|intros; apply raises_ok]. apply raises_foldM. intros r item. unfold add_value.
  destruct (cut _ _) as [[]|]; [|apply raises_ok]. apply raises_bind; [by apply raises_of_option|].
  intros. apply raises_ok.
Qed.

Lemma points_numeric gdb ms n k x :
  parse_markers gdb = Ok ms -> point (points_of ms) n k = Ok x -> exists z, x = DInt z.
Proof.
  intros Hms H. unfold point in H. apply bind_ok in H as (a & Ha & H). unfold fetch in H.
  destruct (lookup_key (u n) _) as [r|] eqn:E; [|done]. injection Ha as ->. inv_ok.
  assert (numeric a) as Hn.
  { eapply (lookup_dict_numeric ms _ _ []); [constructor| |exact E]. apply mapR_ok in Hms.
    clear -Hms. induction Hms; constructor; [by eapply marker_numeric|done]. }
  apply lookup_key_Some in E0. unfold numeric in Hn. rewrite Forall_forall in Hn. destruct (Hn _ E0) as [z Hz]. by exists z.
Qed.

(** The oracle of the trace ends with its own error, or with a missing
    field, a marker without a name or a value that is not a number: never with
    another exception. *)
Theorem trace_errors static mutate gdb console e :
  SyscallTrace.validate_trace static mutate gdb console = Raise e -> trace_error e.
Proof.
  revert e. change (raises trace_error (SyscallTrace.validate_trace static mutate gdb console)).
  unfold SyscallTrace.validate_trace. apply raises_bind; [apply parse_markers_raises|].
  intros ms Hms. apply raises_bind; [by apply raises_require|]. intros _ _.
  pose proof (fun n k x => points_numeric gdb ms n k x Hms) as N.
  apply raises_bind; [by apply check_privilege_raises|]. intros _ _. apply raises_bind.
  { destruct mutate; [apply raises_ok|apply point_raises]. }
  intros r Hr. assert (exists z, r = DInt z) as [z ->] by (destruct mutate; [injection Hr as <-|]; eauto).
  apply raises_bind; [by apply check_points_raises|]. intros. apply raises_ok.
Qed.

Lemma trace_errors_witness :
  SyscallTrace.validate_trace sample_static true (u "TRACE ") [] = Raise IndexError /\ trace_error IndexError.
Proof.
  assert (SyscallTrace.validate_trace sample_static true (u "TRACE ") [] = Raise IndexError) as H
    by (vm_compute; reflexivity).
  split; [exact H|]. exact (trace_errors _ _ _ _ _ H).
Defined.

(** The exceptions that are not the script's own do leave the oracle. *)
Example trace_escapes :
  SyscallTrace.validate_trace sample_static true (u "TRACE STUB pc=<error>") [] = Raise ValueError /\
  SyscallTrace.validate_trace sample_static true
    (debugger_text ((fun m => (m.1, [])) <$> sample_markers true)) [] = Raise KeyError.
Proof. split; vm_compute; reflexivity. Qed.

(** * Addresses *)

Lemma next_address_in l P d a b : next_address l P d = Ok (a, b) ->
  exists i j, i ∈ l /\ j ∈ l /\ P i = true /\ a = address i /\ b = address j.
Proof.
  induction l as [|i [|j l] IH]; [done|done|]. cbn [next_address]. destruct (P i) eqn:E.
  - intros [= <- <-]. exists i, j. split_and!; [left|right; left|done..].
  - intros H%IH. destruct H as (i' & j' & ? & ? & ?). exists i', j'. split_and!; [by right|by right|naive_solver..].
Qed.

Lemma max_bound (l : list Z) z : Forall (fun n => n < foldr Z.max z l + 1) l /\ z <= foldr Z.max z l.
Proof.
  induction l as [|x l [IH1 IH2]]; cbn; [split; [constructor|lia]|]. split; [|lia].
  constructor; [lia|]. eapply Forall_impl; [exact IH1|]. cbn. lia.
Qed.

Lemma within_spec low high l i : i ∈ within low high l -> low <= address i < high.
Proof. unfold within. by intros [? _]%list_elem_of_filter. Qed.

(** The checkpoints of the two halves of the trampoline are in those halves. *)
Lemma links_within source l : kernel_links source = Ok l ->
  Forall (fun a => trampoline_link l <= a < userret_link l) [saved_link l; kstack_link l; kpagetable_link l] /\
  Forall (fun a => userret_link l <= a < userret_link l + 0x200) [user_satp_link l; sret_link l].
Proof.
  unfold kernel_links. intros H. inv_ok.
  repeat match goal with
  | H : context [let '(_, _) := ?x in _] |- _ => destruct x; inv_ok
  | H : next_address _ _ _ = Ok (_, _) |- _ =>
      apply next_address_in in H as (? & ? & ?%within_spec & ?%within_spec & _ & -> & ->)
  end.
  destruct (list_find _ _) as [[n sret]|] eqn:Es; [|done].
  apply list_find_Some in Es as (Es%list_elem_of_lookup_2%within_spec & _).
  destruct (base.filter _ _) as [|call [|]]; [done| |done]. destruct (last _); [|done]. injection H as <-.
  cbn [trampoline_link userret_link saved_link kstack_link kpagetable_link user_satp_link sret_link].
  split; repeat constructor; lia.
Qed.

(** What the addresses of a build are to each other *)
Record consistent (s : Static) : Prop := {
  st_number : sysno s = 11 /\ 11 < unknown s;
  st_stub : ecall s = stub s + li_width s /\ after s = ecall s + 4;
  st_pages : trampoline s = TRAMPOLINE /\ uservec s = TRAMPOLINE /\ trapframe s + 4096 = TRAMPOLINE;
  st_entry : Forall (fun a => TRAMPOLINE <= a < userret s) [saved s; kstack s; kpagetable s];
  st_return : Forall (fun a => userret s <= a < userret s + 0x200) [user_satp s; restored s] }.

(** C32: the addresses of an accepted build fit together. The call has number
    11, and the number of the failing scenario is above every number the header
    defines; the stub returns four bytes after its [ecall]; and every checkpoint
    of the entry and of the return, moved to where the trampoline is mapped, is
    inside its half of it. *)
Theorem static_consistent alphanumeric source s :
  analyze_static alphanumeric source = Ok s -> consistent s /\ exists header numbers,
    source "kernel/syscall.h"%string = Ok header /\ syscall_numbers alphanumeric header = Ok numbers /\
    Forall (fun n => n < unknown s) numbers.*2.
Proof.
  unfold analyze_static, call_numbers. intros H.
  apply bind_ok in H as ([x y] & Hn & H). apply bind_ok in Hn as (header & Eh & Hn).
  apply bind_ok in Hn as (numbers & En & Hn). apply bind_ok in Hn as ([] & _ & [= <- <-]).
  apply bind_ok in H as ([] & _ & H). apply bind_ok in H as ([[[li ec] ret] caller] & Hu & H).
  apply bind_ok in H as (l & Hl%links_within & [= <-]). destruct (max_bound numbers.*2 11) as [Hm Hm'].
  assert (address ret = address ec + 4) as Hret.
  { unfold user_stub in Hu. apply bind_ok in Hu as (asm & _ & Hu). destruct (block _ "getpid"); [|done].
    apply bind_ok in Hu as (l3 & _ & Hu). destruct l3 as [|? [|? [|? []]]]; try done. inv_ok. to_prop.
    destruct (block _ "reparent"); [|done]. inv_ok. destruct (next_address _ _ _) as [[]|]; [|done]. by inv_ok. }
  split; [|by eauto].
  rewrite !Forall_cons in Hl. destruct Hl as ((? & ? & ? & _) & ? & ? & _).
  constructor; cbn; unfold relocate, TRAPFRAME; rewrite ?Forall_cons; split_and!; try apply Forall_nil_2; lia.
Qed.

(** A build with the listings of the call *)
Definition sample_build (path : string) : result pystr :=
  let file lines := Ok (mjoin ((fun l => src l ++ [newline]) <$> lines)) in
  if (path =? "kernel/syscall.h")%string then
    file ["#define SYS_fork    1"; "#define SYS_getpid 11"; "#define SYS_close  21"]%string
  else if (path =? "kernel/syscall.c")%string then
    file ["[SYS_getpid]  sys_getpid,"; "if(num > 0 && num < NELEM(syscalls) && syscalls[num]) {";
          "printk(`%d %s: unknown sys call %d\n`,"]%string
  else if (path =? "kernel/riscv.h")%string then
    file ["#define PGSIZE 4096 // bytes per page"; "#define MAXVA (1L << (9 + 9 + 9 + 12 - 1))"]%string
  else if (path =? "kernel/memlayout.h")%string then
    file ["#define TRAMPOLINE (MAXVA - PGSIZE)"; "#define TRAPFRAME (TRAMPOLINE - PGSIZE)"]%string
  else if (path =? "user/usertests.asm")%string then
    file ["0000000000000100 <reparent>:"; " 11c: 3e4000ef  jal 500 <getpid>"; " 120: 89aa  mv s3,a0";
          "0000000000000500 <getpid>:"; " 500: 48ad  li a7,11"; " 502: 00000073  ecall"; " 506: 8082  ret";
          "0000000000000508 <sbrk>:"]%string
  else if (path =? "kernel/kernel.sym")%string then
    file ["0000000080007000 trampoline"; "0000000080007000 uservec"; "00000000800070b0 userret";
          "0000000080001bd8 usertrap"; "0000000080001d00 kerneltrap"]%string
  else if (path =? "kernel/kernel.asm")%string then
    file ["80001c2c: 100027f3  csrr a5,sstatus"; "80001c40: 4c0000ef  jal 80002100 <syscall>";
          "8000708c: 00853103  ld sp,8(a0)"; "80007090: 02053203  ld tp,32(a0)"; "800070a0: 18031073  csrw satp,t1";
          "800070a4: 12000073  sfence.vma"; "800070b4: 18051073  csrw satp,a0"; "800070b8: 12000073  sfence.vma";
          "80007140: 10200073  sret"]%string
  else Raise OSError.

Lemma static_consistent_witness : exists s, analyze_static (fun _ => false) sample_build = Ok s /\ consistent s.
Proof.
  eexists. assert (analyze_static (fun _ => false) sample_build = Ok _) as H by (vm_compute; reflexivity).
  split; [exact H|]. exact (proj1 (static_consistent _ _ _ H)).
Defined.

(** The build of the sample has the addresses of the sample trace, and the
    script rendered for it has no token left. *)
Example sample_identity : analyze_static (fun _ => false) sample_build = Ok sample_static.
Proof. vm_compute. reflexivity. Qed.
Example sample_script :
  render_gdb sample_static 1234 true (u "target remote 127.0.0.1:@PORT@; hbreak *@ECALL@; set $a7 = @UNKNOWN@") =
    Ok (u "target remote 127.0.0.1:1234; hbreak *0x502; set $a7 = 22") /\
  render_gdb sample_static 1234 true (u "hbreak *@SRET@") = Raise (LabError [T "unresolved GDB template token"]).
Proof. split; vm_compute; reflexivity. Qed.
