(* ===== verification/SysprobeLab.v ===== *)
(** The lab that adds a system call,
    [docs/xv6-tutorial/resources/add-system-call/run-lab.py]: the contracts of
    the patched sources, of the generated stub and of its listing, and the
    transcripts of the two runs. *)

From stdpp Require Import base tactics list gmap strings numbers list_numbers.
From S2P Require Import Prelude PyText PyBytes PyRegex RegexSpec PyJson PyDyn PyMarkers RecoverDocs SourceCheck.
Open Scope Z_scope.

Definition HANDWRITTEN : list string :=
  [ "kernel/syscall.c"; "kernel/syscall.h"; "kernel/sysproc.c"; "user/user.h"; "user/usertests.c"; "user/usys.pl" ].
Definition DISPATCH_PATHS : list string := [ "kernel/syscall.c"; "kernel/sysproc.c" ].

(** A literal with quotes and line ends *)
Definition quoted (s : string) : pattern := all_of (one <$> src s).
Definition gap : pattern := MStar false (MChr (fun _ => true)).
Definition blanks : pattern := star (MChr isspace).
Definition hex_lower (c : Z) : bool := in_range "0" "9" c || in_range "a" "f" c.
Definition text_end : pattern := MAt (fun _ after => match after with [] => true | _ => false end).

(** The lookahead of the expression only says where the block ends. *)
Definition symbol_block_re (symbol : string) : pattern :=
  all_of [ bol; plus (MChr hex_lower); lit " <"; lit symbol; lit ">:"; one newline; MGrp 1 gap;
           any_of [ all_of [ bol; plus (MChr hex_lower); lit " <"; plus (MChr (other ">")); lit ">:"; one newline ];
                    text_end ] ].
Definition extract_symbol_block (listing : pystr) (symbol : string) : result pystr :=
  match re_search (symbol_block_re symbol) listing with
  | Some (_, _, g) => Ok (default [] (group g 1))
  | None => Raise (LabError [T "missing disassembly symbol: "; T symbol])
  end.

Definition handler_re : pattern :=
  all_of [ lit "sys_sysprobe(void)"; gap; lit "int value;"; gap; lit "argint(0, &value);"; gap; lit "return value;" ].
Definition test_re : pattern :=
  all_of [ lit "sysprobetest(char *s)"; blanks; lit "{"; blanks; lit "int values[] = {0, 12345, -7};"; blanks;
           lit "for (int i = 0; i < sizeof(values) / sizeof(values[0]); i++) {"; blanks;
           lit "int got = sysprobe(values[i]);"; blanks; lit "if (got != values[i]) {"; blanks;
           quoted ("printf(`%s: sysprobe(%d) returned %d, expected %d\n`,"); blanks;
           lit "s, values[i], got,"; blanks; lit "values[i]);"; blanks; lit "exit(1);"; blanks; lit "}"; blanks;
           lit "}"; blanks; lit "}" ].
Definition stub_re : pattern :=
  quoted (".global sysprobe^sysprobe:^ li a7, SYS_sysprobe^ ecall^ ret^").

Record Probe : Type := { paths : list pystr; number : Z; values : list Z }.

Section Patched.
(** [str.isalnum] outside ASCII, the patched tree, the answer of git, the
    answer of the generator, and the generated file where its bytes are UTF-8 *)
Context (alphanumeric : Z -> bool) (source : string -> result pystr).
Context (numstat generated : pystr) (usys_S : option pystr).

Definition defined_numbers (header : pystr) : result (list (pystr * Z)) :=
  mapR (fun g => z ← int_decimals (default [] (group g 2)); Ok (default [] (group g 1), z))
    (re_finditer (all_of [ bol; lit "#define SYS_"; MGrp 1 (plus (MChr (word_char alphanumeric)));
                           plus (MChr isspace); MGrp 2 (plus (MChr is_decimal)); eol ]) header).

(** [max] of no number raises. *)
Definition max_number (l : list Z) : result Z :=
  match l with [] => Raise ValueError | z :: l => Ok (foldl Z.max z l) end.

Definition check_numbers (header : pystr) : result () :=
  numbers ← defined_numbers header;
  require (bool_decide ((u "sysprobe", 22) ∈ numbers)) [T "SYS_sysprobe must be 22"];;
  require (bool_decide (NoDup numbers.*2)) [T "syscall number reused"];;
  highest ← max_number (filter (fun e => e.1 <> u "sysprobe") numbers).*2;
  require (highest =? 21) [T "22 is not next"].

Definition check_kernel (syscall_source handler : pystr) : result () :=
  require (times syscall_source "extern uint64 sys_sysprobe(void);" =? 1) [T "sys_sysprobe extern is not unique"];;
  require (bool_decide (length (re_finditer (all_of [lit "[SYS_sysprobe]"; plus (MChr isspace); lit "sys_sysprobe"])
                                  syscall_source) = 1%nat))
    [T "sysprobe dispatch entry is not unique"];;
  require (has syscall_source "num > 0 && num < NELEM(syscalls) && syscalls[num]") [T "safe dispatch guard changed"];;
  require (times handler "sys_sysprobe(void)" =? 1) [T "sys_sysprobe handler is not unique"];;
  require (found_in handler_re handler) [T "sys_sysprobe does not return argint(0) unchanged"].

Definition check_tests (tests : pystr) : result () :=
  require (times tests "sysprobetest(char *s)" =? 1) [T "sysprobe test is not unique"];;
  require (times tests "{sysprobetest, `sysprobe`}" =? 1) [T "sysprobe quicktests registration is not unique"];;
  require (found_in test_re tests) [T "sysprobe test must call and compare all three int probes"].

(** The listing of the stub, after the build *)
Definition check_listing : result () :=
  listing ← source "user/usertests.asm";
  block ← extract_symbol_block listing "sysprobe";
  let edge := word_boundary alphanumeric in
  require (found_in (all_of [edge; lit "li"; plus (MChr isspace); lit "a7,22"; edge]) block)
    [T "stub does not load syscall 22"];;
  require (found_in (word alphanumeric "ecall") block) [T "stub lacks ecall"];;
  require (found_in (word alphanumeric "ret") block) [T "stub lacks ret"].

Definition analyze_final : result Probe :=
  paths ← numstat_paths "unexpected patch numstat line: " numstat;
  require (same_set paths (u <$> HANDWRITTEN)) [T "patch paths differ: "; Elided];;
  require (bool_decide (u "user/usys.S" ∉ paths)) [T "generated user/usys.S entered the patch"];;
  sources ← read_all source HANDWRITTEN;
  user_h ← source_of sources "user/user.h";
  require (times user_h "int sysprobe(int);" =? 1) [T "sysprobe user declaration is not unique"];;
  usys_pl ← source_of sources "user/usys.pl";
  require (times usys_pl "entry(`sysprobe`);" =? 1) [T "sysprobe generator entry is not unique"];;
  header ← source_of sources "kernel/syscall.h";
  check_numbers header;;
  syscall_source ← source_of sources "kernel/syscall.c";
  handler ← source_of sources "kernel/sysproc.c";
  check_kernel syscall_source handler;;
  tests ← source_of sources "user/usertests.c";
  check_tests tests;;
  require (bool_decide (usys_S = Some generated)) [T "usys replay differs"];;
  require (found_in stub_re generated) [T "generated sysprobe stub contract is incomplete"];;
  check_listing;;
  Ok {| paths := sorted_strs paths; number := 22; values := [0; 12345; -7] |}.

Definition require_boundary_source : result () :=
  mapR (fun path => content ← source path;
                    require (lacks content "sys_sysprobe") [T "boundary still has dispatch code in "; T path])
    DISPATCH_PATHS;;
  header ← source "kernel/syscall.h";
  require (has header "SYS_sysprobe 22") [T "boundary lost syscall number"];;
  usys_pl ← source "user/usys.pl";
  require (has usys_pl "entry(`sysprobe`);") [T "boundary lost generated stub input"].
End Patched.

(** * Transcripts *)

Definition boundary_re : pattern :=
  all_of [ quoted ("usertests sysprobe^usertests starting^test sysprobe: ");
           MGrp 1 (MCat (MChr (in_range "1" "9")) (star (MChr (in_range "0" "9"))));
           quoted (" usertests: unknown sys call 22^sysprobe: sysprobe(0) returned -1, expected 0^");
           quoted ("FAILED^SOME TESTS FAILED^$ ") ].
(** The run without the dispatch: the process that made the call *)
Definition boundary_run (transcript : pystr) : result Z :=
  match re_full boundary_re transcript with
  | Some g => int_decimals (default [] (group g 1))
  | None => Raise (LabError [T "unexpected boundary transcript:"; Elided])
  end.
Definition final_run (transcript : pystr) : result () :=
  require (bool_decide (transcript = src "usertests sysprobe^usertests starting^test sysprobe: OK^ALL TESTS PASSED^$ "))
    [T "unexpected final transcript:"; Elided].

(** The output of a driver that ended with status [returncode] *)
Definition driver_output (returncode : Z) (output : pystr) : result () :=
  require (returncode =? 0) [T "driver failed: "; Elided];;
  require (bool_decide (length (re_finditer (all_of [bol; lit "ALL TESTS PASSED"; eol]) output) = 1%nat))
    [T "driver completion marker mismatch: "; Elided];;
  require (lacks output "SOME TESTS FAILED") [T "driver reported failure: "; Elided];;
  require (lacks output "unknown sys call 22") [T "driver hit unknown sysprobe: "; Elided].

(** * Properties

    What the lab that adds a system call guarantees of the number it takes and
    of the run in which the call is not yet dispatched. *)

(** * The number *)

Lemma max_number_spec l z : max_number l = Ok z -> z ∈ l /\ Forall (fun x => x <= z) l.
Proof.
  destruct l as [|x l]; [done|]. intros [= <-]. induction l as [|y l IH] using rev_ind; cbn.
  - split; [left|]. repeat constructor. lia.
  - rewrite foldl_snoc. destruct IH as [IH1 IH2]. split.
    + destruct (Z.max_spec (foldl Z.max x l) y) as [[_ ->]|[_ ->]]; set_solver.
    + change (x :: l ++ [y]) with ((x :: l) ++ [y]). apply Forall_app. split; [|repeat constructor; lia].
      eapply Forall_impl; [exact IH2|]. cbn. lia.
Qed.

(** The new number is free, and next to the highest one. *)
Record next_number (numbers : list (pystr * Z)) : Prop := {
  nn_new : (u "sysprobe", 22) ∈ numbers;
  nn_free : forall name, (name, 22) ∈ numbers -> name = u "sysprobe";
  nn_unique : NoDup numbers.*2;
  nn_below : forall name v, (name, v) ∈ numbers -> name <> u "sysprobe" -> v <= 21;
  nn_next : exists name, (name, 21) ∈ numbers /\ name <> u "sysprobe" }.

Lemma check_numbers_spec alphanumeric header : check_numbers alphanumeric header = Ok tt ->
  exists numbers, defined_numbers alphanumeric header = Ok numbers /\ next_number numbers.
Proof.
  unfold check_numbers. intros H. inv_ok. to_prop. eexists. split; [done|].
  apply max_number_spec in E2 as [Hin Hle]. subst.
  assert (forall name v, (name, v) ∈ a -> name <> u "sysprobe" -> v <= 21) as Hb.
  { intros name v Hv Hn. rewrite Forall_forall in Hle. apply Hle.
    apply (list_elem_of_fmap_2 snd _ (name, v)), list_elem_of_filter. done. }
  constructor; try done.
  - intros name Hn. destruct (decide (name = u "sysprobe")); [done|]. apply Hb in Hn; [lia|done].
  - apply list_elem_of_fmap in Hin as ([name v] & Ev & [? ?]%list_elem_of_filter). cbn in Ev. subst. eauto.
Qed.

(** C40: where the patched sources are accepted, the patch changes exactly the
    six files, and the number of the new call is free and follows the highest
    of the others; the generated stub is the one the generator prints. *)
Theorem sysprobe_next alphanumeric source numstat generated usys_S r :
  analyze_final alphanumeric source numstat generated usys_S = Ok r ->
  usys_S = Some generated /\
  (exists ps, numstat_paths "unexpected patch numstat line: " numstat = Ok ps /\
     forall p, p ∈ ps <-> p ∈ u <$> HANDWRITTEN) /\
  exists header numbers, (sources ← read_all source HANDWRITTEN; source_of sources "kernel/syscall.h") = Ok header /\
    defined_numbers alphanumeric header = Ok numbers /\ next_number numbers.
Proof.
  unfold analyze_final. intros H.
  apply bind_ok in H as (ps & Hps & H). apply bind_ok in H as ([] & Hset & H). apply require_ok in Hset.
  apply bind_ok in H as ([] & _ & H). apply bind_ok in H as (sources & Hs & H).
  do 4 (apply bind_ok in H as (? & _ & H)).
  apply bind_ok in H as (header & Hh & H). apply bind_ok in H as ([] & (numbers & Hn & Hx)%check_numbers_spec & H).
  do 5 (apply bind_ok in H as (? & _ & H)). apply bind_ok in H as ([] & Hu & _). apply require_ok in Hu. to_prop.
  split_and!; [done| |].
  - exists ps. split; [done|]. by apply same_set_iff.
  - exists header, numbers. by rewrite Hs.
Qed.

Definition sample_patched (path : string) : result pystr :=
  let file lines := Ok (mjoin ((fun l => src l ++ [newline]) <$> lines)) in
  if (path =? "user/user.h")%string then file ["int sysprobe(int);"]%string
  else if (path =? "user/usys.pl")%string then file ["entry(`sysprobe`);"]%string
  else if (path =? "kernel/syscall.h")%string then
    file ["#define SYS_fork    1"; "#define SYS_close  21"; "#define SYS_sysprobe 22"]%string
  else if (path =? "kernel/syscall.c")%string then
    file ["extern uint64 sys_sysprobe(void);"; "[SYS_sysprobe] sys_sysprobe,";
          "if(num > 0 && num < NELEM(syscalls) && syscalls[num]) {"]%string
  else if (path =? "kernel/sysproc.c")%string then
    file ["sys_sysprobe(void)"; "{"; "  int value;"; "  argint(0, &value);"; "  return value;"; "}"]%string
  else if (path =? "user/usertests.c")%string then
    file ["sysprobetest(char *s)"; "{"; "  int values[] = {0, 12345, -7};";
          "  for (int i = 0; i < sizeof(values) / sizeof(values[0]); i++) {"; "    int got = sysprobe(values[i]);";
          "    if (got != values[i]) {"; "      printf(`%s: sysprobe(%d) returned %d, expected %d\n`, s, values[i], got,";
          "        values[i]);"; "      exit(1);"; "    }"; "  }"; "}"; "{sysprobetest, `sysprobe`},"]%string
  else if (path =? "user/usertests.asm")%string then
    file ["0000000000000600 <sysprobe>:"; " 600: 48d9 li a7,22"; " 602: 00000073 ecall"; " 606: 8082 ret"]%string
  else Raise OSError.
Definition sample_stubs : pystr := src ".global sysprobe^sysprobe:^ li a7, SYS_sysprobe^ ecall^ ret^".
Definition sample_numstat : pystr := mjoin ((fun p => u "4" ++ [9] ++ u "0" ++ [9] ++ u p ++ [newline]) <$> HANDWRITTEN).

Lemma sysprobe_next_witness : exists r,
  analyze_final (fun _ => false) sample_patched sample_numstat sample_stubs (Some sample_stubs) = Ok r /\
  exists numbers : list (pystr * Z), next_number numbers.
Proof.
  eexists. assert (analyze_final (fun _ => false) sample_patched sample_numstat sample_stubs (Some sample_stubs) = Ok _)
    as H by (vm_compute; reflexivity).
  split; [exact H|]. destruct (sysprobe_next _ _ _ _ _ _ H) as (_ & _ & h & numbers & _ & _ & K). exists numbers. exact K.
Defined.

(** The check reads every definition of the name and asks for one of them to be
    22: a header that defines it again with another number is accepted. *)
Example redefinition_accepted :
  check_numbers (fun _ => false) (src "#define SYS_close 21^#define SYS_sysprobe 22^#define SYS_sysprobe 23^") = Ok tt.
Proof. vm_compute. reflexivity. Qed.

(** * The run without a dispatch entry *)

(** What the guest prints, with the numeral of the process *)
Definition boundary_text (digits : pystr) : pystr :=
  src "usertests sysprobe^usertests starting^test sysprobe: " ++ digits ++
  src " usertests: unknown sys call 22^sysprobe: sysprobe(0) returned -1, expected 0^" ++
  src "FAILED^SOME TESTS FAILED^$ ".
Lemma quoted_matches s a ga b gb : matches (quoted s) a ga b gb -> gb = ga /\ rest a = src s ++ rest b.
Proof. intros M. destruct (matches_text (src s) a ga b gb M) as [-> (H & _)]. exact (conj eq_refl H). Qed.

Lemma four_parts (r r1 r2 r3 r4 a b c d : pystr) :
  r = a ++ r1 -> r1 = b ++ r2 -> r2 = c ++ r3 -> r3 = d ++ r4 -> r4 = [] -> r = a ++ b ++ c ++ d.
Proof. intros -> -> -> -> ->. by rewrite app_nil_r. Qed.

Lemma boundary_exact transcript pid : boundary_run transcript = Ok pid ->
  exists digits, transcript = boundary_text digits /\ int_decimals digits = Ok pid.
Proof.
  unfold boundary_run. destruct (re_full _ _) as [g|] eqn:E; [|done]. intros H.
  apply re_full_sound in E as (b & M & Eb). unfold boundary_re in M.
  apply matches_seq in M as (m1 & g1 & [-> M1]%quoted_matches & M).
  apply matches_seq in M as (m2 & g2 & (w & gw & (M2 & _) & -> & _)%matches_group & M).
  apply matches_seq in M as (m3 & g3 & [-> M3]%quoted_matches & M%matches_last).
  apply quoted_matches in M as [-> M4].
  exists w. split; [|exact H]. change (rest (start_of transcript) = boundary_text w).
  exact (four_parts _ _ _ _ _ _ _ _ _ M1 M2 M3 M4 Eb).
Qed.
